(* ===== verification/_CoqProject ===== *)
-Q . S2P
Prelude.v
JsNumber.v
JsValue.v
JsonStore.v
Markup.v
Http.v
ServerUtil.v
Qargs.v
AppState.v
Paging.v
RealKey.v
KeyBlock.v
Zones.v
RrTypes.v
RrJson.v
DnsName.v
RrWire.v
RrBuild.v
RrStored.v
Permissions.v
RrRest.v
RrIndex.v
RrNames.v
RrService.v
ListServer.v
Access.v
AccountDb.v
RrForm.v
RrEdit.v
RrAdd.v
RrSession.v
RrCells.v
RrSoa.v
RrDelete.v
RrList.v
EndToEnd.v
Saving.v
RrServed.v
Shown.v
Dialogs.v
RestZone.v
Tenants.v
Accounts.v
Login.v
Sessions.v
Admin.v
Users.v
Screens.v
