(* ===== verification/Prelude.v ===== *)
(** * nsblast web UI: verification development

    nsblast is a DNS server; its web interface (src/ui/nsblast-ui/src) lists
    the zones and the record sets of a zone, and adds, edits and deletes them
    through the REST interface of the server.  This development models the
    interface's own logic and the parts of the server its correctness rests
    on: the listings, the handlers that store record sets and zones, and the
    sessions and accounts of its users with their administration.  It
    proves what the user relies on: the lists show what the server has, a saved
    form is stored as it was on screen, a deletion removes the record it names
    and nothing else, one tenant's requests leave another's zones alone, access
    is given to the users there are now, with their passwords; and
    where the code falls short of that, exactly how.

    ** How the program is modelled

    - JsNumber.v, JsValue.v, JsonStore.v: the part of JavaScript the code
      uses.  Numbers are IEEE doubles (Number(text), and the shortest decimal
      text of a number); values are primitives or references into a heap of
      plain objects and arrays, so that an object passed to a dialog is the
      object the list holds; statements are functions heap -> result * heap
      with exceptions; res.json() allocates, JSON.stringify reads the heap.
    - Http.v: an event handler as a value of [proc]: it computes on the heap,
      asks the user (window.confirm), sends a request and continues with the
      answer, or ends with the effects it has on its component.  [run] plays it
      against an [oracle] that answers; the theorems quantify over the oracle.
    - A React component is a record of its useState values, with one function
      per handler.  A handler gets the state its closure was created with
      (written c) and the current state (written s), since after an await the
      two differ.  Whole components are step functions on a system state with
      the outstanding requests, whose answers may come in any order.

    ** Files

    The user interface:
    - Qargs.v: modules/qargs.js.  AppState.v: modules/AppState.jsx.
    - Paging.v: what the lists expect of the server.  The arguments (limit,
      from, direction) are parsed as src/src/lib/RestApi.cpp does; the pages
      themselves come from the class [PageServer], with the laws
      [PageServerLaws], which hold of a reference server over a sorted list
      and of the server's handlers.
    - Zones.v (module ListZones): modules/Zones.jsx, the list with paging,
      the position saved in localStorage and the delete buttons.
    - RrTypes.v, RrForm.v: of pages/ResourceRecords.jsx the table of record
      types with its helpers, and the form that adds and edits records
      (AddRr, RrInputs, RrInputText, SelectRr, setValueInRr).  RrEdit.v and
      RrAdd.v prove what the form sends, RrSession.v follows the two dialogs
      from opening to Save, RrSoa.v does so for the SOA, whose object the
      dialog changes when it opens.
    - RrCells.v: the rows of a record set and their handlers (RrCells,
      AddRrData, deleteFqdn, deleteRr).  RrDelete.v proves what a deletion
      sends and what it leaves in the list.
    - RrList.v (module ListRrs): ListResourceRecords and AddPopup.
    - Dialogs.v: EditZone, AddFqdn and modules/PopupDialog.jsx.
    - Login.v: modules/Login.tsx, its submit and what it shows, and of the
      server the reading of basic credentials (the first half of basicAuth).
    - Markup.v: what a component renders.  Screens.v: App.tsx, RightPane.jsx,
      Navigation.tsx, Dashboard.tsx with its widgets, ErrorBoundary.jsx and the
      page of a zone with the zone it reads from its link.

    The server's listings (src/src/lib, src/include/nsblast):
    - ServerUtil.v: util.cpp and util.h (base64, case, white space,
      validateFqdn, isSameZone).
    - RealKey.v: ResourceIf::RealKey and the walk iterateFromPrevT of
      RocksDbResource.h, over the class [KvStore] of an iterator with the laws
      RocksDB documents ([KvStoreLaws], which a sorted list satisfies).
    - KeyBlock.v: getKeys, sort_json and the page made of a walk; the records
      of a tenant or a zone are consecutive in the index.
    - RrJson.v: toJson of RestApi.cpp, the JSON of a record set.
    - ListServer.v: the handlers listZones and listZone, which discharge
      [PageServerLaws].
    - EndToEnd.v: the lists of the browser over these handlers.

    The server's updates (src/src/lib, src/include/nsblast):
    - DnsName.v: writeName and parseDomainNameSegment of write_labels.hpp, the
      reading of Labels, RrSoa::fromEmail and ToEmail on what they store.
    - RrWire.v: the rdata that StorageBuilder creates for each type and the
      accessors that read it back, over the class [Addresses] of IP addresses.
    - RrBuild.v: RestApi::build, from the parsed body to the finished set.
      RrStored.v: what a listed set is stored as when it is sent back.
    - RrRest.v: the handler onResourceRecord with the lookup of a name and its
      zone (RocksDbResource::Transaction::lookupEntryAndSoa), over the index as
      a map; [Finish] is std::sort of the records, [RestLibs] what the handler
      takes from yahat and boost.  RrIndex.v: the invariant [store_ok] of the
      index, the lookup against its specification [authority], and that what
      the handler decides to write keeps the invariant.  RrService.v: the
      handler as a whole, and histories of requests.  RrNames.v: what the
      lookup needs of the names alone, for indexes that hold more than /rr
      wrote.
    - RestZone.v: the handler onZone, with the recursive remove, and the
      add-zone form over it.
    - Saving.v: the forms' requests at RestApi::build.  RrServed.v: the same at
      the handler, with the index afterwards.  Shown.v: and the list loaded
      from that index.

    Who may do it (src/src/lib/AuthMgr.h, AuthMgr.cpp, proto/nsblast.proto):
    - Permissions.v: the permissions and their bits.
    - Access.v: Session and Role, with their zone filters, from the messages of
      the tenant, and the checks isAllowed; [AuthLibs] is what they take from
      std::regex, OpenSSL and boost.
    - AccountDb.v: what the server keeps in its category of accounts, under
      keys of different classes, and how it is read and written.
    - Sessions.v: AuthMgr::authorize with the cache of sessions (Lru) and the
      check of the password, and the login form over them.
    - Tenants.v: the handlers of /rr and /zone with the checks of a session in
      the place of the argument [allowed].
    - Accounts.v: the same handlers with what they write to the accounts of the
      server (AuthMgr::addZone, deleteZone, updateZoneRrIx), the tenant of a
      request (getSessionAndTenant), and the zone list over these accounts.
    - Admin.v: the administration (AuthMgr::createTenant, upsertTenant,
      deleteTenant, bootstrap with the indexes of users and names,
      Server::resetAuth; onTenant, onRole, onUser and onPermissions of
      RestApi.cpp), over the accounts and the cache of sessions; an exception
      is a value with its HTTP status.  Users.v: what it promises.

    The lists depend on Paging through the class alone, by the hypothesis that
    the function [serve] that answers their requests is [serve_url] of such a
    server; RrList depends on RrCells and RrForm for what a row and its Edit
    button do; all requests use AppState for their address and headers.

    ** What the theorems show

    - The whole way: paging through the zone list or the record list over the
      server's index shows each zone of the tenant, each record set of the
      zone, exactly once and nothing else, with every record in its row; and
      opening a listed record of the server, with no field empty, and saving it
      unchanged sends what the server listed (EndToEnd).
    - Record sets: an edit replaces one entry and an unchanged edit sends the
      set back as it was read, unless a text in it is empty, when the browser
      keeps the form open (RrEdit); an added record ends in its array
      (RrAdd); typing in the inputs of an entry or of any type but the OpenPGP
      key sends the typed values, once none is empty (RrSession), for the SOA
      less two fields (RrSoa); a deletion sends the set less the record (RrDelete); the rows
      name the records they show (RrCells).  setValueInRr is described on every
      branch and numbers survive the text inputs.
    - Saving, the whole way: for a record set the list shows as the index has
      it, in a zone of the session's tenant, Edit, Add and Delete in the browser
      end with the changed set in the index, the zone with its next serial and
      every other name untouched, as long as each record of the set can be
      stored again ([storable]; no AAAA or PTR among them) and the targets of
      SRV have addresses (RrServed); the add-zone form ends with the zone in
      the index, with its SOA and name servers, if the server is configured
      with name servers (RestZone).
    - And back again: the list loaded from the index after the request shows
      the saved set under its name, on the page that Next leads to (Shown).
    - Tenants: whatever sessions send to /rr and /zone for names without a dot
      at their end, those of other tenants leave a tenant's names as they are,
      and what a session changes one of its roles permits (Tenants); the checks
      allow exactly what the
      roles of the tenant grant (Access); a session is only ever given for the
      password of its user, over any history of the cache, and the login form
      gets the session of the user it is filled in for (Sessions).
    - The zone list is the tenant's zones: over any history of requests for
      names without a dot at their end the accounts list, for every tenant, exactly the zones it owns in the index,
      so that paging in the browser shows these; a zone made with the add-zone
      form comes up in the list (Accounts).
    - Administration: whatever is administered but for PATCH of a tenant, the
      index of users is exact, no password is kept, and access is only given to
      a user there is at that time, with its password and its roles of that
      time, although sessions are cached; a user that was created logs in with
      its password, one that was removed does not, and a new server has an
      administrator with every permission (Users).
    - The server's updates: over any history of requests to /rr the index stays
      well formed and zones stay with their tenants; a name in a tenant's zone
      is not changed by other tenants' requests; every accepted change
      gives the name's zone its next serial, which is 0 after the last of 32
      bits; the lookup finds the nearest zone in a well-formed index (RrIndex,
      RrService); records read back as they were written,
      and a listed set that is sent back is stored as it was (RrWire, RrStored);
      names that validateFqdn accepts are those writeName writes (DnsName).
    - Lists: under any sequence of First, Prev and Next the zone list and the
      record list show one aligned page of the server's list, and paging
      forward shows everything once; a saved position is restored; loading ends
      once the answers are in; without deletions at most one request is
      outstanding; errors are final; an open dialog always has known arguments;
      Edit in a row leads to the record set of that row (Zones, RrList).
    - The server's listings: the two handlers refine the paged server the lists
      are proved against; the walk over the index ends; the JSON of a record
      set has the fields the UI's table of types expects, and holds each record
      once; validateFqdn accepts what its pattern matches; a page size is the default
      or what was asked for, up to the maximum, which does not bound the default
      (ListServer, RealKey, RrJson, ServerUtil, Paging).
    - Dialogs, login and frame: each submit handler on every branch; the modal
      follows its parent; credentials arrive at the server as entered; pages
      are guarded by the login; a failure stays inside its boundary.
    - Defects stated as theorems: Next disabled after Prev, Reload after Prev,
      a saved backward position, delete buttons bound to the wrong zone, silent
      refusals, dialogs dead after an error, records changed before the
      confirmation, duplicated records after a failed save, stale inputs after
      a change of type, the text undefined as an OpenPGP key; a listing cut
      short by a name that sorts into the zone, or failed by a PTR record;
      record sets with an IPv6 address, which cannot be saved again; mailboxes
      with two dots, stored as another address; PATCH at the apex of a zone,
      always answered with an error; records left behind by the deletion of
      their zone; a form for zones that needs name servers configured; a zone
      whose name ends with a dot, which writes over the zone of another tenant;
      filters whose regex limits nothing, and filters without a name, which
      are skipped although their role then applies to every name; inactive
      users, who log in; a zone created for another tenant, which is listed
      under the tenant of the session; the reset of the administrator, which
      always fails; users that PATCH of a tenant stores with their passwords,
      and who cannot log in; roles that give more than the tenant is allowed;
      pages of tenants with one more than their size; a name that ends with a
      dot, which is refused inside of a record but taken as the name of a zone.

    ** Bounds and fuel

    JSON.stringify and the rendering of nested entries recurse through the
    heap; they take [S (length heap)] as fuel, enough for any acyclic value
    since a path visits each object once, and running out is the exception a
    cyclic value raises in JSON.stringify.  The search for the shortest decimal
    of a number tries at most 17 digits, which suffice for a double, and its
    decimal exponent is looked for within 400 of 0, where doubles stay between
    10^-324 and 10^309.  The walk over the index takes fuel; any number above
    that of the records is enough, which is a theorem (iterateFromPrevT_ends),
    and the theorems on the handlers hold for every such number.  All other
    recursion is structural, but for the lookup of a zone, which shortens the
    name at each step and takes its length as fuel: a set that names itself as
    its zone, where the code does not end, is the value [Undefined], and a
    well-formed index has none (lookupEntryAndSoa_zone).  [Undefined] is also
    what follows a use of the local variable of an earlier call that the
    handler of rr in RestApi::build has captured.  Integers up to 2^53 are exact; std::stoi and the
    size_t arithmetic of getPageSize and base64Decode keep their widths.
    Strings are sequences of bytes; login names and passwords are code units.

    ** Not modelled

    - Console logging, styles; the second run of effects in React's StrictMode
      (index.tsx), which the zone list guards against.
    - Of the server: the listing of all tenants' zones, the DNS engine,
      replication and backup, certificates; of the updates, the log of
      differences for zone transfers and the argument wait; of tenants, roles
      and users, the free properties (key and value), which the server stores
      and never reads.  The JSON of protobuf's messages, random strings and
      UUIDs are parameters of the handlers.
    - RocksDB, behind the class [KvStore] where it is walked, and a map where it
      is written; a request's writes reach it together, when the transaction is
      committed.
    - Assertions: the model is of a build without them.  One stops a debug
      build where a serial wraps to 0 (RestApi::onResourceRecord and
      incrementSoaVersion), another where finish meets a type from 255 on.
    - Answers to the lists that are accepted and are JSON but no listing, which
      the server does not send.
    - The user's browser, but for two things it does with the record form: the
      inputs hold single lines of text, and Save sends nothing while a required
      input is empty or the button is disabled ([press_save]). *)

From Stdlib Require Export String Ascii ZArith Lia.
From stdpp Require Export base tactics list strings gmap sorting.

(** ** Scopes, hint databases and tactics *)

Declare Scope js_scope.
Delimit Scope js_scope with js.

Create HintDb js discriminated.
Create Rewrite HintDb js.

(** Case analysis on the first [match] or [if] of the goal, keeping the
    equation, and then on those of the hypotheses. *)
Ltac break_match :=
  match goal with
  | |- context [match ?x with _ => _ end] => destruct x eqn:?
  end.

Ltac break_match_in H :=
  match type of H with
  | context [match ?x with _ => _ end] => destruct x eqn:?
  end.

(** Equality of two boolean tests on naturals. *)
Ltac bool_lia :=
  apply Bool.eq_iff_eq_true;
  rewrite ?Nat.ltb_lt, ?Nat.leb_le, ?Nat.eqb_eq; lia.

(** Boolean tests on strings, naturals and integers turned into propositions. *)
Ltac reflect_tests :=
  repeat match goal with
  | H : String.eqb _ _ = true |- _ => apply String.eqb_eq in H
  | H : String.eqb _ _ = false |- _ => apply String.eqb_neq in H
  | H : Nat.eqb _ _ = true |- _ => apply Nat.eqb_eq in H
  | H : Nat.eqb _ _ = false |- _ => apply Nat.eqb_neq in H
  | H : Nat.ltb _ _ = true |- _ => apply Nat.ltb_lt in H
  | H : Nat.ltb _ _ = false |- _ => apply Nat.ltb_ge in H
  | H : Nat.leb _ _ = true |- _ => apply Nat.leb_le in H
  | H : Nat.leb _ _ = false |- _ => apply Nat.leb_gt in H
  | H : Z.ltb _ _ = true |- _ => apply Z.ltb_lt in H
  | H : Z.ltb _ _ = false |- _ => apply Z.ltb_ge in H
  | H : Z.leb _ _ = true |- _ => apply Z.leb_le in H
  | H : Z.leb _ _ = false |- _ => apply Z.leb_gt in H
  | H : andb _ _ = true |- _ => apply andb_true_iff in H as [? ?]
  | H : orb _ _ = false |- _ => apply orb_false_iff in H as [? ?]
  | H : negb _ = true |- _ => apply negb_true_iff in H
  | H : negb _ = false |- _ => apply negb_false_iff in H
  end.

(** ** Lists *)

Fixpoint take_while {A} (f : A -> bool) (l : list A) : list A :=
  match l with
  | [] => []
  | x :: l' => if f x then x :: take_while f l' else []
  end.

(** ** Strings *)

Lemma string_app_nil_l (b : string) : ("" +:+ b = b)%string.
Proof. reflexivity. Qed.

Lemma string_app_cons (c : ascii) (a b : string) :
  (String c a +:+ b = String c (a +:+ b))%string.
Proof. reflexivity. Qed.

Lemma string_app_nil_r (a : string) : (a +:+ "" = a)%string.
Proof. induction a as [|c a IH]; [done|]. by rewrite string_app_cons, IH. Qed.

Lemma string_app_assoc (a b c : string) : ((a +:+ b) +:+ c = a +:+ (b +:+ c))%string.
Proof. induction a as [|x a IH]; [done|]. by rewrite !string_app_cons, IH. Qed.

Lemma length_string_app (a b : string) : String.length (a +:+ b)%string = String.length a + String.length b.
Proof. induction a as [|c a IH]; [done|]. rewrite string_app_cons. cbn. by rewrite IH. Qed.

#[export] Hint Rewrite string_app_nil_l string_app_cons string_app_nil_r
  string_app_assoc : js.

(** [join sep l]: the Array.prototype.join of the strings [l]. *)
Fixpoint join (sep : string) (l : list string) : string :=
  match l with
  | [] => ""
  | [x] => x
  | x :: l' => (x +:+ sep +:+ join sep l')%string
  end.

(** ** Insertion-ordered dictionaries

    The own properties of a JS object: a list of key and value in insertion
    order.  Assigning an existing key keeps its place, a new key goes last. *)

Section Assoc.
Context {V : Type}.
Implicit Types (l : list (string * V)) (k : string) (v : V).

Fixpoint assoc_get k l : option V :=
  match l with
  | [] => None
  | (k', v) :: l' => if String.eqb k k' then Some v else assoc_get k l'
  end.

Fixpoint assoc_set k v l : list (string * V) :=
  match l with
  | [] => [(k, v)]
  | (k', v') :: l' => if String.eqb k k' then (k', v) :: l' else (k', v') :: assoc_set k v l'
  end.

Fixpoint assoc_del k l : list (string * V) :=
  match l with
  | [] => []
  | (k', v) :: l' => if String.eqb k k' then assoc_del k l' else (k', v) :: assoc_del k l'
  end.

Lemma assoc_get_set_eq k v l : assoc_get k (assoc_set k v l) = Some v.
Proof.
  induction l as [|[k' v'] l IH]; cbn; [by rewrite String.eqb_refl|].
  destruct (String.eqb k k') eqn:E; cbn; by rewrite E.
Qed.

Lemma assoc_get_set_ne k k' v l : k <> k' -> assoc_get k' (assoc_set k v l) = assoc_get k' l.
Proof.
  intros Hne. induction l as [|[k0 v0] l IH]; cbn.
  - destruct (String.eqb_spec k' k); congruence.
  - destruct (String.eqb_spec k k0) as [<-|]; cbn; [|by rewrite IH].
    destruct (String.eqb_spec k' k); congruence.
Qed.

Lemma assoc_get_del_eq k l : assoc_get k (assoc_del k l) = None.
Proof.
  induction l as [|[k' v'] l IH]; cbn; [done|].
  destruct (String.eqb k k') eqn:E; cbn; [done|]. by rewrite E.
Qed.

Lemma assoc_get_del_ne k k' l : k <> k' -> assoc_get k' (assoc_del k l) = assoc_get k' l.
Proof.
  intros Hne. induction l as [|[k0 v0] l IH]; cbn; [done|].
  destruct (String.eqb_spec k k0) as [<-|]; cbn; [|by rewrite IH].
  destruct (String.eqb_spec k' k); congruence.
Qed.

(** Writing back the value a key already has changes nothing. *)
Lemma assoc_set_id k v l : assoc_get k l = Some v -> assoc_set k v l = l.
Proof.
  induction l as [|[k' v'] l IH]; cbn; [done|].
  destruct (String.eqb_spec k k') as [<-|]; intros H; [by simplify_eq|]. by rewrite IH.
Qed.

Lemma assoc_set_set k v w l : assoc_set k v (assoc_set k w l) = assoc_set k v l.
Proof.
  induction l as [|[k' v'] l IH]; cbn; [by rewrite String.eqb_refl|].
  destruct (String.eqb_spec k k') as [<-|Hne]; cbn; [by rewrite String.eqb_refl|].
  destruct (String.eqb_spec k k'); [done|]. by rewrite IH.
Qed.

Lemma assoc_set_keys_old k v l :
  is_Some (assoc_get k l) -> (assoc_set k v l).*1 = l.*1.
Proof.
  induction l as [|[k' v'] l IH]; cbn; [by intros [? ?]|].
  destruct (String.eqb_spec k k'); cbn; [done|]. intros H. by rewrite IH.
Qed.

Lemma assoc_set_new k v l : assoc_get k l = None -> assoc_set k v l = l ++ [(k, v)].
Proof.
  induction l as [|[k' v'] l IH]; cbn; [done|].
  destruct (String.eqb_spec k k'); [done|]. intros H. by rewrite IH.
Qed.

Lemma assoc_get_None k l : assoc_get k l = None <-> k ∉ l.*1.
Proof.
  induction l as [|[k' v'] l IH]; cbn.
  - split; [intros _; apply not_elem_of_nil|done].
  - rewrite not_elem_of_cons. destruct (String.eqb_spec k k'); [naive_solver|].
    rewrite IH. naive_solver.
Qed.

Lemma assoc_get_elem k v l : assoc_get k l = Some v -> (k, v) ∈ l.
Proof.
  induction l as [|[k' v'] l IH]; cbn; [done|].
  destruct (String.eqb_spec k k'); intros; simplify_eq; set_solver.
Qed.

Lemma assoc_get_nodup k v l : NoDup l.*1 -> (k, v) ∈ l -> assoc_get k l = Some v.
Proof.
  induction l as [|[k' v'] l IH]; cbn; [set_solver|].
  intros [Hn Hd]%NoDup_cons [Heq|Hin]%elem_of_cons; [simplify_eq; by rewrite String.eqb_refl|].
  destruct (String.eqb_spec k k') as [<-|]; [|auto].
  destruct Hn. apply list_elem_of_fmap. by exists (k, v).
Qed.

End Assoc.

Lemma assoc_del_elem {A} k k' (v : A) l : (k', v) ∈ assoc_del k l -> (k', v) ∈ l /\ k' <> k.
Proof.
  induction l as [|[k0 v0] l IH]; cbn; [by intros ?%elem_of_nil|].
  destruct (String.eqb_spec k k0) as [->|Hne].
  - intros [H1 H2]%IH. split; [|done]. apply elem_of_cons. by right.
  - intros [[= -> ->]|Hin]%elem_of_cons; [split; [apply elem_of_cons; by left|done]|].
    destruct (IH Hin). split; [|done]. apply elem_of_cons. by right.
Qed.

Lemma assoc_del_fmap {A B} (g : string -> A -> B) k (l : list (string * A)) :
  assoc_del k ((fun kx => (kx.1, g kx.1 kx.2)) <$> l)
  = (fun kx => (kx.1, g kx.1 kx.2)) <$> assoc_del k l.
Proof.
  induction l as [|[k' x] l IH]; [done|]. cbn. destruct (String.eqb k k'); [done|].
  cbn. by rewrite IH.
Qed.

Lemma assoc_get_fmap {A B} (g : A -> B) k (l : list (string * A)) :
  assoc_get k ((fun kx => (kx.1, g kx.2)) <$> l) = g <$> assoc_get k l.
Proof. induction l as [|[k' x] l IH]; [done|]. cbn. by destruct (String.eqb k k'). Qed.

Lemma assoc_del_sublist {A} k (l : list (string * A)) : sublist (assoc_del k l) l.
Proof.
  induction l as [|[k' v] l IH]; [constructor|]. cbn. destruct (String.eqb k k'); by constructor.
Qed.

#[export] Hint Rewrite @assoc_get_set_eq @assoc_get_del_eq : js.
