(* ===== verification/JsNumber.v ===== *)
(** * JavaScript numbers

    A JS number is an IEEE-754 binary64 value, here the [spec_float] of the
    standard library at precision 53 and maximal exponent 1024.  The file
    holds the two conversions the UI relies on:

    - [Number], the StringToNumber conversion behind [Number(newVar)] and
      [newVar == 1] in castStringToType;
    - [num_to_string], the Number::toString conversion applied when a number
      is put in a template string, in the value of a text input or in JSON.

    Strings are sequences of 8-bit code units, which covers every literal of
    the sources and every name the server accepts. *)

From S2P Require Import Prelude.
From Stdlib Require Export SpecFloat.

Local Open Scope Z_scope.

Abbreviation num := spec_float.

#[global] Instance num_eq_dec : EqDecision num.
Proof. solve_decision. Defined.

(** [num_of_Z z]: the double nearest to the integer [z]. *)
Definition num_of_Z (z : Z) : num := binary_normalize 53 1024 z 0 false.

(** The double nearest to [m * 10 ^ e] ([m >= 0]), negated when [neg]. *)
Definition round_dec (neg : bool) (m e : Z) : num :=
  match m with
  | Zpos p =>
      if 0 <=? e then
        binary_normalize 53 1024 ((if neg then Z.opp else id) (m * 10 ^ e)) 0 neg
      else
        SFdiv 53 1024 (S754_finite neg p 0) (S754_finite false (Z.to_pos (10 ^ (- e))) 0)
  | _ => S754_zero neg
  end.

(** ** Number(string) *)

Definition code (c : ascii) : Z := Z.of_N (N_of_ascii c).

Definition is_space (c : ascii) : bool :=
  existsb (Z.eqb (code c)) [9; 10; 11; 12; 13; 32; 160].

Fixpoint trim_left (s : string) : string :=
  match s with
  | String c s' => if is_space c then trim_left s' else s
  | EmptyString => s
  end.

(** Trailing white space is dropped: a suffix of white space only. *)
Fixpoint trim_right (s : string) : string :=
  match s with
  | EmptyString => EmptyString
  | String c s' =>
      match trim_right s' with
      | EmptyString => if is_space c then EmptyString else String c EmptyString
      | r => String c r
      end
  end.

Definition trim (s : string) : string := trim_right (trim_left s).

(** The value of a digit in base [b] (at most 16). *)
Definition digit_val (b : Z) (c : ascii) : option Z :=
  let n := code c in
  let v :=
    if (48 <=? n) && (n <=? 57) then n - 48
    else if (97 <=? n) && (n <=? 102) then n - 87
    else if (65 <=? n) && (n <=? 70) then n - 55
    else b in
  if v <? b then Some v else None.

(** Reads the longest prefix of base-[b] digits: the accumulated value, the
    number of digits read and the rest. *)
Fixpoint take_digits (b : Z) (s : string) (acc : Z) (cnt : nat) : Z * nat * string :=
  match s with
  | String c s' =>
      match digit_val b c with
      | Some d => take_digits b s' (acc * b + d) (S cnt)
      | None => (acc, cnt, s)
      end
  | EmptyString => (acc, cnt, s)
  end.

(** The exponent part: nothing, or [e] or [E] with an optional sign and at
    least one digit; [None] when the rest is not an exponent part. *)
Definition exponent_part (s : string) : option Z :=
  match s with
  | EmptyString => Some 0
  | String c s' =>
      if (code c =? 101) || (code c =? 69) then
        let '(neg, s'') :=
          match s' with
          | String c' r =>
              if code c' =? 45 then (true, r)
              else if code c' =? 43 then (false, r) else (false, s')
          | EmptyString => (false, s')
          end in
        match take_digits 10 s'' 0 0 with
        | (v, S _, EmptyString) => Some (if neg then - v else v)
        | _ => None
        end
      else None
  end.

(** StrUnsignedDecimalLiteral, after the sign. *)
Definition unsigned_decimal (neg : bool) (s : string) : num :=
  if String.eqb s "Infinity" then S754_infinity neg else
  let '(i, ci, r1) := take_digits 10 s 0 0 in
  let '(m, cf, r2) :=
    match r1 with
    | String c r => if code c =? 46 then take_digits 10 r i 0 else (i, 0%nat, r1)
    | EmptyString => (i, 0%nat, r1)
    end in
  if Nat.eqb (ci + cf) 0 then S754_nan else
  match exponent_part r2 with
  | Some e => round_dec neg m (e - Z.of_nat cf)
  | None => S754_nan
  end.

(** A literal with a base prefix ([0x], [0o], [0b]), without sign. *)
Definition prefixed (b : Z) (s : string) : num :=
  match take_digits b s 0 0 with
  | (v, S _, EmptyString) => num_of_Z v
  | _ => S754_nan
  end.

(** [Number(s)]. *)
Definition Number (s : string) : num :=
  match trim s with
  | EmptyString => S754_zero false
  | String c r as t =>
      if code c =? 43 then unsigned_decimal false r
      else if code c =? 45 then unsigned_decimal true r
      else if code c =? 48 then
        match r with
        | String p r' =>
            if (code p =? 120) || (code p =? 88) then prefixed 16 r'
            else if (code p =? 111) || (code p =? 79) then prefixed 8 r'
            else if (code p =? 98) || (code p =? 66) then prefixed 2 r'
            else unsigned_decimal false t
        | EmptyString => unsigned_decimal false t
        end
      else unsigned_decimal false t
  end.

(** ** Number::toString *)

Definition digit_char (d : Z) : ascii := ascii_of_N (Z.to_N (48 + d)).

(** The [k] low decimal digits of [s]. *)
Fixpoint digits (k : nat) (s : Z) : string :=
  match k with
  | O => EmptyString
  | S k' => (digits k' (s / 10) +:+ String (digit_char (s mod 10)) EmptyString)%string
  end.

Fixpoint zeros (k : nat) : string :=
  match k with
  | O => EmptyString
  | S k' => String "0" (zeros k')
  end.

(** The number of decimal digits of [z >= 1], at most [fuel]. *)
Fixpoint ndigits (fuel : nat) (z : Z) : nat :=
  match fuel with
  | O => 1%nat
  | S f => if z <? 10 then 1%nat else S (ndigits f (z / 10))
  end.

(** The [n] with [10^(n-1) <= p/q < 10^n]. *)
Fixpoint small_exp (fuel : nat) (p q : Z) : Z :=
  match fuel with
  | O => 1
  | S f => if q <=? p then 1 else small_exp f (p * 10) q - 1
  end.

Definition dec_exp (p q : Z) : Z :=
  if q <=? p then Z.of_nat (ndigits 400 (p / q)) else small_exp 400 p q.

(** The [k]-digit decimal [s] with [s * 10^(n-k)] closest to [p/q] among
    those that read back as [x]; [s = 10^k] stands for the digits of
    [10^(k-1)] one decimal exponent higher. *)
Definition try_digits (x : num) (p q n : Z) (k : nat) : option Z :=
  let t := n - Z.of_nat k in
  let '(a, b) := if 0 <=? t then (p, q * 10 ^ t) else (p * 10 ^ (- t), q) in
  let lo := a / b in
  let ok s :=
    (10 ^ (Z.of_nat k - 1) <=? s) && (s <=? 10 ^ Z.of_nat k)
    && bool_decide (round_dec false s t = x) in
  let low_first := 2 * (a - lo * b) <=? b in
  let '(c1, c2) := if low_first then (lo, lo + 1) else (lo + 1, lo) in
  if ok c1 then Some c1 else if ok c2 then Some c2 else None.

(** The least [k] in [from .. from + fuel] for which [try_digits] succeeds. *)
Fixpoint search_digits (fuel : nat) (x : num) (p q n : Z) (k : nat) : Z * nat :=
  match try_digits x p q n k with
  | Some s => (s, k)
  | None =>
      match fuel with
      | O => (p * 10 ^ (Z.of_nat k - n) / q, k)
      | S f => search_digits f x p q n (S k)
      end
  end.

Definition exp_string (e : Z) : string :=
  let a := Z.abs e in
  ((if (e <? 0)%Z then "e-" else "e+") +:+ digits (ndigits 5 a) a)%string.

(** The layout of the digits [s] ([k] of them) with decimal exponent [n]. *)
Definition layout (s : Z) (k : nat) (n : Z) : string :=
  let kz := Z.of_nat k in
  (if ((kz <=? n) && (n <=? 21))%Z then digits k s +:+ zeros (Z.to_nat (n - kz))
   else if ((0 <? n) && (n <=? 21))%Z then
     digits (Z.to_nat n) (s / 10 ^ (kz - n)) +:+ "." +:+
     digits (Z.to_nat (kz - n)) (s mod 10 ^ (kz - n))
   else if ((-6 <? n) && (n <=? 0))%Z then
     "0." +:+ zeros (Z.to_nat (- n)) +:+ digits k s
   else if Nat.eqb k 1 then digits 1 s +:+ exp_string (n - 1)
   else digits 1 (s / 10 ^ (kz - 1)) +:+ "." +:+
        digits (k - 1) (s mod 10 ^ (kz - 1)) +:+ exp_string (n - 1))%string.

Definition positive_to_string (m : positive) (e : Z) : string :=
  let x := S754_finite false m e in
  let p := Zpos m * 2 ^ Z.max e 0 in
  let q := 2 ^ Z.max (- e) 0 in
  let n := dec_exp p q in
  let '(s, k) := search_digits 16 x p q n 1 in
  if s =? 10 ^ Z.of_nat k then layout (s / 10) k (n + 1) else layout s k n.

(** [String(x)] for a number [x]. *)
Definition num_to_string (x : num) : string :=
  match x with
  | S754_nan => "NaN"
  | S754_zero _ => "0"
  | S754_infinity false => "Infinity"
  | S754_infinity true => "-Infinity"
  | S754_finite false m e => positive_to_string m e
  | S754_finite true m e => ("-" +:+ positive_to_string m e)%string
  end.

(** ** Integers are exact doubles *)

Lemma digits2_pos_spec (p : positive) :
  2 ^ (Zpos (digits2_pos p) - 1) <= Zpos p < 2 ^ Zpos (digits2_pos p).
Proof.
  induction p as [p IH|p IH|]; cbn [digits2_pos]; [| |cbn; lia];
    rewrite Pos2Z.inj_succ;
    replace (Z.succ (Zpos (digits2_pos p)) - 1) with (Z.succ (Zpos (digits2_pos p) - 1)) by lia;
    rewrite !Z.pow_succ_r by lia; lia.
Qed.

Lemma digits2_pos_unique (p : positive) (d : Z) :
  0 < d -> 2 ^ (d - 1) <= Zpos p < 2 ^ d -> Zpos (digits2_pos p) = d.
Proof.
  intros Hd [H1 H2]. destruct (digits2_pos_spec p) as [H3 H4].
  assert (d - 1 < Zpos (digits2_pos p)) by (apply (Z.pow_lt_mono_r_iff 2); lia).
  assert (Zpos (digits2_pos p) - 1 < d) by (apply (Z.pow_lt_mono_r_iff 2); lia).
  lia.
Qed.

Lemma iter_xO (m d : positive) : Zpos (Pos.iter xO m d) = Zpos m * 2 ^ Zpos d.
Proof.
  induction d as [|d IH] using Pos.peano_ind; [cbn; lia|].
  rewrite Pos.iter_succ, Pos2Z.inj_succ, Z.pow_succ_r by lia.
  change (Zpos (Pos.iter xO m d)~0) with (2 * Zpos (Pos.iter xO m d)). lia.
Qed.

(** Rounding a mantissa of exactly 53 bits is the identity. *)
Lemma binary_round_aux_exact (s : bool) (m : positive) (e : Z) :
  Zpos (digits2_pos m) = 53 -> -1074 <= e <= 971 ->
  binary_round_aux 53 1024 s (Zpos m) e loc_Exact = S754_finite s m e.
Proof.
  intros Hd He. unfold binary_round_aux, shr_fexp, fexp, emin.
  cbn [Zdigits2]. rewrite Hd.
  replace (Z.max (53 + e - 53) (3 - 1024 - 53) - e) with 0 by lia.
  cbn -[Z.leb Z.sub Z.add]. rewrite Hd.
  replace (Z.max (53 + e - 53) (3 - 1024 - 53) - e) with 0 by lia.
  cbn -[Z.leb Z.sub Z.add].
  replace (e <=? 1024 - 53) with true by (symmetry; apply Z.leb_le; lia).
  reflexivity.
Qed.

(** A positive integer below 2^53 is represented without rounding. *)
Lemma num_of_Z_exact (z : Z) :
  0 < z < 2 ^ 53 ->
  exists m e, num_of_Z z = S754_finite false m (- e) /\ 0 <= e /\ Zpos m = z * 2 ^ e.
Proof.
  intros Hz. destruct z as [|p|p]; try lia.
  destruct (digits2_pos_spec p) as [H1 H2].
  assert (Hd : Zpos (digits2_pos p) <= 53).
  { assert (Zpos (digits2_pos p) - 1 < 53); [|lia].
    apply (Z.pow_lt_mono_r_iff 2); lia. }
  unfold num_of_Z, binary_normalize, binary_round, shl_align.
  unfold fexp at 1, emin.
  replace (Z.max (Zpos (digits2_pos p) + 0 - 53) (3 - 1024 - 53) - 0)
    with (- (53 - Zpos (digits2_pos p))) by lia.
  set (d := 53 - Zpos (digits2_pos p)).
  destruct (decide (d = 0)) as [Hd0|Hd0].
  - rewrite Hd0. change (- 0) with 0. exists p, 0.
    rewrite binary_round_aux_exact by lia. split; [done|]. lia.
  - destruct d as [|d'|d'] eqn:Ed; try lia. change (- Zpos d') with (Zneg d').
    replace (fexp 53 1024 (Z.pos (digits2_pos p) + 0)) with (- Zpos d')
      by (unfold fexp, emin; lia).
    change (PosDef.Pos.iter xO p d') with (Pos.iter xO p d').
    exists (Pos.iter xO p d'), (Zpos d').
    rewrite binary_round_aux_exact; [split; [done|split; [lia|apply iter_xO]]| |lia].
    apply digits2_pos_unique; [lia|]. rewrite iter_xO.
    replace 53 with (Zpos (digits2_pos p) + Zpos d') by lia.
    replace (Zpos (digits2_pos p) + Zpos d' - 1) with (Zpos (digits2_pos p) - 1 + Zpos d') by lia.
    rewrite !Z.pow_add_r by lia. nia.
Qed.

(** ** Reading back printed digits *)

Definition is_digit (c : ascii) : bool :=
  match digit_val 10 c with Some _ => true | None => false end.

Fixpoint all_digits (s : string) : bool :=
  match s with
  | EmptyString => true
  | String c s' => is_digit c && all_digits s'
  end.

Lemma digit_val_char (d : Z) : 0 <= d < 10 -> digit_val 10 (digit_char d) = Some d.
Proof.
  intros Hd.
  assert (d = 0 \/ d = 1 \/ d = 2 \/ d = 3 \/ d = 4 \/ d = 5 \/ d = 6 \/ d = 7 \/ d = 8 \/ d = 9)
    as Hc by lia.
  destruct_or! Hc; subst d; reflexivity.
Qed.

Lemma take_digits_digits (k : nat) (s acc : Z) (cnt : nat) (r : string) :
  take_digits 10 (digits k s +:+ r) acc cnt
  = take_digits 10 r (acc * 10 ^ Z.of_nat k + s mod 10 ^ Z.of_nat k) (cnt + k).
Proof.
  revert s r. induction k as [|k IH]; intros s r.
  - cbn [digits]. rewrite string_app_nil_l, Z.mod_1_r, Nat.add_0_r. f_equal. lia.
  - cbn [digits]. rewrite string_app_assoc, IH, string_app_cons, string_app_nil_l.
    cbn [take_digits]. rewrite digit_val_char by (apply Z.mod_pos_bound; lia).
    rewrite Nat2Z.inj_succ, Z.pow_succ_r by lia.
    rewrite (Z.rem_mul_r s 10 (10 ^ Z.of_nat k)) by lia.
    f_equal; lia.
Qed.

Lemma take_digits_zeros (j : nat) (acc : Z) (cnt : nat) :
  take_digits 10 (zeros j) acc cnt = (acc * 10 ^ Z.of_nat j, (cnt + j)%nat, ""%string).
Proof.
  revert acc cnt. induction j as [|j IH]; intros acc cnt; cbn [zeros take_digits].
  - by rewrite Z.mul_1_r, Nat.add_0_r.
  - change (digit_val 10 "0") with (Some 0). cbn beta iota. rewrite IH.
    rewrite Nat2Z.inj_succ, Z.pow_succ_r, Z.add_0_r, Z.mul_assoc by lia.
    by rewrite <- plus_n_Sm.
Qed.

Lemma all_digits_app (a b : string) :
  all_digits (a +:+ b) = all_digits a && all_digits b.
Proof.
  induction a as [|c a IH]; [done|].
  rewrite string_app_cons. cbn. by rewrite IH, andb_assoc.
Qed.

Lemma all_digits_digits (k : nat) (s : Z) : all_digits (digits k s) = true.
Proof.
  revert s. induction k as [|k IH]; intros s; [done|]. cbn [digits].
  rewrite all_digits_app, IH. cbn [all_digits andb]. unfold is_digit.
  by rewrite digit_val_char by (apply Z.mod_pos_bound; lia).
Qed.

Lemma all_digits_zeros (j : nat) : all_digits (zeros j) = true.
Proof. induction j as [|j IH]; [done|]. cbn. by rewrite IH. Qed.

(** A digit is neither white space nor a sign, a point or a letter. *)
Lemma is_digit_code (c : ascii) : is_digit c = true -> 48 <= code c <= 57.
Proof.
  unfold is_digit, digit_val.
  destruct ((48 <=? code c) && (code c <=? 57)) eqn:E; [reflect_tests; lia|].
  destruct ((97 <=? code c) && (code c <=? 102)) eqn:E1; cbn zeta.
  { reflect_tests. destruct (Z.ltb_spec (code c - 87) 10); [lia|done]. }
  destruct ((65 <=? code c) && (code c <=? 70)) eqn:E2; cbn zeta.
  { reflect_tests. destruct (Z.ltb_spec (code c - 55) 10); [lia|done]. }
  done.
Qed.

Lemma is_digit_not_space (c : ascii) : is_digit c = true -> is_space c = false.
Proof.
  intros H%is_digit_code. unfold is_space. cbn [existsb].
  repeat match goal with |- context [code c =? ?k] =>
    destruct (Z.eqb_spec (code c) k); [lia|] end. done.
Qed.

Lemma trim_all_digits (s : string) : all_digits s = true -> trim s = s.
Proof.
  intros H. unfold trim.
  assert (trim_left s = s) as ->.
  { destruct s as [|c s']; [done|]. cbn [all_digits trim_left] in *. reflect_tests. by rewrite is_digit_not_space. }
  induction s as [|c s' IH]; [done|]. cbn [all_digits trim_right] in *. reflect_tests.
  rewrite IH by done. destruct s'; [|done]. by rewrite is_digit_not_space.
Qed.

(** A non-empty string of digits reads as a decimal literal. *)
Lemma Number_all_digits (s : string) :
  all_digits s = true -> s <> ""%string -> Number s = unsigned_decimal false s.
Proof.
  intros H Hne. unfold Number. rewrite trim_all_digits by done.
  destruct s as [|c r]; [done|]. cbn [all_digits] in H. reflect_tests.
  apply is_digit_code in H.
  destruct (Z.eqb_spec (code c) 43); [lia|]. destruct (Z.eqb_spec (code c) 45); [lia|].
  destruct (code c =? 48); [|done].
  destruct r as [|c' r']; [done|]. cbn [all_digits] in H0. reflect_tests. apply is_digit_code in H0.
  repeat match goal with |- context [code c' =? ?k] =>
    destruct (Z.eqb_spec (code c') k); [lia|] end. done.
Qed.

(** ** The shortest-digits search *)

Lemma ndigits_spec (fuel : nat) (z : Z) :
  1 <= z < 10 ^ Z.of_nat fuel ->
  10 ^ (Z.of_nat (ndigits fuel z) - 1) <= z < 10 ^ Z.of_nat (ndigits fuel z).
Proof.
  revert z. induction fuel as [|f IH]; intros z Hz; [cbn in Hz; lia|].
  cbn [ndigits]. destruct (Z.ltb_spec z 10); [cbn; lia|].
  rewrite Nat2Z.inj_succ, Z.pow_succ_r in Hz by lia.
  assert (Hq : 1 <= z / 10 < 10 ^ Z.of_nat f).
  { split; [apply Z.div_le_lower_bound; lia|apply Z.div_lt_upper_bound; lia]. }
  specialize (IH _ Hq). set (n := ndigits f (z / 10)) in *.
  assert (1 <= Z.of_nat n) by (subst n; destruct f; cbn [ndigits]; [lia|];
    destruct (_ <? _); lia).
  pose proof (Z.div_mod z 10 ltac:(lia)). pose proof (Z.mod_pos_bound z 10 ltac:(lia)).
  rewrite Nat2Z.inj_succ, Z.pow_succ_r by lia.
  replace (Z.succ (Z.of_nat n) - 1) with (Z.succ (Z.of_nat n - 1)) by lia.
  rewrite Z.pow_succ_r by lia. lia.
Qed.

Lemma ndigits_pos (fuel : nat) (z : Z) : (1 <= ndigits fuel z)%nat.
Proof. destruct fuel; cbn [ndigits]; [lia|]. destruct (_ <? _); lia. Qed.

(** Whatever [try_digits] returns reads back as [x]. *)
Lemma try_digits_sound (x : num) (p q n : Z) (k : nat) (s : Z) :
  try_digits x p q n k = Some s ->
  10 ^ (Z.of_nat k - 1) <= s <= 10 ^ Z.of_nat k /\ round_dec false s (n - Z.of_nat k) = x.
Proof.
  unfold try_digits. intros H.
  repeat (break_match_in H; simplify_eq; reflect_tests);
    repeat match goal with H : bool_decide _ = true |- _ => apply bool_decide_eq_true in H end;
    auto.
Qed.

Lemma search_digits_sound (fuel : nat) (x : num) (p q n : Z) (k K : nat) (s0 : Z) :
  (k <= K <= k + fuel)%nat -> try_digits x p q n K = Some s0 ->
  exists s k', search_digits fuel x p q n k = (s, k') /\ (k <= k' <= K)%nat /\
    try_digits x p q n k' = Some s.
Proof.
  revert k. induction fuel as [|f IH]; intros k HK Ht.
  - assert (K = k) as -> by lia. cbn. rewrite Ht. eauto with lia.
  - cbn [search_digits]. destruct (try_digits x p q n k) as [s|] eqn:E.
    + exists s, k. auto with lia.
    + assert (k <> K) by congruence.
      destruct (IH (S k)) as (s & k' & ? & ? & ?); [lia|done|]. eauto 6 with lia.
Qed.

(** An integer has itself as a candidate at its own number of digits. *)
Lemma try_digits_integer (z q n : Z) (k : nat) (x : num) :
  0 < z -> 0 < q -> n = Z.of_nat k ->
  10 ^ (Z.of_nat k - 1) <= z < 10 ^ Z.of_nat k ->
  round_dec false z 0 = x -> try_digits x (z * q) q n k = Some z.
Proof.
  intros Hz Hq -> Hb Hx. unfold try_digits.
  rewrite Z.sub_diag. cbn [Z.leb Z.compare]. change (0 <=? 0) with true. cbn beta iota zeta.
  rewrite Z.pow_0_r, Z.mul_1_r, Z.div_mul by lia. rewrite Z.sub_diag, Z.mul_0_r.
  destruct (Z.leb_spec 0 q); [|lia].
  rewrite bool_decide_eq_true_2 by done.
  destruct (Z.leb_spec (10 ^ (Z.of_nat k - 1)) z); [|lia].
  destruct (Z.leb_spec z (10 ^ Z.of_nat k)); [done|lia].
Qed.

Lemma round_dec_int (m e : Z) : 0 < m -> 0 <= e ->
  round_dec false (m * 10 ^ e) 0 = round_dec false m e.
Proof.
  intros Hm He. unfold round_dec. destruct m as [|p|p]; try lia.
  destruct (Z.pos p * 10 ^ e) as [|r|r] eqn:E; try nia.
  destruct (Z.leb_spec 0 e); [|lia]. change (0 <=? 0) with true. cbn beta iota.
  by rewrite Z.mul_1_r.
Qed.

Lemma round_dec_num_of_Z (z : Z) : 0 < z -> round_dec false z 0 = num_of_Z z.
Proof.
  intros Hz. unfold round_dec. destruct z as [|p|p]; try lia.
  change (0 <=? 0) with true. cbn beta iota. by rewrite Z.mul_1_r.
Qed.

(** Digits followed by zeros read back as the scaled value. *)
Lemma Number_digits_zeros (k j : nat) (s : Z) :
  (1 <= k)%nat -> 0 <= s < 10 ^ Z.of_nat k ->
  Number (digits k s +:+ zeros j) = round_dec false (s * 10 ^ Z.of_nat j) 0.
Proof.
  intros Hk Hs.
  assert (Hd : all_digits (digits k s +:+ zeros j) = true)
    by by rewrite all_digits_app, all_digits_digits, all_digits_zeros.
  assert (Ht : take_digits 10 (digits k s +:+ zeros j) 0 0
               = (s * 10 ^ Z.of_nat j, (k + j)%nat, ""%string)).
  { rewrite take_digits_digits, take_digits_zeros, Z.mod_small by lia. do 3 f_equal; lia. }
  rewrite Number_all_digits; [|done|by intros E; rewrite E in Ht; cbn in Ht; simplify_eq; lia].
  unfold unsigned_decimal. rewrite Ht.
  destruct (String.eqb_spec (digits k s +:+ zeros j) "Infinity") as [E|_];
    [rewrite E in Hd; done|].
  cbn beta iota zeta. destruct (Nat.eqb_spec (k + j + 0) 0); [lia|]. done.
Qed.

Lemma layout_integer (s : Z) (k : nat) (n : Z) :
  Z.of_nat k <= n <= 21 -> layout s k n = (digits k s +:+ zeros (Z.to_nat (n - Z.of_nat k)))%string.
Proof.
  intros H. unfold layout.
  destruct (Z.leb_spec (Z.of_nat k) n); [|lia]. destruct (Z.leb_spec n 21); [|lia]. done.
Qed.

(** Both shapes of a search result are digits followed by zeros, and stand
    for the value the search found. *)
Lemma layout_shape (s n : Z) (k : nat) :
  (1 <= k)%nat -> Z.of_nat k <= n <= 20 ->
  10 ^ (Z.of_nat k - 1) <= s <= 10 ^ Z.of_nat k ->
  exists s' j, (if s =? 10 ^ Z.of_nat k then layout (s / 10) k (n + 1) else layout s k n)
    = (digits k s' +:+ zeros j)%string /\ 0 < s' < 10 ^ Z.of_nat k /\
    s' * 10 ^ Z.of_nat j <= 10 ^ n /\
    round_dec false (s' * 10 ^ Z.of_nat j) 0 = round_dec false s (n - Z.of_nat k).
Proof.
  intros Hk Hn Hs.
  assert (Hp : 10 ^ Z.of_nat k = 10 * 10 ^ (Z.of_nat k - 1)).
  { rewrite <- Z.pow_succ_r by lia. f_equal. lia. }
  assert (0 < 10 ^ (Z.of_nat k - 1)) by (apply Z.pow_pos_nonneg; lia).
  assert (Hn' : 10 ^ n = 10 ^ Z.of_nat k * 10 ^ (n - Z.of_nat k)).
  { rewrite <- Z.pow_add_r by lia. f_equal. lia. }
  assert (0 < 10 ^ (n - Z.of_nat k)) by (apply Z.pow_pos_nonneg; lia).
  destruct (Z.eqb_spec s (10 ^ Z.of_nat k)) as [->|].
  - assert (Hj : 10 ^ (n + 1 - Z.of_nat k) = 10 * 10 ^ (n - Z.of_nat k)).
    { rewrite <- Z.pow_succ_r by lia. f_equal. lia. }
    exists (10 ^ (Z.of_nat k - 1)), (Z.to_nat (n + 1 - Z.of_nat k)).
    rewrite layout_integer, Z2Nat.id by lia.
    replace (10 ^ Z.of_nat k / 10) with (10 ^ (Z.of_nat k - 1))
      by (rewrite Hp, Z.mul_comm, Z.div_mul; lia).
    split_and!; [done|lia|lia|nia|].
    rewrite <- (round_dec_int (10 ^ Z.of_nat k)) by lia. f_equal. nia.
  - exists s, (Z.to_nat (n - Z.of_nat k)). rewrite layout_integer, Z2Nat.id by lia.
    split_and!; [done|lia|lia|nia|]. apply round_dec_int; lia.
Qed.

(** A positive integer below 2^53 prints as a plain decimal numeral. *)
Lemma num_to_string_shape (z : Z) :
  0 < z < 2 ^ 53 ->
  exists s k j, num_to_string (num_of_Z z) = (digits k s +:+ zeros j)%string /\
    (1 <= k)%nat /\ 0 < s < 10 ^ Z.of_nat k /\ s * 10 ^ Z.of_nat j <= 10 * z /\
    round_dec false (s * 10 ^ Z.of_nat j) 0 = num_of_Z z.
Proof.
  intros Hz. destruct (num_of_Z_exact z Hz) as (m & e & Hx & He & Hm).
  assert (num_to_string (num_of_Z z) = positive_to_string m (- e)) as -> by by rewrite Hx.
  unfold positive_to_string.
  replace (Z.max (- e) 0) with 0 by lia. replace (Z.max (- - e) 0) with e by lia.
  rewrite Z.pow_0_r, Z.mul_1_r, Hm, <- Hx.
  assert (Hq : 0 < 2 ^ e) by (apply Z.pow_pos_nonneg; lia).
  assert (Hn : dec_exp (z * 2 ^ e) (2 ^ e) = Z.of_nat (ndigits 400 z)).
  { unfold dec_exp. destruct (Z.leb_spec (2 ^ e) (z * 2 ^ e)); [|nia].
    by rewrite Z.div_mul by lia. }
  assert (Hb := ndigits_spec 400 z).
  assert (z < 10 ^ Z.of_nat 400) by (transitivity (2 ^ 53); [lia|vm_compute; reflexivity]).
  specialize (Hb ltac:(lia)). rewrite Hn. pose proof (ndigits_pos 400 z).
  set (K := ndigits 400 z) in *.
  assert (HK : (K <= 16)%nat).
  { assert (Z.of_nat K - 1 < 16); [|lia].
    apply (Z.pow_lt_mono_r_iff 10); [lia|lia|].
    apply Z.le_lt_trans with z; [lia|]. transitivity (2 ^ 53); [lia|vm_compute; reflexivity]. }
  destruct (search_digits_sound 16 (num_of_Z z) (z * 2 ^ e) (2 ^ e) (Z.of_nat K) 1 K z)
    as (s & k & -> & Hk & Ht); [lia| |].
  { apply try_digits_integer; auto with lia. apply round_dec_num_of_Z; lia. }
  apply try_digits_sound in Ht as [Hs Hr].
  destruct (layout_shape s (Z.of_nat K) k) as (s' & j & -> & ? & Hle & Hr'); [lia..|].
  exists s', k, j. rewrite Hr', Hr. split_and!; auto with lia.
  assert (10 ^ Z.of_nat K = 10 * 10 ^ (Z.of_nat K - 1))
    by (rewrite <- Z.pow_succ_r by lia; f_equal; lia). lia.
Qed.

(** Every integer a form field can show as an exact double survives the trip
    through the text input: [Number(String(n)) = n]. *)
Lemma Number_to_string_int (z : Z) :
  0 <= z < 2 ^ 53 -> Number (num_to_string (num_of_Z z)) = num_of_Z z.
Proof.
  intros Hz. destruct (decide (z = 0)) as [->|]; [reflexivity|].
  destruct (num_to_string_shape z) as (s & k & j & -> & Hk & Hs & _ & <-); [lia|].
  apply Number_digits_zeros; lia.
Qed.

Lemma num_to_string_digits (z : Z) :
  0 <= z < 2 ^ 53 -> all_digits (num_to_string (num_of_Z z)) = true.
Proof.
  intros Hz. destruct (decide (z = 0)) as [->|]; [reflexivity|].
  destruct (num_to_string_shape z) as (s & k & j & -> & _); [lia|].
  by rewrite all_digits_app, all_digits_digits, all_digits_zeros.
Qed.

#[export] Hint Resolve Number_to_string_int : js.

(** Distinct integers below 2^53 are distinct doubles. *)
Lemma num_of_Z_inj (a b : Z) :
  0 < a < 2 ^ 53 -> 0 < b < 2 ^ 53 -> num_of_Z a = num_of_Z b -> a = b.
Proof.
  intros Ha Hb H.
  destruct (num_of_Z_exact a Ha) as (m & e & Hx & He & Hm).
  destruct (num_of_Z_exact b Hb) as (m' & e' & Hx' & He' & Hm').
  rewrite Hx, Hx' in H. simplify_eq.
  assert (e = e') as -> by lia.
  rewrite Hm in Hm'. apply Z.mul_reg_r in Hm'; [done|].
  assert (0 < 2 ^ e') by (apply Z.pow_pos_nonneg; lia). lia.
Qed.

(** The numeral of a positive integer reads back digit by digit. *)
Lemma take_digits_numeral (z : Z) :
  0 < z < 2 ^ 49 ->
  exists c, take_digits 10 (num_to_string (num_of_Z z)) 0 0 = (z, S c, ""%string).
Proof.
  intros Hz. destruct (num_to_string_shape z) as (s & k & j & -> & Hk & Hs & Hle & Hr); [lia|].
  assert (0 < 10 ^ Z.of_nat j) by (apply Z.pow_pos_nonneg; lia).
  rewrite round_dec_num_of_Z in Hr by nia.
  apply num_of_Z_inj in Hr; [|nia|lia].
  exists (k - 1 + j)%nat.
  rewrite take_digits_digits, take_digits_zeros, Z.mod_small by lia.
  do 2 f_equal; [lia|lia].
Qed.
