(* ===== verification/JsValue.v ===== *)
(** * JavaScript values, objects and the shared store

    The UI hands the same objects to several closures and mutates them in
    place (React state, the [rr] given to a dialog, the [formRefs] object), so
    objects live in a store and values refer to them by location.

    A computation is a function of the store that returns or throws
    ([js A]); throwing keeps the store as it was when the exception was
    raised, as in JavaScript.

    Not represented: prototypes (no property name used by the sources is
    inherited from one), symbol and integer-like keys (the server names
    properties by record type, ["#n"] or field name), and non-index
    properties of arrays. *)

From S2P Require Import Prelude JsNumber.

Abbreviation loc := nat.

Inductive val : Type :=
| VUndef
| VNull
| VBool (b : bool)
| VNum (n : num)
| VStr (s : string)
| VRef (l : loc).

#[global] Instance val_eq_dec : EqDecision val.
Proof. solve_decision. Defined.

Inductive obj : Type :=
| OPlain (props : list (string * val))
| OArray (elems : list val).

#[global] Instance obj_eq_dec : EqDecision obj.
Proof. solve_decision. Defined.

Abbreviation heap := (list obj).

(** [Error(msg)] thrown by the sources, and the TypeErrors the language
    throws by itself (their text is up to the engine). *)
Inductive exn : Type :=
| JsError (msg : string)
| JsTypeError.

Inductive res (A : Type) : Type :=
| Ok (a : A)
| Throw (e : exn).
Arguments Ok {A} a.
Arguments Throw {A} e.

Definition js (A : Type) : Type := heap -> res A * heap.

(** [js] is a monad: stdpp's [mret], [x ← c; k] and [c ;; k]. *)
#[global] Instance js_ret : MRet js := fun A a h => (Ok a, h).
#[global] Instance js_bind : MBind js := fun A B k c h =>
  match c h with
  | (Ok a, h') => k a h'
  | (Throw e, h') => (Throw e, h')
  end.
Definition throw {A} (e : exn) : js A := fun h => (Throw e, h).

(** [for (x of l) f(x)]. *)
Fixpoint js_iter {A} (f : A -> js unit) (l : list A) : js unit :=
  match l with
  | [] => mret tt
  | x :: l' => f x ;; js_iter f l'
  end.

(** ** Operators *)

Definition truthy (v : val) : bool :=
  match v with
  | VUndef | VNull => false
  | VBool b => b
  | VNum n => negb (bool_decide (n = S754_zero false) || bool_decide (n = S754_zero true)
                    || bool_decide (n = S754_nan))
  | VStr s => negb (String.eqb s "")
  | VRef _ => true
  end.

Definition typeof (v : val) : string :=
  match v with
  | VUndef => "undefined"
  | VNull => "object"
  | VBool _ => "boolean"
  | VNum _ => "number"
  | VStr _ => "string"
  | VRef _ => "object"
  end.

(** [v === Object(v)]. *)
Definition is_object (v : val) : bool :=
  match v with VRef _ => true | _ => false end.

Definition load (v : val) : js (option obj) := fun h =>
  (Ok (match v with VRef l => h !! l | _ => None end), h).

(** [Array.isArray(v)]. *)
Definition isArray (v : val) : js bool :=
  o ← load v; mret (match o with Some (OArray _) => true | _ => false end).

Definition alloc (o : obj) : js val := fun h => (Ok (VRef (length h)), h ++ [o]).
Definition store (l : loc) (o : obj) : js unit := fun h => (Ok tt, <[l := o]> h).

(** The name of the array index [i]. *)
Definition index_name (i : nat) : string := num_to_string (num_of_Z (Z.of_nat i)).

Definition nat_num (i : nat) : num := num_of_Z (Z.of_nat i).

Definition chars (s : string) : list val :=
  (fun c => VStr (String c "")) <$> list_ascii_of_string s.

(** [v[k]] or [v.k] for a property name [k]. *)
Definition get_prop (v : val) (k : string) : js val :=
  match v with
  | VUndef | VNull => throw JsTypeError
  | VStr s => mret (if String.eqb k "length" then VNum (nat_num (String.length s)) else VUndef)
  | VBool _ | VNum _ => mret VUndef
  | VRef _ =>
      o ← load v;
      mret (match o with
           | Some (OPlain ps) => default VUndef (assoc_get k ps)
           | Some (OArray es) =>
               if String.eqb k "length" then VNum (nat_num (length es)) else VUndef
           | None => VUndef
           end)
  end.

(** [v[i]] for an integer [i]. *)
Definition get_index (v : val) (i : Z) : js val :=
  match v with
  | VUndef | VNull => throw JsTypeError
  | VStr s => mret (if (0 <=? i)%Z then default VUndef (chars s !! Z.to_nat i) else VUndef)
  | VBool _ | VNum _ => mret VUndef
  | VRef _ =>
      o ← load v;
      mret (match o with
           | Some (OPlain ps) => default VUndef (assoc_get (num_to_string (num_of_Z i)) ps)
           | Some (OArray es) =>
               if (0 <=? i)%Z then default VUndef (es !! Z.to_nat i) else VUndef
           | None => VUndef
           end)
  end.

(** [v.k = x] in strict mode. *)
Definition set_prop (v : val) (k : string) (x : val) : js unit :=
  o ← load v;
  match v, o with
  | VRef l, Some (OPlain ps) => store l (OPlain (assoc_set k x ps))
  | VRef _, _ => mret tt
  | _, _ => throw JsTypeError
  end.

(** [v[i] = x]: an array grows to hold the index, the gap reads undefined. *)
Definition set_index (v : val) (i : Z) (x : val) : js unit :=
  o ← load v;
  match v, o with
  | VRef l, Some (OArray es) =>
      if (i <? 0)%Z then mret tt
      else if (i <? Z.of_nat (length es))%Z then store l (OArray (<[Z.to_nat i := x]> es))
      else store l (OArray (es ++ replicate (Z.to_nat i - length es) VUndef ++ [x]))
  | VRef l, Some (OPlain ps) => store l (OPlain (assoc_set (num_to_string (num_of_Z i)) x ps))
  | VRef _, None => mret tt
  | _, _ => throw JsTypeError
  end.

(** [delete v.k]. *)
Definition delete_prop (v : val) (k : string) : js unit :=
  o ← load v;
  match v, o with
  | VUndef, _ | VNull, _ => throw JsTypeError
  | VRef l, Some (OPlain ps) => store l (OPlain (assoc_del k ps))
  | _, _ => mret tt
  end.

(** [Object.hasOwn(v, k)]. *)
Definition hasOwn (v : val) (k : string) : js bool :=
  let indexed n := String.eqb k "length" || existsb (fun i => String.eqb k (index_name i)) (seq 0 n) in
  match v with
  | VUndef | VNull => throw JsTypeError
  | VBool _ | VNum _ => mret false
  | VStr s => mret (indexed (String.length s))
  | VRef _ =>
      o ← load v;
      mret (match o with
           | Some (OPlain ps) => bool_decide (is_Some (assoc_get k ps))
           | Some (OArray es) => indexed (length es)
           | None => false
           end)
  end.

(** [k in v]. *)
Definition in_op (k : string) (v : val) : js bool :=
  if is_object v then hasOwn v k else throw JsTypeError.

(** [Object.entries(v)]. *)
Definition entries (v : val) : js (list (string * val)) :=
  let indexed vs := zip (index_name <$> seq 0 (length vs)) vs in
  match v with
  | VUndef | VNull => throw JsTypeError
  | VBool _ | VNum _ => mret []
  | VStr s => mret (indexed (chars s))
  | VRef _ =>
      o ← load v;
      mret (match o with
           | Some (OPlain ps) => ps
           | Some (OArray es) => indexed es
           | None => []
           end)
  end.

(** [Object.keys(v)]. *)
Definition keys (v : val) : js (list string) := es ← entries v; mret es.*1.

(** [{...v}]: a new object with the own properties of [v]. *)
Definition spread (v : val) : js val :=
  match v with
  | VUndef | VNull => alloc (OPlain [])
  | _ => es ← entries v; alloc (OPlain es)
  end.

(** [v.push(x)]. *)
Definition push (v x : val) : js unit :=
  o ← load v;
  match v, o with
  | VRef l, Some (OArray es) => store l (OArray (es ++ [x]))
  | _, _ => throw JsTypeError
  end.

(** [v.splice(i, 1)] with [i >= 0]. *)
Definition splice1 (v : val) (i : nat) : js unit :=
  o ← load v;
  match v, o with
  | VRef l, Some (OArray es) => store l (OArray (take i es ++ drop (S i) es))
  | _, _ => throw JsTypeError
  end.

(** [v.length] of an array. *)
Definition array_length (v : val) : js nat :=
  o ← load v;
  match o with
  | Some (OArray es) => mret (length es)
  | _ => throw JsTypeError
  end.

(** ** JSON *)

Inductive json : Type :=
| JNull
| JBool (b : bool)
| JNum (n : num)
| JStr (s : string)
| JArr (js : list json)
| JObj (ps : list (string * json)).

(** JSON has no NaN or infinities: they are written as null. *)
Definition num_to_json (n : num) : json :=
  match n with
  | S754_nan | S754_infinity _ => JNull
  | _ => JNum n
  end.

(** [f] on each element, stopping at the first exception. *)
Fixpoint res_mapM {A B} (f : A -> res B) (l : list A) : res (list B) :=
  match l with
  | [] => Ok []
  | x :: l' =>
      match f x with
      | Ok y => match res_mapM f l' with Ok ys => Ok (y :: ys) | Throw e => Throw e end
      | Throw e => Throw e
      end
  end.

Definition res_map {A B} (f : A -> B) (r : res A) : res B :=
  match r with Ok a => Ok (f a) | Throw e => Throw e end.

(** The value JSON.stringify writes for [v]; [None] for undefined, which is
    dropped from objects and written as null in arrays.  A path longer than
    the store has objects goes through a cycle, which is a TypeError. *)
Fixpoint serialize (fuel : nat) (h : heap) (v : val) : res (option json) :=
  match v with
  | VUndef => Ok None
  | VNull => Ok (Some JNull)
  | VBool b => Ok (Some (JBool b))
  | VNum n => Ok (Some (num_to_json n))
  | VStr s => Ok (Some (JStr s))
  | VRef l =>
      match fuel with
      | O => Throw JsTypeError
      | S f =>
          match h !! l with
          | Some (OArray es) =>
              res_map (fun js => Some (JArr (default JNull <$> js)))
                (res_mapM (serialize f h) es)
          | Some (OPlain ps) =>
              res_map (fun js => Some (JObj (omap (fun kj => (kj.1,.) <$> kj.2) js)))
                (res_mapM (fun kv => res_map (kv.1,.) (serialize f h kv.2)) ps)
          | None => Ok None
          end
      end
  end.

Definition to_json (h : heap) (v : val) : res (option json) := serialize (S (length h)) h v.

(** Text of a JSON value, as JSON.stringify writes it without indentation. *)
Definition hex_digit (d : N) : ascii :=
  ascii_of_N (if (d <? 10)%N then 48 + d else 87 + d)%N.

Definition quote_char (c : ascii) : string :=
  let n := N_of_ascii c in
  if (n =? 34)%N then "\" +:+ String (ascii_of_N 34) ""
  else if (n =? 92)%N then "\\"
  else if (n =? 8)%N then "\b"
  else if (n =? 12)%N then "\f"
  else if (n =? 10)%N then "\n"
  else if (n =? 13)%N then "\r"
  else if (n =? 9)%N then "\t"
  else if (n <? 32)%N then "\u00" +:+ String (hex_digit (n / 16)) (String (hex_digit (n mod 16)) "")
  else String c "".

Definition dquote : string := String (ascii_of_N 34) "".

Definition quote (s : string) : string :=
  dquote +:+ String.concat "" (quote_char <$> list_ascii_of_string s) +:+ dquote.

Fixpoint print (j : json) : string :=
  match j with
  | JNull => "null"
  | JBool b => if b then "true" else "false"
  | JNum n => num_to_string n
  | JStr s => quote s
  | JArr js => "[" +:+ join "," (print <$> js) +:+ "]"
  | JObj ps => "{" +:+ join "," ((fun kv => quote kv.1 +:+ ":" +:+ print kv.2) <$> ps) +:+ "}"
  end%string.

(** [JSON.stringify(v)] for a value that is not undefined. *)
Definition stringify (v : val) : js string := fun h =>
  match to_json h v with
  | Ok (Some j) => (Ok (print j), h)
  | Ok None => (Ok "undefined"%string, h)
  | Throw e => (Throw e, h)
  end.

(** ** Reading JSON into the store *)

(** [await res.json()]: a fresh object per JSON object or array. *)
Fixpoint load_json (j : json) (h : heap) : val * heap :=
  match j with
  | JNull => (VNull, h)
  | JBool b => (VBool b, h)
  | JNum n => (VNum n, h)
  | JStr s => (VStr s, h)
  | JArr js =>
      let '(vs, h') :=
        (fix go (js : list json) (h : heap) : list val * heap :=
           match js with
           | [] => ([], h)
           | j :: js' =>
               let '(v, h1) := load_json j h in
               let '(vs, h2) := go js' h1 in (v :: vs, h2)
           end) js h in
      (VRef (length h'), h' ++ [OArray vs])
  | JObj ps =>
      let '(kvs, h') :=
        (fix go (ps : list (string * json)) (h : heap) : list (string * val) * heap :=
           match ps with
           | [] => ([], h)
           | (k, j) :: ps' =>
               let '(v, h1) := load_json j h in
               let '(kvs, h2) := go ps' h1 in ((k, v) :: kvs, h2)
           end) ps h in
      (VRef (length h'), h' ++ [OPlain kvs])
  end.

(** ** Lemmas on the store *)

Lemma load_ref (l : loc) (h : heap) : load (VRef l) h = (Ok (h !! l), h).
Proof. reflexivity. Qed.

(** [v] only refers to existing objects outside [L], to depth [n]. *)
Fixpoint apart (n : nat) (h : heap) (L : list loc) (v : val) : bool :=
  match v with
  | VRef l =>
      negb (bool_decide (l ∈ L)) &&
      match n with
      | O => true
      | S n' =>
          match h !! l with
          | Some (OArray es) => forallb (apart n' h L) es
          | Some (OPlain ps) => forallb (fun kv => apart n' h L kv.2) ps
          | None => false
          end
      end
  | _ => true
  end.

Lemma res_mapM_ext {A B} (f g : A -> res B) (l : list A) :
  (forall x, x ∈ l -> f x = g x) -> res_mapM f l = res_mapM g l.
Proof.
  induction l as [|x l IH]; intros H; [done|]. cbn.
  rewrite (H x) by set_solver. by rewrite IH by set_solver.
Qed.

Lemma res_mapM_Ok {A B} (f : A -> res B) (l : list A) (ys : list B) :
  res_mapM f l = Ok ys <-> Forall2 (fun x y => f x = Ok y) l ys.
Proof.
  revert ys. induction l as [|x l IH]; intros ys; cbn.
  - split; [intros; simplify_eq; constructor|by intros H; inversion H].
  - split.
    + intros H. repeat (break_match_in H; simplify_eq). constructor; [done|]. by apply IH.
    + intros H. inversion H as [|? y ? ys' Hy Hys]; subst. rewrite Hy.
      apply IH in Hys. by rewrite Hys.
Qed.

(** Serialization only looks at the objects reachable from the value. *)
Lemma serialize_apart (n : nat) (h h' : heap) (L : list loc) (v : val) :
  apart n h L v = true ->
  (forall l o, l ∉ L -> h !! l = Some o -> h' !! l = Some o) ->
  serialize n h' v = serialize n h v.
Proof.
  intros Ha Hh. revert v Ha. induction n as [|n IH]; intros v Ha; destruct v; try done.
  cbn [apart] in Ha. reflect_tests. apply bool_decide_eq_false in H.
  cbn [serialize]. destruct (h !! l) as [o|] eqn:E; [|done].
  rewrite (Hh _ _ H E). destruct o as [ps|es]; rewrite forallb_forall in H0.
  - f_equal. apply res_mapM_ext. intros kv Hin. f_equal. apply IH, H0.
    by apply list_elem_of_In.
  - f_equal. apply res_mapM_ext. intros e Hin. apply IH, H0. by apply list_elem_of_In.
Qed.

(** A value kept apart from the changes stays apart from what was kept. *)
Lemma apart_kept (n : nat) (h h' : heap) (L L' : list loc) (v : val) :
  apart n h L v = true ->
  (forall l o, l ∉ L -> h !! l = Some o -> h' !! l = Some o) ->
  (forall l, l ∈ L' -> l ∈ L) -> apart n h' L' v = true.
Proof.
  intros Ha Hh HL. revert v Ha. induction n as [|n IH]; intros v Ha; destruct v; try done;
    cbn [apart] in *; reflect_tests; apply bool_decide_eq_false in H;
    rewrite (bool_decide_eq_false_2 (l ∈ L')) by auto; [done|]. cbn [negb andb].
  destruct (h !! l) as [o|] eqn:E; [|done]. rewrite (Hh _ _ H E).
  destruct o as [ps|es]; rewrite forallb_forall in *; auto.
Qed.

(** More fuel does not change a result. *)
Lemma serialize_mono (n m : nat) (h : heap) (v : val) (j : option json) :
  serialize n h v = Ok j -> n <= m -> serialize m h v = Ok j.
Proof.
  revert m v j. induction n as [|n IH]; intros m v j Hs Hm.
  - destruct v; destruct m; done.
  - destruct v; try (destruct m; done). destruct m as [|m]; [lia|].
    cbn [serialize] in *. destruct (h !! l) as [[ps|es]|]; [| |done].
    + destruct (res_mapM _ ps) as [ys|] eqn:E in Hs; [|done].
      assert (res_mapM (fun kv => res_map (kv.1,.) (serialize m h kv.2)) ps = Ok ys) as ->; [|done].
      apply res_mapM_Ok in E. apply res_mapM_Ok. eapply Forall2_impl; [exact E|].
      intros [k e] y Hy. cbn in *. destruct (serialize n h e) as [j'|] eqn:Ee; [|done].
      rewrite (IH m e j') by (done || lia). done.
    + destruct (res_mapM _ es) as [ys|] eqn:E in Hs; [|done].
      assert (res_mapM (serialize m h) es = Ok ys) as ->; [|done].
      apply res_mapM_Ok in E. apply res_mapM_Ok. eapply Forall2_impl; [exact E|].
      intros e y Hy. by apply IH with (m := m); [|lia].
Qed.

(** ** Evaluating computations on known objects *)

Lemma bind_ok {A B} (c : js A) (k : A -> js B) (h h' : heap) (a : A) :
  c h = (Ok a, h') -> (c ≫= k) h = k a h'.
Proof. intros E. unfold mbind, js_bind. by rewrite E. Qed.

Lemma bind_throw {A B} (c : js A) (k : A -> js B) (h h' : heap) (e : exn) :
  c h = (Throw e, h') -> (c ≫= k) h = (Throw e, h').
Proof. intros E. unfold mbind, js_bind. by rewrite E. Qed.

(** A computation whose continuation returns has itself returned. *)
Lemma bind_ok_inv {A B} (c : js A) (k : A -> js B) (h h2 : heap) (b : B) :
  (c ≫= k) h = (Ok b, h2) -> exists a h1, c h = (Ok a, h1) /\ k a h1 = (Ok b, h2).
Proof. unfold mbind, js_bind. destruct (c h) as [[a|e] h1]; naive_solver. Qed.

Lemma alloc_eq (o : obj) (h : heap) : alloc o h = (Ok (VRef (length h)), h ++ [o]).
Proof. reflexivity. Qed.

Section Known.
Context (h : heap) (l : loc).

Lemma isArray_plain ps : h !! l = Some (OPlain ps) -> isArray (VRef l) h = (Ok false, h).
Proof. intros E. unfold isArray. erewrite bind_ok; [|apply load_ref]. by rewrite E. Qed.

Lemma isArray_array es : h !! l = Some (OArray es) -> isArray (VRef l) h = (Ok true, h).
Proof. intros E. unfold isArray. erewrite bind_ok; [|apply load_ref]. by rewrite E. Qed.

Lemma get_prop_plain ps k : h !! l = Some (OPlain ps) ->
  get_prop (VRef l) k h = (Ok (default VUndef (assoc_get k ps)), h).
Proof. intros E. unfold get_prop. erewrite bind_ok; [|apply load_ref]. by rewrite E. Qed.

Lemma hasOwn_plain ps k : h !! l = Some (OPlain ps) ->
  hasOwn (VRef l) k h = (Ok (bool_decide (is_Some (assoc_get k ps))), h).
Proof. intros E. unfold hasOwn. erewrite bind_ok; [|apply load_ref]. by rewrite E. Qed.

Lemma entries_plain ps : h !! l = Some (OPlain ps) -> entries (VRef l) h = (Ok ps, h).
Proof. intros E. unfold entries. erewrite bind_ok; [|apply load_ref]. by rewrite E. Qed.

Lemma set_prop_plain ps k x : h !! l = Some (OPlain ps) ->
  set_prop (VRef l) k x h = (Ok tt, <[l := OPlain (assoc_set k x ps)]> h).
Proof. intros E. unfold set_prop. erewrite bind_ok; [|apply load_ref]. by rewrite E. Qed.

Lemma delete_prop_plain ps k : h !! l = Some (OPlain ps) ->
  delete_prop (VRef l) k h = (Ok tt, <[l := OPlain (assoc_del k ps)]> h).
Proof. intros E. unfold delete_prop. erewrite bind_ok; [|apply load_ref]. by rewrite E. Qed.

Lemma get_index_array es i x : h !! l = Some (OArray es) -> es !! i = Some x ->
  get_index (VRef l) (Z.of_nat i) h = (Ok x, h).
Proof.
  intros E Hx. unfold get_index. erewrite bind_ok; [|apply load_ref]. rewrite E.
  destruct (Z.leb_spec 0 (Z.of_nat i)); [|lia]. by rewrite Nat2Z.id, Hx.
Qed.

Lemma set_index_array es i x : h !! l = Some (OArray es) -> i < length es ->
  set_index (VRef l) (Z.of_nat i) x h = (Ok tt, <[l := OArray (<[i := x]> es)]> h).
Proof.
  intros E Hi. unfold set_index. erewrite bind_ok; [|apply load_ref]. rewrite E.
  destruct (Z.ltb_spec (Z.of_nat i) 0); [lia|].
  destruct (Z.ltb_spec (Z.of_nat i) (Z.of_nat (length es))); [|lia]. by rewrite Nat2Z.id.
Qed.

Lemma push_array es x : h !! l = Some (OArray es) ->
  push (VRef l) x h = (Ok tt, <[l := OArray (es ++ [x])]> h).
Proof. intros E. unfold push. erewrite bind_ok; [|apply load_ref]. by rewrite E. Qed.

Lemma splice1_array es i : h !! l = Some (OArray es) ->
  splice1 (VRef l) i h = (Ok tt, <[l := OArray (take i es ++ drop (S i) es)]> h).
Proof. intros E. unfold splice1. erewrite bind_ok; [|apply load_ref]. by rewrite E. Qed.

Lemma array_length_eq es : h !! l = Some (OArray es) ->
  array_length (VRef l) h = (Ok (length es), h).
Proof. intros E. unfold array_length. erewrite bind_ok; [|apply load_ref]. by rewrite E. Qed.
End Known.

#[export] Hint Resolve isArray_plain isArray_array get_prop_plain hasOwn_plain entries_plain
  set_prop_plain delete_prop_plain get_index_array set_index_array push_array splice1_array
  array_length_eq alloc_eq : js.

(** Evaluates the next command of a computation with a lemma of the [js]
    database. *)
Ltac js_step := erewrite bind_ok; [|solve [eauto with js]].

(** ** The JSON of an updated object *)

(** The pairs JSON.stringify writes for the properties [js]. *)
Definition json_props (js : list (string * option json)) : list (string * json) :=
  omap (fun kj => (kj.1,.) <$> kj.2) js.

(** The properties of an object, each with [f] of its value. *)
Definition ser_props (f : val -> res (option json)) (ps : list (string * val))
    : res (list (string * option json)) :=
  res_mapM (fun kv => res_map (kv.1,.) (f kv.2)) ps.

Lemma serialize_plain (n : nat) (h : heap) (l : loc) ps :
  h !! l = Some (OPlain ps) ->
  serialize (S n) h (VRef l)
  = res_map (fun js => Some (JObj (json_props js))) (ser_props (serialize n h) ps).
Proof. intros E. cbn [serialize]. by rewrite E. Qed.

Section SerProps.
Implicit Types (f g : val -> res (option json)) (ps : list (string * val)).

Lemma ser_props_cons f k v ps js :
  ser_props f ((k, v) :: ps) = Ok js ->
  exists j js', f v = Ok j /\ ser_props f ps = Ok js' /\ js = (k, j) :: js'.
Proof.
  unfold ser_props. cbn [res_mapM fst snd]. intros H.
  destruct (f v) as [j|]; [|done]. cbn in H.
  destruct (res_mapM _ ps) as [js'|]; [|done]. simplify_eq. eauto.
Qed.

Lemma ser_props_keys f ps js : ser_props f ps = Ok js -> js.*1 = ps.*1.
Proof.
  revert js. induction ps as [|[k v] ps IH]; intros js H; [by injection H as <-|].
  apply ser_props_cons in H as (j & js' & _ & Hp & ->). cbn. by rewrite (IH _ Hp).
Qed.

Lemma ser_props_get f ps js k v :
  ser_props f ps = Ok js -> assoc_get k ps = Some v ->
  exists j, f v = Ok j /\ assoc_get k js = Some j.
Proof.
  revert js. induction ps as [|[k' v'] ps IH]; intros js H Hg; [done|].
  apply ser_props_cons in H as (j & js' & Hj & Hp & ->). cbn in *.
  destruct (String.eqb k k'); [simplify_eq; eauto|eauto].
Qed.

Lemma ser_props_mono f g ps js :
  ser_props f ps = Ok js ->
  (forall k v j, (k, v) ∈ ps -> f v = Ok j -> g v = Ok j) -> ser_props g ps = Ok js.
Proof.
  revert js. induction ps as [|[k v] ps IH]; intros js H Hfg; [done|].
  apply ser_props_cons in H as (j & js' & Hj & Hp & ->).
  assert (IHp : ser_props g ps = Ok js') by (apply IH; [done|set_solver]).
  unfold ser_props in *. cbn [res_mapM fst snd]. rewrite (Hfg k v j) by set_solver.
  cbn [res_map]. by rewrite IHp.
Qed.

(** Assigning one property changes its JSON and no other. *)
Lemma ser_props_set f g ps js k x y :
  ser_props f ps = Ok js -> NoDup ps.*1 -> is_Some (assoc_get k ps) -> g x = Ok y ->
  (forall k' v j, (k', v) ∈ ps -> k' <> k -> f v = Ok j -> g v = Ok j) ->
  ser_props g (assoc_set k x ps) = Ok (assoc_set k y js).
Proof.
  revert js. induction ps as [|[k' v] ps IH]; intros js H Hnd [w Hw] Hx Hfg; [done|].
  apply ser_props_cons in H as (j & js' & Hj & Hp & ->).
  cbn [fmap list_fmap fst] in Hnd. apply NoDup_cons in Hnd as [Hn Hnd]. cbn in *.
  destruct (String.eqb_spec k k') as [<-|Hne].
  - unfold ser_props. cbn [res_mapM fst snd]. rewrite Hx. cbn [res_map].
    assert (Hps : ser_props g ps = Ok js').
    { apply ser_props_mono with f; [done|]. intros k' v' j' Hin. apply (Hfg k'); [set_solver|].
      intros ->. destruct Hn. apply list_elem_of_fmap. by exists (k, v'). }
    unfold ser_props in Hps. by rewrite Hps.
  - assert (Hps : ser_props g (assoc_set k x ps) = Ok (assoc_set k y js'))
      by (apply IH; eauto; set_solver).
    unfold ser_props in *. cbn [res_mapM fst snd]. rewrite (Hfg k' v j); [|set_solver|done|done].
    cbn [res_map]. by rewrite Hps.
Qed.

Lemma ser_props_del f ps js k :
  ser_props f ps = Ok js -> ser_props f (assoc_del k ps) = Ok (assoc_del k js).
Proof.
  revert js. induction ps as [|[k' v] ps IH]; intros js H; [by injection H as <-|].
  apply ser_props_cons in H as (j & js' & Hj & Hp & ->). cbn.
  destruct (String.eqb k k'); [by apply IH|].
  specialize (IH _ Hp). unfold ser_props in *. cbn [res_mapM fst snd]. rewrite Hj.
  cbn [res_map]. by rewrite IH.
Qed.
End SerProps.

Lemma json_props_del k js : json_props (assoc_del k js) = assoc_del k (json_props js).
Proof.
  induction js as [|[k' [j|]] js IH]; [done| |]; cbn; destruct (String.eqb k k') eqn:E; cbn;
    rewrite ?E; unfold json_props in IH; by rewrite ?IH.
Qed.

Lemma json_props_get k js :
  NoDup js.*1 -> assoc_get k (json_props js) = match assoc_get k js with Some j => j | None => None end.
Proof.
  induction js as [|[k' j] js IH]; [done|]. cbn. intros [Hn Hnd]%NoDup_cons.
  destruct (String.eqb_spec k k') as [<-|Hne].
  - destruct j as [j|]; cbn; [by rewrite String.eqb_refl|]. unfold json_props in IH.
    rewrite IH by done. apply assoc_get_None in Hn. by rewrite Hn.
  - destruct j as [j|]; cbn; unfold json_props in IH; [|by apply IH].
    apply String.eqb_neq in Hne. rewrite Hne. by apply IH.
Qed.

Lemma json_props_set k j js :
  NoDup js.*1 -> is_Some (assoc_get k (json_props js)) ->
  json_props (assoc_set k (Some j) js) = assoc_set k j (json_props js).
Proof.
  induction js as [|[k' j'] js IH]; [by intros _ [? ?]|]. intros Hnd Hg.
  rewrite json_props_get in Hg by done. cbn in *. apply NoDup_cons in Hnd as [Hn Hnd].
  destruct (String.eqb_spec k k') as [<-|Hne].
  - destruct j' as [j'|]; [|by destruct Hg]. cbn. by rewrite String.eqb_refl.
  - rewrite <- json_props_get in Hg by done. specialize (IH Hnd Hg). unfold json_props in *.
    apply String.eqb_neq in Hne. destruct j'; cbn; rewrite ?Hne; by rewrite IH.
Qed.

(** A value kept apart from the changes keeps its JSON. *)
Lemma serialize_kept (n m : nat) (h h' : heap) (L : list loc) (v : val) (j : option json) :
  apart (length h) h L v = true ->
  (forall l o, l ∉ L -> h !! l = Some o -> h' !! l = Some o) ->
  serialize n h v = Ok j -> n <= length h -> length h <= m -> serialize m h' v = Ok j.
Proof.
  intros Ha Hh Hj Hn Hm. apply serialize_mono with (length h); [|done].
  rewrite (serialize_apart _ h h' L) by done. by apply serialize_mono with n.
Qed.
