(* ===== verification/JsonStore.v ===== *)
(** * JSON read into the store

    [res.json()] builds a tree: distinct values share no object, and writing
    the tree back gives the JSON it came from. *)

From S2P Require Import Prelude JsNumber JsValue.

Section JsonInd.
Context (P : json -> Prop).
Hypothesis Hnull : P JNull.
Hypothesis Hbool : forall b, P (JBool b).
Hypothesis Hnum : forall n, P (JNum n).
Hypothesis Hstr : forall s, P (JStr s).
Hypothesis Harr : forall js, Forall P js -> P (JArr js).
Hypothesis Hobj : forall ps, Forall P ps.*2 -> P (JObj ps).

Fixpoint json_nested_ind (j : json) : P j :=
  match j with
  | JNull => Hnull
  | JBool b => Hbool b
  | JNum n => Hnum n
  | JStr s => Hstr s
  | JArr js =>
      Harr js ((fix go (js : list json) : Forall P js :=
                  match js with
                  | [] => Forall_nil_2 P
                  | j :: js' => Forall_cons_2 P j js' (json_nested_ind j) (go js')
                  end) js)
  | JObj ps =>
      Hobj ps ((fix go (ps : list (string * json)) : Forall P ps.*2 :=
                  match ps with
                  | [] => Forall_nil_2 P
                  | kj :: ps' => Forall_cons_2 P kj.2 ps'.*2 (json_nested_ind kj.2) (go ps')
                  end) ps)
  end.
End JsonInd.

(** All numbers are finite, as in JSON text. *)
Definition is_finite (n : num) : bool :=
  match n with S754_nan | S754_infinity _ => false | _ => true end.

Fixpoint finite (j : json) : bool :=
  match j with
  | JNum n => is_finite n
  | JArr js => forallb finite js
  | JObj ps => forallb (fun kj => finite kj.2) ps
  | _ => true
  end.

(** The elements of an array, or the values of an object, loaded in order. *)
Fixpoint load_list (js : list json) (h : heap) : list val * heap :=
  match js with
  | [] => ([], h)
  | j :: js' =>
      let '(v, h1) := load_json j h in
      let '(vs, h2) := load_list js' h1 in (v :: vs, h2)
  end.

Lemma load_json_arr (js : list json) (h : heap) :
  load_json (JArr js) h
  = let '(vs, h') := load_list js h in (VRef (length h'), h' ++ [OArray vs]).
Proof. reflexivity. Qed.

Fixpoint load_props (ps : list (string * json)) (h : heap) : list (string * val) * heap :=
  match ps with
  | [] => ([], h)
  | (k, j) :: ps' =>
      let '(v, h1) := load_json j h in
      let '(kvs, h2) := load_props ps' h1 in ((k, v) :: kvs, h2)
  end.

Lemma load_props_list (ps : list (string * json)) (h : heap) :
  load_props ps h = let '(vs, h') := load_list ps.*2 h in (zip ps.*1 vs, h').
Proof.
  revert h. induction ps as [|[k j] ps IH]; intros h; [done|]. cbn.
  destruct (load_json j h) as [v h1]. rewrite IH. by destruct (load_list ps.*2 h1).
Qed.

Lemma load_json_obj (ps : list (string * json)) (h : heap) :
  load_json (JObj ps) h
  = let '(vs, h') := load_list ps.*2 h in (VRef (length h'), h' ++ [OPlain (zip ps.*1 vs)]).
Proof.
  transitivity (let '(kvs, h') := load_props ps h in (VRef (length h'), h' ++ [OPlain kvs]));
    [reflexivity|].
  rewrite load_props_list. by destruct (load_list ps.*2 h).
Qed.

(** [v], loaded while the store grew from [a] to [b] objects, holds [j]:
    nothing outside that range is part of it, now or in a longer store. *)
Record holds (a b : nat) (h : heap) (v : val) (j : json) : Prop := Holds {
  holds_root : forall l, v = VRef l -> a <= l < b;
  holds_apart : forall n L ext, (forall l, l ∈ L -> l < a \/ b <= l) ->
    apart n (h ++ ext) L v = true;
  holds_json : finite j = true -> forall m ext, b - a <= m ->
    serialize m (h ++ ext) v = Ok (Some j)
}.

Lemma holds_app a b h h' v j : holds a b h v j -> holds a b (h ++ h') v j.
Proof.
  intros [Hr Ha Hj]. split; [done| |]; intros; rewrite <- app_assoc; auto.
Qed.

Lemma holds_prim h a v j :
  (forall l, v <> VRef l) -> (forall n h', serialize n h' v = Ok (Some (if finite j then j else JNull))) ->
  holds a a h v j.
Proof.
  intros Hv Hs. split.
  - intros l ->. by destruct (Hv l).
  - intros n L ext _. destruct v; try (by destruct n). by destruct (Hv l).
  - intros Hf m ext _. by rewrite Hs, Hf.
Qed.

(** Loaded values in order, each in its own range. *)
Inductive holds_list : nat -> nat -> heap -> list val -> list json -> Prop :=
| holds_nil a h : holds_list a a h [] []
| holds_cons a b c h v vs j js :
    a <= b -> b <= c -> holds a b h v j -> holds_list b c h vs js ->
    holds_list a c h (v :: vs) (j :: js).

Lemma holds_list_app a b h h' vs js : holds_list a b h vs js -> holds_list a b (h ++ h') vs js.
Proof. induction 1; econstructor; eauto using holds_app. Qed.

Lemma holds_list_le a b h vs js : holds_list a b h vs js -> a <= b.
Proof. induction 1; lia. Qed.

Lemma holds_list_length a b h vs js : holds_list a b h vs js -> length vs = length js.
Proof. induction 1; cbn; lia. Qed.

Lemma holds_list_lookup a b h vs js i v :
  holds_list a b h vs js -> vs !! i = Some v ->
  exists j a' b', js !! i = Some j /\ a <= a' /\ a' <= b' /\ b' <= b /\ holds a' b' h v j.
Proof.
  intros H. revert i. induction H as [|a b c h w vs j js Hab Hbc Hw H IH]; intros i Hi; [done|].
  destruct i as [|i]; cbn in *.
  - simplify_eq. exists j, a, b. auto.
  - destruct (IH _ Hi) as (j' & a' & b' & ? & ? & ? & ? & ?). exists j', a', b'. split_and!; auto; lia.
Qed.

(** Two values of a list share nothing. *)
Lemma holds_list_disjoint a b h vs js i v :
  holds_list a b h vs js -> vs !! i = Some v ->
  exists j a' b', a <= a' /\ b' <= b /\ holds a' b' h v j /\
    forall i' l, i' <> i -> vs !! i' = Some (VRef l) -> l < a' \/ b' <= l.
Proof.
  intros H. revert i. induction H as [|a b c h w vs j js Hab Hbc Hw H IH]; intros i Hi; [done|].
  destruct i as [|i]; cbn in Hi.
  - simplify_eq. exists j, a, b. split_and!; [lia|lia|done|]. intros [|i'] l Hne Hl; [done|]. cbn in Hl.
    destruct (holds_list_lookup _ _ _ _ _ _ _ H Hl) as (j' & a' & b' & _ & ? & ? & ? & Hh).
    right. destruct (holds_root _ _ _ _ _ Hh l eq_refl). lia.
  - destruct (IH i Hi) as (j' & a' & b' & Ha & Hb & Hh & Hd).
    exists j', a', b'. split_and!; [lia|done|done|]. intros [|i'] l Hne Hl; cbn in Hl.
    + simplify_eq. left. destruct (holds_root _ _ _ _ _ Hw l eq_refl). lia.
    + apply (Hd i'); [congruence|done].
Qed.

Lemma holds_list_apart a b h vs js n L ext :
  holds_list a b h vs js -> (forall l, l ∈ L -> l < a \/ b <= l) ->
  forallb (apart n (h ++ ext) L) vs = true.
Proof.
  intros H. induction H as [|a b c h w vs j js Hab Hbc Hw H IH]; intros HL; [done|]. cbn.
  rewrite (holds_apart _ _ _ _ _ Hw); [|intros l Hl; destruct (HL l Hl); lia].
  apply IH. intros l Hl. destruct (HL l Hl); lia.
Qed.

Lemma holds_list_json a b h vs js m ext :
  holds_list a b h vs js -> forallb finite js = true -> b - a <= m ->
  res_mapM (serialize m (h ++ ext)) vs = Ok (Some <$> js).
Proof.
  intros H. induction H as [|a b c h w vs j js Hab Hbc Hw H IH]; intros Hf Hm; [done|].
  cbn in *. reflect_tests. rewrite (holds_json _ _ _ _ _ Hw) by (done || lia).
  by rewrite IH by (done || lia).
Qed.

Lemma zip_props_json a b h vs ps m ext :
  holds_list a b h vs ps.*2 -> forallb (fun kj => finite kj.2) ps = true -> b - a <= m ->
  ser_props (serialize m (h ++ ext)) (zip ps.*1 vs) = Ok ((fun kj => (kj.1, Some kj.2)) <$> ps).
Proof.
  remember ps.*2 as js eqn:Ejs. intros H. revert ps Ejs.
  induction H as [|a b c h w vs j js Hab Hbc Hw H IH]; intros [|[k j'] ps] Ejs Hf Hm; try done.
  cbn in *. simplify_eq. reflect_tests. specialize (IH ps eq_refl).
  unfold ser_props in *. cbn [res_mapM fst snd].
  rewrite (holds_json _ _ _ _ _ Hw) by (done || lia). cbn [res_map].
  by rewrite IH by (done || lia).
Qed.

Lemma json_props_all (ps : list (string * json)) :
  json_props ((fun kj => (kj.1, Some kj.2)) <$> ps) = ps.
Proof.
  induction ps as [|[k j] ps IH]; [done|]. cbn. unfold json_props in IH. by rewrite IH.
Qed.

Lemma lookup_end (h ext : heap) (o : obj) : ((h ++ [o]) ++ ext) !! length h = Some o.
Proof. rewrite <- app_assoc. by rewrite lookup_app_r, Nat.sub_diag by lia. Qed.

Lemma load_list_holds (js : list json) :
  Forall (fun j => forall h, exists new, (load_json j h).2 = h ++ new /\
    holds (length h) (length (load_json j h).2) (load_json j h).2 (load_json j h).1 j) js ->
  forall h, exists new, (load_list js h).2 = h ++ new /\
    holds_list (length h) (length (load_list js h).2) (load_list js h).2 (load_list js h).1 js.
Proof.
  induction 1 as [|j js Hj _ IH]; intros h.
  - exists []. rewrite app_nil_r. split; [done|constructor].
  - cbn [load_list]. destruct (Hj h) as (new & E1 & H1). destruct (load_json j h) as [v h1].
    cbn [fst snd] in *. destruct (IH h1) as (new' & E2 & H2).
    destruct (load_list js h1) as [vs h2]. cbn [fst snd] in *. subst.
    exists (new ++ new'). rewrite app_assoc. split; [done|].
    apply holds_cons with (length (h ++ new)); [rewrite length_app; lia|rewrite (length_app (h ++ new)); lia| |done].
    by apply holds_app.
Qed.

(** A loaded value holds its JSON. *)
Lemma load_json_holds (j : json) (h : heap) :
  exists new, (load_json j h).2 = h ++ new /\
    holds (length h) (length (load_json j h).2) (load_json j h).2 (load_json j h).1 j.
Proof.
  revert h. induction j as [|b|n|s|js IH|ps IH] using json_nested_ind; intros h.
  1-4: exists []; rewrite app_nil_r; split; [done|]; apply holds_prim; [done|].
  1-4: intros [|m] h'; try done; by destruct n.
  - rewrite load_json_arr. destruct (load_list_holds js IH h) as (new & E & Hl).
    destruct (load_list js h) as [vs h']. cbn [fst snd] in *. subst h'.
    exists (new ++ [OArray vs]). rewrite app_assoc. split; [done|].
    assert (Hle := holds_list_le _ _ _ _ _ Hl).
    set (h' := h ++ new) in *. rewrite length_app. cbn [length]. split.
    + intros l [= <-]. lia.
    + intros n L ext HL. assert (length h' ∉ L) by (intros Hin; destruct (HL _ Hin); lia).
      destruct n as [|n]; cbn [apart]; rewrite bool_decide_eq_false_2 by done; [done|].
      cbn [negb andb]. rewrite lookup_end, <- app_assoc.
      eapply holds_list_apart; [exact Hl|]. intros l Hin. destruct (HL l Hin); lia.
    + intros Hf m ext Hm. destruct m as [|m]; [lia|]. cbn [serialize].
      rewrite lookup_end, <- app_assoc. erewrite holds_list_json; [|exact Hl|done|lia].
      cbn [res_map]. rewrite <- list_fmap_compose. by rewrite list_fmap_id.
  - rewrite load_json_obj. destruct (load_list_holds ps.*2 IH h) as (new & E & Hl).
    destruct (load_list ps.*2 h) as [vs h']. cbn [fst snd] in *. subst h'.
    exists (new ++ [OPlain (zip ps.*1 vs)]). rewrite app_assoc. split; [done|].
    assert (Hle := holds_list_le _ _ _ _ _ Hl).
    set (h' := h ++ new) in *. rewrite length_app. cbn [length]. split.
    + intros l [= <-]. lia.
    + intros n L ext HL. assert (length h' ∉ L) by (intros Hin; destruct (HL _ Hin); lia).
      destruct n as [|n]; cbn [apart]; rewrite bool_decide_eq_false_2 by done; [done|].
      cbn [negb andb]. rewrite lookup_end, <- app_assoc.
      assert (Hfa := holds_list_apart _ _ _ _ _ n L ([OPlain (zip ps.*1 vs)] ++ ext) Hl).
      rewrite forallb_forall in Hfa.
      apply forallb_forall. intros [k v] Hin%list_elem_of_In%elem_of_zip_r. apply Hfa.
      * intros l Hl'. destruct (HL l Hl'); lia.
      * by apply list_elem_of_In.
    + intros Hf m ext Hm. destruct m as [|m]; [lia|].
      rewrite (serialize_plain _ _ _ (zip ps.*1 vs)) by apply lookup_end.
      rewrite <- app_assoc. erewrite zip_props_json; [|exact Hl|done|lia].
      cbn [res_map]. by rewrite json_props_all.
Qed.

(** ** Values read from the server *)

(** [v] was read from the JSON [j], and nothing of it was changed since. *)
Definition read (h : heap) (v : val) (j : json) : Prop :=
  exists h0 ext, load_json j h0 = (v, (load_json j h0).2) /\ h = (load_json j h0).2 ++ ext.

Lemma read_app h h' v j : read h v j -> read (h ++ h') v j.
Proof.
  intros (h0 & ext & E & ->). exists h0, (ext ++ h'). by rewrite <- app_assoc.
Qed.

Lemma load_json_read j h : read (load_json j h).2 (load_json j h).1 j.
Proof. exists h, []. rewrite app_nil_r. by destruct (load_json j h). Qed.

Lemma load_list_read js h : Forall2 (read (load_list js h).2) (load_list js h).1 js.
Proof.
  revert h. induction js as [|j js IH]; intros h; [constructor|]. cbn [load_list].
  assert (Hj := load_json_read j h). destruct (load_json j h) as [v h1].
  specialize (IH h1).
  destruct (load_list_holds js) with h1 as (new & E & _).
  { apply Forall_forall. intros j' _. apply load_json_holds. }
  destruct (load_list js h1) as [vs h2]. cbn [fst snd] in *. subst h2.
  constructor; [by apply read_app|done].
Qed.

Lemma load_list_ranges js h :
  exists new, (load_list js h).2 = h ++ new /\
  holds_list (length h) (length (load_list js h).2) (load_list js h).2 (load_list js h).1 js.
Proof. apply load_list_holds, Forall_forall. intros j _. apply load_json_holds. Qed.

(** Reading back what was read. *)
Lemma read_serialize h v j m :
  read h v j -> finite j = true -> length h <= m -> serialize m h v = Ok (Some j).
Proof.
  intros (h0 & ext & E & ->) Hf Hm. destruct (load_json_holds j h0) as (new & En & Hh).
  rewrite E in Hh. cbn [fst snd] in Hh.
  apply (holds_json _ _ _ _ _ Hh Hf). rewrite length_app in Hm. lia.
Qed.

Lemma read_ser_props h vs (js : list (string * json)) m :
  Forall2 (read h) vs js.*2 -> forallb (fun kj => finite kj.2) js = true -> length h <= m ->
  ser_props (serialize m h) (zip js.*1 vs) = Ok ((fun kj => (kj.1, Some kj.2)) <$> js).
Proof.
  remember js.*2 as l eqn:El. intros H. revert js El.
  induction H as [|v j vs l Hv _ IH]; intros [|[k jk] js] El Hf Hm; try done.
  cbn in El, Hf. injection El as -> ->. apply andb_true_iff in Hf as [Hf1 Hf2].
  specialize (IH js eq_refl Hf2 Hm). unfold ser_props in *.
  cbn [fmap list_fmap zip zip_with res_mapM fst snd].
  rewrite (read_serialize h v jk m) by done. cbn [res_map]. by rewrite IH.
Qed.

Lemma read_json h v j : read h v j -> finite j = true -> to_json h v = Ok (Some j).
Proof. intros Hr Hf. apply read_serialize; [done|done|lia]. Qed.

Lemma read_arr h v l :
  read h v (JArr l) ->
  exists la es, v = VRef la /\ h !! la = Some (OArray es) /\ Forall2 (read h) es l /\
    forall n L w, (forall l', l' ∈ L -> la <= l') -> w ∈ es -> apart n h L w = true.
Proof.
  intros (h0 & ext & E & ->). rewrite load_json_arr in *.
  assert (Hr := load_list_read l h0). destruct (load_list_ranges l h0) as (new & _ & Hh).
  destruct (load_list l h0) as [es h1]. cbn [fst snd] in *. injection E as <-.
  exists (length h1), es. rewrite lookup_end. split_and!; try done.
  - eapply Forall2_impl; [exact Hr|]. intros. by apply read_app, read_app.
  - intros n L w HL Hw. rewrite <- app_assoc.
    assert (Ha := holds_list_apart _ _ _ _ _ n L ([OArray es] ++ ext) Hh).
    rewrite forallb_forall in Ha. apply Ha; [|by apply list_elem_of_In]. intros l' Hl'.
    right. auto.
Qed.

(** The properties of an object read from the server: each was read from its
    JSON and shares nothing with another one. *)
Lemma read_obj h v js :
  read h v (JObj js) ->
  exists lo vs, v = VRef lo /\ h !! lo = Some (OPlain (zip js.*1 vs)) /\
    Forall2 (read h) vs js.*2 /\ (forall i l, vs !! i = Some (VRef l) -> l < lo) /\
    forall n L i w, vs !! i = Some w ->
      (forall l', l' ∈ L -> lo <= l' \/ exists i', i' <> i /\ vs !! i' = Some (VRef l')) ->
      apart n h L w = true.
Proof.
  intros (h0 & ext & E & ->). rewrite load_json_obj in *.
  assert (Hr := load_list_read js.*2 h0). destruct (load_list_ranges js.*2 h0) as (new & _ & Hh).
  destruct (load_list js.*2 h0) as [vs h1]. cbn [fst snd] in *. injection E as <-.
  exists (length h1), vs. rewrite lookup_end. split_and!; try done.
  - eapply Forall2_impl; [exact Hr|]. intros. by apply read_app, read_app.
  - intros i l Hl. destruct (holds_list_lookup _ _ _ _ _ _ _ Hh Hl) as (j & a & b & _ & _ & _ & ? & Hj).
    destruct (holds_root _ _ _ _ _ Hj l eq_refl). lia.
  - intros n L i w Hw HL. rewrite <- app_assoc.
    destruct (holds_list_disjoint _ _ _ _ _ _ _ Hh Hw) as (j & a & b & _ & Hb & Hj & Hd).
    apply (holds_apart _ _ _ _ _ Hj). intros l' Hl'.
    destruct (HL l' Hl') as [Hge|(i' & Hne & Hi')]; [lia|by apply (Hd i')].
Qed.
