(* ===== verification/Markup.v ===== *)
(** * Markup

    What a component renders, as a tree of elements and texts: enough of the
    DOM to say what a user reads and which fields a form has.  Classes and
    styles are left out. *)

From S2P Require Import Prelude JsNumber.

Inductive markup : Type :=
| Text (s : string)
| Element (tag : string) (children : list markup)
| Input (type placeholder : string) (required : bool).

(** A fragment. *)
Abbreviation Fragment := (Element "").

Fixpoint textContent (m : markup) : string :=
  match m with
  | Text s => s
  | Element _ ms => String.concat "" (textContent <$> ms)
  | Input _ _ _ => ""
  end.

(** The input fields in document order: type, placeholder, required. *)
Fixpoint inputs (m : markup) : list (string * string * bool) :=
  match m with
  | Text _ => []
  | Element _ ms => concat (inputs <$> ms)
  | Input t p r => [(t, p, r)]
  end.

Fixpoint elements (tag : string) (m : markup) : nat :=
  match m with
  | Text _ | Input _ _ _ => 0
  | Element t ms => (if String.eqb t tag then 1 else 0) + sum_list (elements tag <$> ms)
  end.
