(* ===== verification/Http.v ===== *)
(** * Requests, responses and asynchronous handlers

    An event handler of the UI is a [proc]: it may ask the user
    ([window.confirm]), emit effects (setters, callbacks, [window.alert]) and
    suspend at [await fetch(...)].  Between a request and its answer other
    handlers may run and change the shared store, so the continuation of a
    [Fetch] receives the store as it is when the answer arrives.

    The network and the browser dialogs are the environment: an [oracle] says
    what the user and the server answer. *)

From S2P Require Import Prelude JsValue.

Record request : Type := Request {
  method : string;
  url : string;
  headers : list (string * string);
  body : option string
}.

#[global] Instance request_eq_dec : EqDecision request.
Proof. solve_decision. Defined.

(** What [await fetch(...)] gives: a rejection, with the message of the error
    and whether it is an [Error] instance, or a response.  [json] is the
    decoded body, [None] when [res.json()] rejects. *)
Inductive fetch_result (B : Type) : Type :=
| Rejected (is_error : bool) (message : string)
| Resp (ok : bool) (statusText : string) (json : option B).
Arguments Rejected {B} is_error message.
Arguments Resp {B} ok statusText json.

Inductive proc (E : Type) : Type :=
| Done (r : res unit) (h : heap)
| Emit (e : E) (k : proc E)
| Confirm (msg : string) (k : bool -> proc E)
| Fetch (req : request) (h : heap) (k : fetch_result unit -> heap -> proc E).
Arguments Done {E} r h.
Arguments Emit {E} e k.
Arguments Confirm {E} msg k.
Arguments Fetch {E} req h k.

(** Runs synchronous code and continues with its value; an exception ends the
    handler (a rejected promise nobody awaits). *)
Definition sync {E A} (c : js A) (h : heap) (k : A -> heap -> proc E) : proc E :=
  match c h with
  | (Ok a, h') => k a h'
  | (Throw e, h') => Done (Throw e) h'
  end.

(** The answers of the environment to one run of a handler: the confirmation
    dialogs, and the response together with the store at that time. *)
Record oracle : Type := Oracle {
  confirms : bool;
  answer : request -> fetch_result unit;
  meanwhile : heap -> heap
}.

(** What a run shows to the outside: the requests sent, the effects emitted
    and the outcome with the final store. *)
Record trace (E : Type) : Type := Trace {
  sent : list request;
  emitted : list E;
  outcome : res unit;
  final : heap
}.
Arguments Trace {E} sent emitted outcome final.
Arguments sent {E} t.
Arguments emitted {E} t.
Arguments outcome {E} t.
Arguments final {E} t.

Fixpoint run {E} (o : oracle) (p : proc E) : trace E :=
  match p with
  | Done r h => Trace [] [] r h
  | Emit e k => let t := run o k in Trace (sent t) (e :: emitted t) (outcome t) (final t)
  | Confirm _ k => run o (k (confirms o))
  | Fetch req h k =>
      let t := run o (k (answer o req) (meanwhile o h)) in
      Trace (req :: sent t) (emitted t) (outcome t) (final t)
  end.

(** An environment that accepts every dialog, answers every request with [r]
    and leaves the store alone. *)
Definition quiet (confirmed : bool) (r : fetch_result unit) : oracle :=
  Oracle confirmed (fun _ => r) id.
