(* ===== verification/ServerUtil.v ===== *)
(** * The server's string utilities

    include/nsblast/util.h and lib/util.cpp: white space and case, base64, the
    syntax of domain names and the relation between names and zones. *)

From S2P Require Import Prelude JsNumber.

Local Open Scope Z_scope.

(** ** White space and case *)

Definition strip_front (p : ascii -> bool) : string -> string :=
  fix go s := match s with
              | String c s' => if p c then go s' else s
              | EmptyString => s
              end.

Definition strip_back (p : ascii -> bool) : string -> string :=
  fix go s := match s with
              | String c s' =>
                  match go s' with
                  | EmptyString => if p c then EmptyString else String c EmptyString
                  | t => String c t
                  end
              | EmptyString => s
              end.

Definition strip (p : ascii -> bool) (s : string) : string := strip_back p (strip_front p s).

(** std::tolower and std::isspace in the C locale. *)
Definition c_tolower (c : ascii) : ascii :=
  let n := nat_of_ascii c in
  if (Nat.leb 65 n && Nat.leb n 90)%bool then ascii_of_nat (n + 32) else c.

Definition c_isspace (c : ascii) : bool :=
  let n := nat_of_ascii c in (Nat.eqb n 32 || (Nat.leb 9 n && Nat.leb n 13))%bool.

Fixpoint compareCaseInsensitive (start full : string) (fullMatch : bool) : bool :=
  match start, full with
  | EmptyString, EmptyString => true
  | EmptyString, String _ _ => negb fullMatch
  | String _ _, EmptyString => false
  | String a start', String b full' =>
      if Ascii.eqb (c_tolower a) (c_tolower b) then compareCaseInsensitive start' full' fullMatch
      else false
  end.

Definition trim (s : string) : string := strip c_isspace s.

(** toLower on bytes. *)
Definition toLower (bs : list Z) : list Z :=
  (fun b => if (65 <=? b) && (b <=? 90) then b + 32 else b) <$> bs.

(** toLower on strings. *)
Fixpoint toLowerStr (s : string) : string :=
  match s with
  | EmptyString => EmptyString
  | String c s' => String (c_tolower c) (toLowerStr s')
  end.

(** ** base64 *)

Definition b64_chars : string :=
  "ABCDEFGHIJKLMNOPQRSTUVWXYZabcdefghijklmnopqrstuvwxyz0123456789+/".

Definition b64_char (i : Z) : ascii := default "="%char (String.get (Z.to_nat i) b64_chars).

Fixpoint b64_encode (bs : list Z) : string :=
  match bs with
  | [] => ""
  | [a] =>
      String (b64_char (Z.shiftr a 2)) (String (b64_char (Z.shiftl (Z.land a 3) 4)) "==")
  | [a; b] =>
      String (b64_char (Z.shiftr a 2))
        (String (b64_char (Z.lor (Z.shiftl (Z.land a 3) 4) (Z.shiftr b 4)))
          (String (b64_char (Z.shiftl (Z.land b 15) 2)) "="))
  | a :: b :: c :: bs' =>
      String (b64_char (Z.shiftr a 2))
        (String (b64_char (Z.lor (Z.shiftl (Z.land a 3) 4) (Z.shiftr b 4)))
          (String (b64_char (Z.lor (Z.shiftl (Z.land b 15) 2) (Z.shiftr c 6)))
            (String (b64_char (Z.land c 63)) (b64_encode bs'))))
  end%string.

(** base64_chars.find(c) on a 64-bit size_t. *)
Definition npos : Z := 2 ^ 64 - 1.

Fixpoint find_in (c : ascii) (s : string) (i : Z) : Z :=
  match s with
  | EmptyString => npos
  | String c' s' => if Ascii.eqb c c' then i else find_in c s' (i + 1)
  end.

Definition b64_find (c : ascii) : Z := find_in c b64_chars 0.

(** A size_t stored in a char. *)
Definition to_char (z : Z) : Z := z mod 256.

Definition size_t (z : Z) : Z := z mod 2 ^ 64.

(** The bytes of one group of four, the last two possibly missing. *)
Definition decode_group (c1 c2 : ascii) (c3 c4 : option ascii) : list Z :=
  let index1 := b64_find c1 in
  let index2 := b64_find c2 in
  let index3 := b64_find (default "="%char c3) in
  let index4 := b64_find (default "="%char c4) in
  let a := Z.lor (size_t (Z.shiftl index1 2)) (Z.shiftr index2 4) in
  let b := Z.lor (Z.shiftl (Z.land index2 15) 4) (Z.shiftr index3 2) in
  let c := Z.lor (Z.shiftl (Z.land index3 3) 6) index4 in
  to_char a :: (if index3 =? npos then [] else [to_char b])
    ++ (if index4 =? npos then [] else [to_char c]).

(** base64Decode; [None] where [in[i + 1]] is read beyond the end. *)
Fixpoint base64Decode (s : string) : option (list Z) :=
  match s with
  | EmptyString => Some []
  | String c1 EmptyString => None
  | String c1 (String c2 EmptyString) => Some (decode_group c1 c2 None None)
  | String c1 (String c2 (String c3 EmptyString)) => Some (decode_group c1 c2 (Some c3) None)
  | String c1 (String c2 (String c3 (String c4 s'))) =>
      app (decode_group c1 c2 (Some c3) (Some c4)) <$> base64Decode s'
  end.

(** ** base64 is decoded to what was encoded *)

Definition bytes256 : list Z := Z.of_nat <$> seq 0 256.

Lemma byte_in (a : Z) : 0 <= a < 256 -> a ∈ bytes256.
Proof.
  intros Ha. unfold bytes256. apply list_elem_of_fmap. exists (Z.to_nat a). split; [lia|].
  apply elem_of_seq. lia.
Qed.

Lemma all_bytes (P : Z -> bool) (a : Z) : forallb P bytes256 = true -> 0 <= a < 256 -> P a = true.
Proof. rewrite forallb_forall. intros H Ha. by apply H, list_elem_of_In, byte_in. Qed.

Lemma all_pairs (P : Z -> Z -> bool) (a b : Z) :
  forallb (fun a => forallb (P a) bytes256) bytes256 = true ->
  0 <= a < 256 -> 0 <= b < 256 -> P a b = true.
Proof.
  intros H Ha Hb. apply (all_bytes (P a) b); [|done].
  exact (all_bytes (fun a => forallb (P a) bytes256) a H Ha).
Qed.

(** The six bits of a character are found again. *)
Lemma find_char (i : Z) : 0 <= i < 64 -> b64_find (b64_char i) = i.
Proof.
  intros Hi.
  assert (H : forallb (fun i => if i <? 64 then b64_find (b64_char i) =? i else true) bytes256 = true)
    by (vm_compute; reflexivity).
  apply (all_bytes _ i) in H; [|lia]. cbv beta in H. rewrite (proj2 (Z.ltb_lt i 64)) in H by lia.
  by apply Z.eqb_eq in H.
Qed.

Lemma find_pad : b64_find "="%char = npos.
Proof. reflexivity. Qed.

Section Bits.
Context (a b c : Z).
Hypothesis Ha : 0 <= a < 256.
Hypothesis Hb : 0 <= b < 256.
Hypothesis Hc : 0 <= c < 256.

Definition bits_ok (a b : Z) : bool :=
  let i1 := Z.shiftr a 2 in
  let i2 := Z.lor (Z.shiftl (Z.land a 3) 4) (Z.shiftr b 4) in
  let i3 := Z.lor (Z.shiftl (Z.land a 15) 2) (Z.shiftr b 6) in
  (0 <=? i1) && (i1 <? 64) && (0 <=? i2) && (i2 <? 64) && (0 <=? i3) && (i3 <? 64)
  && (0 <=? Z.land a 63) && (Z.land a 63 <? 64)
  && (to_char (Z.lor (size_t (Z.shiftl i1 2)) (Z.shiftr i2 4)) =? a)
  && (Z.land i2 15 =? Z.shiftr b 4) && (Z.shiftr i3 2 =? Z.land a 15)
  && (to_char (Z.lor (Z.shiftl (Z.shiftr a 4) 4) (Z.land a 15)) =? a)
  && (to_char (Z.lor (Z.shiftl (Z.land i3 3) 6) (Z.land b 63)) =? b).

Lemma bits_all (x y : Z) : 0 <= x < 256 -> 0 <= y < 256 -> bits_ok x y = true.
Proof. apply all_pairs. vm_compute. reflexivity. Qed.
End Bits.

(** Six-bit numbers are not npos. *)
Lemma not_npos (i : Z) : 0 <= i < 64 -> (i =? npos) = false.
Proof. intros H. apply Z.eqb_neq. unfold npos. lia. Qed.

Ltac byte_facts x y :=
  let H := fresh in
  assert (H := bits_all x y ltac:(lia) ltac:(lia)); unfold bits_ok in H;
  rewrite !andb_true_iff, !Z.leb_le, !Z.ltb_lt, !Z.eqb_eq in H; destruct_and? H.

Lemma decode_three (a b c : Z) :
  0 <= a < 256 -> 0 <= b < 256 -> 0 <= c < 256 ->
  decode_group (b64_char (Z.shiftr a 2))
    (b64_char (Z.lor (Z.shiftl (Z.land a 3) 4) (Z.shiftr b 4)))
    (Some (b64_char (Z.lor (Z.shiftl (Z.land b 15) 2) (Z.shiftr c 6))))
    (Some (b64_char (Z.land c 63))) = [a; b; c].
Proof.
  intros Ha Hb Hc. byte_facts a b. byte_facts b c. byte_facts c c. unfold decode_group.
  cbn [from_option id default]. rewrite !find_char by done. rewrite !not_npos by done.
  cbn [app]. repeat f_equal; congruence.
Qed.

Lemma decode_two (a b : Z) :
  0 <= a < 256 -> 0 <= b < 256 ->
  decode_group (b64_char (Z.shiftr a 2))
    (b64_char (Z.lor (Z.shiftl (Z.land a 3) 4) (Z.shiftr b 4)))
    (Some (b64_char (Z.shiftl (Z.land b 15) 2))) (Some "="%char) = [a; b].
Proof.
  intros Ha Hb. byte_facts a b. byte_facts b 0. unfold decode_group.
  change (Z.shiftr 0 6) with 0 in *. rewrite Z.lor_0_r in *.
  cbn [from_option id default]. rewrite !find_char by done. rewrite find_pad, !not_npos by done.
  rewrite Z.eqb_refl. cbn [app]. repeat f_equal; congruence.
Qed.

Lemma decode_one (a : Z) :
  0 <= a < 256 ->
  decode_group (b64_char (Z.shiftr a 2)) (b64_char (Z.shiftl (Z.land a 3) 4))
    (Some "="%char) (Some "="%char) = [a].
Proof.
  intros Ha. byte_facts a 0. unfold decode_group. change (Z.shiftr 0 4) with 0 in *.
  rewrite Z.lor_0_r in *.
  cbn [from_option id default]. rewrite !find_char by done. rewrite find_pad.
  rewrite Z.eqb_refl. cbn [app]. by f_equal.
Qed.

Lemma three_ind (P : list Z -> Prop) :
  P [] -> (forall a, P [a]) -> (forall a b, P [a; b]) ->
  (forall a b c l, P l -> P (a :: b :: c :: l)) -> forall l, P l.
Proof.
  intros H0 H1 H2 H3. fix IH 1. intros [|a [|b [|c l]]]; [exact H0|apply H1|apply H2|apply H3, IH].
Qed.

Definition is_byte (b : Z) : Prop := 0 <= b < 256.

Lemma base64_decode_encode (bs : list Z) :
  Forall is_byte bs -> base64Decode (b64_encode bs) = Some bs.
Proof.
  induction bs as [|a|a b|a b c bs IH] using three_ind; intros Hb; [done|..].
  - inversion Hb; subst. cbn [b64_encode base64Decode]. by rewrite decode_one.
  - inversion Hb as [|? ? ? H1]; subst. inversion H1; subst. cbn [b64_encode base64Decode].
    by rewrite decode_two.
  - inversion Hb as [|? ? ? H1]; subst. inversion H1 as [|? ? ? H2]; subst. inversion H2; subst.
    cbn [b64_encode base64Decode]. rewrite IH by done. by rewrite decode_three.
Qed.

(** ** White space around a token *)

(** All characters of [s] fail [p]. *)
Fixpoint none_of (p : ascii -> bool) (s : string) : bool :=
  match s with
  | EmptyString => true
  | String c s' => negb (p c) && none_of p s'
  end.

Lemma strip_none p s : none_of p s = true -> strip p s = s.
Proof.
  intros H. assert (Hf : strip_front p s = s).
  { destruct s as [|c s]; [done|]. cbn in *. apply andb_true_iff in H as [H _].
    apply negb_true_iff in H. by rewrite H. }
  unfold strip. rewrite Hf. clear Hf. induction s as [|c s IH]; [done|]. cbn in *.
  apply andb_true_iff in H as [H1 H2]. apply negb_true_iff in H1. rewrite (IH H2).
  destruct s; [|done]. by rewrite H1.
Qed.

(** A non-empty end without such characters protects what is before it. *)
Lemma strip_back_app p s t : none_of p t = true -> t <> ""%string -> strip_back p (s +:+ t) = s +:+ t.
Proof.
  intros Ht Hne. assert (Hb : strip_back p t = t).
  { assert (H := strip_none p t Ht). unfold strip in H. destruct t as [|c t]; [done|].
    cbn [none_of] in Ht. apply andb_true_iff in Ht as [Ht _]. apply negb_true_iff in Ht.
    cbn [strip_front] in H. by rewrite Ht in H. }
  induction s as [|c s IH]; [by rewrite string_app_nil_l|]. rewrite string_app_cons.
  cbn [strip_back]. rewrite IH. destruct (s +:+ t) eqn:E; [|done]. by destruct s, t.
Qed.


(** *** The server's encoder *)

(** A byte read as a (signed) char. *)
Definition as_char (b : Z) : Z := if b <? 128 then b else b - 256.

Definition encode_group (a : Z) (b c : option Z) : string :=
  let b' := default 0 (as_char <$> b) in
  let c' := default 0 (as_char <$> c) in
  let index1 := Z.land (Z.shiftr a 2) 63 in
  let index2 := Z.lor (Z.shiftl (Z.land a 3) 4) (Z.land (Z.shiftr b' 4) 15) in
  let index3 := Z.lor (Z.shiftl (Z.land b' 15) 2) (Z.land (Z.shiftr c' 6) 3) in
  let index4 := Z.land c' 63 in
  String (b64_char index1) (String (b64_char index2)
    (String (if b then b64_char index3 else "="%char)
      (String (if c then b64_char index4 else "="%char) EmptyString))).

Fixpoint Base64Encode (bs : list Z) : string :=
  match bs with
  | [] => EmptyString
  | [a] => encode_group a None None
  | [a; b] => encode_group a (Some b) None
  | a :: b :: c :: bs' => encode_group a (Some b) (Some c) +:+ Base64Encode bs'
  end.

(** The masks make the sign of a char irrelevant. *)
Lemma as_char_bits (a : Z) : 0 <= a < 256 ->
  Z.land (Z.shiftr a 2) 63 = Z.shiftr a 2 /\ Z.land (Z.shiftr (as_char a) 4) 15 = Z.shiftr a 4 /\
  Z.land (as_char a) 15 = Z.land a 15 /\ Z.land (Z.shiftr (as_char a) 6) 3 = Z.shiftr a 6 /\
  Z.land (as_char a) 63 = Z.land a 63.
Proof.
  intros Ha.
  assert (H : forallb (fun a =>
      (Z.land (Z.shiftr a 2) 63 =? Z.shiftr a 2) && (Z.land (Z.shiftr (as_char a) 4) 15 =? Z.shiftr a 4)
      && (Z.land (as_char a) 15 =? Z.land a 15) && (Z.land (Z.shiftr (as_char a) 6) 3 =? Z.shiftr a 6)
      && (Z.land (as_char a) 63 =? Z.land a 63)) bytes256 = true) by (vm_compute; reflexivity).
  apply (all_bytes _ a) in H; [|done]. cbv beta in H. rewrite !andb_true_iff, !Z.eqb_eq in H.
  by destruct_and! H.
Qed.

(** The server's encoder and the browser's agree. *)
Lemma Base64Encode_btoa (bs : list Z) : Forall is_byte bs -> Base64Encode bs = b64_encode bs.
Proof.
  induction bs as [|a|a b|a b c bs IH] using three_ind; intros Hb; [done|..];
    rewrite ?Forall_cons in Hb; unfold is_byte in Hb; cbn [Base64Encode b64_encode];
    unfold encode_group; cbn [default from_option id fmap option_fmap option_map].
  - destruct Hb as (Ha & _). destruct (as_char_bits a) as (-> & _); [done|].
    by rewrite Z.lor_0_r.
  - destruct Hb as (Ha & Hb & _). destruct (as_char_bits a) as (-> & _); [done|].
    destruct (as_char_bits b) as (_ & -> & -> & _); [done|]. by rewrite Z.lor_0_r.
  - destruct Hb as (Ha & Hb & Hc & Hbs). destruct (as_char_bits a) as (-> & _); [done|].
    destruct (as_char_bits b) as (_ & -> & -> & _); [done|].
    destruct (as_char_bits c) as (_ & _ & _ & -> & ->); [done|].
    rewrite !string_app_cons, string_app_nil_l. by rewrite IH.
Qed.

(** ** The syntax of names *)

(** [_a-zA-Z0-9] and [a-zA-Z0-9-]. *)
Definition label_first (c : ascii) : bool :=
  Ascii.eqb c "_" || let n := nat_of_ascii c in
  (Nat.leb 97 n && Nat.leb n 122) || (Nat.leb 65 n && Nat.leb n 90) || (Nat.leb 48 n && Nat.leb n 57).

Definition label_rest (c : ascii) : bool :=
  Ascii.eqb c "-" || let n := nat_of_ascii c in
  (Nat.leb 97 n && Nat.leb n 122) || (Nat.leb 65 n && Nat.leb n 90) || (Nat.leb 48 n && Nat.leb n 57).

(** The regular expressions of validateFqdn's pattern; a lazy and a greedy
    star match the same strings. *)
Inductive regex : Type :=
| RChar (p : ascii -> bool)
| RSeq (r1 r2 : regex)
| RStar (r : regex).

Inductive regex_match : regex -> string -> Prop :=
| match_char p c : p c = true -> regex_match (RChar p) (String c EmptyString)
| match_seq r1 r2 s1 s2 :
    regex_match r1 s1 -> regex_match r2 s2 -> regex_match (RSeq r1 r2) (s1 +:+ s2)
| match_star_nil r : regex_match (RStar r) EmptyString
| match_star r s1 s2 :
    regex_match r s1 -> regex_match (RStar r) s2 -> regex_match (RStar r) (s1 +:+ s2).

Definition label_pattern : regex := RSeq (RChar label_first) (RStar (RChar label_rest)).

(** A label and any number of labels, each after a dot, from the start to
    the end of the text. *)
Definition fqdn_pattern : regex :=
  RSeq label_pattern (RStar (RSeq (RChar (fun c => Ascii.eqb c ".")) label_pattern)).

(** The automaton of the pattern: [first] at the start of a label. *)
Fixpoint fqdn_scan (first : bool) (s : string) : bool :=
  match s with
  | EmptyString => negb first
  | String c s' =>
      if first then label_first c && fqdn_scan false s'
      else if Ascii.eqb c "." then fqdn_scan true s'
      else label_rest c && fqdn_scan false s'
  end.

Definition validateFqdn (fqdn : string) : bool := fqdn_scan true fqdn.

(** ** Names and zones *)

Fixpoint drop_chars (n : nat) (s : string) : string :=
  match n, s with
  | S n', String _ s' => drop_chars n' s'
  | _, _ => s
  end.

Lemma drop_chars_app (a b : string) : drop_chars (String.length a) (a +:+ b) = b.
Proof. induction a as [|c a IH]; [by destruct b|]. rewrite string_app_cons. cbn. exact IH. Qed.

Definition isSameZone (zone fqdn : string) : bool :=
  if Nat.ltb (String.length fqdn) (String.length zone) then false
  else
    let start := (String.length fqdn - String.length zone)%nat in
    if compareCaseInsensitive zone (drop_chars start fqdn) true then
      if Nat.eqb (String.length zone) (String.length fqdn) then true
      else match String.get (start - 1) fqdn with
           | Some c => Ascii.eqb c "."
           | None => false
           end
    else false.

(** ** The automaton accepts what the pattern matches *)

Lemma scan_rest (s t : string) :
  regex_match (RStar (RChar label_rest)) s -> fqdn_scan false (s +:+ t) = fqdn_scan false t.
Proof.
  remember (RStar (RChar label_rest)) as r eqn:Er. intros H. revert Er.
  induction H as [| | |r s1 s2 H1 _ _ IH2]; intros [= ->]; [by rewrite string_app_nil_l|].
  inversion H1 as [p c Hc| | |]; subst. rewrite !string_app_cons, string_app_nil_l. cbn [fqdn_scan].
  rewrite IH2 by done. destruct (Ascii.eqb_spec c "."); [by subst|]. by rewrite Hc.
Qed.

Lemma scan_label (s t : string) :
  regex_match label_pattern s -> fqdn_scan true (s +:+ t) = fqdn_scan false t.
Proof.
  intros H. inversion H as [|r1 r2 s1 s2 H1 H2| |]; subst. inversion H1 as [p c Hc| | |]; subst.
  rewrite !string_app_cons, string_app_nil_l. cbn [fqdn_scan]. rewrite Hc. by apply scan_rest.
Qed.

Lemma scan_labels (s : string) :
  regex_match (RStar (RSeq (RChar (fun c => Ascii.eqb c ".")) label_pattern)) s ->
  fqdn_scan false s = true.
Proof.
  remember (RStar _) as r eqn:Er. intros H. revert Er.
  induction H as [| | |r s1 s2 H1 _ _ IH2]; intros [= ->]; [done|].
  inversion H1 as [|r1 r2 d l Hd Hl| |]; subst. inversion Hd as [p c Hc| | |]; subst.
  rewrite !string_app_cons, string_app_nil_l. cbn [fqdn_scan]. rewrite Hc, scan_label by done. by apply IH2.
Qed.

(** From a state of the automaton: the rest of a label and further labels, or
    a whole label and further labels. *)
Lemma scan_match (s : string) :
  (fqdn_scan false s = true -> exists a b, s = a +:+ b /\ regex_match (RStar (RChar label_rest)) a /\
     regex_match (RStar (RSeq (RChar (fun c => Ascii.eqb c ".")) label_pattern)) b) /\
  (fqdn_scan true s = true -> regex_match fqdn_pattern s).
Proof.
  induction s as [|c s [IHf IHt]]; split; cbn [fqdn_scan]; [..|done| |].
  - intros _. exists EmptyString, EmptyString. split_and!; [done|constructor..].
  - destruct (Ascii.eqb c ".") eqn:Ec; intros H.
    + apply IHt in H. inversion H as [|r1 r2 l ls Hl Hls| |]; subst.
      exists EmptyString, (String c (l +:+ ls)). split_and!; [by rewrite string_app_nil_l|constructor|].
      replace (String c (l +:+ ls)) with ((String c EmptyString +:+ l) +:+ ls)
        by by rewrite !string_app_cons, string_app_nil_l.
      constructor; [|done]. constructor; [by constructor|done].
    + apply andb_true_iff in H as [Hc H]. destruct (IHf H) as (a & b & -> & Ha & Hb).
      exists (String c EmptyString +:+ a), b. split_and!; [|by constructor; [constructor|]|done].
      by rewrite !string_app_cons, string_app_nil_l.
  - intros [Hc H]%andb_true_iff. destruct (IHf H) as (a & b & -> & Ha & Hb).
    replace (String c (a +:+ b)) with ((String c EmptyString +:+ a) +:+ b)
      by by rewrite !string_app_cons, string_app_nil_l.
    constructor; [|done]. constructor; [by constructor|done].
Qed.

(** The check of a name is the check of the source's pattern: the
    automaton accepts a string exactly when the regular expression of
    validateFqdn matches all of it. *)
Theorem validateFqdn_pattern (s : string) :
  validateFqdn s = true <-> regex_match fqdn_pattern s.
Proof.
  split; [apply scan_match|]. intros H. inversion H as [|r1 r2 l ls Hl Hls| |]; subst.
  unfold validateFqdn. rewrite scan_label by done. by apply scan_labels.
Qed.
