(* ===== verification/Qargs.v ===== *)
(** * modules/qargs.js: the query string of a list request *)

From S2P Require Import Prelude JsNumber JsValue.

(** [from], [kind] and [direction] are strings or null; [max] is an integer.
    [`${max}`] is the decimal numeral of [max]. *)
Definition truthy_str (o : option string) : bool :=
  match o with Some s => negb (String.eqb s "") | None => false end.

Definition qargs (from : option string) (max : Z) (kind direction : option string) : string :=
  let q :=
    (if (0 <? max)%Z then ["limit=" +:+ num_to_string (num_of_Z max)] else []) ++
    (if truthy_str from then ["from=" +:+ default "" from] else []) ++
    (if truthy_str kind then ["kind=" +:+ default "" kind] else []) ++
    (if truthy_str direction then ["direction=" +:+ default "" direction] else []) in
  if Nat.eqb (length q) 0 then "" else "?" +:+ join "&" q.

(** ** What the query string means

    The arguments of a request as an HTTP server reads them: the part after
    [?], cut at [&], each piece cut at its first [=]. *)

Fixpoint split_on (c : ascii) (s : string) : list string :=
  match s with
  | EmptyString => [""]
  | String x s' =>
      if Ascii.eqb x c then "" :: split_on c s'
      else match split_on c s' with
           | p :: ps => String x p :: ps
           | [] => [String x ""]
           end
  end%string.

Fixpoint cut_at (c : ascii) (s : string) : string * string :=
  match s with
  | EmptyString => ("", "")
  | String x s' =>
      if Ascii.eqb x c then ("", s')
      else let '(a, b) := cut_at c s' in (String x a, b)
  end%string.

Definition query_args (q : string) : list (string * string) :=
  match q with
  | String "?" r => cut_at "=" <$> split_on "&" r
  | _ => []
  end.

Fixpoint has_char (c : ascii) (s : string) : bool :=
  match s with
  | EmptyString => false
  | String x s' => Ascii.eqb x c || has_char c s'
  end.

Lemma has_char_app (c : ascii) (a b : string) :
  has_char c (a +:+ b) = has_char c a || has_char c b.
Proof. induction a as [|x a IH]; [done|]. rewrite string_app_cons. cbn. by rewrite IH, orb_assoc. Qed.

Lemma split_on_plain (c : ascii) (a : string) : has_char c a = false -> split_on c a = [a].
Proof.
  induction a as [|x a IH]; [done|]. cbn. intros H. reflect_tests.
  rewrite H. by rewrite IH.
Qed.

Lemma split_on_app (c : ascii) (a b : string) :
  has_char c a = false -> split_on c (a +:+ String c b) = a :: split_on c b.
Proof.
  induction a as [|x a IH].
  - intros _. rewrite string_app_nil_l. cbn. by rewrite Ascii.eqb_refl.
  - rewrite string_app_cons. cbn. intros H. reflect_tests. rewrite H. by rewrite IH.
Qed.

Lemma split_on_join (c : ascii) (l : list string) :
  l <> [] -> Forall (fun s => has_char c s = false) l ->
  split_on c (join (String c "") l) = l.
Proof.
  intros Hne Hl. induction Hl as [|a l Ha Hl IH]; [done|].
  destruct l as [|b l]; [by apply split_on_plain|].
  change (join (String c "") (a :: b :: l)) with (a +:+ String c "" +:+ join (String c "") (b :: l)).
  rewrite string_app_cons, string_app_nil_l, split_on_app by done. by rewrite IH.
Qed.

Lemma cut_at_app (c : ascii) (a b : string) :
  has_char c a = false -> cut_at c (a +:+ String c b) = (a, b).
Proof.
  induction a as [|x a IH].
  - intros _. rewrite string_app_nil_l. cbn. by rewrite Ascii.eqb_refl.
  - rewrite string_app_cons. cbn. intros H. reflect_tests. rewrite H. by rewrite IH.
Qed.

Lemma all_digits_no_char (c : ascii) (s : string) :
  is_digit c = false -> all_digits s = true -> has_char c s = false.
Proof.
  intros Hc. induction s as [|x s IH]; [done|]. cbn [all_digits has_char]. intros H.
  reflect_tests. destruct (Ascii.eqb_spec x c); [congruence|]. by rewrite IH.
Qed.

(** A named optional argument, present when its value is a non-empty string. *)
Definition opt_arg (k : string) (v : option string) : list (string * string) :=
  if truthy_str v then [(k, default "" v)] else [].

Lemma opt_arg_pieces (k : string) (v : option string) :
  (if truthy_str v then [k +:+ "=" +:+ default "" v] else [])
  = (fun kv => kv.1 +:+ "=" +:+ kv.2) <$> opt_arg k v.
Proof. unfold opt_arg. by destruct (truthy_str v). Qed.

(** Argument lists whose names have neither separator and whose values have
    no [&] are read back as they were. *)
Lemma query_args_join (l : list (string * string)) :
  l <> [] ->
  Forall (fun kv => has_char "&" kv.1 = false /\ has_char "=" kv.1 = false /\ has_char "&" kv.2 = false) l ->
  query_args ("?" +:+ join "&" ((fun kv => kv.1 +:+ "=" +:+ kv.2) <$> l)) = l.
Proof.
  intros Hne Hl. rewrite string_app_cons, string_app_nil_l. cbn [query_args].
  rewrite split_on_join.
  - rewrite <- list_fmap_compose. rewrite <- (list_fmap_id l) at 2. apply list_fmap_ext.
    intros i [k v] Hi. eapply Forall_lookup_1 in Hl as (_ & Hk & _); [|exact Hi].
    cbn. rewrite string_app_cons, string_app_nil_l. by apply cut_at_app.
  - by destruct l.
  - apply Forall_fmap. eapply Forall_impl; [exact Hl|]. intros [k v] (H1 & _ & H2). cbn in *.
    rewrite !has_char_app, H1, H2. done.
Qed.

Lemma query_args_qargs (from kind direction : option string) (max : Z) :
  (max < 2 ^ 53)%Z ->
  Forall (fun v => has_char "&" (default "" v) = false) [from; kind; direction] ->
  query_args (qargs from max kind direction)
  = (if (0 <? max)%Z then [("limit", num_to_string (num_of_Z max))] else [])
    ++ opt_arg "from" from ++ opt_arg "kind" kind ++ opt_arg "direction" direction.
Proof.
  intros Hmax Hsep. set (args := _ ++ _).
  unfold qargs.
  change "from="%string with ("from" +:+ "=")%string.
  change "kind="%string with ("kind" +:+ "=")%string.
  change "direction="%string with ("direction" +:+ "=")%string.
  change "limit="%string with ("limit" +:+ "=")%string.
  rewrite !string_app_assoc, !opt_arg_pieces.
  set (q := _ ++ _).
  assert (Hq : q = (fun kv => kv.1 +:+ "=" +:+ kv.2) <$> args).
  { subst q args. rewrite !fmap_app. by destruct (0 <? max)%Z. }
  rewrite Hq. rewrite length_fmap. destruct (Nat.eqb_spec (length args) 0) as [E|E].
  { apply length_zero_iff_nil in E. by rewrite E. }
  apply query_args_join; [by intros ->|].
  clear Hq q E. subst args. inversion Hsep as [|? ? Hf Hsep1]; subst.
  inversion Hsep1 as [|? ? Hk Hsep2]; subst. inversion Hsep2 as [|? ? Hd _]; subst.
  rewrite !Forall_app. split_and!.
  - destruct (Z.ltb_spec 0 max); [|constructor]. constructor; [|constructor]. split_and!; try done.
    apply all_digits_no_char; [done|]. apply num_to_string_digits. lia.
  - unfold opt_arg. destruct (truthy_str from); repeat constructor; done.
  - unfold opt_arg. destruct (truthy_str kind); repeat constructor; done.
  - unfold opt_arg. destruct (truthy_str direction); repeat constructor; done.
Qed.

(** The query string built by qargs carries exactly the arguments given:
    read back as HTTP query arguments it is the list of [limit] (when max is
    positive), [from], [kind] and [direction] (when non-empty), in that order,
    provided no value contains the separator [&].  In particular an absent or
    empty argument is not sent at all. *)
Theorem qargs_roundtrip (from kind direction : option string) (max : Z) :
  (max < 2 ^ 53)%Z ->
  Forall (fun v => has_char "&" (default "" v) = false) [from; kind; direction] ->
  query_args (qargs from max kind direction)
  = (if (0 <? max)%Z then [("limit", num_to_string (num_of_Z max))] else [])
    ++ opt_arg "from" from ++ opt_arg "kind" kind ++ opt_arg "direction" direction.
Proof. apply query_args_qargs. Qed.

Lemma qargs_roundtrip_witness :
  query_args (qargs (Some "b.com"%string) 10 None (Some "backward"%string))
  = [("limit", "10"); ("from", "b.com"); ("direction", "backward")]%string.
Proof.
  rewrite (qargs_roundtrip (Some "b.com"%string) None (Some "backward"%string) 10);
    [reflexivity|lia|repeat constructor].
Defined.
