(* ===== verification/AppState.v ===== *)
(** * modules/AppState.jsx: the login token and the server address

    The provider's state and the operations its context exports. *)

From S2P Require Import Prelude JsValue Http.

Record app_state : Type := AppState {
  loginToken : string;
  api : string
}.

Definition initialState : app_state :=
  AppState "" "http://127.0.0.1:8080/api/v1".

Definition isLoggedIn (state : app_state) : bool := 0 <? String.length (loginToken state).

(** [setState({...state, loginToken: token})]. *)
Definition setToken (token : string) (state : app_state) : app_state :=
  AppState token (api state).

Definition getUrl (state : app_state) (target : string) : string := api state +:+ target.

Definition getAuthHeader (state : app_state) : list (string * string) :=
  [("Authorization", " Basic " +:+ loginToken state)]%string.

(** [{...getAuthHeader(), 'Content-Type':'application/json'}]. *)
Definition json_headers (state : app_state) : list (string * string) :=
  getAuthHeader state ++ [("Content-Type", "application/json")]%string.
