(* ===== verification/Paging.v ===== *)
(** * The paged listings: requests, pages and the server's promise

    ListZones and ListResourceRecords browse a list that the server hands out
    page by page.  This file has what the two sides share:

    - [page], the JSON body of a listing (RestApi::listZones, listZone);
    - the reading of the query arguments by the server (getPageSize, getFrom,
      getDirection in RestApi.cpp) and [serve_list], the reply to a request;
    - [PageServer], the interface the UI relies on: the records in database
      order and the page of any position, with its laws [PageServerLaws];
    - [list_server], the reference implementation that discharges the laws. *)

From S2P Require Import Prelude JsNumber JsValue Http Qargs ServerUtil.

(** The listing object: [kfirst] and [klast] are the keys of the first and the
    last record of the page in database order, [more] tells that records are
    left in the direction of the request. *)
Record page (A : Type) : Type := Page {
  value : list A;
  more : bool;
  kfirst : string;
  klast : string
}.
Arguments Page {A} value more kfirst klast.
Arguments value {A} p.
Arguments more {A} p.
Arguments kfirst {A} p.
Arguments klast {A} p.

(** ** The arguments as the server reads them *)

Abbreviation query := (list (string * string)).

Definition is_cspace (c : ascii) : bool :=
  existsb (Z.eqb (code c)) [9; 10; 11; 12; 13; 32]%Z.

Fixpoint skip_cspace (s : string) : string :=
  match s with
  | String c s' => if is_cspace c then skip_cspace s' else s
  | EmptyString => s
  end.

Definition sign_part (s : string) : bool * string :=
  match s with
  | String c r =>
      if (code c =? 45)%Z then (true, r) else if (code c =? 43)%Z then (false, r) else (false, s)
  | EmptyString => (false, s)
  end.

(** std::stoi; [None] for the exceptions invalid_argument and out_of_range. *)
Definition stoi (s : string) : option Z :=
  let '(neg, r) := sign_part (skip_cspace s) in
  match take_digits 10 r 0 0 with
  | (v, S _, _) =>
      let z := (if neg then - v else v)%Z in
      if ((- 2 ^ 31 <=? z) && (z <? 2 ^ 31))%Z then Some z else None
  | _ => None
  end.

(** Server::Config: the page sizes of the REST API. *)
Record rest_config : Type := RestConfig {
  rest_max_page_size : nat;
  rest_default_page_size : nat
}.

(** RestApi::getPageSize: [None] when stoi throws; the int becomes a size_t. *)
Definition getPageSize (cfg : rest_config) (req : query) : option nat :=
  match assoc_get "limit" req with
  | Some s =>
      match stoi s with
      | Some z =>
          let psize := size_t z in
          Some (if (psize =? 0)%Z then rest_default_page_size cfg
                else Z.to_nat (Z.min psize (Z.of_nat (rest_max_page_size cfg))))
      | None => None
      end
  | None => Some (rest_default_page_size cfg)
  end.

Lemma stoi_range (s : string) (z : Z) : stoi s = Some z -> (- 2 ^ 31 <= z < 2 ^ 31)%Z.
Proof.
  unfold stoi. destruct (sign_part _) as [neg r]. destruct (take_digits 10 r 0 0) as [[v [|c]] r']; [done|].
  destruct (Z.leb_spec (- 2 ^ 31) (if neg then - v else v)); [|done].
  destruct (Z.ltb_spec (if neg then - v else v) (2 ^ 31)); [|done]. intros [= <-]. lia.
Qed.

(** C31: The size of a page, whatever the [limit] argument says.  A number from 1
    on is the size, up to the configured maximum; a negative one, taken as a
    huge unsigned number, gives pages of the maximal size; with 0, or without
    the argument, it is the configured default, which is not held against the
    maximum: a page is never larger than the larger of the two.  The request
    fails exactly if the argument is no number of an int. *)
Theorem getPageSize_bounds (cfg : rest_config) (req : query) :
  (Z.of_nat (rest_max_page_size cfg) < 2 ^ 63)%Z ->
  match getPageSize cfg req with
  | None => exists s, assoc_get "limit" req = Some s /\ stoi s = None
  | Some n =>
      n <= Nat.max (rest_max_page_size cfg) (rest_default_page_size cfg) /\
      match assoc_get "limit" req with
      | None => n = rest_default_page_size cfg
      | Some s => exists z, stoi s = Some z /\
          n = (if z =? 0 then rest_default_page_size cfg
               else if z <? 0 then rest_max_page_size cfg
               else Nat.min (Z.to_nat z) (rest_max_page_size cfg))%Z
      end
  end.
Proof.
  intros Hm. unfold getPageSize. destruct (assoc_get "limit" req) as [s|]; [|split; [lia|done]].
  destruct (stoi s) as [z|] eqn:Es; [|by exists s]. cbv zeta. assert (Hz := stoi_range _ _ Es).
  assert (Hs : size_t z = if (z <? 0)%Z then (z + 2 ^ 64)%Z else z).
  { unfold size_t. destruct (Z.ltb_spec z 0); [|apply Z.mod_small; lia].
    rewrite <- (Z.mod_add z 1 (2 ^ 64)) by lia. apply Z.mod_small. lia. }
  rewrite Hs. split.
  - destruct (Z.ltb_spec z 0).
    + destruct (Z.eqb_spec (z + 2 ^ 64) 0); lia.
    + destruct (Z.eqb_spec z 0); lia.
  - exists z. split; [done|]. destruct (Z.ltb_spec z 0).
    + destruct (Z.eqb_spec (z + 2 ^ 64) 0), (Z.eqb_spec z 0); lia.
    + destruct (Z.eqb_spec z 0); lia.
Qed.

(** A limit of 0 gives pages above the maximum. *)
Lemma getPageSize_bounds_witness :
  (Z.of_nat 100 < 2 ^ 63)%Z /\
  500 <= Nat.max 100 500 /\ exists z, stoi "0" = Some z /\
    500 = (if (z =? 0)%Z then 500 else if (z <? 0)%Z then 100 else Nat.min (Z.to_nat z) 100).
Proof.
  split; [lia|]. refine (getPageSize_bounds (RestConfig 100 500) [("limit", "0")]%string _). cbn. lia.
Defined.

(** RestApi::getFrom. *)
Definition getFrom (req : query) : string := default ""%string (assoc_get "from" req).

(** RestApi::getDirection: true for forward, [None] for the 400 response. *)
Definition getDirection (req : query) : option bool :=
  match assoc_get "direction" req with
  | Some d =>
      if String.eqb d "forward" then Some true
      else if String.eqb d "backward" then Some false
      else None
  | None => Some true
  end.

(** ** The interface *)

Class PageServer (A : Type) : Type := {
  items : list A;
  item_key : A -> string;
  valid_from : string -> bool;
  list_page : string -> bool -> nat -> page A
}.

(** The reply to a listing request: the page, or an error response when an
    argument is refused. *)
Definition serve_list {A} `{PageServer A} (cfg : rest_config) (req : query)
    : fetch_result (page A) :=
  match getPageSize cfg req with
  | None => Resp false "Internal Server Error" None
  | Some n =>
      let from := getFrom req in
      if String.eqb from "" then Resp true "OK" (Some (list_page from true n))
      else match getDirection req with
           | None => Resp false "Bad Request" None
           | Some forward =>
               if valid_from from then Resp true "OK" (Some (list_page from forward n))
               else Resp false "Invalid fqdn in 'from' argument" None
           end
  end.

(** Records [s .. s + n - 1] of [l]. *)
Definition window {A} (s n : nat) (l : list A) : list A := take n (drop s l).

(** [p] shows the records [w], possibly in another order; its keys are those
    of the ends of [w]. *)
Definition page_of {A} `{PageServer A} (p : page A) (w : list A) (m : bool) : Prop :=
  value p ≡ₚ w /\ more p = m /\
  kfirst p = default ""%string (item_key <$> head w) /\
  klast p = default ""%string (item_key <$> last w).

(** What a listing promises: pages of consecutive records, starting at the
    first record, after the key [from], or (backward) ending just before it. *)
Class PageServerLaws (A : Type) `{PageServer A} : Prop := {
  item_key_nodup : NoDup (item_key <$> (items : list A));
  item_key_valid (x : A) : x ∈ items ->
    item_key x <> ""%string /\ valid_from (item_key x) = true /\ has_char "&" (item_key x) = false;
  page_start (n : nat) : 0 < n ->
    page_of (list_page "" true n) (window 0 n items) (n <? length (items : list A));
  page_forward (n i : nat) (x : A) : 0 < n -> items !! i = Some x ->
    page_of (list_page (item_key x) true n) (window (S i) n items)
      (n <? length (items : list A) - S i);
  page_backward (n i : nat) (x : A) : 0 < n -> items !! i = Some x ->
    page_of (list_page (item_key x) false n) (window (i - n) (Nat.min n i) items) (n <? i)
}.

(** ** The reference implementation *)

Section ListServer.
Context {A : Type} (l : list A) (key : A -> string).

Fixpoint index_of (k : string) (l : list A) : option nat :=
  match l with
  | [] => None
  | x :: l' => if String.eqb (key x) k then Some 0 else S <$> index_of k l'
  end.

Definition page_from (w : list A) (m : bool) : page A :=
  Page w m (default ""%string (key <$> head w)) (default ""%string (key <$> last w)).

Definition reference_page (from : string) (forward : bool) (n : nat) : page A :=
  if String.eqb from "" then page_from (window 0 n l) (n <? length l)
  else match index_of from l with
       | None => page_from [] false
       | Some i =>
           if forward then page_from (window (S i) n l) (n <? length l - S i)
           else page_from (window (i - n) (Nat.min n i) l) (n <? i)
       end.

Definition list_server : PageServer A := {|
  items := l;
  item_key := key;
  valid_from k := negb (String.eqb k "");
  list_page := reference_page
|}.

Lemma index_of_lookup (i : nat) (x : A) :
  NoDup (key <$> l) -> l !! i = Some x -> index_of (key x) l = Some i.
Proof.
  revert i. induction l as [|y l' IH]; intros i Hnd Hi; [done|].
  apply NoDup_cons in Hnd as [Hny Hnd]. cbn. destruct i as [|i]; cbn in Hi.
  - simplify_eq. by rewrite String.eqb_refl.
  - destruct (String.eqb_spec (key y) (key x)) as [E|_].
    + destruct Hny. rewrite E. apply list_elem_of_fmap_2.
      by apply list_elem_of_lookup_2 with i.
    + by rewrite (IH i).
Qed.

(** The reference implementation keeps the promise. *)
Lemma list_server_laws :
  NoDup (key <$> l) ->
  (forall x, x ∈ l -> key x <> ""%string /\ has_char "&" (key x) = false) ->
  @PageServerLaws A list_server.
Proof.
  intros Hnd Hok.
  assert (Hne : forall i x, l !! i = Some x -> String.eqb (key x) "" = false).
  { intros i x Hx%list_elem_of_lookup_2. apply String.eqb_neq, Hok, Hx. }
  split; unfold page_of; cbn; [done| | | |]; unfold reference_page.
  - intros x Hx. destruct (Hok x Hx) as [Hx1 Hx2]. split_and!; [done| |done].
    by apply negb_true_iff, String.eqb_neq.
  - done.
  - intros n i x _ Hi. rewrite (Hne _ _ Hi), (index_of_lookup i) by done. done.
  - intros n i x _ Hi. rewrite (Hne _ _ Hi), (index_of_lookup i) by done. done.
Qed.
End ListServer.

(** ** From the URL of a request to the page served *)

(** The part of a URL from its first [?] on. *)
Fixpoint query_part (u : string) : string :=
  match u with
  | EmptyString => ""
  | String c u' => if Ascii.eqb c "?" then u else query_part u'
  end.

(** The server's reply to the request for [u]. *)
Definition serve_url {A} `{PageServer A} (cfg : rest_config) (u : string) : fetch_result (page A) :=
  serve_list cfg (query_args (query_part u)).

Lemma query_part_app (p q : string) : has_char "?" p = false ->
  (q = ""%string \/ exists r, q = String "?" r) -> query_part (p +:+ q) = q.
Proof.
  intros Hp Hq. induction p as [|c p IH].
  - destruct Hq as [->|[r ->]]; done.
  - rewrite string_app_cons. cbn in *. reflect_tests. rewrite H. by apply IH.
Qed.

Lemma qargs_shape (from kind direction : option string) (max : Z) :
  qargs from max kind direction = ""%string \/
  exists r, qargs from max kind direction = String "?" r.
Proof. unfold qargs. destruct (Nat.eqb _ _); [by left|right]. eexists. reflexivity. Qed.

(** A string that starts with a digit has neither white space nor a sign. *)
Lemma digits_plain (s : string) (c : nat) (v : Z) (r : string) :
  take_digits 10 s 0 0 = (v, S c, r) -> skip_cspace s = s /\ sign_part s = (false, s).
Proof.
  destruct s as [|x s]; [done|]. cbn [take_digits skip_cspace].
  destruct (digit_val 10 x) as [d|] eqn:E; [|done]. intros _.
  assert (Hc := is_digit_code x). unfold is_digit in Hc. rewrite E in Hc. specialize (Hc eq_refl).
  unfold is_cspace. cbn [existsb sign_part].
  repeat match goal with |- context [(code x =? ?k)%Z] =>
    destruct (Z.eqb_spec (code x) k); [lia|] end. done.
Qed.

Lemma digits_not_space (s : string) (c : nat) (v : Z) (r : string) :
  take_digits 10 s 0 0 = (v, S c, r) -> sign_part (skip_cspace s) = (false, s).
Proof. intros [-> ->]%digits_plain. done. Qed.

Lemma stoi_numeral (z : Z) : (0 < z < 2 ^ 31)%Z -> stoi (num_to_string (num_of_Z z)) = Some z.
Proof.
  intros Hz. destruct (take_digits_numeral z) as [c Hc]; [lia|].
  unfold stoi. rewrite (digits_not_space _ _ _ _ Hc), Hc. cbn beta iota zeta.
  destruct (Z.leb_spec (- 2 ^ 31) z); [|lia]. destruct (Z.ltb_spec z (2 ^ 31)); [done|lia].
Qed.

Section Serve.
Context {A : Type} `{PageServerLaws A} (cfg : rest_config) (max : nat).
Hypothesis max_ok : 0 < max <= rest_max_page_size cfg.
Hypothesis max_small : (Z.of_nat max < 2 ^ 31)%Z.

(** A listing URL with a valid [from] gets the page at that position. *)
Lemma serve_url_page (prefix : string) (from kind : option string) (forward : bool) :
  has_char "?" prefix = false ->
  has_char "&" (default "" kind) = false ->
  (forall k, from = Some k -> valid_from (A := A) k = true /\ k <> ""%string /\ has_char "&" k = false) ->
  serve_url (A := A) cfg
    (prefix +:+ qargs from (Z.of_nat max) kind (Some (if forward then "forward" else "backward")%string))
  = Resp true "OK" (Some (list_page (default "" from) (match from with Some _ => forward | None => true end) max)).
Proof.
  intros Hp Hk Hf. unfold serve_url. rewrite query_part_app by (done || apply qargs_shape).
  rewrite query_args_qargs; [|lia|].
  2: { repeat constructor; [|done|by destruct forward].
       destruct from as [k|]; [|done]. by destruct (Hf k eq_refl) as (_ & _ & ?). }
  destruct (Z.ltb_spec 0 (Z.of_nat max)); [|lia].
  unfold serve_list, getPageSize. cbn [app assoc_get String.eqb Ascii.eqb Bool.eqb].
  rewrite stoi_numeral by lia.
  unfold size_t. rewrite Z.mod_small by lia.
  destruct (Z.eqb_spec (Z.of_nat max) 0); [lia|]. rewrite Z.min_l, Nat2Z.id by lia.
  destruct from as [k|].
  - destruct (Hf k eq_refl) as (Hv & Hne & _). apply String.eqb_neq in Hne.
    unfold getFrom, getDirection, opt_arg. cbn [truthy_str default]. rewrite Hne.
    destruct (truthy_str kind), forward; cbn; by rewrite Hne, Hv.
  - unfold getFrom, opt_arg. destruct (truthy_str kind), forward; done.
Qed.
End Serve.

(** ** Windows *)

Lemma window_length {A} (s n : nat) (l : list A) :
  length (window s n l) = Nat.min n (length l - s).
Proof. unfold window. by rewrite length_take, length_drop. Qed.

Lemma window_lookup {A} (s n i : nat) (l : list A) :
  window s n l !! i = if decide (i < n) then l !! (s + i) else None.
Proof.
  unfold window. case_decide; [by rewrite lookup_take_lt, lookup_drop|].
  apply lookup_take_ge; lia.
Qed.

Lemma window_head {A} (s n : nat) (l : list A) :
  0 < n -> head (window s n l) = l !! s.
Proof. intros. by rewrite head_lookup, window_lookup, decide_True, Nat.add_0_r by lia. Qed.

Lemma window_last {A} (s n : nat) (l : list A) :
  0 < n -> s < length l -> last (window s n l) = l !! (Nat.min (s + n) (length l) - 1).
Proof.
  intros Hn Hs. rewrite last_lookup, window_length, window_lookup, decide_True by lia.
  f_equal. lia.
Qed.

(** Consecutive windows cover the list. *)
Lemma window_app {A} (s n m : nat) (l : list A) :
  window s n l ++ window (s + n) m l = window s (n + m) l.
Proof. unfold window. rewrite <- take_take_drop, drop_drop. done. Qed.

Lemma window_all {A} (n : nat) (l : list A) : length l <= n -> window 0 n l = l.
Proof. intros. unfold window. by rewrite drop_0, take_ge. Qed.
