(* ===== verification/RealKey.v ===== *)
(** * The server's index: keys and ordered iteration

    ResourceIf::RealKey (include/nsblast/ResourceIf.h, lib/ResourceIf.cpp) puts
    a class byte before a name and reverses the bytes of domain names, so that
    the names of a zone are neighbours in the index.
    RocksDbResource::Transaction::iterateFromPrevT walks the index from a key
    in either direction.  The iterator is RocksDB's: here the interface
    [KvStore] with its documented behaviour [KvStoreLaws], of which
    [list_store] is an instance. *)

From S2P Require Import Prelude JsNumber.

(** ** Keys *)

Inductive key_class : Type :=
| ENTRY | DIFF | TENANT | USER | ROLE | ZONE | TZONE | TRXID | ZRR | TENANT_NAME.

Definition class_byte (c : key_class) : ascii :=
  ascii_of_nat match c with
               | ENTRY => 0 | DIFF => 1 | TENANT => 2 | USER => 3 | ROLE => 4
               | ZONE => 5 | TZONE => 6 | TRXID => 7 | ZRR => 8 | TENANT_NAME => 9
               end.

Definition isReversed (c : key_class) : bool :=
  match c with ENTRY | DIFF | ZONE => true | _ => false end.

Definition reverse (s : string) : string := string_of_list_ascii (rev (list_ascii_of_string s)).

(** [RealKey::init] without a version. *)
Definition init_key (key : string) (kclass : key_class) : string :=
  String (class_byte kclass) (if isReversed kclass then reverse key else key).

Definition concat_key (left right : string) : string := left +:+ String "/" right.

Definition data_part (bytes : string) : string :=
  match bytes with String _ s => s | EmptyString => EmptyString end.

(** [RealKey::dataAsString] for keys without a version. *)
Definition dataAsString (bytes : string) : string :=
  match bytes with
  | EmptyString => EmptyString
  | String c s =>
      if existsb (fun k => isReversed k && Ascii.eqb c (class_byte k)) [ENTRY; DIFF; ZONE]
      then reverse s else s
  end.

(** The comparison of [isInZone]: the reversed zone against the bytes of a
    key, up to the end of the zone. *)
Fixpoint in_zone_from (z k : string) : bool :=
  match z, k with
  | EmptyString, EmptyString => true
  | EmptyString, String c _ => Ascii.eqb c "."
  | String _ _, EmptyString => false
  | String a z', String b k' => if Ascii.eqb a b then in_zone_from z' k' else false
  end.

Definition isInZone (bytes zoneFqdn : string) : bool :=
  in_zone_from (reverse zoneFqdn) (data_part bytes).

(** [std::string::find('/')] and the two parts around it. *)
Fixpoint cut_slash (s : string) : option (string * string) :=
  match s with
  | EmptyString => None
  | String c s' =>
      if Ascii.eqb c "/" then Some (EmptyString, s')
      else match cut_slash s' with
           | Some (t, f) => Some (String c t, f)
           | None => None
           end
  end.

Definition getFirstAndSecondStr (bytes : string) : string * string :=
  default (EmptyString, EmptyString) (cut_slash (data_part bytes)).

Definition isSameKeyClass (bytes key : string) : bool :=
  match bytes, key with
  | String a _, String b _ => Ascii.eqb a b
  | _, _ => false
  end.

(** ** The iterator of a column family *)

Class KvStore (V : Type) : Type := {
  cursor : Type;
  SeekForPrev : string -> cursor;
  SeekToFirst : cursor;
  SeekToLast : cursor;
  Next : cursor -> cursor;
  Prev : cursor -> cursor;
  Valid : cursor -> bool;
  cursor_key : cursor -> string;
  cursor_value : cursor -> V
}.

(** The loop of iterateFromPrevT: the callback [fn] gets the caller's variables
    with each record and says whether to go on.  [None] is running out of
    fuel. *)
Section Iterate.
Context {V S : Type} `{KvStore V} (key : string) (fn : S -> string -> V -> S * bool).

Fixpoint iterate_loop (fuel : nat) (forward : bool) (it : cursor) (st : S) : option S :=
  match fuel with
  | O => None
  | Datatypes.S fuel' =>
      if Valid it then
        if isSameKeyClass key (cursor_key it) then
          let '(st', go) := fn st (cursor_key it) (cursor_value it) in
          if go then iterate_loop fuel' forward (if forward then Next it else Prev it) st'
          else Some st'
        else Some st
      else Some st
  end.

(** Where the walk starts: at the last record that is not after [key], or past
    it; or at an end of the data when there is none. *)
Definition start_cursor (skipKey forward : bool) : cursor :=
  let it := SeekForPrev key in
  if Valid it then (if skipKey then (if forward then Next it else Prev it) else it)
  else (if forward then SeekToFirst else SeekToLast).

Definition iterateFromPrevT (skipKey forward : bool) (fuel : nat) (st : S) : option S :=
  iterate_loop fuel forward (start_cursor skipKey forward) st.
End Iterate.

(** *** What RocksDB documents *)

(** The records at most [k], in a list sorted by key. *)
Definition count_le {V} (k : string) (l : list (string * V)) : nat :=
  length (List.filter (fun kv => String.leb kv.1 k) l).

Definition key_lt (a b : string) : Prop := String.ltb a b = true.

Definition before (i : nat) : option nat := match i with O => None | S i' => Some i' end.

(** [contents] are the records in the order of the bytes of their keys; [pos]
    is the record a cursor is at. *)
Class KvStoreLaws {V} (kv : KvStore V) (contents : list (string * V)) (pos : cursor -> option nat)
    : Prop := {
  kv_sorted : StronglySorted key_lt contents.*1;
  kv_valid c : Valid c = bool_decide (is_Some (pos c));
  kv_at c i : pos c = Some i -> contents !! i = Some (cursor_key c, cursor_value c);
  kv_first : pos SeekToFirst = if decide (contents = []) then None else Some 0;
  kv_last : pos SeekToLast = before (length contents);
  kv_seek k : pos (SeekForPrev k) = before (count_le k contents);
  kv_next c i : pos c = Some i ->
    pos (Next c) = if decide (S i < length contents) then Some (S i) else None;
  kv_prev c i : pos c = Some i -> pos (Prev c) = before i
}.

(** *** A sorted list as a store *)

Section ListStore.
Context {V : Type} (l : list (string * V)) (v0 : V).

Definition list_store : KvStore V := {|
  cursor := option nat;
  SeekForPrev k := before (count_le k l);
  SeekToFirst := if decide (l = []) then None else Some 0;
  SeekToLast := before (length l);
  Next c := match c with Some i => if decide (S i < length l) then Some (S i) else None | None => None end;
  Prev c := match c with Some i => before i | None => None end;
  Valid c := match c with Some i => i <? length l | None => false end;
  cursor_key c := match c with Some i => default ""%string (fst <$> l !! i) | None => ""%string end;
  cursor_value c := match c with Some i => default v0 (snd <$> l !! i) | None => v0 end
|}.

Definition list_pos (c : option nat) : option nat :=
  match c with Some i => if i <? length l then Some i else None | None => None end.

Lemma count_le_length k : count_le k l <= length l.
Proof.
  unfold count_le. induction l as [|x l' IH]; cbn; [done|].
  destruct (String.leb x.1 k); cbn; lia.
Qed.

Lemma list_pos_before n : n <= length l -> list_pos (before n) = before n.
Proof. destruct n as [|n]; [done|]. cbn -[Nat.ltb]. destruct (Nat.ltb_spec n (length l)); [done|lia]. Qed.

Lemma list_store_laws : StronglySorted key_lt l.*1 -> KvStoreLaws list_store l list_pos.
Proof.
  intros Hs. split; cbn -[Nat.ltb]; [done| | | | | | |].
  - intros [i|]; [|done]. cbn -[Nat.ltb]. by destruct (i <? length l).
  - intros [j|] i; cbn -[Nat.ltb]; [|done]. destruct (Nat.ltb_spec j (length l)) as [Hj|]; [|done].
    intros [= <-]. destruct (lookup_lt_is_Some_2 l j Hj) as [[k v] E]. by rewrite E.
  - destruct (decide (l = [])); [done|]. cbn. destruct l; [done|]. by cbn.
  - apply list_pos_before. lia.
  - intros k. apply list_pos_before, count_le_length.
  - intros [j|] i; cbn -[Nat.ltb]; [|done]. destruct (Nat.ltb_spec j (length l)); [|done]. intros [= <-].
    destruct (decide (S j < length l)); [|done]. cbn -[Nat.ltb]. destruct (Nat.ltb_spec (S j) (length l)); [done|lia].
  - intros [j|] i; cbn -[Nat.ltb]; [|done]. destruct (Nat.ltb_spec j (length l)); [|done]. intros [= <-].
    destruct j as [|j]; [done|]. cbn -[Nat.ltb]. destruct (Nat.ltb_spec j (length l)); [done|lia].
Qed.
End ListStore.

(** ** The order of the keys *)

Lemma ascii_compare_refl (a : ascii) : Ascii.compare a a = Eq.
Proof. unfold Ascii.compare. apply N.compare_refl. Qed.

Lemma string_compare_cons (a b : ascii) (s t : string) :
  String.compare (String a s) (String b t)
  = match Ascii.compare a b with Eq => String.compare s t | c => c end.
Proof. reflexivity. Qed.

Lemma string_compare_refl (s : string) : String.compare s s = Eq.
Proof. induction s as [|c s IH]; [done|]. by rewrite string_compare_cons, ascii_compare_refl. Qed.

Lemma key_lt_le (a b : string) : key_lt a b -> String.leb a b = true.
Proof. unfold key_lt, String.ltb, String.leb. by destruct (String.compare a b). Qed.

Lemma key_le_lt (a b : string) : String.leb a b = true -> a = b \/ key_lt a b.
Proof.
  unfold key_lt, String.ltb, String.leb. destruct (String.compare a b) eqn:E; [|auto|done].
  apply String.compare_eq_iff in E. auto.
Qed.

Lemma key_le_gt (a b : string) : String.leb a b = false <-> key_lt b a.
Proof.
  unfold key_lt, String.ltb, String.leb. rewrite String.compare_antisym.
  by destruct (String.compare b a).
Qed.

Lemma key_le_trans (a b c : string) :
  String.leb a b = true -> String.leb b c = true -> String.leb a c = true.
Proof.
  intros H1 H2. apply Is_true_true. apply Is_true_true in H1, H2.
  exact (transitivity (R := String.le) H1 H2).
Qed.

Lemma key_lt_irrefl (a : string) : ~ key_lt a a.
Proof. unfold key_lt, String.ltb. by rewrite string_compare_refl. Qed.

Lemma key_lt_le_trans (a b c : string) : key_lt a b -> String.leb b c = true -> key_lt a c.
Proof.
  intros H1 H2. destruct (key_le_lt a c) as [->|]; [|apply key_le_gt in H1; congruence|done].
  eapply key_le_trans; [by apply key_lt_le|done].
Qed.

Lemma key_le_refl (a : string) : String.leb a a = true.
Proof. unfold String.leb. by rewrite string_compare_refl. Qed.

(** ** A callback that fills a page *)

Record page_scan (A : Type) : Type := PageScan { sc_list : list A; sc_count : nat; sc_more : bool }.
Arguments PageScan {A}.
Arguments sc_list {A}.
Arguments sc_count {A}.
Arguments sc_more {A}.

(** The variables of the walk, [None] once [item] has thrown. *)
Definition fill_page {V A} (accept : string -> bool) (item : string -> V -> option A) (page_size : nat)
    (st : option (page_scan A)) (k : string) (v : V) : option (page_scan A) * bool :=
  match st with
  | None => (None, false)
  | Some st =>
      if negb (accept k) then (Some st, false)
      else
        let count := S (sc_count st) in
        if page_size <? count then (Some (PageScan (sc_list st) count true), false)
        else match item k v with
             | Some x => (Some (PageScan (sc_list st ++ [x]) count (sc_more st)), true)
             | None => (None, false)
             end
  end.

(** ** What an iteration visits *)

Section Visits.
Context {V : Type} {kv : KvStore V} (contents : list (string * V)) (pos : cursor -> option nat).
Context {laws : KvStoreLaws kv contents pos}.

(** The records from a cursor on, in the direction of the walk. *)
Definition ahead (forward : bool) (c : cursor) : list (string * V) :=
  match pos c with
  | Some i => if forward then drop i contents else rev (take (S i) contents)
  | None => []
  end.

Lemma ahead_nil forward c : pos c = None -> ahead forward c = [].
Proof. unfold ahead. by intros ->. Qed.

Lemma ahead_cons forward c i :
  pos c = Some i ->
  ahead forward c
  = (cursor_key c, cursor_value c) :: ahead forward (if forward then Next c else Prev c).
Proof.
  intros Hc. assert (Hi := kv_at c i Hc). unfold ahead at 1. rewrite Hc. destruct forward.
  - rewrite (drop_S _ _ _ Hi). f_equal. unfold ahead. rewrite (kv_next c i Hc).
    destruct (decide (S i < length contents)); [done|]. apply drop_ge. lia.
  - rewrite (take_S_r _ _ _ Hi), rev_app_distr. cbn [rev Datatypes.app]. f_equal.
    unfold ahead. rewrite (kv_prev c i Hc). by destruct i.
Qed.

(** Where iterateFromPrevT starts. *)
Definition visits (key : string) (skipKey forward : bool) : list (string * V) :=
  let p := count_le key contents in
  if forward then drop (if skipKey then p else p - 1) contents
  else if Nat.eqb p 0 then rev contents
  else rev (take (if skipKey then p - 1 else p) contents).

Lemma ahead_first : ahead true SeekToFirst = contents.
Proof. unfold ahead. rewrite kv_first. by destruct (decide (contents = [])) as [->|]. Qed.

Lemma ahead_last : ahead false SeekToLast = rev contents.
Proof.
  unfold ahead. rewrite kv_last. destruct contents as [|x l] eqn:E; [done|].
  cbn [length before]. by rewrite take_ge by (cbn; lia).
Qed.

Lemma count_le_bound (k : string) : count_le k contents <= length contents.
Proof. apply (count_le_length contents). Qed.

Lemma start_visits key skipKey forward :
  ahead forward (start_cursor key skipKey forward) = visits key skipKey forward.
Proof.
  unfold start_cursor. rewrite kv_valid, kv_seek. unfold visits.
  assert (Hb := count_le_bound key). assert (Hs := kv_seek key).
  destruct (count_le key contents) as [|q] eqn:Ec; cbn [before] in *.
  - rewrite bool_decide_eq_false_2 by by intros [].
    destruct forward; [|apply ahead_last]. rewrite ahead_first. by destruct skipKey.
  - rewrite bool_decide_eq_true_2 by eauto. cbn [Nat.eqb]. rewrite Nat.sub_1_r. cbn [Nat.pred].
    destruct skipKey; [|unfold ahead; rewrite Hs; by destruct forward].
    assert (Hc := ahead_cons forward _ _ Hs). unfold ahead at 1 in Hc. rewrite Hs in Hc.
    destruct forward.
    + destruct (lookup_lt_is_Some_2 contents q) as [y Hy]; [lia|].
      rewrite (drop_S _ _ _ Hy) in Hc. by injection Hc as _ <-.
    + destruct (lookup_lt_is_Some_2 contents q) as [y Hy]; [lia|].
      rewrite (take_S_r _ _ _ Hy), rev_app_distr in Hc. cbn in Hc. by injection Hc as _ <-.
Qed.

(** Every walk ends, whatever the callback does: fuel for the records of the
    store is enough. *)
Lemma loop_ends {S} key (fn : S -> string -> V -> S * bool) forward fuel c st :
  length (ahead forward c) < fuel -> is_Some (iterate_loop key fn fuel forward c st).
Proof.
  revert c st. induction fuel as [|fuel IH]; intros c st Hf; [lia|].
  cbn [iterate_loop]. rewrite kv_valid. destruct (pos c) as [i|] eqn:Hc.
  - rewrite bool_decide_eq_true_2 by eauto. rewrite (ahead_cons _ _ _ Hc) in Hf. cbn in Hf.
    destruct (isSameKeyClass key (cursor_key c)); [|eauto].
    destruct (fn st (cursor_key c) (cursor_value c)) as [st' []]; [|eauto]. apply IH. lia.
  - rewrite bool_decide_eq_false_2 by by intros []. eauto.
Qed.

Lemma visits_length key skipKey forward : length (visits key skipKey forward) <= length contents.
Proof.
  unfold visits. destruct forward; [rewrite length_drop; lia|].
  destruct (Nat.eqb _ 0); rewrite length_rev, ?length_take; lia.
Qed.

(** The page holds the items of the first [n] accepted records; the walk
    throws when one of them has no item. *)
Lemma fill_page_loop {A} key accept (item : string -> V -> option A) n forward fuel c acc cnt :
  length (ahead forward c) < fuel -> cnt <= n ->
  let w := take_while (fun kv => isSameKeyClass key kv.1 && accept kv.1) (ahead forward c) in
  exists cnt', iterate_loop key (fill_page accept item n) fuel forward c (Some (PageScan acc cnt false))
  = Some (match mapM (fun kv => item kv.1 kv.2) (take (n - cnt) w) with
          | Some l => Some (PageScan (acc ++ l) cnt' (n - cnt <? length w))
          | None => None
          end).
Proof.
  cbv zeta. revert c acc cnt. induction fuel as [|fuel IH]; intros c acc cnt Hf Hn; [lia|].
  cbn [iterate_loop]. rewrite kv_valid. destruct (pos c) as [i|] eqn:Hc.
  - rewrite bool_decide_eq_true_2 by eauto. rewrite (ahead_cons _ _ _ Hc) in *. cbn in Hf.
    cbn [take_while fst snd].
    destruct (isSameKeyClass key (cursor_key c)); cbn [andb].
    2: { exists cnt. rewrite take_nil. cbn. by rewrite app_nil_r. }
    cbn [fill_page]. destruct (accept (cursor_key c)); cbn [negb sc_count sc_list sc_more].
    2: { exists cnt. rewrite take_nil. cbn. by rewrite app_nil_r. }
    destruct (Nat.ltb_spec n (S cnt)).
    + exists (S cnt). replace (n - cnt) with 0 by lia. rewrite take_0. cbn. by rewrite app_nil_r.
    + replace (n - cnt) with (S (n - S cnt)) by lia. cbn [take mapM fst snd].
      destruct (item (cursor_key c) (cursor_value c)) as [x|]; [|by exists cnt].
      destruct (IH (if forward then Next c else Prev c) (acc ++ [x]) (S cnt)) as (cnt' & E); [lia|lia|].
      exists cnt'. rewrite E. cbn. destruct (mapM _ _); [|done]. cbn. by rewrite <- app_assoc.
  - rewrite bool_decide_eq_false_2 by by intros []. exists cnt. rewrite (ahead_nil _ _ Hc).
    cbn [take_while]. rewrite take_nil. cbn. by rewrite app_nil_r.
Qed.
End Visits.

(** C30: The walk over the index ends, from any key, in either direction and
    whatever the callback does: as many steps as there are records, and one to
    notice the end, are enough. *)
Theorem iterateFromPrevT_ends {V S} {kv : KvStore V} (contents : list (string * V))
    (pos : cursor -> option nat) {laws : KvStoreLaws kv contents pos}
    (key : string) (fn : S -> string -> V -> S * bool) (skipKey forward : bool) (fuel : nat) (st : S) :
  length contents < fuel -> is_Some (iterateFromPrevT key fn skipKey forward fuel st).
Proof.
  intros Hf. apply (loop_ends contents pos). rewrite (start_visits contents pos).
  assert (Hl := visits_length contents key skipKey forward). lia.
Qed.

Module IndexDemo.

Definition three : list (string * nat) := [("a", 1); ("b", 2); ("c", 3)]%string.

Lemma three_sorted : StronglySorted key_lt three.*1.
Proof. repeat constructor. Qed.

Lemma iterateFromPrevT_ends_witness :
  is_Some (@iterateFromPrevT nat nat (list_store three 0) "b" (fun n _ v => (n + v, true)) false true 4 0).
Proof.
  refine (@iterateFromPrevT_ends nat nat (list_store three 0) three (list_pos three)
            (list_store_laws three 0 three_sorted) "b" _ false true 4 0 _). cbn. lia.
Defined.
End IndexDemo.
