(* ===== verification/KeyBlock.v ===== *)
(** * Neighbours in the index

    The records of one tenant or of one zone are a block of consecutive
    records of the index.  What a walk over the index visits of such a block,
    and the page that a callback fills from it. *)

From S2P Require Import Prelude JsNumber JsValue Http Qargs Paging RealKey.

(** ** Sorted records with a convex property *)

Section Blocks.
Context {V : Type} (P : string -> bool).
Implicit Type l : list (string * V).

Definition convex (ks : list string) : Prop :=
  forall a b c, a ∈ ks -> b ∈ ks -> c ∈ ks -> P a = true -> P c = true ->
    String.leb a b = true -> String.leb b c = true -> P b = true.

Lemma filter_false l : Forall (fun kv => P kv.1 = false) l -> List.filter (fun kv => P kv.1) l = [].
Proof. induction 1 as [|x l Hx _ IH]; [done|]. cbn. by rewrite Hx. Qed.

Lemma filter_empty l : List.filter (fun kv => P kv.1) l = [] -> Forall (fun kv => P kv.1 = false) l.
Proof.
  induction l as [|x l IH]; cbn; [constructor|]. destruct (P x.1) eqn:E; [done|].
  intros H. constructor; auto.
Qed.

Lemma convex_split l :
  StronglySorted key_lt l.*1 -> convex l.*1 ->
  exists pre post, l = pre ++ List.filter (fun kv => P kv.1) l ++ post /\
    Forall (fun kv => P kv.1 = false) pre /\ Forall (fun kv => P kv.1 = false) post.
Proof.
  induction l as [|x l IH]; intros Hs Hc; [by exists [], []|].
  apply StronglySorted_cons in Hs as [Hx Hs].
  destruct IH as (pre & post & E & Hpre & Hpost); [done| |].
  { intros a b c Ha Hb Hcc. apply Hc; by apply elem_of_cons; right. }
  cbn [List.filter]. destruct (P x.1) eqn:Px.
  - destruct (List.filter (fun kv => P kv.1) l) as [|z blk] eqn:Ef.
    + exists [], l. split_and!; [done|constructor|by apply filter_empty].
    + assert (pre = []) as ->.
      { destruct pre as [|y pre]; [done|]. exfalso.
        assert (Hy : P y.1 = false) by by inversion Hpre.
        assert (Hz : P z.1 = true).
        { assert (z ∈ List.filter (fun kv => P kv.1) l) as Hin by (rewrite Ef; by left).
          by apply list_elem_of_In, filter_In in Hin as [_ ?]. }
        assert (Hzin : z ∈ pre ++ (z :: blk) ++ post) by set_solver.
        rewrite E in Hx, Hs. apply Forall_cons in Hx as [Hxy _].
        apply StronglySorted_cons in Hs as [Hyz _]. rewrite Forall_forall in Hyz.
        apply (list_elem_of_fmap_2 fst) in Hzin. specialize (Hyz _ Hzin).
        assert (P y.1 = true); [|congruence].
        apply (Hc x.1 y.1 z.1); auto using key_lt_le; rewrite E;
          (apply (list_elem_of_fmap_2 fst)); set_solver. }
      exists [], post. split_and!; [|constructor|done]. cbn in *. by rewrite <- E.
  - exists (x :: pre), post. split_and!; [by rewrite E at 1|by constructor|done].
Qed.

Lemma count_le_split (k : string) l1 l2 :
  Forall (fun kv => String.leb kv.1 k = true) l1 -> Forall (fun kv => key_lt k kv.1) l2 ->
  count_le k (l1 ++ l2) = length l1.
Proof.
  intros H1 H2. unfold count_le. rewrite List.filter_app.
  assert (List.filter (fun kv => String.leb kv.1 k) l1 = l1) as ->.
  { induction H1 as [|x l Hx _ IH]; [done|]. cbn. by rewrite Hx, IH. }
  assert (List.filter (fun kv => String.leb kv.1 k) l2 = []) as ->; [|by rewrite app_nil_r].
  induction H2 as [|x l Hx _ IH]; [done|]. cbn. apply key_le_gt in Hx. rewrite Hx. exact IH.
Qed.

(** The position of a key of the list. *)
Lemma count_le_at l1 l2 (x : string * V) :
  StronglySorted key_lt (l1 ++ x :: l2).*1 -> count_le x.1 (l1 ++ x :: l2) = S (length l1).
Proof.
  intros Hs. rewrite cons_middle, (app_assoc l1 [x] l2). rewrite count_le_split.
  - rewrite length_app. cbn. lia.
  - rewrite fmap_app, StronglySorted_app in Hs. destruct Hs as (Hs & _ & _).
    apply Forall_app. split; [|constructor; [apply key_le_refl|constructor]].
    apply Forall_forall. intros y Hy. apply key_lt_le, Hs; [by apply list_elem_of_fmap_2|cbn; set_solver].
  - rewrite fmap_app, StronglySorted_app in Hs. destruct Hs as (_ & _ & Hs).
    rewrite fmap_cons, StronglySorted_cons in Hs. destruct Hs as [Hs _].
    rewrite Forall_fmap in Hs. exact Hs.
Qed.

Lemma take_while_all l1 l2 :
  Forall (fun kv => P kv.1 = true) l1 -> Forall (fun kv => P kv.1 = false) l2 ->
  take_while (fun kv => P kv.1) (l1 ++ l2) = l1.
Proof.
  intros H1 H2. induction H1 as [|x l Hx _ IH]; cbn.
  - destruct H2 as [|y l Hy _]; [done|]. cbn. by rewrite Hy.
  - by rewrite Hx, IH.
Qed.

Lemma take_while_ext {A} (f g : A -> bool) (l : list A) :
  (forall x, x ∈ l -> f x = g x) -> take_while f l = take_while g l.
Proof.
  induction l as [|x l IH]; intros Hfg; cbn; [done|]. rewrite Hfg by by left.
  rewrite IH; [done|]. intros y Hy. apply Hfg. by right.
Qed.
End Blocks.

(** ** Keys with a common prefix are neighbours *)

Lemma ascii_lt_le_trans (a b c : ascii) :
  Ascii.compare a b = Lt -> Ascii.compare b c = Lt -> Ascii.compare a c = Lt.
Proof. unfold Ascii.compare. rewrite !N.compare_lt_iff. lia. Qed.

(** Between two strings with a prefix are only strings with that prefix, and
    what follows it is in the same order. *)
Lemma prefix_between (p s t b : string) :
  String.leb (p +:+ s) b = true -> String.leb b (p +:+ t) = true ->
  exists r, b = p +:+ r /\ String.leb s r = true /\ String.leb r t = true.
Proof.
  revert b. induction p as [|c p IH]; intros b H1 H2; [by exists b|].
  rewrite !string_app_cons in *. destruct b as [|d b]; [done|].
  unfold String.leb in H1, H2. rewrite string_compare_cons in H1, H2.
  rewrite (Ascii.compare_antisym d c) in H2.
  destruct (Ascii.compare c d) eqn:E; cbn in *; [|done|done].
  apply Ascii.compare_eq_iff in E. subst d.
  destruct (IH b) as (r & -> & ? & ?); [done|done|]. by exists r.
Qed.

Lemma prefix_le (p s : string) : String.leb p (p +:+ s) = true.
Proof.
  induction p as [|c p IH]; [by destruct s|]. rewrite string_app_cons.
  unfold String.leb. rewrite string_compare_cons, ascii_compare_refl. exact IH.
Qed.

Lemma prefix_le_inv (p s t : string) : String.leb (p +:+ s) (p +:+ t) = true -> String.leb s t = true.
Proof.
  induction p as [|c p IH]; [done|]. rewrite !string_app_cons. unfold String.leb.
  rewrite string_compare_cons, ascii_compare_refl. exact IH.
Qed.

(** ** The reply of a listing *)

(** getKeys (RestApi.cpp): the keys of the ends in database order; a backward
    walk collects the records in reverse. *)
Definition getKeys {A} (val : A -> string) (l : list A) (forward : bool) : string * string :=
  match head l, last l with
  | Some front, Some back => if forward then (val front, val back) else (val back, val front)
  | _, _ => (""%string, ""%string)
  end.

(** sort_json (util.h). *)
Definition sort_json {A} (val : A -> string) (l : list A) : list A :=
  merge_sort (fun a b => String.le (val a) (val b)) l.

(** The walk of a listing and the page made of what it collected: no answer
    without fuel, an exception, or the page. *)
Definition list_reply {V A} `{KvStore V} (accept : string -> bool) (item : string -> V -> option A)
    (val : A -> string) (key : string) (skipKey forward : bool) (page_size fuel : nat)
    : option (option (page A)) :=
  match iterateFromPrevT key (fill_page accept item page_size) skipKey forward fuel
          (Some (PageScan [] 0 false)) with
  | Some (Some sc) =>
      let '(kfirst, klast) := getKeys val (sc_list sc) forward in
      Some (Some (Page (sort_json val (sc_list sc)) (sc_more sc) kfirst klast))
  | Some None => Some None
  | None => None
  end.

Definition page_like {A} (val : A -> string) (p : page A) (w : list A) (m : bool) : Prop :=
  value p ≡ₚ w /\ more p = m /\
  kfirst p = default ""%string (val <$> head w) /\ klast p = default ""%string (val <$> last w).

(** The reply for the items [ol] of a page, or for the lack of one of them. *)
Definition reply_like {A} (val : A -> string) (r : option (page A)) (ol : option (list A)) (m : bool)
    : Prop :=
  match ol, r with
  | Some w, Some p => page_like val p w m
  | None, None => True
  | _, _ => False
  end.

Lemma sort_json_perm {A} (val : A -> string) l : sort_json val l ≡ₚ l.
Proof. apply merge_sort_Permutation. Qed.

Lemma page_like_forward {A} (val : A -> string) l m :
  page_like val (let '(f, g) := getKeys val l true in Page (sort_json val l) m f g) l m.
Proof.
  unfold getKeys, page_like. destruct l as [|x l]; [done|]. cbn [head].
  destruct (last (x :: l)) as [y|] eqn:E; [|by apply last_None in E].
  split_and!; [apply sort_json_perm|done..].
Qed.

Lemma rev_reverse {A} (l : list A) : rev l = stdpp.list_basics.list.reverse l.
Proof. unfold stdpp.list_basics.list.reverse. by rewrite rev_alt. Qed.

Lemma page_like_backward {A} (val : A -> string) l m :
  page_like val (let '(f, g) := getKeys val (rev l) false in Page (sort_json val (rev l)) m f g) l m.
Proof.
  unfold getKeys, page_like. rewrite rev_reverse, last_reverse, head_reverse.
  destruct l as [|x l]; [done|]. cbn [head].
  destruct (last (x :: l)) as [y|] eqn:E; [|by apply last_None in E].
  cbn [default from_option fmap option_fmap option_map value more kfirst klast].
  split_and!; [|done..]. etrans; [apply sort_json_perm|]. apply reverse_Permutation.
Qed.

Lemma mapM_app {A B} (f : A -> option B) l1 l2 :
  mapM f (l1 ++ l2) = (r1 ← mapM f l1; r2 ← mapM f l2; Some (r1 ++ r2)).
Proof.
  induction l1 as [|x l1 IH]; cbn.
  - by destruct (mapM f l2).
  - destruct (f x); [|done]. cbn. rewrite IH. destruct (mapM f l1); [|done]. cbn. by destruct (mapM f l2).
Qed.

Lemma mapM_rev {A B} (f : A -> option B) l : mapM f (rev l) = @rev B <$> mapM f l.
Proof.
  induction l as [|x l IH]; [done|]. cbn [rev]. rewrite mapM_app, IH. cbn.
  destruct (mapM f l), (f x); done.
Qed.

Lemma mapM_total {A B} (f : A -> option B) (g : A -> B) l :
  Forall (fun x => f x = Some (g x)) l -> mapM f l = Some (g <$> l).
Proof. induction 1 as [|x l Hx _ IH]; [done|]. cbn. rewrite Hx. cbn. by rewrite IH. Qed.

Lemma sorted_nodup (l : list string) : StronglySorted key_lt l -> NoDup l.
Proof.
  induction 1 as [|x l _ IH Hx]; constructor; [|done]. intros Hin. rewrite Forall_forall in Hx.
  exact (key_lt_irrefl _ (Hx x Hin)).
Qed.

Section PageOfBlock.
Context {V A : Type} {kv : KvStore V} (contents : list (string * V)) (pos : cursor -> option nat).
Context {laws : KvStoreLaws kv contents pos}.
Context (P accept : string -> bool) (item : string -> V -> option A) (val : A -> string).
Context (pre blk post : list (string * V)) (key : string).
Hypothesis contents_split : contents = pre ++ blk ++ post.
Hypothesis pre_out : Forall (fun r => P r.1 = false) pre.
Hypothesis blk_in : Forall (fun r => P r.1 = true) blk.
Hypothesis post_out : Forall (fun r => P r.1 = false) post.
Hypothesis go_on : forall r, r ∈ contents -> isSameKeyClass key r.1 && accept r.1 = P r.1.

Abbreviation item_of := (fun r : string * V => item r.1 r.2).

Lemma list_reply_visits skipKey forward n fuel :
  length contents < fuel ->
  list_reply accept item val key skipKey forward n fuel
  = let w := take_while (fun r => P r.1) (visits contents key skipKey forward) in
    Some (match mapM item_of (take n w) with
          | Some l => Some (let '(f, g) := getKeys val l forward in
                            Page (sort_json val l) (n <? length w) f g)
          | None => None
          end).
Proof.
  intros Hf. unfold list_reply, iterateFromPrevT.
  assert (Hv := start_visits contents pos key skipKey forward).
  assert (Hl := visits_length contents key skipKey forward).
  destruct (fill_page_loop contents pos key accept item n forward fuel
              (start_cursor key skipKey forward) [] 0) as (cnt & E); [rewrite Hv; lia|lia|].
  rewrite E. clear E. rewrite Hv, Nat.sub_0_r. cbv zeta.
  rewrite (take_while_ext _ (fun r => P r.1)).
  { destruct (mapM _ _) as [l|]; [|done]. cbn [sc_list sc_more Datatypes.app].
    by destruct (getKeys _ _ _). }
  intros r Hr. apply go_on. clear -Hr. unfold visits in Hr.
  destruct forward; [eapply subseteq_drop; exact Hr|].
  destruct (Nat.eqb _ 0); rewrite rev_reverse, elem_of_reverse in Hr; [done|].
  eapply subseteq_take; exact Hr.
Qed.

Lemma take_while_block l1 l2 :
  l1 ⊆ blk -> Forall (fun r => P r.1 = false) l2 -> take_while (fun r => P r.1) (l1 ++ l2) = l1.
Proof.
  intros H1 H2. apply take_while_all; [|done]. apply Forall_forall. intros x Hx.
  by apply (proj1 (Forall_forall _ _) blk_in), H1.
Qed.

(** The records of the block from record [s] on. *)
Lemma list_reply_from s n fuel skipKey :
  visits contents key skipKey true = drop s blk ++ post -> length contents < fuel ->
  exists p, list_reply accept item val key skipKey true n fuel = Some p /\
    reply_like val p (mapM item_of (window s n blk)) (n <? length blk - s).
Proof.
  intros Hv Hf. rewrite list_reply_visits by done. cbv zeta.
  rewrite Hv, take_while_block by (apply subseteq_drop || done).
  eexists. split; [reflexivity|]. rewrite length_drop.
  unfold window. destruct (mapM item_of _) as [l|]; [apply page_like_forward|done].
Qed.

(** The walk starts just before the block. *)
Lemma list_reply_start n fuel :
  Forall (fun r => String.leb r.1 key = true) pre ->
  Forall (fun r => key_lt key r.1) (blk ++ post) -> length contents < fuel ->
  exists p, list_reply accept item val key true true n fuel = Some p /\
    reply_like val p (mapM item_of (window 0 n blk)) (n <? length blk).
Proof.
  intros H1 H2 Hf. rewrite <- (Nat.sub_0_r (length blk)). apply list_reply_from; [|done].
  unfold visits. rewrite contents_split, count_le_split by done. by rewrite drop_app_length.
Qed.

Section AtRecord.
Context (i : nat) (v : V).
Hypothesis at_i : blk !! i = Some (key, v).

Lemma position : count_le key contents = S (length pre + i).
Proof.
  assert (Hs := kv_sorted). rewrite contents_split in Hs |- *.
  rewrite <- (take_drop_middle _ _ _ at_i) in Hs |- *.
  rewrite <- app_assoc, <- app_comm_cons, app_assoc in Hs |- *.
  assert (Hc := count_le_at _ _ _ Hs). cbn [fst] in Hc. rewrite Hc, length_app, length_take.
  assert (Hi := lookup_lt_Some _ _ _ at_i). lia.
Qed.

(** The walk starts at the first record of the block, which it takes. *)
Lemma list_reply_first n fuel :
  i = 0 -> length contents < fuel ->
  exists p, list_reply accept item val key false true n fuel = Some p /\
    reply_like val p (mapM item_of (window 0 n blk)) (n <? length blk).
Proof.
  intros Hi Hf. rewrite <- (Nat.sub_0_r (length blk)). apply list_reply_from; [|done].
  unfold visits. rewrite position, contents_split. cbn [Nat.sub].
  by rewrite Hi, Nat.add_0_r, Nat.sub_0_r, drop_app_length.
Qed.

(** The records after record [i] of the block. *)
Lemma list_reply_forward n fuel :
  length contents < fuel ->
  exists p, list_reply accept item val key true true n fuel = Some p /\
    reply_like val p (mapM item_of (window (S i) n blk)) (n <? length blk - S i).
Proof.
  intros Hf. apply list_reply_from; [|done].
  unfold visits. rewrite position, contents_split.
  rewrite <- Nat.add_succ_r, drop_app_add.
  rewrite drop_app_le; [done|]. assert (Hi := lookup_lt_Some _ _ _ at_i). lia.
Qed.

(** The records before record [i] of the block. *)
Lemma list_reply_backward n fuel :
  length contents < fuel ->
  exists p, list_reply accept item val key true false n fuel = Some p /\
    reply_like val p (mapM item_of (window (i - n) (Nat.min n i) blk)) (n <? i).
Proof.
  intros Hf. assert (Hi := lookup_lt_Some _ _ _ at_i). rewrite list_reply_visits by done. cbv zeta.
  assert (Hv : visits contents key true false = rev (take i blk) ++ rev pre).
  { unfold visits. rewrite position, contents_split. cbn [Nat.eqb Nat.sub].
    rewrite Nat.sub_0_r, take_app_add, take_app_le by lia. by rewrite rev_app_distr. }
  rewrite Hv, take_while_block.
  - eexists. split; [reflexivity|]. rewrite length_rev, length_take, Nat.min_l by lia.
    rewrite firstn_rev, length_take, Nat.min_l by lia.
    replace (skipn (i - n) (take i blk)) with (window (i - n) (Nat.min n i) blk).
    2: { unfold window. rewrite take_drop_commute. f_equal. f_equal. lia. }
    rewrite mapM_rev. destruct (mapM item_of _) as [l|]; [apply page_like_backward|done].
  - rewrite rev_reverse. intros x Hx. rewrite elem_of_reverse in Hx. exact (subseteq_take _ _ _ Hx).
  - rewrite rev_reverse. apply Forall_reverse, pre_out.
Qed.
End AtRecord.
End PageOfBlock.

(** ** Where a block starts *)

Section BlockAfter.
Context {V : Type} (P : string -> bool) (p : string).
Implicit Type l : list (string * V).

Lemma sorted_split l :
  StronglySorted key_lt l.*1 ->
  exists l1 l2, l = l1 ++ l2 /\ Forall (fun r => String.leb r.1 p = true) l1 /\
    Forall (fun r => key_lt p r.1) l2 /\ StronglySorted key_lt l2.*1.
Proof.
  induction l as [|x l IH]; intros Hs; [by exists [], []|].
  assert (Hs' := Hs). rewrite fmap_cons, StronglySorted_cons in Hs. destruct Hs as [Hx Hs].
  destruct (String.leb x.1 p) eqn:E.
  - destruct (IH Hs) as (l1 & l2 & -> & H1 & H2 & H3). exists (x :: l1), l2. split_and!; [done|by constructor|done..].
  - exists [], (x :: l). split_and!; [done|constructor| |done]. apply key_le_gt in E.
    constructor; [done|]. rewrite Forall_fmap in Hx. eapply Forall_impl; [exact Hx|].
    intros y Hy. eapply key_lt_le_trans; [exact E|]. by apply key_lt_le.
Qed.

Lemma take_while_filter l :
  StronglySorted key_lt l.*1 ->
  (forall x c, x ∈ l -> c ∈ l -> P c.1 = true -> String.leb x.1 c.1 = true -> P x.1 = true) ->
  exists post, l = List.filter (fun r => P r.1) l ++ post /\ Forall (fun r => P r.1 = false) post /\
    Forall (fun r => P r.1 = true) (List.filter (fun r => P r.1) l).
Proof.
  induction l as [|x l IH]; intros Hs Hc; [by exists []|].
  rewrite fmap_cons, StronglySorted_cons in Hs. destruct Hs as [Hx Hs]. cbn [List.filter].
  destruct (P x.1) eqn:Px.
  - destruct IH as (post & E & Hp & Hf); [done| |].
    { intros y c Hy Hcc. apply Hc; by right. }
    exists post. split_and!; [by rewrite E at 1|done|by constructor].
  - assert (Hall : Forall (fun r => P r.1 = false) l).
    { apply Forall_forall. intros c Hin. destruct (P c.1) eqn:Pc; [|done].
      rewrite Forall_fmap, Forall_forall in Hx. rewrite <- Px. symmetry.
      apply (Hc x c); [by left|by right|done|]. by apply key_lt_le, Hx. }
    exists (x :: l). rewrite filter_false by done. split_and!; [done|by constructor|constructor].
Qed.

(** The records with [P] follow [p] and nothing else comes between. *)
Lemma block_after l :
  StronglySorted key_lt l.*1 ->
  (forall r, r ∈ l -> P r.1 = true -> key_lt p r.1) ->
  (forall x c, x ∈ l -> c ∈ l -> P c.1 = true -> key_lt p x.1 -> String.leb x.1 c.1 = true -> P x.1 = true) ->
  exists pre post, let blk := List.filter (fun r => P r.1) l in
    l = pre ++ blk ++ post /\
    Forall (fun r => P r.1 = false) pre /\ Forall (fun r => P r.1 = true) blk /\
    Forall (fun r => P r.1 = false) post /\
    Forall (fun r => String.leb r.1 p = true) pre /\ Forall (fun r => key_lt p r.1) (blk ++ post).
Proof.
  intros Hs Hp Hc. destruct (sorted_split l Hs) as (l1 & l2 & -> & H1 & H2 & Hs2).
  assert (Hout : Forall (fun r => P r.1 = false) l1).
  { apply Forall_forall. intros r Hr. destruct (P r.1) eqn:E; [|done].
    assert (Hlt : key_lt p r.1) by (apply Hp; [set_solver|done]).
    rewrite Forall_forall in H1. apply key_le_gt in Hlt. rewrite H1 in Hlt; done. }
  destruct (take_while_filter l2 Hs2) as (post & E & Hpost & Hblk).
  { intros x c Hx Hcc HPc Hle. rewrite Forall_forall in H2. apply (Hc x c); [set_solver|set_solver|done| |done]. auto. }
  exists l1, post. cbv zeta. rewrite List.filter_app, (filter_false P l1) by done. cbn [Datatypes.app].
  rewrite <- E. by split_and!.
Qed.
End BlockAfter.
