(* ===== verification/Zones.v ===== *)
(** * modules/Zones.jsx: the zone list and the add-zone dialog

    [ListZones] keeps its React state in a record.  A handler reads the state
    of the render that created it (its closure) and writes the live state
    through the setters, so each handler takes both.  [reload] runs up to
    [await fetch]; its continuation [reload_resume] runs when the answer
    arrives.  [step] is the event loop: which events the rendered controls
    allow, and what they do. *)

From S2P Require Import Prelude JsNumber JsValue Http Qargs AppState Paging.

(** The value of the [error] state: unset, an Error object or a string. *)
Inductive ui_error : Type :=
| NoError
| ErrObj (msg : string)
| ErrStr (msg : string).

(** [if (error)]. *)
Definition error_set (e : ui_error) : bool :=
  match e with
  | NoError => false
  | ErrObj _ => true
  | ErrStr s => negb (String.eqb s "")
  end.

Module ListZones.

Record state : Type := State {
  zones : option (list string);
  current : option string;
  error : ui_error;
  isedit : bool;
  editZoneCaption : string;
  currentDirection : option string;
  canMoveForward : bool;
  canMoveBackward : bool;
  navKeys : option (string * string)
}.

Definition init : state :=
  State None None NoError false "Add Zone" (Some "forward"%string) false false None.

(** ** The setters *)

Definition setZones v s := State v (current s) (error s) (isedit s) (editZoneCaption s)
  (currentDirection s) (canMoveForward s) (canMoveBackward s) (navKeys s).
Definition setCurrent v s := State (zones s) v (error s) (isedit s) (editZoneCaption s)
  (currentDirection s) (canMoveForward s) (canMoveBackward s) (navKeys s).
Definition setError v s := State (zones s) (current s) v (isedit s) (editZoneCaption s)
  (currentDirection s) (canMoveForward s) (canMoveBackward s) (navKeys s).
Definition setEditOpen v s := State (zones s) (current s) (error s) v (editZoneCaption s)
  (currentDirection s) (canMoveForward s) (canMoveBackward s) (navKeys s).
Definition setEditZoneCaption v s := State (zones s) (current s) (error s) (isedit s) v
  (currentDirection s) (canMoveForward s) (canMoveBackward s) (navKeys s).
Definition setCurrentDirection v s := State (zones s) (current s) (error s) (isedit s)
  (editZoneCaption s) v (canMoveForward s) (canMoveBackward s) (navKeys s).
Definition setCanMoveForward v s := State (zones s) (current s) (error s) (isedit s)
  (editZoneCaption s) (currentDirection s) v (canMoveBackward s) (navKeys s).
Definition setCanMoveBackward v s := State (zones s) (current s) (error s) (isedit s)
  (editZoneCaption s) (currentDirection s) (canMoveForward s) v (navKeys s).
Definition setNavKeys v s := State (zones s) (current s) (error s) (isedit s)
  (editZoneCaption s) (currentDirection s) (canMoveForward s) (canMoveBackward s) v.

(** ** reload *)

(** A reload that awaits its answer: its arguments, and the [zones] of the
    closure it runs in. *)
Record pending : Type := Pending {
  p_from : option string;
  p_direction : option string;
  p_zones : option (list string);
  p_request : request
}.

Section Component.
Context (app : app_state) (max : nat).

Definition list_request (from direction : option string) : request :=
  Request "get" (getUrl app ("/zone" +:+ qargs from (Z.of_nat max) None direction))
    (getAuthHeader app) None.

(** [reload(from, direction)] up to the await; [c] is the closure. *)
Definition reload (c : state) (from direction : option string) (s : state) : state * pending :=
  (setCurrentDirection direction (setZones None s),
   Pending from direction (zones c) (list_request from direction)).

(** The rest of [reload], with the answer [r]; its JSON, when it is read, is a
    listing as the server writes it.  The setters run one by one on
    the live state; an exception jumps to the catch block and keeps what the
    setters before it did. *)
Definition reload_resume (p : pending) (r : fetch_result (page string)) (s : state) : state :=
  match r with
  | Rejected _ msg => setError (ErrObj msg) s
  | Resp false statusText _ => setError (ErrObj ("Failed to fetch zones: " +:+ statusText)) s
  | Resp true _ None => setError (ErrObj "Unexpected end of JSON input") s
  | Resp true _ (Some z) =>
      let s1 := setNavKeys (Some (kfirst z, klast z)) (setZones (Some (value z)) s) in
      if bool_decide (p_direction p = Some "forward"%string) then
        setCanMoveForward (more z) (setCanMoveBackward (bool_decide (p_from p <> None)) s1)
      else if negb (more z) then
        let s2 := setCanMoveBackward false (setCurrent None s1) in
        match p_zones p with
        | Some zs => setCanMoveForward (Nat.eqb (length zs) max) s2
        | None => setError (ErrObj "Cannot read properties of null (reading 'length')") s2
        end
      else setCanMoveForward true (setCanMoveBackward true s1)
  end.

(** ** The handlers *)

Definition reloadCurrent (c s : state) : state * pending :=
  reload c (current c) (currentDirection c) s.

Definition moveFirst (c s : state) : state * pending :=
  reload c None (Some "forward"%string)
    (setCanMoveBackward false (setNavKeys None (setCurrent None s))).

(** [zones && zones.length && navKeys]. *)
Definition can_page (c : state) : option (string * string) :=
  match zones c with
  | Some (_ :: _) => navKeys c
  | _ => None
  end.

Definition moveNext (c s : state) : state * option pending :=
  match can_page c with
  | Some (_, last) =>
      let '(s', p) := reload c (Some last) (Some "forward"%string) (setCurrent (Some last) s) in
      (s', Some p)
  | None => (s, None)
  end.

Definition movePrev (c s : state) : state * option pending :=
  match can_page c with
  | Some (first, _) =>
      let '(s', p) := reload c (Some first) (Some "backward"%string) (setCurrent (Some first) s) in
      (s', Some p)
  | None => (s, None)
  end.

Definition addZone (s : state) : state := setEditOpen true (setEditZoneCaption "Add Zone" s).

Definition openEdit (s : state) : state := setEditOpen true s.

Definition onEditClosed (c s : state) : state * pending := reloadCurrent c (setEditOpen false s).

(** [deleteZone] after the confirmation: the request, and what its answer
    does in the closure [c] of the click. *)
Definition delete_request (zoneName : string) : request :=
  Request "delete" (getUrl app ("/zone/" +:+ zoneName)) (getAuthHeader app) None.

Definition deleteZone_resume (c : state) (r : fetch_result unit) (s : state)
    : state * option pending :=
  match r with
  | Resp true _ _ => let '(s', p) := reloadCurrent c s in (s', Some p)
  | Resp false statusText _ => (setError (ErrStr statusText) (setError (ErrStr "Request failed") s), None)
  | Rejected true msg => (setError (ErrStr msg) (setError (ErrStr "Request failed") s), None)
  | Rejected false _ => (setError (ErrStr "Request failed") s, None)
  end.

(** ** Local storage and the effects *)

Abbreviation storage := (list (string * string)).

(** The effects with dependency [current]: they run after a commit in which
    [current] changed.  [setItem] turns a null direction into its text. *)
Definition save_effects (s : state) (st : storage) : storage :=
  assoc_set "zones.direction" (default "null"%string (currentDirection s))
    (assoc_set "zones.current" (default ""%string (current s)) st).

(** A commit from [old] to [new]; a render that throws commits nothing. *)
Definition commit (old new : state) (st : storage) : storage :=
  if error_set (error new) then st
  else if bool_decide (current old = current new) then st
  else save_effects new st.

(** The mount effect, first run: it reads the saved position and loads. *)
Definition mount_effect (st : storage) : state * pending :=
  let savedCurrent := assoc_get "zones.current" st in
  let savedDirection := assoc_get "zones.direction" st in
  let '(dir, s) :=
    if truthy_str savedDirection then (savedDirection, setCurrentDirection savedDirection init)
    else (None, init) in
  if truthy_str savedCurrent then reload init savedCurrent dir (setCurrent savedCurrent s)
  else reload init None (Some "forward"%string) s.

(** ** The component in its environment *)

Record sys : Type := Sys {
  live : state;
  pendings : list pending;
  deletes : list (string * state);
  metas : list string;
  local : storage
}.

(** The list and its controls are on screen: no error, not loading. *)
Definition rendered (s : state) : bool :=
  negb (error_set (error s)) && match zones s with Some _ => true | None => false end.

(** The [metaVal] of the delete buttons.  MetaButton keeps the [meta] of its
    first render in its state; the rows are keyed by position, so a row that
    stays on screen keeps its button and a new row gets a fresh one. *)
Definition meta_commit (old new : state) (ms : list string) : list string :=
  if rendered new then
    let zs := default [] (zones new) in
    if rendered old then take (length zs) ms ++ drop (length ms) zs else zs
  else [].

(** Mounting: the three effects of the first commit in order, then the commit
    of the state they set. *)
Definition mount (st : storage) : sys :=
  let '(s, p) := mount_effect st in
  Sys s [p] [] [] (commit init s (save_effects init st)).

Inductive event : Type :=
| ClickFirst
| ClickPrev
| ClickNext
| ClickReload
| ClickAdd
| DialogClosed
| ClickDelete (row : nat) (confirmed : bool)
| Answer (i : nat) (r : fetch_result (page string))
| DeleteAnswer (i : nat) (r : fetch_result unit).

(** The live state becomes [s], with the commit of its render. *)
Definition update (y : sys) (s : state) (ps : list pending) (ds : list (string * state)) : sys :=
  Sys s ps ds (meta_commit (live y) s (metas y)) (commit (live y) s (local y)).

Definition add (ps : list pending) (new : option pending) : list pending :=
  ps ++ from_option (fun p => [p]) [] new.

(** One event, [None] when the user interface does not offer it.  Buttons act
    in the closure of the last render, which is the live state.  After an
    error the component is unmounted: late answers change nothing. *)
Definition step (y : sys) (e : event) : option sys :=
  let s := live y in
  let act '(s', p) := Some (update y s' (add (pendings y) p) (deletes y)) in
  match e with
  | ClickFirst => if rendered s then act (prod_map id Some (moveFirst s s)) else None
  | ClickPrev => if rendered s && canMoveBackward s then act (movePrev s s) else None
  | ClickNext => if rendered s && canMoveForward s then act (moveNext s s) else None
  | ClickReload => if rendered s then act (prod_map id Some (reloadCurrent s s)) else None
  | ClickAdd => if rendered s then act (addZone s, None) else None
  | DialogClosed =>
      if rendered s && isedit s then act (prod_map id Some (onEditClosed s s)) else None
  | ClickDelete row confirmed =>
      match metas y !! row with
      | Some zoneName =>
          Some (if confirmed then
                  update y s (pendings y) (deletes y ++ [(zoneName, s)])
                else y)
      | None => None
      end
  | Answer i r =>
      match pendings y !! i with
      | Some p =>
          Some (update y (if error_set (error s) then s else reload_resume p r s)
                  (delete i (pendings y)) (deletes y))
      | None => None
      end
  | DeleteAnswer i r =>
      match deletes y !! i with
      | Some (_, c) =>
          let '(s', p) := if error_set (error s) then (s, None) else deleteZone_resume c r s in
          Some (update y s' (add (pendings y) p) (delete i (deletes y)))
      | None => None
      end
  end.

(** ** What is on screen *)

(** A row: the name, where Manage leads, and the zone of its delete button. *)
Record zone_row : Type := ZoneRow {
  zr_name : string;
  zr_link : string;
  zr_delete : option string
}.

Record control : Type := Control {
  label : string;
  enabled : bool;
  on_click : event
}.

(** The fallback of the ErrorBoundary, the BeatLoader, or the table with its
    buttons and the add dialog while it is open (its caption). *)
Inductive screen : Type :=
| WentWrong
| Loading
| Table (rows : list zone_row) (controls : list control) (dialog : option string).

Definition render (y : sys) : screen :=
  let s := live y in
  if error_set (error s) then WentWrong
  else match zones s with
       | None => Loading
       | Some zs =>
           Table (imap (fun id name => ZoneRow name ("rr?z=" +:+ name) (metas y !! id)) zs)
             [Control "From Start" true ClickFirst;
              Control "Prev" (canMoveBackward s) ClickPrev;
              Control "Reload" true ClickReload;
              Control "Next" (canMoveForward s) ClickNext;
              Control "Add Zone" true ClickAdd]
             (if isedit s then Some (editZoneCaption s) else None)
       end.

Fixpoint steps (y : sys) (es : list event) : option sys :=
  match es with
  | [] => Some y
  | e :: es' => match step y e with Some y' => steps y' es' | None => None end
  end.

(** ** Loading and outstanding requests *)

(** No delete is under way and exactly one of: an error is shown; a single
    list request is outstanding and the list is hidden; nothing is outstanding
    and every delete button is bound to the zone its row shows. *)
Definition settled (y : sys) : Prop :=
  deletes y = [] /\
  (error_set (error (live y)) = true \/
   (zones (live y) = None /\ length (pendings y) = 1) \/
   (is_Some (zones (live y)) /\ pendings y = [] /\ Some (metas y) = zones (live y))).

Definition is_delete (e : event) : bool :=
  match e with ClickDelete _ true => true | _ => false end.

Lemma rendered_iff (s : state) :
  rendered s = true <-> error_set (error s) = false /\ is_Some (zones s).
Proof.
  unfold rendered. destruct (error_set (error s)), (zones s); cbn;
    split; try done; try (intros [? ?]; done); try (intros [? [? ?]]; done); eauto.
Qed.

Lemma meta_commit_fresh (old new : state) (ms zs : list string) :
  rendered old = false -> error_set (error new) = false -> zones new = Some zs ->
  meta_commit old new ms = zs.
Proof.
  intros Ho He Hz. unfold meta_commit. rewrite Ho. unfold rendered. by rewrite He, Hz.
Qed.

Lemma meta_commit_same (old new : state) (ms : list string) :
  rendered old = true -> rendered new = true -> zones new = Some ms -> meta_commit old new ms = ms.
Proof.
  intros Ho Hn Hz. unfold meta_commit. rewrite Hn, Ho, Hz. cbn.
  by rewrite firstn_all, drop_all, app_nil_r.
Qed.

(** A handler that starts a reload leads to the loading state. *)
Lemma loading_settled (y : sys) (s : state) (p : pending) :
  deletes y = [] -> pendings y = [] -> zones s = None ->
  settled (update y s (add (pendings y) (Some p)) (deletes y)).
Proof. intros Hd Hp Hz. split; [done|]. right; left. cbn. by rewrite Hp. Qed.

(** Keeping the list as it is keeps the list settled. *)
Lemma idle_settled (y : sys) (s : state) :
  settled y -> rendered (live y) = true -> zones s = zones (live y) -> error s = error (live y) ->
  settled (update y s (add (pendings y) None) (deletes y)).
Proof.
  intros [Hd Hs] Hr Hz He. split; [done|]. apply rendered_iff in Hr as Hr'. destruct Hr' as [He' [zs Hzs]].
  destruct Hs as [Hs|[[Hs _]|(_ & Hp & Hm)]]; [congruence|congruence|].
  right; right. cbn. rewrite Hz, Hp. split_and!; [by rewrite Hzs|done|].
  rewrite Hzs in Hm. simplify_eq. rewrite meta_commit_same; [done|done| |congruence].
  unfold rendered in *. by rewrite Hz, He.
Qed.

Lemma page_cases (c s : state) : 
  (fst (moveNext c s) = s /\ snd (moveNext c s) = None \/
   zones (fst (moveNext c s)) = None /\ is_Some (snd (moveNext c s))) /\
  (fst (movePrev c s) = s /\ snd (movePrev c s) = None \/
   zones (fst (movePrev c s)) = None /\ is_Some (snd (movePrev c s))).
Proof. unfold moveNext, movePrev. destruct (can_page c) as [[f l]|]; cbn; eauto 10. Qed.

Lemma rendered_settled (y : sys) :
  settled y -> rendered (live y) = true ->
  pendings y = [] /\ Some (metas y) = zones (live y).
Proof.
  intros [_ Hs] [He [zs Hz]]%rendered_iff.
  destruct Hs as [Hs|[[Hs _]|(_ & Hp & Hm)]]; [congruence|congruence|done].
Qed.

(** An answered reload shows the list or an error. *)
Lemma reload_resume_shows (p : pending) (r : fetch_result (page string)) (s : state) :
  error_set (error (reload_resume p r s)) = true \/ is_Some (zones (reload_resume p r s)).
Proof. unfold reload_resume. repeat break_match; cbn; eauto. Qed.

Lemma reload_resume_error (p : pending) (r : fetch_result (page string)) (s : state) :
  error_set (error (reload_resume p r s)) = false -> error (reload_resume p r s) = error s.
Proof. unfold reload_resume. repeat break_match; cbn; congruence. Qed.

Lemma step_settled (y y' : sys) (e : event) :
  settled y -> is_delete e = false -> step y e = Some y' -> settled y'.
Proof.
  intros Hs He Hst. unfold step in Hst. pose proof Hs as [Hd Hs'].
  destruct e as [| | | | | |row []|i r|i r]; try done.
  - destruct (rendered (live y)) eqn:Hr; [|done]. destruct (rendered_settled y Hs Hr). cbn in Hst.
    simplify_eq. by apply loading_settled.
  - destruct (rendered (live y)) eqn:Hr; [|done]. destruct (canMoveBackward (live y)); [|done].
    destruct (rendered_settled y Hs Hr). cbn in Hst.
    destruct (page_cases (live y) (live y)) as [_ Hc]. destruct (movePrev _ _) as [s' p]; cbn in *.
    simplify_eq. destruct Hc as [[-> ->]|[Hz [p' ->]]]; [by apply idle_settled|by apply loading_settled].
  - destruct (rendered (live y)) eqn:Hr; [|done]. destruct (canMoveForward (live y)); [|done].
    destruct (rendered_settled y Hs Hr). cbn in Hst.
    destruct (page_cases (live y) (live y)) as [Hc _]. destruct (moveNext _ _) as [s' p]; cbn in *.
    simplify_eq. destruct Hc as [[-> ->]|[Hz [p' ->]]]; [by apply idle_settled|by apply loading_settled].
  - destruct (rendered (live y)) eqn:Hr; [|done]. destruct (rendered_settled y Hs Hr). cbn in Hst.
    simplify_eq. by apply loading_settled.
  - destruct (rendered (live y)) eqn:Hr; [|done]. simplify_eq. by apply idle_settled.
  - destruct (rendered (live y)) eqn:Hr; [|done]. destruct (isedit (live y)); [|done].
    destruct (rendered_settled y Hs Hr). cbn in Hst. simplify_eq. by apply loading_settled.
  - destruct (metas y !! row); by simplify_eq.
  - destruct (pendings y !! i) as [p|] eqn:Hp; [|done]. simplify_eq.
    split; [done|]. cbn. destruct (error_set (error (live y))) eqn:Ee; [by left|].
    destruct Hs' as [Hs'|[[Hz Hl]|(_ & Hp' & _)]]; [congruence| |by rewrite Hp' in Hp].
    destruct (reload_resume_shows p r (live y)) as [?|[zs Hzs]]; [by left|].
    destruct (error_set (error (reload_resume p r (live y)))) eqn:Ee'; [by left|].
    right; right. rewrite Hzs. split_and!; [done| |].
    + destruct (pendings y) as [|p0 [|]]; [done| |done]. by destruct i.
    + f_equal. apply meta_commit_fresh; [|done|done]. unfold rendered. by rewrite Hz, andb_false_r.
  - by rewrite Hd in Hst.
Qed.

Lemma steps_settled (y y' : sys) (es : list event) :
  settled y -> forallb (fun e => negb (is_delete e)) es = true -> steps y es = Some y' -> settled y'.
Proof.
  revert y. induction es as [|e es IH]; intros y Hy Hes Hst; cbn in *; [by simplify_eq|].
  reflect_tests. destruct (step y e) as [y1|] eqn:E; [|done].
  eapply IH; [|done|done]. by eapply step_settled.
Qed.

Lemma mount_settled (st : storage) : settled (mount st).
Proof.
  unfold mount, mount_effect. destruct (truthy_str _), (truthy_str _); cbn;
    (split; [done|]); right; left; done.
Qed.

(** ** Browsing a server whose zones do not change *)

Section Browse.
Context `{PageServerLaws string} (cfg : rest_config).
Context (serve : string -> fetch_result (page string)).
Hypothesis max_ok : 0 < max <= rest_max_page_size cfg.
Hypothesis max_small : (Z.of_nat max < 2 ^ 31)%Z.
Hypothesis api_plain : has_char "?" (api app) = false.

(** The server answers the requests of the list as a paged server does. *)
Hypothesis serve_ok : forall (from : option string) (forward : bool),
  (forall k, from = Some k -> exists i x, items !! i = Some x /\ k = item_key x) ->
  let u := url (list_request from (Some (if forward then "forward" else "backward")%string)) in
  serve u = serve_url (A := string) cfg u.

Inductive nav : Type := First | Prev | Next | Reload.

Definition click (n : nav) : event :=
  match n with
  | First => ClickFirst
  | Prev => ClickPrev
  | Next => ClickNext
  | Reload => ClickReload
  end.

(** The outstanding list request is answered by the server. *)
Definition answered (y : sys) : sys :=
  match pendings y with
  | [p] => default y (step y (Answer 0 (serve (url (p_request p)))))
  | _ => y
  end.

(** A press of a button (nothing happens when it is not offered), and the
    answer to the request it makes. *)
Definition navigate (y : sys) (n : nav) : sys :=
  match step y (click n) with
  | Some y' => answered y'
  | None => y
  end.

(** The key of record [i], and the length of the list. *)
Definition key_at (i : nat) : string := default ""%string (item_key <$> items !! i).
Abbreviation total := (length (items : list string)).

(** The list shows the page that starts at record [i]: its records, the keys
    of its ends, and no request, delete or error in the way. *)
Record shows (y : sys) (i : nat) : Prop := {
  sh_error : error (live y) = NoError;
  sh_pendings : pendings y = [];
  sh_zones : exists v, zones (live y) = Some v /\ v ≡ₚ window i max items;
  sh_keys : navKeys (live y) = Some (default ""%string (item_key <$> head (window i max items)),
                                     default ""%string (item_key <$> last (window i max items)))
}.

Lemma shows_rendered (y : sys) (i : nat) : shows y i -> rendered (live y) = true.
Proof. intros [He _ (v & Hz & _) _]. unfold rendered. by rewrite He, Hz. Qed.

Lemma shows_can_page (y : sys) (i : nat) :
  shows y i -> i < total ->
  can_page (live y) = Some (key_at i, key_at (Nat.min (i + max) total - 1)).
Proof.
  intros [_ _ (v & Hz & Hv) Hk] Hi. unfold can_page. rewrite Hz, Hk.
  assert (length v = Nat.min max (total - i)) by (by rewrite Hv, window_length).
  destruct v as [|z v]; [cbn in *; lia|].
  rewrite window_head, window_last by lia. done.
Qed.

(** A request for a valid position is answered with its page. *)
Lemma serve_request (from : option string) (forward : bool) :
  (forall k, from = Some k -> exists i x, items !! i = Some x /\ k = item_key x) ->
  serve
    (url (list_request from (Some (if forward then "forward" else "backward")%string)))
  = Resp true "OK" (Some (list_page (default "" from)
      (match from with Some _ => forward | None => true end) max)).
Proof.
  intros Hf. rewrite serve_ok by done. cbn. unfold getUrl. rewrite <- string_app_assoc.
  apply serve_url_page; [done|done| |done|].
  - rewrite has_char_app, api_plain. done.
  - intros k Hk. destruct (Hf k Hk) as (i & x & Hx & ->).
    destruct (item_key_valid x) as (? & ? & ?); [by eapply list_elem_of_lookup_2|done].
Qed.

(** Answering the only outstanding request resumes its reload. *)
Lemma answered_one (s : state) (p : pending) ds ms st :
  error s = NoError ->
  exists ms' st', answered (Sys s [p] ds ms st)
    = Sys (reload_resume p (serve (url (p_request p))) s) [] ds ms' st'.
Proof. intros He. unfold answered, step. cbn. rewrite He. cbn. eexists _, _. reflexivity. Qed.

Lemma answered_update (y : sys) (s : state) (p : pending) (ds : list (string * state)) :
  pendings y = [] -> error s = NoError ->
  exists ms st, answered (update y s (add (pendings y) (Some p)) ds)
    = Sys (reload_resume p (serve (url (p_request p))) s) [] ds ms st.
Proof. intros Hp He. unfold update, add. rewrite Hp. by apply answered_one. Qed.

(** The state after a page arrived: [shows] from [page_of]. *)
Lemma page_shows (z : page string) (i n : nat) (m : bool) (s : state) ds ms st :
  page_of z (window i n items) m -> window i n items = window i max items ->
  error s = NoError -> zones s = Some (value z) -> navKeys s = Some (kfirst z, klast z) ->
  shows (Sys s [] ds ms st) i.
Proof.
  intros (Hv & _ & Hf & Hl) Hw He Hz Hk. rewrite Hw in *.
  split; cbn; [done|done| |by rewrite Hk, Hf, Hl]. eauto.
Qed.

(** [From Start] shows the first page. *)
Lemma navigate_first (y : sys) (i : nat) :
  shows y i ->
  let y' := navigate y First in
  shows y' 0 /\ canMoveBackward (live y') = false /\
  canMoveForward (live y') = (max <? total) /\
  current (live y') = None /\ currentDirection (live y') = Some "forward"%string.
Proof.
  intros Hy. cbn zeta. unfold navigate. cbn [click step].
  rewrite (shows_rendered y i Hy). cbn beta iota.
  cbv beta iota zeta delta [moveFirst reload prod_map fst snd id].
  edestruct (answered_update y) as (ms & st & Ha);
    [apply Hy| |rewrite Ha]; [apply Hy|]. cbn [p_request live pendings].
  rewrite (serve_request None true) by done. cbn [from_option id].
  destruct (page_start max) as (Hv & Hm & Hf & Hl); [lia|]. cbn.
  split_and!; [|done|done|done|done].
  eapply page_shows; [split_and!; eassumption|done|apply Hy|done|done].
Qed.

(** [Next] on a page with a successor shows the following page. *)
Lemma navigate_next (y : sys) (i : nat) :
  shows y i -> i + max < total -> canMoveForward (live y) = true ->
  let y' := navigate y Next in
  shows y' (i + max) /\ canMoveBackward (live y') = true /\
  canMoveForward (live y') = (i + max + max <? total) /\
  current (live y') = Some (key_at (i + max - 1)) /\
  currentDirection (live y') = Some "forward"%string.
Proof.
  intros Hy Hi Hf. cbn zeta. unfold navigate. cbn [click step].
  rewrite (shows_rendered y i Hy), Hf. cbn [andb].
  unfold moveNext. rewrite (shows_can_page y i Hy) by lia.
  cbv beta iota zeta delta [reload].
  replace (Nat.min (i + max) total - 1) with (i + max - 1) by lia.
  edestruct (answered_update y) as (ms & st & Ha);
    [apply Hy| |rewrite Ha]; [apply Hy|]. cbn [p_request live pendings].
  destruct (lookup_lt_is_Some_2 (items : list string) (i + max - 1)) as [x Hx]; [lia|].
  assert (Hk : key_at (i + max - 1) = item_key x) by (unfold key_at; by rewrite Hx).
  rewrite (serve_request _ true) by (intros k [= <-]; eauto). cbn [from_option id].
  rewrite Hk. destruct (page_forward max (i + max - 1) x) as (Hv & Hm & Hff & Hl); [lia|done|].
  replace (S (i + max - 1)) with (i + max) in * by lia.
  assert (Hm' : (max <? total - (i + max)) = (i + max + max <? total)) by bool_lia.
  rewrite Hm' in Hm. cbn -[Nat.ltb].
  split_and!; [|done|done|done|done].
  eapply page_shows; [split_and!; eassumption|done|apply Hy|done|done].
Qed.

(** [Prev] on a later page shows the page before it.  Back at the start the
    Next button is enabled according to the length of the page just left. *)
Lemma navigate_prev (y : sys) (i : nat) :
  shows y i -> max <= i < total -> canMoveBackward (live y) = true ->
  let y' := navigate y Prev in
  shows y' (i - max) /\ canMoveBackward (live y') = (max <? i) /\
  canMoveForward (live y') = (max <? i) || (i + max <=? total) /\
  current (live y') = (if max <? i then Some (key_at i) else None) /\
  currentDirection (live y') = Some "backward"%string.
Proof.
  intros Hy Hi Hb. cbn zeta. unfold navigate. cbn [click step].
  rewrite (shows_rendered y i Hy), Hb. cbn [andb].
  unfold movePrev. rewrite (shows_can_page y i Hy) by lia.
  cbv beta iota zeta delta [reload].
  edestruct (answered_update y) as (ms & st & Ha);
    [apply Hy| |rewrite Ha]; [apply Hy|]. cbn [p_request live pendings].
  destruct (lookup_lt_is_Some_2 (items : list string) i) as [x Hx]; [lia|].
  assert (Hk : key_at i = item_key x) by (unfold key_at; by rewrite Hx).
  rewrite (serve_request _ false) by (intros k [= <-]; eauto). cbn [from_option id].
  destruct (page_backward max i x) as (Hv & Hm & Hff & Hl); [lia|done|].
  rewrite <- Hk in *. rewrite Nat.min_l in * by lia.
  destruct (sh_zones y i Hy) as (v & Hz & Hp).
  assert (Hlen : length v = Nat.min max (total - i)) by (by rewrite Hp, window_length).
  unfold reload_resume. cbn [p_direction p_from p_zones]. rewrite Hm, Hz.
  rewrite bool_decide_eq_false_2 by done.
  destruct (Nat.ltb_spec max i); cbn -[Nat.eqb Nat.leb]; (split_and!; [|done| |done|done]);
    try (eapply page_shows; [split_and!; eassumption|done|apply Hy|done|done]); [done|].
  rewrite Hlen. bool_lia.
Qed.

(** The list after mounting without a saved position. *)
Definition opened (st : storage) : sys := answered (mount st).

Lemma opened_shows (st : storage) :
  truthy_str (assoc_get "zones.current" st) = false ->
  let y := opened st in
  shows y 0 /\ canMoveBackward (live y) = false /\ canMoveForward (live y) = (max <? total).
Proof.
  intros Hst. cbv zeta. unfold opened, mount, mount_effect. cbv zeta. rewrite Hst.
  destruct (page_start max) as (Hv & Hm & Hf & Hl); [lia|].
  assert (Hs := serve_request None true). cbn [from_option id] in Hs.
  destruct (truthy_str (assoc_get "zones.direction" st));
    cbv beta iota zeta delta [reload];
    (edestruct answered_one as (ms & st' & Ha); [|rewrite Ha]; [done|]);
    cbn [p_request]; rewrite Hs by done; cbn -[Nat.ltb];
    (split_and!; [|done|done]);
    (eapply page_shows; [split_and!; eassumption|done|done|done|done]).
Qed.

(** A page of the list is on screen: it starts at a multiple of the page size,
    Prev is enabled exactly when it is not the first page, and Next only when
    a page follows. *)
Definition browsing (y : sys) : Prop :=
  exists k, shows y (k * max) /\ (k = 0 \/ k * max < total) /\
    canMoveBackward (live y) = (0 <? k) /\
    (canMoveForward (live y) = true -> k * max + max < total).

Lemma navigate_browsing (y : sys) (n : nav) :
  browsing y -> n <> Reload -> browsing (navigate y n).
Proof.
  intros (k & Hs & Hk & Hb & Hf) Hn. destruct n; [| | |done].
  - destruct (navigate_first y _ Hs) as (Hs' & Hb' & Hf' & _).
    exists 0. rewrite Hf', Nat.ltb_lt. auto with lia.
  - destruct (canMoveBackward (live y)) eqn:E.
    + assert (0 < k) by (by apply Nat.ltb_lt). destruct k as [|k]; [lia|].
      destruct (navigate_prev y _ Hs) as (Hs' & Hb' & Hf' & _); [lia|done|].
      exists k. replace (S k * max - max) with (k * max) in Hs' by lia.
      split_and!; [done|destruct k; [by left|right; lia]| |].
      * rewrite Hb'. bool_lia.
      * intros Hc. rewrite Hc in Hf'. symmetry in Hf'. apply orb_true_iff in Hf'.
        rewrite Nat.ltb_lt, Nat.leb_le in Hf'. lia.
    + assert (navigate y Prev = y) as ->; [|exists k; by rewrite E].
      unfold navigate. cbn [click step]. by rewrite E, andb_false_r.
  - destruct (canMoveForward (live y)) eqn:E.
    + destruct (navigate_next y _ Hs) as (Hs' & Hb' & Hf' & _); [by apply Hf|done|].
      specialize (Hf eq_refl). exists (S k). replace (S k * max) with (k * max + max) by lia.
      rewrite Hf', Nat.ltb_lt. split_and!; [done|right; lia|done|lia].
    + assert (navigate y Next = y) as ->; [|exists k; rewrite E; auto].
      unfold navigate. cbn [click step]. by rewrite E, andb_false_r.
Qed.

(** Presses of First, Prev and Next after opening the list. *)
Definition browse (st : storage) (ns : list nav) : sys := fold_left navigate ns (opened st).

Lemma browse_browsing (st : storage) (ns : list nav) :
  truthy_str (assoc_get "zones.current" st) = false -> Forall (fun n => n <> Reload) ns ->
  browsing (browse st ns).
Proof.
  intros Hst Hns. unfold browse.
  assert (Ho : browsing (opened st)).
  { destruct (opened_shows st Hst) as (? & Hb & Hf). exists 0.
    rewrite Hf, Nat.ltb_lt. auto with lia. }
  revert Ho. generalize (opened st). induction Hns as [|n ns Hn _ IH]; intros y Hy; [done|].
  cbn. apply IH. by apply navigate_browsing.
Qed.

Lemma browse_next (st : storage) (k : nat) :
  truthy_str (assoc_get "zones.current" st) = false -> k = 0 \/ k * max < total ->
  let y := browse st (replicate k Next) in
  shows y (k * max) /\ canMoveForward (live y) = (k * max + max <? total) /\
  canMoveBackward (live y) = (0 <? k).
Proof.
  intros Hst. cbn zeta. unfold browse. induction k as [|k IH]; intros Hk.
  - destruct (opened_shows st Hst) as (? & ? & ?). done.
  - rewrite replicate_S_end, fold_left_app. cbn [fold_left].
    destruct IH as (Hs & Hf & Hb); [destruct k; [by left|right; lia]|].
    destruct (navigate_next _ _ Hs) as (Hs' & Hb' & Hf' & _);
      [lia|rewrite Hf; apply Nat.ltb_lt; lia|].
    replace (S k * max) with (k * max + max) by lia. done.
Qed.

(** The zones seen on the first [k] pages. *)
Definition seen (st : storage) (k : nat) : list string :=
  concat ((fun j => default [] (zones (live (browse st (replicate j Next))))) <$> seq 0 k).

Lemma seen_window (st : storage) (k : nat) :
  truthy_str (assoc_get "zones.current" st) = false -> k <= 1 \/ (k - 1) * max < total ->
  seen st k ≡ₚ window 0 (k * max) items.
Proof.
  intros Hst. unfold seen. induction k as [|k IH]; intros Hk; [done|].
  rewrite seq_S, fmap_app, concat_app. cbn [fmap list_fmap concat].
  rewrite app_nil_r, IH by (destruct k; [left; lia|right; cbn in *; nia]).
  destruct (browse_next st k Hst) as ([_ _ (v & Hz & Hv) _] & _); [destruct k; [by left|right; lia]|].
  cbn [Nat.add]. rewrite Hz. cbn [from_option id]. rewrite Hv.
  rewrite (window_app 0 (k * max)). by replace (S k * max) with (k * max + max) by lia.
Qed.

(** Reload after coming back to the start with Prev: the position is the
    start but the direction is still backward. *)
Lemma navigate_reload_start (y : sys) :
  shows y 0 -> current (live y) = None -> currentDirection (live y) = Some "backward"%string ->
  max < total ->
  let y' := navigate y Reload in
  shows y' 0 /\ canMoveBackward (live y') = true.
Proof.
  intros Hy Hc Hd Ht. cbv zeta. unfold navigate. cbn [click step].
  rewrite (shows_rendered y 0 Hy).
  cbv beta iota zeta delta [reloadCurrent reload prod_map fst snd id]. rewrite Hc, Hd.
  edestruct (answered_update y) as (ms & st & Ha);
    [apply Hy| |rewrite Ha]; [apply Hy|]. cbn [p_request].
  rewrite (serve_request None false) by done. cbn [from_option id].
  destruct (page_start max) as (Hv & Hm & Hf & Hl); [lia|].
  unfold reload_resume. rewrite Hm, (proj2 (Nat.ltb_lt max total) Ht). cbn.
  split; [|done]. eapply page_shows; [split_and!; eassumption|done|apply Hy|done|done].
Qed.

(** Prev on the first page, should it be enabled, shows an empty list. *)
Lemma navigate_prev_start (y : sys) :
  shows y 0 -> canMoveBackward (live y) = true -> 0 < total ->
  zones (live (navigate y Prev)) = Some [].
Proof.
  intros Hy Hb Ht. unfold navigate. cbn [click step].
  rewrite (shows_rendered y 0 Hy), Hb. cbn [andb].
  unfold movePrev. rewrite (shows_can_page y 0 Hy) by lia.
  cbv beta iota zeta delta [reload].
  edestruct (answered_update y) as (ms & st & Ha);
    [apply Hy| |rewrite Ha]; [apply Hy|]. cbn [p_request].
  destruct (lookup_lt_is_Some_2 (items : list string) 0) as [x Hx]; [lia|].
  assert (Hk : key_at 0 = item_key x) by (unfold key_at; by rewrite Hx).
  rewrite (serve_request _ false) by (intros k [= <-]; eauto). cbn [from_option id].
  rewrite Hk. destruct (page_backward max 0 x) as (Hv & Hm & _); [lia|done|].
  rewrite Nat.min_0_r in Hv. apply Permutation_nil_r in Hv.
  unfold reload_resume. rewrite Hm. cbn. destruct (zones (live y)); cbn; by rewrite Hv.
Qed.

(** Whatever sequence of First, Prev and Next the user presses (each press
    followed by the server's answer), the zone list shows exactly the records
    of one aligned page of the server's list, Prev is enabled exactly on the
    pages after the first, and Next is enabled only when a page follows. *)
Theorem zones_browse_invariant (st : storage) (ns : list nav) :
  truthy_str (assoc_get "zones.current" st) = false -> Forall (fun n => n <> Reload) ns ->
  exists k zs, let s := live (browse st ns) in
    error s = NoError /\ zones s = Some zs /\ zs ≡ₚ window (k * max) max items /\
    (k = 0 \/ k * max < total) /\ canMoveBackward s = (0 <? k) /\
    (canMoveForward s = true -> k * max + max < total).
Proof.
  intros Hst Hns. destruct (browse_browsing st ns Hst Hns) as (k & [He _ (v & Hz & Hv) _] & Hk & Hb & Hf).
  exists k, v. auto 10.
Qed.

Lemma zones_forward_run (st : storage) (k : nat) :
  truthy_str (assoc_get "zones.current" st) = false ->
  0 < k -> total <= k * max -> (k - 1) * max < total \/ k = 1 ->
  seen st k ≡ₚ items /\
  forall j, j < k ->
    canMoveForward (live (browse st (replicate j Next))) = (S j <? k).
Proof.
  intros Hst Hk Htot Hlast. split.
  - rewrite seen_window by (done || lia). by rewrite window_all.
  - intros j Hj. destruct (browse_next st j Hst) as (_ & -> & _); [destruct j; [by left|right; nia]|].
    destruct (Nat.ltb_spec (S j) k).
    + apply Nat.ltb_lt. assert (S j * max <= (k - 1) * max) by (apply Nat.mul_le_mono_r; lia). nia.
    + apply Nat.ltb_ge. assert (S j = k) as <- by lia. lia.
Qed.

(** Paging forward is complete and terminates: with [k] the number of
    pages, pressing Next [k - 1] times shows every zone exactly once, Next is
    enabled on every page but the last, and disabled on the last. *)
Theorem zones_forward_complete (st : storage) (k : nat) :
  truthy_str (assoc_get "zones.current" st) = false ->
  0 < k -> total <= k * max -> (k - 1) * max < total \/ k = 1 ->
  seen st k ≡ₚ items /\
  forall j, j < k ->
    canMoveForward (live (browse st (replicate j Next))) = (S j <? k).
Proof. apply zones_forward_run. Qed.

(** Coming back to the first page with Prev disables Next whenever the
    page just left was not full, although the zones of that page follow: the
    handler tests the length of the page it leaves, not of the page it shows. *)
Theorem zones_prev_disables_next (st : storage) :
  truthy_str (assoc_get "zones.current" st) = false -> max < total < max + max ->
  let s := live (browse st [Next; Prev]) in
  (exists zs, zones s = Some zs /\ zs ≡ₚ window 0 max items) /\ canMoveForward s = false.
Proof.
  intros Hst Ht. cbv zeta. unfold browse. cbn [fold_left].
  destruct (opened_shows st Hst) as (Hs & Hb & Hf).
  destruct (navigate_next _ _ Hs) as (Hs1 & Hb1 & _);
    [lia|rewrite Hf; apply Nat.ltb_lt; lia|]. cbn [Nat.add] in Hs1.
  destruct (navigate_prev _ _ Hs1) as (Hs2 & _ & -> & _); [lia|done|].
  rewrite Nat.sub_diag in Hs2. split; [apply Hs2|].
  apply orb_false_iff. rewrite Nat.ltb_ge, Nat.leb_gt. lia.
Qed.

(** After returning to the first page with Prev, Reload enables Prev on
    the first page (the direction kept is still backward), and pressing it
    shows an empty list although the server has zones. *)
Theorem zones_reload_enables_prev (st : storage) :
  truthy_str (assoc_get "zones.current" st) = false -> max < total ->
  (exists zs, zones (live (browse st [Next; Prev; Reload])) = Some zs /\ zs ≡ₚ window 0 max items) /\
  canMoveBackward (live (browse st [Next; Prev; Reload])) = true /\
  zones (live (browse st [Next; Prev; Reload; Prev])) = Some [].
Proof.
  intros Hst Ht. unfold browse. cbn [fold_left].
  destruct (opened_shows st Hst) as (Hs & Hb & Hf).
  destruct (navigate_next _ _ Hs) as (Hs1 & Hb1 & _);
    [lia|rewrite Hf; apply Nat.ltb_lt; lia|]. cbn [Nat.add] in Hs1.
  destruct (navigate_prev _ _ Hs1) as (Hs2 & _ & _ & Hc & Hd); [lia|done|].
  rewrite Nat.ltb_irrefl in Hc. rewrite Nat.sub_diag in Hs2.
  destruct (navigate_reload_start _ Hs2 Hc Hd Ht) as [Hs3 Hb3].
  split_and!; [apply Hs3|done|]. apply navigate_prev_start; [done|done|lia].
Qed.

(** *** The saved position *)

(** Local storage holds the position of [s]. *)
Definition saved (s : state) (st : storage) : Prop :=
  match current s with
  | None => truthy_str (assoc_get "zones.current" st) = false
  | Some c => assoc_get "zones.current" st = Some c /\
      assoc_get "zones.direction" st = Some (default "null"%string (currentDirection s))
  end.

(** Where the list rests at page [k]: at the start, after the last record of
    the page before, or before the first record of the page after. *)
Definition resting (s : state) (k : nat) : Prop :=
  match current s with
  | None => k = 0
  | Some c => 0 < k /\
      ((currentDirection s = Some "forward"%string /\ c = key_at (k * max - 1) /\ k * max < total) \/
       (currentDirection s = Some "backward"%string /\ c = key_at (S k * max) /\ S k * max < total))
  end.

Lemma commit_saved (old new : state) (st : storage) :
  error new = NoError -> (current old = current new -> is_Some (current new) ->
    currentDirection old = currentDirection new) ->
  saved old st -> saved new (commit old new st).
Proof.
  intros He Hd Hs. unfold commit. rewrite He. cbn [error_set].
  destruct (bool_decide (current old = current new)) eqn:E.
  - apply bool_decide_eq_true in E. unfold saved in *. rewrite <- E. rewrite E in Hs.
    rewrite E. destruct (current new); [|done]. by rewrite <- Hd by eauto.
  - unfold saved, save_effects. destruct (current new) as [c|]; cbn [default from_option id].
    + rewrite assoc_get_set_ne by done. by rewrite !assoc_get_set_eq.
    + rewrite assoc_get_set_ne by done. by rewrite assoc_get_set_eq.
Qed.

Lemma answered_local (y : sys) (s : state) (p : pending) (ds : list (string * state)) :
  pendings y = [] -> error s = NoError ->
  local (answered (update y s (add (pendings y) (Some p)) ds))
  = commit s (reload_resume p (serve (url (p_request p))) s) (commit (live y) s (local y)).
Proof.
  intros Hp He. unfold answered, update, add. rewrite Hp. cbn [Datatypes.app from_option pendings].
  cbn [step pendings lookup list_lookup live]. rewrite He. reflexivity.
Qed.

(** A reload that changes the position, and its answer, keep it saved. *)
Lemma reload_saved (y : sys) (s : state) (p : pending) ds :
  pendings y = [] -> error s = NoError -> saved (live y) (local y) ->
  (current (live y) = current s -> is_Some (current s) -> currentDirection (live y) = currentDirection s) ->
  let y' := answered (update y s (add (pendings y) (Some p)) ds) in
  error (live y') = NoError ->
  (current s = current (live y') -> is_Some (current (live y')) -> currentDirection s = currentDirection (live y')) ->
  saved (live y') (local y').
Proof.
  intros Hp He Hs Hd y' He' Hd'. subst y'. rewrite answered_local by done.
  destruct (answered_update y s p ds Hp He) as (ms & st & E). rewrite E in *. cbn [live] in *.
  apply commit_saved; [done|done|]. by apply commit_saved.
Qed.

Lemma key_at_inj (i j : nat) : i < total -> j < total -> key_at i = key_at j -> i = j.
Proof.
  intros Hi Hj E. unfold key_at in E.
  destruct (lookup_lt_is_Some_2 (items : list string) i Hi) as [x Hx].
  destruct (lookup_lt_is_Some_2 (items : list string) j Hj) as [z Hz]. rewrite Hx, Hz in E.
  cbn in E. assert (Hn := item_key_nodup).
  eapply (NoDup_lookup _ i j (item_key x) Hn); rewrite list_lookup_fmap; [by rewrite Hx|]. rewrite Hz. cbn. by rewrite E.
Qed.

(** The list at page [k], with its position saved. *)
Definition at_rest (y : sys) (k : nat) : Prop :=
  shows y (k * max) /\ (k = 0 \/ k * max < total) /\ canMoveBackward (live y) = (0 <? k) /\
  (canMoveForward (live y) = true -> k * max + max < total) /\
  resting (live y) k /\ saved (live y) (local y).

Lemma saved_first (y : sys) (i : nat) :
  shows y i -> saved (live y) (local y) -> saved (live (navigate y First)) (local (navigate y First)).
Proof.
  intros Hy Hs. destruct (navigate_first y i Hy) as (Hs' & _ & _ & Hc & _).
  unfold navigate in *. cbn [click step] in *. rewrite (shows_rendered y i Hy) in *.
  cbv beta iota zeta delta [moveFirst reload prod_map fst snd id] in *.
  apply reload_saved; [apply Hy|apply Hy|done|by intros _ []|apply Hs'|].
  rewrite Hc. by intros _ [].
Qed.

Lemma saved_next (y : sys) (i : nat) :
  shows y i -> i + max < total -> canMoveForward (live y) = true -> saved (live y) (local y) ->
  (current (live y) = Some (key_at (i + max - 1)) -> currentDirection (live y) = Some "forward"%string) ->
  saved (live (navigate y Next)) (local (navigate y Next)).
Proof.
  intros Hy Hi Hf Hs Hdir. destruct (navigate_next y i Hy Hi Hf) as (Hs' & _ & _ & _ & Hd).
  unfold navigate in *. cbn [click step] in *. rewrite (shows_rendered y i Hy), Hf in *. cbn [andb] in *.
  unfold moveNext in *. rewrite (shows_can_page y i Hy) in * by lia.
  replace (Nat.min (i + max) total - 1) with (i + max - 1) in * by lia.
  cbv beta iota zeta delta [reload] in *.
  apply reload_saved; [apply Hy|apply Hy|done| |apply Hs'|by rewrite Hd]. intros E _. by apply Hdir.
Qed.

Lemma saved_prev (y : sys) (i : nat) :
  shows y i -> max <= i < total -> canMoveBackward (live y) = true -> saved (live y) (local y) ->
  (current (live y) = Some (key_at i) -> currentDirection (live y) = Some "backward"%string) ->
  saved (live (navigate y Prev)) (local (navigate y Prev)).
Proof.
  intros Hy Hi Hb Hs Hdir. destruct (navigate_prev y i Hy Hi Hb) as (Hs' & _ & _ & _ & Hd).
  unfold navigate in *. cbn [click step] in *. rewrite (shows_rendered y i Hy), Hb in *. cbn [andb] in *.
  unfold movePrev in *. rewrite (shows_can_page y i Hy) in * by lia.
  cbv beta iota zeta delta [reload] in *.
  apply reload_saved; [apply Hy|apply Hy|done| |apply Hs'|by rewrite Hd]. intros E _. by apply Hdir.
Qed.

Lemma navigate_at_rest (y : sys) (k : nat) (n : nav) :
  at_rest y k -> n <> Reload -> exists k', at_rest (navigate y n) k'.
Proof.
  intros (Hs & Hk & Hb & Hf & Hr & Hl) Hn. destruct n; [| | |done].
  - exists 0. destruct (navigate_first y _ Hs) as (Hs' & Hb' & Hf' & Hc & _). unfold at_rest, resting.
    rewrite Hf', Hc, Nat.ltb_lt. split_and!; [done|by left|done|lia|done|by eapply saved_first].
  - destruct (canMoveBackward (live y)) eqn:E.
    + assert (0 < k) by (by apply Nat.ltb_lt). destruct k as [|k]; [lia|].
      destruct (navigate_prev y _ Hs) as (Hs' & Hb' & Hf' & Hc & Hd); [lia|done|].
      exists k. replace (S k * max - max) with (k * max) in Hs' by lia. unfold at_rest, resting. rewrite Hc, Hd.
      split_and!; [done|destruct k; [by left|right; lia]|rewrite Hb'; bool_lia| | |].
      * intros Hc'. rewrite Hc' in Hf'. symmetry in Hf'. apply orb_true_iff in Hf'.
        rewrite Nat.ltb_lt, Nat.leb_le in Hf'. lia.
      * destruct (Nat.ltb_spec max (S k * max)); [|destruct k; [done|lia]].
        split; [destruct k; lia|]. right. split_and!; [done|done|lia].
      * eapply saved_prev; [done|lia|done|done|]. intros Ec. unfold resting in Hr. rewrite Ec in Hr.
        destruct Hr as (_ & [(_ & Hx & _)|(? & _)]); [|done]. apply key_at_inj in Hx; lia.
    + assert (navigate y Prev = y) as ->; [|exists k; unfold at_rest; by rewrite E].
      unfold navigate. cbn [click step]. by rewrite E, andb_false_r.
  - destruct (canMoveForward (live y)) eqn:E.
    + specialize (Hf eq_refl). destruct (navigate_next y _ Hs) as (Hs' & Hb' & Hf' & Hc & Hd); [done|done|].
      exists (S k). replace (k * max + max) with (S k * max) in * by lia. unfold at_rest, resting. rewrite Hc, Hd.
      rewrite Hf', Nat.ltb_lt. split_and!; [done|by right|done|lia|lia| |].
      * left. split_and!; [done|f_equal; lia|done].
      * eapply saved_next; [done|lia|done|done|]. intros Ec. unfold resting in Hr. rewrite Ec in Hr.
        destruct Hr as (_ & [(? & _)|(_ & Hx & _)]); [done|]. apply key_at_inj in Hx; lia.
    + assert (navigate y Next = y) as ->; [|exists k; unfold at_rest; rewrite E; auto 10].
      unfold navigate. cbn [click step]. by rewrite E, andb_false_r.
Qed.

Lemma opened_at_rest (st : storage) :
  truthy_str (assoc_get "zones.current" st) = false -> at_rest (opened st) 0.
Proof.
  intros Hst. destruct (opened_shows st Hst) as (Hs & Hb & Hf). unfold at_rest. rewrite Hf, Nat.ltb_lt.
  assert (Hc : current (live (opened st)) = None /\ saved (live (opened st)) (local (opened st))).
  { assert (Hserve := serve_request None true). cbn [from_option id] in Hserve.
    assert (Hsave : truthy_str (assoc_get "zones.current" (save_effects init st)) = false).
    { unfold save_effects. rewrite assoc_get_set_ne by done. by rewrite assoc_get_set_eq. }
    unfold opened, mount, mount_effect, saved. cbv zeta. rewrite Hst.
    destruct (truthy_str (assoc_get "zones.direction" st)); cbv beta iota zeta delta [reload];
      unfold answered, commit; cbn [pendings step lookup list_lookup live error_set];
      cbn -[save_effects list_request url]; rewrite Hserve by done; cbn -[save_effects]; done. }
  destruct Hc as [Hc Hsv]. unfold resting. rewrite Hc. split_and!; [done|by left|done|lia|done|done].
Qed.

(** Mounting with a saved position. *)
Lemma opened_saved (st : storage) (c dir : string) :
  c <> ""%string -> dir <> ""%string ->
  assoc_get "zones.current" st = Some c -> assoc_get "zones.direction" st = Some dir ->
  opened st = answered (Sys (setCurrentDirection (Some dir) (setZones None (setCurrent (Some c) (setCurrentDirection (Some dir) init))))
    [Pending (Some c) (Some dir) None (list_request (Some c) (Some dir))] [] []
    (commit init (setCurrentDirection (Some dir) (setZones None (setCurrent (Some c) (setCurrentDirection (Some dir) init))))
       (save_effects init st))).
Proof.
  intros Hc Hd Ec Ed. unfold opened, mount, mount_effect. cbv zeta. rewrite Ec, Ed. cbn [truthy_str].
  apply String.eqb_neq in Hc, Hd. by rewrite Hc, Hd.
Qed.

Lemma restore_forward (st : storage) (i : nat) :
  0 < i < total -> assoc_get "zones.current" st = Some (key_at (i - 1)) ->
  assoc_get "zones.direction" st = Some "forward"%string ->
  shows (opened st) i /\ canMoveBackward (live (opened st)) = true /\
  canMoveForward (live (opened st)) = (i + max <? total).
Proof.
  intros Hi Hc Hd. destruct (lookup_lt_is_Some_2 (items : list string) (i - 1)) as [x Hx]; [lia|].
  assert (Hk : key_at (i - 1) = item_key x) by (unfold key_at; by rewrite Hx). rewrite Hk in Hc.
  destruct (item_key_valid x) as (Hne & _); [by eapply list_elem_of_lookup_2|].
  rewrite (opened_saved st (item_key x) "forward") by done.
  edestruct answered_one as (ms & st' & Ha); [|rewrite Ha]; [done|]. cbn [p_request].
  rewrite (serve_request _ true) by (intros k [= <-]; eauto). cbn [from_option id default].
  destruct (page_forward max (i - 1) x) as (Hv & Hm & Hff & Hl); [lia|done|].
  replace (S (i - 1)) with i in * by lia.
  assert (Hm' : (max <? total - i) = (i + max <? total)) by bool_lia. rewrite Hm' in Hm. cbn -[Nat.ltb].
  split_and!; [|done|done]. eapply page_shows; [split_and!; eassumption|done..].
Qed.

Lemma restore_backward (st : storage) (i : nat) :
  max < i < total -> assoc_get "zones.current" st = Some (key_at i) ->
  assoc_get "zones.direction" st = Some "backward"%string ->
  shows (opened st) (i - max) /\ canMoveBackward (live (opened st)) = true /\
  canMoveForward (live (opened st)) = true.
Proof.
  intros Hi Hc Hd. destruct (lookup_lt_is_Some_2 (items : list string) i) as [x Hx]; [lia|].
  assert (Hk : key_at i = item_key x) by (unfold key_at; by rewrite Hx). rewrite Hk in Hc.
  destruct (item_key_valid x) as (Hne & _); [by eapply list_elem_of_lookup_2|].
  rewrite (opened_saved st (item_key x) "backward") by done.
  edestruct answered_one as (ms & st' & Ha); [|rewrite Ha]; [done|]. cbn [p_request].
  rewrite (serve_request _ false) by (intros k [= <-]; eauto). cbn [from_option id default].
  destruct (page_backward max i x) as (Hv & Hm & Hff & Hl); [lia|done|].
  rewrite Nat.min_l in * by lia. rewrite (proj2 (Nat.ltb_lt max i)) in Hm by lia.
  unfold reload_resume. cbn [p_direction]. rewrite Hm. rewrite bool_decide_eq_false_2 by done. cbn [negb].
  cbn. split_and!; [|done|done]. eapply page_shows; [split_and!; eassumption|done..].
Qed.

Lemma restore_at_rest (y : sys) (k : nat) :
  at_rest y k ->
  let y' := opened (local y) in
  shows y' (k * max) /\ canMoveBackward (live y') = (0 <? k) /\
  canMoveForward (live y') = (k * max + max <? total).
Proof.
  intros (Hs & Hk & _ & _ & Hr & Hl). cbv zeta. unfold resting, saved in *.
  destruct (current (live y)) as [c|].
  - destruct Hr as (Hk0 & Hr), Hl as [Hc Hd]. rewrite (proj2 (Nat.ltb_lt 0 k)) by done.
    destruct Hr as [(Hdir & -> & Hlt)|(Hdir & -> & Hlt)]; rewrite Hdir in Hd; cbn in Hd.
    + apply restore_forward; [lia|done|done].
    + destruct (restore_backward (local y) (S k * max)) as (H1 & H2 & H3); [destruct k; lia|done|done|].
      replace (S k * max - max) with (k * max) in H1 by lia. split_and!; [done|done|].
      rewrite H3. symmetry. apply Nat.ltb_lt. lia.
  - subst k. cbn [Nat.mul Nat.add]. by apply opened_shows.
Qed.

Lemma browse_at_rest (st : storage) (ns : list nav) :
  truthy_str (assoc_get "zones.current" st) = false -> Forall (fun n => n <> Reload) ns ->
  exists k, at_rest (browse st ns) k.
Proof.
  intros Hst Hns. unfold browse. assert (Ho : exists k, at_rest (opened st) k) by (exists 0; by apply opened_at_rest).
  revert Ho. generalize (opened st). induction Hns as [|n ns Hn _ IH]; intros y [k Hy]; [by exists k|].
  cbn. apply IH. by eapply navigate_at_rest.
Qed.

(** C26: Leaving and coming back: after any sequence of First, Prev and Next,
    mounting the list again from what it left in the local storage shows the
    page it showed before, with Prev enabled exactly when a page precedes it
    and Next exactly when one follows. *)
Theorem zones_restore (st : storage) (ns : list nav) :
  truthy_str (assoc_get "zones.current" st) = false -> Forall (fun n => n <> Reload) ns ->
  let y := browse st ns in
  let y' := opened (local y) in
  exists k, shows y (k * max) /\ shows y' (k * max) /\
    canMoveBackward (live y') = (0 <? k) /\ canMoveForward (live y') = (k * max + max <? total).
Proof.
  intros Hst Hns. destruct (browse_at_rest st ns Hst Hns) as [k Hr]. cbv zeta. exists k.
  split; [apply Hr|by apply restore_at_rest].
Qed.

(** A saved backward position from which nothing is left before it makes
    the component fail at mount: [reload] reads the length of the zones of the
    first render, which are null, and the exception ends in the error state. *)
Theorem zones_restore_backward_fails (st : storage) (i : nat) (x : string) :
  items !! i = Some x -> i <= max ->
  assoc_get "zones.current" st = Some (item_key x) ->
  assoc_get "zones.direction" st = Some "backward"%string ->
  error_set (error (live (opened st))) = true.
Proof.
  intros Hx Hi Hc Hd. unfold opened, mount, mount_effect. cbv zeta. rewrite Hc, Hd.
  destruct (item_key_valid x) as (Hne & _); [by eapply list_elem_of_lookup_2|].
  cbn [truthy_str]. rewrite (proj2 (String.eqb_neq _ _) Hne). cbn [String.eqb negb].
  cbv beta iota zeta delta [reload].
  edestruct answered_one as (ms & st' & Ha); [|rewrite Ha]; [done|]. cbn [p_request].
  rewrite (serve_request _ false) by (intros k [= <-]; eauto). cbn [from_option id].
  destruct (page_backward max i x) as (_ & Hm & _); [lia|done|].
  unfold reload_resume. rewrite Hm, (proj2 (Nat.ltb_ge max i) Hi). done.
Qed.

End Browse.

(** ** Reachable states *)

(** Hidden rows have no delete buttons. *)
Definition metas_ok (y : sys) : Prop := rendered (live y) = false -> metas y = [].

Lemma update_metas_ok (y : sys) (s : state) ps ds : metas_ok (update y s ps ds).
Proof. unfold metas_ok, update, meta_commit. cbn. by intros ->. Qed.

Lemma step_metas_ok (y y' : sys) (e : event) : metas_ok y -> step y e = Some y' -> metas_ok y'.
Proof.
  intros Hy Hst. unfold step in Hst.
  repeat (break_match_in Hst; simplify_eq); try break_match; auto using update_metas_ok.
Qed.

Lemma steps_metas_ok (y y' : sys) (es : list event) :
  metas_ok y -> steps y es = Some y' -> metas_ok y'.
Proof.
  revert y. induction es as [|e es IH]; intros y Hy Hst; cbn in *; [by simplify_eq|].
  destruct (step y e) as [y1|] eqn:E; [|done]. eapply IH; [by eapply step_metas_ok|done].
Qed.

Lemma mount_metas_ok (st : storage) : metas_ok (mount st).
Proof. unfold mount. by destruct (mount_effect st). Qed.

Lemma step_error_live (y y' : sys) (e : event) :
  metas_ok y -> error_set (error (live y)) = true -> step y e = Some y' -> live y' = live y.
Proof.
  intros Hm He Hst.
  assert (Hr : rendered (live y) = false) by (unfold rendered; by rewrite He).
  unfold step in Hst. rewrite Hr, (Hm Hr), He in Hst. cbn in Hst.
  destruct e as [| | | | | |row c|i r|i r]; try done.
  - destruct (pendings y !! i); by simplify_eq.
  - destruct (deletes y !! i) as [[? ?]|]; by simplify_eq.
Qed.

(** As long as no zone deletion was started, the component is always in
    exactly one of three situations: an error is shown; one list request is
    outstanding and the list is hidden; or nothing is outstanding, the list is
    shown, and the delete button of every row is bound to the zone of that
    row.  In particular the buttons cannot start two overlapping reloads. *)
Theorem zones_settled (st : storage) (es : list event) (y : sys) :
  forallb (fun e => negb (is_delete e)) es = true -> steps (mount st) es = Some y -> settled y.
Proof. intros Hes Hst. exact (steps_settled _ _ _ (mount_settled st) Hes Hst). Qed.

(** An error is final: once it is set in a reachable state, whatever
    happens next (late answers included) leaves the component as it is. *)
Theorem zones_error_final (st : storage) (es es' : list event) (y y' : sys) :
  steps (mount st) es = Some y -> error_set (error (live y)) = true ->
  steps y es' = Some y' -> live y' = live y.
Proof.
  intros Hst He. assert (Hm := steps_metas_ok _ _ _ (mount_metas_ok st) Hst). clear Hst.
  revert y He Hm. induction es' as [|e es' IH]; intros y He Hm Hst; cbn in Hst; [by simplify_eq|].
  destruct (step y e) as [y1|] eqn:E; [|done].
  rewrite <- (step_error_live _ _ _ Hm He E).
  apply IH; [by rewrite (step_error_live _ _ _ Hm He E)|by eapply step_metas_ok|done].
Qed.

(** The answer to a deletion, on every branch: success reloads the position
    of the click; a failure shows an error exactly when it has a non-empty
    message, so a failed response with an empty status text is not reported. *)
Theorem deleteZone_resume_spec (c s : state) (r : fetch_result unit) :
  error s = NoError ->
  let '(s', p) := deleteZone_resume c r s in
  match r with
  | Resp true _ _ =>
      p = Some (Pending (current c) (currentDirection c) (zones c)
                  (list_request (current c) (currentDirection c))) /\
      zones s' = None /\ error s' = NoError
  | Resp false statusText _ =>
      p = None /\ zones s' = zones s /\
      (error_set (error s') = true <-> statusText <> ""%string)
  | Rejected true msg =>
      p = None /\ zones s' = zones s /\ (error_set (error s') = true <-> msg <> ""%string)
  | Rejected false _ => p = None /\ zones s' = zones s /\ error_set (error s') = true
  end.
Proof.
  intros He. destruct r as [[] msg|[] t j]; cbn; rewrite ?negb_true_iff, ?String.eqb_neq; auto.
Qed.

End Component.

(** Two deletions answered before the lists they reload arrive can leave
    a row whose delete button is bound to another zone than the row shows:
    the second list replaces the first without the rows leaving the screen,
    and a button keeps the zone of its first render. *)
Theorem zones_stale_delete_button (app : app_state) :
  exists es y, steps app 10 (mount app 10 []) es = Some y /\
    zones (live y) = Some ["c.org"; "d.org"]%string /\
    (deletes <$> step app 10 y (ClickDelete 1 true)) = Some [("c.org"%string, live y)].
Proof.
  pose (pg (zs : list string) := Resp true "OK" (Some (Page zs false "" ""))).
  exists [Answer 0 (pg ["a.org"; "b.org"; "c.org"; "d.org"]%string);
          ClickDelete 0 true; ClickDelete 1 true;
          DeleteAnswer 0 (Resp true "OK" None); DeleteAnswer 0 (Resp true "OK" None);
          Answer 0 (pg ["b.org"; "c.org"; "d.org"]%string); Answer 0 (pg ["c.org"; "d.org"]%string)].
  eexists. split; [vm_compute; reflexivity|]. split; vm_compute; reflexivity.
Qed.

End ListZones.

(** ** Witnesses: fifteen zones, pages of ten *)

Module ZonesDemo.
Import ListZones.

Definition demo : list string :=
  ["a.org"; "b.org"; "c.org"; "d.org"; "e.org"; "f.org"; "g.org"; "h.org";
   "i.org"; "j.org"; "k.org"; "l.org"; "m.org"; "n.org"; "o.org"]%string.

Definition demo_cfg : rest_config := RestConfig 1000 100.

#[export] Instance demo_server : PageServer string := list_server demo id.

#[export] Instance demo_laws : PageServerLaws string.
Proof.
  apply list_server_laws.
  - refine (bool_decide_unpack (NoDup (id <$> demo)) _). vm_compute. exact I.
  - apply Forall_forall. unfold demo. repeat constructor; done.
Qed.

Lemma demo_max : 0 < 10 <= rest_max_page_size demo_cfg.
Proof. cbn. lia. Qed.

Lemma zones_browse_invariant_witness :
  exists k zs, let s := live (browse initialState 10 (serve_url demo_cfg) [] [Next; Prev; First]) in
    error s = NoError /\ zones s = Some zs /\ zs ≡ₚ window (k * 10) 10 demo /\
    (k = 0 \/ k * 10 < length demo) /\ canMoveBackward s = (0 <? k) /\
    (canMoveForward s = true -> k * 10 + 10 < length demo).
Proof.
  refine (zones_browse_invariant initialState 10 demo_cfg (serve_url demo_cfg) demo_max eq_refl eq_refl (fun _ _ _ => eq_refl) [] [Next; Prev; First] _ _).
  - reflexivity.
  - repeat constructor; discriminate.
Defined.

Lemma zones_forward_complete_witness :
  seen initialState 10 (serve_url demo_cfg) [] 2 ≡ₚ demo /\
  forall j, j < 2 ->
    canMoveForward (live (browse initialState 10 (serve_url demo_cfg) [] (replicate j Next))) = (S j <? 2).
Proof.
  refine (zones_forward_complete initialState 10 demo_cfg (serve_url demo_cfg) demo_max eq_refl eq_refl (fun _ _ _ => eq_refl) [] 2 _ _ _ _);
    [reflexivity|lia|cbn; lia|left; cbn; lia].
Defined.

Lemma zones_restore_witness :
  let y := browse initialState 10 (serve_url demo_cfg) [] [Next; Prev; Next] in
  let y' := opened initialState 10 (serve_url demo_cfg) (local y) in
  exists k, shows 10 y (k * 10) /\ shows 10 y' (k * 10) /\
    canMoveBackward (live y') = (0 <? k) /\ canMoveForward (live y') = (k * 10 + 10 <? length demo).
Proof.
  refine (zones_restore initialState 10 demo_cfg (serve_url demo_cfg) demo_max eq_refl eq_refl (fun _ _ _ => eq_refl)
            [] [Next; Prev; Next] _ _); [reflexivity|repeat constructor; discriminate].
Defined.

Lemma zones_prev_disables_next_witness :
  let s := live (browse initialState 10 (serve_url demo_cfg) [] [Next; Prev]) in
  (exists zs, zones s = Some zs /\ zs ≡ₚ window 0 10 demo) /\ canMoveForward s = false.
Proof.
  refine (zones_prev_disables_next initialState 10 demo_cfg (serve_url demo_cfg) demo_max eq_refl eq_refl (fun _ _ _ => eq_refl) [] _ _);
    [reflexivity|cbn; lia].
Defined.

Lemma zones_reload_enables_prev_witness :
  (exists zs, zones (live (browse initialState 10 (serve_url demo_cfg) [] [Next; Prev; Reload])) = Some zs /\
     zs ≡ₚ window 0 10 demo) /\
  canMoveBackward (live (browse initialState 10 (serve_url demo_cfg) [] [Next; Prev; Reload])) = true /\
  zones (live (browse initialState 10 (serve_url demo_cfg) [] [Next; Prev; Reload; Prev])) = Some [].
Proof.
  refine (zones_reload_enables_prev initialState 10 demo_cfg (serve_url demo_cfg) demo_max eq_refl eq_refl (fun _ _ _ => eq_refl) [] _ _);
    [reflexivity|cbn; lia].
Defined.

Lemma zones_restore_backward_fails_witness :
  error_set (error (live (opened initialState 10 (serve_url demo_cfg)
    [("zones.current", "k.org"); ("zones.direction", "backward")]%string))) = true.
Proof.
  refine (zones_restore_backward_fails initialState 10 demo_cfg (serve_url demo_cfg) demo_max eq_refl eq_refl (fun _ _ _ => eq_refl)
           [("zones.current", "k.org"); ("zones.direction", "backward")]%string 10 "k.org"%string _ _ _ _);
    [reflexivity|lia|reflexivity|reflexivity].
Defined.

Definition demo_page : fetch_result (page string) :=
  Resp true "OK" (Some (Page ["a.org"; "b.org"]%string false "a.org" "b.org")).

Lemma zones_settled_witness :
  exists y, steps initialState 10 (mount initialState 10 []) [Answer 0 demo_page; ClickReload] = Some y /\
    settled y.
Proof.
  eexists. split; [vm_compute; reflexivity|].
  eapply (zones_settled initialState 10 [] [Answer 0 demo_page; ClickReload]); vm_compute; reflexivity.
Defined.

Lemma zones_error_final_witness :
  exists y y', steps initialState 10 (mount initialState 10 []) [Answer 0 (Rejected true "offline")] = Some y /\
    steps initialState 10 y [] = Some y' /\ live y' = live y.
Proof.
  eexists _, _. split; [vm_compute; reflexivity|]. split; [vm_compute; reflexivity|].
  apply (zones_error_final initialState 10 [] [Answer 0 (Rejected true "offline")] []);
    vm_compute; reflexivity.
Defined.

Lemma deleteZone_resume_spec_witness :
  error_set (error (fst (deleteZone_resume initialState 10 init (Resp false "" None) init))) = true <->
  ""%string <> ""%string.
Proof.
  destruct (deleteZone_resume_spec initialState 10 init init (Resp false "" None) eq_refl)
    as (_ & _ & H). exact H.
Defined.

End ZonesDemo.
