(* ===== verification/RrTypes.v ===== *)
(** * pages/ResourceRecords.jsx: the record types and the pure helpers

    The table [rrProto] of record types, the row count of a record set, the
    conversion of form strings, the types a record set already uses and the
    types the drop-down offers.  [rrProto] is never assigned to by the
    sources, so it is a constant here and its prototypes are JSON values. *)

From S2P Require Import Prelude JsNumber JsValue.

Record rr_type : Type := RrType {
  brief : string;
  canAdd : bool;
  proto : json
}.

Definition zero : json := JNum (num_of_Z 0).

Definition rrProto : list (string * rr_type) := [
  ("soa", RrType "Zone info" false
    (JObj [("mname", JStr ""); ("rname", JStr ""); ("email", JStr ""); ("refresh", zero);
           ("retry", zero); ("expire", zero); ("minimum", zero)]));
  ("ns", RrType "Name Server" false (JArr [JStr ""]));
  ("a", RrType "IP number v4 or v6" true (JArr [JStr ""]));
  ("mx", RrType "Mail Server info" true
    (JArr [JObj [("host", JStr ""); ("priority", zero)]]));
  ("txt", RrType "Text record" true (JArr [JStr ""]));
  ("hinfo", RrType "" true (JObj [("cpu", JStr ""); ("os", JStr "")]));
  ("rp", RrType "" true (JObj [("mbox", JStr ""); ("txt", JStr "")]));
  ("afsdb", RrType "" true (JArr [JObj [("host", JStr ""); ("subtype", zero)]]));
  ("srv", RrType "" true
    (JArr [JObj [("target", JStr ""); ("priority", zero); ("weight", zero); ("port", zero)]]));
  ("openpgpkey", RrType "Open PGP key" true (JStr ""));
  ("default", RrType "" false (JArr [JStr ""]))
]%string.

Definition is_jarr (j : json) : bool := match j with JArr _ => true | _ => false end.

(** [getRrRows(rr)]: the [rowSpan] of the fqdn cell. *)
Fixpoint count_rows (es : list (string * val)) : js nat :=
  match es with
  | [] => mret 0
  | (key, value) :: es' =>
      if String.eqb key "ttl" || String.eqb key "fqdn" then count_rows es'
      else
        arr ← isArray value;
        n ← (if arr : bool then array_length value else mret 1);
        m ← count_rows es';
        mret (n + m)
  end.

Definition getRrRows (rr : val) : js nat :=
  es ← entries rr;
  rows ← count_rows es;
  mret (if Nat.eqb rows 0 then 2 else rows + 2).

(** [castStringToType(type, newVar)]. *)
Definition castStringToType (type : string) (newVar : val) : js val :=
  match newVar with
  | VStr s =>
      if String.eqb type "string" then mret newVar
      else if String.eqb type "number" then mret (VNum (Number s))
      else if String.eqb type "boolean" then
        mret (VBool (SFeqb (Number s) (num_of_Z 1) || String.eqb s "true"))
      else throw (JsError ("castStringToType: Unerxpected type " +:+ type))
  | _ => throw (JsError ("castStringToType: newVar must be a string! It is a " +:+ typeof newVar))
  end.

(** [filterUsedRrTypes(rr)]: the names of the properties that are not arrays. *)
Fixpoint non_arrays (es : list (string * val)) : js (list string) :=
  match es with
  | [] => mret []
  | (name, value) :: es' =>
      arr ← isArray value;
      rest ← non_arrays es';
      mret (if arr : bool then rest else name :: rest)
  end.

Definition filterUsedRrTypes (rr : val) : js (list string) :=
  es ← entries rr; non_arrays es.

(** The options of SelectRr: the types that can be added and are not filtered
    out, sorted. *)
Definition select_types (filter : list string) : list string :=
  merge_sort String.le
    (List.filter (fun name => negb (existsb (String.eqb name) filter))
       (List.filter (fun name => from_option canAdd false (assoc_get name rrProto)) rrProto.*1)).

(** SelectRr's onChange: the name and the prototype handed to the form. *)
Definition select_change (selection : string) : option (string * json) :=
  if String.eqb selection "select" then Some (""%string, JObj [])
  else match assoc_get selection rrProto with
       | Some t => Some (selection, proto t)
       | None => None
       end.

(** ** Facts *)

Lemma isArray_ref (l : loc) (h : heap) :
  isArray (VRef l) h = (Ok (match h !! l with Some (OArray _) => true | _ => false end), h).
Proof. reflexivity. Qed.

Lemma isArray_pure (v : val) (h : heap) : exists b, isArray v h = (Ok b, h).
Proof. eexists. reflexivity. Qed.

Lemma select_types_elem (filter : list string) (name : string) :
  (name ∈ select_types filter) <->
  (name ∉ filter) /\ exists t, assoc_get name rrProto = Some t /\ canAdd t = true.
Proof.
  unfold select_types. rewrite (merge_sort_Permutation String.le), list_elem_of_In, !filter_In.
  split.
  - intros [[Hin Hadd] Hf]. reflect_tests. split.
    + intros Hn. apply list_elem_of_In in Hn.
      assert (existsb (String.eqb name) filter = true); [|congruence].
      apply existsb_exists. exists name. by rewrite String.eqb_refl.
    + destruct (assoc_get name rrProto) as [t|]; [|done]. eauto.
  - intros [Hf (t & Ht & Hadd)]. rewrite Ht. split_and!; [|done|].
    + apply list_elem_of_In. apply assoc_get_elem in Ht. by apply (list_elem_of_fmap_2 fst) in Ht.
    + apply negb_true_iff, not_true_iff_false. intros (x & Hx & ->%String.eqb_eq)%existsb_exists.
      by apply Hf, list_elem_of_In.
Qed.
