(* ===== verification/RrJson.v ===== *)
(** * The JSON of a record set

    RestApi's toJson (lib/RestApi.cpp) turns a stored record set, an [entry],
    into the JSON object the UI lists, shows and edits; RrSoa::ToEmail
    (lib/DnsMessages.cpp) turns an rname into a mail address.  An entry is the
    sequence of its records as the accessors of DnsMessages.h read them:
    names and addresses as text, integers at their width, raw data as bytes. *)

From S2P Require Import Prelude JsNumber JsValue JsonStore ServerUtil RrTypes.

(** ** Records *)

Inductive rdata : Type :=
| TYPE_A (address : string)
| TYPE_AAAA (address : string)
| TYPE_NS (ns : string)
| TYPE_CNAME (cname : string)
| TYPE_SOA (mname rname : string) (serial refresh retry expire minimum : Z)
| TYPE_PTR (ptrdname : string)
| TYPE_MX (host : string) (priority : Z)
| TYPE_TXT (txt : string)
| TYPE_SRV (target : string) (priority weight port : Z)
| TYPE_AFSDB (host : string) (subtype : Z)
| TYPE_RP (mbox txt : string)
| TYPE_HINFO (cpu os : string)
| TYPE_DHCID (bytes : list Z)
| TYPE_OPENPGPKEY (bytes : list Z)
| TYPE_OTHER (type : Z) (bytes : list Z).

Record rr : Type := Rr {
  labels : string;
  rr_ttl : Z;
  rr_rdata : rdata
}.

Abbreviation entry := (list rr).

(** ** ToEmail: the first dot that is not escaped becomes @ *)

Fixpoint ToEmail_from (prev : ascii) (rn : string) : string :=
  match rn with
  | EmptyString => EmptyString
  | String ch rn' =>
      if Ascii.eqb ch "." && negb (Ascii.eqb prev "\") then String "@" rn'
      else if Ascii.eqb ch "\" then ToEmail_from ch rn'
      else String ch (ToEmail_from ch rn')
  end.

Definition ToEmail (rname : string) : string := ToEmail_from "000"%char rname.

(** ** toJson *)

Abbreviation object := (list (string * json)).

Definition jint (z : Z) : json := JNum (num_of_Z z).

(** asArray(obj, name).emplace_back(v); [None] when the property is there and
    not an array. *)
Definition asArray_push (name : string) (v : json) (obj : object) : option object :=
  match assoc_get name obj with
  | Some (JArr l) => Some (assoc_set name (JArr (l ++ [v])) obj)
  | Some _ => None
  | None => Some (assoc_set name (JArr [v]) obj)
  end.

(** RrMx::host and priority throw for another type of record. *)
Definition mx_json (d : rdata) : option json :=
  match d with
  | TYPE_MX host priority => Some (JObj [("host", JStr host); ("priority", jint priority)]%string)
  | _ => None
  end.

(** The record is added to the object; [None] is an exception.  The branch of
    PTR has no break and goes on with the code of MX. *)
Definition toJson (d : rdata) (obj : object) : option object :=
  match d with
  | TYPE_A address => asArray_push "a" (JStr address) obj
  | TYPE_AAAA address => asArray_push "aaaa" (JStr address) obj
  | TYPE_NS ns => asArray_push "ns" (JStr ns) obj
  | TYPE_CNAME cname => Some (assoc_set "cname" (JStr cname) obj)
  | TYPE_SOA mname rname serial refresh retry expire minimum =>
      Some (assoc_set "soa"
        (JObj [("mname", JStr mname); ("rname", JStr rname); ("email", JStr (ToEmail rname));
               ("serial", jint serial); ("refresh", jint refresh); ("retry", jint retry);
               ("expire", jint expire); ("minimum", jint minimum)]) obj)
  | TYPE_PTR ptrdname =>
      obj' ← asArray_push "ptr" (JStr ptrdname) obj; o ← mx_json d; asArray_push "mx" o obj'
  | TYPE_MX _ _ => o ← mx_json d; asArray_push "mx" o obj
  | TYPE_TXT txt => asArray_push "txt" (JStr txt) obj
  | TYPE_SRV target priority weight port =>
      asArray_push "srv" (JObj [("target", JStr target); ("priority", jint priority);
                                ("weight", jint weight); ("port", jint port)]) obj
  | TYPE_AFSDB host subtype =>
      asArray_push "afsdb" (JObj [("host", JStr host); ("subtype", jint subtype)]) obj
  | TYPE_RP mbox txt => Some (assoc_set "rp" (JObj [("mbox", JStr (ToEmail mbox)); ("txt", JStr txt)]) obj)
  | TYPE_HINFO cpu os => Some (assoc_set "hinfo" (JObj [("cpu", JStr cpu); ("os", JStr os)]) obj)
  | TYPE_DHCID bytes => Some (assoc_set "dhcid" (JStr (Base64Encode bytes)) obj)
  | TYPE_OPENPGPKEY bytes => Some (assoc_set "openpgpkey" (JStr (Base64Encode bytes)) obj)
  | TYPE_OTHER type bytes =>
      asArray_push (String "#" (num_to_string (num_of_Z type))) (JStr (Base64Encode bytes)) obj
  end%string.

Fixpoint toJson_all (e : entry) (obj : object) : option object :=
  match e with
  | [] => Some obj
  | r :: e' => obj' ← toJson (rr_rdata r) obj; toJson_all e' obj'
  end.

(** toJson(entry): the name and the TTL are those of the first record. *)
Definition toJson_entry (e : entry) : option object :=
  match e with
  | [] => Some []
  | r :: _ => toJson_all e [("fqdn", JStr (labels r)); ("ttl", jint (rr_ttl r))]%string
  end.

(** ** What the object holds *)

Definition meta_name (k : string) : bool := String.eqb k "fqdn" || String.eqb k "ttl".

(** The types whose records are listed in an array. *)
Definition multi_name (k : string) : bool :=
  match k with
  | String "#" _ => true
  | _ => existsb (String.eqb k) ["a"; "aaaa"; "ns"; "mx"; "txt"; "srv"; "afsdb"]%string
  end.

(** The name and the value a record is listed with; none for PTR. *)
Definition rr_slot (d : rdata) : option (string * json) :=
  match d with
  | TYPE_A address => Some ("a", JStr address)
  | TYPE_AAAA address => Some ("aaaa", JStr address)
  | TYPE_NS ns => Some ("ns", JStr ns)
  | TYPE_CNAME cname => Some ("cname", JStr cname)
  | TYPE_SOA mname rname serial refresh retry expire minimum =>
      Some ("soa", JObj [("mname", JStr mname); ("rname", JStr rname); ("email", JStr (ToEmail rname));
               ("serial", jint serial); ("refresh", jint refresh); ("retry", jint retry);
               ("expire", jint expire); ("minimum", jint minimum)])
  | TYPE_PTR _ => None
  | TYPE_MX host priority => Some ("mx", JObj [("host", JStr host); ("priority", jint priority)])
  | TYPE_TXT txt => Some ("txt", JStr txt)
  | TYPE_SRV target priority weight port =>
      Some ("srv", JObj [("target", JStr target); ("priority", jint priority);
                         ("weight", jint weight); ("port", jint port)])
  | TYPE_AFSDB host subtype => Some ("afsdb", JObj [("host", JStr host); ("subtype", jint subtype)])
  | TYPE_RP mbox txt => Some ("rp", JObj [("mbox", JStr (ToEmail mbox)); ("txt", JStr txt)])
  | TYPE_HINFO cpu os => Some ("hinfo", JObj [("cpu", JStr cpu); ("os", JStr os)])
  | TYPE_DHCID bytes => Some ("dhcid", JStr (Base64Encode bytes))
  | TYPE_OPENPGPKEY bytes => Some ("openpgpkey", JStr (Base64Encode bytes))
  | TYPE_OTHER type bytes =>
      Some (String "#" (num_to_string (num_of_Z type)), JStr (Base64Encode bytes))
  end%string.

Definition named (k : string) (r : rr) : option json :=
  match rr_slot (rr_rdata r) with
  | Some (n, v) => if String.eqb n k then Some v else None
  | None => None
  end.

(** What the object has under [k]: all records of an array type, the last
    record of another type. *)
Definition listed (k : string) (e : entry) : option json :=
  let vs := omap (named k) e in
  if multi_name k then match vs with [] => None | _ => Some (JArr vs) end else last vs.

Lemma toJson_slot d obj :
  toJson d obj = match rr_slot d with
                 | Some (n, v) => if multi_name n then asArray_push n v obj else Some (assoc_set n v obj)
                 | None => None
                 end.
Proof. destruct d; try reflexivity. cbn. by destruct (asArray_push _ _ _). Qed.

Lemma rr_slot_name d n v : rr_slot d = Some (n, v) -> meta_name n = false.
Proof. destruct d; intros [= <- <-]; reflexivity. Qed.

Lemma listed_other k e r n v :
  rr_slot (rr_rdata r) = Some (n, v) -> n <> k -> listed k (e ++ [r]) = listed k e.
Proof.
  intros Hs Hne. unfold listed. rewrite omap_app.
  assert (H : omap (named k) [r] = []).
  { cbn. unfold named. rewrite Hs. apply String.eqb_neq in Hne. by rewrite Hne. }
  by rewrite H, app_nil_r.
Qed.

Lemma omap_named_last k e r v :
  rr_slot (rr_rdata r) = Some (k, v) -> omap (named k) (e ++ [r]) = omap (named k) e ++ [v].
Proof.
  intros Hs. rewrite omap_app. f_equal. cbn. unfold named. by rewrite Hs, String.eqb_refl.
Qed.

Lemma listed_own k e r v :
  rr_slot (rr_rdata r) = Some (k, v) ->
  listed k (e ++ [r]) = Some (if multi_name k then JArr (omap (named k) e ++ [v]) else v).
Proof.
  intros Hs. unfold listed. rewrite (omap_named_last _ _ _ _ Hs). destruct (multi_name k).
  - by destruct (omap (named k) e).
  - by rewrite last_snoc.
Qed.

Lemma toJson_all_app e r obj : toJson_all (e ++ [r]) obj = toJson_all e obj ≫= toJson (rr_rdata r).
Proof.
  revert obj. induction e as [|x e IH]; intros obj; cbn.
  - by destruct (toJson _ _).
  - destruct (toJson (rr_rdata x) obj); [|done]. cbn. apply IH.
Qed.

Lemma assoc_set_nodup {V} k (v : V) l : NoDup l.*1 -> NoDup (assoc_set k v l).*1.
Proof.
  intros H. destruct (assoc_get k l) as [w|] eqn:E.
  - by rewrite assoc_set_keys_old.
  - rewrite assoc_set_new, fmap_app, NoDup_app by done. split_and!; [done| |apply NoDup_singleton].
    intros x Hx ->%list_elem_of_singleton. by apply assoc_get_None in E.
Qed.

(** Every record that is not a PTR has a slot. *)
Definition listable (r : rr) : bool := match rr_rdata r with TYPE_PTR _ => false | _ => true end.

Lemma listable_slot r : listable r = true -> exists n v, rr_slot (rr_rdata r) = Some (n, v).
Proof. unfold listable. destruct (rr_rdata r); intros; try done; eexists _, _; reflexivity. Qed.

Lemma toJson_all_listed e obj0 :
  Forall (fun r => listable r = true) e -> NoDup obj0.*1 -> Forall (fun k => meta_name k = true) obj0.*1 ->
  exists obj, toJson_all e obj0 = Some obj /\ NoDup obj.*1 /\
    forall k, assoc_get k obj = if meta_name k then assoc_get k obj0 else listed k e.
Proof.
  intros He Hnd Hm. induction e as [|r e IH] using rev_ind.
  - exists obj0. split_and!; [done|done|]. intros k. destruct (meta_name k) eqn:Ek; [done|].
    replace (listed k []) with (@None json) by (unfold listed; by destruct (multi_name k)).
    apply assoc_get_None. intros Hk.
    rewrite Forall_forall in Hm. apply Hm in Hk. congruence.
  - apply Forall_app in He as [He Hr]. rewrite Forall_singleton in Hr.
    destruct (IH He) as (obj & E & Hobj & Hg). destruct (listable_slot r Hr) as (n & v & Hs).
    assert (Hn := rr_slot_name _ _ _ Hs).
    exists (assoc_set n (if multi_name n then JArr (omap (named n) e ++ [v]) else v) obj).
    split_and!; [|by apply assoc_set_nodup|].
    + rewrite toJson_all_app, E. cbn. rewrite toJson_slot, Hs.
      destruct (multi_name n) eqn:Em; [|done]. unfold asArray_push. rewrite Hg, Hn. unfold listed.
      rewrite Em. by destruct (omap (named n) e).
    + intros k. destruct (decide (n = k)) as [<-|Hne].
      * by rewrite assoc_get_set_eq, Hn, (listed_own _ _ _ _ Hs).
      * rewrite assoc_get_set_ne, Hg by done. destruct (meta_name k); [done|].
        by rewrite (listed_other _ _ _ _ _ Hs).
Qed.

(** The object of an entry, property by property. *)
Lemma toJson_entry_run r e :
  Forall (fun r => listable r = true) (r :: e) ->
  exists obj, toJson_entry (r :: e) = Some obj /\ NoDup obj.*1 /\
    assoc_get "fqdn" obj = Some (JStr (labels r)) /\ assoc_get "ttl" obj = Some (jint (rr_ttl r)) /\
    forall k, meta_name k = false -> assoc_get k obj = listed k (r :: e).
Proof.
  intros He. destruct (toJson_all_listed (r :: e) [("fqdn", JStr (labels r)); ("ttl", jint (rr_ttl r))]%string)
    as (obj & E & Hnd & Hg); [done| |by repeat constructor|].
  { apply NoDup_cons. split; [|apply NoDup_singleton]. by intros ?%list_elem_of_singleton. }
  exists obj. split_and!; [done|done|by rewrite Hg|by rewrite Hg|]. intros k Hk. by rewrite Hg, Hk.
Qed.

(** A PTR record anywhere in the entry throws. *)
Lemma toJson_all_ptr e obj : Exists (fun r => listable r = false) e -> toJson_all e obj = None.
Proof.
  intros H. revert obj. induction H as [r e Hr|r e _ IH]; intros obj; cbn.
  - rewrite toJson_slot. unfold listable in Hr. by destruct (rr_rdata r).
  - destruct (toJson (rr_rdata r) obj); [apply IH|done].
Qed.

(** What is listed under a name comes from records of that type. *)
Definition comes_from (e : entry) (k : string) (v : json) : Prop :=
  exists r, r ∈ e /\ rr_slot (rr_rdata r) = Some (k, v).

Lemma omap_named_from k e : Forall (comes_from e k) (omap (named k) e).
Proof.
  apply Forall_forall. intros v (r & Hr & Hv)%list_elem_of_omap. exists r. split; [done|].
  unfold named in Hv. destruct (rr_slot (rr_rdata r)) as [[n w]|]; [|done].
  destruct (String.eqb_spec n k); by simplify_eq.
Qed.

Lemma listed_inv k e j :
  listed k e = Some j ->
  if multi_name k then exists vs, j = JArr vs /\ vs <> [] /\ Forall (comes_from e k) vs
  else comes_from e k j.
Proof.
  unfold listed. assert (Hf := omap_named_from k e). destruct (multi_name k).
  - destruct (omap (named k) e) as [|v vs] eqn:E; intros [= <-]. by exists (v :: vs).
  - intros Hl%last_Some_elem_of. rewrite Forall_forall in Hf. auto.
Qed.

Lemma toJson_entry_some e obj : toJson_entry e = Some obj -> Forall (fun r => listable r = true) e.
Proof.
  intros He. destruct (decide (Forall (fun r => listable r = true) e)) as [|Hn]; [done|].
  apply not_Forall_Exists in Hn; [|apply _]. destruct e as [|r e]; [constructor|].
  unfold toJson_entry in He. rewrite toJson_all_ptr in He; [done|].
  eapply Exists_impl; [exact Hn|]. intros x Hx. by apply not_true_iff_false.
Qed.

(** The object of an entry, from the outcome. *)
Lemma toJson_entry_props r e obj :
  toJson_entry (r :: e) = Some obj ->
  NoDup obj.*1 /\ assoc_get "fqdn" obj = Some (JStr (labels r)) /\
  assoc_get "ttl" obj = Some (jint (rr_ttl r)) /\
  forall k, meta_name k = false -> assoc_get k obj = listed k (r :: e).
Proof.
  intros He. destruct (toJson_entry_run r e (toJson_entry_some _ _ He)) as (obj' & E & Hp).
  rewrite E in He. injection He as <-. exact Hp.
Qed.

Lemma toJson_entry_inv e obj k j :
  toJson_entry e = Some obj -> assoc_get k obj = Some j -> meta_name k = false -> listed k e = Some j.
Proof.
  intros He Hk Hm. destruct e as [|r e]; [by injection He as <-|].
  destruct (toJson_entry_props _ _ _ He) as (_ & _ & _ & Hg). by rewrite <- Hg.
Qed.

(** ** Theorems *)

(** [j] has the form of the prototype [p]: the same kind of value, arrays of
    elements like the one of the prototype, objects with at least its fields. *)
Fixpoint has_shape (p j : json) : bool :=
  match p, j with
  | JNull, JNull | JBool _, JBool _ | JNum _, JNum _ | JStr _, JStr _ => true
  | JArr ps, JArr l => match ps with [p'] => forallb (has_shape p') l | _ => false end
  | JObj ps, JObj fs =>
      forallb (fun kp => match assoc_get kp.1 fs with Some j' => has_shape kp.2 j' | None => false end) ps
  | _, _ => false
  end.

Lemma slot_shape d k v t :
  rr_slot d = Some (k, v) -> assoc_get k rrProto = Some t ->
  if multi_name k then exists p, proto t = JArr [p] /\ has_shape p v = true
  else has_shape (proto t) v = true.
Proof.
  destruct d; intros [= <- <-]; cbn; intros Ht; try done; injection Ht as <-; try done; by eexists.
Qed.

(** C28: What the server lists is what the forms of the UI expect: each property
    of a listed record set that is a record type of the UI has the form of the
    prototype of that type, an array of strings or of objects with all its
    fields, an object, or a string, with numbers where the prototype has them. *)
Theorem toJson_entry_typed e obj k j t :
  toJson_entry e = Some obj -> assoc_get k obj = Some j -> assoc_get k rrProto = Some t ->
  has_shape (proto t) j = true.
Proof.
  intros He Hk Ht. assert (Hm : meta_name k = false).
  { destruct (meta_name k) eqn:E; [|done]. unfold meta_name in E. apply orb_true_iff in E.
    by destruct E as [->%String.eqb_eq| ->%String.eqb_eq]. }
  apply (toJson_entry_inv _ _ _ _ He Hk) in Hm. apply listed_inv in Hm.
  destruct (multi_name k) eqn:Em.
  - destruct Hm as (vs & -> & Hne & Hf). destruct vs as [|v vs]; [done|].
    assert (Hs : Forall (fun v => exists p, proto t = JArr [p] /\ has_shape p v = true) (v :: vs)).
    { eapply Forall_impl; [exact Hf|]. intros w (r & _ & Hr). apply (slot_shape _ _ _ t) in Hr; [|done].
      by rewrite Em in Hr. }
    assert (Hp : exists p, proto t = JArr [p]) by (inversion Hs as [|? ? (p & ? & _)]; eauto).
    destruct Hp as [p Hp]. rewrite Hp. cbn [has_shape]. apply forallb_forall. intros w Hw%list_elem_of_In.
    rewrite Forall_forall in Hs. destruct (Hs w Hw) as (p' & Hp' & Hsh). congruence.
  - destruct Hm as (r & _ & Hr). apply (slot_shape _ _ _ t) in Hr; [|done]. by rewrite Em in Hr.
Qed.

(** What toJson makes of a record set without PTR records: the name and the
    TTL of the first record, under each array type all its records in their
    order, and under each other type the last record of that type. *)
Theorem toJson_entry_listed r e :
  Forall (fun r => listable r = true) (r :: e) ->
  exists obj, toJson_entry (r :: e) = Some obj /\ NoDup obj.*1 /\
    assoc_get "fqdn" obj = Some (JStr (labels r)) /\ assoc_get "ttl" obj = Some (jint (rr_ttl r)) /\
    forall k, meta_name k = false -> assoc_get k obj = listed k (r :: e).
Proof. apply toJson_entry_run. Qed.

(** A PTR record makes the JSON of its record set fail: after the record is
    added, the code of MX runs on it and throws. *)
Theorem toJson_entry_ptr e : Exists (fun r => listable r = false) e -> toJson_entry e = None.
Proof. intros H. destruct e as [|r e]; [by inversion H|]. by apply toJson_all_ptr. Qed.

Module JsonDemo.

Definition mixed : list rr :=
  [Rr "example.com" 300 (TYPE_SOA "ns1.example.com" "host\.master.example.com" 7 1 2 3 4);
   Rr "example.com" 300 (TYPE_NS "ns1.example.com");
   Rr "example.com" 300 (TYPE_MX "mail.example.com" 10);
   Rr "example.com" 300 (TYPE_NS "ns2.example.com")].

Definition mixed_json : object := default [] (toJson_entry mixed).

Lemma toJson_entry_typed_witness : has_shape (JArr [JObj [("host", JStr ""); ("priority", zero)]])
  (JArr [JObj [("host", JStr "mail.example.com"); ("priority", jint 10)]]) = true.
Proof. exact (toJson_entry_typed mixed mixed_json "mx" _ _ eq_refl eq_refl eq_refl). Defined.

Lemma toJson_entry_listed_witness :
  exists obj, toJson_entry mixed = Some obj /\ NoDup obj.*1 /\
    assoc_get "fqdn" obj = Some (JStr "example.com") /\ assoc_get "ttl" obj = Some (jint 300) /\
    forall k, meta_name k = false -> assoc_get k obj = listed k mixed.
Proof.
  refine (toJson_entry_listed (Rr "example.com" 300 _) _ _). repeat constructor.
Defined.

Lemma toJson_entry_ptr_witness : toJson_entry (Rr "a" 1 (TYPE_A "127.0.0.1") :: [Rr "a" 1 (TYPE_PTR "b")]) = None.
Proof. refine (toJson_entry_ptr _ _). apply Exists_cons_tl, Exists_cons_hd. reflexivity. Defined.
End JsonDemo.
