(* ===== verification/DnsName.v ===== *)
(** * Domain names on the wire

    detail::writeName and parseDomainNameSegment (include/nsblast/detail/
    write_labels.hpp) write a name as labels with their lengths; Labels
    (lib/DnsMessages.cpp) reads them back, here for names without compression
    pointers, which is how the rdata of a record holds them.  RrSoa::fromEmail
    turns a mail address into a name.

    Bytes are characters.  writeName runs twice for a name in rdata: without
    [commit] it measures ([writeName], [writeEmailName]), and with [commit] it
    writes into a buffer of that size ([writeName_in], [writeEmailName_in]),
    after a check that counts every dot.  Assertions are those of a release
    build, where they do nothing.  The counter [len] of parseDomainNameSegment is a char: a
    segment it cannot count has more than 63 characters and is refused either
    way.  The character 255 is looked up beyond the table of valid characters;
    it is taken as invalid. *)

From S2P Require Import Prelude JsNumber ServerUtil Qargs RrTypes RrJson.

(** ** Labels *)

Definition valid_char (c : ascii) : bool :=
  let n := nat_of_ascii c in
  (Nat.leb 48 n && Nat.leb n 57) || (Nat.leb 97 n && Nat.leb n 122) || (Nat.leb 65 n && Nat.leb n 90) ||
  Ascii.eqb c "-" || Ascii.eqb c ".".

(** The checks of one character of a segment: [first] when [len == 1]. *)
Definition char_ok (first : bool) (c : ascii) : bool :=
  if first && Ascii.eqb c "-" then false
  else (first && Ascii.eqb c "_") || valid_char c.

(** The characters of [name] before its first dot; [None] is an exception. *)
Fixpoint segment_len (first : bool) (name : string) : option nat :=
  match name with
  | EmptyString => Some 0
  | String c name' =>
      if Ascii.eqb c "." then Some 0
      else if char_ok first c then S <$> segment_len false name' else None
  end.

Definition parseDomainNameSegment (name : string) : option nat :=
  if String.eqb name "" then None else segment_len true name.

Fixpoint take_chars (n : nat) (s : string) : string :=
  match n, s with
  | S n', String c s' => String c (take_chars n' s')
  | _, _ => EmptyString
  end.

(** The lambda [save] of writeName. *)
Definition save_label (label : string) : option string :=
  if 63 <? String.length label then None
  else Some (String (ascii_of_nat (String.length label)) label).

(** The loop of writeName, and the root. *)
Fixpoint write_segments (fuel : nat) (segment : string) : option string :=
  match fuel with
  | O => None
  | S fuel' =>
      if String.eqb segment "" then Some (String "000" "")
      else
        len ← parseDomainNameSegment segment;
        label ← (if Nat.eqb len 0 then Some ""%string else save_label (take_chars len segment));
        rest ← write_segments fuel' (drop_chars (Nat.min (len + 1) (String.length segment)) segment);
        Some (label +:+ rest)
  end.

Definition writeName (fqdn : string) : option string :=
  if 256 <=? String.length fqdn + 2 then None
  else write_segments (S (String.length fqdn)) fqdn.

(** writeName with [commit], where [room] bytes are left in the buffer from
    the offset on: min_buffer_len counts the dots that are not written. *)
Definition writeName_in (room : nat) (fqdn : string) : option string :=
  if room <? String.length fqdn + 2 then None else writeName fqdn.

(** ** Names of mailboxes *)

(** parseDomainNameSegment with [email]: the length of the segment and
    [buffer].  [seen] is what has been read, [prev] the last character. *)
Fixpoint email_segment (name seen : string) (prev : ascii) (buffer : string) : option (nat * string) :=
  match name with
  | EmptyString => Some (String.length seen, buffer)
  | String c name' =>
      let seen' := seen +:+ String c "" in
      if Ascii.eqb prev "\" then
        if Ascii.eqb c "." then
          email_segment name' seen' c ((if String.eqb buffer "" then seen else buffer) +:+ String c "")
        else None
      else if Ascii.eqb c "\" then email_segment name' seen' c buffer
      else if Ascii.eqb c "." then Some (String.length seen, buffer)
      else if char_ok (String.eqb seen "") c then
        email_segment name' seen' c (if String.eqb buffer "" then "" else buffer +:+ String c "")
      else None
  end%string.

(** The mailbox, [email_segment] of writeName, and what follows its dot. *)
Definition email_split (fqdn : string) : option (string * string) :=
  if String.eqb fqdn "" then None
  else
    r ← email_segment fqdn "" "000" "";
    let '(slen, emailbuffer) := r in
    Some (if String.eqb emailbuffer "" then take_chars slen fqdn else emailbuffer,
          drop_chars (Nat.min (slen + 1) (String.length fqdn)) fqdn).

(** min_buffer_len with [email], from the offset on. *)
Definition email_size (email segment : string) : nat :=
  String.length email + String.length segment + 2 + (if String.eqb segment "" then 0 else 1).

(** writeName with [email]: the first label is the mailbox. *)
Definition writeEmailName (fqdn : string) : option string :=
  r ← email_split fqdn;
  let '(email, segment) := r in
  first ← save_label email;
  if 256 <=? email_size email segment then None
  else rest ← write_segments (S (String.length segment)) segment; Some (first +:+ rest).

(** writeName with [email] and [commit]. *)
Definition writeEmailName_in (room : nat) (fqdn : string) : option string :=
  r ← email_split fqdn;
  if room <? email_size r.1 r.2 then None else writeEmailName fqdn.

(** RrSoa::fromEmail; [None] for a second at sign. *)
Fixpoint fromEmail_from (seen_alpha : bool) (email : string) : option string :=
  match email with
  | EmptyString => Some EmptyString
  | String c email' =>
      if negb seen_alpha && Ascii.eqb c "." then String.app "\." <$> fromEmail_from seen_alpha email'
      else if negb seen_alpha && Ascii.eqb c "@" then String "." <$> fromEmail_from true email'
      else if Ascii.eqb c "@" then None
      else String c <$> fromEmail_from seen_alpha email'
  end.

Definition fromEmail (email : string) : option string := fromEmail_from false email.

Definition fromEmailIfEmail (rname : string) : option string :=
  if has_char "@" rname then fromEmail rname else Some rname.

(** ** Labels *)

(** Labels over the bytes at the start of [b]: the labels and what follows
    the root.  A length above 63 is a pointer or an error. *)
Fixpoint read_labels (fuel : nat) (b : string) : option (list string * string) :=
  match fuel, b with
  | O, _ | _, EmptyString => None
  | S fuel', String c b' =>
      let n := nat_of_ascii c in
      if Nat.eqb n 0 then Some ([], b')
      else if (63 <? n) || (String.length b' <? n) then None
      else r ← read_labels fuel' (drop_chars n b'); Some (take_chars n b' :: r.1, r.2)
  end.

(** Labels::string. *)
Definition join_labels (ls : list string) : string := join "." ls.

(** Labels::parse with its limit of 254 for the characters and dots of a name,
    then Labels::string. *)
Definition labels_string (b : string) : option (string * string) :=
  r ← read_labels (S (String.length b)) b;
  if 254 <? String.length (join_labels r.1) then None else Some (join_labels r.1, r.2).

(** ** What is written is read *)

Definition wire_label (l : string) : string := String (ascii_of_nat (String.length l)) l.

Fixpoint wire (ls : list string) : string :=
  match ls with
  | [] => String "000" ""
  | l :: ls' => wire_label l +:+ wire ls'
  end.

Definition label_size (l : string) : Prop := 1 <= String.length l <= 63.

(** A label that writeName accepts. *)
Definition label_ok (l : string) : Prop := label_size l /\ segment_len true l = Some (String.length l).

Lemma take_drop_chars (n : nat) (s : string) : take_chars n s +:+ drop_chars n s = s.
Proof.
  revert s. induction n as [|n IH]; intros s; [apply string_app_nil_l|].
  destruct s as [|c s]; [done|]. cbn [take_chars drop_chars]. by rewrite string_app_cons, IH.
Qed.

Lemma take_chars_app (a b : string) : take_chars (String.length a) (a +:+ b) = a.
Proof. induction a as [|c a IH]; [by destruct b|]. rewrite string_app_cons. cbn. by rewrite IH. Qed.

Lemma length_take_chars (n : nat) (s : string) : String.length (take_chars n s) = Nat.min n (String.length s).
Proof.
  revert s. induction n as [|n IH]; intros [|c s]; try done. cbn [take_chars String.length]. by rewrite IH.
Qed.

Lemma read_wire (fuel : nat) (ls : list string) (rest : string) :
  Forall label_size ls -> length ls < fuel -> read_labels fuel (wire ls +:+ rest) = Some (ls, rest).
Proof.
  intros Hls. revert fuel. induction Hls as [|l ls [H1 H2] _ IH]; intros fuel Hf;
    (destruct fuel as [|fuel]; [cbn in Hf; lia|]).
  - cbn [wire]. rewrite string_app_cons, string_app_nil_l. reflexivity.
  - cbn [wire]. unfold wire_label. rewrite !string_app_cons, string_app_assoc. cbn [read_labels].
    rewrite nat_ascii_embedding by lia.
    destruct (Nat.eqb_spec (String.length l) 0); [lia|].
    rewrite (proj2 (Nat.ltb_ge _ _)) by lia.
    rewrite (proj2 (Nat.ltb_ge _ _)) by (rewrite length_string_app; lia). cbn [orb].
    rewrite drop_chars_app, take_chars_app. cbn in Hf. by rewrite IH by lia.
Qed.

Lemma wire_length (ls : list string) : length ls < String.length (wire ls).
Proof.
  induction ls as [|l ls IH]; cbn [wire length]; [cbn; lia|].
  unfold wire_label. rewrite string_app_cons. cbn [String.length]. rewrite length_string_app. lia.
Qed.

Lemma labels_string_wire (ls : list string) (rest : string) :
  Forall label_size ls -> String.length (join_labels ls) <= 254 ->
  labels_string (wire ls +:+ rest) = Some (join_labels ls, rest).
Proof.
  intros Hls Hlen. unfold labels_string. rewrite read_wire; [|done|].
  - cbn -[Nat.ltb join_labels]. by rewrite (proj2 (Nat.ltb_ge _ _)) by done.
  - rewrite length_string_app. assert (Hw := wire_length ls). lia.
Qed.

(** The labels of a name: the pieces between dots that are not empty. *)
Definition name_labels (s : string) : list string :=
  List.filter (fun l => negb (String.eqb l "")) (split_on "." s).

Lemma segment_split (first : bool) (s : string) (n : nat) :
  segment_len first s = Some n ->
  n <= String.length s /\
  exists rest, split_on "." s = take_chars n s :: rest /\
    (if Nat.eqb n (String.length s) then rest = []
     else rest = split_on "." (drop_chars (S n) s)).
Proof.
  revert first n. induction s as [|c s IH]; intros first n H; [by injection H as <-; split; [lia|exists []]|].
  cbn [segment_len] in H. cbn [split_on].
  destruct (Ascii.eqb_spec c ".") as [->|Hc].
  { injection H as <-. split; [lia|]. cbn. by eexists. }
  destruct (char_ok first c); [|done]. apply fmap_Some in H as (m & Hm & ->).
  destruct (IH _ _ Hm) as (Hle & rest & -> & Hr). cbn [String.length]. split; [lia|].
  exists rest. split; [done|]. exact Hr.
Qed.

Lemma segment_len_take (first : bool) (s : string) (n : nat) :
  segment_len first s = Some n -> segment_len first (take_chars n s) = Some n.
Proof.
  revert first n. induction s as [|c s IH]; intros first n H; cbn [segment_len] in H; [by injection H as <-|].
  destruct (Ascii.eqb c ".") eqn:Ec; [by injection H as <-|].
  destruct (char_ok first c) eqn:Ek; [|done]. apply fmap_Some in H as (m & Hm & ->).
  cbn [take_chars segment_len]. by rewrite Ec, Ek, (IH _ _ Hm).
Qed.

Lemma segment_len_app (first : bool) (l s : string) :
  segment_len first l = Some (String.length l) ->
  segment_len first (l +:+ String "." s) = Some (String.length l).
Proof.
  revert first. induction l as [|c l IH]; intros first H; [done|]. rewrite string_app_cons.
  cbn [segment_len String.length] in *. destruct (Ascii.eqb c "."); [done|].
  destruct (char_ok first c); [|done]. apply fmap_Some in H as (m & Hm & [= <-]). by rewrite (IH _ Hm).
Qed.

Lemma drop_chars_all (n : nat) (s : string) : String.length s <= n -> drop_chars n s = ""%string.
Proof. revert s. induction n as [|n IH]; intros [|c s] H; cbn in *; try done; [lia|]. apply IH. lia. Qed.

Lemma length_drop_chars (n : nat) (s : string) : String.length (drop_chars n s) = String.length s - n.
Proof. revert s. induction n as [|n IH]; intros [|c s]; cbn [drop_chars String.length Nat.sub]; auto. Qed.

(** The first label of a name and the name after its dot. *)
Lemma name_labels_step (first : bool) (s : string) (n : nat) :
  segment_len first s = Some n -> s <> ""%string ->
  name_labels s = (if Nat.eqb n 0 then [] else [take_chars n s]) ++
                  name_labels (drop_chars (Nat.min (n + 1) (String.length s)) s).
Proof.
  intros Hn Hs. destruct (segment_split _ _ _ Hn) as (Hle & rest & E & Hr). unfold name_labels at 1.
  rewrite E. cbn [List.filter].
  assert (Hne : String.eqb (take_chars n s) "" = Nat.eqb n 0).
  { destruct s as [|c s]; [done|]. by destruct n. }
  rewrite Hne. destruct (Nat.eqb_spec n (String.length s)) as [->|Hlt].
  - rewrite drop_chars_all by lia. rewrite Hr. by destruct (Nat.eqb _ 0).
  - replace (Nat.min (n + 1) (String.length s)) with (S n) by lia. rewrite Hr.
    by destruct (Nat.eqb n 0).
Qed.

Lemma write_segments_wire (fuel : nat) (s b : string) :
  write_segments fuel s = Some b -> String.length s < fuel ->
  b = wire (name_labels s) /\ Forall label_ok (name_labels s).
Proof.
  revert s b. induction fuel as [|fuel IH]; intros s b H Hf; [lia|].
  cbn [write_segments] in H. destruct (String.eqb_spec s "") as [->|Hs].
  { by injection H as <-. }
  apply bind_Some in H as (n & Hn & H). apply bind_Some in H as (l & Hl & H).
  apply bind_Some in H as (r & Hr & H). injection H as <-.
  unfold parseDomainNameSegment in Hn. apply String.eqb_neq in Hs as Hs'. rewrite Hs' in Hn.
  apply IH in Hr as [-> Hall].
  2: { rewrite length_drop_chars. destruct s; [done|]. cbn in *. lia. }
  rewrite (name_labels_step _ _ _ Hn Hs). destruct (Nat.eqb_spec n 0) as [->|Hn0].
  - injection Hl as <-. by rewrite string_app_nil_l.
  - unfold save_label in Hl. destruct (Nat.ltb_spec 63 (String.length (take_chars n s))); [done|].
    injection Hl as <-. split; [done|]. constructor; [|done].
    assert (Hle := proj1 (segment_split _ _ _ Hn)).
    assert (Hlen : String.length (take_chars n s) = n) by (rewrite length_take_chars; lia).
    split; [unfold label_size; lia|]. rewrite Hlen. by apply segment_len_take.
Qed.

Lemma labels_ok_size (ls : list string) : Forall label_ok ls -> Forall label_size ls.
Proof. intros H. eapply Forall_impl; [exact H|]. by intros l []. Qed.

Lemma join_cons (l : string) (ls : list string) :
  join_labels (l :: ls) = l +:+ (if bool_decide (ls = []) then "" else String "." (join_labels ls)).
Proof. destruct ls; cbn; [by rewrite string_app_nil_r|by rewrite string_app_cons, string_app_nil_l]. Qed.

Lemma join_split (s : string) : join_labels (split_on "." s) = s.
Proof.
  induction s as [|c s IH]; [done|]. cbn [split_on]. destruct (Ascii.eqb_spec c ".") as [->|Hc].
  - rewrite join_cons, IH, string_app_nil_l. rewrite bool_decide_eq_false_2; [done|].
    destruct s as [|d s]; [done|]. cbn [split_on]. destruct (Ascii.eqb d "."); [done|]. by destruct (split_on _ s).
  - rewrite <- IH at 2. destruct (split_on "." s) as [|p ps]; [done|]. rewrite !join_cons. by rewrite string_app_cons.
Qed.

Lemma join_filter_length (ls : list string) :
  String.length (join_labels (List.filter (fun l => negb (String.eqb l "")) ls)) <= String.length (join_labels ls).
Proof.
  induction ls as [|l ls IH]; [done|]. cbn [List.filter]. rewrite join_cons, length_string_app.
  assert (Hd : ls = [] -> List.filter (fun l => negb (String.eqb l "")) ls = []) by by intros ->.
  case_bool_decide as Hls; destruct (String.eqb_spec l "") as [->|]; cbn [negb].
  - rewrite Hd by done. cbn. lia.
  - rewrite Hd by done. cbn. lia.
  - cbn [String.length] in *. lia.
  - rewrite join_cons, length_string_app. case_bool_decide; cbn [String.length]; lia.
Qed.

(** A name without its empty labels is not longer. *)
Lemma name_labels_length (s : string) : String.length (join_labels (name_labels s)) <= String.length s.
Proof. rewrite <- (join_split s) at 2. apply join_filter_length. Qed.

(** The text that Labels gives back for a name. *)
Definition name_text (s : string) : string := join_labels (name_labels s).

(** A name that writeName accepts is read back by Labels as it was written,
    less its empty labels (a dot at either end, or next to another), whatever
    follows it in the record. *)
Theorem writeName_roundtrip (s b rest : string) :
  writeName s = Some b -> labels_string (b +:+ rest) = Some (name_text s, rest).
Proof.
  unfold writeName. destruct (Nat.leb_spec 256 (String.length s + 2)); [done|]. intros Hw.
  destruct (write_segments_wire _ _ _ Hw) as [-> Hall]; [lia|].
  apply labels_string_wire; [by apply labels_ok_size|]. assert (Hl := name_labels_length s). lia.
Qed.

(** Labels that are accepted are written. *)
Lemma write_labels_wire (ls : list string) (fuel : nat) :
  Forall label_ok ls -> String.length (join_labels ls) < fuel ->
  write_segments fuel (join_labels ls) = Some (wire ls).
Proof.
  intros Hls. revert fuel. induction Hls as [|l ls [Hs Hl] _ IH]; intros fuel Hf; (destruct fuel as [|fuel]; [lia|]);
    [done|].
  assert (Hne : l <> ""%string) by (intros ->; unfold label_size in Hs; cbn in Hs; lia).
  rewrite join_cons in Hf |- *. rewrite length_string_app in Hf.
  assert (Hl0 : 1 <= String.length l <= fuel) by (unfold label_size in Hs; lia).
  cbn [write_segments]. unfold parseDomainNameSegment.
  assert (Hjn : String.eqb (l +:+ (if bool_decide (ls = []) then "" else String "." (join_labels ls))) "" = false)
    by by destruct l.
  rewrite Hjn.
  assert (Hn : segment_len true (l +:+ (if bool_decide (ls = []) then "" else String "." (join_labels ls)))
               = Some (String.length l)).
  { case_bool_decide; [by rewrite string_app_nil_r|by apply segment_len_app]. }
  rewrite Hn. cbn [mbind option_bind]. rewrite take_chars_app.
  destruct (Nat.eqb_spec (String.length l) 0) as [E|_]; [by destruct l|].
  unfold save_label. unfold label_size in Hs. rewrite (proj2 (Nat.ltb_ge _ _)) by lia. cbn [mbind option_bind].
  rewrite length_string_app. case_bool_decide as Hnil.
  - subst ls. rewrite string_app_nil_r. cbn [String.length]. rewrite Nat.add_0_r, drop_chars_all by lia.
    destruct fuel; [lia|]. done.
  - cbn [String.length] in *. replace (Nat.min _ _) with (S (String.length l)) by lia.
    replace (l +:+ String "." (join_labels ls)) with ((l +:+ ".") +:+ join_labels ls)
      by by rewrite string_app_assoc, string_app_cons, string_app_nil_l.
    replace (S (String.length l)) with (String.length (l +:+ ".")) by (rewrite length_string_app; cbn; lia).
    rewrite drop_chars_app, IH by lia. done.
Qed.

Lemma writeName_labels (s b : string) :
  writeName s = Some b ->
  b = wire (name_labels s) /\ Forall label_ok (name_labels s) /\ String.length s <= 253.
Proof.
  unfold writeName. destruct (Nat.leb_spec 256 (String.length s + 2)); [done|]. intros Hw.
  destruct (write_segments_wire _ _ _ Hw) as [-> Hall]; [lia|]. split_and!; [done|done|lia].
Qed.

Lemma label_no_dot (first : bool) (l : string) :
  segment_len first l = Some (String.length l) -> has_char "." l = false.
Proof.
  revert first. induction l as [|c l IH]; intros first H; [done|]. cbn [segment_len String.length has_char] in *.
  destruct (Ascii.eqb c "."); [done|]. destruct (char_ok first c); [|done].
  apply fmap_Some in H as (m & Hm & [= <-]). exact (IH _ Hm).
Qed.

Lemma name_labels_join (ls : list string) : Forall label_ok ls -> name_labels (join_labels ls) = ls.
Proof.
  intros Hls. destruct (decide (ls = [])) as [->|Hne]; [done|]. unfold name_labels, join_labels.
  rewrite split_on_join; [|done|].
  - clear Hne. induction Hls as [|l ls [Hs _] _ IH]; [done|]. cbn [List.filter].
    destruct (String.eqb_spec l "") as [->|]; [unfold label_size in Hs; cbn in Hs; lia|]. cbn [negb]. by rewrite IH.
  - eapply Forall_impl; [exact Hls|]. intros l [_ Hl]. by eapply label_no_dot.
Qed.

(** What is read back is written the same way. *)
Lemma writeName_text (s b : string) : writeName s = Some b -> writeName (name_text s) = Some b.
Proof.
  intros Hw. destruct (writeName_labels s b Hw) as (-> & Hall & Hlen). unfold writeName.
  assert (Hl := name_labels_length s). fold (name_text s) in Hl. rewrite (proj2 (Nat.leb_gt _ _)) by lia.
  unfold name_text. apply write_labels_wire; [done|]. unfold name_text in Hl. lia.
Qed.

Lemma name_text_idem (s b : string) : writeName s = Some b -> name_text (name_text s) = name_text s.
Proof.
  intros Hw. destruct (writeName_labels s b Hw) as (_ & Hall & _).
  unfold name_text. by rewrite name_labels_join.
Qed.

Lemma split_on_some (c : ascii) (s : string) : split_on c s <> [].
Proof. destruct s as [|x s]; [done|]. cbn [split_on]. destruct (Ascii.eqb x c); [done|]. by destruct (split_on c s). Qed.

(** A name without empty labels does not end in a dot. *)
Lemma split_on_snoc (c : ascii) (s : string) : split_on c (s +:+ String c "") = split_on c s ++ [""%string].
Proof.
  induction s as [|x s IH]; [rewrite string_app_nil_l; cbn [split_on]; by rewrite Ascii.eqb_refl|].
  rewrite string_app_cons. cbn [split_on].
  destruct (Ascii.eqb x c); [by rewrite IH|]. rewrite IH.
  destruct (split_on c s) as [|p ps] eqn:E; [by apply split_on_some in E|done].
Qed.

Lemma name_text_no_dot (s : string) : name_text (s +:+ ".") <> s +:+ ".".
Proof.
  unfold name_text, name_labels. rewrite split_on_snoc, List.filter_app. cbn [List.filter]. rewrite app_nil_r.
  intros H. apply (f_equal String.length) in H. assert (Hl := name_labels_length s). unfold name_labels in Hl.
  rewrite length_string_app in H. cbn in H. cbn in Hl. lia.
Qed.

(** ** Names that are valid in a query *)

Lemma char_ok_label (first : bool) (c : ascii) :
  Ascii.eqb c "." = false -> char_ok first c = if first then label_first c else label_rest c.
Proof. destruct first, c as [[] [] [] [] [] [] [] []]; done. Qed.

(** A label with a good character at each place. *)
Definition label_chars (first : bool) (l : string) : Prop :=
  segment_len first l = Some (String.length l) /\ (first = true -> l <> ""%string).

Lemma scan_split (first : bool) (s p : string) (ps : list string) :
  split_on "." s = p :: ps ->
  fqdn_scan first s = true <-> label_chars first p /\ Forall (label_chars true) ps.
Proof.
  unfold label_chars. revert first p ps. induction s as [|c s IH]; intros first p ps E.
  - injection E as <- <-. cbn. destruct first; cbn; naive_solver.
  - cbn [split_on] in E. cbn [fqdn_scan]. destruct (Ascii.eqb_spec c ".") as [->|Hc].
    + injection E as <- <-. destruct first; [cbn; naive_solver|].
      destruct (split_on "." s) as [|q qs] eqn:Es; [by apply split_on_some in Es|].
      rewrite (IH true q qs eq_refl), Forall_cons. cbn. naive_solver.
    + apply Ascii.eqb_neq in Hc.
      destruct (split_on "." s) as [|q qs] eqn:Es; [by apply split_on_some in Es|].
      injection E as <- <-. cbn [segment_len String.length]. rewrite Hc, (char_ok_label first c Hc).
      assert (Hq : (S <$> segment_len false q = Some (S (String.length q))) <-> segment_len false q = Some (String.length q)).
      { destruct (segment_len false q); cbn; split; congruence. }
      destruct first; [destruct (label_first c)|destruct (label_rest c)]; cbn [andb]; try (split; [done|]; naive_solver);
        rewrite (IH false q qs eq_refl), Hq; naive_solver.
Qed.

Lemma validateFqdn_labels (s : string) :
  validateFqdn s = true <-> Forall (label_chars true) (split_on "." s).
Proof.
  unfold validateFqdn. destruct (split_on "." s) as [|p ps] eqn:E; [by apply split_on_some in E|].
  by rewrite (scan_split true s p ps E), Forall_cons.
Qed.

Lemma written_valid (s : string) :
  s <> ""%string -> is_Some (writeName s) /\ name_text s = s ->
  validateFqdn s = true /\ Forall (fun l => String.length l <= 63) (split_on "." s) /\ String.length s <= 253.
Proof.
  intros Hs [[b Hb] Ht]. rewrite validateFqdn_labels. destruct (writeName_labels s b Hb) as (_ & Hall & Hlen).
  assert (E : split_on "." s = name_labels s).
  { rewrite <- Ht at 1. unfold name_text, join_labels. apply split_on_join.
    - intros E. unfold name_text in Ht. rewrite E in Ht. by rewrite <- Ht in Hs.
    - eapply Forall_impl; [exact Hall|]. intros l [_ Hl]. by eapply label_no_dot. }
  rewrite E. split_and!; [| |done]; (eapply Forall_impl; [exact Hall|]); intros l [[H1 H2] H3]; [|done].
  split; [done|]. intros _ ->. cbn in H1. lia.
Qed.

(** The names that storage holds as they are, are the names that the list
    takes as a position: writeName accepts a name and gives it back unchanged
    exactly if validateFqdn accepts it, its labels have at most 63 characters
    and it has at most 253. *)
Theorem writeName_validateFqdn (s : string) :
  s <> ""%string ->
  (is_Some (writeName s) /\ name_text s = s) <->
  validateFqdn s = true /\ Forall (fun l => String.length l <= 63) (split_on "." s) /\ String.length s <= 253.
Proof.
  intros Hs. split; [by apply written_valid|]. rewrite validateFqdn_labels.
  intros (Hv & H63 & Hlen).
  assert (Hall : Forall label_ok (split_on "." s)).
  { apply Forall_forall. intros l Hl. rewrite Forall_forall in Hv, H63. destruct (Hv l Hl) as [H1 H2]. split; [|done].
    split; [|by apply H63]. specialize (H2 eq_refl). destruct l; [done|cbn; lia]. }
  assert (E : name_labels s = split_on "." s).
  { unfold name_labels. clear -Hall. induction Hall as [|l ls [[Hl _] _] _ IH]; [done|]. cbn [List.filter].
    destruct (String.eqb_spec l "") as [->|]; [cbn in Hl; lia|]. cbn [negb]. by rewrite IH. }
  assert (Ht : name_text s = s) by (unfold name_text, join_labels; rewrite E; apply join_split).
  split; [|done]. unfold writeName. rewrite (proj2 (Nat.leb_gt _ _)) by lia. exists (wire (name_labels s)).
  rewrite <- Ht at 2. apply write_labels_wire; [by rewrite E|]. fold (name_text s). rewrite Ht. lia.
Qed.

(** ** Mail addresses *)

(** A part of a mailbox between dots: it can be a label, and it can follow a
    dot. *)
Definition mail_part (p : string) : bool :=
  none_of (fun c => negb (valid_char c) || Ascii.eqb c ".") p && negb (String.eqb p "").

(** The mailbox as fromEmail writes it. *)
Fixpoint escape_dots (s : string) : string :=
  match s with
  | EmptyString => EmptyString
  | String c s' => if Ascii.eqb c "." then "\." +:+ escape_dots s' else String c (escape_dots s')
  end.

Lemma fromEmail_at (local dom : string) :
  has_char "@" local = false -> has_char "@" dom = false ->
  fromEmail (local +:+ String "@" dom) = Some (escape_dots local +:+ String "." dom).
Proof.
  intros Hl Hd. unfold fromEmail.
  assert (Hdom : fromEmail_from true dom = Some dom).
  { clear Hl local. induction dom as [|c dom IH]; [done|]. cbn [has_char] in Hd. apply orb_false_iff in Hd as [Hc Hd].
    cbn [fromEmail_from negb andb]. rewrite Hc. by rewrite IH. }
  induction local as [|c local IH]; [rewrite string_app_nil_l; cbn; by rewrite Hdom|].
  cbn [has_char] in Hl. apply orb_false_iff in Hl as [Hc Hl]. rewrite string_app_cons.
  cbn [fromEmail_from negb andb escape_dots]. rewrite Hc, IH by done.
  destruct (Ascii.eqb c "."); cbn [fmap option_fmap option_map]; [|by rewrite string_app_cons].
  by rewrite string_app_assoc.
Qed.

Lemma valid_not_escape c : valid_char c = true -> Ascii.eqb c "\" = false /\ Ascii.eqb c "@" = false.
Proof.
  intros H. split; [destruct (Ascii.eqb_spec c "\") as [->|]|destruct (Ascii.eqb_spec c "@") as [->|]];
    try done; discriminate H.
Qed.

(** Reading a mailbox once [buffer] is in use: the backslashes are dropped. *)
Lemma email_segment_buffered (r dom seen buffer : string) (prev : ascii) :
  none_of (fun c => negb (valid_char c)) r = true -> Ascii.eqb prev "\" = false -> buffer <> ""%string ->
  seen <> ""%string ->
  email_segment (escape_dots r +:+ String "." dom) seen prev buffer
  = Some (String.length seen + String.length (escape_dots r), buffer +:+ r).
Proof.
  revert seen buffer prev. induction r as [|c r IH]; intros seen buffer prev Hr Hp Hb Hs.
  - cbn [escape_dots]. rewrite string_app_nil_l. cbn [email_segment]. rewrite Hp. cbn.
    by rewrite Nat.add_0_r, string_app_nil_r.
  - cbn [none_of] in Hr. apply andb_true_iff in Hr as [Hc Hr]. rewrite negb_involutive in Hc.
    destruct (valid_not_escape c Hc) as [He _]. cbn [escape_dots].
    assert (Hb' : forall t, buffer +:+ t <> ""%string) by (intros t; by destruct buffer).
    assert (Hs' : forall t, seen +:+ t <> ""%string) by (intros t; by destruct seen).
    destruct (Ascii.eqb_spec c ".") as [->|Hdot].
    + rewrite !string_app_cons, string_app_nil_l. cbn [email_segment]. rewrite Hp. cbn [Ascii.eqb Bool.eqb].
      apply String.eqb_neq in Hb as Hb0. rewrite Hb0, IH by (done || apply Hb' || by destruct seen).
      rewrite !string_app_assoc, !length_string_app. cbn. f_equal. f_equal. lia.
    + rewrite string_app_cons. cbn [email_segment]. rewrite Hp, He. apply Ascii.eqb_neq in Hdot as ->.
      assert (Hk : char_ok (String.eqb seen "") c = true).
      { unfold char_ok. apply String.eqb_neq in Hs as ->. by rewrite Hc. }
      rewrite Hk. apply String.eqb_neq in Hb as Hb0. rewrite Hb0, IH by (done || apply Hb' || apply Hs').
      rewrite string_app_assoc, !length_string_app. cbn. f_equal. f_equal. lia.
Qed.

Definition no_dash (a : string) : bool :=
  match a with String c _ => negb (Ascii.eqb c "-") | EmptyString => true end.

(** Reading the plain start of a mailbox. *)
Lemma email_segment_plain (a t seen : string) (prev : ascii) :
  none_of (fun c => negb (valid_char c) || Ascii.eqb c ".") a = true ->
  Ascii.eqb prev "\" = false -> String.eqb seen "" && negb (no_dash a) = false ->
  exists prev', Ascii.eqb prev' "\" = false /\
    email_segment (a +:+ t) seen prev "" = email_segment t (seen +:+ a) prev' "".
Proof.
  revert seen prev. induction a as [|c a IH]; intros seen prev Ha Hp Hd.
  - exists prev. by rewrite string_app_nil_l, string_app_nil_r.
  - cbn [none_of] in Ha. apply andb_true_iff in Ha as [Hc Ha].
    apply negb_true_iff, orb_false_iff in Hc as [Hc Hdot]. apply negb_false_iff in Hc.
    destruct (valid_not_escape c Hc) as [He _].
    destruct (IH (seen +:+ String c "") c Ha He) as (prev' & Hp' & E); [by destruct seen|].
    exists prev'. split; [done|]. rewrite string_app_cons. cbn [email_segment]. rewrite Hp, He, Hdot.
    assert (Hk : char_ok (String.eqb seen "") c = true).
    { unfold char_ok. cbn [no_dash] in Hd. rewrite Hc, orb_true_r. destruct (String.eqb seen ""); [|done].
      cbn [andb] in *. apply negb_false_iff in Hd. apply negb_true_iff in Hd. by rewrite Hd. }
    rewrite Hk. change (String.eqb "" "") with true. cbn iota. rewrite E.
    by rewrite string_app_assoc, string_app_cons, string_app_nil_l.
Qed.

Lemma escape_plain (a r : string) :
  has_char "." a = false -> escape_dots (a +:+ r) = a +:+ escape_dots r.
Proof.
  induction a as [|c a IH]; intros H; [done|]. cbn [has_char] in H. apply orb_false_iff in H as [Hc H].
  rewrite !string_app_cons. cbn [escape_dots]. by rewrite Hc, IH.
Qed.

Lemma part_no_dot (p : string) :
  none_of (fun c => negb (valid_char c) || Ascii.eqb c ".") p = true ->
  has_char "." p = false /\ has_char "@" p = false /\ has_char "\" p = false /\
  none_of (fun c => negb (valid_char c)) p = true.
Proof.
  induction p as [|c p IH]; [done|]. cbn [none_of has_char]. rewrite andb_true_iff. intros [Hc Hp].
  destruct (IH Hp) as (-> & -> & -> & ->). apply negb_true_iff, orb_false_iff in Hc as [Hc ->].
  apply negb_false_iff in Hc. destruct (valid_not_escape c Hc) as [-> ->]. by rewrite Hc.
Qed.

(** What a mail address is shown as, once it is stored as a name. *)
Definition stored_email (email : string) : option string :=
  n ← fromEmail email; b ← writeEmailName n; r ← labels_string b; Some (ToEmail r.1).

Lemma email_stored (local dom buffer b : string) :
  has_char "@" local = false -> has_char "@" dom = false ->
  email_segment (escape_dots local +:+ String "." dom) "" "000" ""
  = Some (String.length (escape_dots local), buffer) ->
  writeName dom = Some b -> name_text dom = dom -> dom <> ""%string ->
  let label := if String.eqb buffer "" then escape_dots local else buffer in
  label_size label -> String.length label + String.length dom <= 252 ->
  stored_email (local +:+ String "@" dom) = Some (ToEmail (label +:+ String "." dom)).
Proof.
  intros Hl Hd Hseg Hw Ht Hne label Hlab Hlen. unfold stored_email. rewrite fromEmail_at by done.
  cbn [mbind option_bind]. unfold writeEmailName, email_split.
  assert (Hn : String.eqb (escape_dots local +:+ String "." dom) "" = false) by by destruct (escape_dots local).
  rewrite Hn, Hseg. cbn [mbind option_bind].
  assert (Htk : (if String.eqb buffer "" then take_chars (String.length (escape_dots local))
                    (escape_dots local +:+ String "." dom) else buffer) = label).
  { subst label. rewrite take_chars_app. by destruct (String.eqb buffer ""). }
  rewrite Htk. rewrite length_string_app. cbn [String.length].
  replace (Nat.min _ _) with (S (String.length (escape_dots local))) by lia.
  replace (drop_chars (S (String.length (escape_dots local))) (escape_dots local +:+ String "." dom)) with dom.
  2: { replace (escape_dots local +:+ String "." dom) with ((escape_dots local +:+ ".") +:+ dom)
         by by rewrite string_app_assoc, string_app_cons, string_app_nil_l.
       replace (S (String.length (escape_dots local))) with (String.length (escape_dots local +:+ "."))
         by (rewrite length_string_app; cbn; lia).
       by rewrite drop_chars_app. }
  unfold save_label. unfold label_size in Hlab. rewrite (proj2 (Nat.ltb_ge _ _)) by lia. cbn [mbind option_bind].
  unfold email_size. apply String.eqb_neq in Hne as Hne'. rewrite Hne'. rewrite (proj2 (Nat.leb_gt _ _)) by lia.
  destruct (writeName_labels _ _ Hw) as (Eb & Hall & _).
  assert (Hws : write_segments (S (String.length dom)) dom = Some b).
  { unfold writeName in Hw. by destruct (256 <=? String.length dom + 2). }
  rewrite Hws. cbn [mbind option_bind]. rewrite Eb.
  change (String (ascii_of_nat (String.length label)) label +:+ wire (name_labels dom))
    with (wire (label :: name_labels dom)).
  assert (Hj : join_labels (label :: name_labels dom) = label +:+ String "." dom).
  { rewrite join_cons. fold (name_text dom). rewrite Ht. case_bool_decide as Hnil; [|done].
    unfold name_text in Ht. rewrite Hnil in Ht. by rewrite <- Ht in Hne. }
  rewrite <- (string_app_nil_r (wire _)), labels_string_wire.
  - cbn [mbind option_bind fst]. by rewrite Hj.
  - constructor; [done|by apply labels_ok_size].
  - rewrite Hj, length_string_app. cbn [String.length]. lia.
Qed.

(** A mailbox that was written is read from its own bytes. *)
Lemma writeEmailName_reads (fqdn b : string) :
  writeEmailName fqdn = Some b -> exists r t, forall rest, labels_string (b +:+ rest) = Some (r, t +:+ rest).
Proof.
  unfold writeEmailName. destruct (email_split fqdn) as [[email segment]|]; [|done]. cbn [mbind option_bind].
  unfold save_label. destruct (Nat.ltb_spec 63 (String.length email)) as [|H63]; [done|]. cbn [mbind option_bind].
  destruct (Nat.leb_spec 256 (email_size email segment)) as [|Hlen]; [done|]. unfold email_size in Hlen.
  destruct (write_segments (S (String.length segment)) segment) as [w|] eqn:Ew; [|done]. intros [= <-].
  destruct (write_segments_wire _ _ _ Ew) as [-> Hall]; [lia|].
  destruct (decide (email = ""%string)) as [->|Hne].
  - exists ""%string, (wire (name_labels segment)). intros rest. by rewrite !string_app_cons, string_app_nil_l.
  - exists (join_labels (email :: name_labels segment)), ""%string. intros rest. rewrite string_app_nil_l.
    change (String (ascii_of_nat (String.length email)) email +:+ wire (name_labels segment))
      with (wire (email :: name_labels segment)).
    apply labels_string_wire.
    + constructor; [|by apply labels_ok_size]. unfold label_size. destruct email; [done|]. cbn in *. lia.
    + rewrite join_cons, length_string_app. assert (Hn := name_labels_length segment).
      case_bool_decide as Hnil; cbn [String.length]; [lia|].
      destruct (String.eqb_spec segment "") as [->|_]; [by destruct Hnil|]. lia.
Qed.

(** ** Names that fill their room

    A name of the rdata of a record has exactly the room that was measured:
    one that is read back as it was written, and is not empty, fits. *)

Definition rdata_name (s : string) : Prop := s <> ""%string /\ name_text s = s /\ is_Some (writeName s).

Lemma wire_size (ls : list string) :
  ls <> [] -> Forall label_size ls -> String.length (wire ls) = String.length (join_labels ls) + 2.
Proof.
  intros Hne Hls. induction Hls as [|l ls Hl Hls IH]; [done|]. cbn [wire]. unfold wire_label.
  rewrite string_app_cons, join_cons. cbn [String.length]. rewrite !length_string_app.
  case_bool_decide as E; [subst ls; cbn; lia|]. rewrite IH by done. cbn [String.length]. lia.
Qed.

Lemma rdata_name_labels (s : string) : rdata_name s -> name_labels s <> [].
Proof. intros (Hne & Ht & _) E. unfold name_text in Ht. rewrite E in Ht. by rewrite <- Ht in Hne. Qed.

Lemma rdata_name_size (s b : string) : rdata_name s -> writeName s = Some b -> String.length b = String.length s + 2.
Proof.
  intros Hs Hb. assert (Hl := rdata_name_labels s Hs). destruct Hs as (_ & Ht & _).
  destruct (writeName_labels _ _ Hb) as (-> & Hall & _). rewrite wire_size by (done || by apply labels_ok_size).
  fold (name_text s). by rewrite Ht.
Qed.

Lemma writeName_in_some (room : nat) (s b : string) : writeName_in room s = Some b -> writeName s = Some b.
Proof. unfold writeName_in. by destruct (room <? _). Qed.

Lemma writeName_in_room (room : nat) (s : string) : String.length s + 2 <= room -> writeName_in room s = writeName s.
Proof. intros H. unfold writeName_in. by rewrite (proj2 (Nat.ltb_ge _ _)). Qed.

Lemma writeName_in_fits (s b : string) :
  rdata_name s -> writeName s = Some b -> writeName_in (String.length b) s = Some b.
Proof. intros Hs Hb. rewrite writeName_in_room; [done|]. by rewrite (rdata_name_size s b). Qed.

(** A name of the rdata with a dot at its end is refused. *)
Lemma writeName_in_dot (s b : string) :
  rdata_name s -> writeName (s +:+ ".") = Some b -> writeName_in (String.length b) (s +:+ ".") = None.
Proof.
  intros Hs Hb. destruct (writeName_labels _ _ Hb) as (-> & Hall & _). unfold writeName_in.
  rewrite (proj2 (Nat.ltb_lt _ _)); [done|].
  assert (E : name_labels (s +:+ ".") = name_labels s).
  { unfold name_labels. change "."%string with (String "." ""). rewrite split_on_snoc, List.filter_app. apply app_nil_r. }
  rewrite E in *. assert (Hl := rdata_name_labels s Hs). rewrite wire_size by (done || by apply labels_ok_size).
  fold (name_text s). destruct Hs as (_ & Ht & _). rewrite Ht, length_string_app. cbn. lia.
Qed.

Lemma writeEmailName_in_some (room : nat) (s b : string) : writeEmailName_in room s = Some b -> writeEmailName s = Some b.
Proof. unfold writeEmailName_in. destruct (email_split s); [|done]. cbn [mbind option_bind]. by destruct (room <? _). Qed.

(** A mailbox label of plain characters, with at most one escaped dot. *)
Definition mailbox (l : string) : Prop :=
  label_size l /\
  (segment_len true l = Some (String.length l) \/
   exists x y, l = x +:+ "\." +:+ y /\ segment_len true x = Some (String.length x) /\
               segment_len false y = Some (String.length y)).

(** The names of mailboxes that come back as they are. *)
Definition mail_name (s : string) : Prop :=
  exists l, mailbox l /\
    (s = l \/ exists d, s = l +:+ String "." d /\ rdata_name d /\ String.length s <= 253).

Lemma string_eqb_app_nil (a b : string) : String.eqb (a +:+ b) "" = String.eqb a "" && String.eqb b "".
Proof. by destruct a. Qed.

(** Reading plain characters, at the start of a mailbox or later. *)
Lemma email_segment_label (a t seen buffer : string) (prev : ascii) :
  segment_len (String.eqb seen "") a = Some (String.length a) -> Ascii.eqb prev "\" = false ->
  exists prev', Ascii.eqb prev' "\" = false /\
    email_segment (a +:+ t) seen prev buffer
    = email_segment t (seen +:+ a) prev' (if String.eqb buffer "" then "" else buffer +:+ a).
Proof.
  revert seen buffer prev. induction a as [|c a IH]; intros seen buffer prev Ha Hp.
  - exists prev. rewrite !string_app_nil_r, string_app_nil_l. by destruct (String.eqb_spec buffer "") as [->|].
  - cbn [segment_len String.length] in Ha. destruct (Ascii.eqb c ".") eqn:Ed; [done|].
    destruct (char_ok (String.eqb seen "") c) eqn:Ek; [|done]. apply fmap_Some in Ha as (n & Hn & [= <-]).
    assert (Hc : Ascii.eqb c "\" = false).
    { destruct (Ascii.eqb_spec c "\") as [->|]; [|done]. by destruct (String.eqb seen ""). }
    destruct (IH (seen +:+ String c "") (if String.eqb buffer "" then "" else buffer +:+ String c "") c)
      as (prev' & Hp' & E); [by destruct seen|done|].
    exists prev'. split; [done|]. rewrite string_app_cons. cbn [email_segment]. rewrite Hp, Hc, Ed, Ek, E.
    rewrite !string_app_assoc, !string_app_cons, !string_app_nil_l.
    destruct (String.eqb buffer "") eqn:Hb; [done|]. by rewrite string_eqb_app_nil, Hb, string_app_assoc, string_app_cons, string_app_nil_l.
Qed.

Definition ends_label (t : string) : Prop := t = ""%string \/ exists d, t = String "." d.

Lemma email_segment_end (t seen buffer : string) (prev : ascii) :
  ends_label t -> Ascii.eqb prev "\" = false ->
  email_segment t seen prev buffer = Some (String.length seen, buffer).
Proof. intros [->|[d ->]] Hp; [done|]. cbn [email_segment]. by rewrite Hp. Qed.

Lemma email_segment_mailbox (l t : string) :
  mailbox l -> ends_label t ->
  exists buffer, email_segment (l +:+ t) "" "000" "" = Some (String.length l, buffer) /\
    (buffer = ""%string \/ buffer = l).
Proof.
  intros [_ [Hl|(x & y & -> & Hx & Hy)]] Ht.
  - destruct (email_segment_label l t "" "" "000" Hl eq_refl) as (prev & Hp & E). exists ""%string.
    rewrite E, email_segment_end by done. by auto.
  - exists (x +:+ "\." +:+ y). split; [|by right].
    destruct (email_segment_label x ("\." +:+ y +:+ t) "" "" "000" Hx eq_refl) as (prev & Hp & E).
    rewrite !string_app_assoc, E. change (String.eqb "" "") with true. cbv iota.
    rewrite string_app_nil_l, !string_app_cons, string_app_nil_l. cbn [email_segment]. rewrite Hp.
    cbn [Ascii.eqb Bool.eqb]. change (String.eqb "" "") with true. cbv iota.
    set (seen := (x +:+ "\") +:+ ".").
    destruct (email_segment_label y t seen seen "." ) as (prev' & Hp' & E'); [|done|].
    { subst seen. rewrite !string_eqb_app_nil. by rewrite andb_false_r. }
    rewrite E', email_segment_end by done.
    assert (Hs : String.eqb seen "" = false) by by subst seen; destruct x.
    rewrite Hs. subst seen. rewrite !string_app_assoc, !string_app_cons, !string_app_nil_l.
    by rewrite !length_string_app.
Qed.

Lemma email_split_mailbox (l t : string) :
  mailbox l -> ends_label t -> email_split (l +:+ t) = Some (l, drop_chars 1 t).
Proof.
  intros Hl Ht. assert (Hne : l <> ""%string) by (intros ->; destruct Hl as [[Hs _] _]; cbn in Hs; lia).
  destruct (email_segment_mailbox l t Hl Ht) as (buffer & E & Hb). unfold email_split.
  rewrite string_eqb_app_nil. apply String.eqb_neq in Hne as Hn. rewrite Hn. cbn [andb]. rewrite E.
  cbn [mbind option_bind]. f_equal. f_equal.
  - destruct Hb as [->| ->]; [apply take_chars_app|by rewrite Hn].
  - rewrite length_string_app. destruct Ht as [->|[d ->]].
    + rewrite string_app_nil_r. cbn [String.length drop_chars]. by rewrite drop_chars_all by lia.
    + cbn [String.length]. replace (Nat.min _ _) with (String.length (l +:+ "."))
        by (rewrite length_string_app; cbn; lia).
      replace (l +:+ String "." d) with ((l +:+ ".") +:+ d)
        by by rewrite string_app_assoc, string_app_cons, string_app_nil_l.
      by rewrite drop_chars_app.
Qed.

(** A mailbox name is written in its measured size, and read back. *)
Lemma mail_name_written (s : string) :
  mail_name s ->
  exists b, writeEmailName s = Some b /\ (forall rest, labels_string (b +:+ rest) = Some (s, rest)) /\
    forall room, String.length b <= room -> writeEmailName_in room s = Some b.
Proof.
  intros (l & Hl & Hs). assert (H := proj1 Hl). unfold label_size in H.
  assert (Hd : exists t d, s = l +:+ t /\ ends_label t /\ d = drop_chars 1 t /\ (d = "" /\ t = "" \/ t = String "." d /\ rdata_name d /\ String.length s <= 253)%string).
  { destruct Hs as [->|(d & -> & Hd & Hlen)].
    - exists ""%string, ""%string. rewrite string_app_nil_r. split_and!; [done|by left|done|by left].
    - exists (String "." d), d. split_and!; [done|right; by exists d|by destruct d|by right]. }
  destruct Hd as (t & d & -> & Ht & Hdt & Hd). clear Hs. assert (Esp := email_split_mailbox l t Hl Ht).
  rewrite <- Hdt in Esp.
  assert (Hw : exists w, write_segments (S (String.length d)) d = Some w /\ w = wire (name_labels d) /\
            Forall label_ok (name_labels d) /\ join_labels (l :: name_labels d) = l +:+ t /\
            S (String.length l) + String.length w = email_size l d /\ email_size l d < 256).
  { destruct Hd as [[-> ->]|(-> & Hd & Hlen)].
    - exists (String "000" ""). unfold email_size. cbn. rewrite string_app_nil_r. split_and!; try done; lia.
    - assert (Hn := rdata_name_labels d Hd). assert (Hd' := Hd). destruct Hd as (Hne & Hnt & b & Hb).
      destruct (writeName_labels _ _ Hb) as (E & Hall & _). exists b.
      assert (Hsz := rdata_name_size d b Hd' Hb). unfold email_size. apply String.eqb_neq in Hne as ->.
      rewrite length_string_app in Hlen. cbn [String.length] in Hlen.
      split_and!; [unfold writeName in Hb; by destruct (256 <=? _)|done|done| |lia|lia].
      rewrite join_cons, bool_decide_eq_false_2 by done. fold (name_text d). by rewrite Hnt. }
  destruct Hw as (w & Ew & -> & Hall & Hj & Hsz & H256).
  assert (Ewr : writeEmailName (l +:+ t) = Some (wire (l :: name_labels d))).
  { unfold writeEmailName. rewrite Esp. cbn [mbind option_bind]. unfold save_label.
    rewrite (proj2 (Nat.ltb_ge _ _)) by lia. cbn [mbind option_bind]. by rewrite (proj2 (Nat.leb_gt _ _)), Ew by lia. }
  exists (wire (l :: name_labels d)). split_and!; [done| |].
  - intros rest. rewrite <- Hj. apply labels_string_wire; [constructor; [done|by apply labels_ok_size]|].
    rewrite Hj. destruct Hd as [[_ ->]|(_ & _ & Hlen)]; [rewrite string_app_nil_r|]; lia.
  - intros room Hr. unfold writeEmailName_in. rewrite Esp. cbn [mbind option_bind fst snd].
    rewrite (proj2 (Nat.ltb_ge _ _)); [done|]. rewrite <- Hsz. cbn [wire] in Hr. unfold wire_label in Hr.
    rewrite length_string_app in Hr. cbn [String.length] in Hr. lia.
Qed.

Lemma ToEmail_plain (prev : ascii) (a t : string) :
  has_char "." a = false -> has_char "\" a = false -> Ascii.eqb prev "\" = false ->
  ToEmail_from prev (a +:+ String "." t) = a +:+ String "@" t.
Proof.
  revert prev. induction a as [|c a IH]; intros prev Hd He Hp.
  - rewrite !string_app_nil_l. cbn [ToEmail_from]. rewrite Hp. reflexivity.
  - cbn [has_char] in Hd, He. apply orb_false_iff in Hd as [Hc Hd]. apply orb_false_iff in He as [Hb He].
    rewrite !string_app_cons. cbn [ToEmail_from]. rewrite Hc, Hb. cbn [andb]. by rewrite IH.
Qed.

Lemma ToEmail_escaped (prev : ascii) (a t : string) :
  has_char "." a = false -> has_char "\" a = false ->
  ToEmail_from prev (a +:+ "\." +:+ t) = a +:+ String "." (ToEmail_from "." t).
Proof.
  revert prev. induction a as [|c a IH]; intros prev Hd He.
  - rewrite !string_app_nil_l, !string_app_cons, string_app_nil_l. reflexivity.
  - cbn [has_char] in Hd, He. apply orb_false_iff in Hd as [Hc Hd]. apply orb_false_iff in He as [Hb He].
    rewrite !(string_app_cons c). cbn [ToEmail_from]. rewrite Hc, Hb. cbn [andb]. by rewrite IH.
Qed.

Section Mailbox.
Context (dom b : string).
Hypothesis dom_written : writeName dom = Some b.
Hypothesis dom_plain : name_text dom = dom.
Hypothesis dom_some : dom <> ""%string.
Hypothesis dom_at : has_char "@" dom = false.
Context (a : string).
Hypothesis a_part : mail_part a = true.
Hypothesis a_dash : no_dash a = true.

Lemma part_chars p : mail_part p = true -> none_of (fun c => negb (valid_char c) || Ascii.eqb c ".") p = true.
Proof. unfold mail_part. by intros [? _]%andb_true_iff. Qed.

Lemma a_some : 1 <= String.length a.
Proof.
  unfold mail_part in a_part. apply andb_true_iff in a_part as [_ Ha]. destruct a; [done|]. cbn. lia.
Qed.

Lemma escape_simple p : has_char "." p = false -> escape_dots p = p.
Proof. intros H. rewrite <- (string_app_nil_r p), escape_plain by done. cbn. by rewrite !string_app_nil_r. Qed.

(** A mailbox without a dot. *)
Lemma plain_stored :
  String.length a <= 63 -> String.length a + String.length dom <= 252 ->
  stored_email (a +:+ String "@" dom) = Some (a +:+ String "@" dom).
Proof.
  intros H1 H2. destruct (part_no_dot a (part_chars a a_part)) as (Hd & Hat & Hb & _).
  assert (Hs := a_some).
  destruct (email_segment_plain a (String "." dom) "" "000" (part_chars a a_part) eq_refl) as (prev & Hp & E);
    [by rewrite a_dash|].
  rewrite (email_stored a dom "" b).
  - change (String.eqb "" "") with true. cbn iota. rewrite escape_simple by done. unfold ToEmail.
    by rewrite ToEmail_plain.
  - done.
  - done.
  - rewrite escape_simple by done. rewrite E, string_app_nil_l. cbn [email_segment]. by rewrite Hp.
  - done.
  - done.
  - done.
  - change (String.eqb "" "") with true. cbn iota. rewrite escape_simple by done. unfold label_size. lia.
  - change (String.eqb "" "") with true. cbn iota. rewrite escape_simple by done. lia.
Qed.

(** A mailbox with a dot after [a]: of its dots only the first stays escaped. *)
Lemma dotted_stored (r : string) :
  none_of (fun c => negb (valid_char c)) r = true -> has_char "@" r = false ->
  String.length a + 2 + String.length r <= 63 -> String.length a + 2 + String.length r + String.length dom <= 252 ->
  stored_email (a +:+ String "." (r +:+ String "@" dom))
  = Some (a +:+ String "." (ToEmail_from "." (r +:+ String "." dom))).
Proof.
  intros Hr Hrat H1 H2. destruct (part_no_dot a (part_chars a a_part)) as (Hd & Hat & Hb & _).
  destruct (email_segment_plain a (escape_dots (String "." r) +:+ String "." dom) "" "000"
              (part_chars a a_part) eq_refl) as (prev & Hp & E); [by rewrite a_dash|].
  set (local := a +:+ String "." r).
  replace (a +:+ String "." (r +:+ String "@" dom)) with (local +:+ String "@" dom)
    by (unfold local; by rewrite string_app_assoc, string_app_cons).
  assert (Hesc : escape_dots local = a +:+ "\." +:+ escape_dots r).
  { unfold local. by rewrite escape_plain. }
  rewrite (email_stored local dom (a +:+ "\." +:+ r) b).
  - assert (Hne : String.eqb (a +:+ "\." +:+ r) "" = false) by by destruct a.
    rewrite Hne, !string_app_assoc. unfold ToEmail. by rewrite ToEmail_escaped.
  - unfold local. by rewrite has_char_app, Hat.
  - done.
  - unfold local. rewrite escape_plain, string_app_assoc, E by done. cbn [escape_dots]. cbn [Ascii.eqb Bool.eqb].
    rewrite !string_app_cons, !string_app_nil_l. cbn [email_segment]. rewrite Hp. cbn [Ascii.eqb Bool.eqb].
    change (String.eqb "" "") with true. cbn iota. rewrite email_segment_buffered; [|done|done|by destruct a|by destruct a].
    rewrite !string_app_assoc, !length_string_app. cbn. do 2 f_equal. lia.
  - done.
  - done.
  - done.
  - assert (Hne : String.eqb (a +:+ "\." +:+ r) "" = false) by by destruct a.
    rewrite Hne. unfold label_size. rewrite !length_string_app. cbn [String.length]. lia.
  - assert (Hne : String.eqb (a +:+ "\." +:+ r) "" = false) by by destruct a.
    rewrite Hne, !length_string_app. cbn [String.length]. lia.
Qed.
End Mailbox.

(** The mail address of an SOA or RP record, stored as a name and shown
    again: an address without a dot in its mailbox, or with one, comes back; of
    a mailbox with two dots or more only the first stays escaped, so that the
    second is taken for the end of the mailbox: [a.r.c@dom] is shown as
    [a.r@c.dom]. *)
Theorem stored_email_dots (dom b a r c : string) :
  writeName dom = Some b -> name_text dom = dom -> dom <> ""%string -> has_char "@" dom = false ->
  mail_part a = true -> no_dash a = true -> mail_part r = true -> mail_part c = true ->
  String.length (a +:+ r +:+ c) + 3 <= 63 -> String.length (a +:+ r +:+ c) + 3 + String.length dom <= 252 ->
  stored_email (a +:+ String "@" dom) = Some (a +:+ String "@" dom) /\
  stored_email (a +:+ String "." (r +:+ String "@" dom)) = Some (a +:+ String "." (r +:+ String "@" dom)) /\
  stored_email (a +:+ String "." (r +:+ String "." (c +:+ String "@" dom)))
  = Some (a +:+ String "." (r +:+ String "@" (c +:+ String "." dom))).
Proof.
  intros Hw Ht Hne Hat Ha Hd Hr Hc. rewrite !length_string_app. intros H1 H2.
  destruct (part_no_dot r (part_chars r Hr)) as (Hrd & Hra & Hrb & Hrv).
  destruct (part_no_dot c (part_chars c Hc)) as (Hcd & Hca & Hcb & Hcv).
  split_and!.
  - by apply (plain_stored dom b); try done; lia.
  - rewrite (dotted_stored dom b Hw Ht Hne Hat a Ha Hd r) by (done || lia). by rewrite ToEmail_plain.
  - replace (r +:+ String "." (c +:+ String "@" dom)) with ((r +:+ String "." c) +:+ String "@" dom)
      by by rewrite string_app_assoc, string_app_cons.
    rewrite (dotted_stored dom b Hw Ht Hne Hat a Ha Hd (r +:+ String "." c)).
    + rewrite string_app_assoc, string_app_cons. by rewrite ToEmail_plain.
    + clear -Hrv Hcv. induction r as [|x r IH]; [exact Hcv|]. cbn [none_of] in Hrv.
      apply andb_true_iff in Hrv as [Hx Hr]. rewrite string_app_cons. cbn [none_of]. by rewrite Hx, IH.
    + by rewrite has_char_app, Hra.
    + rewrite length_string_app. cbn [String.length]. lia.
    + rewrite length_string_app. cbn [String.length]. lia.
Qed.

Module NameDemo.
Lemma writeName_validateFqdn_witness :
  "_sip._tcp.ex.org"%string <> ""%string /\
  ((is_Some (writeName "_sip._tcp.ex.org") /\ name_text "_sip._tcp.ex.org" = "_sip._tcp.ex.org"%string) <->
   validateFqdn "_sip._tcp.ex.org" = true /\
   Forall (fun l => String.length l <= 63) (split_on "." "_sip._tcp.ex.org") /\
   String.length "_sip._tcp.ex.org" <= 253).
Proof. split; [discriminate|]. refine (writeName_validateFqdn "_sip._tcp.ex.org" _). discriminate. Defined.

Lemma writeName_roundtrip_witness :
  labels_string ((String "003" "www" +:+ String "002" "ex" +:+ String "003" "org" +:+ String "000" "") +:+ "rest")
  = Some ("www.ex.org", "rest")%string.
Proof. exact (writeName_roundtrip "www..ex.org." _ "rest" eq_refl). Defined.

Lemma stored_email_dots_witness :
  stored_email "john@ex.org" = Some "john@ex.org"%string /\
  stored_email "john.fitzgerald@ex.org" = Some "john.fitzgerald@ex.org"%string /\
  stored_email "john.fitzgerald.doe@ex.org" = Some "john.fitzgerald@doe.ex.org"%string.
Proof.
  refine (stored_email_dots "ex.org" _ "john" "fitzgerald" "doe" eq_refl eq_refl _ eq_refl eq_refl eq_refl eq_refl
            eq_refl _ _); [discriminate|vm_compute; lia|vm_compute; lia].
Defined.
End NameDemo.
