(* ===== verification/RrWire.v ===== *)
(** * Records in storage

    The rdata of a record as StorageBuilder writes it (lib/DnsMessages.cpp,
    createSoa to createA) and as the accessors of RrSoa, RrMx, RrTxt and the
    other classes read it for toJson.  A record is a type with its rdata; the
    owner and the TTL are those of the record set.  Addresses are
    boost::asio::ip's, behind the class [Addresses]. *)

From S2P Require Import Prelude JsNumber ServerUtil Qargs RrTypes RrJson DnsName.

Local Open Scope Z_scope.

(** ** Integers in network order *)

Definition byte_of (z : Z) : ascii := ascii_of_N (Z.to_N (z mod 256)).

(** setValueAt: the low [k] bytes of [z]. *)
Fixpoint put_be (k : nat) (z : Z) : string :=
  match k with
  | O => EmptyString
  | S k' => String (byte_of (Z.shiftr z (8 * Z.of_nat k'))) (put_be k' z)
  end.

(** getValueAt; [None] when the bytes are not all in the buffer. *)
Fixpoint get_be (k : nat) (b : string) (acc : Z) : option Z :=
  match k, b with
  | O, _ => Some acc
  | S k', String c b' => get_be k' b' (acc * 256 + code c)
  | S _, EmptyString => None
  end.

Definition getValueAt (k : nat) (b : string) (loc : nat) : option Z := get_be k (drop_chars loc b) 0.

(** ** Addresses *)

(** make_address and the text of an address; an address is 4 or 16 bytes. *)
Class Addresses : Type := {
  make_address : string -> option string;
  address_text : string -> string
}.

Definition is_v4 (b : string) : bool := Nat.eqb (String.length b) 4.

(** ** Writing rdata; [None] is an exception *)

Definition TXT_SEGMENT_MAX : nat := 255.

Definition type_of (d : rdata) : Z :=
  match d with
  | TYPE_A _ => 1
  | TYPE_NS _ => 2
  | TYPE_CNAME _ => 5
  | TYPE_SOA _ _ _ _ _ _ _ => 6
  | TYPE_PTR _ => 11
  | TYPE_HINFO _ _ => 13
  | TYPE_MX _ _ => 15
  | TYPE_TXT _ => 16
  | TYPE_RP _ _ => 17
  | TYPE_AFSDB _ _ => 18
  | TYPE_AAAA _ => 28
  | TYPE_SRV _ _ _ _ => 33
  | TYPE_DHCID _ => 49
  | TYPE_OPENPGPKEY _ => 61
  | TYPE_OTHER t _ => t
  end.

(** A record of the builder: its type and rdata. *)
Record wire_rr : Type := WireRr {
  w_type : Z;
  w_rdata : string
}.

(** Names are measured, the rdata gets that size, and they are written into
    it. *)
Definition createSoa (mname rname : string) (serial refresh retry expire minimum : Z) : option wire_rr :=
  m_size ← String.length <$> writeName mname;
  r_size ← String.length <$> writeEmailName rname;
  m ← writeName_in (m_size + r_size + 4 * 5) mname;
  r ← writeEmailName_in (r_size + 4 * 5) rname;
  Some (WireRr 6 (m +:+ r +:+ put_be 4 serial +:+ put_be 4 refresh +:+ put_be 4 retry +:+
                    put_be 4 expire +:+ put_be 4 minimum)).

Definition createDomainNameInRdata (type : Z) (dname : string) : option wire_rr :=
  size ← String.length <$> writeName dname; WireRr type <$> writeName_in size dname.

Definition createCname (cname : string) : option wire_rr := createDomainNameInRdata 5 cname.
Definition createPtr (hostname : string) : option wire_rr := createDomainNameInRdata 11 hostname.
Definition createNs (ns : string) : option wire_rr := createDomainNameInRdata 2 ns.

Definition createInt16AndLabels (type val : Z) (label : string) : option wire_rr :=
  host_size ← String.length <$> writeName label;
  b ← writeName_in host_size label; Some (WireRr type (put_be 2 val +:+ b)).

Definition createMx (priority : Z) (host : string) : option wire_rr := createInt16AndLabels 15 priority host.
Definition createAfsdb (subtype : Z) (host : string) : option wire_rr := createInt16AndLabels 18 subtype host.

(** createTxtRdata: each segment after its length. *)
Fixpoint txt_segments (segments : list string) : option string :=
  match segments with
  | [] => Some EmptyString
  | s :: ss =>
      if (TXT_SEGMENT_MAX <? String.length s)%nat then None
      else r ← txt_segments ss; Some (String (ascii_of_nat (String.length s)) (s +:+ r))
  end.

(** createTxt as build calls it, without splitting. *)
Definition createTxt (txt : string) : option wire_rr := WireRr 16 <$> txt_segments [txt].
Definition createHinfo (cpu os : string) : option wire_rr := WireRr 13 <$> txt_segments [cpu; os].

Definition createRp (mbox txt : string) : option wire_rr :=
  mbox_len ← String.length <$> writeEmailName mbox;
  txt_len ← String.length <$> writeName txt;
  m ← writeEmailName_in (mbox_len + txt_len) mbox;
  t ← writeName_in txt_len txt;
  Some (WireRr 17 (m +:+ t)).

Definition createSrv (priority weight port : Z) (target : string) : option wire_rr :=
  target_len ← String.length <$> writeName target;
  t ← writeName_in target_len target;
  Some (WireRr 33 (put_be 2 priority +:+ put_be 2 weight +:+ put_be 2 port +:+ t)).

Definition createA `{Addresses} (ip : string) : option wire_rr :=
  addr ← make_address ip; Some (WireRr (if is_v4 addr then 1 else 28) addr).

(** base64Decode gives chars; [None] where it reads beyond the text. *)
Definition string_of_bytes (bs : list Z) : string := string_of_list_ascii (byte_of <$> bs).
Definition bytes_of_string (s : string) : list Z := code <$> list_ascii_of_string s.

Definition createBase64 (type : Z) (blob : string) : option wire_rr :=
  bs ← base64Decode blob; Some (WireRr type (string_of_bytes bs)).

(** ** Reading rdata *)

(** Labels at [loc], and what follows them. *)
Definition labels_at (b : string) (loc : nat) : option (string * string) := labels_string (drop_chars loc b).

(** getTextFromRdata: the first text and the rest. *)
Definition text_from (b : string) : option (string * string) :=
  match b with
  | EmptyString => None
  | String c b' =>
      let len := nat_of_ascii c in
      if (String.length b' <? len)%nat then None else Some (take_chars len b', drop_chars len b')
  end.

(** RrTxt::string: all segments in one. *)
Fixpoint txt_string (fuel : nat) (b : string) : option string :=
  match fuel, b with
  | _, EmptyString => Some EmptyString
  | O, _ => None
  | S fuel', _ => r ← text_from b; t ← txt_string fuel' r.2; Some (r.1 +:+ t)
  end.

Definition read_soa (b : string) : option rdata :=
  m ← labels_at b 0;
  r ← labels_string m.2;
  let n := String.length b in
  serial ← (if (n <? 20)%nat then None else getValueAt 4 b (n - 20));
  refresh ← getValueAt 4 b (n - 16);
  retry ← getValueAt 4 b (n - 12);
  expire ← getValueAt 4 b (n - 8);
  minimum ← getValueAt 4 b (n - 4);
  Some (TYPE_SOA m.1 r.1 serial refresh retry expire minimum).

(** The record as toJson sees it; [None] when an accessor throws, or reads
    outside of the rdata: an SOA of less than 20 bytes, an address that is not
    of 4 or 16 bytes. *)
Definition read_rr `{Addresses} (w : wire_rr) : option rdata :=
  let b := w_rdata w in
  match w_type w with
  | 1 => if (Nat.eqb (String.length b) 4 || Nat.eqb (String.length b) 16)%bool
         then Some (TYPE_A (address_text b)) else None
  | 28 => if (Nat.eqb (String.length b) 4 || Nat.eqb (String.length b) 16)%bool
          then Some (TYPE_AAAA (address_text b)) else None
  | 2 => r ← labels_at b 0; Some (TYPE_NS r.1)
  | 5 => r ← labels_at b 0; Some (TYPE_CNAME r.1)
  | 6 => read_soa b
  | 11 => r ← labels_at b 0; Some (TYPE_PTR r.1)
  | 13 => c ← text_from b; o ← text_from c.2; Some (TYPE_HINFO c.1 o.1)
  | 15 => r ← labels_at b 2; p ← getValueAt 2 b 0; Some (TYPE_MX r.1 p)
  | 16 => TYPE_TXT <$> txt_string (String.length b) b
  | 17 => m ← labels_at b 0; t ← labels_string m.2; Some (TYPE_RP m.1 t.1)
  | 18 => r ← labels_at b 2; p ← getValueAt 2 b 0; Some (TYPE_AFSDB r.1 p)
  | 33 => r ← labels_at b 6; p ← getValueAt 2 b 0; w ← getValueAt 2 b 2; q ← getValueAt 2 b 4;
          Some (TYPE_SRV r.1 p w q)
  | 49 => Some (TYPE_DHCID (bytes_of_string b))
  | 61 => Some (TYPE_OPENPGPKEY (bytes_of_string b))
  | t => Some (TYPE_OTHER t (bytes_of_string b))
  end.

(** ** What is written is read *)

Lemma code_byte (z : Z) : code (byte_of z) = z mod 256.
Proof.
  unfold code, byte_of. assert (H := Z.mod_pos_bound z 256 ltac:(lia)).
  rewrite N_ascii_embedding by lia. lia.
Qed.

Lemma get_put (k : nat) (z acc : Z) (rest : string) :
  get_be k (put_be k z +:+ rest) acc = Some (acc * 256 ^ Z.of_nat k + z mod 256 ^ Z.of_nat k).
Proof.
  revert acc. induction k as [|k IH]; intros acc; [cbn; by rewrite Z.mod_1_r, Z.mul_1_r, Z.add_0_r|].
  cbn [put_be]. rewrite string_app_cons. cbn [get_be]. rewrite IH, code_byte. f_equal.
  rewrite Z.shiftr_div_pow2 by lia. replace (2 ^ (8 * Z.of_nat k)) with (256 ^ Z.of_nat k)
    by (rewrite Z.pow_mul_r by lia; done).
  replace (256 ^ Z.of_nat (S k)) with (256 ^ Z.of_nat k * 256) by (rewrite Nat2Z.inj_succ, Z.pow_succ_r by lia; lia).
  set (m := 256 ^ Z.of_nat k). assert (0 < m) by (apply Z.pow_pos_nonneg; lia).
  rewrite Z.rem_mul_r by lia. lia.
Qed.

Lemma length_put (k : nat) (z : Z) : String.length (put_be k z) = k.
Proof. induction k as [|k IH]; [done|]. cbn. by rewrite IH. Qed.

Lemma getValue_put (k : nat) (a rest : string) (z : Z) :
  getValueAt k (a +:+ put_be k z +:+ rest) (String.length a) = Some (z mod 256 ^ Z.of_nat k).
Proof. unfold getValueAt. by rewrite drop_chars_app, get_put. Qed.

(** Names that come back as they are. *)
Definition dns_name (s : string) : Prop := name_text s = s /\ is_Some (writeName s).

Definition uint (bits z : Z) : Prop := 0 <= z < 2 ^ bits.

Definition is_address `{Addresses} (size : nat) (s : string) : Prop :=
  exists b, make_address s = Some b /\ address_text b = s /\ String.length b = size.

Definition known_types : list Z := [1; 2; 5; 6; 11; 13; 15; 16; 17; 18; 28; 33; 49; 61].

(** A record that storage can hold as it is: names of plain labels, mailboxes
    with at most one escaped dot, numbers of their width, texts of one
    segment. *)
Definition storable `{Addresses} (d : rdata) : Prop :=
  match d with
  | TYPE_A s => is_address 4 s
  | TYPE_AAAA s => is_address 16 s
  | TYPE_NS s | TYPE_CNAME s | TYPE_PTR s => rdata_name s
  | TYPE_SOA mname rname serial refresh retry expire minimum =>
      dns_name mname /\ mail_name rname /\ uint 32 serial /\ uint 32 refresh /\ uint 32 retry /\
      uint 32 expire /\ uint 32 minimum
  | TYPE_MX host priority => rdata_name host /\ uint 16 priority
  | TYPE_TXT txt => (String.length txt <= TXT_SEGMENT_MAX)%nat
  | TYPE_SRV target priority weight port =>
      rdata_name target /\ uint 16 priority /\ uint 16 weight /\ uint 16 port
  | TYPE_AFSDB host subtype => rdata_name host /\ uint 16 subtype
  | TYPE_RP mbox txt => mail_name mbox /\ rdata_name txt
  | TYPE_HINFO cpu os =>
      (String.length cpu <= TXT_SEGMENT_MAX)%nat /\ (String.length os <= TXT_SEGMENT_MAX)%nat
  | TYPE_DHCID bytes | TYPE_OPENPGPKEY bytes => Forall is_byte bytes
  | TYPE_OTHER t bytes => uint 16 t /\ t ∉ known_types /\ Forall is_byte bytes
  end.

(** The function of StorageBuilder for a record. *)
Definition create `{Addresses} (d : rdata) : option wire_rr :=
  match d with
  | TYPE_A s | TYPE_AAAA s => createA s
  | TYPE_NS s => createNs s
  | TYPE_CNAME s => createCname s
  | TYPE_PTR s => createPtr s
  | TYPE_SOA mname rname serial refresh retry expire minimum =>
      createSoa mname rname serial refresh retry expire minimum
  | TYPE_MX host priority => createMx priority host
  | TYPE_TXT txt => createTxt txt
  | TYPE_SRV target priority weight port => createSrv priority weight port target
  | TYPE_AFSDB host subtype => createAfsdb subtype host
  | TYPE_RP mbox txt => createRp mbox txt
  | TYPE_HINFO cpu os => createHinfo cpu os
  | TYPE_DHCID bytes => createBase64 49 (Base64Encode bytes)
  | TYPE_OPENPGPKEY bytes => createBase64 61 (Base64Encode bytes)
  | TYPE_OTHER t bytes => createBase64 t (Base64Encode bytes)
  end.

Lemma dns_name_read s : dns_name s -> exists b, writeName s = Some b /\ forall rest, labels_string (b +:+ rest) = Some (s, rest).
Proof.
  intros [Ht [b Hb]]. exists b. split; [done|]. intros rest.
  destruct (writeName_labels s b Hb) as (-> & Hall & Hl).
  assert (Hn := name_labels_length s). fold (name_text s) in *. rewrite <- Ht at 2.
  apply labels_string_wire; [by apply labels_ok_size|]. fold (name_text s). lia.
Qed.

Lemma rdata_name_dns s : rdata_name s -> dns_name s.
Proof. by intros [_ H]. Qed.

Lemma rdata_name_read s :
  rdata_name s -> exists b, writeName s = Some b /\ writeName_in (String.length b) s = Some b /\
    forall rest, labels_string (b +:+ rest) = Some (s, rest).
Proof.
  intros Hs. destruct (dns_name_read s (rdata_name_dns s Hs)) as (b & Hb & Hr). exists b.
  split_and!; [done|by apply writeName_in_fits|done].
Qed.

Lemma dns_name_in s b room : writeName s = Some b -> dns_name s -> (String.length b + 1 <= room)%nat ->
  writeName_in room s = Some b.
Proof.
  intros Hb Hd Hr. destruct (decide (s = ""%string)) as [->|Hne].
  - injection Hb as <-. rewrite writeName_in_room; [done|]. exact Hr.
  - assert (Hs := rdata_name_size s b (conj Hne Hd) Hb). rewrite writeName_in_room; [done|lia].
Qed.

Lemma mod_uint (k : nat) (bits z : Z) : bits = 8 * Z.of_nat k -> uint bits z -> z mod 256 ^ Z.of_nat k = z.
Proof.
  intros -> Hz. unfold uint in Hz. rewrite Z.pow_mul_r in Hz by lia. by apply Z.mod_small.
Qed.

Lemma text_from_written (s rest : string) :
  (String.length s <= TXT_SEGMENT_MAX)%nat ->
  text_from (String (ascii_of_nat (String.length s)) (s +:+ rest)) = Some (s, rest).
Proof.
  unfold TXT_SEGMENT_MAX. intros Hs. unfold text_from. rewrite nat_ascii_embedding by lia.
  rewrite (proj2 (Nat.ltb_ge _ _)) by (rewrite length_string_app; lia).
  by rewrite take_chars_app, drop_chars_app.
Qed.

Lemma bytes_string (bs : list Z) : Forall is_byte bs -> bytes_of_string (string_of_bytes bs) = bs.
Proof.
  intros Hb. unfold bytes_of_string, string_of_bytes.
  rewrite list_ascii_of_string_of_list_ascii, <- list_fmap_compose.
  induction Hb as [|b bs Hb _ IH]; [done|]. rewrite fmap_cons, IH. unfold compose. rewrite code_byte.
  f_equal. by apply Z.mod_small.
Qed.

Lemma base64_bytes (bs : list Z) : Forall is_byte bs -> base64Decode (Base64Encode bs) = Some bs.
Proof. intros Hb. rewrite Base64Encode_btoa by done. by apply base64_decode_encode. Qed.

Lemma read_int16_name (b0 : string) (p : Z) (s b : string) :
  uint 16 p -> (forall rest, labels_string (b +:+ rest) = Some (s, rest)) ->
  labels_at (put_be 2 p +:+ b) 2 = Some (s, ""%string) /\ getValueAt 2 (put_be 2 p +:+ b) 0 = Some p.
Proof.
  intros Hp Hb. split.
  - unfold labels_at. change 2%nat with (String.length (put_be 2 p)). rewrite drop_chars_app.
    by rewrite <- (string_app_nil_r b), Hb.
  - assert (Hg := getValue_put 2 "" b p). rewrite string_app_nil_l in Hg.
    change (String.length "") with 0%nat in Hg. by rewrite Hg, (mod_uint 2 16).
Qed.

Lemma read_name_at s b :
  (forall rest, labels_string (b +:+ rest) = Some (s, rest)) -> labels_at b 0 = Some (s, ""%string).
Proof. intros Hb. unfold labels_at. cbn [drop_chars]. by rewrite <- (string_app_nil_r b), Hb. Qed.

Lemma getValue_end (k n : nat) (a rest : string) (z : Z) :
  n = (k + String.length rest)%nat -> (0 < k)%nat ->
  getValueAt k (a +:+ put_be k z +:+ rest) (String.length (a +:+ put_be k z +:+ rest) - n)
  = Some (z mod 256 ^ Z.of_nat k).
Proof.
  intros -> Hk. rewrite !length_string_app, length_put.
  replace (_ - _)%nat with (String.length a) by lia. apply getValue_put.
Qed.

(** Whatever follows the mailbox within its own bytes is not looked at. *)
Lemma read_soa_bytes m r mname rname t serial refresh retry expire minimum :
  (forall rest, labels_string (m +:+ rest) = Some (mname, rest)) ->
  (forall rest, labels_string (r +:+ rest) = Some (rname, t +:+ rest)) ->
  read_soa (m +:+ r +:+ put_be 4 serial +:+ put_be 4 refresh +:+ put_be 4 retry +:+ put_be 4 expire +:+
              put_be 4 minimum)
  = Some (TYPE_SOA mname rname (serial mod 2 ^ 32) (refresh mod 2 ^ 32) (retry mod 2 ^ 32) (expire mod 2 ^ 32)
            (minimum mod 2 ^ 32)).
Proof.
  intros Hm Hr. unfold read_soa, labels_at. cbn [drop_chars]. rewrite Hm. cbn [mbind option_bind fst snd].
  rewrite Hr. cbn [mbind option_bind fst snd].
  set (b := m +:+ _). assert (Hlen : (20 <= String.length b)%nat).
  { unfold b. rewrite !length_string_app, !length_put. lia. }
  rewrite (proj2 (Nat.ltb_ge _ _)) by done.
  assert (E1 : getValueAt 4 b (String.length b - 20) = Some (serial mod 2 ^ 32)).
  { unfold b. rewrite <- (string_app_assoc m r). rewrite getValue_end; [done| |lia].
    rewrite !length_string_app, !length_put. lia. }
  assert (E2 : getValueAt 4 b (String.length b - 16) = Some (refresh mod 2 ^ 32)).
  { unfold b. rewrite <- (string_app_assoc r), <- (string_app_assoc m).
    rewrite getValue_end; [done| |lia]. rewrite !length_string_app, !length_put. lia. }
  assert (E3 : getValueAt 4 b (String.length b - 12) = Some (retry mod 2 ^ 32)).
  { unfold b. rewrite <- (string_app_assoc (put_be 4 serial)), <- (string_app_assoc r), <- (string_app_assoc m).
    rewrite getValue_end; [done| |lia]. rewrite !length_string_app, !length_put. lia. }
  assert (E4 : getValueAt 4 b (String.length b - 8) = Some (expire mod 2 ^ 32)).
  { unfold b. rewrite <- (string_app_assoc (put_be 4 refresh)), <- (string_app_assoc (put_be 4 serial)),
      <- (string_app_assoc r), <- (string_app_assoc m).
    rewrite getValue_end; [done| |lia]. rewrite !length_put. lia. }
  assert (E5 : getValueAt 4 b (String.length b - 4) = Some (minimum mod 2 ^ 32)).
  { unfold b. rewrite <- (string_app_assoc (put_be 4 retry)), <- (string_app_assoc (put_be 4 refresh)),
      <- (string_app_assoc (put_be 4 serial)), <- (string_app_assoc r), <- (string_app_assoc m).
    rewrite <- (string_app_nil_r (put_be 4 minimum)).
    rewrite getValue_end; [done| |lia]. done. }
  by rewrite E1, E2, E3, E4, E5.
Qed.

Lemma read_soa_written m r mname rname serial refresh retry expire minimum :
  (forall rest, labels_string (m +:+ rest) = Some (mname, rest)) ->
  (forall rest, labels_string (r +:+ rest) = Some (rname, rest)) ->
  uint 32 serial -> uint 32 refresh -> uint 32 retry -> uint 32 expire -> uint 32 minimum ->
  read_soa (m +:+ r +:+ put_be 4 serial +:+ put_be 4 refresh +:+ put_be 4 retry +:+ put_be 4 expire +:+
              put_be 4 minimum)
  = Some (TYPE_SOA mname rname serial refresh retry expire minimum).
Proof.
  intros Hm Hr H1 H2 H3 H4 H5. unfold uint in *. rewrite (read_soa_bytes m r mname rname "") by done.
  by rewrite !Z.mod_small.
Qed.

Lemma read_rr_other `{Addresses} t b :
  t ∉ known_types -> read_rr (WireRr t b) = Some (TYPE_OTHER t (bytes_of_string b)).
Proof.
  intros Ht. unfold known_types in Ht. destruct t as [|p|p]; [done| |done].
  do 6 (try destruct p as [p|p|]; try (exfalso; apply Ht; apply (bool_decide_unpack _); vm_compute; exact I));
    reflexivity.
Qed.

Definition stored_as `{Addresses} (d : rdata) : Prop :=
  exists w, create d = Some w /\ w_type w = type_of d /\ read_rr w = Some d.

Lemma stored_address `{Addresses} d s n :
  (d = TYPE_A s /\ n = 4%nat \/ d = TYPE_AAAA s /\ n = 16%nat) -> is_address n s -> stored_as d.
Proof.
  intros Hd (b & Hb & Ht & Hl). unfold stored_as.
  destruct Hd as [[-> ->]|[-> ->]]; cbn [create]; unfold createA, is_v4; rewrite Hb; cbn; rewrite Hl;
    (eexists; split; [reflexivity|]; split; [done|]); unfold read_rr; cbn; by rewrite Hl, Ht.
Qed.

Lemma stored_domain `{Addresses} d s :
  d = TYPE_NS s \/ d = TYPE_CNAME s \/ d = TYPE_PTR s -> rdata_name s -> stored_as d.
Proof.
  intros Hd (b & Hb & Hin & Hr)%rdata_name_read. unfold stored_as.
  destruct Hd as [->|[->| ->]]; cbn [create]; unfold createNs, createCname, createPtr, createDomainNameInRdata;
    rewrite Hb; cbn [mbind option_bind fmap option_fmap option_map]; rewrite Hin; (eexists; split; [reflexivity|]; split; [done|]);
    unfold read_rr; cbn [w_type w_rdata]; by rewrite (read_name_at s b Hr).
Qed.

Lemma stored_int16 `{Addresses} d s p :
  d = TYPE_MX s p \/ d = TYPE_AFSDB s p -> rdata_name s -> uint 16 p -> stored_as d.
Proof.
  intros Hd (b & Hb & Hin & Hr)%rdata_name_read Hp. destruct (read_int16_name "" p s b Hp Hr) as [E1 E2].
  unfold stored_as. destruct Hd as [->| ->]; cbn [create]; unfold createMx, createAfsdb, createInt16AndLabels;
    rewrite Hb; cbn [mbind option_bind fmap option_fmap option_map]; rewrite Hin;
    cbn [mbind option_bind]; (eexists; split; [reflexivity|]; split; [done|]);
    unfold read_rr; cbn [w_type w_rdata]; by rewrite E1, E2.
Qed.

Lemma stored_bytes `{Addresses} t d bs :
  (forall b, read_rr (WireRr t b) = Some (d (bytes_of_string b))) -> Forall is_byte bs ->
  exists w, createBase64 t (Base64Encode bs) = Some w /\ w_type w = t /\ read_rr w = Some (d bs).
Proof.
  intros Hd Hb. unfold createBase64. rewrite base64_bytes by done. cbn [mbind option_bind].
  eexists. split; [reflexivity|]. split; [done|]. by rewrite Hd, bytes_string.
Qed.

Lemma txt_string_one (s : string) :
  (String.length s <= TXT_SEGMENT_MAX)%nat ->
  let b := String (ascii_of_nat (String.length s)) (s +:+ "") in txt_string (String.length b) b = Some s.
Proof.
  intros Hs b. subst b. cbn [txt_string String.length]. rewrite text_from_written by done.
  cbn [mbind option_bind fst snd]. destruct (String.length (s +:+ "")); cbn; by rewrite string_app_nil_r.
Qed.

Lemma create_stored `{Addresses} (d : rdata) : storable d -> stored_as d.
Proof.
  unfold stored_as.
  destruct d as [s|s|s|s|m r n1 n2 n3 n4 n5|s|s p|s|s p w q|s p|m t|c o|bs|bs|t bs]; cbn [storable].
  - apply (stored_address _ s 4). auto.
  - apply (stored_address _ s 16). auto.
  - apply (stored_domain _ s). auto.
  - apply (stored_domain _ s). auto.
  - intros (Hdm & (br & Er & Hr & Hin)%mail_name_written & ? & ? & ? & ? & ?).
    destruct (dns_name_read m Hdm) as (bm & Em & Hm). cbn [create]. unfold createSoa.
    rewrite Em, Er. cbn [mbind option_bind fmap option_fmap option_map].
    rewrite (dns_name_in m bm), Hin by (done || lia). cbn [mbind option_bind]. eexists. split; [reflexivity|]. split; [done|].
    unfold read_rr. cbn [w_type w_rdata]. by apply read_soa_written.
  - apply (stored_domain _ s). auto.
  - intros [? ?]. apply (stored_int16 _ s p); auto.
  - intros Hs. cbn [create]. unfold createTxt, txt_segments. rewrite (proj2 (Nat.ltb_ge _ _)) by done.
    eexists. split; [reflexivity|]. split; [done|]. unfold read_rr. cbn [w_type w_rdata].
    by rewrite txt_string_one.
  - intros ((b & Eb & Hin & Hb)%rdata_name_read & Hp & Hw & Hq). cbn [create]. unfold createSrv. rewrite Eb.
    cbn [mbind option_bind fmap option_fmap option_map]. rewrite Hin. cbn [mbind option_bind]. eexists. split; [reflexivity|]. split; [done|].
    unfold read_rr. cbn [w_type w_rdata].
    assert (E : labels_at (put_be 2 p +:+ put_be 2 w +:+ put_be 2 q +:+ b) 6 = Some (s, ""%string)).
    { unfold labels_at.
      assert (Hd := drop_chars_app (put_be 2 p +:+ put_be 2 w +:+ put_be 2 q) b).
      rewrite !string_app_assoc in Hd. change (String.length _) with 6%nat in Hd.
      by rewrite Hd, <- (string_app_nil_r b), Hb. }
    rewrite E. cbn [mbind option_bind].
    assert (G1 := getValue_put 2 "" (put_be 2 w +:+ put_be 2 q +:+ b) p). rewrite string_app_nil_l in G1.
    assert (G2 := getValue_put 2 (put_be 2 p) (put_be 2 q +:+ b) w).
    assert (G3 := getValue_put 2 (put_be 2 p +:+ put_be 2 w) b q). rewrite string_app_assoc in G3.
    cbn [String.length] in G1. change (String.length (put_be 2 p)) with 2%nat in G2.
    change (String.length (put_be 2 p +:+ put_be 2 w)) with 4%nat in G3.
    rewrite G1, G2, G3. cbn [mbind option_bind fst]. by rewrite !(mod_uint 2 16).
  - intros [? ?]. apply (stored_int16 _ s p); auto.
  - intros ((bm & Em & Hm & Hin)%mail_name_written & (bt & Et & Hint & Ht)%rdata_name_read).
    cbn [create]. unfold createRp. rewrite Em, Et.
    cbn [mbind option_bind fmap option_fmap option_map]. rewrite Hin, Hint by lia. cbn [mbind option_bind]. eexists. split; [reflexivity|]. split; [done|].
    unfold read_rr, labels_at. cbn [w_type w_rdata drop_chars]. rewrite Hm. cbn [mbind option_bind fst snd].
    by rewrite <- (string_app_nil_r bt), Ht.
  - intros [Hc Ho]. cbn [create]. unfold createHinfo, txt_segments.
    rewrite !(proj2 (Nat.ltb_ge _ _)) by done. cbn [mbind option_bind fmap option_fmap option_map].
    eexists. split; [reflexivity|]. split; [done|].
    unfold read_rr. cbn [w_type w_rdata]. rewrite text_from_written by done. cbn [mbind option_bind fst snd].
    by rewrite text_from_written.
  - by apply stored_bytes.
  - by apply stored_bytes.
  - intros (_ & Ht & Hb). apply stored_bytes; [|done]. intros b. by apply read_rr_other.
Qed.

(** A name with a dot at its end is refused by the types that write their only
    name into a buffer of the measured size. *)
Lemma domain_dot_refused (type : Z) (s : string) :
  rdata_name s -> createDomainNameInRdata type (s +:+ ".") = None.
Proof.
  intros Hs. unfold createDomainNameInRdata. destruct (writeName (s +:+ ".")) as [b|] eqn:Eb; [|done].
  cbn [mbind option_bind fmap option_fmap option_map]. by rewrite (writeName_in_dot s b).
Qed.

(** C29: Whatever the type, a record whose values fit in its format is written
    to storage, and the accessors toJson uses read back exactly these values.
    To fit, an address is one that make_address parses and whose text is the
    same again, a number has the width of its field, a text has at most 255
    bytes, a name is one of valid labels without an empty one, and the mailbox
    of an SOA or RP record is a plain label, or has one escaped dot (of two the
    second loses its backslash, and the mailbox is not read back: see
    writeEmailName). *)
Theorem create_read `{Addresses} (d : rdata) :
  storable d -> exists w, create d = Some w /\ w_type w = type_of d /\ read_rr w = Some d.
Proof. apply create_stored. Qed.

Module WireDemo.

(** Two addresses of boost::asio. *)
Definition loopback4 : string := String "127" (String "000" (String "000" (String "001" ""))).
Definition loopback6 : string := string_of_list_ascii (repeat "000"%char 15 ++ ["001"%char]).

#[export] Instance two_addresses : Addresses := {|
  make_address s :=
    if String.eqb s "127.0.0.1" then Some loopback4 else if String.eqb s "::1" then Some loopback6 else None;
  address_text b := if String.eqb b loopback4 then "127.0.0.1"%string else "::1"%string
|}.

Lemma demo_name s b : writeName s = Some b -> name_text s = s -> dns_name s.
Proof. intros H1 H2. split; [done|]. by exists b. Qed.

Lemma demo_rdata s b : writeName s = Some b -> name_text s = s -> s <> ""%string -> rdata_name s.
Proof. intros H1 H2 H3. split; [done|]. by eapply demo_name. Qed.

(** A mailbox with one dot. *)
Lemma demo_mailbox : mail_name "host\.master.ex.org".
Proof.
  exists "host\.master"%string. split.
  - split; [unfold label_size; cbn; lia|]. right. by exists "host"%string, "master"%string.
  - right. exists "ex.org"%string. split_and!; [done|by eapply demo_rdata|cbn; lia].
Qed.

Lemma create_read_witness :
  let d := TYPE_SRV "sip.ex.org" 1 2 5060 in
  uint 16 5060 /\ exists w, create d = Some w /\ w_type w = 33 /\ read_rr w = Some d.
Proof.
  split; [unfold uint; lia|]. refine (create_read (TYPE_SRV "sip.ex.org" 1 2 5060) _).
  split; [by eapply demo_rdata|]. split_and!; unfold uint; lia.
Defined.
End WireDemo.
