(* ===== verification/RrBuild.v ===== *)
(** * RestApi::build: from the JSON of a request to the records of storage

    What the server makes of the body of PUT /rr/<fqdn> (lib/RestApi.cpp): one
    handler per property of the object, each adding records to the builder;
    then StorageBuilder::finish sorts the index by the type of the records.
    The numbers of the body are the texts JSON.stringify writes; the parser of
    boost::json takes a numeral without fraction and exponent that fits in 64
    bits for an integer. *)

From S2P Require Import Prelude JsNumber JsValue ServerUtil Qargs Paging RrTypes RrJson DnsName RrWire.

Local Open Scope Z_scope.

(** ** Verdicts *)

(** A value; the response 400; an exception that leaves the handler of the
    request, answered with 500; or what the language leaves undefined, or
    storage cannot address: a read beyond the end of a buffer, a use of a
    variable whose function has returned, a record set of 64 KiB and more. *)
Inductive verdict (A : Type) : Type :=
| Built (a : A)
| Refused
| Failed
| Undefined.
Arguments Built {A} a.
Arguments Refused {A}.
Arguments Failed {A}.
Arguments Undefined {A}.

#[export] Instance verdict_ret : MRet verdict := @Built.
#[export] Instance verdict_bind : MBind verdict := fun A B f x =>
  match x with
  | Built a => f a
  | Refused => Refused
  | Failed => Failed
  | Undefined => Undefined
  end.

(** In a handler every exception is turned into a 400. *)
Definition or_refused {A} (x : option A) : verdict A := match x with Some a => Built a | None => Refused end.
Definition or_failed {A} (x : option A) : verdict A := match x with Some a => Built a | None => Failed end.

(** ** Values of boost::json *)

Definition as_string (j : json) : option string := match j with JStr s => Some s | _ => None end.
Definition as_array (j : json) : option (list json) := match j with JArr l => Some l | _ => None end.
Definition as_object (j : json) : option (list (string * json)) := match j with JObj o => Some o | _ => None end.

(** A numeral that the parser keeps as an int64. *)
Definition int64_numeral (s : string) : option Z :=
  let '(neg, r) := sign_part s in
  match take_digits 10 r 0 0 with
  | (v, S _, EmptyString) =>
      let z := if neg then - v else v in
      if (- 2 ^ 63 <=? z) && (z <? 2 ^ 63) then Some z else None
  | _ => None
  end.

Definition as_int64 (j : json) : option Z := match j with JNum n => int64_numeral (num_to_string n) | _ => None end.

(** ** Base64 *)

(** createBase64, which reads beyond a text of 4 k + 1 characters. *)
Definition add_base64 (type : Z) (blob : string) : verdict (list wire_rr) :=
  match createBase64 type blob with
  | Some w => Built [w]
  | None => Undefined
  end.

(** The lambda [addRr]. *)
Definition addRr (type : Z) (rdata : json) : verdict (list wire_rr) :=
  if (type <? 0) || (2 ^ 16 - 1 <? type) then Refused
  else if existsb (Z.eqb type) [6; 2; 15] then Refused
  else if type =? 41 then Refused
  else match rdata with
       | JStr s => add_base64 type s
       | _ => Refused
       end.

(** ** The handlers *)

(** A loop over the properties of an object. *)
Fixpoint fold_fields {S} (step : S -> string -> json -> option S) (fs : list (string * json)) (st : S) : option S :=
  match fs with
  | [] => Some st
  | (k, v) :: fs' => st' ← step st k v; fold_fields step fs' st'
  end.

Definition uint32_of (z : Z) : Z := z mod 2 ^ 32.
Definition uint16_of (z : Z) : Z := z mod 2 ^ 16.

Record soa_args : Type := SoaArgs {
  a_mname : string;
  a_rname : string;
  a_serial : Z;
  a_refresh : Z;
  a_retry : Z;
  a_expire : Z;
  a_minimum : Z
}.

Definition soa_field (a : soa_args) (k : string) (v : json) : option soa_args :=
  let '(SoaArgs m r s f t e n) := a in
  if String.eqb k "refresh" then z ← as_int64 v; Some (SoaArgs m r s (uint32_of z) t e n)
  else if String.eqb k "retry" then z ← as_int64 v; Some (SoaArgs m r s f (uint32_of z) e n)
  else if String.eqb k "expire" then z ← as_int64 v; Some (SoaArgs m r s f t (uint32_of z) n)
  else if String.eqb k "minimum" then z ← as_int64 v; Some (SoaArgs m r s f t e (uint32_of z))
  else if String.eqb k "serial" then z ← as_int64 v; Some (SoaArgs m r (uint32_of z) f t e n)
  else if String.eqb k "mname" then x ← as_string v; Some (SoaArgs x r s f t e n)
  else if String.eqb k "rname" then x ← as_string v; Some (SoaArgs m x s f t e n)
  else if String.eqb k "email" then x ← as_string v; y ← fromEmail x; Some (SoaArgs m y s f t e n)
  else None.

Definition build_soa (v : json) : option wire_rr :=
  o ← as_object v;
  a ← fold_fields soa_field o (SoaArgs "" "" 1 1000 1000 1000 1000);
  createSoa (a_mname a) (a_rname a) (a_serial a) (a_refresh a) (a_retry a) (a_expire a) (a_minimum a).

Definition srv_field (a : string * Z * Z * Z) (k : string) (v : json) : option (string * Z * Z * Z) :=
  let '(t, p, w, q) := a in
  if String.eqb k "priority" then z ← as_int64 v; Some (t, uint32_of z, w, q)
  else if String.eqb k "weight" then z ← as_int64 v; Some (t, p, uint32_of z, q)
  else if String.eqb k "port" then z ← as_int64 v; Some (t, p, w, uint32_of z)
  else if String.eqb k "target" then x ← as_string v; Some (x, p, w, q)
  else None.

Definition build_srv (v : json) : option wire_rr :=
  o ← as_object v;
  a ← fold_fields srv_field o (""%string, 0, 0, 0);
  let '(t, p, w, q) := a in
  if String.eqb t "" || (q =? 0) then None else createSrv (uint16_of p) (uint16_of w) (uint16_of q) t.

(** mx and afsdb: a host and a number of 16 bits. *)
Definition host_field (number : string) (a : string * Z) (k : string) (v : json) : option (string * Z) :=
  let '(h, p) := a in
  if String.eqb k "host" then x ← as_string v; Some (x, p)
  else if String.eqb k number then z ← as_int64 v; Some (h, uint16_of z)
  else None.

Definition build_mx (v : json) : option wire_rr :=
  o ← as_object v;
  a ← fold_fields (host_field "priority") o (""%string, 10);
  if String.eqb a.1 "" then None else createMx a.2 a.1.

Definition build_afsdb (v : json) : option wire_rr :=
  o ← as_object v;
  a ← fold_fields (host_field "subtype") o (""%string, 0);
  createAfsdb a.2 a.1.

Definition hinfo_field (a : string * string) (k : string) (v : json) : option (string * string) :=
  if String.eqb k "cpu" then x ← as_string v; Some (x, a.2)
  else if String.eqb k "os" then x ← as_string v; Some (a.1, x)
  else None.

Definition build_hinfo (v : json) : option wire_rr :=
  o ← as_object v; a ← fold_fields hinfo_field o (""%string, ""%string); createHinfo a.1 a.2.

Definition rp_field (a : string * string) (k : string) (v : json) : option (string * string) :=
  if String.eqb k "mbox" then x ← as_string v; y ← fromEmailIfEmail x; Some (y, a.2)
  else if String.eqb k "txt" then x ← as_string v; Some (a.1, x)
  else None.

Definition build_rp (v : json) : option wire_rr :=
  o ← as_object v; a ← fold_fields rp_field o (""%string, ""%string); createRp a.1 a.2.

(** An array of strings, of records each. *)
Definition each {A} (f : json -> option A) (v : json) : option (list A) := l ← as_array v; mapM f l.

(** The property [rr]: records by the number of their type. *)
Definition rr_field (a : Z * json) (k : string) (v : json) : option (Z * json) :=
  if String.eqb k "rdata" then Some (a.1, v)
  else if String.eqb k "type" then
    z ← as_int64 v; if (z <? 0) || (2 ^ 16 - 1 <? z) then None else Some (z, a.2)
  else None.

(** The table of handlers is static: its handler of [rr] holds a reference to
    the [addRr] of the first call of build.  In every later call, the ones that
    are modelled, that lambda is gone, and calling it is undefined; the errors
    before it, and an empty array, are as they were. *)
Definition captured_addRr (type : Z) (rdata : json) : verdict (list wire_rr) := Undefined.

Definition build_numbered (v : json) : verdict (list wire_rr) :=
  o ← or_refused (as_object v);
  a ← or_refused (fold_fields rr_field o (0, JNull));
  if a.1 =? 0 then Refused else captured_addRr a.1 a.2.

Section Build.
Context `{Addresses}.

(** The table [handlers] without [rr]; [None] for a name it does not have. *)
Definition handler (k : string) (v : json) : option (verdict (list wire_rr)) :=
  let one f := Some (or_refused ((fun w => [w]) <$> f)) in
  let many (f : json -> option wire_rr) := Some (or_refused (each f v)) in
  if String.eqb k "ttl" then Some (Built [])
  else if String.eqb k "soa" then one (build_soa v)
  else if String.eqb k "srv" then many build_srv
  else if String.eqb k "ns" then many (fun x => s ← as_string x; createNs s)
  else if String.eqb k "a" then many (fun x => s ← as_string x; createA s)
  else if String.eqb k "txt" then
    match v with
    | JStr s => one (createTxt s)
    | _ => many (fun x => s ← as_string x; createTxt s)
    end
  else if String.eqb k "hinfo" then one (build_hinfo v)
  else if String.eqb k "rp" then one (build_rp v)
  else if String.eqb k "cname" then one (s ← as_string v; createCname s)
  else if String.eqb k "dhcid" then Some (s ← or_refused (as_string v); add_base64 49 s)
  else if String.eqb k "openpgpkey" then Some (s ← or_refused (as_string v); add_base64 61 s)
  else if String.eqb k "ptr" then one (s ← as_string v; createPtr s)
  else if String.eqb k "mx" then many build_mx
  else if String.eqb k "afsdb" then many build_afsdb
  else None.

(** The builder: the owner's name once a record has been added, and the
    records in the order they were added. *)
Record builder : Type := Builder {
  b_owner : option string;
  b_rrs : list wire_rr
}.

Definition dot_end (s : string) : bool :=
  match String.get (String.length s - 1) s with Some c => Ascii.eqb c "." | None => false end.

Definition undotted (s : string) : string := if dot_end s then take_chars (String.length s - 1) s else s.

(** The name written with the first record, without a dot at its end.  A name
    with other empty labels does not fill the room reserved for it. *)
Definition owner_name (err : verdict string) (fqdn : string) : verdict string :=
  let name := undotted fqdn in
  match writeName name with
  | Some _ => if String.eqb (name_text name) name then Built name else Undefined
  | None => err
  end.

(** createRr for records with the same owner; [err] is what an exception in it
    becomes. *)
Definition add_all (err : verdict string) (fqdn : string) (ws : list wire_rr) (b : builder) : verdict builder :=
  match ws, b_owner b with
  | [], _ => Built b
  | _, Some name => Built (Builder (Some name) (b_rrs b ++ ws))
  | _, None => name ← owner_name err fqdn; Built (Builder (Some name) (b_rrs b ++ ws))
  end.

Fixpoint add_each (f : json -> verdict (list wire_rr)) (err : verdict string) (fqdn : string) (l : list json)
    (b : builder) : verdict builder :=
  match l with
  | [] => Built b
  | x :: l' => ws ← f x; b' ← add_all err fqdn ws b; add_each f err fqdn l' b'
  end.

(** A property: its handler, or [#n] with the number of a type, which is
    outside of the try block. *)
Definition build_field (fqdn k : string) (v : json) (b : builder) : verdict builder :=
  if String.eqb k "rr" then l ← or_refused (as_array v); add_each build_numbered Refused fqdn l b
  else
    match handler k v with
    | Some r => ws ← r; add_all Refused fqdn ws b
    | None =>
        match k with
        | String "#" n =>
            id ← or_failed (stoi n);
            if id =? 0 then Refused
            else l ← or_refused (as_array v); add_each (addRr id) Failed fqdn l b
        | _ => Refused
        end
    end.

Fixpoint build_fields (fqdn : string) (o : list (string * json)) (b : builder) : verdict builder :=
  match o with
  | [] => Built b
  | (k, v) :: o' => b' ← build_field fqdn k v b; build_fields fqdn o' b'
  end.

(** getTtl and sanitizeTtl. *)
Definition TTL_MAX : Z := 2147483647.

Definition getTtl (default_ttl : Z) (o : list (string * json)) : verdict Z :=
  match assoc_get "ttl" o with
  | Some v => z ← or_failed (as_int64 v); Built (uint32_of z)
  | None => Built default_ttl
  end.

Definition sanitizeTtl (ttl : Z) : Z := Z.min ttl TTL_MAX.

(** The record set: owner, TTL and records. *)
Record wire_set : Type := WireSet {
  s_owner : string;
  s_ttl : Z;
  s_rrs : list wire_rr
}.

(** The order of finish: the table by type; a type beyond the table throws as
    soon as two records are compared. *)
Definition sorting_class (t : Z) : Z :=
  match t with
  | 1 => 3 | 2 => 2 | 5 => 5 | 6 => 1 | 15 => 6 | 16 => 7 | 28 => 4
  | _ => if t <? 30 then 9 else 16
  end.

Definition class_le (a b : wire_rr) : Prop := sorting_class (w_type a) <= sorting_class (w_type b).

Definition sortable (ws : list wire_rr) : bool :=
  Nat.ltb (length ws) 2 || forallb (fun w => w_type w <? 255) ws.

(** The bytes before the index: 8 of the header and 16 of the tenant, the
    owner's name with the first record and a pointer to it with the others, 10
    for type, class, TTL and length, and the rdata.  Offsets in the buffer have
    16 bits. *)
Definition set_bytes (fqdn : string) (ws : list wire_rr) : nat :=
  24 + String.length fqdn + sum_list_with (fun w => 12 + String.length (w_rdata w))%nat ws.

Definition addressable (fqdn : string) (ws : list wire_rr) : bool :=
  Z.of_nat (set_bytes fqdn ws) <=? 65535.

(** build up to finish. *)
Definition build (fqdn : string) (default_ttl : Z) (j : json) : verdict wire_set :=
  o ← or_failed (as_object j);
  ttl ← getTtl default_ttl o;
  b ← build_fields fqdn o (Builder None []);
  if negb (addressable fqdn (b_rrs b)) then Undefined
  else if sortable (b_rrs b) then Built (WireSet (default ""%string (b_owner b)) (sanitizeTtl ttl) (b_rrs b))
  else Failed.

(** The index that finish writes: std::sort keeps no order among records of
    the same class. *)
Definition finished (s s' : wire_set) : Prop :=
  s_owner s' = s_owner s /\ s_ttl s' = s_ttl s /\ s_rrs s' ≡ₚ s_rrs s /\
  StronglySorted class_le (s_rrs s').

(** The entry as toJson iterates over it. *)
Definition read_set (s : wire_set) : option entry :=
  mapM (fun w => Rr (s_owner s) (s_ttl s) <$> read_rr w) (s_rrs s).
End Build.
