(* ===== verification/RrStored.v ===== *)
(** * What the server stores of a request

    Theorems on RestApi::build: a body whose fields stand for records, in the
    form toJson gives them, is stored as exactly these records; so a record set
    that is listed can be sent back.  The bodies the UI sends are covered by
    [body_of]; the types the server lists but does not take back are those of
    [savable]. *)

From stdpp Require Import sorting.
From S2P Require Import Prelude JsNumber JsValue ServerUtil Qargs Paging RrTypes RrJson DnsName RrWire RrBuild.

Local Open Scope Z_scope.

(** ** Integers *)

Lemma as_int64_jint (z : Z) : uint 32 z -> as_int64 (jint z) = Some z.
Proof.
  unfold uint. intros Hz. unfold as_int64, jint, int64_numeral.
  destruct (decide (z = 0)) as [->|]; [reflexivity|].
  destruct (take_digits_numeral z) as [c Hc]; [lia|].
  destruct (digits_plain _ _ _ _ Hc) as [_ ->]. rewrite Hc.
  destruct (Z.leb_spec (- 2 ^ 63) z); [|lia]. destruct (Z.ltb_spec z (2 ^ 63)); [done|lia].
Qed.

Lemma uint_wider z : uint 16 z -> uint 32 z.
Proof. unfold uint. lia. Qed.

Lemma uint32_same z : uint 32 z -> uint32_of z = z.
Proof. apply Z.mod_small. Qed.

Lemma uint16_same z : uint 16 z -> uint16_of z = z.
Proof. apply Z.mod_small. Qed.

Lemma mapM_cons_Some {A B} (f : A -> option B) x l y k :
  f x = Some y -> mapM f l = Some k -> mapM f (x :: l) = Some (y :: k).
Proof. intros Hx Hl. cbn. by rewrite Hx, Hl. Qed.

#[local] Instance class_le_dec : RelDecision class_le := fun a b => decide (_ <= _).
#[local] Instance class_le_trans : Transitive class_le.
Proof. intros a b c. unfold class_le. lia. Qed.
#[local] Instance class_le_total : Total class_le.
Proof. intros a b. unfold class_le. lia. Qed.

(** ** The records of a field *)

Section Stored.
Context `{Addresses}.

(** A record that is stored as it is when it is sent the way it is listed: an
    AAAA record has no handler, a PTR record is not listed, and a mailbox must
    come back from its mail address. *)
Definition savable (d : rdata) : Prop :=
  storable d /\
  match d with
  | TYPE_AAAA _ | TYPE_PTR _ => False
  | TYPE_SOA _ rname _ _ _ _ _ => fromEmail (ToEmail rname) = Some rname
  | TYPE_RP mbox _ => fromEmailIfEmail (ToEmail mbox) = Some mbox
  | TYPE_MX host _ => host <> ""%string
  | TYPE_SRV target _ _ port => target <> ""%string /\ port <> 0
  | TYPE_OTHER t _ => t <> 0 /\ t <> 41
  | _ => True
  end.

(** The SOA as it is sent when the UI has deleted its [rname]. *)
Definition soa_short (d : rdata) : option json :=
  match d with
  | TYPE_SOA mname rname serial refresh retry expire minimum =>
      Some (JObj [("mname", JStr mname); ("email", JStr (ToEmail rname)); ("serial", jint serial);
                  ("refresh", jint refresh); ("retry", jint retry); ("expire", jint expire);
                  ("minimum", jint minimum)])
  | _ => None
  end%string.

(** The value [v] of the property [k] stands for the records [ds]. *)
Definition field_of (k : string) (v : json) (ds : list rdata) : Prop :=
  if multi_name k
  then exists vs, v = JArr vs /\ ds <> [] /\ Forall2 (fun d x => rr_slot d = Some (k, x)) ds vs
  else exists d, ds = [d] /\ (rr_slot d = Some (k, v) \/ k = "soa"%string /\ soa_short d = Some v).

Lemma savable_create d : savable d -> exists w, create d = Some w.
Proof. intros [(w & Hw & _)%create_stored _]. by exists w. Qed.

Lemma dns_name_owner err fqdn : dns_name fqdn -> owner_name err fqdn = Built fqdn.
Proof.
  intros [Ht [b Hb]]. unfold owner_name.
  assert (E : undotted fqdn = fqdn).
  { unfold undotted, dot_end. destruct (String.get _ _) as [c|] eqn:Ec; [|done]. destruct (Ascii.eqb_spec c ".") as [->|]; [|done].
    exfalso. assert (Hs : fqdn = take_chars (String.length fqdn - 1) fqdn +:+ ".").
    { clear -Ec. induction fqdn as [|x [|y s] IH]; [done|by injection Ec as ->|].
      cbn [String.length] in *. replace (S (S (String.length s)) - 1)%nat with (S (S (String.length s) - 1)) in * by lia.
      cbn [take_chars String.get] in *. rewrite string_app_cons. f_equal. by apply IH. }
    rewrite Hs in Ht. by apply name_text_no_dot in Ht. }
  rewrite E, Hb. apply String.eqb_eq in Ht. by rewrite Ht.
Qed.

(** The builder has no other owner than [fqdn]. *)
Definition owned (fqdn : string) (b : builder) : Prop := b_owner b = None \/ b_owner b = Some fqdn.

Definition with_records (fqdn : string) (ws : list wire_rr) (b : builder) : builder :=
  match ws with [] => b | _ => Builder (Some fqdn) (b_rrs b ++ ws) end.

Lemma add_all_records err fqdn ws b :
  dns_name fqdn -> owned fqdn b -> add_all err fqdn ws b = Built (with_records fqdn ws b).
Proof.
  intros Hd Ho. unfold add_all. destruct ws as [|w ws]; [by destruct b as [[]]|].
  destruct Ho as [->| ->]; cbn; [|done]. by rewrite dns_name_owner.
Qed.

Lemma owned_with fqdn ws b : owned fqdn b -> owned fqdn (with_records fqdn ws b).
Proof. destruct ws; [done|]. by right. Qed.

Lemma with_records_app fqdn ws1 ws2 b :
  with_records fqdn ws2 (with_records fqdn ws1 b) = with_records fqdn (ws1 ++ ws2) b.
Proof. destruct ws1 as [|w1 ws1]; [done|]. destruct ws2; cbn; [by rewrite app_nil_r|]. by rewrite <- app_assoc. Qed.

(** One of the handlers that take an array. *)
Lemma each_create (f : json -> option wire_rr) k ds vs :
  (forall d x, savable d -> rr_slot d = Some (k, x) -> f x = create d) ->
  Forall2 (fun d x => rr_slot d = Some (k, x)) ds vs -> Forall savable ds ->
  each f (JArr vs) = mapM create ds.
Proof.
  intros Hf H2 Hs. unfold each. cbn [as_array mbind option_bind]. symmetry.
  induction H2 as [|d x ds vs Hx _ IH]; [done|]. apply Forall_cons in Hs as [Hd Hs]. cbn.
  rewrite (Hf d x Hd Hx), IH by done. done.
Qed.

(** The object of an SOA, an SRV, an MX or an AFSDB record. *)
Lemma build_soa_slot m r n1 n2 n3 n4 n5 x :
  let d := TYPE_SOA m r n1 n2 n3 n4 n5 in
  savable d -> rr_slot d = Some ("soa"%string, x) \/ soa_short d = Some x -> build_soa x = create d.
Proof.
  intros d [(_ & _ & H1 & H2 & H3 & H4 & H5) Hm] [[= <-]|[= <-]]; unfold build_soa;
    repeat progress (cbn -[as_int64 jint createSoa uint32_of fromEmail ToEmail]; rewrite ?Hm, ?as_int64_jint by done);
    by rewrite !uint32_same.
Qed.

Lemma build_srv_slot t p w q x :
  let d := TYPE_SRV t p w q in savable d -> rr_slot d = Some ("srv"%string, x) -> build_srv x = create d.
Proof.
  intros d [(_ & Hp & Hw & Hq) [Ht%String.eqb_neq Hz%Z.eqb_neq]] [= <-]. unfold build_srv.
  repeat progress (cbn -[as_int64 jint createSrv uint32_of uint16_of];
                   rewrite ?as_int64_jint by by apply uint_wider).
  rewrite !uint32_same by by apply uint_wider.
  rewrite Ht, Hz. cbn [orb]. by rewrite !uint16_same.
Qed.

Lemma build_mx_slot h p x :
  let d := TYPE_MX h p in savable d -> rr_slot d = Some ("mx"%string, x) -> build_mx x = create d.
Proof.
  intros d [[_ Hp] Hh%String.eqb_neq] [= <-]. unfold build_mx. cbn -[as_int64 jint createMx uint16_of].
  rewrite as_int64_jint by by apply uint_wider. cbn -[createMx uint16_of]. rewrite Hh. by rewrite uint16_same.
Qed.

Lemma build_afsdb_slot h p x :
  let d := TYPE_AFSDB h p in savable d -> rr_slot d = Some ("afsdb"%string, x) -> build_afsdb x = create d.
Proof.
  intros d [[_ Hp] _] [= <-]. unfold build_afsdb. cbn -[as_int64 jint createAfsdb uint16_of].
  rewrite as_int64_jint by by apply uint_wider. cbn -[createAfsdb uint16_of]. by rewrite uint16_same.
Qed.

Lemma build_rp_slot m t x :
  let d := TYPE_RP m t in savable d -> rr_slot d = Some ("rp"%string, x) -> build_rp x = create d.
Proof. intros d [_ Hm] [= <-]. unfold build_rp. cbn -[fromEmailIfEmail createRp ToEmail]. by rewrite Hm. Qed.

(** The handler of a field. *)
Lemma handler_multi k ds vs :
  ds <> [] -> Forall2 (fun d x => rr_slot d = Some (k, x)) ds vs -> Forall savable ds ->
  (forall n, k <> String "#" n) -> multi_name k = true ->
  handler k (JArr vs) = Some (or_refused (mapM create ds)).
Proof.
  intros Hne H2 Hs Hk Hm.
  assert (Hin : exists d x, d ∈ ds /\ savable d /\ rr_slot d = Some (k, x)).
  { destruct H2 as [|d x]; [done|]. apply Forall_cons in Hs as [? _]. exists d, x. split_and!; [by left|done..]. }
  destruct Hin as (d & x & _ & Hd & Hx).
  destruct d; try discriminate Hx; injection Hx as <- _; try discriminate Hm; try by destruct Hd.
  - change (Some (or_refused (each (fun x => s ← as_string x; createA s) (JArr vs))) = Some (or_refused (mapM create ds))).
    erewrite each_create; [done| |done|done]. by intros [] y Hy [= <-].
  - change (Some (or_refused (each (fun x => s ← as_string x; createNs s) (JArr vs))) = Some (or_refused (mapM create ds))).
    erewrite each_create; [done| |done|done]. by intros [] y Hy [= <-].
  - change (Some (or_refused (each build_mx (JArr vs))) = Some (or_refused (mapM create ds))).
    erewrite each_create; [done| |done|done]. intros [] y Hy Hsl; try discriminate Hsl. by apply build_mx_slot.
  - change (Some (or_refused (each (fun x => s ← as_string x; createTxt s) (JArr vs))) = Some (or_refused (mapM create ds))).
    erewrite each_create; [done| |done|done]. by intros [] y Hy [= <-].
  - change (Some (or_refused (each build_srv (JArr vs))) = Some (or_refused (mapM create ds))).
    erewrite each_create; [done| |done|done]. intros [] y Hy Hsl; try discriminate Hsl. by apply build_srv_slot.
  - change (Some (or_refused (each build_afsdb (JArr vs))) = Some (or_refused (mapM create ds))).
    erewrite each_create; [done| |done|done]. intros [] y Hy Hsl; try discriminate Hsl. by apply build_afsdb_slot.
  - by destruct (Hk (num_to_string (num_of_Z type))).
Qed.

Lemma add_base64_bytes t bs : Forall is_byte bs ->
  add_base64 t (Base64Encode bs) = Built [WireRr t (string_of_bytes bs)].
Proof. intros Hb. unfold add_base64, createBase64. by rewrite base64_bytes. Qed.

Lemma handler_single k d v :
  rr_slot d = Some (k, v) \/ k = "soa"%string /\ soa_short d = Some v -> savable d -> multi_name k = false ->
  exists w, create d = Some w /\ handler k v = Some (Built [w]).
Proof.
  intros Hx Hd Hm. destruct (savable_create d Hd) as [w Hw]. exists w. split; [done|].
  destruct Hx as [Hx|[-> Hx]].
  2: { destruct d; try discriminate Hx.
       change (Some (or_refused ((fun w => [w]) <$> build_soa v)) = Some (Built [w])).
       by rewrite (build_soa_slot _ _ _ _ _ _ _ _ Hd (or_intror Hx)), Hw. }
  destruct d; try discriminate Hx; assert (Hv := Hx); injection Hx as <- Hv'; try discriminate Hm.
  - subst v. change (Some (or_refused ((fun w => [w]) <$> createCname cname)) = Some (Built [w])).
    cbn [create] in Hw. by rewrite Hw.
  - change (Some (or_refused ((fun w => [w]) <$> build_soa v)) = Some (Built [w])).
    by rewrite (build_soa_slot _ _ _ _ _ _ _ _ Hd (or_introl Hv)), Hw.
  - change (Some (or_refused ((fun w => [w]) <$> build_rp v)) = Some (Built [w])).
    by rewrite (build_rp_slot _ _ _ Hd Hv), Hw.
  - subst v. change (Some (or_refused ((fun w => [w]) <$> createHinfo cpu os)) = Some (Built [w])).
    cbn [create] in Hw. by rewrite Hw.
  - subst v. change (Some (add_base64 49 (Base64Encode bytes)) = Some (Built [w])).
    unfold add_base64. cbn [create] in Hw. by rewrite Hw.
  - subst v. change (Some (add_base64 61 (Base64Encode bytes)) = Some (Built [w])).
    unfold add_base64. cbn [create] in Hw. by rewrite Hw.
Qed.

(** Records by number. *)
Lemma addRr_other t bs : savable (TYPE_OTHER t bs) ->
  exists w, create (TYPE_OTHER t bs) = Some w /\ addRr t (JStr (Base64Encode bs)) = Built [w].
Proof.
  intros Hs. destruct (savable_create _ Hs) as [w Hw]. exists w. split; [done|].
  destruct Hs as [(Ht & Hk & _) [Hz Ho]]. unfold addRr, uint in *.
  destruct (Z.ltb_spec t 0); [lia|]. destruct (Z.ltb_spec (2 ^ 16 - 1) t); [lia|]. cbn [orb].
  assert (Hf : existsb (Z.eqb t) [6; 2; 15] = false).
  { apply not_true_iff_false. intros (z & Hz' & ->%Z.eqb_eq)%existsb_exists. apply Hk.
    revert Hz'. cbn. intros [<-|[<-|[<-|[]]]]; apply (bool_decide_unpack _); vm_compute; exact I. }
  rewrite Hf. destruct (Z.eqb_spec t 41); [done|]. unfold add_base64. cbn [create] in Hw. by rewrite Hw.
Qed.

Lemma stoi_type t : 0 <= t < 2 ^ 16 -> stoi (num_to_string (num_of_Z t)) = Some t.
Proof. intros Ht. destruct (decide (t = 0)) as [->|]; [reflexivity|]. apply stoi_numeral. lia. Qed.

Lemma add_each_other t fqdn ds vs b :
  Forall2 (fun d x => rr_slot d = Some (String "#" (num_to_string (num_of_Z t)), x)) ds vs ->
  Forall savable ds -> 0 <= t < 2 ^ 16 -> dns_name fqdn -> owned fqdn b ->
  exists ws, mapM create ds = Some ws /\ add_each (addRr t) Failed fqdn vs b = Built (with_records fqdn ws b).
Proof.
  intros H2 Hs Ht Hd. revert b. induction H2 as [|d x ds vs Hx _ IH]; intros b Hb; [by exists []|].
  apply Forall_cons in Hs as [Hd1 Hs]. destruct d; try discriminate Hx.
  injection Hx as Hn <-.
  assert (type = t).
  { assert (Hu : uint 16 type) by apply Hd1. apply (f_equal stoi) in Hn. rewrite !stoi_type in Hn by done. congruence. }
  subst type. destruct (addRr_other t bytes Hd1) as (w & Hw & Ha).
  destruct (IH Hs (with_records fqdn [w] b)) as (ws & Hws & Hr); [by apply owned_with|].
  exists (w :: ws). split; [by apply mapM_cons_Some|]. cbn [add_each]. rewrite Ha. cbn [mbind verdict_bind].
  rewrite add_all_records by done. cbn [mbind verdict_bind]. rewrite Hr. by rewrite with_records_app.
Qed.

(** A field is turned into its records. *)
Lemma build_field_records fqdn k v ds b :
  field_of k v ds -> Forall savable ds -> dns_name fqdn -> owned fqdn b ->
  exists ws, mapM create ds = Some ws /\ build_field fqdn k v b = Built (with_records fqdn ws b).
Proof.
  intros Hf Hs Hd Hb. unfold field_of in Hf. destruct (multi_name k) eqn:Em.
  - destruct Hf as (vs & -> & Hne & H2). destruct ds as [|d ds]; [done|].
    assert (Hx : exists x, rr_slot d = Some (k, x)) by (inversion H2; subst; by eexists).
    destruct Hx as [x Hx]. assert (Hd1 := Hs). apply Forall_cons in Hd1 as [Hd1 _].
    assert (Hc : (exists t bs, d = TYPE_OTHER t bs) \/ forall n, k <> String "#" n).
    { destruct d; try discriminate Hx; try (left; by eexists _, _); right; intros n; by injection Hx as <- _. }
    destruct Hc as [(t & bs & ->)|Hno].
    + injection Hx as <- _. assert (Ht : uint 16 t) by apply Hd1.
      destruct (add_each_other t fqdn (TYPE_OTHER t bs :: ds) vs b) as (ws & Hws & Hr); try done.
      exists ws. split; [done|]. unfold build_field. cbn -[add_each stoi num_to_string].
      rewrite stoi_type by done. cbn -[add_each]. destruct (Z.eqb_spec t 0); [by destruct Hd1 as [_ [? _]]|]. done.
    + assert (Hws : exists ws, mapM create (d :: ds) = Some ws).
      { apply mapM_is_Some. eapply Forall_impl; [exact Hs|]. intros y [w Hw]%savable_create. by exists w. }
      destruct Hws as [ws Hws]. exists ws. split; [done|]. unfold build_field.
      assert (Hrr : String.eqb k "rr" = false) by (destruct d; try discriminate Hx; by injection Hx as <- _).
      rewrite Hrr. rewrite (handler_multi k (d :: ds) vs); try done.
      * rewrite Hws. cbn [or_refused mbind verdict_bind]. by rewrite add_all_records.
  - destruct Hf as (d & -> & Hx). rewrite Forall_singleton in Hs.
    destruct (handler_single k d v Hx Hs Em) as (w & Hw & Hh). exists [w]. split; [by apply mapM_cons_Some|].
    unfold build_field.
    assert (Hrr : String.eqb k "rr" = false).
    { destruct Hx as [Hx|[-> _]]; [|done]. destruct d; try discriminate Hx; by injection Hx as <- _. }
    rewrite Hrr, Hh. cbn [mbind verdict_bind]. by rewrite add_all_records.
Qed.

(** ** The records of a body *)

(** The properties of a body stand for the records [ds], in their order. *)
Inductive carries : list (string * json) -> list rdata -> Prop :=
| carries_nil : carries [] []
| carries_ttl v o ds : carries o ds -> carries (("ttl"%string, v) :: o) ds
| carries_field k v ds1 o ds2 : field_of k v ds1 -> carries o ds2 -> carries ((k, v) :: o) (ds1 ++ ds2).

Lemma mapM_app_Some {A B} (f : A -> option B) l1 l2 k1 k2 :
  mapM f l1 = Some k1 -> mapM f l2 = Some k2 -> mapM f (l1 ++ l2) = Some (k1 ++ k2).
Proof. rewrite !mapM_Some. apply Forall2_app. Qed.

Lemma build_fields_records fqdn o ds b :
  carries o ds -> Forall savable ds -> dns_name fqdn -> owned fqdn b ->
  exists ws, mapM create ds = Some ws /\ build_fields fqdn o b = Built (with_records fqdn ws b).
Proof.
  intros Hc Hs Hd. revert b. induction Hc as [|v o ds _ IH|k v ds1 o ds2 Hf _ IH]; intros b Hb.
  - by exists [].
  - destruct (IH Hs b Hb) as (ws & Hws & Hr). exists ws. split; [done|].
    cbn [build_fields]. change (build_field fqdn "ttl" v b) with (add_all Refused fqdn [] b).
    rewrite add_all_records by done. exact Hr.
  - apply Forall_app in Hs as [Hs1 Hs2].
    destruct (build_field_records _ _ _ _ _ Hf Hs1 Hd Hb) as (ws1 & Hw1 & H1).
    destruct (IH Hs2 (with_records fqdn ws1 b)) as (ws2 & Hw2 & H2); [by apply owned_with|].
    exists (ws1 ++ ws2). split; [by apply mapM_app_Some|]. cbn [build_fields]. rewrite H1. cbn [mbind verdict_bind].
    rewrite H2. by rewrite with_records_app.
Qed.

(** The types can be compared by finish. *)
Definition types_sortable (ds : list rdata) : Prop :=
  (length ds < 2)%nat \/ Forall (fun d => type_of d < 255) ds.

Lemma create_types ds ws : Forall savable ds -> mapM create ds = Some ws -> w_type <$> ws = type_of <$> ds.
Proof.
  intros Hs H2%mapM_Some. induction H2 as [|d w ds ws Hw _ IH]; [done|]. apply Forall_cons in Hs as [[Hd _] Hs].
  destruct (create_stored d Hd) as (w' & Hw' & Ht & _). cbn. rewrite IH by done. congruence.
Qed.

Lemma sortable_types ds ws :
  Forall savable ds -> mapM create ds = Some ws -> types_sortable ds -> sortable ws = true.
Proof.
  intros Hs Hw Ht. unfold sortable, types_sortable in *. assert (Hl := length_mapM _ _ _ Hw).
  apply orb_true_iff. destruct Ht as [Ht|Ht]; [left; apply Nat.ltb_lt; lia|right].
  apply forallb_forall. intros w Hin%list_elem_of_In. apply Z.ltb_lt.
  apply (list_elem_of_fmap_2 w_type) in Hin. rewrite (create_types _ _ Hs Hw) in Hin.
  apply list_elem_of_fmap in Hin as (d & -> & Hd). rewrite Forall_forall in Ht. by apply Ht.
Qed.

(** What the accessors read of records is what was created. *)
Lemma read_storable n t ds ws :
  Forall storable ds -> mapM create ds = Some ws ->
  mapM (fun w => Rr n t <$> read_rr w) ws = Some (Rr n t <$> ds).
Proof.
  intros Hs H2%mapM_Some. induction H2 as [|d w ds ws Hw _ IH]; [done|]. apply Forall_cons in Hs as [Hd Hs].
  destruct (create_stored d Hd) as (w' & Hw' & _ & Hr). rewrite fmap_cons. apply mapM_cons_Some; [|by apply IH].
  assert (w = w') as -> by congruence. by rewrite Hr.
Qed.

Lemma read_created n t ds ws :
  Forall savable ds -> mapM create ds = Some ws ->
  mapM (fun w => Rr n t <$> read_rr w) ws = Some (Rr n t <$> ds).
Proof. intros Hs. apply read_storable. eapply Forall_impl; [exact Hs|]. by intros d []. Qed.

Lemma mapM_Permutation {A B} (f : A -> option B) l l' k :
  l ≡ₚ l' -> mapM f l = Some k -> exists k', mapM f l' = Some k' /\ k' ≡ₚ k.
Proof.
  intros Hp. revert k. induction Hp as [|x l l' _ IH|x y l|l1 l2 l3 _ IH1 _ IH2]; intros k Hk.
  - by exists k.
  - apply mapM_Some in Hk. inversion Hk as [|? z ? k0 Hx Hk0]; subst. apply mapM_Some in Hk0.
    destruct (IH _ Hk0) as (k' & Hk' & ?). exists (z :: k'). split; [by apply mapM_cons_Some|by constructor].
  - apply mapM_Some in Hk. inversion Hk as [|? z ? k0 Hx Hk0]; subst. inversion Hk0 as [|? z2 ? k1 Hy Hk1]; subst.
    exists (z2 :: z :: k1). split; [|by constructor]. apply mapM_Some. by repeat constructor.
  - destruct (IH1 _ Hk) as (k' & Hk' & ?). destruct (IH2 _ Hk') as (k'' & ? & ?). exists k''. split; [done|].
    by etrans.
Qed.

Lemma addressable_Permutation fqdn ws ws' : ws ≡ₚ ws' -> addressable fqdn ws = addressable fqdn ws'.
Proof. intros Hp. unfold addressable, set_bytes. by rewrite Hp. Qed.

(** finish has a result. *)
Lemma finish_total s : exists s', finished s s'.
Proof.
  exists (WireSet (s_owner s) (s_ttl s)
(merge_sort class_le (s_rrs s))).
  unfold finished. cbn. split_and!; [done|done|apply merge_sort_Permutation|apply (StronglySorted_merge_sort _)].
Qed.

(** ** The body of a listed record set *)

Definition has_name (k : string) (d : rdata) : bool :=
  match rr_slot d with Some (n, _) => String.eqb n k | None => false end.

Definition group (k : string) (ds : list rdata) : list rdata := base.filter (fun d => has_name k d = true) ds.

Lemma groups_Permutation (ks : list string) (ds : list rdata) :
  NoDup ks -> Forall (fun d => exists k, k ∈ ks /\ has_name k d = true) ds ->
  mjoin ((fun k => group k ds) <$> ks) ≡ₚ ds.
Proof.
  intros Hnd. revert ds. induction Hnd as [|k ks Hk _ IH]; intros ds Hds.
  - destruct ds as [|d ds]; [done|]. apply Forall_cons in Hds as [(k & Hk & _) _]. by apply not_elem_of_nil in Hk.
  - etrans; [|apply (filter_app_complement (fun d => has_name k d = true))]. cbn. apply Permutation_app_head.
    rewrite <- (IH (base.filter (fun d => ~ has_name k d = true) ds)).
    + assert (E : forall k', k' ∈ ks -> group k' ds = group k' (base.filter (fun d => ~ has_name k d = true) ds)).
      { intros k' Hk'. unfold group. rewrite list_filter_filter. apply list_filter_iff. intros d.
        assert (has_name k' d = true -> has_name k d = true -> k' = k); [|clear IH; naive_solver].
        unfold has_name. destruct (rr_slot d) as [[n v]|]; [|done]. rewrite !String.eqb_eq. congruence. }
      clear -E. induction ks as [|k' ks IH]; [done|]. cbn. rewrite (E k') by by left. rewrite IH; [done|].
      intros k2 H2. apply E. by right.
    + apply Forall_forall. intros d [Hn Hd]%list_elem_of_filter. rewrite Forall_forall in Hds.
      destruct (Hds d Hd) as (k' & Hk' & Hh). apply elem_of_cons in Hk' as [->|Hk']; [done|]. by exists k'.
Qed.

(** The records listed under a name, and the values they are listed as. *)
Lemma group_named k e :
  Forall2 (fun d x => rr_slot d = Some (k, x)) (group k (rr_rdata <$> e)) (omap (named k) e).
Proof.
  induction e as [|x e IH]; [constructor|]. rewrite fmap_cons. unfold group in *. rewrite filter_cons.
  cbn [omap list_omap]. unfold named at 1, has_name. destruct (rr_slot (rr_rdata x)) as [[n v]|] eqn:Hs.
  - destruct (String.eqb_spec n k) as [->|]; [|exact IH]. cbn. by constructor.
  - exact IH.
Qed.

(** At most one record of each type that is not listed as an array. *)
Definition single_name (x : rr) : option string :=
  match rr_slot (rr_rdata x) with
  | Some (k, _) => if multi_name k then None else Some k
  | None => None
  end.

Definition one_each (e : entry) : Prop := NoDup (omap single_name e).

Lemma one_each_count k e : one_each e -> multi_name k = false -> (length (omap (named k) e) <= 1)%nat.
Proof.
  unfold one_each. intros H1 Hm. induction e as [|x e IH]; [cbn; lia|]. cbn [omap list_omap] in *.
  unfold named at 1. unfold single_name in H1 at 1. destruct (rr_slot (rr_rdata x)) as [[n v]|]; [|by apply IH].
  destruct (String.eqb_spec n k) as [->|Hn].
  - rewrite Hm in H1. apply NoDup_cons in H1 as [Hk _]. cbn [length].
    destruct (omap (named k) e) as [|w ws] eqn:E; [cbn; lia|exfalso]. apply Hk.
    assert (Hw : w ∈ omap (named k) e) by (rewrite E; by left). apply list_elem_of_omap in Hw as (y & Hy & Hw).
    apply list_elem_of_omap. exists y. split; [done|]. unfold named in Hw. unfold single_name.
    destruct (rr_slot (rr_rdata y)) as [[n' v']|]; [|done]. destruct (String.eqb_spec n' k) as [->|]; [by rewrite Hm|done].
  - apply IH. destruct (multi_name n); [done|]. by apply NoDup_cons in H1 as [_ ?].
Qed.

Lemma listed_field k e v :
  listed k e = Some v -> one_each e -> field_of k v (group k (rr_rdata <$> e)).
Proof.
  intros Hl H1. assert (H2 := group_named k e). unfold listed in Hl. cbv zeta in Hl. unfold field_of.
  destruct (multi_name k) eqn:Em.
  - destruct (omap (named k) e) as [|x xs] eqn:E; [done|]. injection Hl as <-. exists (x :: xs).
    split_and!; [done| |done]. intros Hg. rewrite Hg in H2. inversion H2.
  - apply (one_each_count k) in H1; [|done]. destruct (omap (named k) e) as [|x [|y xs]]; [done| |cbn in H1; lia].
    injection Hl as ->. inversion H2 as [|d ? ds ? Hd Hr E]; subst. inversion Hr; subst. exists d. auto.
Qed.

(** The short form of the last SOA. *)
Definition listed_short (e : entry) : option json := last (omap (fun x => soa_short (rr_rdata x)) e).

Lemma group_short e :
  Forall2 (fun d x => soa_short d = Some x) (group "soa" (rr_rdata <$> e)) (omap (fun x => soa_short (rr_rdata x)) e).
Proof.
  induction e as [|x e IH]; [constructor|]. rewrite fmap_cons. unfold group in *. rewrite filter_cons.
  cbn [omap list_omap]. unfold has_name. destruct (rr_rdata x); try exact IH. cbn. by constructor.
Qed.

Lemma short_field e v :
  listed_short e = Some v -> one_each e -> field_of "soa" v (group "soa" (rr_rdata <$> e)).
Proof.
  intros Hl H1. assert (H2 := group_short e). assert (H3 := group_named "soa" e).
  apply (one_each_count "soa") in H1; [|done]. apply Forall2_length in H3. unfold field_of. cbn [multi_name String.eqb].
  change (multi_name "soa") with false. cbn iota. unfold listed_short in Hl.
  destruct H2 as [|d x ds xs Hd H2]; [done|]. destruct ds; [|cbn in H3; lia]. inversion H2; subst.
  injection Hl as ->. exists d. auto.
Qed.

(** The object [o] has, apart from the TTL, what is listed of [e]. *)
Definition body_of (o : list (string * json)) (e : entry) : Prop :=
  NoDup o.*1 /\ assoc_get "fqdn" o = None /\
  forall k, meta_name k = false ->
    assoc_get k o = listed k e \/ k = "soa"%string /\ assoc_get k o = listed_short e.

Lemma body_carries o e :
  body_of o e -> one_each e -> Forall (fun x => listable x = true) e ->
  exists ds, carries o ds /\ ds ≡ₚ rr_rdata <$> e.
Proof.
  intros (Hnd & Hq & Hg) H1 Hl. set (ds := rr_rdata <$> e).
  exists (mjoin ((fun k => group k ds) <$> o.*1)). split.
  - assert (Ho : Forall (fun kv => kv.1 = "ttl"%string \/ field_of kv.1 kv.2 (group kv.1 ds)) o).
    { apply Forall_forall. intros [k v] Hin. apply (assoc_get_nodup _ _ _ Hnd) in Hin. cbn [fst snd].
      destruct (String.eqb_spec k "ttl") as [->|Ht]; [by left|]. right.
      assert (Hm : meta_name k = false).
      { unfold meta_name. destruct (String.eqb_spec k "fqdn") as [->|]; [congruence|].
        by apply String.eqb_neq in Ht as ->. }
      destruct (Hg k Hm) as [Hk|[-> Hk]]; rewrite Hk in Hin; [by apply listed_field|by apply short_field]. }
    clear -Ho. induction o as [|[k v] o IH]; [constructor|]. apply Forall_cons in Ho as [Hk Ho]. cbn [fst snd] in Hk.
    rewrite !fmap_cons. cbn [fst mjoin list_join]. destruct Hk as [->|Hk]; [|by apply carries_field, IH].
    assert (E : group "ttl" ds = []).
    { clear. unfold group. induction ds as [|d ds IH]; [done|]. rewrite filter_cons, IH.
      unfold has_name. destruct (rr_slot d) as [[n v]|] eqn:E; [|done].
      apply rr_slot_name in E. destruct (String.eqb_spec n "ttl") as [->|]; [discriminate E|done]. }
    rewrite E. by apply carries_ttl, IH.
  - apply groups_Permutation; [done|]. apply Forall_fmap, Forall_forall. intros x Hx. cbn.
    rewrite Forall_forall in Hl. destruct (listable_slot x (Hl x Hx)) as (n & v & Hs). exists n.
    unfold has_name. rewrite Hs, String.eqb_refl. split; [|done].
    destruct (assoc_get n o) as [w|] eqn:E; [by apply assoc_get_elem, (list_elem_of_fmap_2 fst) in E|exfalso].
    destruct (Hg n (rr_slot_name _ _ _ Hs)) as [Hn|[-> Hn]]; rewrite Hn in E.
    2: { unfold listed_short in E. apply last_None in E.
         assert (Hin : (rr_rdata x) ∈ group "soa" ds).
         { apply list_elem_of_filter. split; [unfold has_name; by rewrite Hs|by apply list_elem_of_fmap_2]. }
         assert (H2 := group_short e). fold ds in H2. rewrite E in H2. inversion H2 as [Eg|]. rewrite <- Eg in Hin.
         by apply not_elem_of_nil in Hin. }
    unfold listed in E. cbv zeta in E.
    assert (Hin : v ∈ omap (named n) e).
    { apply list_elem_of_omap. exists x. split; [done|]. unfold named. by rewrite Hs, String.eqb_refl. }
    destruct (omap (named n) e) as [|y ys] eqn:Eo; [by apply not_elem_of_nil in Hin|].
    destruct (multi_name n); [done|]. by apply last_None in E.
Qed.

(** The TTL a body is stored with. *)
Definition ttl_of (default_ttl : Z) (o : list (string * json)) (t : Z) : Prop :=
  match assoc_get "ttl" o with Some v => v = jint t | None => t = default_ttl end /\ 0 <= t <= TTL_MAX.

Lemma getTtl_of default_ttl o t :
  ttl_of default_ttl o t -> exists t', getTtl default_ttl o = Built t' /\ sanitizeTtl t' = t.
Proof.
  unfold ttl_of, getTtl, TTL_MAX, sanitizeTtl, TTL_MAX. intros [Ht Hb]. destruct (assoc_get "ttl" o).
  - subst j. exists t. rewrite as_int64_jint by (unfold uint; lia). cbn [or_failed mbind verdict_bind].
    rewrite uint32_same by (unfold uint; lia). split; [done|lia].
  - subst t. exists default_ttl. split; [done|lia].
Qed.

(** The records of [e] with the name and TTL they are stored with. *)
Definition owned_by (fqdn : string) (t : Z) (e : entry) : entry := (fun x => Rr fqdn t (rr_rdata x)) <$> e.

Definition saves (fqdn : string) (default_ttl : Z) (o : list (string * json)) (e' : entry) : Prop :=
  exists s, build fqdn default_ttl (JObj o) = Built s /\ (exists s', finished s s') /\
    forall s', finished s s' -> exists e'', read_set s' = Some e'' /\ e'' ≡ₚ e'.

(** A record set that can be sent in the form it is listed. *)
Record sendable (fqdn : string) (e : entry) : Prop := {
  send_savable : Forall (fun x => savable (rr_rdata x)) e;
  send_single : one_each e;
  send_name : dns_name fqdn;
  send_types : types_sortable (rr_rdata <$> e);
  send_size ws : mapM create (rr_rdata <$> e) = Some ws -> addressable fqdn ws = true
}.

Lemma savable_listable x : savable (rr_rdata x) -> listable x = true.
Proof. unfold listable, savable. destruct (rr_rdata x); try done. by intros [_ []]. Qed.

Lemma saves_body fqdn default_ttl o e t :
  body_of o e -> ttl_of default_ttl o t -> sendable fqdn e -> saves fqdn default_ttl o (owned_by fqdn t e).
Proof.
  intros Hb Ht [Hs H1 Hn Hty Hsize].
  assert (Hl : Forall (fun x => listable x = true) e).
  { eapply Forall_impl; [exact Hs|]. intros x. apply savable_listable. }
  destruct (body_carries o e Hb H1 Hl) as (ds & Hc & Hp).
  assert (Hds : Forall savable ds) by (rewrite Hp; by apply Forall_fmap).
  destruct (build_fields_records fqdn o ds (Builder None [])) as (ws & Hws & Hbf); [done..|by left|].
  destruct (getTtl_of _ _ _ Ht) as (t' & Ht' & <-).
  assert (Hsort : types_sortable ds).
  { unfold types_sortable in *. by rewrite Hp. }
  assert (Haddr : addressable fqdn ws = true).
  { destruct (mapM_Permutation create _ (rr_rdata <$> e) _ Hp Hws) as (ws' & Hws' & Hpw).
    rewrite <- (addressable_Permutation fqdn _ _ Hpw). by apply Hsize. }
  exists (WireSet (match ws with [] => "" | _ => fqdn end) (sanitizeTtl t') ws). split_and!.
  - unfold build. cbn [as_object or_failed mbind verdict_bind]. rewrite Ht', Hbf. cbn [mbind verdict_bind].
    destruct ws as [|w ws]; [cbn [with_records b_rrs b_owner]; by rewrite Haddr|].
    cbn [with_records b_rrs b_owner app default]. rewrite Haddr. cbn [negb].
    by rewrite (sortable_types ds) by done.
  - apply finish_total.
  - intros s' (En & Et & Er & _). cbn in En, Et, Er. unfold read_set. rewrite En, Et.
    destruct ws as [|w ws].
    { apply Permutation_nil_r in Er as ->. exists []. split; [done|].
      apply length_mapM in Hws. destruct ds; [|done]. apply Permutation_nil_l in Hp.
      unfold owned_by. destruct e; [done|discriminate Hp]. }
    assert (Hr := read_created fqdn (sanitizeTtl t') ds _ Hds Hws).
    destruct (mapM_Permutation _ _ (s_rrs s') _ (symmetry Er) Hr) as (e'' & He & Hpe). exists e''. split; [exact He|].
    rewrite Hpe, Hp. unfold owned_by. by rewrite <- list_fmap_compose.
Qed.

Lemma listing_body r e obj : toJson_entry (r :: e) = Some obj -> body_of (assoc_del "fqdn" obj) (r :: e).
Proof.
  intros He. destruct (toJson_entry_props _ _ _ He) as (Hnd & _ & _ & Hg). unfold body_of. split_and!.
  - eapply sublist_NoDup; [exact Hnd|]. apply fmap_sublist, assoc_del_sublist.
  - apply assoc_get_del_eq.
  - intros k Hk. left. rewrite assoc_get_del_ne; [by apply Hg|]. by intros <-.
Qed.

(** C22: What the server lists can be sent back: the body toJson makes of a
    record set whose values fit in their formats, without AAAA and PTR records
    and less its [fqdn], is stored by build and finish as the same records
    with the same name and TTL, in an order of finish's own. *)
Theorem put_listed fqdn default_ttl r e obj :
  toJson_entry (r :: e) = Some obj -> sendable fqdn (r :: e) ->
  Forall (fun x => labels x = fqdn /\ rr_ttl x = rr_ttl r) (r :: e) -> 0 <= rr_ttl r <= TTL_MAX ->
  exists s, build fqdn default_ttl (JObj (assoc_del "fqdn" obj)) = Built s /\
    (exists s', finished s s') /\
    forall s', finished s s' -> exists e', read_set s' = Some e' /\ e' ≡ₚ r :: e.
Proof.
  intros He Hs Hall Ht. assert (Hp : owned_by fqdn (rr_ttl r) (r :: e) = r :: e).
  { unfold owned_by. rewrite <- (list_fmap_id (r :: e)) at 2. apply list_fmap_ext. intros i x Hx.
    apply list_elem_of_lookup_2 in Hx. rewrite Forall_forall in Hall. destruct (Hall x Hx) as [<- <-]. by destruct x. }
  rewrite <- Hp. apply (saves_body fqdn default_ttl _ _ (rr_ttl r)); [by apply listing_body| |done].
  destruct (toJson_entry_props _ _ _ He) as (_ & _ & Htt & _). split; [|done].
  by rewrite assoc_get_del_ne, Htt by done.
Qed.

(** ** AAAA *)

Lemma build_fields_no_aaaa fqdn o b b' : build_fields fqdn o b = Built b' -> assoc_get "aaaa" o = None.
Proof.
  revert b. induction o as [|[k v] o IH]; intros b; [done|]. cbn [build_fields assoc_get].
  destruct (String.eqb_spec "aaaa" k) as [<-|Hk]; [done|].
  destruct (build_field fqdn k v b) as [b1| | |]; try done. apply IH.
Qed.

Lemma aaaa_listed e obj :
  toJson_entry e = Some obj -> Exists (fun x => exists s, rr_rdata x = TYPE_AAAA s) e ->
  is_Some (assoc_get "aaaa" obj).
Proof.
  intros He Hx. destruct e as [|r e]; [by inversion Hx|]. destruct (toJson_entry_props _ _ _ He) as (_ & _ & _ & Hg).
  rewrite Hg by done. apply Exists_exists in Hx as (x & Hx & a & Ha). unfold listed.
  change (multi_name "aaaa") with true. cbv zeta iota.
  assert (Hin : JStr a ∈ omap (named "aaaa") (r :: e)).
  { apply list_elem_of_omap. exists x. split; [done|]. unfold named. by rewrite Ha. }
  destruct (omap _ _); [by apply not_elem_of_nil in Hin|by eexists].
Qed.

Lemma aaaa_body fqdn default_ttl o s : is_Some (assoc_get "aaaa" o) -> build fqdn default_ttl (JObj o) <> Built s.
Proof.
  intros [v Hv]. unfold build. cbn [as_object or_failed mbind verdict_bind].
  destruct (getTtl default_ttl o); try done. cbn [mbind verdict_bind].
  destruct (build_fields fqdn o (Builder None [])) as [b| | |] eqn:E; try done.
  apply build_fields_no_aaaa in E. congruence.
Qed.

(** A record set with an AAAA record is listed with its addresses under
    [aaaa], a name that build has no handler for: no body with such a property
    is stored, so that such a set cannot be sent back as it is listed, nor
    with a change to any of its other records. *)
Theorem aaaa_not_stored fqdn default_ttl e obj :
  toJson_entry e = Some obj -> Exists (fun x => exists s, rr_rdata x = TYPE_AAAA s) e ->
  is_Some (assoc_get "aaaa" obj) /\
  forall o s, is_Some (assoc_get "aaaa" o) -> build fqdn default_ttl (JObj o) <> Built s.
Proof. intros He Hx. split; [by eapply aaaa_listed|]. intros o s. apply aaaa_body. Qed.
End Stored.

Module StoredDemo.
Import WireDemo.

Definition zone_soa : rr := Rr "ex.org" 300 (TYPE_SOA "ns1.ex.org" "host\.master.ex.org" 7 1 2 3 4).
Definition zone_rest : list rr :=
  [Rr "ex.org" 300 (TYPE_MX "mail.ex.org" 10); Rr "ex.org" 300 (TYPE_A "127.0.0.1");
   Rr "ex.org" 300 (TYPE_MX "backup.ex.org" 20)].

Lemma zone_set_sendable : sendable "ex.org" (zone_soa :: zone_rest).
Proof.
  unfold zone_soa, zone_rest. split.
  - repeat apply Forall_cons_2; try apply Forall_nil_2; (split; [|try done]); cbn [storable rr_rdata];
      unfold uint; try (split_and!; try lia); try (by eapply demo_name); try (by eapply demo_rdata); [exact demo_mailbox|].
    exists loopback4. done.
  - apply (bool_decide_unpack _). vm_compute. exact I.
  - by eapply demo_name.
  - right. repeat constructor.
  - intros ws [= <-]. vm_compute. reflexivity.
Qed.

Definition zone_listed : list (string * json) := default [] (toJson_entry (zone_soa :: zone_rest)).

Lemma put_listed_witness :
  exists s, build "ex.org" 3600 (JObj (assoc_del "fqdn" zone_listed)) = Built s /\
    (exists s', finished s s') /\
    forall s', finished s s' -> exists e', read_set s' = Some e' /\ e' ≡ₚ zone_soa :: zone_rest.
Proof.
  refine (put_listed "ex.org" 3600 zone_soa zone_rest zone_listed eq_refl zone_set_sendable _ _);
    [repeat constructor|cbn; unfold TTL_MAX; lia].
Defined.

Lemma aaaa_not_stored_witness :
  let e := [Rr "ex.org" 300 (TYPE_MX "mail.ex.org" 10); Rr "ex.org" 300 (TYPE_AAAA "::1")] in
  is_Some (assoc_get "aaaa" (default [] (toJson_entry e))) /\
  forall o s, is_Some (assoc_get "aaaa" o) -> build "ex.org" 3600 (JObj o) <> Built s.
Proof.
  intros e. refine (aaaa_not_stored "ex.org" 3600 e _ eq_refl _). apply Exists_cons_tl, Exists_cons_hd. by eexists.
Defined.

(** Numbers are cut to their width: the port 65536 is stored as 0. *)
Example port_wraps :
  build_srv (JObj [("target", JStr "sip.ex.org"); ("port", jint 65536)]%string)
  = createSrv 0 0 0 "sip.ex.org".
Proof. vm_compute. reflexivity. Qed.

(** Two records of a type that the table of finish does not have. *)
Example caa_fails :
  build "ex.org" 3600 (JObj [("#257", JArr [JStr "AQID"; JStr "AQID"])]%string) = Failed.
Proof. vm_compute. reflexivity. Qed.
End StoredDemo.
