(* ===== verification/Permissions.v ===== *)
(** * Permissions

    The permissions of a role (lib/proto/nsblast.proto) and their sets as bits
    of a 64-bit number (detail::getBit and getPerms of lib/AuthMgr.h). *)

From stdpp Require Import base list sorting.
From S2P Require Import Prelude.

Local Open Scope Z_scope.

Inductive permission : Type :=
  | USE_API | READ_ZONE | LIST_ZONES | CREATE_ZONE | UPDATE_ZONE | DELETE_ZONE | READ_VZONE
  | LIST_VZONES | CREATE_VZONE | UPDATE_VZONE | DELETE_VZONE | READ_RR | LIST_RRS | CREATE_RR
  | UPDATE_RR | DELETE_RR | CREATE_APIKEY | LIST_APIKEYS | GET_APIKEY | DELETE_APIKEY
  | GET_SELF_USER | DELETE_SELF_USER | CREATE_USER | LIST_USERS | GET_USER | UPDATE_USER
  | DELETE_USER | CREATE_ROLE | LIST_ROLES | GET_ROLE | UPDATE_ROLE | DELETE_ROLE
  | GET_SELF_TENANT | UPDATE_SELF_TENANT | DELETE_SELF_TENANT | CREATE_TENANT | LIST_TENANTS
  | GET_TENANT | UPDATE_TENANT | DELETE_TENANT | IMPERSONATE_TENANT | CONFIG_SLAVE
  | CREATE_BACKUP | LIST_BACKUPS | RESTORE_BACKUP | VERIFY_BACKUP | DELETE_BACKUP | METRICS.

#[export] Instance permission_eq_dec : EqDecision permission.
Proof. solve_decision. Defined.

(** The numbers of the enumeration. *)
Definition pb_number (p : permission) : Z :=
  match p with
  | USE_API => 0 | READ_ZONE => 1 | LIST_ZONES => 2 | CREATE_ZONE => 3 | UPDATE_ZONE => 4
  | DELETE_ZONE => 5 | READ_VZONE => 6 | LIST_VZONES => 7 | CREATE_VZONE => 8
  | UPDATE_VZONE => 9 | DELETE_VZONE => 10 | READ_RR => 11 | LIST_RRS => 12 | CREATE_RR => 13
  | UPDATE_RR => 14 | DELETE_RR => 15 | CREATE_APIKEY => 16 | LIST_APIKEYS => 17
  | GET_APIKEY => 18 | DELETE_APIKEY => 19 | GET_SELF_USER => 20 | DELETE_SELF_USER => 21
  | CREATE_USER => 22 | LIST_USERS => 23 | GET_USER => 24 | UPDATE_USER => 25
  | DELETE_USER => 26 | CREATE_ROLE => 27 | LIST_ROLES => 28 | GET_ROLE => 29
  | UPDATE_ROLE => 30 | DELETE_ROLE => 31 | GET_SELF_TENANT => 32 | UPDATE_SELF_TENANT => 33
  | DELETE_SELF_TENANT => 34 | CREATE_TENANT => 35 | LIST_TENANTS => 36 | GET_TENANT => 37
  | UPDATE_TENANT => 38 | DELETE_TENANT => 39 | IMPERSONATE_TENANT => 40 | CONFIG_SLAVE => 41
  | CREATE_BACKUP => 42 | LIST_BACKUPS => 43 | RESTORE_BACKUP => 44 | VERIFY_BACKUP => 45
  | DELETE_BACKUP => 46 | METRICS => 47
  end.

Definition getBit (p : permission) : Z := Z.shiftl 1 (pb_number p).

Definition getPerms (perms : list permission) : Z := fold_left (fun s v => Z.lor s (getBit v)) perms 0.

(** [(perms & bit) == bit] *)
Definition has_perm (perms : Z) (p : permission) : bool := Z.land perms (getBit p) =? getBit p.

(** Bits are those of numbers of 64 bits. *)
Lemma pb_number_range p : 0 <= pb_number p < 64.
Proof. by destruct p. Qed.

(** The permission with a number. *)
Definition all_permissions : list permission :=
  [USE_API; READ_ZONE; LIST_ZONES; CREATE_ZONE; UPDATE_ZONE; DELETE_ZONE; READ_VZONE;
   LIST_VZONES; CREATE_VZONE; UPDATE_VZONE; DELETE_VZONE; READ_RR; LIST_RRS; CREATE_RR;
   UPDATE_RR; DELETE_RR; CREATE_APIKEY; LIST_APIKEYS; GET_APIKEY; DELETE_APIKEY;
   GET_SELF_USER; DELETE_SELF_USER; CREATE_USER; LIST_USERS; GET_USER; UPDATE_USER;
   DELETE_USER; CREATE_ROLE; LIST_ROLES; GET_ROLE; UPDATE_ROLE; DELETE_ROLE; GET_SELF_TENANT;
   UPDATE_SELF_TENANT; DELETE_SELF_TENANT; CREATE_TENANT; LIST_TENANTS; GET_TENANT;
   UPDATE_TENANT; DELETE_TENANT; IMPERSONATE_TENANT; CONFIG_SLAVE; CREATE_BACKUP;
   LIST_BACKUPS; RESTORE_BACKUP; VERIFY_BACKUP; DELETE_BACKUP; METRICS].

Lemma pb_number_nth p : nth_error all_permissions (Z.to_nat (pb_number p)) = Some p.
Proof. by destruct p. Qed.

#[export] Instance pb_number_inj : Inj (=) (=) pb_number.
Proof.
  intros p q E. assert (Hp := pb_number_nth p). rewrite E, pb_number_nth in Hp. by injection Hp.
Qed.

Lemma getBit_testbit p n : 0 <= n -> Z.testbit (getBit p) n = (n =? pb_number p).
Proof.
  intros Hn. unfold getBit. assert (Hp := pb_number_range p).
  rewrite Z.shiftl_1_l, Z.pow2_bits_eqb by lia. apply Z.eqb_sym.
Qed.

Lemma has_perm_testbit perms p : has_perm perms p = Z.testbit perms (pb_number p).
Proof.
  unfold has_perm. assert (Hp := pb_number_range p). destruct (Z.testbit perms (pb_number p)) eqn:E.
  - apply Z.eqb_eq, Z.bits_inj'. intros n Hn. rewrite Z.land_spec, getBit_testbit by done.
    destruct (Z.eqb_spec n (pb_number p)) as [->|]; [by rewrite E|by rewrite andb_false_r].
  - apply Z.eqb_neq. intros Hl. apply (f_equal (fun z => Z.testbit z (pb_number p))) in Hl.
    rewrite Z.land_spec, getBit_testbit, E, Z.eqb_refl in Hl by lia. done.
Qed.

Lemma has_perm_lor a b p : has_perm (Z.lor a b) p = has_perm a p || has_perm b p.
Proof. rewrite !has_perm_testbit. apply Z.lor_spec. Qed.

Lemma has_perm_land a b p : has_perm (Z.land a b) p = has_perm a p && has_perm b p.
Proof. rewrite !has_perm_testbit. apply Z.land_spec. Qed.

Lemma has_perm_0 p : has_perm 0 p = false.
Proof. rewrite has_perm_testbit. apply Z.testbit_0_l. Qed.

Lemma has_perm_bit p q : has_perm (getBit q) p = bool_decide (p = q).
Proof.
  assert (Hp := pb_number_range p). rewrite has_perm_testbit, getBit_testbit by lia. apply eq_true_iff_eq.
  rewrite Z.eqb_eq, bool_decide_eq_true. split; [apply pb_number_inj|by intros ->].
Qed.

Lemma getPerms_has perms p : has_perm (getPerms perms) p = bool_decide (p ∈ perms).
Proof.
  unfold getPerms. assert (E : forall s, has_perm (fold_left (fun s v => Z.lor s (getBit v)) perms s) p
                                         = has_perm s p || bool_decide (p ∈ perms)).
  { induction perms as [|q perms IH]; intros s; cbn [fold_left].
    - rewrite bool_decide_eq_false_2 by apply not_elem_of_nil. by rewrite orb_false_r.
    - rewrite IH, has_perm_lor, has_perm_bit, <- orb_assoc. f_equal. apply eq_true_iff_eq.
      by rewrite orb_true_iff, !bool_decide_eq_true, elem_of_cons. }
  by rewrite E, has_perm_0.
Qed.

#[export] Hint Rewrite has_perm_lor has_perm_land has_perm_0 getPerms_has : perms.
