(* ===== verification/RrRest.v ===== *)
(** * The handler of /rr: RestApi::onResourceRecord

    The index of the server as a map from names to stored record sets, the
    lookup of a record set and its zone (RocksDbResource::Transaction::
    lookupEntryAndSoa), and the handler of GET, POST, PUT, PATCH and DELETE on
    a name (lib/RestApi.cpp).  The session, its tenant and its permissions are
    AuthMgr's, an argument; the parser of the body is boost::json's.  Writes of
    a request reach the index when the transaction is committed, so that an
    exception leaves it as it was.  The differences for zone transfers (addDiff)
    and AuthMgr's index of names go to other parts of the storage and are not
    modelled, apart from the exception of a request without a new SOA.  The
    request is for the session's own tenant and does not wait for replication
    (no arguments [tenant] and [wait]). *)

From stdpp Require Import gmap sorting.
From S2P Require Import Prelude JsNumber JsValue ServerUtil Qargs Paging RealKey RrTypes RrJson DnsName RrWire RrBuild Permissions.

Local Open Scope Z_scope.

(** ** Record sets in the index *)

Abbreviation ttl_rr := (Z * wire_rr)%type.

(** An entry: the header's tenant and zonelen, the owner's name and the records
    in the order of the index, each with its TTL. *)
Record zset : Type := ZSet {
  z_tenant : option string;
  z_zonelen : nat;
  z_owner : string;
  z_rrs : list ttl_rr
}.

#[export] Instance wire_rr_eq_dec : EqDecision wire_rr.
Proof. solve_decision. Defined.
#[export] Instance zset_eq_dec : EqDecision zset.
Proof. solve_decision. Defined.

Abbreviation index := (gmap string zset).

Definition is_soa (r : ttl_rr) : bool := w_type r.2 =? 6.

(** header().flags.soa *)
Definition flag_soa (s : zset) : bool := existsb is_soa (z_rrs s).

(** What toJson iterates over. *)
Definition z_entry `{Addresses} (s : zset) : option entry :=
  mapM (fun r => Rr (z_owner s) r.1 <$> read_rr r.2) (z_rrs s).

(** ** Finishing a builder *)

Definition rr_le (a b : ttl_rr) : Prop := class_le a.2 b.2.

(** The order std::sort gives, which may be any that respects the table. *)
Class Finish : Type := {
  finish : list ttl_rr -> list ttl_rr;
  finish_perm l : finish l ≡ₚ l;
  finish_sorted l : StronglySorted rr_le (finish l)
}.

(** finishRr throws for a second SOA. *)
Definition finish_set `{Finish} (tenant : option string) (zonelen : nat) (owner : string) (rrs : list ttl_rr)
    : verdict zset :=
  if (1 <? length (List.filter is_soa rrs))%nat then Failed
  else if negb (addressable owner rrs.*2) then Undefined
  else if sortable rrs.*2 then Built (ZSet tenant zonelen owner (finish rrs))
  else Failed.

(** Records are created under [fqdn]. *)
Definition owner_of (fqdn : string) (rrs : list ttl_rr) : verdict string :=
  match rrs with [] => Built ""%string | _ => owner_name Failed fqdn end.

(** ** The serial of a zone *)

Definition soa_serial (w : wire_rr) : option Z :=
  let b := w_rdata w in
  if (String.length b <? 20)%nat then None else getValueAt 4 b (String.length b - 20).

(** setValueAt at serialOffset. *)
Definition set_serial (v : Z) (w : wire_rr) : wire_rr :=
  let b := w_rdata w in
  WireRr (w_type w) (take_chars (String.length b - 20) b +:+ put_be 4 v +:+ drop_chars (String.length b - 16) b).

(** The first SOA, replaced. *)
Fixpoint update_soa (f : wire_rr -> wire_rr) (rrs : list ttl_rr) : list ttl_rr :=
  match rrs with
  | [] => []
  | r :: rrs' => if is_soa r then (r.1, f r.2) :: rrs' else r :: update_soa f rrs'
  end.

(** incrementSoaVersion: the serial of the first SOA of [rrs] becomes that of
    [old] and one, in 32 bits; exceptions without either SOA.  Accessors need
    20 bytes.  After 2^32 - 1 comes 0: onResourceRecord and addDiff assert, with
    dns_enable_ixfr, that the new serial is the greater one, which stops a build
    with assertions there; this is a build without. *)
Definition incrementSoaVersion (rrs old : list ttl_rr) : verdict (list ttl_rr) :=
  match List.find is_soa rrs, List.find is_soa old with
  | Some new, Some r =>
      match soa_serial r.2, soa_serial new.2 with
      | Some serial, Some _ => Built (update_soa (set_serial ((serial + 1) mod 2 ^ 32)) rrs)
      | _, _ => Undefined
      end
  | _, _ => Failed
  end.

(** ** Looking up a name and its zone *)

Fixpoint after_dot (s : string) : option string :=
  match s with
  | EmptyString => None
  | String c s' => if Ascii.eqb c "." then Some s' else after_dot s'
  end.

(** RrAndSoa: the record set, if there is one, and the set of the zone's apex;
    [None] in [x_zone] when the two are the same. *)
Record existing : Type := Existing {
  x_rr : option zset;
  x_zone : option zset
}.

Definition x_soa (x : existing) : option zset := match x_zone x with Some s => Some s | None => x_rr x end.
Definition isSame (x : existing) : bool := match x_zone x, x_rr x with None, Some _ => true | _, _ => false end.
Definition hasRr (x : existing) : bool := match x_rr x with Some _ => true | None => false end.

(** The loop takes as much fuel as the name is long; [Undefined] when a set
    names itself as its zone, where it does not end. *)
Fixpoint lookup_loop (fuel : nat) (m : index) (key : string) (first : bool) (rr : option zset) : verdict existing :=
  match fuel with
  | O => Undefined
  | S fuel' =>
      if String.eqb key "" then Built (Existing None None)
      else
        match m !! key with
        | Some e =>
            if flag_soa e then Built (if first then Existing (Some e) None else Existing rr (Some e))
            else if (String.length key <? z_zonelen e)%nat then Failed
            else lookup_loop fuel' m (drop_chars (String.length key - z_zonelen e) key) false
                   (if first then Some e else rr)
        | None =>
            match after_dot key with
            | Some key' => lookup_loop fuel' m key' false rr
            | None => Built (Existing None None)
            end
        end
  end.

Definition lookupEntryAndSoa (m : index) (fqdn : string) : verdict existing :=
  lookup_loop (S (String.length fqdn)) m fqdn true None.

(** ** Requests and replies *)

Inductive rest_method : Type := GET | POST | PUT | PATCH | DELETE | OTHER.

Record rest_request : Type := RestRequest {
  q_method : rest_method;
  q_target : string;
  q_operation : string;
  q_args : list (string * string);
  q_body : string
}.

(** What the handler uses of its libraries: expectBody of yahat's requests,
    documented for the methods with a body, and boost's tokenizer for lists
    separated by commas. *)
Class RestLibs : Type := {
  expectBody : rest_method -> bool;
  expects_body r : expectBody r = match r with POST | PUT | PATCH => true | _ => false end;
  tokenizer : string -> list string
}.

Definition getAppend (q : rest_request) : bool :=
  match assoc_get "append" (q_args q) with Some v => String.eqb v "true" | None => false end.

(** RestApi::parse: the parts of a path below the route. *)
Record Parsed : Type := ParsedPath {
  p_what : string;
  p_target : string;
  p_operation : string
}.

Definition parse (base : string) : Parsed :=
  let base := strip_front (fun c => Ascii.eqb c "/") base in
  match cut_slash base with
  | Some (what, target) =>
      match cut_slash target with
      | Some (target, operation) => ParsedPath what target operation
      | None => ParsedPath what target ""
      end
  | None => ParsedPath base "" ""
  end.

(** What the handler decides before the zone's serial: a reply at once, or a
    record set for the name ([None] to remove it), whether the serial is to be
    increased, and whether [newSoa] is set. *)
Inductive decision : Type :=
| Reply (code : Z) (value : option json)
| Change (set : option zset) (need_version_increment newSoa : bool).

(** ** Filters of DELETE *)

Definition rr_filters : list (string * Z) :=
  [("a", 1); ("aaaa", 28); ("ns", 2); ("txt", 16); ("cname", 5); ("mx", 15); ("ptr", 11); ("srv", 33);
   ("hinfo", 13); ("asfdb", 18)]%string.

Definition makeRrFilter `{RestLibs} (tokens : string) : verdict (list Z) :=
  or_refused (mapM (fun t => assoc_get t rr_filters) (tokenizer tokens)).

(** ** Merging records *)

(** createRr with the record's own TTL. *)
Definition stored (r : ttl_rr) : ttl_rr := (sanitizeTtl r.1, r.2).

Definition has_type (t : Z) (rrs : list ttl_rr) : bool := existsb (fun r => w_type r.2 =? t) rrs.

Definition appendable (t : Z) : bool := existsb (Z.eqb t) [1; 28; 16; 15; 2; 33; 11].

(** StorageBuilder::exists, but for the owner's name. *)
Definition same_rr (a b : ttl_rr) : bool :=
  (w_type a.2 =? w_type b.2) && String.eqb (w_rdata a.2) (w_rdata b.2).

(** The loop over the old records; [merged] starts with the [new] ones.
    [same_owner]: the labels of the owner of the merged records, the name of the
    request without a dot at its end, are those of the old ones. *)
Definition merge_old (append same_owner : bool) (new : list ttl_rr) (old merged : list ttl_rr) : list ttl_rr :=
  fold_left (fun merged r =>
    if negb (has_type (w_type r.2) new)
       || append && appendable (w_type r.2) && negb (same_owner && existsb (same_rr r) merged)
    then merged ++ [stored r] else merged) old merged.

Section Handler.
Context `{Addresses} `{Finish} `{RestLibs}.

(** The configuration: default_ttl, dns_validate_srv_targets_locally and
    dns_enable_ixfr; the parser of the body. *)
Context (default_ttl : Z) (check_targets ixfr : bool) (parseJson : string -> option json).

(** The session: its tenant and isAllowed. *)
Context (tenant : string) (allowed : permission -> string -> bool).

(** *** checkSrv *)

Definition srv_target (r : ttl_rr) : option (list string) :=
  if w_type r.2 =? 33 then
    match read_rr r.2 with
    | Some (TYPE_SRV target _ _ _) => Some [toLowerStr target]
    | _ => None
    end
  else Some [].

Definition has_address (m : index) (target : string) : bool :=
  match m !! target with
  | Some e => existsb (fun r => (w_type r.2 =? 1) || (w_type r.2 =? 28)) (z_rrs e)
  | None => false
  end.

Definition checkSrv (m : index) (rrs : list ttl_rr) : verdict unit :=
  if negb check_targets then Built tt
  else match mapM srv_target rrs with
       | Some targets => if forallb (has_address m) (mjoin targets) then Built tt else Refused
       | None => Undefined
       end.

(** *** The steps of onResourceRecord *)

(** The part of the name that forms the zone's, 0 at the apex: setZoneLen. *)
Definition zone_length (x : existing) : verdict nat :=
  match x_zone x with
  | Some soa => let n := String.length (z_owner soa) in if 255 <? Z.of_nat n then Failed else Built n
  | None => Built O
  end.

Definition old_tenant (x : existing) : option string := rr ← x_rr x; z_tenant rr.

(** The record set of the body. *)
Definition request_set (q : rest_request) (tn : option string) (zonelen : nat) : verdict zset :=
  j ← or_refused (parseJson (q_body q));
  s ← build (q_target q) default_ttl j;
  finish_set tn zonelen (s_owner s) ((fun w => (s_ttl s, w)) <$> s_rrs s).

Definition with_rrs (s : zset) (rrs : list ttl_rr) : zset := ZSet (z_tenant s) (z_zonelen s) (z_owner s) rrs.

Definition get_rr (key : string) (x : existing) : verdict decision :=
  if negb (allowed READ_RR key) then Built (Reply 403 None)
  else match x_rr x with
       | None => Built (Reply 404 None)
       | Some s =>
           match z_entry s with
           | Some e => o ← or_failed (toJson_entry e); Built (Reply 200 (Some (JObj o)))
           | None => Undefined
           end
       end.

Definition post_rr (m : index) (key : string) (x : existing) (sb : zset) : verdict decision :=
  if negb (allowed CREATE_RR key) then Built (Reply 403 None)
  else if hasRr x then Built (Reply 409 None)
  else match m !! key with
       | Some _ => Built (Reply 409 None)
       | None => Built (Change (Some sb) true false)
       end.

Definition put_rr (key : string) (x : existing) (sb : zset) : verdict decision :=
  if negb (allowed (if hasRr x then UPDATE_RR else CREATE_RR) key) then Built (Reply 403 None)
  else if isSame x then
    rrs ← incrementSoaVersion (z_rrs sb) (from_option z_rrs [] (x_soa x));
    Built (Change (Some (with_rrs sb rrs)) false true)
  else Built (Change (Some sb) true false).

(** The end of PATCH and DELETE: the merged records are finished, at the apex
    with the next serial. *)
Definition finish_merged (key : string) (x : existing) (zonelen : nat) (rrs : list ttl_rr) : verdict zset :=
  owner ← owner_of key rrs;
  rrs ← (if isSame x then incrementSoaVersion rrs (from_option z_rrs [] (x_soa x)) else Built rrs);
  finish_set (old_tenant x) zonelen owner rrs.

Definition patch_rr (q : rest_request) (key : string) (x : existing) (zonelen : nat) (sb : zset) : verdict decision :=
  match x_rr x with
  | None => put_rr key x sb
  | Some old =>
      if negb (allowed UPDATE_RR key) then Built (Reply 403 None)
      else
        let new := stored <$> z_rrs sb in
        s ← finish_merged key x zonelen
              (merge_old (getAppend q) (String.eqb (name_text (undotted key)) (z_owner old)) new (z_rrs old) new);
        Built (Change (Some s) (negb (isSame x)) false)
  end.

Definition delete_rr (q : rest_request) (key : string) (x : existing) (zonelen : nat) : verdict decision :=
  if negb (allowed DELETE_RR key) then Built (Reply 403 None)
  else match x_rr x with
       | None => Built (Reply 404 None)
       | Some old =>
           if String.eqb (q_operation q) "" then Built (Change None true false)
           else
             types ← makeRrFilter (q_operation q);
             let rrs := stored <$> List.filter (fun r => negb (existsb (Z.eqb (w_type r.2)) types)) (z_rrs old) in
             s ← finish_merged key x zonelen rrs;
             match rrs with
             | [] => Built (Change None true false)
             | _ => Built (Change (Some s) (negb (isSame x)) false)
             end
       end.

Definition decide_rr (m : index) (q : rest_request) (key : string) (x : existing) : verdict decision :=
  zonelen ← zone_length x;
  sb ← (if expectBody (q_method q) then s ← request_set q (old_tenant x) zonelen; _ ← checkSrv m (z_rrs s); Built s
        else Built (ZSet (old_tenant x) zonelen "" []));
  match q_method q with
  | GET => get_rr key x
  | POST => post_rr m key x sb
  | PUT => put_rr key x sb
  | PATCH => patch_rr q key x zonelen sb
  | DELETE => delete_rr q key x zonelen
  | OTHER => Built (Reply 405 None)
  end.

(** The entry of the zone's SOA with the next serial, under the zone's name. *)
Definition next_soa (soa : zset) : verdict zset :=
  owner ← owner_of (toLowerStr (z_owner soa)) (z_rrs soa);
  rrs ← incrementSoaVersion (stored <$> z_rrs soa) (z_rrs soa);
  finish_set (z_tenant soa) O owner rrs.

(** Writing to the transaction, up to the commit.  With dns_enable_ixfr the
    differences need [newSoa]. *)
Definition commit_rr (m : index) (key : string) (soa : zset) (s : option zset) (bump newSoa : bool) : verdict index :=
  let m1 := match s with Some s => <[key := s]> m | None => delete key m end in
  m2 ← (if bump then z ← next_soa soa; Built (<[toLowerStr (z_owner soa) := z]> m1) else Built m1);
  if ixfr && negb (bump || newSoa) then Failed else Built m2.

(** The handler; [Refused] and [Failed] leave it as a 400 and a 500. *)
Definition rr_handler (m : index) (q : rest_request) : verdict (Z * option json * index) :=
  let key := toLowerStr (q_target q) in
  x ← lookupEntryAndSoa m key;
  match x_soa x with
  | None => Built (404, None, m)
  | Some soa =>
      match z_tenant soa with
      | None => Built (500, None, m)
      | Some id =>
          if negb (String.eqb id tenant) then Built (403, None, m)
          else if isSame x && match q_method q with POST | DELETE => true | _ => false end
          then Built (400, None, m)
          else
            d ← decide_rr m q key x;
            match d with
            | Reply code value => Built (code, value, m)
            | Change s bump newSoa =>
                m' ← commit_rr m key soa s bump newSoa;
                Built (if hasRr x then 200 else 201, None, m')
            end
      end
  end.

(** The code of the response, its value and the index afterwards. *)
Definition onResourceRecord (m : index) (q : rest_request) : option (Z * option json * index) :=
  match rr_handler m q with
  | Built r => Some r
  | Refused => Some (400, None, m)
  | Failed => Some (500, None, m)
  | Undefined => None
  end.
End Handler.

Module RestDemo.
#[export] Instance rr_le_dec : RelDecision rr_le := fun a b => decide (_ <= _).
#[export] Instance rr_le_trans : Transitive rr_le.
Proof. intros a b c. unfold rr_le, class_le. lia. Qed.
#[export] Instance rr_le_total : Total rr_le.
Proof. intros a b. unfold rr_le, class_le. lia. Qed.

(** Tokens between commas, less the empty ones. *)
#[export] Instance demo_libs : RestLibs := {|
  expectBody := fun r : rest_method =>
    match r with POST | PUT | PATCH => true | _ => false end;
  expects_body := fun r => eq_refl;
  tokenizer := fun s : string =>
    List.filter (fun t => negb (String.eqb t "")) (split_on "," s)
|}.

(** A stable sort. *)
#[export] Program Instance merge_finish : Finish := {| finish := merge_sort rr_le |}.
Next Obligation. apply merge_sort_Permutation. Qed.
Next Obligation. apply (StronglySorted_merge_sort _). Qed.
End RestDemo.
