(* ===== verification/RrIndex.v ===== *)
(** * What onResourceRecord does to the index

    The invariant of the index ([store_ok]), the lookup of a name's zone under
    it, and theorems on the handler of [RrRest]: the invariant is kept, only
    the name and its zone change and only for the zone's tenant, and the serial
    of the zone goes up with every change. *)

From stdpp Require Import gmap sorting.
From S2P Require Import Prelude JsNumber JsValue ServerUtil Qargs Paging RrTypes RrJson DnsName RrWire RrBuild RrStored Permissions RrRest.

Local Open Scope Z_scope.

(** ** Names in lower case *)

Definition ascii256 : list ascii := ascii_of_nat <$> seq 0 256.

Lemma ascii_in (c : ascii) : c ∈ ascii256.
Proof.
  unfold ascii256. apply list_elem_of_fmap. exists (nat_of_ascii c). rewrite ascii_nat_embedding. split; [done|].
  apply elem_of_seq. assert (H := nat_ascii_bounded c). lia.
Qed.

Lemma all_ascii (P : ascii -> bool) (c : ascii) : forallb P ascii256 = true -> P c = true.
Proof. rewrite forallb_forall. intros H. by apply H, list_elem_of_In, ascii_in. Qed.

Lemma char_ok_lower first c : char_ok first (c_tolower c) = char_ok first c.
Proof.
  apply eqb_true_iff. destruct first.
  - apply (all_ascii (fun c => Bool.eqb (char_ok true (c_tolower c)) (char_ok true c))). vm_compute. reflexivity.
  - apply (all_ascii (fun c => Bool.eqb (char_ok false (c_tolower c)) (char_ok false c))). vm_compute. reflexivity.
Qed.

Lemma dot_lower c : Ascii.eqb (c_tolower c) "." = Ascii.eqb c ".".
Proof.
  apply eqb_true_iff. apply (all_ascii (fun c => Bool.eqb (Ascii.eqb (c_tolower c) ".") (Ascii.eqb c "."))).
  vm_compute. reflexivity.
Qed.

Lemma c_tolower_idem c : c_tolower (c_tolower c) = c_tolower c.
Proof.
  apply Ascii.eqb_eq. apply (all_ascii (fun c => Ascii.eqb (c_tolower (c_tolower c)) (c_tolower c))).
  vm_compute. reflexivity.
Qed.

Lemma lower_idem s : toLowerStr (toLowerStr s) = toLowerStr s.
Proof. induction s as [|c s IH]; [done|]. cbn. by rewrite c_tolower_idem, IH. Qed.

Lemma length_lower s : String.length (toLowerStr s) = String.length s.
Proof. induction s as [|c s IH]; [done|]. cbn. by rewrite IH. Qed.

Lemma lower_app a b : toLowerStr (a +:+ b) = toLowerStr a +:+ toLowerStr b.
Proof. induction a as [|c a IH]; [done|]. rewrite !string_app_cons. cbn. by rewrite IH. Qed.

Lemma take_lower n s : take_chars n (toLowerStr s) = toLowerStr (take_chars n s).
Proof. revert s. induction n as [|n IH]; intros [|c s]; [done..|]. cbn. by rewrite IH. Qed.

Lemma drop_lower n s : drop_chars n (toLowerStr s) = toLowerStr (drop_chars n s).
Proof. revert s. induction n as [|n IH]; intros [|c s]; [done..|]. cbn. by rewrite IH. Qed.

Lemma get_lower n s : String.get n (toLowerStr s) = c_tolower <$> String.get n s.
Proof. revert s. induction n as [|n IH]; intros [|c s]; [done..|]. cbn. by rewrite IH. Qed.

Lemma segment_len_lower first s : segment_len first (toLowerStr s) = segment_len first s.
Proof. revert first. induction s as [|c s IH]; intros first; [done|]. cbn. by rewrite dot_lower, char_ok_lower, IH. Qed.

Lemma lower_empty s : String.eqb (toLowerStr s) "" = String.eqb s "".
Proof. by destruct s. Qed.

Lemma write_segments_lower fuel s : is_Some (write_segments fuel s) -> is_Some (write_segments fuel (toLowerStr s)).
Proof.
  revert s. induction fuel as [|fuel IH]; intros s; [done|]. cbn [write_segments]. rewrite lower_empty.
  destruct (String.eqb s ""); [done|]. unfold parseDomainNameSegment. rewrite lower_empty.
  destruct (String.eqb s ""); [done|]. rewrite segment_len_lower. destruct (segment_len true s) as [n|]; [|done].
  cbn [mbind option_bind]. rewrite length_lower, take_lower, drop_lower. unfold save_label. rewrite length_lower.
  intros [b Hb]. destruct (Nat.eqb n 0); [|destruct (63 <? _)%nat; [done|]]; cbn [mbind option_bind] in *;
    (destruct (write_segments fuel (drop_chars _ s)) as [r|] eqn:E; [|done]);
    (destruct (IH (drop_chars (Nat.min (n + 1) (String.length s)) s)) as [r' ->]; [by rewrite E|]); by eexists.
Qed.

Lemma writeName_lower s : is_Some (writeName s) -> is_Some (writeName (toLowerStr s)).
Proof. unfold writeName. rewrite length_lower. destruct (256 <=? _)%nat; [done|]. apply write_segments_lower. Qed.

Lemma split_on_lower s : split_on "." (toLowerStr s) = toLowerStr <$> split_on "." s.
Proof.
  induction s as [|c s IH]; [done|]. cbn. rewrite dot_lower, IH.
  destruct (Ascii.eqb c "."); [done|]. by destruct (split_on "." s).
Qed.

Lemma join_lower ls : join_labels (toLowerStr <$> ls) = toLowerStr (join_labels ls).
Proof.
  unfold join_labels. induction ls as [|l ls IH]; [done|]. destruct ls as [|l' ls]; [done|].
  change (join "." (toLowerStr <$> l :: l' :: ls)) with (toLowerStr l +:+ "." +:+ join "." (toLowerStr <$> l' :: ls)).
  change (join "." (l :: l' :: ls)) with (l +:+ "." +:+ join "." (l' :: ls)). by rewrite IH, !lower_app.
Qed.

Lemma name_text_lower s : name_text (toLowerStr s) = toLowerStr (name_text s).
Proof.
  unfold name_text, name_labels. rewrite split_on_lower, <- join_lower. f_equal.
  induction (split_on "." s) as [|l ls IH]; [done|]. cbn. rewrite lower_empty.
  destruct (String.eqb l ""); cbn; [done|]. by rewrite IH.
Qed.

(** ** The ends of names *)

Lemma dot_end_lower s : dot_end (toLowerStr s) = dot_end s.
Proof.
  unfold dot_end. rewrite length_lower, get_lower. destruct (String.get _ s); [|done]. apply dot_lower.
Qed.

Lemma dot_end_cons c s : s <> ""%string -> dot_end (String c s) = dot_end s.
Proof.
  intros Hs. destruct s as [|d s]; [done|]. unfold dot_end. cbn [String.length].
  replace (S (S (String.length s)) - 1)%nat with (S (S (String.length s) - 1)) by lia. done.
Qed.

(** [z] is the name [k] or one above it. *)
Definition suffix_of (z k : string) : Prop := k = z \/ exists p, k = p +:+ String "." z.

Lemma suffix_refl k : suffix_of k k.
Proof. by left. Qed.

Lemma suffix_trans a b c : suffix_of a b -> suffix_of b c -> suffix_of a c.
Proof.
  intros [->|[p ->]] [->|[q ->]]; [by left|right; by exists q|right; by exists p|].
  right. exists (q +:+ String "." p). by rewrite string_app_assoc.
Qed.

Lemma suffix_dot_end z k : suffix_of z k -> z <> ""%string -> dot_end k = dot_end z.
Proof.
  intros [->|[p ->]] Hz; [done|]. induction p as [|c p IH]; [by apply dot_end_cons|].
  rewrite string_app_cons, dot_end_cons; [done|]. by destruct p.
Qed.

Lemma suffix_drop z k : suffix_of z k -> drop_chars (String.length k - String.length z) k = z.
Proof.
  intros [->|[p ->]]; [by rewrite Nat.sub_diag|].
  rewrite length_string_app. cbn [String.length].
  replace (String.length p + S (String.length z) - String.length z)%nat with (String.length (p +:+ "."))
    by (rewrite length_string_app; cbn; lia).
  assert (E : p +:+ String "." z = (p +:+ ".") +:+ z) by by rewrite string_app_assoc. rewrite E. apply drop_chars_app.
Qed.

Lemma suffix_length z k : suffix_of z k -> (String.length z <= String.length k)%nat.
Proof. intros [->|[p ->]]; [done|]. rewrite length_string_app. cbn. lia. Qed.

Lemma suffix_antisym a k : suffix_of a k -> suffix_of k a -> a = k.
Proof.
  intros [->|[p ->]] Hk; [done|]. apply suffix_length in Hk. rewrite length_string_app in Hk. cbn in Hk. lia.
Qed.

Lemma suffix_shorter a b k :
  suffix_of a k -> suffix_of b k -> (String.length a <= String.length b)%nat -> suffix_of a b.
Proof.
  intros Ha [->|[p ->]] Hl; [done|]. revert Ha. induction p as [|c p IH].
  - intros [<-|[[|d q] Hq]]; [rewrite length_string_app in Hl; cbn in Hl; lia|injection Hq as ->; by left|].
    injection Hq as _ ->. right. by exists q.
  - intros [<-|[[|d q] Hq]]; [rewrite length_string_app in Hl; cbn in Hl; lia| |].
    + injection Hq as _ <-. rewrite length_string_app in Hl. cbn in Hl. lia.
    + injection Hq as _ Hq. apply IH. right. by exists q.
Qed.

Lemma suffix_total a b k : suffix_of a k -> suffix_of b k -> suffix_of a b \/ suffix_of b a.
Proof.
  intros Ha Hb. destruct (Nat.le_ge_cases (String.length a) (String.length b)) as [Hl|Hl].
  - left. by apply (suffix_shorter a b k).
  - right. by apply (suffix_shorter b a k).
Qed.

Lemma after_dot_some k k' : after_dot k = Some k' ->
  (String.length k' < String.length k)%nat /\ suffix_of k' k /\
  forall b, suffix_of b k -> b = k \/ suffix_of b k'.
Proof.
  induction k as [|c k IH]; [done|]. cbn [after_dot]. destruct (Ascii.eqb_spec c ".") as [->|Hc].
  - intros [= <-]. split_and!; [cbn; lia|right; by exists ""%string|].
    intros b [<-|[[|d p] Hp]]; [by left|right; injection Hp as ->; by left|right; right].
    injection Hp as _ ->. by exists p.
  - intros (Hl & Hs & Hb)%IH. split_and!; [cbn; lia| |].
    + destruct Hs as [<-|[p ->]]; [lia|]. right. by exists (String c p).
    + intros b [<-|[[|d p] Hp]]; [by left|by injection Hp as Hd _|]. injection Hp as _ Hp.
      destruct (Hb b) as [->|]; [right; by exists p| |by right].
      exfalso. apply (f_equal String.length) in Hp.
      rewrite length_string_app in Hp. cbn in Hp. lia.
Qed.

Lemma after_dot_none k b : after_dot k = None -> suffix_of b k -> b = k.
Proof.
  intros Hk [->|[p ->]]; [done|]. exfalso. revert Hk. induction p as [|c p IH]; [done|].
  rewrite string_app_cons. cbn. by destruct (Ascii.eqb c ".").
Qed.

(** ** The invariant of the index *)

(** An SOA record as createSoa makes it. *)
Definition soa_made (r : ttl_rr) : Prop :=
  exists mname rname serial refresh retry expire minimum,
    createSoa mname rname serial refresh retry expire minimum = Some r.2.

Definition soas (rrs : list ttl_rr) : list ttl_rr := List.filter is_soa rrs.

(** A record set under the key [k]: keys are in lower case, the owner is the
    key but for its case, and the builder has finished with it. *)
Record set_wf (k : string) (s : zset) : Prop := {
  wf_key : toLowerStr k = k /\ k <> ""%string /\ dot_end k = false;
  wf_owner : z_rrs s <> [] -> toLowerStr (z_owner s) = k /\ owner_name Failed k = Built k;
  wf_one : (length (soas (z_rrs s)) <= 1)%nat;
  wf_soa : Forall soa_made (soas (z_rrs s));
  wf_size : addressable (z_owner s) (z_rrs s).*2 = true /\ sortable (z_rrs s).*2 = true;
  wf_ttl : Forall (fun r => r.1 <= TTL_MAX) (z_rrs s)
}.

(** A set without SOA names its zone by the length of the zone's name. *)
Definition zone_ok (m : index) (k : string) (s : zset) : Prop :=
  flag_soa s = false ->
  exists z soa, suffix_of z k /\ z_zonelen s = String.length z /\ m !! z = Some soa /\ flag_soa soa = true.

Definition store_ok (m : index) : Prop := map_Forall (fun k s => set_wf k s /\ zone_ok m k s) m.

(** ** Looking up the zone of a name *)

(** The nearest name with a record set, at or above [k], and its zone. *)
Record authority (m : index) (k a : string) (e : zset) (z : string) (soa : zset) : Prop := {
  auth_above : suffix_of a k;
  auth_set : m !! a = Some e;
  auth_nearest b : suffix_of b k -> is_Some (m !! b) -> suffix_of b a;
  auth_zone : if flag_soa e then z = a /\ soa = e
              else suffix_of z a /\ z_zonelen e = String.length z /\ m !! z = Some soa /\ flag_soa soa = true
}.

Definition no_authority (m : index) (k : string) : Prop := forall b, suffix_of b k -> m !! b = None.

Lemma authority_up m k k' a e z soa :
  m !! k = None -> after_dot k = Some k' -> authority m k' a e z soa -> authority m k a e z soa.
Proof.
  intros Hk (_ & Hs & Hb)%after_dot_some [Ha He Hn Hz]. split; [by eapply suffix_trans|done| |done].
  intros b [->|Hb']%Hb [s Hm]; [congruence|]. apply Hn; [done|by eexists].
Qed.

Section Lookup.
Context (m : index).
Hypothesis Hm : store_ok m.

Lemma store_nonempty : m !! ""%string = None.
Proof. destruct (m !! ""%string) as [s|] eqn:E; [|done]. by destruct (Hm _ _ E) as [[(_ & ? & _)] _]. Qed.

Lemma no_authority_empty : no_authority m "".
Proof.
  intros b [<-|[[|c p] Hp]]; [apply store_nonempty|done..].
Qed.

(** The zone's set is found at once. *)
Lemma lookup_zone fuel z soa rr :
  m !! z = Some soa -> flag_soa soa = true -> (0 < fuel)%nat ->
  lookup_loop fuel m z false rr = Built (Existing rr (Some soa)).
Proof.
  intros Hz Hf Hfuel. destruct fuel as [|fuel]; [lia|]. cbn [lookup_loop].
  destruct (String.eqb_spec z "") as [->|_]; [by rewrite store_nonempty in Hz|]. by rewrite Hz, Hf.
Qed.

Lemma lookup_loop_spec fuel k first rr :
  (String.length k < fuel)%nat ->
  (no_authority m k /\ lookup_loop fuel m k first rr = Built (Existing None None)) \/
  exists a e z soa, authority m k a e z soa /\
    lookup_loop fuel m k first rr
    = Built (if first && String.eqb a k
             then Existing (Some e) (if flag_soa e then None else Some soa) else Existing rr (Some soa)).
Proof.
  revert k first. induction fuel as [|fuel IH]; intros k first Hl; [lia|]. cbn [lookup_loop].
  destruct (String.eqb_spec k "") as [->|Hne]; [left; split; [apply no_authority_empty|done]|].
  destruct (m !! k) as [e|] eqn:Ek.
  - right. destruct (Hm _ _ Ek) as [_ Hz]. unfold zone_ok in Hz. destruct (flag_soa e) eqn:Ef.
    + exists k, e, k, e. rewrite String.eqb_refl, andb_true_r. split; [|rewrite Ef; by destruct first].
      split; [apply suffix_refl|done|auto|by rewrite Ef].
    + destruct (Hz eq_refl) as (z & soa & Hs & Hlen & Hzm & Hsf). exists k, e, z, soa. split.
      * split; [apply suffix_refl|done|auto|by rewrite Ef].
      * assert (Hle := suffix_length _ _ Hs). rewrite Hlen, (proj2 (Nat.ltb_ge _ _)), suffix_drop by done.
        rewrite (lookup_zone fuel z soa) by (done || (destruct k; cbn in Hl; [done|lia])).
        rewrite String.eqb_refl, andb_true_r, Ef. by destruct first.
  - destruct (after_dot k) as [k'|] eqn:Ed.
    + destruct (after_dot_some _ _ Ed) as (Hlk & Hs & Hb). destruct (IH k' false) as [[Hn Hr]|(a & e & z & soa & Ha & Hr)]; [lia| |].
      * left. split; [|done]. intros b [->|Hb']%Hb; [done|by apply Hn].
      * right. exists a, e, z, soa. split; [by eapply authority_up|]. rewrite Hr. cbn [andb].
        destruct (String.eqb_spec a k) as [->|_]; [|by rewrite andb_false_r].
        destruct Ha as [_ Ha _ _]. congruence.
    + left. split; [|done]. intros b Hb. by rewrite (after_dot_none _ _ Ed Hb).
Qed.

Lemma authority_same k e' a e z soa :
  authority m k a e z soa -> m !! k = Some e' -> a = k /\ e = e'.
Proof.
  intros [Ha He Hn _] Hk. assert (Hka : suffix_of k a) by (apply Hn; [apply suffix_refl|by eexists]).
  rewrite (suffix_antisym _ _ Ha Hka) in *. split; [done|congruence].
Qed.

Lemma authority_unique k a e z soa a' e' z' soa' :
  authority m k a e z soa -> authority m k a' e' z' soa' -> z = z' /\ soa = soa'.
Proof.
  intros [Ha He Hn Hz] [Ha' He' Hn' Hz'].
  assert (a = a') as <- by (apply suffix_antisym; eauto). assert (e = e') as <- by congruence.
  destruct (flag_soa e); [destruct Hz, Hz'; by subst|].
  destruct Hz as (Hs & Hl & Hm1 & _), Hz' as (Hs' & Hl' & Hm2 & _).
  assert (z = z') as <-; [|split; [done|congruence]].
  rewrite <- (suffix_drop _ _ Hs), <- (suffix_drop _ _ Hs'). congruence.
Qed.

(** The lookup of a name, whose result is that of [authority]. *)
Lemma lookup_spec k :
  (no_authority m k /\ lookupEntryAndSoa m k = Built (Existing None None)) \/
  exists a e z soa, authority m k a e z soa /\
    lookupEntryAndSoa m k = Built (Existing (m !! k) (if String.eqb z k then None else Some soa)).
Proof.
  unfold lookupEntryAndSoa. destruct (lookup_loop_spec (S (String.length k)) k true None) as [?|(a & e & z & soa & Ha & Hr)];
    [lia|by left|right]. exists a, e, z, soa. split; [done|]. rewrite Hr. cbn [andb]. f_equal.
  destruct (String.eqb_spec a k) as [->|Hak].
  - destruct Ha as [_ He _ Hz]. rewrite He. destruct (flag_soa e) eqn:Ef.
    + destruct Hz as [-> ->]. by rewrite String.eqb_refl.
    + destruct Hz as (_ & _ & Hzm & Hf). destruct (String.eqb_spec z k) as [->|]; [congruence|done].
  - destruct (m !! k) as [e'|] eqn:Ek; [by destruct (authority_same _ _ _ _ _ _ Ha Ek)|].
    assert (z <> k); [|by destruct (String.eqb_spec z k)]. intros ->. destruct Ha as [_ He _ Hz].
    destruct (flag_soa e); [by destruct Hz|]. destruct Hz as (_ & _ & ? & _). congruence.
Qed.
End Lookup.

(** ** Owners *)

Definition thrown {A} (err : verdict A) : Prop := forall a, err <> Built a.

Lemma thrown_refused {A} : thrown (A := A) Refused.
Proof. by intros a. Qed.
Lemma thrown_failed {A} : thrown (A := A) Failed.
Proof. by intros a. Qed.
#[local] Hint Resolve thrown_refused thrown_failed : core.

Lemma owner_name_eq err s :
  owner_name err s
  = match writeName (undotted s) with
    | Some _ => if String.eqb (name_text (undotted s)) (undotted s) then Built (undotted s) else Undefined
    | None => err
    end.
Proof. done. Qed.

Lemma owner_name_some err s n :
  thrown err -> owner_name err s = Built n ->
  n = undotted s /\ is_Some (writeName n) /\ name_text n = n.
Proof.
  intros He. rewrite owner_name_eq. destruct (writeName (undotted s)) as [b|] eqn:Ew; [|by intros ?%He].
  destruct (String.eqb_spec (name_text (undotted s)) (undotted s)); [|done]. intros [= <-].
  split_and!; [done|by eexists|done].
Qed.

Lemma undotted_lower s : undotted (toLowerStr s) = toLowerStr (undotted s).
Proof. unfold undotted. rewrite dot_end_lower, length_lower. destruct (dot_end s); [|done]. apply take_lower. Qed.

(** A name and its key can be written, or neither. *)
Lemma owner_name_key err s n :
  thrown err -> owner_name err s = Built n -> dot_end s = false ->
  n = s /\ owner_name Failed (toLowerStr s) = Built (toLowerStr s).
Proof.
  intros He (-> & Hw & Ht)%owner_name_some Hd; [|done]. unfold undotted in *. rewrite Hd in *. split; [done|].
  rewrite owner_name_eq, undotted_lower. unfold undotted. rewrite Hd.
  destruct (writeName_lower _ Hw) as [b ->]. by rewrite name_text_lower, Ht, String.eqb_refl.
Qed.

(** ** The records of a body *)

Definition made (w : wire_rr) : Prop :=
  w_type w = 6 -> exists mname rname serial refresh retry expire minimum,
    createSoa mname rname serial refresh retry expire minimum = Some w.

Lemma made_type w : w_type w <> 6 -> made w.
Proof. by intros H ?. Qed.

(** A handler's records. *)
Definition makes (r : verdict (list wire_rr)) : Prop := forall ws, r = Built ws -> Forall made ws.

Lemma makes_one (r : option wire_rr) :
  (forall w, r = Some w -> made w) -> makes (or_refused ((fun w => [w]) <$> r)).
Proof. intros Hr ws. destruct r as [w|]; [|done]. intros [= <-]. apply Forall_singleton. by apply Hr. Qed.

Lemma makes_many (f : json -> option wire_rr) v :
  (forall x w, f x = Some w -> made w) -> makes (or_refused (each f v)).
Proof.
  intros Hf ws. unfold each. destruct (as_array v) as [l|]; [|done]. cbn [mbind option_bind].
  destruct (mapM f l) as [ws'|] eqn:E; [|done]. intros [= <-]. apply mapM_Some in E.
  induction E as [|x w l ws' Hx _ IH]; [constructor|]. constructor; [by eapply Hf|done].
Qed.

Lemma makes_base64 t s : t <> 6 -> makes (add_base64 t s).
Proof.
  intros Ht ws. unfold add_base64, createBase64. destruct (base64Decode s); [|done]. intros [= <-].
  by apply Forall_singleton, made_type.
Qed.

Lemma makes_addRr t v : makes (addRr t v).
Proof.
  unfold addRr. destruct (_ || _); [done|]. destruct (existsb _ _) eqn:E; [done|]. destruct (t =? 41); [done|].
  destruct v; try done. apply makes_base64. intros ->. by vm_compute in E.
Qed.

(** Every bind of a computation that ended. *)
Ltac unbind H :=
  repeat lazymatch type of H with
  | mbind _ ?x = Some _ => destruct x as [?|] eqn:?; [cbn [mbind option_bind] in H|discriminate H]
  | _ <$> ?x = Some _ => destruct x as [?|] eqn:?; [cbn [fmap option_fmap option_map] in H|discriminate H]
  | (if ?b then _ else _) = Some _ => destruct b eqn:?; try discriminate H
  | (let '(_, _) := ?x in _) = Some _ => destruct x
  end.

(** A computation whose record has a type other than 6. *)
Ltac other_type :=
  let H := fresh in
  intros ? H; unfold build_srv, build_mx, build_afsdb, build_hinfo, build_rp, createSrv, createMx, createAfsdb,
    createInt16AndLabels, createHinfo, createRp, createNs, createCname, createPtr, createDomainNameInRdata,
    createTxt, createA in H;
  unbind H; injection H as <-; apply made_type; cbn; try (destruct (is_v4 _)); discriminate.

Section Made.
Context `{Addresses}.

Lemma build_soa_made v w : build_soa v = Some w -> made w.
Proof. unfold build_soa. intros Hw _. unbind Hw. by eexists _, _, _, _, _, _, _. Qed.

Ltac handler_case :=
  destruct (String.eqb _ _);
  [first [intros [= <-]; first [by intros ws [= <-]|apply makes_many; intros x; other_type
                               |apply makes_one; first [apply build_soa_made|other_type]
                               |intros ws Hr; destruct (as_string _); [revert Hr; by apply makes_base64|done]]
         |idtac]|].

Lemma handler_made k v r : handler k v = Some r -> makes r.
Proof.
  unfold handler. cbv zeta. do 5 handler_case. handler_case.
  { assert (Hm : makes (or_refused (each (fun x => s ← as_string x; createTxt s) v))) by (apply makes_many; intros x; other_type).
    destruct v; intros Hr; apply (inj Some) in Hr as <-; try exact Hm. apply makes_one. other_type. }
  do 8 handler_case. done.
Qed.

(** The builder's owner comes from [fqdn], and its records are well made. *)
Record builder_ok (fqdn : string) (b : builder) : Prop := {
  bld_owner n : b_owner b = Some n -> owner_name Failed fqdn = Built n;
  bld_none : b_owner b = None -> b_rrs b = [];
  bld_made : Forall made (b_rrs b)
}.

Lemma owner_failed err fqdn n : thrown err -> owner_name err fqdn = Built n -> owner_name Failed fqdn = Built n.
Proof. intros He. rewrite !owner_name_eq. destruct (writeName _); [done|]. by intros ?%He. Qed.

Lemma add_all_ok err fqdn ws b b' :
  thrown err -> builder_ok fqdn b -> Forall made ws -> add_all err fqdn ws b = Built b' -> builder_ok fqdn b'.
Proof.
  intros He [Hn Hb Hm] Hw. unfold add_all. destruct ws as [|w ws]; [by intros [= <-]|].
  destruct (b_owner b) as [n|] eqn:En.
  - intros [= <-]. split; cbn; [intros ? [= <-]; auto|done|by apply Forall_app].
  - destruct (owner_name err fqdn) as [n| | |] eqn:Eo; try done. intros [= <-].
    split; cbn; [|done|by apply Forall_app]. intros ? [= <-]. by eapply owner_failed.
Qed.

Lemma add_each_ok f err fqdn l b b' :
  thrown err -> (forall x, makes (f x)) -> builder_ok fqdn b -> add_each f err fqdn l b = Built b' -> builder_ok fqdn b'.
Proof.
  intros He Hf. revert b. induction l as [|x l IH]; intros b Hb; cbn [add_each]; [by intros [= <-]|].
  destruct (f x) as [ws| | |] eqn:Ef; try done. cbn [mbind verdict_bind].
  destruct (add_all err fqdn ws b) as [b1| | |] eqn:Ea; try done. cbn [mbind verdict_bind]. apply IH.
  eapply add_all_ok; [done|done|by eapply Hf|done].
Qed.

Lemma build_numbered_made v : makes (build_numbered v).
Proof.
  intros ws. unfold build_numbered. destruct (as_object v) as [o|]; [|done]. cbn [or_refused mbind verdict_bind].
  destruct (fold_fields rr_field o (0, JNull)) as [a|]; [|done]. cbn [or_refused mbind verdict_bind].
  by destruct (a.1 =? 0).
Qed.

Lemma build_field_ok fqdn k v b b' : builder_ok fqdn b -> build_field fqdn k v b = Built b' -> builder_ok fqdn b'.
Proof.
  intros Hb. unfold build_field. destruct (String.eqb k "rr").
  - destruct (as_array v); [|done]. cbn [or_refused mbind verdict_bind].
    apply add_each_ok; [done|apply build_numbered_made|done].
  - destruct (handler k v) as [r|] eqn:Eh.
    + destruct r as [ws| | |]; try done. cbn [mbind verdict_bind]. apply add_all_ok; [done|done|].
      by apply (handler_made _ _ _ Eh).
    + destruct k as [|c n]; [done|]. destruct c as [[] [] [] [] [] [] [] []]; try done.
      destruct (stoi n) as [id|]; [|done]. cbn [or_failed mbind verdict_bind]. destruct (id =? 0); [done|].
      destruct (as_array v); [|done]. cbn [or_refused mbind verdict_bind].
      apply add_each_ok; [done|apply makes_addRr|done].
Qed.

Lemma build_fields_ok fqdn o b b' : builder_ok fqdn b -> build_fields fqdn o b = Built b' -> builder_ok fqdn b'.
Proof.
  revert b. induction o as [|[k v] o IH]; intros b Hb; cbn [build_fields]; [by intros [= <-]|].
  destruct (build_field fqdn k v b) as [b1| | |] eqn:E; try done. cbn [mbind verdict_bind]. apply IH.
  by eapply build_field_ok.
Qed.

(** What build promises. *)
Lemma build_spec fqdn default_ttl j s :
  build fqdn default_ttl j = Built s ->
  (s_rrs s <> [] -> owner_name Failed fqdn = Built (s_owner s)) /\ Forall made (s_rrs s) /\ s_ttl s <= TTL_MAX.
Proof.
  unfold build. destruct (as_object j) as [o|]; [|done]. cbn [or_failed mbind verdict_bind].
  destruct (getTtl default_ttl o) as [t| | |]; try done. cbn [mbind verdict_bind].
  destruct (build_fields fqdn o (Builder None [])) as [b| | |] eqn:E; try done. cbn [mbind verdict_bind].
  apply build_fields_ok in E as [Hn H0 Hm]; [|by split].
  destruct (addressable _ _); [|done]. destruct (sortable _); [|done]. intros [= <-]. cbn.
  split_and!; [|done|unfold sanitizeTtl; lia]. intros Hne. destruct (b_owner b) as [n|]; [by apply Hn|].
  by rewrite H0 in Hne.
Qed.

(** The records of the builder. *)
Lemma create_made d w : create d = Some w -> (forall bs, d <> TYPE_OTHER 6 bs) -> made w.
Proof.
  intros Hc Hd. destruct d; cbn [create] in Hc; try (revert w Hc; other_type).
  - intros _. by eexists _, _, _, _, _, _, _.
  - unfold createBase64 in Hc. unbind Hc. injection Hc as <-. by apply made_type.
  - unfold createBase64 in Hc. unbind Hc. injection Hc as <-. by apply made_type.
  - unfold createBase64 in Hc. unbind Hc. injection Hc as <-. apply made_type. intros E. cbn in E. subst. by destruct (Hd bytes).
Qed.

Lemma addressable_shorter o o' ws :
  (String.length o <= String.length o')%nat -> addressable o' ws = true -> addressable o ws = true.
Proof. unfold addressable, set_bytes. rewrite !Z.leb_le. lia. Qed.

(** Its records can be finished. *)
Lemma build_finishable fqdn default_ttl j s :
  build fqdn default_ttl j = Built s -> dot_end fqdn = false ->
  addressable (s_owner s) (s_rrs s) = true /\ sortable (s_rrs s) = true.
Proof.
  unfold build. intros Hs Hd. destruct (as_object j) as [o|]; [|done]. cbn [or_failed mbind verdict_bind] in Hs.
  destruct (getTtl default_ttl o) as [t| | |]; try done. cbn [mbind verdict_bind] in Hs.
  destruct (build_fields fqdn o (Builder None [])) as [b| | |] eqn:E; try done. cbn [mbind verdict_bind] in Hs.
  apply build_fields_ok in E as [Hn _ _]; [|by split].
  destruct (addressable fqdn (b_rrs b)) eqn:Ea; [|done]. destruct (sortable (b_rrs b)) eqn:Es; [|done].
  injection Hs as <-. cbn. split; [|done]. eapply addressable_shorter; [|exact Ea].
  destruct (b_owner b) as [n|]; [|cbn; lia]. cbn.
  by destruct (owner_name_key _ _ _ thrown_failed (Hn n eq_refl) Hd) as [-> _].
Qed.
End Made.

(** ** SOA records and their serial *)

Lemma find_soas l : List.find is_soa l = head (soas l).
Proof. unfold soas. induction l as [|r l IH]; [done|]. cbn. by destruct (is_soa r). Qed.

Lemma soas_perm l l' : l ≡ₚ l' -> soas l ≡ₚ soas l'.
Proof.
  unfold soas. induction 1 as [|x l l' _ IH|x y l|l1 l2 l3 _ IH1 _ IH2]; cbn; [done| | |by etrans].
  - destruct (is_soa x); [by constructor|done].
  - destruct (is_soa x), (is_soa y); try done. constructor.
Qed.

Lemma soas_app l1 l2 : soas (l1 ++ l2) = soas l1 ++ soas l2.
Proof. apply List.filter_app. Qed.

Lemma soas_is l : Forall (fun r => is_soa r = true) (soas l).
Proof. apply Forall_forall. intros r Hr. apply list_elem_of_In, filter_In in Hr. by destruct Hr. Qed.

Lemma flag_soas s : flag_soa s = true <-> soas (z_rrs s) <> [].
Proof.
  unfold flag_soa, soas. induction (z_rrs s) as [|r l IH]; [by split|]. cbn. destruct (is_soa r); [by split|]. exact IH.
Qed.

Definition zset_serial (s : zset) : option Z := r ← List.find is_soa (z_rrs s); soa_serial r.2.

Lemma createSoa_split mname rname serial refresh retry expire minimum w :
  createSoa mname rname serial refresh retry expire minimum = Some w ->
  exists a b, w = WireRr 6 (a +:+ put_be 4 serial +:+ b) /\ String.length b = 16%nat /\
    forall v, createSoa mname rname v refresh retry expire minimum = Some (WireRr 6 (a +:+ put_be 4 v +:+ b)).
Proof.
  unfold createSoa. intros Hw. apply bind_Some in Hw as (n1 & E1 & Hw). apply bind_Some in Hw as (n2 & E2 & Hw).
  apply bind_Some in Hw as (m & E3 & Hw). apply bind_Some in Hw as (r & E4 & Hw). injection Hw as <-.
  rewrite E1, E2. cbn [mbind option_bind]. rewrite E3, E4. cbn [mbind option_bind].
  exists (m +:+ r), (put_be 4 refresh +:+ put_be 4 retry +:+ put_be 4 expire +:+ put_be 4 minimum).
  rewrite !string_app_assoc. split_and!; [done| |intros v; by rewrite !string_app_assoc].
  by rewrite !length_string_app, !length_put.
Qed.

(** The serial is read as it was written, and set_serial writes that of
    another SOA. *)
Lemma soa_made_serial mname rname serial refresh retry expire minimum w v :
  createSoa mname rname serial refresh retry expire minimum = Some w ->
  soa_serial w = Some (serial mod 2 ^ 32) /\
  createSoa mname rname v refresh retry expire minimum = Some (set_serial v w).
Proof.
  intros (a & b & -> & Hb & Hv)%createSoa_split. rewrite Hv.
  assert (Hlen : String.length (a +:+ put_be 4 serial +:+ b) = (String.length a + 20)%nat).
  { rewrite !length_string_app, length_put, Hb. lia. }
  unfold soa_serial, set_serial. cbn [w_rdata w_type]. rewrite Hlen, (proj2 (Nat.ltb_ge _ _)) by lia.
  replace (String.length a + 20 - 20)%nat with (String.length a) by lia.
  replace (String.length a + 20 - 16)%nat with (String.length (a +:+ put_be 4 serial))
    by (rewrite length_string_app, length_put; lia).
  split; [by rewrite getValue_put|]. rewrite take_chars_app.
  by rewrite <- (string_app_assoc a (put_be 4 serial) b), drop_chars_app.
Qed.

Lemma read_createSoa mname rname refresh retry expire minimum :
  (exists serial w, createSoa mname rname serial refresh retry expire minimum = Some w) ->
  exists M R, forall v w, createSoa mname rname v refresh retry expire minimum = Some w ->
    read_soa (w_rdata w)
    = Some (TYPE_SOA M R (v mod 2 ^ 32) (refresh mod 2 ^ 32) (retry mod 2 ^ 32) (expire mod 2 ^ 32) (minimum mod 2 ^ 32)).
Proof.
  intros (serial & w & Hw). unfold createSoa in *. apply bind_Some in Hw as (n1 & E1 & Hw).
  apply bind_Some in Hw as (n2 & E2 & Hw). apply bind_Some in Hw as (m & E3 & Hw).
  apply bind_Some in Hw as (r & E4 & _). rewrite E1, E2. cbn [mbind option_bind]. rewrite E3, E4.
  assert (Em := writeName_in_some _ _ _ E3). assert (Er := writeEmailName_in_some _ _ _ E4).
  destruct (writeEmailName_reads _ _ Er) as (R & t & HR). exists (name_text mname), R. intros v w'. cbn [mbind option_bind].
  intros [= <-]. apply (read_soa_bytes m r _ _ t); [|done]. intros rest. by apply writeName_roundtrip.
Qed.

(** What toJson sees of an SOA whose serial is replaced. *)
Lemma read_reserial `{Addresses} r M R n f t e x v :
  soa_made r -> read_rr r.2 = Some (TYPE_SOA M R n f t e x) ->
  read_rr (set_serial v r.2) = Some (TYPE_SOA M R (v mod 2 ^ 32) f t e x).
Proof.
  intros (mname & rname & serial & refresh & retry & expire & minimum & Hr).
  destruct (read_createSoa mname rname refresh retry expire minimum) as (M' & R' & Hread); [by eauto|].
  destruct (soa_made_serial _ _ _ _ _ _ _ _ v Hr) as [_ Hv].
  assert (Ht : w_type r.2 = 6) by (apply createSoa_split in Hr as (? & ? & -> & _); done).
  unfold read_rr. cbn [set_serial w_type]. rewrite Ht. change (w_rdata (WireRr (w_type r.2) ?b)) with b.
  fold (set_serial v r.2). rewrite (Hread _ _ Hr), (Hread _ _ Hv). by intros [= <- <- _ <- <- <- <-].
Qed.

Lemma set_serial_length v w : (20 <= String.length (w_rdata w))%nat ->
  String.length (w_rdata (set_serial v w)) = String.length (w_rdata w).
Proof.
  intros Hl. unfold set_serial. cbn [w_rdata].
  rewrite !length_string_app, length_put, length_take_chars, length_drop_chars. lia.
Qed.

Lemma soa_made_length r : soa_made r -> (20 <= String.length (w_rdata r.2))%nat.
Proof.
  intros (? & ? & ? & ? & ? & ? & ? & (a & b & -> & Hb & _)%createSoa_split).
  cbn [w_rdata]. rewrite !length_string_app, length_put, Hb. lia.
Qed.

Lemma update_soa_none f l : soas l = [] -> update_soa f l = l.
Proof.
  unfold soas. induction l as [|r l IH]; [done|]. cbn. destruct (is_soa r); [done|]. intros Hl. by rewrite IH.
Qed.

Lemma update_soa_mid f l r rest :
  soas l = r :: rest -> exists l1 l2, l = l1 ++ r :: l2 /\ soas l1 = [] /\ update_soa f l = l1 ++ (r.1, f r.2) :: l2.
Proof.
  unfold soas. induction l as [|x l IH]; [done|]. cbn. destruct (is_soa x) eqn:Ex.
  - intros [= <- _]. by exists [], l.
  - intros (l1 & l2 & -> & Hl & ->)%IH. exists (x :: l1), l2. cbn. by rewrite Ex.
Qed.

(** ** Sizes *)

(** What finish looks at: the types and lengths of the rdata. *)
Definition shape (l : list ttl_rr) : list (Z * nat) := (fun r => (w_type r.2, String.length (w_rdata r.2))) <$> l.

Lemma set_bytes_shape o l :
  set_bytes o l.*2 = (24 + String.length o + sum_list_with (fun x => 12 + x.2) (shape l))%nat.
Proof. unfold set_bytes. f_equal. induction l as [|r l IH]; [done|]. cbn in *. by rewrite IH. Qed.

Lemma addressable_shape o o' l l' :
  String.length o = String.length o' -> shape l ≡ₚ shape l' -> addressable o l.*2 = addressable o' l'.*2.
Proof. intros Ho Hs. unfold addressable. by rewrite !set_bytes_shape, Ho, Hs. Qed.

Lemma sortable_shape l l' : shape l ≡ₚ shape l' -> sortable l.*2 = sortable l'.*2.
Proof.
  intros Hs. unfold sortable. f_equal.
  - rewrite !length_fmap. apply Permutation_length in Hs. unfold shape in Hs. rewrite !length_fmap in Hs. by rewrite Hs.
  - assert (E : forall l : list ttl_rr, forallb (fun w => w_type w <? 255) l.*2 = forallb (fun x => x.1 <? 255) (shape l)).
    { clear. induction l as [|r l IH]; [done|]. cbn. by rewrite IH. }
    rewrite !E. induction Hs as [| | |l1 l2 l3 _ IH1 _ IH2]; cbn; [done|by f_equal| |by etrans].
    by rewrite !andb_assoc, (andb_comm (y.1 <? 255)).
Qed.

Lemma shape_perm l l' : l ≡ₚ l' -> shape l ≡ₚ shape l'.
Proof. intros Hl. unfold shape. by rewrite Hl. Qed.

Lemma shape_update v l : Forall soa_made (soas l) -> shape (update_soa (set_serial v) l) = shape l.
Proof.
  destruct (soas l) as [|r rest] eqn:E; [by rewrite update_soa_none|]. intros [Hr _]%Forall_cons.
  destruct (update_soa_mid (set_serial v) _ _ _ E) as (l1 & l2 & -> & _ & ->).
  unfold shape. rewrite !fmap_app, !fmap_cons. do 2 f_equal. cbn [fst snd]. f_equal.
  apply set_serial_length. by apply soa_made_length.
Qed.

Lemma stored_id l : Forall (fun r => r.1 <= TTL_MAX) l -> stored <$> l = l.
Proof.
  induction 1 as [|[t w] l Ht _ IH]; [done|]. rewrite fmap_cons, IH. f_equal. unfold stored, sanitizeTtl. cbn in *.
  f_equal. lia.
Qed.

Lemma stored_shape l : shape (stored <$> l) = shape l.
Proof. unfold shape. by rewrite <- list_fmap_compose. Qed.

Lemma stored_ttl l : Forall (fun r => r.1 <= TTL_MAX) (stored <$> l).
Proof. apply Forall_fmap, Forall_forall. intros r _. cbn. unfold sanitizeTtl. lia. Qed.

(** ** What finish makes *)

Section Finished.
Context `{Finish}.

Lemma finish_set_built tn zl o rrs s :
  finish_set tn zl o rrs = Built s ->
  s = ZSet tn zl o (finish rrs) /\ (length (soas rrs) <= 1)%nat /\ addressable o rrs.*2 = true /\ sortable rrs.*2 = true.
Proof.
  unfold finish_set. fold (soas rrs). destruct (Nat.ltb_spec 1 (length (soas rrs))); [done|].
  destruct (addressable o rrs.*2); [|done]. destruct (sortable rrs.*2); [|done]. by intros [= <-].
Qed.

Lemma finish_set_total tn zl o rrs :
  (length (soas rrs) <= 1)%nat -> addressable o rrs.*2 = true -> sortable rrs.*2 = true ->
  finish_set tn zl o rrs = Built (ZSet tn zl o (finish rrs)).
Proof.
  intros H1 Ha Hs. unfold finish_set. fold (soas rrs). by rewrite (proj2 (Nat.ltb_ge _ _)), Ha, Hs by done.
Qed.

(** A finished set of well made records is a good one. *)
Lemma finish_set_wf tn zl o rrs s k :
  finish_set tn zl o rrs = Built s ->
  toLowerStr k = k /\ k <> ""%string /\ dot_end k = false ->
  (rrs <> [] -> toLowerStr o = k /\ owner_name Failed k = Built k) ->
  Forall soa_made (soas rrs) -> Forall (fun r => r.1 <= TTL_MAX) rrs -> set_wf k s.
Proof.
  intros (-> & H1 & Ha & Hs)%finish_set_built Hk Ho Hm Ht.
  assert (Hp := finish_perm rrs). split; cbn.
  - done.
  - intros Hne. apply Ho. intros ->. apply Hne. by apply Permutation_nil_r.
  - by rewrite (soas_perm _ _ Hp).
  - by rewrite (soas_perm _ _ Hp).
  - assert (Hsh := shape_perm _ _ Hp). by rewrite (addressable_shape o o _ rrs), (sortable_shape _ rrs).
  - by rewrite Hp.
Qed.
End Finished.

(** ** The next serial *)

Definition next_serial (n : Z) : Z := (n + 1) mod 2 ^ 32.

Lemma get_be_range k b acc v : get_be k b acc = Some v -> 0 <= acc -> 0 <= v < (acc + 1) * 256 ^ Z.of_nat k.
Proof.
  revert b acc. induction k as [|k IH]; intros b acc; cbn [get_be]; [intros [= <-]; lia|].
  destruct b as [|c b]; [done|]. intros Hg Ha.
  assert (Hc : 0 <= code c < 256) by (unfold code; assert (H := N_ascii_bounded c); lia).
  destruct (IH _ _ Hg) as [? Hv]; [lia|]. split; [done|]. rewrite Nat2Z.inj_succ, Z.pow_succ_r by lia. nia.
Qed.

Lemma zset_serial_range s n : zset_serial s = Some n -> 0 <= n < 2 ^ 32.
Proof.
  unfold zset_serial, soa_serial, getValueAt. intros (r & _ & Hr)%bind_Some. destruct (_ <? 20)%nat; [done|].
  apply get_be_range in Hr; [|lia]. exact Hr.
Qed.

(** The next serial is the greater one, as the server asserts, but for the
    last. *)
Lemma next_serial_cases n : 0 <= n < 2 ^ 32 -> next_serial n = if n =? 2 ^ 32 - 1 then 0 else n + 1.
Proof. intros Hn. unfold next_serial. destruct (Z.eqb_spec n (2 ^ 32 - 1)) as [->|]; [done|]. apply Z.mod_small. lia. Qed.

(** The records of a zone's apex, with the serial after that of [old]. *)
Lemma increment_spec rrs old new r :
  head (soas rrs) = Some new -> head (soas old) = Some r -> soa_made new -> soa_made r ->
  exists n, soa_serial r.2 = Some n /\
    incrementSoaVersion rrs old = Built (update_soa (set_serial (next_serial n)) rrs).
Proof.
  intros Hn Ho (a1 & a2 & n1 & a4 & a5 & a6 & a7 & Hnew) (b1 & b2 & n2 & b4 & b5 & b6 & b7 & Hold).
  destruct (soa_made_serial _ _ _ _ _ _ _ _ 0 Hnew) as [Hs1 _].
  destruct (soa_made_serial _ _ _ _ _ _ _ _ 0 Hold) as [Hs2 _].
  eexists. split; [exact Hs2|]. unfold incrementSoaVersion. by rewrite !find_soas, Hn, Ho, Hs1, Hs2.
Qed.

Lemma increment_inv rrs old rrs' :
  incrementSoaVersion rrs old = Built rrs' ->
  exists new r n, head (soas rrs) = Some new /\ head (soas old) = Some r /\ soa_serial r.2 = Some n /\
    rrs' = update_soa (set_serial (next_serial n)) rrs.
Proof.
  unfold incrementSoaVersion. rewrite !find_soas. destruct (head (soas rrs)) as [new|]; [|done].
  destruct (head (soas old)) as [r|]; [|done]. destruct (soa_serial r.2) as [n|] eqn:E; [|done].
  destruct (soa_serial new.2); [|done]. intros [= <-]. by exists new, r, n.
Qed.

(** An SOA with another serial. *)
Definition reserial (v : Z) (r : ttl_rr) : ttl_rr := (r.1, set_serial v r.2).

Lemma is_soa_reserial v r : is_soa (reserial v r) = is_soa r.
Proof. done. Qed.

Lemma soas_update v l : soas (update_soa (set_serial v) l)
  = match soas l with r :: rest => reserial v r :: rest | [] => [] end.
Proof.
  unfold soas. induction l as [|r l IH]; [done|]. cbn [update_soa List.filter]. destruct (is_soa r) eqn:E; cbn [List.filter].
  - change (is_soa (r.1, set_serial v r.2)) with (is_soa r). by rewrite E.
  - by rewrite E, IH.
Qed.

Lemma soa_made_reserial v r : soa_made r ->
  soa_made (reserial v r) /\ soa_serial (reserial v r).2 = Some (v mod 2 ^ 32).
Proof.
  intros (a1 & a2 & n & a4 & a5 & a6 & a7 & Hr). destruct (soa_made_serial _ _ _ _ _ _ _ _ v Hr) as [_ Hv].
  split; [by repeat eexists|]. by destruct (soa_made_serial _ _ _ _ _ _ _ _ 0 Hv).
Qed.

Lemma update_wf v l : Forall soa_made (soas l) -> Forall soa_made (soas (update_soa (set_serial v) l)).
Proof.
  rewrite soas_update. destruct (soas l) as [|r rest]; [done|]. intros [Hr Hrest]%Forall_cons.
  constructor; [by apply soa_made_reserial|done].
Qed.

Lemma update_one v l : length (soas (update_soa (set_serial v) l)) = length (soas l).
Proof. rewrite soas_update. by destruct (soas l). Qed.

Lemma update_ttl v l : Forall (fun r => r.1 <= TTL_MAX) l -> Forall (fun r => r.1 <= TTL_MAX) (update_soa (set_serial v) l).
Proof.
  induction 1 as [|r l Hr Hl IH]; [constructor|]. cbn. destruct (is_soa r); constructor; done.
Qed.

Lemma update_nil f l : update_soa f l <> [] -> l <> [].
Proof. by intros H ->. Qed.

(** The serial of a set with one SOA, whatever the order of its records. *)
Lemma serial_of s r : soas (z_rrs s) = [r] -> zset_serial s = soa_serial r.2.
Proof. unfold zset_serial. rewrite find_soas. by intros ->. Qed.

Lemma one_soa l : (length (soas l) <= 1)%nat -> soas l <> [] -> exists r, soas l = [r].
Proof. destruct (soas l) as [|r [|]]; cbn; [done|by exists r|lia]. Qed.

Lemma soas_finish `{Finish} l r : soas l = [r] -> soas (finish l) = [r].
Proof. intros Hl. assert (Hp := soas_perm _ _ (finish_perm l)). rewrite Hl in Hp. by apply Permutation_singleton_r in Hp. Qed.

Lemma serial_flag s n : zset_serial s = Some n -> flag_soa s = true.
Proof.
  intros Hs. apply flag_soas. intros E. unfold zset_serial in Hs. by rewrite find_soas, E in Hs.
Qed.

Lemma next_serial_mod n : next_serial n mod 2 ^ 32 = next_serial n.
Proof. unfold next_serial. by apply Z.mod_mod. Qed.

(** The zone's set after a change below it. *)
Lemma next_soa_spec `{Finish} k s :
  set_wf k s -> flag_soa s = true ->
  exists s' n, next_soa s = Built s' /\ set_wf k s' /\ flag_soa s' = true /\
    z_tenant s' = z_tenant s /\ z_owner s' = k /\
    zset_serial s = Some n /\ zset_serial s' = Some (next_serial n) /\
    z_rrs s' ≡ₚ update_soa (set_serial (next_serial n)) (z_rrs s).
Proof.
  intros [Hk Ho H1 Hm [Ha Hs] Ht] Hf. apply flag_soas in Hf.
  destruct (one_soa _ H1 Hf) as [r Hr]. assert (Hr' := Hm). rewrite Hr in Hr'. rewrite Forall_singleton in Hr'.
  destruct (increment_spec (z_rrs s) (z_rrs s) r r) as (n & Hn & Hinc); [by rewrite Hr..|done|done|].
  assert (Hne : z_rrs s <> []) by (intros E; by rewrite E in Hf).
  destruct (Ho Hne) as [Hlow Hname].
  set (rrs := update_soa (set_serial (next_serial n)) (z_rrs s)) in *.
  assert (Hsh : shape rrs = shape (z_rrs s)) by by apply shape_update.
  assert (Hfin : finish_set (z_tenant s) 0 k rrs = Built (ZSet (z_tenant s) 0 k (finish rrs))).
  { apply finish_set_total; [by unfold rrs; rewrite update_one| |].
    - rewrite <- Ha. apply addressable_shape; [by rewrite <- Hlow, length_lower|by rewrite Hsh].
    - rewrite <- Hs. apply sortable_shape. by rewrite Hsh. }
  assert (Hsoas : soas rrs = [reserial (next_serial n) r]) by (unfold rrs; by rewrite soas_update, Hr).
  exists (ZSet (z_tenant s) 0 k (finish rrs)), n. split_and!.
  - unfold next_soa, owner_of. rewrite Hlow. destruct (z_rrs s) eqn:E; [done|]. rewrite <- E in *.
    rewrite Hname. cbn [mbind verdict_bind]. rewrite stored_id by done. rewrite Hinc. cbn [mbind verdict_bind].
    exact Hfin.
  - eapply finish_set_wf; [exact Hfin|done| |by apply update_wf|by apply update_ttl].
    intros _. split; [apply Hk|done].
  - apply flag_soas. cbn. by rewrite (soas_finish _ _ Hsoas).
  - done.
  - done.
  - by rewrite (serial_of s r Hr).
  - rewrite (serial_of (ZSet _ _ _ (finish rrs)) (reserial (next_serial n) r)) by by apply soas_finish.
    destruct (soa_made_reserial (next_serial n) r Hr') as [_ ->]. by rewrite next_serial_mod.
  - apply finish_perm.
Qed.

(** ** What the handler decides *)

Definition good_soa (r : ttl_rr) : Prop := is_soa r = true -> soa_made r.
Definition good_ttl (r : ttl_rr) : Prop := r.1 <= TTL_MAX.

Lemma soas_good l : Forall soa_made (soas l) <-> Forall good_soa l.
Proof.
  rewrite !Forall_forall. unfold soas, good_soa. split; intros Hl r Hr.
  - intros Hs. apply Hl, list_elem_of_In, filter_In. split; [by apply list_elem_of_In|done].
  - apply list_elem_of_In, filter_In in Hr as [Hr Hs]. apply Hl; [by apply list_elem_of_In|done].
Qed.

Lemma merge_old_all (P : ttl_rr -> Prop) append same new old merged :
  Forall P merged -> Forall P (stored <$> old) -> Forall P (merge_old append same new old merged).
Proof.
  unfold merge_old. revert merged. induction old as [|r old IH]; intros merged Hm Ho; [done|].
  rewrite fmap_cons in Ho. apply Forall_cons in Ho as [Hr Ho]. cbn [fold_left]. apply IH; [|done].
  destruct (_ || _); [|done]. apply Forall_app. split; [done|by apply Forall_singleton].
Qed.

Lemma filter_all {A} (P : A -> Prop) (f : A -> bool) l : Forall P l -> Forall P (List.filter f l).
Proof. rewrite !Forall_forall. intros Hl r [Hr _]%list_elem_of_In%filter_In. by apply Hl, list_elem_of_In. Qed.

Lemma good_stored l : Forall good_soa l -> Forall good_soa (stored <$> l).
Proof. intros Hl. apply Forall_fmap. eapply Forall_impl; [exact Hl|]. intros r Hr Hs. exact (Hr Hs). Qed.

Definition key_ok (k : string) : Prop := toLowerStr k = k /\ k <> ""%string /\ dot_end k = false.

Section Decided.
Context `{Addresses} `{Finish} `{RestLibs}.
Context (default_ttl : Z) (check_targets ixfr : bool) (parseJson : string -> option json).
Context (tenant : string) (allowed : permission -> string -> bool).

Lemma made_soas (t : Z) (ws : list wire_rr) : Forall made ws -> Forall good_soa ((fun w => (t, w)) <$> ws).
Proof.
  intros Hw. apply Forall_fmap. eapply Forall_impl; [exact Hw|]. intros w Hm Hs.
  apply Hm. by apply Z.eqb_eq in Hs.
Qed.

(** What build makes under a name is well formed under its key, less a dot at
    the end. *)
Lemma built_undotted_wf fqdn j b tn zl s :
  build fqdn default_ttl j = Built b ->
  finish_set tn zl (s_owner b) ((fun w => (s_ttl b, w)) <$> s_rrs b) = Built s ->
  key_ok (toLowerStr (undotted fqdn)) -> set_wf (toLowerStr (undotted fqdn)) s.
Proof.
  intros Eb Hf Hk. destruct (build_spec _ _ _ _ Eb) as (Ho & Hm & Ht).
  eapply finish_set_wf; [exact Hf|done| |apply soas_good; by apply made_soas|].
  - intros Hne. destruct Hk as (_ & _ & Hd). rewrite dot_end_lower in Hd.
    assert (Hn : owner_name Failed fqdn = Built (s_owner b)) by (apply Ho; intros E; by rewrite E in Hne).
    apply owner_name_some in Hn as (En & [w Hw] & Htn); [|done]. rewrite En in *.
    destruct (owner_name_key Failed (undotted fqdn) (undotted fqdn)) as [_ Hn]; [done| |done|done].
    rewrite owner_name_eq. assert (Eu : undotted (undotted fqdn) = undotted fqdn) by (unfold undotted at 1; by rewrite Hd).
    by rewrite Eu, Hw, Htn, String.eqb_refl.
  - apply Forall_fmap, Forall_forall. done.
Qed.

Lemma built_set_wf fqdn j b tn zl s :
  build fqdn default_ttl j = Built b ->
  finish_set tn zl (s_owner b) ((fun w => (s_ttl b, w)) <$> s_rrs b) = Built s ->
  key_ok (toLowerStr fqdn) -> set_wf (toLowerStr fqdn) s.
Proof.
  intros Eb Hf Hk. assert (Hd := Hk). destruct Hd as (_ & _ & Hd). rewrite dot_end_lower in Hd.
  assert (Eu : undotted fqdn = fqdn) by (unfold undotted; by rewrite Hd). rewrite <- Eu. rewrite <- Eu in Hk at 1.
  by eapply built_undotted_wf.
Qed.

Lemma request_set_wf q tn zl s :
  request_set default_ttl parseJson q tn zl = Built s -> key_ok (toLowerStr (q_target q)) ->
  set_wf (toLowerStr (q_target q)) s /\ z_tenant s = tn /\ z_zonelen s = zl.
Proof.
  unfold request_set. destruct (parseJson (q_body q)) as [j|]; [|done]. cbn [or_refused mbind verdict_bind].
  destruct (build (q_target q) default_ttl j) as [b| | |] eqn:Eb; try done. cbn [mbind verdict_bind].
  intros Hf Hk. split; [by eapply built_set_wf|]. apply finish_set_built in Hf as [-> _]. done.
Qed.

Lemma owner_of_key k rrs o :
  key_ok k -> owner_of k rrs = Built o -> rrs <> [] -> toLowerStr o = k /\ owner_name Failed k = Built k.
Proof.
  intros (Hl & _ & Hd) Ho Hne. unfold owner_of in Ho. destruct rrs; [done|].
  destruct (owner_name_key _ _ _ thrown_failed Ho Hd) as [-> ?]. by rewrite Hl in *.
Qed.

(** The serial after that of the old set. *)
Definition serial_up (x : existing) (s : zset) : Prop :=
  exists n, (x_soa x ≫= zset_serial) = Some n /\ zset_serial s = Some (next_serial n).

Lemma serial_up_increment x rrs rrs' s :
  incrementSoaVersion rrs (from_option z_rrs [] (x_soa x)) = Built rrs' ->
  Forall soa_made (soas rrs) -> (length (soas rrs') <= 1)%nat -> soas (z_rrs s) ≡ₚ soas rrs' -> serial_up x s.
Proof.
  intros (new & r & n & Hn & Ho & Hs & ->)%increment_inv Hm Hone Hp. exists n. split.
  - destruct (x_soa x) as [o|]; [|done]. cbn [mbind option_bind from_option] in *. unfold zset_serial. by rewrite find_soas, Ho.
  - rewrite update_one in Hone. rewrite soas_update in Hp.
    destruct (soas rrs) as [|c [|]]; cbn in *; [done| |lia]. rewrite Forall_singleton in Hm.
    apply Permutation_singleton_r in Hp. rewrite (serial_of s _ Hp).
    destruct (soa_made_reserial (next_serial n) c Hm) as [_ ->]. by rewrite next_serial_mod.
Qed.

(** A record set that can be written under the key. *)
Record writable (k : string) (x : existing) (zl : nat) (s : zset) : Prop := {
  wr_wf : set_wf k s;
  wr_tenant : z_tenant s = old_tenant x;
  wr_zonelen : z_zonelen s = zl;
  wr_same : isSame x = true -> serial_up x s
}.

Lemma finish_merged_wf k x zl rrs s :
  finish_merged k x zl rrs = Built s -> key_ok k -> Forall good_soa rrs -> Forall good_ttl rrs -> writable k x zl s.
Proof.
  unfold finish_merged. intros Hf Hk Hs Ht. destruct (owner_of k rrs) as [o| | |] eqn:Eo; try done.
  cbn [mbind verdict_bind] in Hf. assert (Ho := owner_of_key _ _ _ Hk Eo).
  apply soas_good in Hs. destruct (isSame x) eqn:Ex.
  - destruct (incrementSoaVersion rrs _) as [rrs'| | |] eqn:Ei; try done. cbn [mbind verdict_bind] in Hf.
    assert (Hfb := Hf). apply finish_set_built in Hfb as (Es & Hone & _). assert (Hi := Ei).
    apply increment_inv in Hi as (new & r & n & Hn & _ & _ & Er). split; [|by rewrite Es..|].
    + eapply finish_set_wf; [exact Hf|done| |rewrite Er; by apply update_wf|rewrite Er; by apply update_ttl].
      rewrite Er. intros Hne. apply Ho. by eapply update_nil.
    + intros _. apply (serial_up_increment _ _ _ _ Ei); [done|done|]. rewrite Es. apply soas_perm, finish_perm.
  - cbn [mbind verdict_bind] in Hf. assert (Hfb := Hf). apply finish_set_built in Hfb as (Es & _).
    split; [by eapply finish_set_wf|by rewrite Es..|by rewrite Ex].
Qed.

Lemma put_rr_spec k x zl sb s bump newSoa :
  put_rr allowed k x sb = Built (Change s bump newSoa) ->
  set_wf k sb -> z_tenant sb = old_tenant x -> z_zonelen sb = zl ->
  bump = negb (isSame x) /\ exists s', s = Some s' /\ writable k x zl s'.
Proof.
  unfold put_rr. intros Hp Hw Ht Hz. destruct (allowed _ k); [|done]. cbn [negb] in Hp.
  destruct (isSame x) eqn:Ex; [|by injection Hp as <- <- <-; split; [|exists sb; repeat split; try apply Hw; rewrite ?Ex]].
  destruct (incrementSoaVersion _ _) as [rrs| | |] eqn:Ei; try done. injection Hp as <- <- <-. split; [done|].
  eexists. split; [done|]. assert (Hi := Ei). apply increment_inv in Ei as (new & r & n & Hn & _ & _ & ->).
  destruct Hw as [Hk Ho Hone Hm [Ha Hs] Htt]. assert (Hsh := shape_update (next_serial n) _ Hm).
  split; [split|done|done|]; cbn [with_rrs z_rrs z_owner z_tenant z_zonelen].
  - done.
  - intros Hne%update_nil. by apply Ho.
  - by rewrite update_one.
  - by apply update_wf.
  - rewrite (addressable_shape _ (z_owner sb) _ (z_rrs sb)), (sortable_shape _ (z_rrs sb)); by rewrite ?Hsh.
  - by apply update_ttl.
  - intros _. apply (serial_up_increment _ _ _ _ Hi); [done|by rewrite update_one|done].
Qed.

Lemma zone_length_fits x zl : zone_length x = Built zl ->
  zl = from_option (fun s => String.length (z_owner s)) O (x_zone x).
Proof. unfold zone_length. destruct (x_zone x); [|by intros [= <-]]. destruct (255 <? _); [done|by intros [= <-]]. Qed.

(** A change that is decided: what is written under the key, and that the
    zone's serial goes up unless the key is the zone itself. *)
Lemma decide_spec m q k x s bump newSoa :
  decide_rr default_ttl check_targets parseJson allowed m q k x = Built (Change s bump newSoa) ->
  k = toLowerStr (q_target q) -> key_ok k ->
  (forall old, x_rr x = Some old -> set_wf k old) ->
  (isSame x = true -> q_method q <> DELETE) ->
  bump = negb (isSame x) /\
  match s with
  | Some s' => writable k x (from_option (fun s => String.length (z_owner s)) O (x_zone x)) s'
  | None => isSame x = false
  end.
Proof.
  intros Hd Hq Hk Hold Hsame. unfold decide_rr in Hd. destruct (zone_length x) as [zl| | |] eqn:Ez; try done.
  cbn [mbind verdict_bind] in Hd. rewrite <- (zone_length_fits _ _ Ez).
  assert (Hgood : forall old, x_rr x = Some old -> Forall good_soa (stored <$> z_rrs old) /\ Forall good_ttl (stored <$> z_rrs old)).
  { intros old Ho. split; [|apply stored_ttl]. apply good_stored, soas_good. by apply (Hold old). }
  rewrite expects_body in Hd. destruct (match q_method q with POST | PUT | PATCH => true | _ => false end) eqn:Eb.
  - destruct (request_set default_ttl parseJson q (old_tenant x) zl) as [sb| | |] eqn:Er; try done.
    cbn [mbind verdict_bind] in Hd. destruct (checkSrv check_targets m (z_rrs sb)) as [[]| | |]; try done.
    cbn [mbind verdict_bind] in Hd. rewrite Hq in Hk.
    destruct (request_set_wf _ _ _ _ Er Hk) as (Hw & Ht & Hz). rewrite <- Hq in *.
    assert (Hput : put_rr allowed k x sb = Built (Change s bump newSoa) ->
              bump = negb (isSame x) /\ match s with Some s' => writable k x zl s' | None => isSame x = false end).
    { intros Hp. by destruct (put_rr_spec _ _ _ _ _ _ _ Hp Hw Ht Hz) as (-> & s' & -> & ?). }
    destruct (q_method q) eqn:Em; try done.
    + unfold post_rr in Hd. destruct (allowed CREATE_RR k); [|done]. cbn [negb] in Hd.
      destruct (hasRr x) eqn:Eh; [done|]. destruct (m !! k); [done|]. injection Hd as <- <- <-.
      assert (Ex : isSame x = false).
      { unfold isSame, hasRr in *. destruct (x_zone x); [done|]. by destruct (x_rr x). }
      by rewrite Ex; repeat split; try apply Hw; rewrite ?Ex.
    + by apply Hput.
    + unfold patch_rr in Hd. destruct (x_rr x) as [old|] eqn:Eo; [|by apply Hput].
      destruct (allowed UPDATE_RR k); [|done]. cbn [negb] in Hd. destruct (Hgood old eq_refl) as [Hg1 Hg2].
      destruct (finish_merged _ _ _ _) as [s'| | |] eqn:Ef; try done. injection Hd as <- <- <-. split; [done|].
      eapply finish_merged_wf; [exact Ef|done| |].
      * apply merge_old_all; [|done]. apply good_stored, soas_good, Hw.
      * apply merge_old_all; [|done]. apply stored_ttl.
  - cbn [mbind verdict_bind] in Hd. destruct (q_method q) eqn:Em; try done.
    + unfold get_rr in Hd. destruct (negb _); [done|]. destruct (x_rr x) as [old|]; [|done].
      destruct (z_entry old) as [e|]; [|done]. by destruct (toJson_entry e).
    + assert (Ex : isSame x = false) by (destruct (isSame x); [by destruct (Hsame eq_refl)|done]).
      unfold delete_rr in Hd. destruct (negb _); [done|]. destruct (x_rr x) as [old|] eqn:Eo; [|done].
      destruct (Hgood old eq_refl) as [Hg1 Hg2].
      destruct (String.eqb _ ""); [by injection Hd as <- <- <-; rewrite Ex|].
      destruct (makeRrFilter _) as [types| | |]; try done. cbn [mbind verdict_bind] in Hd.
      destruct (finish_merged _ _ _ _) as [s'| | |] eqn:Ef; try done. cbn [mbind verdict_bind] in Hd.
      assert (Hfil : forall f P, Forall P (stored <$> z_rrs old) ->
                Forall P (stored <$> List.filter f (z_rrs old))).
      { intros f P HP. rewrite Forall_fmap in *. by apply filter_all. }
      assert (Hw : writable k x zl s').
      { eapply finish_merged_wf; [exact Ef|done|by apply (Hfil _ good_soa)|by apply (Hfil _ good_ttl)]. }
      destruct (stored <$> _); injection Hd as <- <- <-; rewrite Ex; by split.
Qed.
(** A reply without a change is an error, or the answer to GET. *)
Lemma decide_reply_codes m q k x code v :
  decide_rr default_ttl check_targets parseJson allowed m q k x = Built (Reply code v) ->
  code = 200 /\ q_method q = GET \/ 400 <= code.
Proof.
  intros Hd. unfold decide_rr in Hd. destruct (zone_length x) as [zl| | |]; try done. cbn [mbind verdict_bind] in Hd.
  match type of Hd with mbind _ ?c = _ => destruct c as [sb| | |]; try done end. cbn [mbind verdict_bind] in Hd.
  unfold get_rr, post_rr, patch_rr, delete_rr, put_rr in Hd.
  destruct (q_method q); repeat (first [done|injection Hd as <- _; first [by left|right; lia]
      |match type of Hd with mbind _ ?c = _ => destruct c; cbn [mbind verdict_bind] in Hd end
      |break_match_in Hd; cbn [mbind verdict_bind] in Hd]).
Qed.

(** A change has been permitted. *)
Lemma decide_permitted m q k x s bump newSoa :
  decide_rr default_ttl check_targets parseJson allowed m q k x = Built (Change s bump newSoa) ->
  exists p, p ∈ [CREATE_RR; UPDATE_RR; DELETE_RR] /\ allowed p k = true.
Proof.
  intros Hd. unfold decide_rr in Hd. destruct (zone_length x) as [zl| | |]; try done. cbn [mbind verdict_bind] in Hd.
  match type of Hd with mbind _ ?c = _ => destruct c as [sb| | |]; try done end. cbn [mbind verdict_bind] in Hd.
  assert (Hput : put_rr allowed k x sb = Built (Change s bump newSoa) ->
            exists p, p ∈ [CREATE_RR; UPDATE_RR; DELETE_RR] /\ allowed p k = true).
  { unfold put_rr. destruct (allowed _ k) eqn:Ea; [|done]. intros _. eexists. split; [|exact Ea]. destruct (hasRr x); set_solver. }
  destruct (q_method q); try done.
  - unfold get_rr in Hd. destruct (negb _); [done|]. destruct (x_rr x) as [e|]; [|done]. destruct (z_entry e) as [l|]; [|done].
    by destruct (toJson_entry l).
  - unfold post_rr in Hd. destruct (allowed CREATE_RR k) eqn:Ea; [|done]. exists CREATE_RR. split; [set_solver|done].
  - by apply Hput.
  - unfold patch_rr in Hd. destruct (x_rr x) as [old|]; [|by apply Hput]. destruct (allowed UPDATE_RR k) eqn:Ea; [|done].
    exists UPDATE_RR. split; [set_solver|done].
  - unfold delete_rr in Hd. destruct (allowed DELETE_RR k) eqn:Ea; [|done]. exists DELETE_RR. split; [set_solver|done].
Qed.

(** PATCH of a name that has records sets no new SOA. *)
Lemma patch_flags m q k x s bump newSoa :
  decide_rr default_ttl check_targets parseJson allowed m q k x = Built (Change s bump newSoa) ->
  q_method q = PATCH -> is_Some (x_rr x) -> isSame x = true -> bump = false /\ newSoa = false.
Proof.
  intros Hd Hq [old Ho] Hx. unfold decide_rr in Hd. destruct (zone_length x) as [zl| | |]; try done. cbn [mbind verdict_bind] in Hd.
  match type of Hd with mbind _ ?c = _ => destruct c as [sb| | |]; try done end. cbn [mbind verdict_bind] in Hd.
  rewrite Hq in Hd. unfold patch_rr in Hd. rewrite Ho in Hd. destruct (negb _); [done|].
  destruct (finish_merged _ _ _ _) as [s'| | |]; try done. injection Hd as _ <- <-. by rewrite Hx.
Qed.
End Decided.
