(* ===== verification/RrNames.v ===== *)
(** * The way from a name to its zone

    lookupEntryAndSoa over an index in which zones may be missing: deleting a
    zone leaves its record sets behind ([RestZone]), so that [store_ok] of
    [RrIndex] does not survive it.  What does survive is [names_ok]: keys and
    sets are well formed, and a set without SOA names a zone above it, which may
    be gone.  [path] is the way the lookup takes; it ends at a zone, or nowhere. *)

From stdpp Require Import gmap.
From S2P Require Import Prelude JsNumber JsValue ServerUtil Qargs Paging RrTypes RrJson DnsName RrWire RrBuild RrStored Permissions RrRest RrIndex.

Local Open Scope Z_scope.

(** A set without SOA names a zone strictly above it. *)
Definition points_up (k : string) (s : zset) : Prop :=
  flag_soa s = false ->
  exists z, suffix_of z k /\ z <> k /\ z <> ""%string /\ z_zonelen s = String.length z.

Definition names_ok (m : index) : Prop := map_Forall (fun k s => set_wf k s /\ points_up k s) m.

Lemma store_names m : store_ok m -> names_ok m.
Proof.
  intros Hm k s Hk. destruct (Hm _ _ Hk) as [Hw Hz]. split; [done|]. intros Hf.
  destruct (Hz Hf) as (z & soa & Hs & Hl & Hzm & Hzf). exists z. split_and!; [done| | |done].
  - intros ->. congruence.
  - destruct (Hm _ _ Hzm) as [[(_ & ? & _)] _]. done.
Qed.

(** ** The way *)

(** The lookup of [k] visits [z], which has the SOA. *)
Inductive path (m : index) : string -> string -> zset -> Prop :=
| path_zone k soa : m !! k = Some soa -> flag_soa soa = true -> path m k k soa
| path_jump k e z soa :
    m !! k = Some e -> flag_soa e = false ->
    path m (drop_chars (String.length k - z_zonelen e) k) z soa -> path m k z soa
| path_up k k' z soa : m !! k = None -> after_dot k = Some k' -> path m k' z soa -> path m k z soa.

(** The names it visits. *)
Inductive visits (m : index) : string -> string -> Prop :=
| visits_here k : visits m k k
| visits_jump k e b :
    m !! k = Some e -> flag_soa e = false ->
    visits m (drop_chars (String.length k - z_zonelen e) k) b -> visits m k b
| visits_up k k' b : m !! k = None -> after_dot k = Some k' -> visits m k' b -> visits m k b.

Lemma path_soa m k z soa : path m k z soa -> m !! z = Some soa /\ flag_soa soa = true.
Proof. by induction 1. Qed.

Lemma path_unique m k z soa z' soa' : path m k z soa -> path m k z' soa' -> z = z' /\ soa = soa'.
Proof.
  intros Hp. revert z' soa'. induction Hp; intros z2 soa2; inversion 1; simplify_eq; auto; congruence.
Qed.

Lemma visits_path m k b z soa : visits m k b -> path m k z soa -> path m b z soa.
Proof.
  intros Hv. induction Hv; [done|..]; inversion 1; simplify_eq; auto; congruence.
Qed.

Lemma visits_end m k z soa : path m k z soa -> visits m k z.
Proof.
  induction 1 as [k s Hk Hf|k e z s Hk Hf _ IH|k k' z s Hk Hd _ IH];
    [constructor|by eapply visits_jump|by eapply visits_up].
Qed.

(** The way depends on the sets it visits only. *)
Lemma path_agree m m' k z soa :
  path m k z soa -> (forall b, visits m k b -> m' !! b = m !! b) -> path m' k z soa.
Proof.
  induction 1 as [k s Hk Hf|k e z s Hk Hf _ IH|k k' z s Hk Hd _ IH]; intros Hv.
  - apply path_zone; [|done]. rewrite Hv; [done|constructor].
  - eapply path_jump; [rewrite Hv; [exact Hk|constructor]|done|]. apply IH. intros b Hb. apply Hv. by eapply visits_jump.
  - eapply path_up; [rewrite Hv; [exact Hk|constructor]|exact Hd|]. apply IH. intros b Hb. apply Hv. by eapply visits_up.
Qed.

(** ** The lookup *)

(** What lookupEntryAndSoa finds for a name of the zone [z]. *)
Definition found (m : index) (k z : string) (soa : zset) : existing :=
  Existing (m !! k) (if String.eqb z k then None else Some soa).

Section Names.
Context (m : index).
Hypothesis Hm : names_ok m.

Lemma names_nonempty : m !! ""%string = None.
Proof. destruct (m !! ""%string) as [s|] eqn:E; [|done]. by destruct (Hm _ _ E) as [[(_ & ? & _)] _]. Qed.

(** The jump of a set goes to the name it points to. *)
Lemma jump_up k e :
  m !! k = Some e -> flag_soa e = false ->
  exists z, drop_chars (String.length k - z_zonelen e) k = z /\ suffix_of z k /\ z <> k /\
    (z_zonelen e <= String.length k)%nat /\ (String.length z < String.length k)%nat.
Proof.
  intros Hk Hf. destruct (Hm _ _ Hk) as [_ Hu]. destruct (Hu Hf) as (z & Hs & Hne & _ & Hl).
  assert (Hle := suffix_length _ _ Hs). exists z. rewrite Hl, (suffix_drop _ _ Hs). split_and!; try done.
  destruct Hs as [->|[p ->]]; [done|]. rewrite length_string_app. cbn. lia.
Qed.

Lemma path_suffix k z soa : path m k z soa -> suffix_of z k.
Proof.
  induction 1 as [k s Hk Hf|k e z s Hk Hf _ IH|k k' z s Hk Hd _ IH]; [apply suffix_refl|..].
  - destruct (jump_up _ _ Hk Hf) as (z' & E & Hs & _). rewrite E in IH. by eapply suffix_trans.
  - destruct (after_dot_some _ _ Hd) as (_ & Hs & _). by eapply suffix_trans.
Qed.

Lemma path_nonempty k z soa : path m k z soa -> k <> ""%string.
Proof.
  intros Hp ->. assert (Hs := path_suffix _ _ _ Hp). apply path_soa in Hp as [Hz _].
  destruct Hs as [<-|[[|c p] Hp]]; [|done..]. by rewrite names_nonempty in Hz.
Qed.

Lemma lookup_path_loop fuel k first rr :
  (String.length k < fuel)%nat ->
  (exists z soa, path m k z soa /\
     lookup_loop fuel m k first rr
     = Built (Existing (if first then from_option Some rr (m !! k) else rr) (if first && String.eqb z k then None else Some soa))) \/
  ((forall z soa, ~ path m k z soa) /\ lookup_loop fuel m k first rr = Built (Existing None None)).
Proof.
  revert k first rr. induction fuel as [|fuel IH]; intros k first rr Hl; [lia|]. cbn [lookup_loop].
  destruct (String.eqb_spec k "") as [->|Hne].
  { right. split; [|done]. intros z soa Hp. by apply path_nonempty in Hp. }
  destruct (m !! k) as [e|] eqn:Ek.
  - destruct (flag_soa e) eqn:Ef.
    + left. exists k, e. split; [by constructor|]. rewrite String.eqb_refl. by destruct first.
    + destruct (jump_up _ _ Ek Ef) as (z' & E & Hs & Hne' & Hle & Hlt).
      rewrite (proj2 (Nat.ltb_ge _ _)), E by done.
      destruct (IH z' false (if first then Some e else rr)) as [(z & soa & Hp & Hr)|[Hn Hr]]; [lia| |].
      * left. exists z, soa. split; [eapply path_jump; [done..|by rewrite E]|]. rewrite Hr. cbn [andb from_option].
        destruct first; [|done]. destruct (String.eqb_spec z k) as [->|]; [|done].
        apply path_suffix in Hp. apply suffix_length in Hp. lia.
      * right. split; [|done]. intros z soa. inversion 1; simplify_eq; first [congruence|by eapply Hn].
  - destruct (after_dot k) as [k'|] eqn:Ed.
    + destruct (after_dot_some _ _ Ed) as (Hlk & Hs & _). destruct (IH k' false rr) as [(z & soa & Hp & Hr)|[Hn Hr]]; [lia| |].
      * left. exists z, soa. split; [by eapply path_up|]. rewrite Hr. destruct first; [|done]. cbn [andb from_option].
        destruct (String.eqb_spec z k) as [->|]; [|done]. apply path_soa in Hp as [? _]. congruence.
      * right. split; [|done]. intros z soa. inversion 1; simplify_eq; first [congruence|by eapply Hn].
    + right. split; [|done]. intros z soa. by inversion 1; simplify_eq.
Qed.

(** The lookup ends for every name, at the zone of its way if there is one. *)
Lemma lookup_path k :
  (exists z soa, path m k z soa /\ lookupEntryAndSoa m k = Built (found m k z soa)) \/
  ((forall z soa, ~ path m k z soa) /\ lookupEntryAndSoa m k = Built (Existing None None)).
Proof.
  unfold lookupEntryAndSoa. destruct (lookup_path_loop (S (String.length k)) k true None) as [(z & soa & Hp & ->)|?];
    [lia| |by right]. left. exists z, soa. split; [done|]. unfold found. cbn [andb]. by destruct (m !! k).
Qed.

Lemma path_lookup k z soa : path m k z soa -> lookupEntryAndSoa m k = Built (found m k z soa).
Proof.
  intros Hp. destruct (lookup_path k) as [(z' & soa' & Hp' & ->)|[Hn _]]; [|by apply Hn in Hp].
  by destruct (path_unique _ _ _ _ _ _ Hp Hp') as [<- <-].
Qed.

Lemma found_soa k z soa : path m k z soa -> x_soa (found m k z soa) = Some soa.
Proof.
  intros Hp. unfold x_soa, found. cbn. destruct (String.eqb_spec z k) as [->|]; [|done].
  by apply path_soa in Hp as [? _].
Qed.

Lemma found_same k z soa : path m k z soa -> isSame (found m k z soa) = String.eqb z k.
Proof.
  intros Hp. unfold isSame, found. cbn. destruct (String.eqb_spec z k) as [->|]; [|done].
  apply path_soa in Hp as [-> _]. done.
Qed.

Lemma path_wf k z soa : path m k z soa -> set_wf z soa.
Proof. intros Hp. apply path_soa in Hp as [Hz _]. by destruct (Hm _ _ Hz). Qed.

Lemma path_key k z soa : path m (toLowerStr k) z soa -> key_ok (toLowerStr k).
Proof.
  intros Hp. destruct (path_wf _ _ _ Hp) as [(Hz & Hne & Hd) _ _ _ _ _]. assert (Hs := path_suffix _ _ _ Hp).
  split_and!; [apply lower_idem|by eapply path_nonempty|by rewrite (suffix_dot_end _ _ Hs Hne)].
Qed.

Lemma path_owner k z soa :
  path m k z soa -> toLowerStr (z_owner soa) = z /\ String.length (z_owner soa) = String.length z.
Proof.
  intros Hp. assert (Hw := path_wf _ _ _ Hp). apply path_soa in Hp as [_ Hf].
  destruct (wf_owner _ _ Hw) as [Ho _]; [by intros E; apply flag_soas in Hf; rewrite E in Hf|].
  split; [done|]. by rewrite <- Ho, length_lower.
Qed.

(** A name with a set of its own, which is not its zone, has no SOA. *)
Lemma path_below k z soa old : path m k z soa -> z <> k -> m !! k = Some old -> flag_soa old = false.
Proof. intros Hp Hzk Hk. by destruct Hp; simplify_eq. Qed.

Lemma path_self k z soa : path m k z soa -> path m z z soa.
Proof. intros [? ?]%path_soa. by constructor. Qed.
End Names.

(** A zone's name, and its length in the sets below it. *)
Lemma zone_dns z s : set_wf z s -> flag_soa s = true -> dns_name z.
Proof.
  intros Hw Hf. destruct (wf_owner _ _ Hw) as [_ Hn]; [by intros E; apply flag_soas in Hf; rewrite E in Hf|].
  by apply owner_name_some in Hn as (_ & ? & ?).
Qed.

Lemma found_zone_length m k z soa :
  names_ok m -> path m k z soa -> zone_length (found m k z soa) = Built (if String.eqb z k then O else String.length z).
Proof.
  intros Hm Hp. destruct (path_owner m Hm _ _ _ Hp) as [_ Hl]. assert (Hw := path_wf m Hm _ _ _ Hp).
  unfold zone_length, found. cbn [x_zone]. destruct (String.eqb_spec z k) as [|_]; [done|]. rewrite Hl.
  destruct (path_soa _ _ _ _ Hp) as [_ Hf]. destruct (zone_dns _ _ Hw Hf) as [_ [b Hb]].
  apply writeName_labels in Hb as (_ & _ & Hb). by rewrite (proj2 (Z.ltb_ge _ _)) by lia.
Qed.

(** Over an index whose zones are there, the way ends at the authority. *)
Lemma authority_path m k a e z soa : authority m k a e z soa -> path m k z soa.
Proof.
  remember (String.length k) as n eqn:En. revert k En. induction (lt_wf n) as [n _ IH]. intros k -> Ha.
  destruct (m !! k) as [e'|] eqn:Ek.
  - destruct (authority_same m _ _ _ _ _ _ Ha Ek) as [-> ->]. destruct Ha as [_ _ _ Hz].
    destruct (flag_soa e') eqn:Ef; [destruct Hz as [-> ->]; by constructor|].
    destruct Hz as (Hs & Hl & Hzm & Hf). eapply path_jump; [done..|]. rewrite Hl, (suffix_drop _ _ Hs). by constructor.
  - destruct Ha as [Ha He Hn Hz]. assert (Hak : a <> k) by congruence.
    destruct (after_dot k) as [k'|] eqn:Ed; [|by destruct (Hak (after_dot_none _ _ Ed Ha))].
    destruct (after_dot_some _ _ Ed) as (Hlt & Hs & Hb). eapply path_up; [done..|].
    apply (IH (String.length k')); [done|done|]. destruct (Hb _ Ha) as [->|Hak']; [done|]. split; [done|done| |done].
    intros b Hbk. apply Hn. by eapply suffix_trans.
Qed.

Lemma path_authority m k z soa : store_ok m -> path m k z soa -> exists a e, authority m k a e z soa.
Proof.
  intros Hm Hp. destruct (lookup_spec m Hm k) as [[Hno Hl]|(a & e & z' & soa' & Ha & _)].
  - rewrite (path_lookup m (store_names _ Hm) _ _ _ Hp) in Hl. assert (Hx := found_soa _ _ _ _ Hp).
    injection Hl as _ Hz. unfold found, x_soa in Hx. cbn in Hx. rewrite Hz, (Hno k (suffix_refl k)) in Hx. done.
  - destruct (path_unique _ _ _ _ _ _ Hp (authority_path _ _ _ _ _ _ Ha)) as [-> ->]. by exists a, e.
Qed.
