(* ===== verification/RrService.v ===== *)
(** * Requests to /rr, whole

    Theorems on onResourceRecord of [RrRest] over the invariant of [RrIndex]:
    every request keeps the invariant; a change touches one name and its zone,
    of the session's tenant only; the serial of the zone goes up by one with
    each change; what PUT stores is what the body says. *)

From stdpp Require Import gmap sorting.
From S2P Require Import Prelude JsNumber JsValue ServerUtil Qargs Paging RrTypes RrJson DnsName RrWire RrBuild RrStored Permissions RrRest RrIndex RrNames.

Local Open Scope Z_scope.

Definition put_opt (k : string) (s : option zset) (m : index) : index :=
  match s with Some s' => <[k := s']> m | None => delete k m end.

(** The index after a change to the name [k] in the zone [z] with the set
    [soa]: at the apex one set is replaced; below it the name's set is replaced
    or removed and the zone's set is rewritten. *)
Inductive applied (m : index) (k z : string) (soa : zset) : index -> Prop :=
| apex_changed s n :
    z = k -> set_wf k s -> z_tenant s = z_tenant soa ->
    zset_serial soa = Some n -> zset_serial s = Some (next_serial n) ->
    applied m k z soa (<[k := s]> m)
| below_changed s soa' n :
    z <> k ->
    match s with
    | Some s' => set_wf k s' /\ z_zonelen s' = String.length z /\ z_tenant s' = (m !! k ≫= z_tenant)
    | None => True
    end ->
    set_wf z soa' -> z_tenant soa' = z_tenant soa ->
    zset_serial soa = Some n -> zset_serial soa' = Some (next_serial n) ->
    z_rrs soa' ≡ₚ update_soa (set_serial (next_serial n)) (z_rrs soa) -> z_owner soa' = z ->
    applied m k z soa (<[z := soa']> (put_opt k s m)).

(** *** The zone of a name *)

Section Zone.
Context (m : index).
Hypothesis Hm : store_ok m.

Lemma authority_soa k a e z soa :
  authority m k a e z soa ->
  suffix_of z k /\ m !! z = Some soa /\ flag_soa soa = true /\ set_wf z soa.
Proof.
  intros [Ha He _ Hz]. destruct (flag_soa e) eqn:Ef.
  - destruct Hz as [-> ->]. split_and!; [done..|]. by destruct (Hm _ _ He).
  - destruct Hz as (Hs & _ & Hzm & Hf). split_and!; [by eapply suffix_trans|done|done|]. by destruct (Hm _ _ Hzm).
Qed.

Lemma authority_key k a e z soa : authority m (toLowerStr k) a e z soa -> key_ok (toLowerStr k).
Proof.
  intros Ha. destruct (authority_soa _ _ _ _ _ Ha) as (Hs & _ & _ & [(Hz & Hne & Hd) _ _ _ _ _]).
  split_and!; [apply lower_idem| |by rewrite (suffix_dot_end _ _ Hs Hne)].
  intros E. rewrite E in Hs. destruct Hs as [<-|[[|c p] Hp]]; done.
Qed.

Lemma authority_owner k a e z soa :
  authority m k a e z soa -> toLowerStr (z_owner soa) = z /\ String.length (z_owner soa) = String.length z.
Proof.
  intros Ha. destruct (authority_soa _ _ _ _ _ Ha) as (_ & _ & Hf & Hw).
  destruct (wf_owner _ _ Hw) as [Ho _]; [by intros E; apply flag_soas in Hf; rewrite E in Hf|].
  split; [done|]. by rewrite <- Ho, length_lower.
Qed.

(** A name with a set of its own, which is not its zone, has no SOA. *)
Lemma authority_below k a e z soa old :
  authority m k a e z soa -> z <> k -> m !! k = Some old -> flag_soa old = false.
Proof.
  intros Ha Hzk Hk. destruct (authority_same _ _ _ _ _ _ _ Ha Hk) as [-> ->].
  destruct Ha as [_ _ _ Hz]. destruct (flag_soa old); [|done]. by destruct Hz.
Qed.

(** A set is of the zone its own length names. *)
Lemma authority_self k a e z soa : authority m k a e z soa -> authority m z z soa z soa.
Proof.
  intros Ha. destruct (authority_soa _ _ _ _ _ Ha) as (_ & Hz & Hf & _).
  split; [apply suffix_refl|done|by auto|]. by rewrite Hf.
Qed.

(** The invariant is kept. *)
Lemma applied_ok k a e z soa m' :
  authority m k a e z soa -> applied m k z soa m' -> store_ok m'.
Proof.
  intros Ha Happ. destruct (authority_soa _ _ _ _ _ Ha) as (Hsuf & Hz & Hfz & _).
  destruct Happ as [s n -> Hw Ht Hn Hs|s soa' n Hzk Hw Hw' Ht Hn Hs _].
  - intros k' s' Hk'. assert (Hfs := serial_flag _ _ Hs).
    assert (Hzo : zone_ok m k' s' -> zone_ok (<[k := s]> m) k' s').
    { intros Ho Hf. destruct (Ho Hf) as (z' & o & ? & ? & Hzz & Hof).
      destruct (decide (z' = k)) as [->|Hne]; [exists k, s; by rewrite lookup_insert_eq|].
      exists z', o. by rewrite lookup_insert_ne. }
    apply lookup_insert_Some in Hk' as [[<- <-]|[Hne Hk']]; [split; [done|]; intros Hf; congruence|].
    destruct (Hm _ _ Hk') as [? ?]. auto.
  - assert (Hfs := serial_flag _ _ Hs). intros k' s' Hk'.
    assert (Hput : forall z' o, m !! z' = Some o -> flag_soa o = true -> z' <> z ->
              <[z := soa']> (put_opt k s m) !! z' = Some o).
    { intros z' o Ho Hof Hzz. rewrite lookup_insert_ne by done.
      assert (z' <> k) by (intros ->; rewrite (authority_below _ _ _ _ _ _ Ha Hzk Ho) in Hof; done).
      destruct s; cbn [put_opt]; [by rewrite lookup_insert_ne|by rewrite lookup_delete_ne]. }
    assert (Hzo : zone_ok m k' s' -> zone_ok (<[z := soa']> (put_opt k s m)) k' s').
    { intros Ho Hf. destruct (Ho Hf) as (z' & o & ? & ? & Hzz & Hof).
      destruct (decide (z' = z)) as [->|Hne]; [exists z, soa'; by rewrite lookup_insert_eq|].
      exists z', o. by rewrite (Hput z' o). }
    apply lookup_insert_Some in Hk' as [[<- <-]|[Hne Hk']]; [split; [done|]; intros Hf; congruence|].
    assert (Hold : m !! k' = Some s' -> set_wf k' s' /\ zone_ok (<[z := soa']> (put_opt k s m)) k' s').
    { intros Ho. destruct (Hm _ _ Ho). auto. }
    destruct s as [s|]; cbn [put_opt] in Hk'.
    + apply lookup_insert_Some in Hk' as [[<- <-]|[_ Hk']]; [|by apply Hold].
      destruct Hw as (Hw & Hlen & _). split; [done|]. intros _. exists z, soa'. by rewrite lookup_insert_eq.
    + apply lookup_delete_Some in Hk' as [_ Hk']. by apply Hold.
Qed.

(** Other names are as they were. *)
Lemma applied_other k z soa m' k' : applied m k z soa m' -> k' <> k -> k' <> z -> m' !! k' = m !! k'.
Proof.
  intros [s n -> _ _ _ _|s soa' n _ _ _ _ _ _ _] Hk Hz; rewrite lookup_insert_ne by done; [done|].
  destruct s; cbn [put_opt]; [by rewrite lookup_insert_ne|by rewrite lookup_delete_ne].
Qed.

(** The zone's serial is the next. *)
Lemma applied_serial k z soa m' :
  applied m k z soa m' ->
  exists soa' n, m' !! z = Some soa' /\ zset_serial soa = Some n /\ zset_serial soa' = Some (next_serial n) /\
    z_tenant soa' = z_tenant soa.
Proof.
  intros [s n -> _ ? ? ?|s soa' n _ _ _ ? ? ? _].
  - exists s, n. by rewrite lookup_insert_eq.
  - exists soa', n. by rewrite lookup_insert_eq.
Qed.
End Zone.

(** ** The handler *)

Section Service.
Context `{Addresses} `{Finish} `{RestLibs}.
Context (default_ttl : Z) (check_targets ixfr : bool) (parseJson : string -> option json).
Context (tenant : string) (allowed : permission -> string -> bool).

Abbreviation decide_rr' := (decide_rr default_ttl check_targets parseJson allowed).
Abbreviation handler' := (rr_handler default_ttl check_targets ixfr parseJson tenant allowed).
Abbreviation onResourceRecord' := (onResourceRecord default_ttl check_targets ixfr parseJson tenant allowed).

(** *** Over any index *)

Section Open.
Context (m : index).
Hypothesis Hm : names_ok m.

(** The handler for a name of the zone [z]. *)
Lemma handler_zone q z soa :
  let k := toLowerStr (q_target q) in
  path m k z soa -> z_tenant soa = Some tenant ->
  (z = k -> q_method q <> POST /\ q_method q <> DELETE) ->
  handler' m q
  = d ← decide_rr' m q k (found m k z soa);
    match d with
    | Reply code value => Built (code, value, m)
    | Change s bump newSoa =>
        m' ← commit_rr ixfr m k soa s bump newSoa;
        Built (if hasRr (found m k z soa) then 200 else 201, None, m')
    end.
Proof.
  intros k Hp Ht Hmeth. unfold rr_handler. fold k. rewrite (path_lookup m Hm _ _ _ Hp). cbn [mbind verdict_bind].
  rewrite (found_soa m _ _ _ Hp), Ht, String.eqb_refl. cbn [negb].
  rewrite (found_same m _ _ _ Hp). destruct (String.eqb_spec z k) as [Hz|Hz]; [|done].
  destruct (Hmeth Hz). by destruct (q_method q).
Qed.

(** An answer of the handler: nothing changed, or a change to a name of one of
    the tenant's zones. *)
Lemma handler_cases q code v m' :
  let k := toLowerStr (q_target q) in
  handler' m q = Built (code, v, m') ->
  (m' = m /\ (code = 200 /\ q_method q = GET \/ 400 <= code)) \/
  exists z soa s bump newSoa,
    path m k z soa /\ z_tenant soa = Some tenant /\ (z = k -> q_method q <> DELETE) /\
    decide_rr' m q k (found m k z soa) = Built (Change s bump newSoa) /\
    commit_rr ixfr m k soa s bump newSoa = Built m' /\ code = (if hasRr (found m k z soa) then 200 else 201).
Proof.
  intros k Hh. unfold rr_handler in Hh. fold k in Hh.
  destruct (lookup_path m Hm k) as [(z & soa & Hp & El)|[_ El]]; rewrite El in Hh; cbn [mbind verdict_bind] in Hh.
  2: { injection Hh as <- <- <-. left. split; [done|right; lia]. }
  rewrite (found_soa m _ _ _ Hp) in Hh.
  destruct (z_tenant soa) as [id|] eqn:Et; [|injection Hh as <- <- <-; left; split; [done|right; lia]].
  destruct (String.eqb_spec id tenant) as [->|]; [|injection Hh as <- <- <-; left; split; [done|right; lia]]. cbn [negb] in Hh.
  rewrite (found_same m _ _ _ Hp) in Hh.
  destruct (String.eqb z k && _) eqn:Ez; [injection Hh as <- <- <-; left; split; [done|right; lia]|].
  destruct (decide_rr _ _ _ _ _ _ _ _) as [d| | |] eqn:Ed; try done. cbn [mbind verdict_bind] in Hh.
  destruct d as [c w|s bump newSoa].
  - injection Hh as <- <- <-. left. split; [done|]. by apply (decide_reply_codes _ _ _ _ _ _ _ _ _ _ Ed).
  - destruct (commit_rr _ _ _ _ _ _ _) as [m1| | |] eqn:Ec; try done. injection Hh as <- <- <-. right.
    exists z, soa, s, bump, newSoa. split_and!; try done. intros -> Hd.
    by rewrite String.eqb_refl, Hd in Ez.
Qed.

Lemma handler_applied q code v m' :
  let k := toLowerStr (q_target q) in
  handler' m q = Built (code, v, m') ->
  (m' = m /\ (code = 200 /\ q_method q = GET \/ 400 <= code)) \/
  exists z soa, path m k z soa /\ z_tenant soa = Some tenant /\ applied m k z soa m'.
Proof.
  intros k [?|(z & soa & s & bump & newSoa & Hp & Ht & Hd & Hdec & Hc & _)]%handler_cases; [by left|right].
  exists z, soa. split_and!; [done..|]. fold k in Hp, Hdec, Hc.
  destruct (path_soa _ _ _ _ Hp) as [Hz Hf]. assert (Hw := path_wf m Hm _ _ _ Hp).
  destruct (path_owner m Hm _ _ _ Hp) as [Ho Hol].
  apply (decide_spec default_ttl check_targets parseJson allowed) in Hdec as [-> Hs]; [|done|by eapply path_key| |].
  2: { intros old Hold. by destruct (Hm _ _ Hold). }
  2: { rewrite (found_same m _ _ _ Hp). intros ?%String.eqb_eq. auto. }
  rewrite (found_same m _ _ _ Hp) in *. unfold commit_rr in Hc. rewrite Ho in Hc.
  fold (put_opt k s m) in Hc. destruct (String.eqb_spec z k) as [Hzk|Hzk]; cbn [negb mbind verdict_bind] in Hc.
  - destruct s as [s|]; [|done]. destruct (ixfr && _); [done|]. injection Hc as <-. cbn [put_opt].
    destruct Hs as [Hws Htn _ Hup]. destruct Hup as (n & Hn & Hn'); [rewrite (found_same m _ _ _ Hp); by apply String.eqb_eq|].
    rewrite (found_soa m _ _ _ Hp) in Hn. apply (apex_changed m k z soa s n); try done.
    rewrite Htn. unfold old_tenant, found. cbn. by rewrite <- Hzk, Hz.
  - destruct (next_soa_spec _ _ Hw Hf) as (soa' & n & Hns & Hw' & Hf' & Ht' & Hown & Hn & Hn' & Hper).
    rewrite Hns in Hc. cbn [mbind verdict_bind] in Hc. destruct (ixfr && _); [done|]. injection Hc as <-.
    apply (below_changed m k z soa s soa' n); try done. destruct s as [s|]; [|done].
    destruct Hs as [Hws Htn Hzl _]. split_and!; [done|rewrite Hzl; unfold found; cbn|exact Htn].
    destruct (String.eqb_spec z k); [done|]. exact Hol.
Qed.

(** The answer, with its code. *)
Lemma request_path q code v m' :
  let k := toLowerStr (q_target q) in
  onResourceRecord' m q = Some (code, v, m') ->
  (m' = m /\ (code = 200 /\ q_method q = GET \/ 400 <= code)) \/
  exists z soa, path m k z soa /\ z_tenant soa = Some tenant /\ applied m k z soa m'.
Proof.
  intros k. unfold onResourceRecord. destruct (rr_handler _ _ _ _ _ _ _ _) as [[[c w] m1]| | |] eqn:Eh; [|..|done];
    intros [= <- <- <-]; [|left; split; [done|right; lia]..]. by eapply handler_applied.
Qed.

Lemma request_permitted q code v m' :
  onResourceRecord' m q = Some (code, v, m') -> m' <> m ->
  exists p, p ∈ [CREATE_RR; UPDATE_RR; DELETE_RR] /\ allowed p (toLowerStr (q_target q)) = true.
Proof.
  unfold onResourceRecord. destruct (rr_handler _ _ _ _ _ _ _ _) as [[[c w] m1]| | |] eqn:Eh; [|by intros [= _ _ <-]..|done].
  intros [= <- <- <-] Hne. apply handler_cases in Eh as [(-> & _)|(z & soa & s & bump & newSoa & _ & _ & _ & Hd & _)]; [done|].
  by eapply decide_permitted.
Qed.

(** Sets keep their owners. *)
Lemma applied_tenant k z soa m' b s :
  path m k z soa -> applied m k z soa m' -> m' !! b = Some s -> z_tenant s = (m !! b ≫= z_tenant).
Proof.
  intros Hp Happ Hb. destruct (path_soa _ _ _ _ Hp) as [Hz _].
  destruct Happ as [s1 n -> _ Ht _ _|s1 soa' n Hzk Hw _ Ht _ _ _ _].
  - apply lookup_insert_Some in Hb as [[<- <-]|[_ Hb]]; [by rewrite Hz|by rewrite Hb].
  - apply lookup_insert_Some in Hb as [[<- <-]|[_ Hb]]; [by rewrite Hz|].
    destruct s1 as [s1|]; cbn [put_opt] in Hb; [|by apply lookup_delete_Some in Hb as [_ ->]].
    apply lookup_insert_Some in Hb as [[<- <-]|[_ Hb]]; [apply Hw|by rewrite Hb].
Qed.

Lemma applied_names k z soa m' : path m k z soa -> applied m k z soa m' -> names_ok m'.
Proof.
  intros Hp Happ. assert (Hs := path_suffix m Hm _ _ _ Hp).
  destruct Happ as [s n -> Hw Ht Hn Hs'|s soa' n Hzk Hw Hw' Ht Hn Hs' _]; apply serial_flag in Hs'.
  - intros k' s' [[<- <-]|[_ Hk']]%lookup_insert_Some; [|by apply Hm]. split; [done|]. intros Hf. congruence.
  - intros k' s' [[<- <-]|[_ Hk']]%lookup_insert_Some; [split; [done|]; intros Hf; congruence|].
    destruct s as [s|]; cbn [put_opt] in Hk'; [|by apply lookup_delete_Some in Hk' as [_ ?]; apply Hm].
    apply lookup_insert_Some in Hk' as [[<- <-]|[_ Hk']]; [|by apply Hm]. destruct Hw as (Hw & Hl & _). split; [done|].
    intros _. exists z. split_and!; try done. by destruct Hw' as [(_ & ? & _) _ _ _ _ _].
Qed.
End Open.

Section Request.
Context (m : index).
Hypothesis Hm : store_ok m.

Lemma auth_soa k a e z soa : authority m k a e z soa -> x_soa (found m k z soa) = Some soa.
Proof. intros Ha%authority_path. by apply found_soa. Qed.

Lemma auth_same k a e z soa : authority m k a e z soa -> isSame (found m k z soa) = String.eqb z k.
Proof. intros Ha%authority_path. by eapply found_same. Qed.

(** The answer over an index whose zones are there. *)
Lemma request_applied q code v m' :
  let k := toLowerStr (q_target q) in
  onResourceRecord' m q = Some (code, v, m') ->
  (m' = m /\ (code = 200 /\ q_method q = GET \/ 400 <= code)) \/
  exists a e z soa, authority m k a e z soa /\ z_tenant soa = Some tenant /\ applied m k z soa m'.
Proof.
  intros k [?|(z & soa & Hp & ? & ?)]%(request_path m (store_names _ Hm)); [by left|right].
  destruct (path_authority _ _ _ _ Hm Hp) as (a & e & Ha). by exists a, e, z, soa.
Qed.

(** C21: The zone of a name is found: over a well-formed index (store_ok, which
    the requests to /rr keep, C19, but DELETE /zone, which leaves the record
    sets below the zone behind, C38, and names with a dot at their end, C33, do
    not), lookupEntryAndSoa ends without an exception for every name; it returns
    the name's own record set, and the set of a zone exactly when the name or one
    above it has a record set: the zone of the nearest such name. *)
Theorem lookupEntryAndSoa_zone k :
  exists x, lookupEntryAndSoa m k = Built x /\ x_rr x = m !! k /\
    match x_soa x with
    | None => no_authority m k
    | Some soa => exists a e z, authority m k a e z soa /\ m !! z = Some soa /\ flag_soa soa = true /\
                    (isSame x = true <-> z = k)
    end.
Proof.
  destruct (lookup_spec m Hm k) as [[Hn ->]|(a & e & z & soa & Ha & ->)].
  - eexists. split; [done|]. cbn. split; [|done]. by rewrite (Hn k (suffix_refl k)).
  - exists (found m k z soa). split_and!; [done..|]. rewrite (auth_soa _ _ _ _ _ Ha), (auth_same _ _ _ _ _ Ha).
    destruct (authority_soa m Hm _ _ _ _ _ Ha) as (_ & Hz & Hf & _).
    exists a, e, z. split_and!; [done..|]. apply String.eqb_eq.
Qed.

Lemma change_serial q code v m' a e z soa :
  onResourceRecord' m q = Some (code, v, m') -> code < 400 -> q_method q <> GET ->
  authority m (toLowerStr (q_target q)) a e z soa ->
  exists soa' n, m' !! z = Some soa' /\ zset_serial soa = Some n /\ zset_serial soa' = Some (next_serial n).
Proof.
  intros Hr Hc Hg Ha. apply request_applied in Hr as [(_ & [[_ ?]|?])|(a1 & e1 & z1 & soa1 & Ha1 & _ & Happ)]; [done|lia|].
  destruct (authority_unique _ _ _ _ _ _ _ _ _ _ Ha Ha1) as [<- <-].
  destruct (applied_serial _ _ _ _ _ Happ) as (soa' & n & ? & ? & ? & _). by exists soa', n.
Qed.

(** C20: Every accepted change counts: over a well-formed index (store_ok), when a
    request other than GET is answered with 200 or 201, the name has a zone of
    the session's tenant, and the serial in the SOA of that zone is afterwards
    one more than before, as the server asserts when it keeps differences for
    IXFR; but after the last serial, 2^32 - 1, it is 0, where that assertion
    fails: a build with assertions stops, and the modelled one, without, stores
    the 0. *)
Theorem accepted_change_serial q code v m' :
  onResourceRecord' m q = Some (code, v, m') -> (code = 200 \/ code = 201) -> q_method q <> GET ->
  exists a e z soa soa' n, authority m (toLowerStr (q_target q)) a e z soa /\ z_tenant soa = Some tenant /\
    m' !! z = Some soa' /\ zset_serial soa = Some n /\ 0 <= n < 2 ^ 32 /\
    zset_serial soa' = Some (if n =? 2 ^ 32 - 1 then 0 else n + 1) /\ z_tenant soa' = Some tenant.
Proof.
  intros Hr Hc Hg. apply request_applied in Hr as [(_ & [[_ Hx1]|Hx1])|(a & e & z & soa & Ha & Ht & Happ)].
  { done. } { lia. }
  destruct (applied_serial _ _ _ _ _ Happ) as (soa' & n & Hz & Hn & Hn' & Ht').
  assert (Hr := zset_serial_range _ _ Hn). exists a, e, z, soa, soa', n.
  by rewrite <- next_serial_cases, Ht', Ht by done.
Qed.

(** A name whose set a request changes is in a zone of the session's tenant. *)
Lemma changed_zone q code v m' k :
  onResourceRecord' m q = Some (code, v, m') -> m' !! k <> m !! k ->
  exists a e z soa, authority m k a e z soa /\ z_tenant soa = Some tenant.
Proof.
  intros Hr Hk. apply request_applied in Hr as [(-> & _)|(a & e & z & soa & Ha & Ht & Happ)]; [done|].
  destruct (decide (k = toLowerStr (q_target q))) as [->|Hne]; [by eauto 6|].
  destruct (decide (k = z)) as [->|Hnz]; [|by rewrite (applied_other _ _ _ _ _ _ Happ Hne Hnz) in Hk].
  exists z, soa, z, soa. split; [|done]. by apply (authority_self m Hm _ _ _ _ _ Ha).
Qed.

Lemma request_ok q code v m' : onResourceRecord' m q = Some (code, v, m') -> store_ok m'.
Proof.
  intros Hr. apply request_applied in Hr as [(-> & _)|(a & e & z & soa & Ha & _ & Happ)]; [done|].
  by eapply applied_ok.
Qed.

(** A zone stays, and stays with its tenant. *)
Lemma request_zone q code v m' z soa :
  onResourceRecord' m q = Some (code, v, m') -> m !! z = Some soa -> flag_soa soa = true ->
  exists soa', m' !! z = Some soa' /\ flag_soa soa' = true /\ z_tenant soa' = z_tenant soa.
Proof.
  intros Hr Hz Hf. apply request_applied in Hr as [(-> & _)|(a & e & z1 & soa1 & Ha & _ & Happ)]; [by eauto|].
  destruct (authority_soa m Hm _ _ _ _ _ Ha) as (_ & Hz1 & _ & _).
  destruct (decide (z = z1)) as [<-|Hne].
  { destruct (applied_serial _ _ _ _ _ Happ) as (soa' & n & Hz' & _ & Hs' & Ht'). exists soa'.
    split_and!; [done|by eapply serial_flag|]. congruence. }
  exists soa. rewrite (applied_other _ _ _ _ _ _ Happ); [done| |done].
  intros ->. destruct (decide (z1 = toLowerStr (q_target q))) as [->|Hk]; [done|].
  by rewrite (authority_below m _ _ _ _ _ _ Ha Hk Hz) in Hf.
Qed.

(** *** Requests that are accepted *)

Lemma found_tenant k a e z soa : authority m k a e z soa -> z = k -> old_tenant (found m k z soa) = z_tenant soa.
Proof.
  intros Ha ->. destruct (authority_soa m Hm _ _ _ _ _ Ha) as (_ & Hz & _). unfold old_tenant, found. cbn. by rewrite Hz.
Qed.

(** The end of a change below the apex. *)
Lemma commit_below k a e z soa s :
  authority m k a e z soa ->
  exists soa' n, next_soa soa = Built soa' /\ zset_serial soa = Some n /\ zset_serial soa' = Some (next_serial n) /\
    z_rrs soa' ≡ₚ update_soa (set_serial (next_serial n)) (z_rrs soa) /\ z_tenant soa' = z_tenant soa /\
    commit_rr ixfr m k soa s true false = Built (<[z := soa']> (put_opt k s m)).
Proof.
  intros Ha. destruct (authority_soa m Hm _ _ _ _ _ Ha) as (_ & _ & Hf & Hw).
  destruct (authority_owner m Hm _ _ _ _ _ Ha) as [Ho _].
  destruct (next_soa_spec _ _ Hw Hf) as (soa' & n & Hns & _ & _ & Ht & _ & Hn & Hn' & Hp).
  exists soa', n. split_and!; [done..|]. unfold commit_rr. rewrite Hns, Ho. cbn [mbind verdict_bind orb negb].
  by rewrite andb_false_r.
Qed.

(** What a body is stored as. *)
Definition body_set (q : rest_request) (k z : string) (tn : option string) (sb : zset) : Prop :=
  request_set default_ttl parseJson q tn (if String.eqb z k then O else String.length z) = Built sb /\
  checkSrv check_targets m (z_rrs sb) = Built tt.

(** The code of the answer. *)
Definition done_code (k : string) : Z := match m !! k with Some _ => 200 | None => 201 end.

Lemma found_code k z soa : (if hasRr (found m k z soa) then 200 else 201) = done_code k.
Proof. unfold hasRr, found, done_code. cbn. by destruct (m !! k). Qed.

Lemma decide_put q a e z soa sb :
  let k := toLowerStr (q_target q) in
  authority m k a e z soa -> q_method q = PUT -> body_set q k z (old_tenant (found m k z soa)) sb ->
  decide_rr' m q k (found m k z soa) = put_rr allowed k (found m k z soa) sb.
Proof.
  intros k Ha Hq [Hr Hs]. unfold decide_rr. rewrite (found_zone_length _ _ _ _ (store_names _ Hm) (authority_path _ _ _ _ _ _ Ha)). cbn [mbind verdict_bind].
  rewrite expects_body, Hq, Hr. cbn [mbind verdict_bind]. rewrite Hs. done.
Qed.

Lemma put_below q a e z soa sb :
  let k := toLowerStr (q_target q) in
  authority m k a e z soa -> z_tenant soa = Some tenant -> z <> k -> q_method q = PUT ->
  allowed (match m !! k with Some _ => UPDATE_RR | None => CREATE_RR end) k = true ->
  body_set q k z (old_tenant (found m k z soa)) sb ->
  exists soa' n, zset_serial soa = Some n /\ z_rrs soa' ≡ₚ update_soa (set_serial (next_serial n)) (z_rrs soa) /\
    onResourceRecord' m q = Some (done_code k, None, <[z := soa']> (<[k := sb]> m)).
Proof.
  intros k Ha Ht Hzk Hq Hal Hb. destruct (commit_below k a e z soa (Some sb) Ha) as (soa' & n & _ & Hn & _ & Hp & _ & Hc).
  exists soa', n. split_and!; [done..|]. unfold onResourceRecord. rewrite (handler_zone m (store_names _ Hm) q z soa (authority_path _ _ _ _ _ _ Ha) Ht) by done.
  rewrite (decide_put _ _ _ _ _ _ Ha Hq Hb). fold k. unfold put_rr. rewrite (auth_same _ _ _ _ _ Ha).
  assert (Hx : (if hasRr (found m k z soa) then UPDATE_RR else CREATE_RR)
               = match m !! k with Some _ => UPDATE_RR | None => CREATE_RR end)
    by (unfold hasRr, found; cbn; by destruct (m !! k)).
  fold k. rewrite Hx, Hal. destruct (String.eqb_spec z k); [done|]. cbn [negb mbind verdict_bind]. rewrite Hc.
  cbn [mbind verdict_bind]. by rewrite found_code.
Qed.

Lemma put_apex q a e soa sb :
  let k := toLowerStr (q_target q) in
  authority m k a e k soa -> z_tenant soa = Some tenant -> q_method q = PUT -> allowed UPDATE_RR k = true ->
  body_set q k k (Some tenant) sb -> flag_soa sb = true ->
  exists n, zset_serial soa = Some n /\
    onResourceRecord' m q
    = Some (200, None, <[k := with_rrs sb (update_soa (set_serial (next_serial n)) (z_rrs sb))]> m).
Proof.
  intros k Ha Ht Hq Hal Hb Hf. destruct (authority_soa m Hm _ _ _ _ _ Ha) as (_ & Hz & Hfs & Hw).
  assert (Hwb : set_wf k sb).
  { destruct Hb as [Hr _]. apply request_set_wf in Hr as (Hws & _); [done|]. by eapply authority_key. }
  apply flag_soas in Hf, Hfs. destruct (one_soa _ (wf_one _ _ Hwb) Hf) as [new Hnew].
  destruct (one_soa _ (wf_one _ _ Hw) Hfs) as [r Hr].
  assert (Hmn := wf_soa _ _ Hwb). assert (Hmr := wf_soa _ _ Hw). rewrite Hnew in Hmn. rewrite Hr in Hmr.
  rewrite Forall_singleton in Hmn. rewrite Forall_singleton in Hmr.
  destruct (increment_spec (z_rrs sb) (z_rrs soa) new r) as (n & Hn & Hi); [by rewrite Hnew|by rewrite Hr|done|done|].
  exists n. split; [by rewrite (serial_of _ _ Hr)|]. unfold onResourceRecord.
  rewrite (handler_zone m (store_names _ Hm) q k soa (authority_path _ _ _ _ _ _ Ha) Ht) by (by rewrite Hq).
  assert (Hb' : body_set q k k (old_tenant (found m k k soa)) sb) by by rewrite (found_tenant _ _ _ _ _ Ha), Ht.
  rewrite (decide_put _ _ _ _ _ _ Ha Hq Hb'). fold k. unfold put_rr. rewrite (auth_same _ _ _ _ _ Ha), String.eqb_refl.
  rewrite (auth_soa _ _ _ _ _ Ha). cbn [from_option]. rewrite Hi.
  assert (Hx : hasRr (found m k k soa) = true) by (unfold hasRr, found; cbn; by rewrite Hz).
  rewrite Hx, Hal. cbn [negb mbind verdict_bind commit_rr orb]. by rewrite andb_false_r.
Qed.

(** DELETE of a whole record set. *)
Lemma delete_below q a e z soa :
  let k := toLowerStr (q_target q) in
  authority m k a e z soa -> z_tenant soa = Some tenant -> z <> k -> q_method q = DELETE -> q_operation q = ""%string ->
  is_Some (m !! k) -> allowed DELETE_RR k = true ->
  exists soa' n, zset_serial soa = Some n /\ z_rrs soa' ≡ₚ update_soa (set_serial (next_serial n)) (z_rrs soa) /\
    onResourceRecord' m q = Some (200, None, <[z := soa']> (delete k m)).
Proof.
  intros k Ha Ht Hzk Hq Hop [old Hold] Hal. destruct (commit_below k a e z soa None Ha) as (soa' & n & _ & Hn & _ & Hp & _ & Hc).
  exists soa', n. split_and!; [done..|]. unfold onResourceRecord. rewrite (handler_zone m (store_names _ Hm) q z soa (authority_path _ _ _ _ _ _ Ha) Ht) by done. fold k.
  unfold decide_rr. rewrite (found_zone_length _ _ _ _ (store_names _ Hm) (authority_path _ _ _ _ _ _ Ha)). rewrite expects_body, Hq. cbn [mbind verdict_bind].
  unfold delete_rr. fold k. rewrite Hal, Hop. assert (Hx : x_rr (found m k z soa) = Some old) by done. rewrite Hx.
  cbn [negb String.eqb mbind verdict_bind]. rewrite Hc. cbn [mbind verdict_bind]. rewrite found_code. unfold done_code. by rewrite Hold.
Qed.

(** C39: With zone transfers by difference enabled, as they are by default, a zone's
    own records cannot be patched: whatever the body, a PATCH for the name of a
    zone is answered with an error and changes nothing, since the difference
    needs the new SOA, which this branch does not set. *)
Theorem apex_patch_fails q soa code v m' :
  m !! toLowerStr (q_target q) = Some soa -> flag_soa soa = true -> ixfr = true -> q_method q = PATCH ->
  onResourceRecord' m q = Some (code, v, m') -> 400 <= code /\ m' = m.
Proof.
  intros Hk Hf Hi Hq Hr. unfold onResourceRecord in Hr.
  destruct (rr_handler _ _ _ _ _ _ _ _) as [[[c w] m1]| | |] eqn:Eh; [|injection Hr as <- _ <-; split; [lia|done]..|done].
  injection Hr as -> -> ->. assert (Hx := Eh). apply (handler_cases m (store_names _ Hm)) in Hx as [(-> & [[_ Hx1]|Hx1])|Hx].
  - congruence.
  - done.
  - exfalso. destruct Hx as (z & soa1 & s & bump & newSoa & Ha & _ & _ & Hd & Hc & _).
    assert (Hz : toLowerStr (q_target q) = z).
    { destruct (decide (z = toLowerStr (q_target q))) as [->|Hne]; [done|]. by rewrite (path_below _ _ _ _ _ Ha Hne Hk) in Hf. }
    assert (bump = false /\ newSoa = false) as [-> ->].
    { apply (patch_flags _ _ _ _ _ _ _ _ _ _ _ Hd Hq); [by unfold found; cbn; rewrite Hk|].
      by rewrite (found_same _ _ _ _ Ha), Hz, String.eqb_refl. }
    unfold commit_rr in Hc. rewrite Hi in Hc. by destruct s.
Qed.
End Request.
End Service.

(** ** Histories *)

Section History.
Context `{Addresses} `{Finish} `{RestLibs}.
Context (default_ttl : Z) (check_targets ixfr : bool) (parseJson : string -> option json).

(** A request of some session that is answered. *)
Inductive rr_step (who : string -> Prop) (m m' : index) : Prop :=
| rr_request tenant allowed q code v :
    who tenant ->
    onResourceRecord default_ttl check_targets ixfr parseJson tenant allowed m q = Some (code, v, m') ->
    rr_step who m m'.

Lemma steps_ok who m m' : store_ok m -> rtc (rr_step who) m m' -> store_ok m'.
Proof.
  intros Hm Hs. induction Hs as [|m1 m2 m3 [tenant allowed q code v _ Hr] _ IH]; [done|].
  apply IH. by eapply request_ok.
Qed.

(** C19: The index stays well formed, and zones stay: after any history of
    requests to /rr, by any sessions and with any answers, every record set is
    well formed and has a zone, and each zone is still there, with the tenant
    it had. *)
Theorem history_keeps_zones m m' :
  store_ok m -> rtc (rr_step (fun _ => True)) m m' ->
  store_ok m' /\
  forall z soa, m !! z = Some soa -> flag_soa soa = true ->
    exists soa', m' !! z = Some soa' /\ flag_soa soa' = true /\ z_tenant soa' = z_tenant soa.
Proof.
  intros Hm Hs. split; [by eapply steps_ok|].
  induction Hs as [|m1 m2 m3 [tenant allowed q code v _ Hr] _ IH]; [by eauto|]. intros z soa Hz Hf.
  destruct (request_zone _ _ _ _ _ _ _ Hm _ _ _ _ _ _ Hr Hz Hf) as (soa2 & Hz2 & Hf2 & <-).
  apply IH; [by eapply request_ok|done|done].
Qed.

Lemma step_keeps_authority who m m' k a e z soa t :
  store_ok m -> rr_step who m m' -> ~ who t -> authority m k a e z soa -> z_tenant soa = Some t ->
  authority m' k a e z soa /\ m' !! k = m !! k.
Proof.
  intros Hm [tenant allowed q code v Hw Hr] Ht Ha Htn.
  assert (Hkeep : forall b, authority m b a e z soa -> m' !! b = m !! b).
  { intros b Hb. destruct (decide (m' !! b = m !! b)) as [|Hne]; [done|].
    destruct (changed_zone _ _ _ _ _ _ _ Hm _ _ _ _ _ Hr Hne) as (a1 & e1 & z1 & soa1 & Hb1 & Ht1).
    destruct (authority_unique _ _ _ _ _ _ _ _ _ _ Hb Hb1) as [_ <-]. by simplify_eq. }
  split; [|by apply Hkeep]. assert (Haa : authority m a a e z soa).
  { destruct Ha as [Ha He Hn Hz]. split; [apply suffix_refl|done|by auto|done]. }
  assert (Hzz := authority_self m Hm _ _ _ _ _ Ha). destruct Ha as [Ha He Hn Hz]. split.
  - done.
  - by rewrite (Hkeep a).
  - intros b Hb Hbm. destruct (decide (is_Some (m !! b))) as [?|Hnb]; [by apply Hn|].
    destruct (suffix_total _ _ _ Ha Hb) as [Hab|?]; [|done]. exfalso. apply Hnb. rewrite <- (Hkeep b); [done|].
    split; [done|done| |done]. intros c Hc Hcm. apply Hn; [by eapply suffix_trans|done].
  - assert (Hmz : m !! z = Some soa -> m' !! z = Some soa).
    { intros Hmz. destruct (decide (m' !! z = m !! z)) as [->|Hne]; [done|].
      destruct (changed_zone _ _ _ _ _ _ _ Hm _ _ _ _ _ Hr Hne) as (a1 & e1 & z1 & soa1 & Hb1 & Ht1).
      destruct (authority_unique _ _ _ _ _ _ _ _ _ _ Hzz Hb1) as [_ <-]. by simplify_eq. }
    destruct (flag_soa e); [done|]. destruct Hz as (? & ? & ? & ?). by auto.
Qed.

(** Tenants are isolated: a name whose zone belongs to a tenant keeps its
    zone, and its record set as it is, through any history of requests to /rr
    by sessions of other tenants. *)
Theorem history_isolates_tenants m m' k a e z soa t :
  store_ok m -> authority m k a e z soa -> z_tenant soa = Some t ->
  rtc (rr_step (fun tenant => tenant <> t)) m m' ->
  m' !! k = m !! k /\ authority m' k a e z soa.
Proof.
  intros Hm Ha Ht Hs. induction Hs as [|m1 m2 m3 Hst _ IH]; [done|].
  destruct (step_keeps_authority _ _ _ k a e z soa t Hm Hst) as [Ha2 Hk]; [by intros []|exact Ha|done|].
  destruct IH as [Hk2 Ha3]; [by eapply steps_ok, rtc_once|done|]. by rewrite Hk2, Hk.
Qed.
End History.

Module ServiceDemo.
Import WireDemo RestDemo.

(** Two zones of two tenants, with a name in each. *)
Definition rrs_of (ds : list rdata) : list ttl_rr := (fun w => (300, w)) <$> default [] (mapM create ds).

Definition apex_org : zset :=
  ZSet (Some "t1"%string) 0 "ex.org" (rrs_of [TYPE_SOA "ns1.ex.org" "host\.master.ex.org" 7 1 2 3 4;
    TYPE_MX "mail.ex.org" 10; TYPE_A "127.0.0.1"; TYPE_MX "backup.ex.org" 20]).
Definition www_org : zset := ZSet None 6 "www.ex.org" (rrs_of [TYPE_A "127.0.0.1"; TYPE_MX "mail.ex.org" 10]).
Definition apex_net : zset :=
  ZSet (Some "t2"%string) 0 "ex.net" (rrs_of [TYPE_SOA "ns1.ex.net" "admin.ex.net" 4294967295 1 2 3 4; TYPE_NS "ns1.ex.net"]).
Definition www_net : zset := ZSet None 6 "www.ex.net" (rrs_of [TYPE_A "127.0.0.1"]).

Definition demo_index : index :=
  <["ex.org" := apex_org]> (<["www.ex.org" := www_org]> (<["ex.net" := apex_net]> {["www.ex.net" := www_net]}))%string.

Lemma rrs_good ds : Forall (fun d => forall bs, d <> TYPE_OTHER 6 bs) ds -> Forall soa_made (soas (rrs_of ds)).
Proof.
  intros Hds. apply soas_good. unfold rrs_of. apply made_soas.
  destruct (mapM create ds) as [ws|] eqn:E; [|constructor]. apply mapM_Some in E. cbn.
  induction E as [|d w ds ws Hw _ IH]; [constructor|]. apply Forall_cons in Hds as [Hd Hds].
  constructor; [by eapply create_made|by apply IH].
Qed.

Lemma rrs_ttl ds : Forall (fun r : ttl_rr => r.1 <= TTL_MAX) (rrs_of ds).
Proof. apply Forall_fmap, Forall_forall. intros w _. cbn. unfold TTL_MAX. lia. Qed.

Ltac demo_wf :=
  split; [repeat split; discriminate|intros _; split; vm_compute; reflexivity|vm_compute; lia
         |apply rrs_good; repeat constructor; discriminate|split; vm_compute; reflexivity
         |apply rrs_ttl].

Lemma demo_sets : set_wf "ex.org" apex_org /\ set_wf "www.ex.org" www_org /\ set_wf "ex.net" apex_net /\ set_wf "www.ex.net" www_net.
Proof. split_and!; demo_wf. Qed.

Lemma demo_lookup k s : demo_index !! k = Some s ->
  k = "ex.org"%string /\ s = apex_org \/ k = "www.ex.org"%string /\ s = www_org \/
  k = "ex.net"%string /\ s = apex_net \/ k = "www.ex.net"%string /\ s = www_net.
Proof.
  unfold demo_index. rewrite !lookup_insert_Some, lookup_singleton_Some. naive_solver.
Qed.

Lemma demo_ok : store_ok demo_index.
Proof.
  destruct demo_sets as (Hx1 & Hx2 & H3 & H4). intros k s Hk.
  apply demo_lookup in Hk as [[-> ->]|[[-> ->]|[[-> ->]|[-> ->]]]]; (split; [done|]); try discriminate.
  - intros _. exists "ex.org"%string, apex_org. split_and!; [right; by exists "www"%string|done..].
  - intros _. exists "ex.net"%string, apex_net. split_and!; [right; by exists "www"%string|done..].
Qed.

Lemma demo_above b z : suffix_of b ("www." +:+ z) -> b = ("www." +:+ z)%string \/ suffix_of b z.
Proof. intros Hb. by apply (after_dot_some ("www." +:+ z) z eq_refl). Qed.

Lemma www_authority : authority demo_index "www.ex.org" "www.ex.org" www_org "ex.org" apex_org.
Proof.
  split; [apply suffix_refl|done|by auto|]. change (flag_soa www_org) with false. cbv iota.
  split_and!; [right; by exists "www"%string|done..].
Qed.

Lemma apex_authority : authority demo_index "ex.org" "ex.org" apex_org "ex.org" apex_org.
Proof. split; [apply suffix_refl|done|by auto|done]. Qed.

(** A parser of one body, and sessions that may do anything. *)
Definition a_record : json := JObj [("a", JArr [JStr "127.0.0.1"])]%string.
Definition any (p : permission) (k : string) : bool := true.
Definition parser (s : string) : option json := if String.eqb s "body" then Some a_record else None.

Abbreviation demo := (onResourceRecord 3600 true true parser).
Definition put_www : rest_request := RestRequest PUT "WWW.ex.org" "" [] "body".
Definition after_put : index := match demo "t1" any demo_index put_www with Some (_, _, m) => m | None => demo_index end.

Lemma put_www_answer : demo "t1" any demo_index put_www = Some (200, None, after_put).
Proof. vm_compute. reflexivity. Qed.

Lemma lookupEntryAndSoa_zone_witness :
  exists x, lookupEntryAndSoa demo_index "a.www.ex.org" = Built x /\ x_rr x = demo_index !! "a.www.ex.org"%string /\
    match x_soa x with
    | None => no_authority demo_index "a.www.ex.org"
    | Some soa => exists a e z, authority demo_index "a.www.ex.org" a e z soa /\ demo_index !! z = Some soa /\
                    flag_soa soa = true /\ (isSame x = true <-> z = "a.www.ex.org"%string)
    end.
Proof. exact (lookupEntryAndSoa_zone demo_index demo_ok "a.www.ex.org"). Defined.

Lemma accepted_change_serial_witness :
  exists a e z soa soa' n, authority demo_index "www.ex.org" a e z soa /\ z_tenant soa = Some "t1"%string /\
    after_put !! z = Some soa' /\ zset_serial soa = Some n /\ 0 <= n < 2 ^ 32 /\
    zset_serial soa' = Some (if n =? 2 ^ 32 - 1 then 0 else n + 1) /\ z_tenant soa' = Some "t1"%string.
Proof.
  refine (accepted_change_serial 3600 true true parser "t1" any demo_index demo_ok put_www 200 None after_put
            put_www_answer (or_introl eq_refl) _). discriminate.
Defined.

Lemma demo_step : rr_step 3600 true true parser (fun _ => True) demo_index after_put.
Proof. exact (rr_request _ _ _ _ _ _ _ "t1"%string any put_www 200 None I put_www_answer). Qed.

Lemma history_keeps_zones_witness :
  store_ok after_put /\
  forall z soa, demo_index !! z = Some soa -> flag_soa soa = true ->
    exists soa', after_put !! z = Some soa' /\ flag_soa soa' = true /\ z_tenant soa' = z_tenant soa.
Proof.
  exact (history_keeps_zones 3600 true true parser demo_index after_put demo_ok (rtc_once _ _ demo_step)).
Defined.

(** The other tenant deletes its name; the serial of its zone starts again
    from 0. *)
Definition delete_net : rest_request := RestRequest DELETE "www.ex.net" "" [] "".
Definition after_delete : index := match demo "t2" any demo_index delete_net with Some (_, _, m) => m | None => demo_index end.

Example serial_wraps : (after_delete !! "ex.net"%string) ≫= zset_serial = Some 0.
Proof. vm_compute. reflexivity. Qed.

Lemma delete_net_answer : demo "t2" any demo_index delete_net = Some (200, None, after_delete).
Proof. vm_compute. reflexivity. Qed.

Lemma history_isolates_tenants_witness :
  after_delete !! "www.ex.org"%string = demo_index !! "www.ex.org"%string /\
  authority after_delete "www.ex.org" "www.ex.org" www_org "ex.org" apex_org.
Proof.
  refine (history_isolates_tenants 3600 true true parser demo_index after_delete _ _ _ _ _ "t1" demo_ok
            www_authority eq_refl (rtc_once _ _ (rr_request _ _ _ _ _ _ _ "t2"%string any delete_net 200 None _ delete_net_answer))).
  discriminate.
Defined.

(** PATCH at the apex of a zone. *)
Definition patch_apex : rest_request := RestRequest PATCH "ex.org" "" [] "body".

Example patch_apex_code : (fun r => r.1.1) <$> demo "t1" any demo_index patch_apex = Some 500.
Proof. vm_compute. reflexivity. Qed.

Lemma apex_patch_fails_witness : 400 <= 500 /\ demo_index = demo_index.
Proof.
  refine (apex_patch_fails 3600 true true parser "t1" any demo_index demo_ok patch_apex apex_org 500 None demo_index
            eq_refl eq_refl eq_refl eq_refl _). vm_compute. reflexivity.
Defined.

(** With dns_enable_ixfr off it is accepted. *)
Example patch_apex_plain :
  (fun r => r.1.1) <$> onResourceRecord 3600 true false parser "t1" any demo_index patch_apex = Some 200.
Proof. vm_compute. reflexivity. Qed.
End ServiceDemo.
