(* ===== verification/ListServer.v ===== *)
(** * RestApi::listZones and RestApi::listZone

    The handlers of GET /zone and GET /zone/<zone> (lib/RestApi.cpp), from the
    checks of the request to the JSON of the page, over the index of
    [RealKey].  The access check is that of Session::isAllowed, its answer an
    argument here; the request is for one tenant (no [tenant] argument).  Both
    handlers keep the promise the UI relies on ([PageServerLaws]) for an index
    as the server writes it. *)

From S2P Require Import Prelude JsNumber JsValue Http Qargs Paging ServerUtil RealKey KeyBlock RrTypes RrJson.

(** ** The handlers *)

(** The answer to a walk: an exception that leaves the handler is answered by
    the HTTP library. *)
Definition walk_reply {A} (r : option (option (page A))) : option (fetch_result (page A)) :=
  match r with
  | Some (Some p) => Some (Resp true "OK" (Some p))
  | Some None => Some (Resp false "Internal Server Error" None)
  | None => None
  end.

(** *** listZones *)

Definition tzone_key (tenant_id from : string) : string := init_key (concat_key tenant_id from) TZONE.

Definition zone_accept (tenant_id key : string) : bool :=
  compareCaseInsensitive tenant_id (getFirstAndSecondStr key).1 true.

Definition zone_item {V} (key : string) (_ : V) : option string := Some (getFirstAndSecondStr key).2.

Definition listZones {V} `{KvStore V} (cfg : rest_config) (allowed : bool) (tenant_id : string)
    (req : query) (fuel : nat) : option (fetch_result (page string)) :=
  if negb allowed then Some (Resp false "Access Denied" None)
  else match getPageSize cfg req with
       | None => Some (Resp false "Internal Server Error" None)
       | Some page_size =>
           let from := getFrom req in
           let list forward :=
             walk_reply (list_reply (zone_accept tenant_id) zone_item id (tzone_key tenant_id from)
                           true forward page_size fuel) in
           if String.eqb from "" then list true
           else match getDirection req with
                | None => Some (Resp false "Bad Request" None)
                | Some forward =>
                    if validateFqdn from then list forward
                    else Some (Resp false "Invalid fqdn in 'from' argument" None)
                end
       end.

(** *** listZone *)

Inductive KindOfListing : Type := DEFAULT | ID | BRIEF | VERBOSE.
#[export] Instance kind_eq_dec : EqDecision KindOfListing.
Proof. solve_decision. Defined.

Definition kinds : list (string * KindOfListing) :=
  [("id", ID); ("brief", BRIEF); ("default", DEFAULT); ("verbose", VERBOSE)]%string.

(** getKindOfListing with the kinds that are valid here; [None] for its 400. *)
Definition getKindOfListing (valid : list KindOfListing) (req : query) : option KindOfListing :=
  match assoc_get "kind" req with
  | Some key => kind ← assoc_get key kinds; if bool_decide (kind ∈ valid) then Some kind else None
  | None => Some DEFAULT
  end.

Definition entry_key (fqdn : string) : string := init_key fqdn ENTRY.

(** The record in the list: the object of the record set, or only its name. *)
Definition entry_item (kind : KindOfListing) (key : string) (e : entry) : option json :=
  match kind with
  | VERBOSE =>
      match e with
      | [] => Some (JObj [("fqdn", JStr (dataAsString key))]%string)
      | _ => JObj <$> toJson_entry e
      end
  | _ => Some (JStr (dataAsString key))
  end.

(** The key of an element of the list, in getKeys and sort_json. *)
Definition json_key (j : json) : string :=
  match j with
  | JObj ps => match assoc_get "fqdn" ps with Some (JStr s) => s | _ => "" end
  | JStr s => s
  | _ => ""
  end.

Definition listZone `{KvStore entry} (cfg : rest_config) (allowed : bool) (target : string)
    (req : query) (fuel : nat) : option (fetch_result (page json)) :=
  let lowercaseFqdn := toLowerStr target in
  match getKindOfListing [DEFAULT; VERBOSE] req with
  | None => Some (Resp false "Bad Request" None)
  | Some kind =>
      if negb allowed then Some (Resp false "Access Denied" None)
      else match getPageSize cfg req with
           | None => Some (Resp false "Internal Server Error" None)
           | Some page_size =>
               let from := getFrom req in
               let list from is_followup_page forward :=
                 walk_reply (list_reply (fun key => isInZone key lowercaseFqdn) (entry_item kind) json_key
                               (entry_key from) is_followup_page forward page_size fuel) in
               if String.eqb from "" then list lowercaseFqdn false true
               else match getDirection req with
                    | None => Some (Resp false "Bad Request" None)
                    | Some forward =>
                        if negb (validateFqdn from) then
                          Some (Resp false "Invalid fqdn in 'from' argument" None)
                        else if negb (isSameZone lowercaseFqdn from) then
                          Some (Resp false "'from' argument is outside the bounds of the target (zone) argument!" None)
                        else list from true forward
                    end
           end
  end.

(** ** Keys *)

Lemma cut_slash_app (t z : string) : has_char "/" t = false -> cut_slash (t +:+ String "/" z) = Some (t, z).
Proof.
  induction t as [|c t IH]; intros Ht; [done|]. rewrite string_app_cons. cbn in Ht |- *.
  apply orb_false_iff in Ht as [Hc Ht].
  destruct (Ascii.eqb_spec c "/") as [->|_]; [done|]. by rewrite IH.
Qed.

Lemma tzone_key_parts (t z : string) :
  has_char "/" t = false -> getFirstAndSecondStr (tzone_key t z) = (t, z).
Proof.
  intros Ht. unfold getFirstAndSecondStr, tzone_key, init_key, concat_key. cbn [isReversed data_part].
  by rewrite cut_slash_app.
Qed.

Lemma compareCaseInsensitive_refl (s : string) b : compareCaseInsensitive s s b = true.
Proof. induction s as [|c s IH]; [done|]. cbn. by rewrite Ascii.eqb_refl. Qed.

Lemma compareCaseInsensitive_lower (s t : string) :
  compareCaseInsensitive s t true = true -> toLowerStr s = toLowerStr t.
Proof.
  revert t. induction s as [|a s IH]; intros [|b t]; try done. cbn.
  destruct (Ascii.eqb_spec (c_tolower a) (c_tolower b)) as [->|]; [|done]. intros H. by rewrite (IH t).
Qed.

Lemma prefix_spec (p s : string) : String.prefix p s = true <-> exists r, s = p +:+ r.
Proof.
  revert s. induction p as [|a p IH]; intros s; [split; [by exists s|by destruct s]|].
  destruct s as [|b s]; cbn; [split; [done|by intros [r [=]]]|].
  destruct (ascii_dec a b) as [->|Hne].
  - rewrite IH. split; [intros [r ->]; by exists r|intros [r [= ->]]; by exists r].
  - split; [done|]. intros [r [=]]. congruence.
Qed.

(** What precedes the zones of a tenant. *)
Definition tzone_prefix (t : string) : string := String (class_byte TZONE) (t +:+ "/").

Lemma tzone_key_app (t z : string) : tzone_key t z = tzone_prefix t +:+ z.
Proof.
  unfold tzone_key, tzone_prefix, init_key, concat_key. cbn [isReversed].
  rewrite string_app_cons, string_app_assoc. by rewrite string_app_cons, string_app_nil_l.
Qed.

(** A valid name has a first character and none that the query string or a
    key would take apart. *)
Lemma fqdn_scan_chars first s c :
  fqdn_scan first s = true -> label_first c = false -> label_rest c = false -> c <> "."%char ->
  has_char c s = false.
Proof.
  intros H H1 H2 H3. revert first H. induction s as [|d s IH]; intros first H; [done|]. cbn in H |- *.
  destruct (Ascii.eqb_spec d c) as [->|_].
  - exfalso. destruct first; [by rewrite H1 in H|].
    destruct (Ascii.eqb_spec c "."); [done|]. by rewrite H2 in H.
  - cbn [orb]. destruct first; [|destruct (Ascii.eqb d ".")]; reflect_tests; eauto.
Qed.

Lemma validateFqdn_chars s :
  validateFqdn s = true -> s <> ""%string /\ has_char "&" s = false.
Proof.
  intros H. split; [by intros ->|]. by eapply fqdn_scan_chars.
Qed.

(** ** The zones of a tenant *)

Section ZoneServer.
Context {V : Type} {kv : KvStore V} (contents : list (string * V)) (pos : cursor -> option nat).
Context {laws : KvStoreLaws kv contents pos}.
Context (tenant : string).

(** A key of the tenant's zones: the class, the tenant's id and a slash. *)
Definition tenant_zone (key : string) : bool := String.prefix (tzone_prefix tenant) key.

Definition tenant_records : list (string * V) := List.filter (fun r => tenant_zone r.1) contents.

Definition tenant_zones : list string := (fun r => (getFirstAndSecondStr r.1).2) <$> tenant_records.

(** The index with valid names of zones: createTenant puts the ids of tenants in
    lower case, and addZone makes a key of an id and the zone's name.  Neither
    addZone nor onZone looks whether the name is valid: a zone that is created
    as [ex.org.] breaks the condition, and the requests of the list that begin
    at it are refused. *)
Record tenant_index : Prop := {
  tenant_plain : has_char "/" tenant = false;
  tenant_lower : toLowerStr tenant = tenant;
  tzone_keys r : r ∈ contents -> isSameKeyClass (tzone_key tenant "") r.1 = true ->
    exists t z, r.1 = tzone_key t z /\ has_char "/" t = false /\ toLowerStr t = t /\ validateFqdn z = true
}.

Definition zones_page (from : string) (forward : bool) (n : nat) : page string :=
  match list_reply (zone_accept tenant) zone_item id (tzone_key tenant from) true forward n
          (S (length contents)) with
  | Some (Some p) => p
  | _ => Page [] false "" ""
  end.

Definition zone_server : PageServer string := {|
  items := tenant_zones;
  item_key := id;
  valid_from := validateFqdn;
  list_page := zones_page
|}.

Hypothesis index_ok : tenant_index.

Lemma tenant_zone_key zone : tenant_zone (tzone_key tenant zone) = true.
Proof. unfold tenant_zone. rewrite tzone_key_app. apply prefix_spec. by eexists. Qed.

Lemma tenant_zone_inv r :
  r ∈ contents -> tenant_zone r.1 = true ->
  exists zone, r.1 = tzone_key tenant zone /\ validateFqdn zone = true.
Proof.
  intros Hr [z Hz]%prefix_spec. rewrite <- tzone_key_app in Hz. exists z. split; [done|].
  destruct (tzone_keys index_ok r Hr) as (t & z' & E & Ht & _ & Hv); [by rewrite Hz|].
  assert (Hp := tzone_key_parts t z' Ht). rewrite <- E, Hz, tzone_key_parts in Hp by apply index_ok.
  by injection Hp as _ ->.
Qed.

Lemma tenant_split :
  exists pre post, contents = pre ++ tenant_records ++ post /\
    Forall (fun r => tenant_zone r.1 = false) pre /\ Forall (fun r => tenant_zone r.1 = true) tenant_records /\
    Forall (fun r => tenant_zone r.1 = false) post /\
    Forall (fun r => String.leb r.1 (tzone_key tenant "") = true) pre /\
    Forall (fun r => key_lt (tzone_key tenant "") r.1) (tenant_records ++ post).
Proof.
  assert (Hi := tenant_zone_inv).
  apply (block_after tenant_zone (tzone_key tenant "")); [apply kv_sorted| |].
  - intros r Hr HP. destruct (Hi r Hr HP) as (z & -> & Hz). apply validateFqdn_chars in Hz as [Hz _].
    rewrite !tzone_key_app. rewrite string_app_nil_r.
    destruct (key_le_lt _ _ (prefix_le (tzone_prefix tenant) z)) as [E|]; [|done].
    destruct Hz. apply (inj (String.app (tzone_prefix tenant))). by rewrite string_app_nil_r.
  - intros x c Hx Hc HP Hlt Hle. destruct (Hi c Hc HP) as (z & Ez & _). rewrite Ez, tzone_key_app in Hle.
    apply key_lt_le in Hlt. rewrite tzone_key_app in Hlt.
    destruct (prefix_between _ _ _ _ Hlt Hle) as (y & -> & _). rewrite <- tzone_key_app.
    apply tenant_zone_key.
Qed.

Abbreviation zone_of := (fun r : string * V => (getFirstAndSecondStr r.1).2).

Lemma tenant_record r :
  r ∈ tenant_records -> r.1 = tzone_key tenant (zone_of r) /\ validateFqdn (zone_of r) = true.
Proof.
  intros Hr. unfold tenant_records in Hr. apply list_elem_of_In, filter_In in Hr as [Hr HP].
  apply list_elem_of_In in Hr.
  destruct (tenant_zone_inv r Hr HP) as (z & Ez & Hz). by rewrite Ez, tzone_key_parts by apply index_ok.
Qed.

Lemma zone_items l : mapM (fun r => zone_item r.1 r.2) l = Some (zone_of <$> l).
Proof. by apply mapM_total, Forall_forall. Qed.

Lemma window_fmap {A B} (f : A -> B) s n l : window s n (f <$> l) = f <$> window s n l.
Proof. unfold window. by rewrite <- fmap_drop, <- fmap_take. Qed.

(** The walk goes on as long as the keys are the tenant's. *)
Lemma zone_go_on from (r : string * V) :
  r ∈ contents -> isSameKeyClass (tzone_key tenant from) r.1 && zone_accept tenant r.1 = tenant_zone r.1.
Proof.
  intros Hr. apply eq_bool_prop_intro. rewrite !Is_true_true, andb_true_iff. split.
  - intros [Hc Ha]. destruct (tzone_keys index_ok r Hr Hc) as (t & z & E & Ht & Hl & _).
    unfold zone_accept in Ha. rewrite E, tzone_key_parts in Ha by done.
    apply compareCaseInsensitive_lower in Ha. cbn [fst] in Ha.
    rewrite Hl, (tenant_lower index_ok) in Ha. subst t. rewrite E. apply tenant_zone_key.
  - intros HP. destruct (tenant_zone_inv r Hr HP) as (z & -> & _). split; [done|].
    unfold zone_accept. rewrite tzone_key_parts by apply index_ok. apply compareCaseInsensitive_refl.
Qed.

(** The page in the model's list is the page of the walk. *)
Lemma zones_page_like from forward n w m :
  (exists r, list_reply (zone_accept tenant) zone_item id (tzone_key tenant from) true forward n
     (S (length contents)) = Some r /\ reply_like id r (mapM (fun r => zone_item r.1 r.2) w) m) ->
  page_like id (zones_page from forward n) (zone_of <$> w) m.
Proof.
  intros (r & E & Hr). unfold zones_page. rewrite E. rewrite zone_items in Hr. by destruct r.
Qed.

Lemma zone_server_laws : @PageServerLaws string zone_server.
Proof.
  destruct tenant_split as (pre & post & E & Hpre & Hblk & Hpost & Hle & Hlt).
  assert (Hkeys : tzone_key tenant <$> tenant_zones = tenant_records.*1).
  { unfold tenant_zones. rewrite <- list_fmap_compose. apply list_fmap_ext. intros i r Hr.
    symmetry. apply tenant_record. by eapply list_elem_of_lookup_2. }
  assert (Hget : forall i z, tenant_zones !! i = Some z ->
            exists v, tenant_records !! i = Some (tzone_key tenant z, v)).
  { intros i z Hz. assert (Hk : tenant_records.*1 !! i = Some (tzone_key tenant z))
      by (rewrite <- Hkeys, list_lookup_fmap, Hz; done).
    rewrite list_lookup_fmap in Hk. destruct (tenant_records !! i) as [[k v]|]; [|done].
    injection Hk as ->. by exists v. }
  assert (Hlen : length tenant_zones = length tenant_records) by apply length_fmap.
  split; cbn [items item_key valid_from list_page zone_server].
  - rewrite list_fmap_id. apply (NoDup_fmap_1 (tzone_key tenant)). rewrite Hkeys.
    assert (Hs := sorted_nodup _ kv_sorted). rewrite E, !fmap_app in Hs.
    apply NoDup_app in Hs as (_ & _ & Hs). by apply NoDup_app in Hs as (Hs & _).
  - intros z (i & Hz)%list_elem_of_lookup. destruct (Hget i z Hz) as (v & Hv).
    apply list_elem_of_lookup_2, tenant_record in Hv. cbn [fst] in Hv.
    rewrite tzone_key_parts in Hv by apply index_ok. destruct Hv as [_ Hv].
    destruct (validateFqdn_chars z Hv). by split_and!.
  - intros n _. rewrite Hlen. unfold tenant_zones. rewrite window_fmap. apply zones_page_like.
    eapply (list_reply_start contents pos tenant_zone); eauto using zone_go_on.
  - intros n i z _ Hz. destruct (Hget i z Hz) as (v & Hv). rewrite Hlen. unfold tenant_zones.
    rewrite window_fmap. apply zones_page_like.
    eapply (list_reply_forward contents pos tenant_zone); eauto using zone_go_on.
  - intros n i z _ Hz. destruct (Hget i z Hz) as (v & Hv). unfold tenant_zones.
    rewrite window_fmap. apply zones_page_like.
    eapply (list_reply_backward contents pos tenant_zone); eauto using zone_go_on.
Qed.

(** The walk ends with its page. *)
Lemma zones_walk from forward n fuel :
  length contents < fuel ->
  list_reply (zone_accept tenant) zone_item id (tzone_key tenant from) true forward n fuel
  = Some (Some (zones_page from forward n)).
Proof.
  intros Hf. destruct tenant_split as (pre & post & E & Hpre & Hblk & Hpost & _).
  unfold zones_page.
  rewrite !(list_reply_visits contents pos tenant_zone) by (eauto using zone_go_on || lia). cbv zeta.
  by rewrite zone_items.
Qed.

Lemma listZones_serves cfg req fuel :
  length contents < fuel ->
  listZones cfg true tenant req fuel = Some (serve_list (H := zone_server) cfg req).
Proof.
  intros Hf. unfold listZones, serve_list. cbn [negb].
  destruct (getPageSize cfg req) as [n|]; [|done]. cbv zeta.
  destruct (String.eqb_spec (getFrom req) "") as [->|_].
  - by rewrite zones_walk.
  - destruct (getDirection req) as [forward|]; [|done]. cbn [valid_from list_page zone_server].
    destruct (validateFqdn (getFrom req)); [|done]. by rewrite zones_walk.
Qed.
End ZoneServer.

(** ** The names of a zone *)

Lemma list_ascii_app (a b : string) :
  list_ascii_of_string (a +:+ b) = list_ascii_of_string a ++ list_ascii_of_string b.
Proof. induction a as [|c a IH]; [done|]. rewrite string_app_cons. cbn [list_ascii_of_string]. by rewrite IH. Qed.

Lemma string_of_list_app (l1 l2 : list ascii) :
  string_of_list_ascii (l1 ++ l2) = string_of_list_ascii l1 +:+ string_of_list_ascii l2.
Proof. induction l1 as [|c l1 IH]; [done|]. rewrite <- app_comm_cons. cbn [string_of_list_ascii]. by rewrite IH. Qed.

Lemma reverse_app (a b : string) : reverse (a +:+ b) = reverse b +:+ reverse a.
Proof. unfold reverse. by rewrite list_ascii_app, rev_app_distr, string_of_list_app. Qed.

Lemma reverse_involutive (a : string) : reverse (reverse a) = a.
Proof.
  unfold reverse. rewrite list_ascii_of_string_of_list_ascii, rev_involutive.
  apply string_of_list_ascii_of_string.
Qed.

Lemma in_zone_from_spec (z k : string) :
  in_zone_from z k = true <-> k = z \/ exists t, k = z +:+ String "." t.
Proof.
  revert k. induction z as [|a z IH]; intros [|b k]; cbn.
  - naive_solver.
  - destruct (Ascii.eqb_spec b ".") as [->|Hne]; [naive_solver|]. split; [done|].
    intros [[=]|[t [=]]]; congruence.
  - split; [done|]. intros [[=]|[t [=]]]; congruence.
  - destruct (Ascii.eqb_spec a b) as [->|Hne].
    + rewrite IH. split.
      * intros [->|[t ->]]; [by left|right; by exists t].
      * intros [[= ->]|[t [= ->]]]; [by left|right; by exists t].
    + split; [done|]. intros [[=]|[t [=]]]; congruence.
Qed.

Lemma get_app (a b : string) c : String.get (String.length a) (a +:+ String c b) = Some c.
Proof. induction a as [|d a IH]; [done|]. rewrite string_app_cons. cbn. exact IH. Qed.

Lemma isSameZone_self (z : string) : isSameZone z z = true.
Proof.
  unfold isSameZone. rewrite Nat.ltb_irrefl, Nat.sub_diag, Nat.eqb_refl.
  cbn [drop_chars]. destruct z; by rewrite compareCaseInsensitive_refl.
Qed.

Lemma isSameZone_sub (t z : string) : isSameZone z (t +:+ String "." z) = true.
Proof.
  unfold isSameZone. rewrite length_string_app. cbn [String.length].
  destruct (Nat.ltb_spec (String.length t + S (String.length z)) (String.length z)); [lia|].
  replace (String.length t + S (String.length z) - String.length z) with (S (String.length t)) by lia.
  replace (t +:+ String "." z) with ((t +:+ ".") +:+ z)
    by by rewrite string_app_assoc, string_app_cons, string_app_nil_l.
  replace (S (String.length t)) with (String.length (t +:+ ".")) by (rewrite length_string_app; cbn; lia).
  rewrite drop_chars_app, compareCaseInsensitive_refl.
  destruct (Nat.eqb_spec (String.length z) (String.length t + S (String.length z))); [lia|].
  rewrite length_string_app. cbn [String.length]. rewrite Nat.add_1_r, Nat.sub_1_r. cbn [Nat.pred].
  rewrite string_app_assoc, string_app_cons, string_app_nil_l. by rewrite get_app.
Qed.

(** A name in the zone of a key is the zone or ends with a dot and the zone. *)
Lemma isInZone_same (k z : string) :
  isInZone (entry_key k) z = true -> isSameZone z k = true.
Proof.
  unfold isInZone, entry_key, init_key. cbn [isReversed data_part]. rewrite in_zone_from_spec.
  intros [E|[t E]].
  - assert (k = z) as ->; [|apply isSameZone_self].
    by rewrite <- (reverse_involutive k), E, reverse_involutive.
  - assert (k = reverse t +:+ String "." z) as ->; [|apply isSameZone_sub].
    rewrite <- (reverse_involutive k), E, reverse_app, reverse_involutive.
    change (String "." t) with ("." +:+ t). rewrite reverse_app, string_app_assoc. reflexivity.
Qed.

(** ** The record sets of a zone *)

Section RecordServer.
Context {kv : KvStore entry} (contents : list (string * entry)) (pos : cursor -> option nat).
Context {laws : KvStoreLaws kv contents pos}.
Context (zone : string).

(** The zone itself and the names that end with a dot and the zone. *)
Definition zone_name (name : string) : bool :=
  String.eqb name zone || String.prefix (reverse (String "." zone)) (reverse name).

Definition zone_record (key : string) : bool :=
  isSameKeyClass (entry_key zone) key && zone_name (dataAsString key).

Definition zone_records : list (string * entry) := List.filter (fun r => zone_record r.1) contents.

Definition record_json (r : string * entry) : json := default JNull (entry_item VERBOSE r.1 r.2).

(** The index of a zone: its apex is stored; its names are valid, and each
    record set has the name of its key and no PTR record; and no name outside
    of the zone has the zone's name as its end after a character that sorts
    before the dot. *)
Record zone_index : Prop := {
  apex_stored : exists v, (entry_key zone, v) ∈ contents;
  names_valid r : r ∈ contents -> zone_record r.1 = true -> validateFqdn (dataAsString r.1) = true;
  sets_listable r : r ∈ contents -> zone_record r.1 = true -> Forall (fun x => listable x = true) r.2;
  sets_named r x : r ∈ contents -> zone_record r.1 = true -> head r.2 = Some x -> labels x = dataAsString r.1;
  no_gap r c s : r ∈ contents -> r.1 = entry_key zone +:+ String c s -> Ascii.compare c "." <> Lt
}.

Definition records_page (from : string) (forward : bool) (n : nat) : page json :=
  let from' := if String.eqb from "" then zone else from in
  match list_reply (fun key => isInZone key zone) (entry_item VERBOSE) json_key (entry_key from')
          (negb (String.eqb from "")) forward n (S (length contents)) with
  | Some (Some p) => p
  | _ => Page [] false "" ""
  end.

Definition record_server : PageServer json := {|
  items := record_json <$> zone_records;
  item_key := json_key;
  valid_from from := validateFqdn from && isSameZone zone from;
  list_page := records_page
|}.

(** The walk goes on as long as the names are in the zone. *)
Lemma zone_record_walk from key :
  isSameKeyClass (entry_key from) key && isInZone key zone = zone_record key.
Proof.
  unfold zone_record. destruct key as [|c k]; [done|].
  change (isSameKeyClass (entry_key from) (String c k)) with (Ascii.eqb (class_byte ENTRY) c).
  change (isSameKeyClass (entry_key zone) (String c k)) with (Ascii.eqb (class_byte ENTRY) c).
  destruct (Ascii.eqb_spec (class_byte ENTRY) c) as [<-|]; [|done]. cbn [andb].
  change (dataAsString (String (class_byte ENTRY) k)) with (reverse k).
  unfold isInZone, zone_name. cbn [data_part]. apply eq_bool_prop_intro.
  rewrite !Is_true_true, orb_true_iff, in_zone_from_spec, String.eqb_eq, prefix_spec, reverse_involutive.
  change (String "." zone) with ("." +:+ zone). rewrite reverse_app.
  assert (H1 : k = reverse zone <-> reverse k = zone).
  { split; [intros ->; apply reverse_involutive|intros <-; by rewrite reverse_involutive]. }
  assert (H2 : (exists t, k = reverse zone +:+ String "." t) <->
               exists t, k = (reverse zone +:+ reverse ".") +:+ t).
  { by split; intros [t ->]; exists t; rewrite string_app_assoc. }
  by rewrite H1, H2.
Qed.

Hypothesis index_ok : zone_index.

Lemma zone_record_inv key :
  zone_record key = true -> key = entry_key zone \/ exists t, key = entry_key zone +:+ String "." t.
Proof.
  rewrite <- (zone_record_walk zone). intros [Hc Hz]%andb_true_iff. destruct key as [|c k]; [done|].
  cbn [isSameKeyClass entry_key init_key] in Hc. apply Ascii.eqb_eq in Hc. subst c.
  unfold isInZone in Hz. cbn [data_part] in Hz. apply in_zone_from_spec in Hz.
  unfold entry_key, init_key. cbn [isReversed].
  destruct Hz as [->|[t ->]]; [by left|right; by exists t].
Qed.

Lemma zone_record_apex : zone_record (entry_key zone) = true.
Proof. rewrite <- (zone_record_walk zone). unfold isInZone. cbn. apply in_zone_from_spec. by left. Qed.

Lemma zone_record_below t : zone_record (entry_key zone +:+ String "." t) = true.
Proof.
  rewrite <- (zone_record_walk zone). unfold isInZone, entry_key, init_key. cbn [isReversed]. rewrite string_app_cons.
  cbn [isSameKeyClass data_part]. rewrite Ascii.eqb_refl. apply in_zone_from_spec. right. by exists t.
Qed.

Lemma zone_record_ge key : zone_record key = true -> String.leb (entry_key zone) key = true.
Proof. intros [->|[t ->]]%zone_record_inv; [apply key_le_refl|apply prefix_le]. Qed.

Lemma zone_convex : convex zone_record contents.*1.
Proof.
  intros a b c _ Hb _ Ha Hc Hab Hbc. assert (Hge := key_le_trans _ _ _ (zone_record_ge a Ha) Hab).
  apply zone_record_inv in Hc.
  assert (Hb' : exists r, b = entry_key zone +:+ r).
  { rewrite <- (string_app_nil_r (entry_key zone)) in Hge.
    destruct Hc as [->|[t ->]].
    - rewrite <- (string_app_nil_r (entry_key zone)) in Hbc.
      destruct (prefix_between _ _ _ _ Hge Hbc) as (r & -> & _). by exists r.
    - destruct (prefix_between _ _ _ _ Hge Hbc) as (r & -> & _). by exists r. }
  destruct Hb' as [[|d r] ->]; [rewrite string_app_nil_r; apply zone_record_apex|].
  destruct (Ascii.eqb_spec d ".") as [->|Hne]; [apply zone_record_below|]. exfalso.
  apply list_elem_of_fmap in Hb as (x & Ex & Hx). assert (Hd := no_gap index_ok x d r Hx (eq_sym Ex)).
  destruct Hc as [->|[t ->]].
  - rewrite <- (string_app_nil_r (entry_key zone)) in Hbc at 2.
    apply (prefix_le_inv (entry_key zone)) in Hbc. done.
  - apply (prefix_le_inv (entry_key zone)) in Hbc. unfold String.leb in Hbc.
    rewrite string_compare_cons in Hbc. destruct (Ascii.compare d ".") eqn:E; [|done|done].
    by apply Ascii.compare_eq_iff in E.
Qed.

Lemma zone_records_elem r : r ∈ zone_records -> r ∈ contents /\ zone_record r.1 = true.
Proof. intros Hr. unfold zone_records in Hr. by rewrite list_elem_of_In, filter_In, <- list_elem_of_In in Hr. Qed.

Lemma zone_split :
  exists pre post, contents = pre ++ zone_records ++ post /\
    Forall (fun r => zone_record r.1 = false) pre /\ Forall (fun r => zone_record r.1 = true) zone_records /\
    Forall (fun r => zone_record r.1 = false) post.
Proof.
  destruct (convex_split zone_record contents kv_sorted zone_convex) as (pre & post & E & Hpre & Hpost).
  exists pre, post. split_and!; [done|done| |done]. apply Forall_forall.
  intros r Hr. by apply zone_records_elem.
Qed.

(** The apex is the first record. *)
Lemma zone_apex_first : exists v, zone_records !! 0 = Some (entry_key zone, v).
Proof.
  destruct (apex_stored index_ok) as [v Hv].
  assert (Hin : (entry_key zone, v) ∈ zone_records).
  { unfold zone_records. rewrite list_elem_of_In, filter_In, <- list_elem_of_In. split; [done|]. apply zone_record_apex. }
  destruct zone_split as (pre & post & E & _). assert (Hs := kv_sorted). rewrite E, !fmap_app in Hs.
  apply StronglySorted_app in Hs as (_ & _ & Hs). apply StronglySorted_app in Hs as (_ & Hs & _).
  destruct zone_records as [|y l] eqn:El; [by apply not_elem_of_nil in Hin|].
  apply elem_of_cons in Hin as [<-|Hin]; [by exists v|]. exfalso.
  rewrite fmap_cons, StronglySorted_cons, Forall_fmap, Forall_forall in Hs. destruct Hs as [Hs _].
  apply Hs in Hin. cbn in Hin. apply (key_lt_irrefl y.1). eapply key_lt_le_trans; [exact Hin|].
  apply zone_record_ge. apply zone_records_elem. rewrite El. by left.
Qed.

Lemma zone_record_key r : r ∈ zone_records -> r.1 = entry_key (dataAsString r.1).
Proof.
  intros [_ Hr]%zone_records_elem. apply zone_record_inv in Hr.
  assert (H : exists k, r.1 = String (class_byte ENTRY) k).
  { unfold entry_key, init_key in Hr. destruct Hr as [->|[t ->]]; [by eexists|]. rewrite string_app_cons. by eexists. }
  destruct H as [k ->]. change (dataAsString (String (class_byte ENTRY) k)) with (reverse k).
  unfold entry_key, init_key. cbn [isReversed]. by rewrite reverse_involutive.
Qed.

Lemma record_item r :
  r ∈ zone_records ->
  entry_item VERBOSE r.1 r.2 = Some (record_json r) /\ json_key (record_json r) = dataAsString r.1.
Proof.
  intros [Hr HP]%zone_records_elem. unfold record_json, entry_item. destruct r as [k [|x e]]; cbn [fst snd] in *; [done|].
  destruct (toJson_entry_run x e (sets_listable index_ok _ Hr HP)) as (obj & E & _ & Hf & _).
  rewrite E. cbn. split; [done|]. rewrite Hf. by apply (sets_named index_ok (k, x :: e)).
Qed.

Lemma record_items l : l ⊆ zone_records -> mapM (fun r => entry_item VERBOSE r.1 r.2) l = Some (record_json <$> l).
Proof. intros H. apply mapM_total, Forall_forall. intros r Hr. by apply record_item, H. Qed.

Lemma window_subseteq {A} s n (l : list A) : window s n l ⊆ l.
Proof. intros x Hx. apply subseteq_take, subseteq_drop in Hx. done. Qed.

Lemma records_page_like from forward n s m mo :
  (exists r, list_reply (fun key => isInZone key zone) (entry_item VERBOSE) json_key
      (entry_key (if String.eqb from "" then zone else from)) (negb (String.eqb from "")) forward n
      (S (length contents)) = Some r /\
    reply_like json_key r (mapM (fun r => entry_item VERBOSE r.1 r.2) (window s m zone_records)) mo) ->
  page_like json_key (records_page from forward n) (window s m (record_json <$> zone_records)) mo.
Proof.
  intros (r & E & Hr). unfold records_page. cbv zeta. rewrite E.
  rewrite record_items in Hr by apply window_subseteq. rewrite window_fmap. by destruct r.
Qed.

Lemma record_go_on from (r : string * entry) :
  isSameKeyClass (entry_key from) r.1 && isInZone r.1 zone = zone_record r.1.
Proof. apply zone_record_walk. Qed.

Lemma zone_record_name r :
  r ∈ zone_records -> dataAsString r.1 <> ""%string /\ validateFqdn (dataAsString r.1) = true /\
    isSameZone zone (dataAsString r.1) = true /\ has_char "&" (dataAsString r.1) = false.
Proof.
  intros Hr. destruct (zone_records_elem r Hr) as [Hin HP]. assert (Hv := names_valid index_ok r Hin HP).
  destruct (validateFqdn_chars _ Hv). split_and!; [done|done| |done]. apply isInZone_same.
  rewrite <- zone_record_key by done. rewrite <- (zone_record_walk zone), andb_true_iff in HP. exact (proj2 HP).
Qed.

Lemma record_at i j :
  (record_json <$> zone_records) !! i = Some j ->
  exists v, zone_records !! i = Some (entry_key (json_key j), v) /\ String.eqb (json_key j) "" = false.
Proof.
  rewrite list_lookup_fmap. intros (r & Hr & ->)%fmap_Some. assert (Hin := list_elem_of_lookup_2 _ _ _ Hr).
  destruct (record_item r Hin) as [_ Hk]. exists r.2. rewrite Hk. rewrite <- (zone_record_key r Hin).
  split; [by destruct r|]. apply String.eqb_neq. exact (proj1 (zone_record_name r Hin)).
Qed.

Lemma record_server_laws : @PageServerLaws json record_server.
Proof.
  destruct zone_split as (pre & post & E & Hpre & Hblk & Hpost).
  assert (Hlen : length (record_json <$> zone_records) = length zone_records) by apply length_fmap.
  split; cbn [items item_key valid_from list_page record_server].
  - apply (NoDup_fmap_1 entry_key). rewrite <- !list_fmap_compose.
    rewrite (list_fmap_ext _ fst); [|intros i r Hr; unfold compose].
    + assert (Hs := sorted_nodup _ kv_sorted). rewrite E, !fmap_app in Hs.
      apply NoDup_app in Hs as (_ & _ & Hs). by apply NoDup_app in Hs as (Hs & _).
    + apply list_elem_of_lookup_2 in Hr. destruct (record_item r Hr) as [_ ->].
      by rewrite <- zone_record_key.
  - intros j (r & -> & Hr)%list_elem_of_fmap. destruct (record_item r Hr) as [_ ->].
    destruct (zone_record_name r Hr) as (H1 & H2 & H3 & H4). by rewrite H2, H3.
  - intros n _. rewrite Hlen. apply records_page_like. cbn [String.eqb negb]. destruct zone_apex_first as [v Hv].
    eapply (list_reply_first contents pos zone_record); eauto using record_go_on.
  - intros n i j _ Hj. destruct (record_at i j Hj) as (v & Hv & Hne). rewrite Hlen. apply records_page_like.
    rewrite Hne. cbn [negb]. eapply (list_reply_forward contents pos zone_record); eauto using record_go_on.
  - intros n i j _ Hj. destruct (record_at i j Hj) as (v & Hv & Hne). apply records_page_like.
    rewrite Hne. cbn [negb]. eapply (list_reply_backward contents pos zone_record); eauto using record_go_on.
Qed.

Lemma take_while_subseteq (l : list (string * entry)) :
  l ⊆ contents -> take_while (fun r => zone_record r.1) l ⊆ zone_records.
Proof.
  induction l as [|x l IH]; intros Hl; cbn; [apply list_subseteq_nil|].
  destruct (zone_record x.1) eqn:E; [|apply list_subseteq_nil].
  intros y [->|Hy]%elem_of_cons; [|apply IH; [set_solver|done]].
  unfold zone_records. rewrite list_elem_of_In, filter_In, <- list_elem_of_In. split; [|done]. apply Hl. by left.
Qed.

Lemma visits_subseteq key skipKey forward : visits contents key skipKey forward ⊆ contents.
Proof.
  unfold visits. destruct forward; [apply subseteq_drop|].
  destruct (Nat.eqb _ 0); rewrite rev_reverse; intros x; rewrite elem_of_reverse; [done|apply subseteq_take].
Qed.

(** The walk ends with its page. *)
Lemma records_walk from forward n fuel :
  length contents < fuel ->
  list_reply (fun key => isInZone key zone) (entry_item VERBOSE) json_key
    (entry_key (if String.eqb from "" then zone else from)) (negb (String.eqb from "")) forward n fuel
  = Some (Some (records_page from forward n)).
Proof.
  intros Hf. destruct zone_split as (pre & post & E & Hpre & Hblk & Hpost).
  unfold records_page. cbv zeta. set (f := if String.eqb from "" then zone else from).
  rewrite !(list_reply_visits contents pos zone_record) by (eauto using record_go_on || lia). cbv zeta.
  rewrite record_items; [done|]. etrans; [apply subseteq_take|]. apply take_while_subseteq, visits_subseteq.
Qed.

Lemma listZone_serves cfg req fuel :
  length contents < fuel -> toLowerStr zone = zone -> assoc_get "kind" req = Some "verbose"%string ->
  (getFrom req <> ""%string -> validateFqdn (getFrom req) = true -> isSameZone zone (getFrom req) = true) ->
  listZone cfg true zone req fuel = Some (serve_list (H := record_server) cfg req).
Proof.
  intros Hf Hlow Hk Hs. unfold listZone, serve_list, getKindOfListing. rewrite Hk, Hlow.
  change (assoc_get "verbose" kinds) with (Some VERBOSE). cbn [negb mbind option_bind].
  rewrite bool_decide_true by set_solver. cbn [negb].
  destruct (getPageSize cfg req) as [n|]; [|done]. cbv zeta.
  assert (Hw := fun fwd => records_walk (getFrom req) fwd n fuel Hf).
  destruct (String.eqb_spec (getFrom req) "") as [E|Hne].
  - rewrite E in *. cbn [negb] in Hw. by rewrite Hw.
  - cbn [negb] in Hw. destruct (getDirection req) as [forward|]; [|done]. cbn [valid_from list_page record_server].
    destruct (validateFqdn (getFrom req)); [|done]. rewrite Hs by done. cbn [negb andb]. by rewrite Hw.
Qed.
End RecordServer.

(** ** What the handlers promise *)

(** GET /zone over the index refines the paged server the UI relies on:
    every request of an allowed session gets the answer of [serve_list] over
    the tenant's zones in index order, page by page in either direction, and
    the walk over the index ends. *)
Theorem listZones_refines {V} {kv : KvStore V} (contents : list (string * V)) (pos : cursor -> option nat)
    {laws : KvStoreLaws kv contents pos} (tenant : string) (cfg : rest_config) (req : query) (fuel : nat) :
  tenant_index contents tenant -> length contents < fuel ->
  listZones cfg true tenant req fuel = Some (serve_list (H := zone_server contents tenant) cfg req) /\
  @PageServerLaws string (zone_server contents tenant).
Proof.
  intros Hi Hf. split; [by apply (listZones_serves contents pos)|by apply (zone_server_laws contents pos)].
Qed.

(** GET /zone/<zone>?kind=verbose refines the paged server: for a zone
    whose names are valid and adjacent in the index, and whose record sets
    have no PTR record, every request inside the zone gets the answer of
    [serve_list] over the JSON of the zone's record sets in index order. *)
Theorem listZone_refines {kv : KvStore entry} (contents : list (string * entry)) (pos : cursor -> option nat)
    {laws : KvStoreLaws kv contents pos} (zone : string) (cfg : rest_config) (req : query) (fuel : nat) :
  zone_index contents zone -> length contents < fuel -> toLowerStr zone = zone ->
  assoc_get "kind" req = Some "verbose"%string ->
  (getFrom req <> ""%string -> validateFqdn (getFrom req) = true -> isSameZone zone (getFrom req) = true) ->
  listZone cfg true zone req fuel = Some (serve_list (H := record_server contents zone) cfg req) /\
  @PageServerLaws json (record_server contents zone).
Proof.
  intros Hi Hf Hl Hk Hs.
  split; [by apply (listZone_serves contents pos)|by apply (record_server_laws contents pos)].
Qed.

(** *** Where the promise ends *)

Lemma first_page_visits {kv : KvStore entry} (contents : list (string * entry)) (pos : cursor -> option nat)
    {laws : KvStoreLaws kv contents pos} (zone : string) pre v post :
  contents = pre ++ (entry_key zone, v) :: post ->
  visits contents (entry_key zone) false true = (entry_key zone, v) :: post.
Proof.
  intros E. assert (Hs := kv_sorted). unfold visits. rewrite E in *.
  assert (Hc := count_le_at pre post (entry_key zone, v) Hs). cbn [fst] in Hc. rewrite Hc. cbn [Nat.sub].
  by rewrite Nat.sub_0_r, drop_app_length.
Qed.

Lemma listZone_first_page {kv : KvStore entry} (contents : list (string * entry)) (pos : cursor -> option nat)
    {laws : KvStoreLaws kv contents pos} (zone : string) cfg req fuel n pre v post :
  contents = pre ++ (entry_key zone, v) :: post -> length contents < fuel -> toLowerStr zone = zone ->
  assoc_get "kind" req = Some "verbose"%string -> assoc_get "from" req = None -> getPageSize cfg req = Some n ->
  listZone cfg true zone req fuel
  = let w := take_while (fun r => zone_record zone r.1) ((entry_key zone, v) :: post) in
    walk_reply (Some (match mapM (fun r => entry_item VERBOSE r.1 r.2) (take n w) with
                      | Some l => Some (let '(f, g) := getKeys json_key l true in
                                        Page (sort_json json_key l) (n <? length w) f g)
                      | None => None
                      end)).
Proof.
  intros E Hf Hlow Hk Hfrom Hn. unfold listZone, getKindOfListing, getFrom.
  rewrite Hk, Hlow, Hfrom, Hn. change (assoc_get "verbose" kinds) with (Some VERBOSE).
  cbn [mbind option_bind]. rewrite bool_decide_true by set_solver.
  cbn [negb default from_option id String.eqb].
  rewrite (list_reply_visits contents pos (zone_record zone)) by (eauto using record_go_on || lia). cbv zeta.
  by rewrite (first_page_visits contents pos zone pre v post).
Qed.

(** C32: A zone's list ends at the first name that has the zone's name as its
    end without a dot before it: when such a name follows the apex in the
    index (as x-example.com follows example.com), the list has the apex alone
    and says that there is no more, whatever record sets the zone has after it. *)
Theorem listZone_truncated {kv : KvStore entry} (contents : list (string * entry)) (pos : cursor -> option nat)
    {laws : KvStoreLaws kv contents pos} (zone : string) cfg req fuel n pre v k e post j :
  contents = pre ++ (entry_key zone, v) :: (k, e) :: post -> zone_record zone k = false ->
  entry_item VERBOSE (entry_key zone) v = Some j ->
  length contents < fuel -> toLowerStr zone = zone -> assoc_get "kind" req = Some "verbose"%string ->
  assoc_get "from" req = None -> getPageSize cfg req = Some n -> 0 < n ->
  listZone cfg true zone req fuel
  = Some (Resp true "OK" (Some (Page [j] false (json_key j) (json_key j)))).
Proof.
  intros E Hk Hj Hf Hlow Hkind Hfrom Hn Hpos. erewrite listZone_first_page by done. cbv zeta.
  cbn [take_while fst]. rewrite zone_record_apex, Hk. destruct n as [|n]; [lia|]. cbn [take]. rewrite take_nil.
  cbn [mapM fst snd]. rewrite Hj. reflexivity.
Qed.

(** One record set with a PTR record fails the page that has it: the whole
    request is answered with an error, and no record set is listed. *)
Theorem listZone_ptr {kv : KvStore entry} (contents : list (string * entry)) (pos : cursor -> option nat)
    {laws : KvStoreLaws kv contents pos} (zone : string) cfg req fuel n pre v post :
  contents = pre ++ (entry_key zone, v) :: post -> length contents < fuel -> toLowerStr zone = zone ->
  assoc_get "kind" req = Some "verbose"%string -> assoc_get "from" req = None -> getPageSize cfg req = Some n ->
  Exists (fun r => Exists (fun x => listable x = false) r.2)
    (take n (take_while (fun r => zone_record zone r.1) ((entry_key zone, v) :: post))) ->
  listZone cfg true zone req fuel = Some (Resp false "Internal Server Error" None).
Proof.
  intros E Hf Hlow Hk Hfrom Hn Hex. erewrite listZone_first_page by done. cbv zeta.
  assert (Hm : mapM (fun r => entry_item VERBOSE r.1 r.2)
                 (take n (take_while (fun r => zone_record zone r.1) ((entry_key zone, v) :: post))) = None).
  { induction Hex as [r l Hr|r l _ IH]; cbn [mapM].
    - destruct r as [kk [|x ee]]; cbn [snd fst] in *; [by inversion Hr|]. cbn [entry_item toJson_entry].
      by rewrite toJson_all_ptr.
    - rewrite IH. by destruct (entry_item VERBOSE r.1 r.2). }
  by rewrite Hm.
Qed.

(** ** Witnesses *)

(** The conditions of [zone_index], record by record. *)
Lemma zone_index_each (entries : list (string * entry)) (zone : string) v :
  (entry_key zone, v) ∈ entries ->
  Forall (fun r => zone_record zone r.1 = true -> validateFqdn (dataAsString r.1) = true) entries ->
  Forall (fun r => zone_record zone r.1 = true -> Forall (fun x => listable x = true) r.2) entries ->
  Forall (fun r => forall x, zone_record zone r.1 = true -> head r.2 = Some x -> labels x = dataAsString r.1) entries ->
  Forall (fun r => forall c s, r.1 = entry_key zone +:+ String c s -> Ascii.compare c "." <> Lt) entries ->
  zone_index entries zone.
Proof.
  rewrite !Forall_forall. intros Ha Hv Hl Hn Hg. split; [by exists v|done|done|intros; by apply Hn|intros; by eapply Hg].
Qed.

Module ServerDemo.

Definition tenant : string := "a5f2-11".

(** Zones of three tenants. *)
Definition accounts : list (string * unit) :=
  [(tzone_key "9000" "other.org", tt);
   (tzone_key tenant "a.org", tt); (tzone_key tenant "b.org", tt); (tzone_key tenant "c.org", tt);
   (tzone_key "b000" "a.com", tt)]%string.

#[export] Instance accounts_kv : KvStore unit := list_store accounts tt.

#[export] Instance accounts_laws : KvStoreLaws accounts_kv accounts (list_pos accounts).
Proof. apply list_store_laws. repeat constructor. Qed.

Lemma accounts_index : tenant_index accounts tenant.
Proof.
  split; [reflexivity|reflexivity|].
  assert (H : Forall (fun r => isSameKeyClass (tzone_key tenant "") r.1 = true ->
                exists t z, r.1 = tzone_key t z /\ has_char "/" t = false /\ toLowerStr t = t /\
                  validateFqdn z = true) accounts).
  { unfold accounts. repeat constructor; intros _; cbn [fst]; do 2 eexists; split; try reflexivity;
      vm_compute; repeat split. }
  exact (proj1 (Forall_forall _ _) H).
Qed.

Definition two : query := [("limit", "2")]%string.
Definition cfg : rest_config := RestConfig 1000 100.

Lemma listZones_refines_witness :
  listZones cfg true tenant two 6 = Some (serve_list (H := zone_server accounts tenant) cfg two) /\
  @PageServerLaws string (zone_server accounts tenant).
Proof. refine (listZones_refines accounts (list_pos accounts) tenant cfg two 6 accounts_index _). cbn. lia. Defined.

(** The page itself. *)
Example two_zones :
  listZones cfg true tenant two 6
  = Some (Resp true "OK" (Some (Page ["a.org"; "b.org"]%string true "a.org" "b.org"))).
Proof. vm_compute. reflexivity. Qed.

(** A zone with three names. *)
Definition set_of (fqdn : string) (ds : list rdata) : string * entry :=
  (entry_key fqdn, (fun d => Rr fqdn 300 d) <$> ds).

Definition apex : string * entry :=
  set_of "example.com" [TYPE_SOA "ns1.example.com" "hostmaster.example.com" 1 2 3 4 5;
                        TYPE_NS "ns1.example.com"; TYPE_NS "ns2.example.com"; TYPE_MX "mail.example.com" 10].
Definition www : string * entry := set_of "www.example.com" [TYPE_A "127.0.0.1"; TYPE_AAAA "::1"].

Definition entries : list (string * entry) :=
  [set_of "b.com" [TYPE_A "127.0.0.2"]; apex; set_of "a.example.com" [TYPE_TXT "hi"]; www].

#[export] Instance entries_kv : KvStore entry := list_store entries [].

#[export] Instance entries_laws : KvStoreLaws entries_kv entries (list_pos entries).
Proof. apply list_store_laws. repeat constructor. Qed.

Lemma gap_free : Forall (fun r => forall c s, r.1 = entry_key "example.com" +:+ String c s -> Ascii.compare c "." <> Lt) entries.
Proof.
  unfold entries. repeat constructor; cbn [fst]; intros c s H; vm_compute in H; simplify_eq; discriminate.
Qed.

Lemma entries_index : zone_index entries "example.com".
Proof.
  eapply zone_index_each with (v := apex.2); [..|exact gap_free].
  - vm_compute. repeat constructor.
  - unfold entries. repeat constructor; vm_compute; done.
  - unfold entries. repeat constructor; intros _; repeat constructor.
  - unfold entries. repeat constructor; intros x H Hx; vm_compute in H; try discriminate H;
      cbn in Hx; simplify_eq; reflexivity.
Qed.

Definition verbose : query := [("limit", "10"); ("kind", "verbose")]%string.

Lemma listZone_refines_witness :
  listZone cfg true "example.com" verbose 5
  = Some (serve_list (H := record_server entries "example.com") cfg verbose) /\
  @PageServerLaws json (record_server entries "example.com").
Proof.
  refine (listZone_refines entries (list_pos entries) "example.com" cfg verbose 5 entries_index _ _ _ _);
    [cbn; lia|reflexivity|reflexivity|done].
Defined.

(** The same zone beside x-example.com. *)
Definition apart : string * entry := set_of "x-example.com" [TYPE_A "127.0.0.3"].

Definition crowded : list (string * entry) := [apex; apart; www].

#[export] Instance crowded_laws : KvStoreLaws (list_store crowded []) crowded (list_pos crowded).
Proof. apply list_store_laws. repeat constructor. Qed.

Definition apex_json : json := default JNull (entry_item VERBOSE apex.1 apex.2).

Lemma listZone_truncated_witness :
  listZone (H := list_store crowded []) cfg true "example.com" verbose 4
  = Some (Resp true "OK" (Some (Page [apex_json] false "example.com" "example.com"))).
Proof.
  refine (listZone_truncated (kv := list_store crowded []) crowded (list_pos crowded) "example.com" cfg verbose 4 10 []
            apex.2 apart.1 apart.2 [www] apex_json eq_refl eq_refl eq_refl _ eq_refl eq_refl eq_refl _ _);
    [cbn; lia|vm_compute; reflexivity|lia].
Defined.

(** A reverse zone. *)
Definition reverse_apex : string * entry :=
  set_of "1.10.in-addr.arpa" [TYPE_SOA "ns1.example.com" "hostmaster.example.com" 1 2 3 4 5; TYPE_NS "ns1.example.com"].
Definition reverse_zone : list (string * entry) :=
  [reverse_apex; set_of "7.1.10.in-addr.arpa" [TYPE_PTR "www.example.com"]].

#[export] Instance reverse_laws :
  KvStoreLaws (list_store reverse_zone []) reverse_zone (list_pos reverse_zone).
Proof. apply list_store_laws. repeat constructor. Qed.

Lemma listZone_ptr_witness :
  listZone (H := list_store reverse_zone []) cfg true "1.10.in-addr.arpa" verbose 3
  = Some (Resp false "Internal Server Error" None).
Proof.
  refine (listZone_ptr (kv := list_store reverse_zone []) reverse_zone (list_pos reverse_zone) "1.10.in-addr.arpa" cfg
            verbose 3 10 [] reverse_apex.2 [set_of "7.1.10.in-addr.arpa" [TYPE_PTR "www.example.com"]]
            eq_refl _ eq_refl eq_refl eq_refl _ _); [cbn; lia|vm_compute; reflexivity|].
  apply Exists_cons_tl, Exists_cons_hd, Exists_cons_hd. reflexivity.
Defined.

(** Names are stored under their lower-case key but keep their case in the
    list, and [from] is used as it comes: the page after WWW.example.com
    starts again after the apex. *)
Definition shouted : list (string * entry) :=
  [apex; set_of "a.example.com" [TYPE_TXT "hi"]; (entry_key "www.example.com", [Rr "WWW.example.com" 300 (TYPE_A "127.0.0.1")])].

Definition after_www : query :=
  [("from", "WWW.example.com"); ("limit", "1"); ("kind", "default"); ("direction", "forward")]%string.

Example shouted_from_restarts :
  listZone (H := list_store shouted []) cfg true "example.com" after_www 4
  = Some (Resp true "OK" (Some (Page [JStr "a.example.com"] true "a.example.com" "a.example.com"))).
Proof. vm_compute. reflexivity. Qed.
End ServerDemo.
