(* ===== verification/Access.v ===== *)
(** * Sessions and their permissions: lib/AuthMgr.cpp, lib/AuthMgr.h

    What a logged-in user may do: the roles of the user's tenant that the user
    has (Session::populate), with their filters (Session::init), and the checks
    of a permission (Session::isAllowed) against the index.  std::regex, the
    hash of a password and the parser of UUIDs are behind [AuthLibs].

    The messages are those of lib/proto/nsblast.proto, with the properties the
    code reads. *)

From stdpp Require Import gmap list strings.
From S2P Require Import Prelude ServerUtil Qargs DnsName RrBuild Permissions RrRest RrIndex ListServer.

Local Open Scope Z_scope.

(** ** Messages *)

Module Pb.
Record ZoneFilter : Type := MkFilter {
  fqdn : option string;
  recursive : option bool;
  regex : option string
}.

Record Role : Type := MkRole {
  opt_role_name : option string;
  role_permissions : list permission;
  role_filter : option ZoneFilter
}.

Record UserAuth : Type := MkAuth {
  opt_hash : option string;
  opt_seed : option string;
  opt_password : option string
}.

Record User : Type := MkUser {
  opt_user_id : option string;
  opt_user_name : option string;
  user_active : option bool;
  user_roles : list string;
  user_auth : option UserAuth
}.

Record Tenant : Type := MkTenant {
  opt_tenant_id : option string;
  opt_tenant_name : option string;
  tenant_active : option bool;
  tenant_root : option string;
  tenant_allowed : list permission;
  tenant_roles : list Role;
  tenant_users : list User
}.

(** The accessors of protobuf: an absent string is empty. *)
Definition role_name (r : Role) : string := default ""%string (opt_role_name r).
Definition auth_hash (a : UserAuth) : string := default ""%string (opt_hash a).
Definition auth_seed (a : UserAuth) : string := default ""%string (opt_seed a).
Definition auth_password (a : UserAuth) : string := default ""%string (opt_password a).
Definition user_id (u : User) : string := default ""%string (opt_user_id u).
Definition user_name (u : User) : string := default ""%string (opt_user_name u).
Definition tenant_id (t : Tenant) : string := default ""%string (opt_tenant_id t).
Definition tenant_name (t : Tenant) : string := default ""%string (opt_tenant_name t).

Inductive ZoneStatus : Type := ACTIVE | ZOMBIE.

Record Zone : Type := MkZone {
  zone_id : option string;
  zone_tenantId : option string;
  zone_status : option ZoneStatus
}.
End Pb.

(** ** Libraries *)

Class AuthLibs : Type := {
  (** std::regex: whether the pattern compiles, and std::regex_match. *)
  regex_ok : string -> bool;
  regex_match : string -> string -> bool;
  (** The digest of OpenSSL's SHA-256, and boost's string_generator, which
      throws, and whether a UUID has one of the versions boost knows. *)
  digest : string -> string;
  parse_uuid : string -> option string;
  known_version : string -> bool
}.

(** ** Roles of a session *)

(** [match_] holds the pattern of the regular expression. *)
Record ZoneFilter : Type := MkZoneFilter {
  fqdn_ : string;
  recursive_ : bool;
  regex_ : string;
  match_ : option string
}.

Record Role : Type := MkRole {
  name_ : string;
  permissions_ : Z;
  filters_ : option ZoneFilter
}.

Record Session : Type := MkSession {
  tenant_ : string;
  who_ : string;
  tenant_id_ : string;
  non_zone_perms_ : Z;
  roles_ : list Role
}.

Definition appliesToAll (r : Role) : bool :=
  match filters_ r with
  | None => true
  | Some f => String.eqb (fqdn_ f) "" && String.eqb (regex_ f) ""
  end.

(** Session::populate: the roles of the tenant that are named in [roles]. *)
Definition exists_in (roles : list string) (name : string) : bool :=
  existsb (fun rn => compareCaseInsensitive rn name true) roles.

Definition new_role (r : Pb.Role) : Role :=
  MkRole (toLowerStr (Pb.role_name r)) (getPerms (Pb.role_permissions r))
    (f ← Pb.role_filter r;
     Some (MkZoneFilter (default "" (Pb.fqdn f)) (default true (Pb.recursive f)) (default "" (Pb.regex f)) None))%string.

Definition populate (tenant : Pb.Tenant) (roles : list string) : list Role :=
  new_role <$> List.filter (fun r => exists_in roles (Pb.role_name r)) (Pb.tenant_roles tenant).

(** Permissions that are granted whatever the filter. *)
Definition zone_less : list permission :=
  [USE_API; GET_ROLE; GET_USER; GET_SELF_TENANT; LIST_TENANTS; LIST_USERS; LIST_ROLES; LIST_APIKEYS;
   CREATE_APIKEY; CREATE_ROLE; CREATE_USER; CREATE_TENANT; DELETE_ROLE; DELETE_SELF_USER;
   DELETE_SELF_TENANT; DELETE_APIKEY; UPDATE_ROLE; UPDATE_USER; UPDATE_SELF_TENANT; METRICS].

(** What a role adds to the permissions of the session. *)
Definition session_perms (r : Role) : Z :=
  if appliesToAll r then permissions_ r else Z.land (permissions_ r) (getPerms zone_less).

(** [^[_a-zA-Z0-9.\-]*$] *)
Definition hostname_char (c : ascii) : bool :=
  let n := nat_of_ascii c in
  ((48 <=? n) && (n <=? 57) || (65 <=? n) && (n <=? 90) || (97 <=? n) && (n <=? 122))%nat
  || existsb (Ascii.eqb c) ["_"; "."; "-"]%char.

Fixpoint is_valid_hostname (s : string) : bool :=
  match s with EmptyString => true | String c s' => hostname_char c && is_valid_hostname s' end.

(** boost::replace_all(pattern, ".", "\\.") *)
Fixpoint escape_dots (s : string) : string :=
  match s with
  | EmptyString => ""
  | String c s' => if Ascii.eqb c "." then String "\" (String "." (escape_dots s')) else String c (escape_dots s')
  end.

Definition ends_with_dot (s : string) : bool :=
  match String.get (String.length s - 1) s with Some c => Ascii.eqb c "." | None => false end.

(** The pattern of a filter; [None] where the loop goes on to the next role. *)
Definition filter_pattern (root : string) (f : ZoneFilter) : option string :=
  pattern ← (if String.eqb (fqdn_ f) "" then if recursive_ f then Some ""%string else None
             else if negb (is_valid_hostname (fqdn_ f)) then None
             else Some (if ends_with_dot (fqdn_ f) then fqdn_ f else fqdn_ f +:+ "."));
  let pattern := pattern +:+ root in
  if has_char "\" pattern then None
  else
    let pattern := escape_dots pattern in
    Some (toLowerStr
      (if negb (String.eqb (regex_ f) "") then "^(" +:+ regex_ f +:+ ")(" +:+ pattern +:+ ")$"
       else if recursive_ f then "^(.*\.)*(" +:+ pattern +:+ ")$"
       else "^(" +:+ pattern +:+ ")$"))%string.

Section Sessions.
Context `{AuthLibs}.

Definition init_filter (root : string) (f : ZoneFilter) : ZoneFilter :=
  match filter_pattern root f with
  | Some p => if regex_ok p then MkZoneFilter (fqdn_ f) (recursive_ f) (regex_ f) (Some p) else f
  | None => f
  end.

Definition init_role (root : string) (r : Role) : Role :=
  MkRole (name_ r) (permissions_ r) (init_filter root <$> filters_ r).

(** The constructor of a session: populate and init. *)
Definition new_session (tenant : Pb.Tenant) (who : string) (roles : list string) : option Session :=
  id ← parse_uuid (Pb.tenant_id tenant);
  let rs := populate tenant roles in
  Some (MkSession (Pb.tenant_id tenant) who id
          (fold_left (fun perms r => Z.lor perms (session_perms r)) rs 0)
          (init_role (default ""%string (Pb.tenant_root tenant)) <$> rs)).

Definition matchesFqdn (r : Role) (fqdn : string) : bool :=
  match filters_ r with
  | None => false
  | Some f =>
      negb (String.eqb (fqdn_ f) "")
      && (if recursive_ f then isSameZone (fqdn_ f) fqdn else String.eqb (fqdn_ f) fqdn)
      || match match_ f with Some p => regex_match p fqdn | None => false end
  end.

(** ** Checks *)

(** AuthMgr::hasAuth *)
Context (has_auth : bool).

(** isAllowed(perm) *)
Definition isAllowed (s : Session) (perm : permission) : bool :=
  if negb has_auth then true else has_perm (non_zone_perms_ s) perm.

(** The permissions for a name. *)
Definition name_perms (s : Session) (fqdn : string) : Z :=
  fold_left (fun perms r => if negb (appliesToAll r) && matchesFqdn r fqdn then Z.lor perms (permissions_ r) else perms)
    (roles_ s) (non_zone_perms_ s).

(** The owner's check with opts.validateZone: true to go on. *)
Definition validateOwner (m : index) (s : Session) (perm : permission) (lowercaseFqdn : string) : verdict bool :=
  res ← lookupEntryAndSoa m lowercaseFqdn;
  Built match x_soa res with
        | None => bool_decide (perm = CREATE_ZONE)
        | Some soa => match z_tenant soa with Some id => String.eqb id (tenant_id_ s) | None => true end
        end.

(** isAllowed(perm, lowercaseFqdn, opts) without throwOnFailure. *)
Definition isAllowed_opts (validate : bool) (m : index) (s : Session) (perm : permission) (lowercaseFqdn : string)
    : verdict bool :=
  if negb has_auth then Built true
  else
    go ← (if validate then validateOwner m s perm lowercaseFqdn else Built true);
    Built (go && has_perm (name_perms s lowercaseFqdn) perm).

(** isAllowed(perm, lowercaseFqdn) *)
Definition isAllowed_name (m : index) (s : Session) (perm : permission) (lowercaseFqdn : string) : verdict bool :=
  isAllowed_opts (negb (String.eqb lowercaseFqdn "")) m s perm lowercaseFqdn.
End Sessions.

(** ** Names covered by a filter *)

Lemma compareCaseInsensitive_full s t :
  compareCaseInsensitive s t true = String.eqb (toLowerStr s) (toLowerStr t).
Proof.
  apply eq_true_iff_eq. rewrite String.eqb_eq. split; [apply compareCaseInsensitive_lower|].
  revert t. induction s as [|a s IH]; intros [|b t]; try done. cbn. intros [= Hc Hs]. by rewrite Hc, Ascii.eqb_refl, IH.
Qed.

Lemma suffix_lower z k : suffix_of z k -> suffix_of (toLowerStr z) (toLowerStr k).
Proof. intros [->|[p ->]]; [by left|right]. exists (toLowerStr p). by rewrite lower_app. Qed.

Lemma split_at_get n s c : String.get n s = Some c -> s = take_chars n s +:+ String c (drop_chars (S n) s).
Proof.
  revert n. induction s as [|d s IH]; [done|]. intros [|n]; cbn.
  - intros [= ->]. rewrite string_app_nil_l. by destruct s.
  - intros Hg. rewrite string_app_cons. f_equal. by apply IH.
Qed.

(** The last characters after a dot, or all of them. *)
Lemma suffix_of_spec z k :
  suffix_of z k <->
  (String.length z <= String.length k)%nat /\ drop_chars (String.length k - String.length z) k = z /\
  (String.length z = String.length k \/ String.get (String.length k - String.length z - 1) k = Some "."%char).
Proof.
  split.
  - intros Hs. assert (Hl := suffix_length _ _ Hs). split_and!; [done|by apply suffix_drop|].
    destruct Hs as [->|[p ->]]; [by left|right]. rewrite length_string_app. cbn [String.length].
    replace (String.length p + S (String.length z) - String.length z - 1)%nat with (String.length p) by lia. apply get_app.
  - intros (Hl & Hd & Hg). destruct (decide (String.length z = String.length k)) as [E|Hne].
    + left. by rewrite E, Nat.sub_diag in Hd.
    + right. destruct Hg as [|Hg]; [done|]. exists (take_chars (String.length k - String.length z - 1) k).
      assert (Hk := split_at_get _ _ _ Hg). rewrite Hk at 1. do 2 f_equal. rewrite <- Hd at 2. f_equal. lia.
Qed.

Lemma isSameZone_spec z k : isSameZone z k = true <-> suffix_of (toLowerStr z) (toLowerStr k).
Proof.
  rewrite suffix_of_spec, !length_lower, drop_lower, get_lower. unfold isSameZone. rewrite compareCaseInsensitive_full.
  destruct (Nat.ltb_spec (String.length k) (String.length z)) as [|Hl]; [split; [done|lia]|].
  destruct (String.eqb_spec (toLowerStr z) (toLowerStr (drop_chars (String.length k - String.length z) k))) as [->|Hne].
  2: { split; [done|]. intros (_ & E & _). by rewrite E in Hne. }
  destruct (Nat.eqb_spec (String.length z) (String.length k)) as [El|Hn]; [tauto|].
  destruct (String.get (String.length k - String.length z - 1) k) as [c|]; cbn [fmap option_fmap option_map].
  - rewrite Ascii.eqb_eq. split; [intros ->; auto|]. intros (_ & _ & [?|[= E]]); [done|].
    apply Ascii.eqb_eq. by rewrite <- dot_lower, E.
  - split; [done|]. by intros (_ & _ & [?|?]).
Qed.

(** ** The policy *)

Definition unlimited (f : Pb.ZoneFilter) : Prop := default ""%string (Pb.fqdn f) = ""%string /\ default ""%string (Pb.regex f) = ""%string.

(** The filter as populate makes it. *)
Definition filter_of (f : Pb.ZoneFilter) : ZoneFilter :=
  MkZoneFilter (default "" (Pb.fqdn f)) (default true (Pb.recursive f)) (default "" (Pb.regex f)) None.

(** A filter covers a name in lower case: by its fqdn, or by its pattern, as
    Role::matchesFqdn has it; nsblast.proto says of the regex that the filter
    applies only for names that match it. *)
Definition covers `{AuthLibs} (root : string) (f : Pb.ZoneFilter) (k : string) : Prop :=
  let fqdn := default ""%string (Pb.fqdn f) in
  (fqdn <> ""%string /\ if default true (Pb.recursive f) then suffix_of (toLowerStr fqdn) k else k = fqdn) \/
  exists p, filter_pattern root (filter_of f) = Some p /\ regex_ok p = true /\ regex_match p k = true.

(** A role of the tenant that the user has grants the permission for a name. *)
Inductive granted `{AuthLibs} (tenant : Pb.Tenant) (roles : list string) (perm : permission) (k : string) : Prop :=
| granted_by r n :
    r ∈ Pb.tenant_roles tenant -> n ∈ roles -> toLowerStr n = toLowerStr (Pb.role_name r) ->
    perm ∈ Pb.role_permissions r ->
    match Pb.role_filter r with
    | None => True
    | Some f => unlimited f \/ perm ∈ zone_less \/ covers (default ""%string (Pb.tenant_root tenant)) f k
    end ->
    granted tenant roles perm k.

(** The zone of the name is the tenant's, or it has none and is to be created. *)
Definition zone_open (m : index) (id : string) (perm : permission) (k : string) : Prop :=
  exists x, lookupEntryAndSoa m k = Built x /\
    match x_soa x with
    | None => perm = CREATE_ZONE
    | Some soa => z_tenant soa = None \/ z_tenant soa = Some id
    end.

Lemma fold_perms {A} (c : A -> bool) (f : A -> Z) l perms p :
  has_perm (fold_left (fun s r => if c r then Z.lor s (f r) else s) l perms) p
  = has_perm perms p || existsb (fun r => c r && has_perm (f r) p) l.
Proof.
  revert perms. induction l as [|r l IH]; intros perms; cbn [fold_left existsb]; [by rewrite orb_false_r|].
  rewrite IH. destruct (c r); cbn [andb]; [|done]. by rewrite has_perm_lor, orb_assoc.
Qed.

Lemma fold_all_perms {A} (f : A -> Z) l p :
  has_perm (fold_left (fun s r => Z.lor s (f r)) l 0) p = existsb (fun r => has_perm (f r) p) l.
Proof. rewrite (fold_perms (fun _ => true)). by rewrite has_perm_0. Qed.

Section Policy.
Context `{AuthLibs}.

Lemma session_perms_has r p :
  has_perm (session_perms r) p = has_perm (permissions_ r) p && (appliesToAll r || bool_decide (p ∈ zone_less)).
Proof.
  unfold session_perms. destruct (appliesToAll r); cbn [orb]; [by rewrite andb_true_r|].
  by rewrite has_perm_land, getPerms_has.
Qed.

Lemma init_applies root r : appliesToAll (init_role root r) = appliesToAll r.
Proof.
  unfold appliesToAll, init_role. cbn [filters_]. destruct (filters_ r) as [f|]; [|done]. cbn.
  unfold init_filter. destruct (filter_pattern root f) as [p|]; [|done]. by destruct (regex_ok p).
Qed.

(** What a role gives for a name. *)
Definition role_gives (root : string) (r : Role) (p : permission) (k : string) : bool :=
  has_perm (permissions_ r) p
  && (appliesToAll r || bool_decide (p ∈ zone_less) || matchesFqdn (init_role root r) k).

Lemma name_perms_spec tenant who roles s p k :
  new_session tenant who roles = Some s ->
  has_perm (name_perms s k) p
  = existsb (fun r => role_gives (default ""%string (Pb.tenant_root tenant)) r p k) (populate tenant roles).
Proof.
  unfold new_session. destruct (parse_uuid _) as [id|]; [|done]. cbn [mbind option_bind]. intros [= <-].
  unfold name_perms. cbn [roles_ non_zone_perms_]. rewrite fold_perms, fold_all_perms.
  set (root := default _ _). generalize (populate tenant roles). intros rs.
  induction rs as [|r rs IH]; [done|]. cbn [fmap list_fmap existsb]. rewrite <- IH.
  rewrite session_perms_has, init_applies. unfold role_gives. change (permissions_ (init_role root r)) with (permissions_ r).
  destruct (has_perm (permissions_ r) p), (appliesToAll r), (bool_decide (p ∈ zone_less)), (matchesFqdn (init_role root r) k);
    cbn; by rewrite ?orb_true_r.
Qed.

Lemma new_role_filter r : filters_ (new_role r) = filter_of <$> Pb.role_filter r.
Proof. unfold new_role. cbn. by destruct (Pb.role_filter r). Qed.

Lemma matches_covers root r f k :
  Pb.role_filter r = Some f -> toLowerStr k = k ->
  matchesFqdn (init_role root (new_role r)) k = true <-> covers root f k.
Proof.
  intros Hf Hk. unfold matchesFqdn, init_role. cbn [filters_]. rewrite new_role_filter, Hf. cbn [fmap option_fmap option_map].
  assert (Hi : forall g, init_filter root g = MkZoneFilter (fqdn_ g) (recursive_ g) (regex_ g) (match_ (init_filter root g))).
  { intros g. unfold init_filter. destruct (filter_pattern root g) as [p|]; [|by destruct g]. destruct (regex_ok p); by destruct g. }
  rewrite Hi. cbn [fqdn_ recursive_ match_]. unfold covers. fold (filter_of f).
  set (fq := default ""%string (Pb.fqdn f)).
  assert (Hm : match match_ (init_filter root (filter_of f)) with Some p => regex_match p k | None => false end = true <->
               exists p, filter_pattern root (filter_of f) = Some p /\ regex_ok p = true /\ regex_match p k = true).
  { unfold init_filter. destruct (filter_pattern root (filter_of f)) as [p|] eqn:Ep; [|split; [done|by intros (? & ? & _)]].
    destruct (regex_ok p) eqn:Eo; cbn [match_]; split.
    - by exists p.
    - by intros (q & [= <-] & _ & ?).
    - done.
    - intros (q & [= <-] & ? & _). congruence. }
  rewrite orb_true_iff, Hm, andb_true_iff, negb_true_iff, String.eqb_neq. cbn [filter_of fqdn_ recursive_]. fold fq.
  destruct (default true (Pb.recursive f)); [by rewrite isSameZone_spec, Hk|].
  rewrite String.eqb_eq. split; intros [[? ?]|?]; auto.
Qed.

Lemma exists_in_spec roles name :
  exists_in roles name = true <-> exists n, n ∈ roles /\ toLowerStr n = toLowerStr name.
Proof.
  unfold exists_in. rewrite existsb_exists. split; intros (n & Hn & He); exists n.
  - rewrite compareCaseInsensitive_full, String.eqb_eq in He. by rewrite list_elem_of_In.
  - rewrite compareCaseInsensitive_full, String.eqb_eq. by rewrite <- list_elem_of_In.
Qed.

Lemma name_perms_granted tenant who roles s p k :
  new_session tenant who roles = Some s -> toLowerStr k = k ->
  has_perm (name_perms s k) p = true <-> granted tenant roles p k.
Proof.
  intros Hs Hk. rewrite (name_perms_spec _ _ _ _ _ _ Hs), existsb_exists. unfold populate, role_gives.
  set (root := default _ _). split.
  - intros (r' & Hin & [Hp Hc]%andb_true_iff). apply list_elem_of_In, list_elem_of_fmap in Hin as (r & -> & Hr).
    apply list_elem_of_In, filter_In in Hr as [Hr%list_elem_of_In (n & Hn & En)%exists_in_spec].
    cbn [new_role permissions_] in Hp. rewrite getPerms_has, bool_decide_eq_true in Hp. eapply granted_by; try done.
    destruct (Pb.role_filter r) as [f|] eqn:Ef; [|done]. fold root.
    rewrite !orb_true_iff, bool_decide_eq_true, (matches_covers root r f k Ef Hk) in Hc.
    unfold appliesToAll in Hc. rewrite new_role_filter, Ef in Hc. cbn [fmap option_fmap option_map filter_of fqdn_ regex_] in Hc.
    rewrite andb_true_iff, !String.eqb_eq in Hc. unfold unlimited. tauto.
  - intros [r n Hr Hn En Hp Hf]. exists (new_role r). split.
    + apply list_elem_of_In, list_elem_of_fmap_2, list_elem_of_In, filter_In.
      split; [by apply list_elem_of_In|]. apply exists_in_spec. by exists n.
    + cbn [new_role permissions_]. rewrite getPerms_has, bool_decide_eq_true_2 by done. cbn [andb].
      fold (new_role r). destruct (Pb.role_filter r) as [f|] eqn:Ef.
      * fold root in Hf. rewrite !orb_true_iff, bool_decide_eq_true, (matches_covers root r f k Ef Hk).
        unfold appliesToAll. rewrite new_role_filter, Ef. cbn [fmap option_fmap option_map filter_of fqdn_ regex_].
        rewrite andb_true_iff, !String.eqb_eq. unfold unlimited in Hf. tauto.
      * unfold appliesToAll. by rewrite new_role_filter, Ef.
Qed.

(** C18: The check of a permission decides the policy: with authentication
    on, a session may act on a name (in lower case, and not empty) exactly when
    the name's zone is not another tenant's, there being one unless it is to be
    created, and one of the user's roles has the permission, and has no filter,
    or one without limits, or one that covers the name; the permissions that do not concern zones ([zone_less]) are granted whatever
    the filter covers.  A filter covers a name by its fqdn, or by the pattern
    made of its fqdn and regular expression: a name under the fqdn is covered
    whether it matches the expression or not, unlike the comment in
    nsblast.proto says. *)
Theorem isAllowed_policy tenant who roles s m p k :
  new_session tenant who roles = Some s -> toLowerStr k = k -> k <> ""%string ->
  isAllowed_name true m s p k = Built true <-> zone_open m (tenant_id_ s) p k /\ granted tenant roles p k.
Proof.
  intros Hs Hk Hne. apply String.eqb_neq in Hne. rewrite <- (name_perms_granted _ _ _ _ _ _ Hs Hk).
  unfold isAllowed_name, isAllowed_opts, validateOwner, zone_open. rewrite Hne. cbn [negb].
  destruct (lookupEntryAndSoa m k) as [x| | |]; cbn [mbind verdict_bind]; [|by split; [|intros [(? & ? & _) _]]..].
  assert (Hx : match x_soa x with
               | None => bool_decide (p = CREATE_ZONE)
               | Some soa => match z_tenant soa with Some id => String.eqb id (tenant_id_ s) | None => true end
               end = true <->
               match x_soa x with None => p = CREATE_ZONE | Some soa => z_tenant soa = None \/ z_tenant soa = Some (tenant_id_ s) end).
  { destruct (x_soa x) as [soa|]; [|by rewrite bool_decide_eq_true]. destruct (z_tenant soa) as [id|]; [|by split; [left|]].
    rewrite String.eqb_eq. split; [intros ->; by right|]. by intros [|[= ->]]. }
  split.
  - intros [= [Hg Hp]%andb_true_iff]. split; [|done]. exists x. by rewrite <- Hx.
  - intros [(x' & [= <-] & Hg) Hp]. rewrite <- Hx in Hg. by rewrite Hg, Hp.
Qed.
End Policy.

(** A filter with a regular expression does not narrow down the names under its
    fqdn: with the default of a recursive filter they are covered anyway. *)
Theorem regex_not_restrictive `{AuthLibs} root fqdn regex k :
  fqdn <> ""%string -> suffix_of (toLowerStr fqdn) k ->
  covers root (Pb.MkFilter (Some fqdn) None (Some regex)) k.
Proof. intros Hne Hs. left. by split. Qed.

(** A filter that the log calls invalid, not recursive and without a fqdn,
    makes its role one for all names. *)
Theorem invalid_filter_unlimited r :
  Pb.role_filter r = Some (Pb.MkFilter None (Some false) None) -> appliesToAll (new_role r) = true.
Proof. intros Hr. unfold appliesToAll. by rewrite new_role_filter, Hr. Qed.

Module AccessDemo.
(** A server without regular expressions. *)
#[export] Instance demo_auth : AuthLibs := {|
  regex_ok := fun _ => false;
  regex_match := fun _ _ => false;
  digest := fun s => s;
  parse_uuid := Some;
  known_version := fun _ => true
|}.

(** A tenant with a role for one zone and a role to create zones. *)
Definition net_role : Pb.Role :=
  Pb.MkRole (Some "Net") [USE_API; CREATE_RR; UPDATE_RR; DELETE_RR] (Some (Pb.MkFilter (Some "ex.net") None None))%string.
Definition zone_role : Pb.Role := Pb.MkRole (Some "Zones"%string) [CREATE_ZONE; CREATE_RR; UPDATE_RR] None.
Definition bob : Pb.User := (Pb.MkUser (Some "id-bob") (Some "Bob") (Some true) ["net"; "zones"] (Some (Pb.MkAuth (Some "seedsecret") (Some "seed") None)))%string.
Definition alice : Pb.User := (Pb.MkUser (Some "id-alice") (Some "Alice") (Some false) ["net"] (Some (Pb.MkAuth (Some "saltpass") (Some "salt") None)))%string.
Definition t2 : Pb.Tenant := Pb.MkTenant (Some "t2"%string) (Some "Second"%string) (Some true) None [] [net_role; zone_role] [alice; bob].

Definition session_of (u : Pb.User) : Session :=
  default (MkSession "" "" "" 0 []) (new_session t2 (toLowerStr (Pb.user_name u)) (Pb.user_roles u)).

Lemma bob_session : new_session t2 "bob" (Pb.user_roles bob) = Some (session_of bob).
Proof. reflexivity. Qed.

Lemma alice_session : new_session t2 "alice" (Pb.user_roles alice) = Some (session_of alice).
Proof. reflexivity. Qed.

Example alice_perms :
  has_perm (name_perms (session_of alice) "www.ex.net") DELETE_RR = true /\
  has_perm (name_perms (session_of alice) "www.ex.org") DELETE_RR = false /\
  isAllowed true (session_of alice) USE_API = true.
Proof. by vm_compute. Qed.
End AccessDemo.
