(* ===== verification/AccountDb.v ===== *)
(** * The accounts in the database

    Beside the record sets the server keeps a category of accounts: tenants with
    their users and roles, the index of users, the names of tenants and the
    zones of a tenant, each under a key of its own class ([RealKey]).  Reading
    and writing them is RocksDbResource::Transaction's, with the helpers get and
    upsert of lib/AuthMgr.cpp. *)

From stdpp Require Import gmap sorting.
From S2P Require Import Prelude ServerUtil Qargs RealKey KeyBlock ListServer RrBuild Permissions RrRest Access.

(** What is stored: the serialised messages and plain text. *)
Inductive account : Type :=
| AZone (zone : Pb.Zone)
| ATenant (tenant : Pb.Tenant)
| AText (text : string).

Abbreviation accounts := (gmap string account).

Definition zone_key (fqdn : string) : string := init_key fqdn ZONE.
Definition zrr_key (zone fqdn : string) : string := init_key (concat_key zone fqdn) ZRR.
Definition tenant_key (id : string) : string := init_key id TENANT.
Definition user_key (name : string) : string := init_key (toLowerStr name) USER.
Definition name_key (name : string) : string := init_key name TENANT_NAME.

(** Transaction::keyExists in the category of the record sets. *)
Definition keyExists (m : index) (key : string) : bool :=
  match key with
  | String c r => Ascii.eqb c (class_byte ENTRY) && bool_decide (is_Some (m !! reverse r))
  | EmptyString => false
  end.

(** Transaction::write to the accounts: isNew looks the key up among the record
    sets, the default category of keyExists.  [None] is the exception. *)
Definition write_account (m : index) (a : accounts) (key : string) (v : account) (isNew : bool) : option accounts :=
  if isNew && keyExists m key then None else Some (<[key := v]> a).

(** get<pb::Zone>, get<pb::Tenant>: other bytes under the key do not parse. *)
Definition get_zone (a : accounts) (key : string) : verdict (option Pb.Zone) :=
  match a !! key with
  | None => Built None
  | Some (AZone z) => Built (Some z)
  | Some _ => Failed
  end.

Definition get_tenant (a : accounts) (key : string) : verdict (option Pb.Tenant) :=
  match a !! key with
  | None => Built None
  | Some (ATenant t) => Built (Some t)
  | Some _ => Failed
  end.

(** AuthMgr::getTenant *)
Definition getTenant (a : accounts) (tenantId : string) : verdict (option Pb.Tenant) := get_tenant a (tenant_key tenantId).

(** Transaction::read of a text. *)
Definition read_text (a : accounts) (key : string) : option string :=
  match a !! key with Some (AText t) => Some t | _ => None end.

(** ** Keys *)

Definition of_class (c : key_class) (key : string) : Prop := exists r, key = String (class_byte c) r.

Lemma class_byte_inj c c' : class_byte c = class_byte c' -> c = c'.
Proof. by destruct c, c'. Qed.

Lemma of_class_unique c c' key : of_class c key -> of_class c' key -> c = c'.
Proof. intros [r ->] [r' E]. injection E as E _. by apply class_byte_inj. Qed.

Lemma init_class key c : of_class c (init_key key c).
Proof. by eexists. Qed.

Lemma init_key_ne a c b c' : c <> c' -> init_key a c <> init_key b c'.
Proof. intros Hc E. apply Hc. apply (of_class_unique _ _ (init_key a c)); [apply init_class|rewrite E; apply init_class]. Qed.

Lemma init_key_inj a b c : init_key a c = init_key b c -> a = b.
Proof.
  unfold init_key. destruct (isReversed c); intros [= E]; [|done]. by rewrite <- (reverse_involutive a), E, reverse_involutive.
Qed.

Lemma tzone_key_inj t z t' z' :
  has_char "/" t = false -> has_char "/" t' = false -> tzone_key t z = tzone_key t' z' -> t = t' /\ z = z'.
Proof.
  intros Ht Ht' E. assert (Hp := tzone_key_parts t z Ht). rewrite E, tzone_key_parts in Hp by done. by injection Hp as -> ->.
Qed.

(** isNew never fails: the key of an account is no key of a record set. *)
Lemma write_account_new m a key v isNew c :
  of_class c key -> c <> ENTRY -> write_account m a key v isNew = Some (<[key := v]> a).
Proof.
  intros [r ->] Hc. unfold write_account, keyExists. destruct (Ascii.eqb_spec (class_byte c) (class_byte ENTRY)) as [E|_].
  - by apply class_byte_inj in E.
  - cbn [andb]. by rewrite andb_false_r.
Qed.
