(* ===== verification/RrForm.v ===== *)
(** * pages/ResourceRecords.jsx: the form that edits and adds records

    AddRr with its inputs: RrInputs and RrInputText put the fields of a value
    in text inputs and register a ref for each, [submit] collects the refs,
    converts the strings to the types of the prototype, writes the value into
    the record set of the list (the same object) and sends it.

    React and the DOM appear as they act on this component: [mount_input] and
    [unmount_input] are the ref of an input being attached and detached.  The
    inputs are [required]: [press_save] is the browser's check of them, before
    the form's submit event. *)

From S2P Require Import Prelude JsNumber JsValue Http AppState RrTypes.

(** ** setValueInRr and prepareRrForUpdate *)

(** [setValueInRr(rr, type, ix, value)]; [ix = -1] adds. *)
Definition setValueInRr (rr : val) (type : string) (ix : Z) (value : val) : js val :=
  let isAdding := (ix =? -1)%Z in
  has ← hasOwn rr type;
  dest_is_array ←
    (if has : bool then dest ← get_prop rr type; isArray dest
     else match assoc_get type rrProto with
          | Some t => mret (is_jarr (proto t))
          | None => throw JsTypeError
          end);
  (if dest_is_array : bool then
     if isAdding then
       (if has : bool then (mret tt : js unit) else arr ← alloc (OArray []); set_prop rr type arr) ;;
       arr ← get_prop rr type;
       push arr value
     else
       arr ← get_prop rr type;
       set_index arr ix value
   else
     if isAdding && has
     then throw (JsError ("There is already a resource-type " +:+ type +:+ " in this fqdn."))
     else set_prop rr type value) ;;
  mret rr.

Definition prepareRrForUpdate (rr : val) : js val := delete_prop rr "fqdn" ;; mret rr.

(** ** Inputs *)

(** The text of a value put in the [value] of an input: null gives the empty
    string, and a text input drops line breaks. *)
Fixpoint to_text (fuel : nat) (h : heap) (v : val) : string :=
  match v with
  | VUndef => "undefined"
  | VNull => "null"
  | VBool b => if b then "true" else "false"
  | VNum n => num_to_string n
  | VStr s => s
  | VRef l =>
      match fuel, h !! l with
      | S f, Some (OArray es) =>
          join "," ((fun e => match e with VUndef | VNull => ""%string | _ => to_text f h e end) <$> es)
      | _, _ => "[object Object]"
      end
  end%string.

Definition is_newline (c : ascii) : bool := Ascii.eqb c "010" || Ascii.eqb c "013".

Fixpoint strip_newlines (s : string) : string :=
  match s with
  | EmptyString => EmptyString
  | String c s' => if is_newline c then strip_newlines s' else String c (strip_newlines s')
  end.

Definition input_text (h : heap) (v : val) : string :=
  match v with
  | VNull => ""
  | _ => strip_newlines (to_text (S (length h)) h v)
  end.

(** RrInputText on mount: its input and its ref, then the effect
    ([valueRef.current.value = value; registerRef(name, valueRef)]).
    [registerRef] assigns into the [formRefs] object itself. *)
Definition registerRef (formRefs : val) (name : string) (ref : val) : js unit :=
  set_prop formRefs name ref.

Definition mount_input (formRefs : val) (name : string) (value : val) : js val :=
  input ← alloc (OPlain [("value"%string, VStr "")]);
  valueRef ← alloc (OPlain [("current"%string, input)]);
  (fun h => set_prop input "value" (VStr (input_text h value)) h) ;;
  registerRef formRefs name valueRef ;;
  mret valueRef.

(** React clears the ref of an input that leaves the screen. *)
Definition unmount_input (ref : val) : js unit := set_prop ref "current" VNull.

(** ** The dialog arguments *)

Record rr_args : Type := RrArgs {
  isEditing : bool;
  a_fqdn : string;
  a_type : option string;
  a_ix : nat;
  a_rr : val
}.

(** A JSON value of the prototypes as the value of an input. *)
Definition prim_val (j : json) : val :=
  match j with
  | JNull => VNull
  | JBool b => VBool b
  | JNum n => VNum n
  | JStr s => VStr s
  | _ => VUndef
  end.

Definition json_truthy (j : json) : bool :=
  match j with
  | JArr _ | JObj _ => true
  | _ => truthy (prim_val j)
  end.

Definition type_name (args : rr_args) : string := default "undefined"%string (a_type args).

(** The inputs for a value taken from the record set ([RrInputs] without a
    usable prototype): one per field of an object, or a single one named
    [value].  Editing an SOA deletes its serial and rname first. *)
Definition inputs_of_val (args : rr_args) (v : val) : js (list (string * val)) :=
  if is_object v then
    (if String.eqb (type_name args) "soa"
     then delete_prop v "serial" ;; delete_prop v "rname" else (mret tt : js unit)) ;;
    entries v
  else mret [("value"%string, v)].

Definition inputs_of_rr (args : rr_args) : js (list (string * val)) :=
  v ← get_prop (a_rr args) (type_name args);
  arr ← isArray v;
  v' ← (if arr : bool then get_index v (Z.of_nat (a_ix args)) else mret v);
  inputs_of_val args v'.

(** The inputs of a prototype; the first element stands for an array. *)
Definition inputs_of_proto (p : json) : list (string * val) :=
  let p' := match p with JArr (x :: _) => x | JArr [] => JNull | _ => p end in
  match p' with
  | JObj fs => (fun kv => (kv.1, prim_val kv.2)) <$> fs
  | _ => [("value"%string, prim_val p')]
  end.

(** [RrInputs]: [proto ? proto : args.rr[args.type]]. *)
Definition RrInputs (args : rr_args) (p : option json) : js (list (string * val)) :=
  match p with
  | Some j => if json_truthy j then mret (inputs_of_proto j) else inputs_of_rr args
  | None => inputs_of_rr args
  end.

(** ** AddRr *)

Record form : Type := Form {
  formRefs : val;
  f_proto : json;
  inputIsValid : bool;
  rrType : string;
  filteredRrs : list string
}.

(** The state of a new dialog. *)
Definition open_form (args : rr_args) : js form :=
  refs ← alloc (OPlain []);
  used ← filterUsedRrTypes (a_rr args);
  mret (Form refs (JObj []) (isEditing args)
          (if isEditing args then type_name args else ""%string) used).

(** The inputs of the current render being mounted, in order. *)
Definition mount_inputs (f : form) (ins : list (string * val)) : js unit :=
  js_iter (fun nv => mount_input (formRefs f) nv.1 nv.2 ;; mret tt) ins.

(** [onSelectinChanged(name, selectedProto)]: every registered input that is
    still attached is emptied; the registrations stay. *)
Definition clear_ref (ref : val) : js unit :=
  has ← hasOwn ref "current";
  if has : bool then
    cur ← get_prop ref "current";
    if bool_decide (cur = VNull) then mret tt else set_prop cur "value" (VStr "")
  else mret tt.

Definition onSelectinChanged (f : form) (name : string) (selectedProto : json) : js form :=
  es ← entries (formRefs f);
  js_iter (fun kv => clear_ref kv.2) es ;;
  mret (Form (formRefs f) selectedProto (negb (String.eqb name "")) name (filteredRrs f)).

(** The value whose field types the strings are converted to: a value of the
    record set or a prototype. *)
Inductive shape : Type :=
| SVal (v : val)
| SProto (j : json).

Definition json_hasOwn (j : json) (k : string) : bool :=
  match j with
  | JObj fs => bool_decide (is_Some (assoc_get k fs))
  | JArr js => String.eqb k "length" || existsb (fun i => String.eqb k (index_name i)) (seq 0 (length js))
  | JStr s => String.eqb k "length" || existsb (fun i => String.eqb k (index_name i)) (seq 0 (String.length s))
  | _ => false
  end.

Definition shape_hasOwn (s : shape) (k : string) : js bool :=
  match s with
  | SVal v => hasOwn v k
  | SProto j => mret (json_hasOwn j k)
  end.

Definition json_field_type (j : json) (name : string) : string :=
  match j with
  | JObj fs =>
      match assoc_get name fs with
      | Some (JArr _) | Some (JObj _) => "object"
      | Some p => typeof (prim_val p)
      | None => "undefined"
      end
  | _ => "undefined"
  end.

(** [typeof orig[0][name]] for an array, [typeof orig[name]] otherwise. *)
Definition field_type (s : shape) (name : string) : js string :=
  match s with
  | SProto (JArr (j :: _)) => mret (json_field_type j name)
  | SProto (JArr []) => throw JsTypeError
  | SProto j => mret (json_field_type j name)
  | SVal v =>
      arr ← isArray v;
      v' ← (if arr : bool then get_index v 0 else mret v);
      x ← get_prop v' name;
      mret (typeof x)
  end.

(** The choice of [orig] in [submit]. *)
Definition orig_shape (args : rr_args) (f : form) : js shape :=
  orig ← (if isEditing args then v ← get_prop (a_rr args) (rrType f); mret (SVal v)
          else mret (SProto (f_proto f)));
  has ← shape_hasOwn orig (rrType f);
  mret (if has : bool then orig
        else SProto (match assoc_get (rrType f) rrProto with
                     | Some t => proto t
                     | None => JArr [JStr ""]
                     end)).

(** One step of the collection: [edited] is the value built so far. *)
Definition collect_one (orig : shape) (edited : val) (name : string) (ref : val) : js val :=
  cur ← get_prop ref "current";
  value ← get_prop cur "value";
  if String.eqb name "value" then mret value
  else
    orgType ← field_type orig name;
    x ← castStringToType orgType value;
    set_prop edited name x ;;
    mret edited.

Fixpoint collect (orig : shape) (edited : val) (refs : list (string * val)) : js val :=
  match refs with
  | [] => mret edited
  | (name, ref) :: refs' => e ← collect_one orig edited name ref; collect orig e refs'
  end.

(** [submit] up to the request: the new record set. *)
Definition build_rr (args : rr_args) (f : form) : js val :=
  orig ← orig_shape args f;
  edited0 ← alloc (OPlain []);
  refs ← entries (formRefs f);
  edited ← collect orig edited0 refs;
  rr ← setValueInRr (a_rr args) (rrType f)
         (if isEditing args then Z.of_nat (a_ix args) else -1)%Z edited;
  prepareRrForUpdate rr.

Inductive form_effect : Type :=
| Close
| Alert (msg : string).

Definition exn_message (e : exn) : string :=
  match e with JsError m => m | JsTypeError => "TypeError" end.

Definition save_failed (fqdn msg : string) : string :=
  "Failed to save the updated record for fqdn " +:+ fqdn +:+
  String "010" (String "013" "") +:+ msg.

Definition submit (app : app_state) (args : rr_args) (f : form) (h : heap) : proc form_effect :=
  sync (build_rr args f) h (fun new_rr h1 =>
    match stringify new_rr h1 with
    | (Throw e, h2) => Emit (Alert (save_failed (a_fqdn args) (exn_message e))) (Done (Ok tt) h2)
    | (Ok body, h2) =>
        Fetch (Request "put" (getUrl app ("/rr/" +:+ a_fqdn args)) (json_headers app) (Some body)) h2
          (fun r h3 =>
             match r with
             | Resp true _ _ => Emit Close (Done (Ok tt) h3)
             | Resp false statusText _ =>
                 Emit (Alert (save_failed (a_fqdn args) statusText)) (Done (Ok tt) h3)
             | Rejected _ msg => Emit (Alert (save_failed (a_fqdn args) msg)) (Done (Ok tt) h3)
             end)
    end).

(** ** The Save button *)

Definition heap_prop (h : heap) (v : val) (k : string) : option val :=
  match v with
  | VRef l => match h !! l with Some (OPlain ps) => assoc_get k ps | _ => None end
  | _ => None
  end.

(** An input on screen, by its ref, that satisfies [required]. *)
Definition input_filled (h : heap) (ref : val) : bool :=
  match cur ← heap_prop h ref "current"; heap_prop h cur "value" with
  | Some (VStr t) => negb (String.eqb t "")
  | _ => false
  end.

(** Save with the inputs [refs] on screen: the button is disabled without a
    valid type, and the browser submits the form only if every input has a
    text; otherwise it asks for the missing one, and nothing runs. *)
Definition press_save (app : app_state) (args : rr_args) (f : form) (refs : list val) (o : oracle) (h : heap)
    : trace form_effect :=
  if inputIsValid f && forallb (input_filled h) refs then run o (submit app args f h)
  else Trace [] [] (Ok tt) h.

(** Opening the edit dialog on an entry: the state, the inputs of the first
    render and their mount effects. *)
Definition open_edit (args : rr_args) : js form :=
  f ← open_form args;
  ins ← RrInputs args None;
  mount_inputs f ins ;;
  mret f.

(** The user types [t] in the input registered as [name]. *)
Definition type_text (f : form) (name t : string) : js unit :=
  ref ← get_prop (formRefs f) name;
  cur ← get_prop ref "current";
  set_prop cur "value" (VStr (strip_newlines t)).

(** The inputs of the edit dialog: each of them is registered. *)
Definition edit_inputs (f : form) : js (list val) :=
  es ← entries (formRefs f);
  mret es.*2.

(** Opening the edit dialog and pressing Save without typing. *)
Definition save_unchanged (app : app_state) (args : rr_args) (o : oracle) (h : heap)
    : trace form_effect :=
  match (f ← open_edit args; refs ← edit_inputs f; mret (f, refs)) h with
  | (Ok (f, refs), h') => press_save app args f refs o h'
  | (Throw e, h') => Trace [] [] (Throw e) h'
  end.

(** ** The add dialog and its drop-down *)

(** The form and the refs of the inputs on screen, in order. *)
Record add_dialog : Type := AddDialog {
  dlg_form : form;
  mounted : list val
}.

(** React keeps the first inputs when the list of fields changes (they have
    no keys): a kept input is not registered again, surplus inputs are
    unmounted, missing ones mounted. *)
Fixpoint reconcile (formRefs : val) (old : list val) (ins : list (string * val)) : js (list val) :=
  match old, ins with
  | _, [] => js_iter unmount_input old ;; mret []
  | [], (name, v) :: ins' =>
      ref ← mount_input formRefs name v;
      refs ← reconcile formRefs [] ins';
      mret (ref :: refs)
  | ref :: old', _ :: ins' =>
      refs ← reconcile formRefs old' ins';
      mret (ref :: refs)
  end.

Definition render_add (args : rr_args) (f : form) (old : list val) : js add_dialog :=
  ins ← RrInputs args (Some (f_proto f));
  refs ← reconcile (formRefs f) old ins;
  mret (AddDialog f refs).

Definition open_add (args : rr_args) : js add_dialog :=
  f ← open_form args;
  render_add args f [].

(** The user picks [selection] in the drop-down. *)
Definition select_type (args : rr_args) (d : add_dialog) (selection : string) : js add_dialog :=
  match select_change selection with
  | None => throw JsTypeError
  | Some (name, p) =>
      f ← onSelectinChanged (dlg_form d) name p;
      render_add args f (mounted d)
  end.

Fixpoint select_all (args : rr_args) (d : add_dialog) (sels : list string) : js add_dialog :=
  match sels with
  | [] => mret d
  | s :: sels' => d' ← select_type args d s; select_all args d' sels'
  end.

(** The user types the texts in the inputs on screen, from the first. *)
Definition type_ref (ref : val) (t : string) : js unit :=
  cur ← get_prop ref "current";
  set_prop cur "value" (VStr (strip_newlines t)).

Definition type_all (d : add_dialog) (ts : list string) : js unit :=
  js_iter (fun rt => type_ref rt.1 rt.2) (zip (mounted d) ts).

(** A whole session: open the dialog, pick types, type, press Save. *)
Definition add_session (app : app_state) (args : rr_args) (sels ts : list string) (o : oracle)
    (h : heap) : trace form_effect :=
  match (d ← open_add args; d' ← select_all args d sels; type_all d' ts ;; mret d') h with
  | (Ok d, h') => press_save app args (dlg_form d) (mounted d) o h'
  | (Throw e, h') => Trace [] [] (Throw e) h'
  end.

(** The same for an edit: the texts go to the inputs of the entry, in order. *)
Definition edit_session (app : app_state) (args : rr_args) (ts : list string) (o : oracle)
    (h : heap) : trace form_effect :=
  match (f ← open_edit args; refs ← edit_inputs f;
         js_iter (fun rt => type_ref rt.1 rt.2) (zip refs ts) ;; mret (f, refs)) h with
  | (Ok (f, refs), h') => press_save app args f refs o h'
  | (Throw e, h') => Trace [] [] (Throw e) h'
  end.

(** A typed text that satisfies [required]. *)
Definition filled (t : string) : bool := negb (String.eqb (strip_newlines t) "").
