(* ===== verification/RrEdit.v ===== *)
(** * Editing records: correctness

    Theorems on the form of RrForm.v: what setValueInRr does on every branch,
    that an edit replaces one entry of the record set on the server and that saving an
    unchanged edit sends back the record set that was loaded. *)

From S2P Require Import Prelude JsNumber JsValue JsonStore Http AppState RrTypes RrForm.

(** ** setValueInRr, branch by branch *)

Section SetValue.
Context (h : heap) (lr : loc) (ps : list (string * val)) (type : string).
Hypothesis rr_obj : h !! lr = Some (OPlain ps).

Lemma dest_present (v : val) :
  assoc_get type ps = Some v ->
  hasOwn (VRef lr) type h = (Ok true, h) /\ get_prop (VRef lr) type h = (Ok v, h).
Proof.
  intros E. split.
  - erewrite hasOwn_plain by done. by rewrite E, bool_decide_eq_true_2.
  - erewrite get_prop_plain by done. by rewrite E.
Qed.

Lemma dest_absent : assoc_get type ps = None -> hasOwn (VRef lr) type h = (Ok false, h).
Proof.
  intros E. erewrite hasOwn_plain by done. rewrite E, bool_decide_eq_false_2; [done|].
  by intros [? ?].
Qed.

Lemma set_value_array (la : loc) (es : list val) (ix : nat) (x : val) :
  assoc_get type ps = Some (VRef la) -> h !! la = Some (OArray es) -> ix < length es ->
  setValueInRr (VRef lr) type (Z.of_nat ix) x h
  = (Ok (VRef lr), <[la := OArray (<[ix := x]> es)]> h).
Proof.
  intros Hg Ha Hix. destruct (dest_present _ Hg) as [H1 H2]. unfold setValueInRr.
  erewrite bind_ok by exact H1. cbn beta iota.
  erewrite bind_ok; [|erewrite bind_ok by exact H2; by eapply isArray_array]. cbn beta iota.
  destruct (Z.eqb_spec (Z.of_nat ix) (-1)); [lia|]. cbn beta iota.
  erewrite bind_ok; [reflexivity|]. erewrite bind_ok by exact H2. by apply set_index_array.
Qed.

Lemma set_value_push (la : loc) (es : list val) (x : val) :
  assoc_get type ps = Some (VRef la) -> h !! la = Some (OArray es) ->
  setValueInRr (VRef lr) type (-1) x h = (Ok (VRef lr), <[la := OArray (es ++ [x])]> h).
Proof.
  intros Hg Ha. destruct (dest_present _ Hg) as [H1 H2]. unfold setValueInRr.
  erewrite bind_ok by exact H1. cbn beta iota.
  erewrite bind_ok; [|erewrite bind_ok by exact H2; by eapply isArray_array]. cbn beta iota.
  change (Z.eqb (-1) (-1)) with true. cbn beta iota.
  erewrite bind_ok; [reflexivity|]. erewrite bind_ok; [|reflexivity].
  erewrite bind_ok by exact H2. by apply push_array.
Qed.

Lemma set_value_single (v x : val) (ix : nat) :
  assoc_get type ps = Some v -> isArray v h = (Ok false, h) ->
  setValueInRr (VRef lr) type (Z.of_nat ix) x h
  = (Ok (VRef lr), <[lr := OPlain (assoc_set type x ps)]> h).
Proof.
  intros Hg Ha. destruct (dest_present _ Hg) as [H1 H2]. unfold setValueInRr.
  erewrite bind_ok by exact H1. cbn beta iota.
  erewrite bind_ok; [|erewrite bind_ok by exact H2; exact Ha]. cbn beta iota.
  destruct (Z.eqb_spec (Z.of_nat ix) (-1)); [lia|]. cbn [andb].
  cbn beta iota. erewrite bind_ok; [reflexivity|]. by apply set_prop_plain.
Qed.

Lemma set_value_taken (v x : val) :
  assoc_get type ps = Some v -> isArray v h = (Ok false, h) ->
  setValueInRr (VRef lr) type (-1) x h
  = (Throw (JsError ("There is already a resource-type " +:+ type +:+ " in this fqdn.")), h).
Proof.
  intros Hg Ha. destruct (dest_present _ Hg) as [H1 H2]. unfold setValueInRr.
  erewrite bind_ok by exact H1. cbn beta iota.
  erewrite bind_ok; [|erewrite bind_ok by exact H2; exact Ha]. reflexivity.
Qed.

Lemma set_value_new (t : rr_type) (x : val) :
  assoc_get type ps = None -> assoc_get type rrProto = Some t ->
  setValueInRr (VRef lr) type (-1) x h
  = (Ok (VRef lr),
     if is_jarr (proto t)
     then <[lr := OPlain (ps ++ [(type, VRef (length h))])]> h ++ [OArray [x]]
     else <[lr := OPlain (ps ++ [(type, x)])]> h).
Proof.
  intros Hg Ht. unfold setValueInRr. erewrite bind_ok by exact (dest_absent Hg).
  cbn beta iota. rewrite Ht. erewrite bind_ok; [|reflexivity].
  assert (Hlt := lookup_lt_Some _ _ _ rr_obj).
  destruct (is_jarr (proto t)); cbn beta iota.
  - change (Z.eqb (-1) (-1)) with true. cbn beta iota.
    assert (H1 : (h ++ [OArray []]) !! lr = Some (OPlain ps)) by by rewrite lookup_app_l.
    erewrite bind_ok; [reflexivity|].
    erewrite bind_ok.
    2: { erewrite bind_ok by apply alloc_eq. by apply set_prop_plain. }
    rewrite assoc_set_new by done.
    rewrite insert_app_l by done.
    erewrite bind_ok.
    2: { apply get_prop_plain. rewrite lookup_app_l by by rewrite length_insert.
         by apply list_lookup_insert_eq. }
    rewrite <- (assoc_set_new type (VRef (length h)) ps) at 1 by done.
    rewrite assoc_get_set_eq. cbn [from_option id].
    erewrite push_array.
    2: { rewrite lookup_app_r by by rewrite length_insert. by rewrite length_insert, Nat.sub_diag. }
    rewrite insert_app_r_alt by by rewrite length_insert.
    by rewrite length_insert, Nat.sub_diag.
  - erewrite bind_ok; [reflexivity|]. rewrite andb_false_r. cbn beta iota.
    rewrite <- assoc_set_new by done. by apply set_prop_plain.
Qed.
End SetValue.

Lemma strip_digits (s : string) : all_digits s = true -> strip_newlines s = s.
Proof.
  induction s as [|c s IH]; [done|]. cbn [all_digits strip_newlines]. intros H. reflect_tests.
  assert (is_newline c = false) as ->; [|by rewrite IH].
  unfold is_newline. destruct (Ascii.eqb_spec c "010") as [->|]; [done|].
  by destruct (Ascii.eqb_spec c "013") as [->|].
Qed.

(** The array a value refers to. *)
Definition array_at (h : heap) (v : val) : option (loc * list val) :=
  match v with
  | VRef l => match h !! l with Some (OArray es) => Some (l, es) | _ => None end
  | _ => None
  end.

Lemma array_at_isArray h v :
  isArray v h = (Ok (match array_at h v with Some _ => true | None => false end), h).
Proof. destruct v; try done. rewrite isArray_ref. cbn. by destruct (h !! l) as [[]|]. Qed.

Lemma array_at_inv h v la es :
  array_at h v = Some (la, es) -> v = VRef la /\ h !! la = Some (OArray es).
Proof. destruct v; try done. cbn. destruct (h !! l) as [[]|] eqn:E; try done. by intros [= <- <-]. Qed.

(** What setValueInRr does: [None] adds, [Some n] writes entry [n]. *)
Definition set_value_result (h : heap) (lr : loc) (ps : list (string * val)) (type : string)
    (ix : option nat) (x : val) : res val * heap :=
  match assoc_get type ps with
  | Some v =>
      match array_at h v, ix with
      | Some (la, es), None => (Ok (VRef lr), <[la := OArray (es ++ [x])]> h)
      | Some (la, es), Some n =>
          (Ok (VRef lr),
           <[la := OArray (if n <? length es then <[n := x]> es
                           else es ++ replicate (n - length es) VUndef ++ [x])]> h)
      | None, None =>
          (Throw (JsError ("There is already a resource-type " +:+ type +:+ " in this fqdn.")), h)
      | None, Some _ => (Ok (VRef lr), <[lr := OPlain (assoc_set type x ps)]> h)
      end
  | None =>
      match assoc_get type rrProto, ix with
      | None, _ => (Throw JsTypeError, h)
      | Some t, None =>
          (Ok (VRef lr),
           if is_jarr (proto t)
           then <[lr := OPlain (ps ++ [(type, VRef (length h))])]> h ++ [OArray [x]]
           else <[lr := OPlain (ps ++ [(type, x)])]> h)
      | Some t, Some _ =>
          if is_jarr (proto t) then (Throw JsTypeError, h)
          else (Ok (VRef lr), <[lr := OPlain (ps ++ [(type, x)])]> h)
      end
  end.

Definition js_ix (ix : option nat) : Z := match ix with Some n => Z.of_nat n | None => -1 end.

(** SetValueInRr on every branch: replace or append in the array of the
    type (an index beyond the end leaves a gap), replace a single value,
    refuse a second single value, start a new type according to its prototype,
    and throw for an unknown type or an index into a missing array. *)
Theorem setValueInRr_spec h lr ps type ix x :
  h !! lr = Some (OPlain ps) ->
  setValueInRr (VRef lr) type (js_ix ix) x h = set_value_result h lr ps type ix x.
Proof.
  intros Hr. unfold set_value_result. destruct (assoc_get type ps) as [v|] eqn:Hg.
  - assert (Ha := array_at_isArray h v). destruct (array_at h v) as [[la es]|] eqn:Ea.
    + apply array_at_inv in Ea as [-> Hes]. destruct ix as [n|]; [|by eapply set_value_push].
      cbn [js_ix]. destruct (Nat.ltb_spec n (length es)); [by eapply set_value_array|].
      destruct (dest_present _ _ _ _ Hr _ Hg) as [H1 H2]. unfold setValueInRr.
      erewrite bind_ok by exact H1. cbn beta iota.
      erewrite bind_ok; [|erewrite bind_ok by exact H2; exact Ha]. cbn beta iota.
      destruct (Z.eqb_spec (Z.of_nat n) (-1)); [lia|]. cbn beta iota.
      erewrite bind_ok; [reflexivity|]. erewrite bind_ok by exact H2.
      unfold set_index. erewrite bind_ok; [|apply load_ref]. rewrite Hes.
      destruct (Z.ltb_spec (Z.of_nat n) 0); [lia|].
      destruct (Z.ltb_spec (Z.of_nat n) (Z.of_nat (length es))); [lia|]. by rewrite Nat2Z.id.
    + destruct ix as [n|]; [by apply (set_value_single _ _ _ _ Hr v)|by eapply set_value_taken].
  - destruct (assoc_get type rrProto) as [t|] eqn:Ht.
    + destruct ix as [n|]; [|by apply set_value_new]. cbn [js_ix].
      unfold setValueInRr. erewrite bind_ok by exact (dest_absent _ _ _ _ Hr Hg).
      cbn beta iota. rewrite Ht. erewrite bind_ok; [|reflexivity].
      destruct (Z.eqb_spec (Z.of_nat n) (-1)); [lia|].
      destruct (is_jarr (proto t)); cbn beta iota.
      * erewrite bind_throw; [reflexivity|]. erewrite bind_ok by by apply get_prop_plain.
        by rewrite Hg.
      * erewrite bind_ok; [reflexivity|]. rewrite <- assoc_set_new by done. by apply set_prop_plain.
    + unfold setValueInRr. erewrite bind_ok by exact (dest_absent _ _ _ _ Hr Hg).
      cbn beta iota. rewrite Ht. by erewrite bind_throw by reflexivity.
Qed.

(** A number of the record set survives the text input: the conversion of
    the text an input shows for an integer below 2^53 is that integer. *)
Theorem cast_number_roundtrip (z : Z) (h : heap) :
  (0 <= z < 2 ^ 53)%Z ->
  castStringToType "number" (VStr (input_text h (VNum (num_of_Z z)))) h
  = (Ok (VNum (num_of_Z z)), h).
Proof.
  intros Hz. cbn [castStringToType String.eqb Ascii.eqb Bool.eqb]. unfold input_text. cbn [to_text].
  assert (strip_newlines (num_to_string (num_of_Z z)) = num_to_string (num_of_Z z)) as ->.
  { apply strip_digits. by apply num_to_string_digits. }
  by rewrite Number_to_string_int.
Qed.

(** ** The types a record set uses up *)

Lemma non_arrays_run (es : list (string * val)) (h : heap) :
  exists used, non_arrays es h = (Ok used, h) /\
    forall k v, (k, v) ∈ es -> isArray v h = (Ok false, h) -> k ∈ used.
Proof.
  induction es as [|[k v] es (used & IHr & IHs)]; cbn [non_arrays].
  - exists []. split; [done|]. by intros k v ?%elem_of_nil.
  - destruct (isArray_pure v h) as [b Hb]. erewrite bind_ok by exact Hb.
    erewrite bind_ok by exact IHr. exists (if b then used else k :: used). split; [done|].
    intros k' v' [[= -> ->]|Hin]%elem_of_cons Hv.
    + rewrite Hb in Hv. simplify_eq. set_solver.
    + destruct b; [by eauto|]. apply elem_of_cons. eauto.
Qed.

(** ** Inputs hold the text they were mounted with *)

(** The ref [r], allocated at [n] or later, is attached to an input with
    text [t]. *)
Definition attached (n : nat) (h : heap) (r : val) (t : string) : Prop :=
  exists lref lin, r = VRef lref /\ n <= lref /\ n <= lin /\
    h !! lref = Some (OPlain [("current"%string, VRef lin)]) /\
    h !! lin = Some (OPlain [("value"%string, VStr t)]).

(** [h'] has the objects of [h] unchanged, those in [L] apart. *)
Definition extends (L : list loc) (h h' : heap) : Prop :=
  forall l o, l ∉ L -> h !! l = Some o -> h' !! l = Some o.

Lemma extends_refl L h : extends L h h.
Proof. by intros l o _ ?. Qed.

Lemma extends_trans L h1 h2 h3 : extends L h1 h2 -> extends L h2 h3 -> extends L h1 h3.
Proof. intros H1 H2 l o Hl Hh. eauto. Qed.

Lemma extends_app L h h' : extends L h (h ++ h').
Proof. intros l o _ Hh. by apply lookup_app_l_Some. Qed.

Lemma extends_insert L h l o : l ∈ L -> extends L h (<[l := o]> h).
Proof. intros Hl l' o' Hl' Hh. rewrite list_lookup_insert_ne; [done|set_solver]. Qed.

Lemma extends_weaken L L' h h' : (forall l, l ∈ L -> l ∈ L') -> extends L h h' -> extends L' h h'.
Proof. intros HL H l o Hl Hh. apply H; [|done]. set_solver. Qed.

Lemma attached_extends (n n' : nat) L h h' r t :
  attached n h r t -> extends L h h' -> (forall l, l ∈ L -> l < n \/ length h <= l) -> n' <= n ->
  attached n' h' r t.
Proof.
  intros (lref & lin & -> & Hr & Hi & H1 & H2) He HL Hn.
  assert (H3 := lookup_lt_Some _ _ _ H1). assert (H4 := lookup_lt_Some _ _ _ H2).
  exists lref, lin. split_and!; [done|lia|lia| |]; apply He; auto; intros Hin%HL; lia.
Qed.

(** The text an input shows for a primitive value. *)
Definition prim_text (v : val) : string := input_text [] v.

Definition is_prim (v : val) : bool := match v with VRef _ => false | _ => true end.

Lemma input_text_prim (h : heap) (v : val) : is_prim v = true -> input_text h v = prim_text v.
Proof. by destruct v. Qed.

Lemma mount_input_run (h : heap) (lf : loc) (rs : list (string * val)) (name : string) (v : val) :
  h !! lf = Some (OPlain rs) -> is_prim v = true ->
  mount_input (VRef lf) name v h
  = (Ok (VRef (S (length h))),
     <[lf := OPlain (assoc_set name (VRef (S (length h))) rs)]> h
       ++ [OPlain [("value"%string, VStr (prim_text v))]; OPlain [("current"%string, VRef (length h))]]).
Proof.
  intros Hf Hv. assert (Hlt := lookup_lt_Some _ _ _ Hf). unfold mount_input.
  erewrite bind_ok by apply alloc_eq. erewrite bind_ok by apply alloc_eq.
  rewrite length_app, Nat.add_1_r, <- app_assoc. cbn [app].
  erewrite bind_ok; cbn beta.
  2: { apply set_prop_plain. by rewrite lookup_app_r, Nat.sub_diag by lia. }
  rewrite input_text_prim by done. rewrite insert_app_r_alt, Nat.sub_diag by lia. cbn.
  unfold registerRef. erewrite bind_ok.
  2: { apply set_prop_plain. by rewrite lookup_app_l. }
  by rewrite insert_app_l.
Qed.

Lemma mount_inputs_run (f : form) (lf : loc) (ins : list (string * val)) (h : heap) rs :
  formRefs f = VRef lf -> h !! lf = Some (OPlain rs) ->
  Forall (fun nv => is_prim nv.2 = true) ins -> NoDup (rs.*1 ++ ins.*1) ->
  exists h' refs, mount_inputs f ins h = (Ok tt, h') /\
    h' !! lf = Some (OPlain (rs ++ refs)) /\ extends [lf] h h' /\ length h <= length h' /\
    Forall2 (fun nv nr => nv.1 = nr.1 /\ attached (length h) h' nr.2 (prim_text nv.2)) ins refs.
Proof.
  intros Hf. unfold mount_inputs. rewrite Hf.
  revert h rs. induction ins as [|[name v] ins IH]; intros h rs Hlf Hp Hnd.
  - exists h, []. rewrite app_nil_r. split_and!; auto using extends_refl.
  - inversion Hp as [|? ? Hv Hp']; subst. cbn in Hv.
    assert (Hlt := lookup_lt_Some _ _ _ Hlf).
    cbn [js_iter fst snd]. erewrite bind_ok.
    2: { erewrite bind_ok by by apply mount_input_run. reflexivity. }
    set (h1 := _ ++ _). cbn [fmap list_fmap fst] in Hnd.
    assert (Hnew : assoc_get name rs = None).
    { apply assoc_get_None. apply NoDup_app in Hnd as (_ & Hd & _). intros Hin. by apply (Hd name Hin), elem_of_cons; left. }
    assert (H1 : h1 !! lf = Some (OPlain (rs ++ [(name, VRef (S (length h)))]))).
    { subst h1. rewrite lookup_app_l by by rewrite length_insert.
      rewrite <- assoc_set_new by done. by apply list_lookup_insert_eq. }
    assert (Hlen : length h1 = length h + 2) by (subst h1; by rewrite length_app, length_insert).
    assert (Hext : extends [lf] h h1).
    { subst h1. eapply extends_trans; [|apply extends_app]. apply extends_insert. set_solver. }
    destruct (IH h1 _ H1 Hp') as (h' & refs & Hrun & Hl' & He' & Hle & Hall).
    { rewrite fmap_app, <- app_assoc. exact Hnd. }
    exists h', ((name, VRef (S (length h))) :: refs). split_and!; [done| | |lia|].
    + rewrite Hl', <- app_assoc. done.
    + eapply extends_trans; eauto.
    + constructor.
      * split; [done|]. cbn [snd]. apply (attached_extends (length h) (length h) [lf] h1); [|done| |done].
        -- exists (S (length h)), (length h). subst h1. split_and!; [done|lia|lia| |].
           ++ rewrite lookup_app_r by (rewrite length_insert; lia). rewrite length_insert.
              by replace (S (length h) - length h) with 1 by lia.
           ++ rewrite lookup_app_r by by rewrite length_insert. by rewrite length_insert, Nat.sub_diag.
        -- intros l ->%list_elem_of_singleton. by left.
      * eapply Forall2_impl; [exact Hall|]. intros nv nr [? Ha]. split; [done|].
        eapply attached_extends; [exact Ha|apply (extends_refl [])|by intros l ?%elem_of_nil|lia].
Qed.

(** ** Collecting the fields *)

(** The element of a prototype that describes one value. *)
Definition proto_elem (p : json) : json :=
  match p with JArr (j :: _) => j | _ => p end.

Lemma field_type_proto (p : json) (name : string) (h : heap) :
  p <> JArr [] -> field_type (SProto p) name h = (Ok (json_field_type (proto_elem p) name), h).
Proof. destruct p as [| | | |[]|]; done. Qed.

(** A field the form can edit without loss: a one-line string where the
    prototype has a string, an integer below 2^53 where it has a number. *)
Definition editable (p : json) (kv : string * val) : Prop :=
  kv.1 <> "value"%string /\
  match kv.2 with
  | VStr s => json_field_type (proto_elem p) kv.1 = "string"%string /\ strip_newlines s = s
  | VNum n =>
      json_field_type (proto_elem p) kv.1 = "number"%string /\
      exists z, n = num_of_Z z /\ (0 <= z < 2 ^ 53)%Z
  | _ => False
  end.

(** Converting the text of an editable field gives the field back. *)
Lemma cast_editable (p : json) (k : string) (v : val) (h : heap) :
  editable p (k, v) ->
  castStringToType (json_field_type (proto_elem p) k) (VStr (prim_text v)) h = (Ok v, h).
Proof.
  intros [_ H]. cbn in H. destruct v as [| | |n|s|]; try done.
  - destruct H as [-> (z & -> & Hz)]. cbn [castStringToType String.eqb Ascii.eqb Bool.eqb].
    unfold prim_text, input_text. cbn [to_text].
    rewrite strip_digits by by apply num_to_string_digits.
    by rewrite Number_to_string_int.
  - destruct H as [-> Hs]. cbn. unfold prim_text, input_text. cbn [to_text]. by rewrite Hs.
Qed.

Lemma editable_prim (p : json) (kv : string * val) : editable p kv -> is_prim kv.2 = true.
Proof. intros [_ H]. by destruct kv as [k []]. Qed.

Lemma attached_filled (n : nat) (h : heap) (r : val) (t : string) :
  attached n h r t -> input_filled h r = negb (String.eqb t "").
Proof. intros (lref & lin & -> & _ & _ & H1 & H2). unfold input_filled, heap_prop. rewrite H1. cbn. by rewrite H2. Qed.

Lemma filled_inputs (n : nat) (h : heap) (ins refs : list (string * val)) :
  Forall2 (fun nv nr => nv.1 = nr.1 /\ attached n h nr.2 (prim_text nv.2)) ins refs ->
  forallb (input_filled h) refs.*2 = forallb (fun nv => negb (String.eqb (prim_text nv.2) "")) ins.
Proof.
  induction 1 as [|nv nr ins refs [_ Ha] _ IH]; [done|]. cbn. by rewrite IH, (attached_filled _ _ _ _ Ha).
Qed.

Lemma attached_value (n : nat) (h : heap) (r : val) (t : string) :
  attached n h r t ->
  exists cur, get_prop r "current" h = (Ok cur, h) /\ get_prop cur "value" h = (Ok (VStr t), h).
Proof.
  intros (lref & lin & -> & _ & _ & H1 & H2). exists (VRef lin).
  split; erewrite get_prop_plain by done; done.
Qed.

Lemma insert_last (h0 : heap) (o o' : obj) : <[length h0 := o']> (h0 ++ [o]) = h0 ++ [o'].
Proof. by rewrite insert_app_r_alt, Nat.sub_diag by lia. Qed.

Lemma lookup_last (h0 : heap) (o : obj) : (h0 ++ [o]) !! length h0 = Some o.
Proof. by rewrite lookup_app_r, Nat.sub_diag by lia. Qed.

(** The text [t] of the input [kw.1] is converted to [kw.2]. *)
Definition typed (p : json) (t : string) (kw : string * val) : Prop :=
  kw.1 <> "value"%string /\ is_prim kw.2 = true /\
  forall h, castStringToType (json_field_type (proto_elem p) kw.1) (VStr t) h = (Ok kw.2, h).

(** Collecting the inputs of an object converts the fields in order. *)
Lemma collect_fields (p : json) (n : nat) (fs refs acc : list (string * val)) (h0 : heap) :
  p <> JArr [] -> NoDup (acc.*1 ++ fs.*1) ->
  Forall2 (fun kw nr => kw.1 = nr.1 /\ exists t, attached n h0 nr.2 t /\ typed p t kw) fs refs ->
  collect (SProto p) (VRef (length h0)) refs (h0 ++ [OPlain acc])
  = (Ok (VRef (length h0)), h0 ++ [OPlain (acc ++ fs)]).
Proof.
  intros Hp Hnd Hall. revert acc Hnd.
  induction Hall as [|[k v] [k' r] fs refs (Hk & t & Ha & Hne & _ & Hcast) Hall IH]; intros acc Hnd.
  - by rewrite app_nil_r.
  - cbn in *. subst k'. unfold collect_one.
    assert (Ha' : attached n (h0 ++ [OPlain acc]) r t).
    { eapply attached_extends; [exact Ha|apply (extends_app [])|by intros l ?%elem_of_nil|done]. }
    destruct (attached_value _ _ _ _ Ha') as (cur & H1 & H2).
    apply String.eqb_neq in Hne.
    erewrite bind_ok.
    2: { erewrite bind_ok by exact H1. erewrite bind_ok by exact H2. rewrite Hne.
         erewrite bind_ok by by apply field_type_proto.
         erewrite bind_ok by apply Hcast.
         erewrite bind_ok; [reflexivity|]. apply set_prop_plain. apply lookup_last. }
    rewrite insert_last.
    assert (assoc_get k acc = None).
    { apply assoc_get_None. apply NoDup_app in Hnd as (_ & Hd & _).
      intros Hin. apply (Hd k Hin), elem_of_cons. by left. }
    rewrite assoc_set_new by done. rewrite IH; [by rewrite <- app_assoc|].
    rewrite fmap_app, <- app_assoc. exact Hnd.
Qed.

(** A single input named [value] gives its text. *)
Lemma collect_single (s : shape) (n : nat) (r e : val) (t : string) (h : heap) :
  attached n h r t -> collect s e [("value"%string, r)] h = (Ok (VStr t), h).
Proof.
  intros Ha. cbn [collect]. unfold collect_one.
  destruct (attached_value _ _ _ _ Ha) as (cur & H1 & H2).
  erewrite bind_ok; [reflexivity|].
  erewrite bind_ok by exact H1. by erewrite bind_ok by exact H2.
Qed.

(** ** What was entered *)

(** The value a form holds: one text, or the converted fields of an object. *)
Inductive new_val : Type :=
| NText (t : string)
| NObj (fs : list (string * val)).

Inductive entered (p : json) (n : nat) (h : heap) : list (string * val) -> new_val -> Prop :=
| entered_text r t : attached n h r t -> entered p n h [("value"%string, r)] (NText t)
| entered_obj fs refs :
    p <> JArr [] -> NoDup fs.*1 ->
    Forall2 (fun kw nr => kw.1 = nr.1 /\ exists t, attached n h nr.2 t /\ typed p t kw) fs refs ->
    entered p n h refs (NObj fs).

Definition prim_json (v : val) : option json :=
  match serialize 0 [] v with Ok j => j | Throw _ => None end.

Definition new_json (nv : new_val) : json :=
  match nv with
  | NText t => JStr t
  | NObj fs => JObj (omap (fun kv => (kv.1,.) <$> prim_json kv.2) fs)
  end.

(** The value collected from the inputs, and the store it is in. *)
Definition collected (h0 : heap) (nv : new_val) : val * heap :=
  match nv with
  | NText t => (VStr t, h0 ++ [OPlain []])
  | NObj fs => (VRef (length h0), h0 ++ [OPlain fs])
  end.

Lemma collect_entered (p : json) (n : nat) (h0 : heap) refs nv :
  entered p n h0 refs nv ->
  collect (SProto p) (VRef (length h0)) refs (h0 ++ [OPlain []])
  = (Ok (collected h0 nv).1, (collected h0 nv).2).
Proof.
  intros [r t Ha|fs refs' Hp Hnd Hall]; cbn [collected fst snd].
  - eapply collect_single.
    eapply attached_extends; [exact Ha|apply (extends_app [])|by intros l ?%elem_of_nil|done].
  - exact (collect_fields p n fs refs' [] h0 Hp Hnd Hall).
Qed.

Lemma serialize_prims (fs : list (string * val)) (n : nat) (h : heap) :
  Forall (fun kv => is_prim kv.2 = true) fs ->
  res_mapM (fun kv => res_map (kv.1,.) (serialize n h kv.2)) fs
  = Ok ((fun kv => (kv.1, prim_json kv.2)) <$> fs).
Proof.
  induction 1 as [|[k v] fs Hv _ IH]; [done|]. cbn [res_mapM fst snd fmap list_fmap].
  change (_ <$> fs) with ((fun kv : string * val => (kv.1, prim_json kv.2)) <$> fs).
  rewrite IH. by destruct v, n.
Qed.

Lemma omap_fmap_pair {A B C} (f : A -> B) (g : B -> option C) (l : list A) :
  omap g (f <$> l) = omap (g ∘ f) l.
Proof. induction l as [|x l IH]; [done|]. cbn. by rewrite IH. Qed.

Lemma entered_prims p n h refs fs :
  entered p n h refs (NObj fs) -> Forall (fun kv => is_prim kv.2 = true) fs.
Proof.
  inversion 1 as [|? ? _ _ Hall]; subst. clear -Hall.
  induction Hall as [|x y ? ? (_ & t & _ & _ & Hp & _) _ IH]; by constructor.
Qed.

(** The collected value is written as [new_json]. *)
Lemma collected_json (p : json) (n m : nat) (h0 h' : heap) refs nv :
  entered p n h0 refs nv -> 0 < m ->
  (forall o, (collected h0 nv).2 !! length h0 = Some o -> h' !! length h0 = Some o) ->
  serialize m h' (collected h0 nv).1 = Ok (Some (new_json nv)).
Proof.
  intros He Hm Hh'. destruct nv as [t|fs]; cbn [collected fst snd new_json] in *.
  - by destruct m.
  - specialize (Hh' _ (lookup_last _ _)). destruct m as [|m]; [lia|].
    cbn [serialize]. rewrite Hh', serialize_prims by by eapply entered_prims.
    cbn [res_map]. by rewrite omap_fmap_pair.
Qed.

(** ** Submitting an edit *)

(** The prototype the strings are converted with. *)
Definition type_proto (type : string) : json :=
  match assoc_get type rrProto with Some t => proto t | None => JArr [JStr ""] end.

(** The record set with entry [ix] of [type] replaced, on JSON. *)
Definition put_entry (old : option json) (ix : nat) (new : json) : json :=
  match old with
  | Some (JArr l) => JArr (<[ix := new]> l)
  | _ => new
  end.

Definition put_json (js : list (string * json)) (type : string) (ix : nat) (new : json)
    : list (string * json) :=
  assoc_set type (put_entry (assoc_get type js) ix new) js.

(** Where the edited value is: the property itself, or element [ix] of an
    array whose other elements share nothing with the objects written to,
    which are those of the last index. *)
Inductive place (h : heap) (lr : loc) (ix : nat) : val -> list loc -> Prop :=
| place_single v : isArray v h = (Ok false, h) -> place h lr ix v [lr]
| place_elem la es :
    h !! la = Some (OArray es) -> ix < length es ->
    (forall i w, es !! i = Some w -> i <> ix -> apart (length h) h [lr; la] w = true) ->
    place h lr ix (VRef la) [lr; la].

Lemma serialize_defined n h l j : serialize n h (VRef l) = Ok (Some j) -> is_Some (h !! l).
Proof. destruct n; [done|]. cbn. destruct (h !! l); [eauto|done]. Qed.

Lemma isArray_extends h hc v b n j :
  extends [] h hc -> serialize n h v = Ok (Some j) -> isArray v h = (Ok b, h) ->
  isArray v hc = (Ok b, hc).
Proof.
  intros Hext Hj. destruct v as [| | | | |l]; try (by inversion 1).
  destruct (serialize_defined _ _ _ _ Hj) as [o Ho].
  rewrite !isArray_ref, Ho, (Hext l o) by (done || set_solver). by inversion 1.
Qed.

Lemma hasOwn_extends h hc v k b n j :
  extends [] h hc -> serialize n h v = Ok (Some j) -> hasOwn v k h = (Ok b, h) ->
  hasOwn v k hc = (Ok b, hc).
Proof.
  intros Hext Hj. destruct v as [| | | | |l]; try (by inversion 1).
  destruct (serialize_defined _ _ _ _ Hj) as [o Ho].
  unfold hasOwn. do 2 (erewrite bind_ok; [|apply load_ref]).
  rewrite Ho, (Hext l o) by (done || set_solver). by inversion 1.
Qed.

Lemma serialize_not_array n h v j ix new :
  isArray v h = (Ok false, h) -> serialize n h v = Ok (Some j) -> put_entry (Some j) ix new = new.
Proof.
  intros Ha Hj. destruct j; try done. destruct v as [| | |[]| |l]; try (destruct n; done).
  rewrite isArray_ref in Ha. destruct n; [done|]. cbn in Hj.
  destruct (h !! l) as [[]|]; try done. by destruct (res_mapM _ _).
Qed.

Section Submit.
(** The store when the dialog was opened, the record set and its entry. *)
Context (h : heap) (lr : loc) (ps : list (string * val)) (js : list (string * json)).
Context (type : string) (ix : nat) (v : val) (L : list loc).
Hypothesis rr_obj : h !! lr = Some (OPlain ps).
Hypothesis rr_keys : NoDup ps.*1.
Hypothesis rr_type : assoc_get type ps = Some v.
Hypothesis rr_place : place h lr ix v L.
Hypothesis rr_apart : forall k w, (k, w) ∈ ps -> k <> type -> apart (length h) h L w = true.
Hypothesis rr_json : to_json h (VRef lr) = Ok (Some (JObj js)).
Hypothesis rr_written : is_Some (assoc_get type js).

(** The properties as JSON, those that are undefined included. *)
Lemma rr_props : exists js0, ser_props (serialize (length h) h) ps = Ok js0 /\
  js = json_props js0 /\ NoDup js0.*1 /\
  exists j, serialize (length h) h v = Ok (Some j) /\ assoc_get type js0 = Some (Some j) /\
            assoc_get type js = Some j.
Proof.
  assert (Hj := rr_json). unfold to_json in Hj. rewrite (serialize_plain _ _ _ _ rr_obj) in Hj.
  destruct (ser_props _ ps) as [js0|] eqn:E; [|done]. cbn in Hj. simplify_eq.
  exists js0. assert (Hk := ser_props_keys _ _ _ E).
  assert (Hnd : NoDup js0.*1) by by rewrite Hk.
  destruct (ser_props_get _ _ _ _ _ E rr_type) as (j & Hj & Hg).
  assert (Hw := rr_written). rewrite json_props_get, Hg in Hw by done.
  destruct j as [j|]; [|by destruct Hw]. split_and!; [done|done|done|].
  exists j. split_and!; [done|done|]. by rewrite json_props_get, Hg.
Qed.

(** The store [hs] after the new value [x], collected in [hc], is put in its
    place: [w] is the new value of the property. *)
Definition placed (hc hs : heap) (w : val) (new : json) : Prop :=
  hs !! lr = Some (OPlain (assoc_set type w ps)) /\ extends L hc hs /\ length hs = length hc /\
  forall m h', length h < m -> extends [lr] hs h' ->
    serialize m h' w = Ok (Some (put_entry (assoc_get type js) ix new)).

(** [x] keeps the JSON [new] as long as only [L] changes. *)
Definition keeps (hc : heap) (x : val) (new : json) : Prop :=
  forall m h', extends L hc h' -> 0 < m -> serialize m h' x = Ok (Some new).

Lemma set_place_single (hc : heap) (x : val) (new : json) :
  extends [] h hc -> L = [lr] -> isArray v h = (Ok false, h) -> keeps hc x new ->
  exists hs w, setValueInRr (VRef lr) type (Z.of_nat ix) x hc = (Ok (VRef lr), hs) /\
    placed hc hs w new.
Proof.
  intros Hext HL Hu Hx. assert (Hlr : hc !! lr = Some (OPlain ps)) by (apply Hext; [set_solver|done]).
  destruct rr_props as (js0 & _ & _ & _ & j & Hj & _ & Hg).
  exists (<[lr := OPlain (assoc_set type x ps)]> hc), x. split.
  { apply (set_value_single _ _ _ _ Hlr v); [done|]. by eapply isArray_extends. }
  assert (He : extends [lr] hc (<[lr := OPlain (assoc_set type x ps)]> hc))
    by (apply extends_insert; set_solver).
  split_and!; [|by rewrite HL|by rewrite length_insert|].
  - apply list_lookup_insert_eq. by eapply lookup_lt_Some.
  - intros m h' Hm He'. rewrite Hg, (serialize_not_array _ _ _ _ _ _ Hu Hj). apply Hx; [|lia].
    rewrite HL. by eapply extends_trans.
Qed.

Lemma set_place_elem (hc : heap) (x : val) (new : json) (la : loc) (es : list val) :
  extends [] h hc -> L = [lr; la] -> v = VRef la -> h !! la = Some (OArray es) -> ix < length es ->
  (forall i w, es !! i = Some w -> i <> ix -> apart (length h) h L w = true) -> keeps hc x new ->
  exists hs w, setValueInRr (VRef lr) type (Z.of_nat ix) x hc = (Ok (VRef lr), hs) /\
    placed hc hs w new.
Proof.
  intros Hext HL Hv Ha Hix Hothers Hx.
  assert (Hlr : hc !! lr = Some (OPlain ps)) by (apply Hext; [set_solver|done]).
  assert (Hla : hc !! la = Some (OArray es)) by (apply Hext; [set_solver|done]).
  assert (Hne : la <> lr) by congruence. assert (Hlt := lookup_lt_Some _ _ _ Ha).
  destruct rr_props as (js0 & _ & _ & _ & j & Hj & _ & Hg).
  assert (Ht := rr_type). rewrite Hv in Ht, Hj.
  assert (He : extends L hc (<[la := OArray (<[ix := x]> es)]> hc))
    by (rewrite HL; apply extends_insert; set_solver).
  exists (<[la := OArray (<[ix := x]> es)]> hc), (VRef la).
  split; [by apply (set_value_array _ _ _ _ Hlr la)|].
  split_and!; [|done|by rewrite length_insert|].
  { rewrite list_lookup_insert_ne by done. by rewrite assoc_set_id. }
  intros m h' Hm He'. destruct m as [|m]; [lia|]. rewrite Hg. clear Hg.
  replace (length h) with (S (pred (length h))) in Hj by lia. set (n := pred (length h)) in Hj.
  cbn [serialize] in *. rewrite Ha in Hj.
  rewrite (He' la (OArray (<[ix := x]> es))); [|by rewrite list_elem_of_singleton|].
  2: { apply list_lookup_insert_eq. by apply lookup_lt_Some in Hla. }
  destruct (res_mapM _ es) as [l0|] eqn:El; [|done]. cbn in Hj. injection Hj as <-.
  apply res_mapM_Ok in El. assert (Hl0 := Forall2_length _ _ _ El).
  assert (He2 : extends L hc h').
  { eapply extends_trans; [exact He|]. eapply extends_weaken; [|exact He'].
    intros l ->%list_elem_of_singleton. rewrite HL. apply elem_of_cons. by left. }
  assert (res_mapM (serialize m h') (<[ix := x]> es) = Ok (<[ix := Some new]> l0)) as ->.
  { apply res_mapM_Ok, Forall2_same_length_lookup_2; [by rewrite !length_insert|].
    intros i y z Hy Hz. destruct (decide (i = ix)) as [->|Hi].
    { rewrite list_lookup_insert_eq in Hy by done. rewrite list_lookup_insert_eq in Hz by lia.
      injection Hy as <-. injection Hz as <-. apply Hx; [done|lia]. }
    rewrite list_lookup_insert_ne in Hy by done. rewrite list_lookup_insert_ne in Hz by done.
    apply serialize_kept with n h L; [by eapply Hothers| | |lia|lia].
    - intros l o Hl Ho. apply He2; [done|]. apply Hext; [set_solver|done].
    - by eapply (Forall2_lookup_lr _ _ _ _ _ _ El). }
  cbn. by rewrite list_fmap_insert.
Qed.

Lemma set_place (hc : heap) (x : val) (new : json) :
  extends [] h hc -> keeps hc x new ->
  exists hs w, setValueInRr (VRef lr) type (Z.of_nat ix) x hc = (Ok (VRef lr), hs) /\
    placed hc hs w new.
Proof.
  intros Hext Hx. inversion rr_place as [u Hu Eu EL|la es Ha Hix Hothers Eu EL].
  - by apply set_place_single.
  - apply (set_place_elem _ _ _ la es); auto. by rewrite <- EL.
Qed.

(** The store, form and inputs when Save is pressed. *)
Context (args : rr_args) (f : form) (h2 : heap) (lf : loc) (refs : list (string * val)).
Context (nv : new_val).
Hypothesis args_editing : isEditing args = true.
Hypothesis args_rr : a_rr args = VRef lr.
Hypothesis args_ix : a_ix args = ix.
Hypothesis form_type : rrType f = type.
Hypothesis form_refs : formRefs f = VRef lf.
Hypothesis refs_obj : h2 !! lf = Some (OPlain refs).
Hypothesis later : extends [] h h2.
Hypothesis longer : length h <= length h2.
Hypothesis not_nested : hasOwn v type h = (Ok false, h).
Hypothesis form_entered : entered (type_proto type) (length h) h2 refs nv.

Lemma orig_is_proto : orig_shape args f h2 = (Ok (SProto (type_proto type)), h2).
Proof.
  destruct rr_props as (js0 & _ & _ & _ & j & Hj & _ & _). unfold orig_shape.
  rewrite args_editing, args_rr, form_type.
  erewrite bind_ok.
  2: { erewrite bind_ok; [reflexivity|]. apply get_prop_plain. apply later; [set_solver|exact rr_obj]. }
  rewrite rr_type. cbn [from_option id shape_hasOwn].
  erewrite bind_ok by by eapply hasOwn_extends. done.
Qed.

Lemma collected_extends : extends [] h (collected h2 nv).2.
Proof.
  eapply extends_trans; [exact later|]. destruct nv; apply extends_app.
Qed.

Lemma collected_keeps : L = [lr] \/ (exists la, L = [lr; la] /\ la < length h) ->
  keeps (collected h2 nv).2 (collected h2 nv).1 (new_json nv).
Proof.
  intros HL m h' He Hm. eapply collected_json; [exact form_entered|done|].
  intros o Ho. apply He; [|done]. assert (lr < length h) by by eapply lookup_lt_Some.
  destruct HL as [->|(la & -> & Hla)]; rewrite ?elem_of_cons, elem_of_nil; lia.
Qed.

Lemma place_locs : L = [lr] \/ (exists la, L = [lr; la] /\ la < length h).
Proof.
  inversion rr_place as [|la es Ha]; [by left|]. right. exists la.
  split; [done|]. by eapply lookup_lt_Some.
Qed.

(** The record set after [submit] has built it, as the server will read it. *)
Lemma build_rr_json : exists h3, build_rr args f h2 = (Ok (VRef lr), h3) /\
  to_json h3 (VRef lr)
  = Ok (Some (JObj (assoc_del "fqdn" (put_json js type ix (new_json nv))))).
Proof.
  unfold build_rr. erewrite bind_ok by exact orig_is_proto.
  erewrite bind_ok by apply alloc_eq. rewrite form_refs.
  erewrite bind_ok by (apply entries_plain; by apply lookup_app_l_Some).
  erewrite bind_ok by by eapply collect_entered.
  rewrite args_editing, args_rr, form_type, args_ix.
  destruct (set_place _ _ _ collected_extends (collected_keeps place_locs))
    as (hs & w & Hrun & Hlr & He & Hlen & Hw).
  erewrite bind_ok by exact Hrun. unfold prepareRrForUpdate.
  erewrite bind_ok by by apply delete_prop_plain.
  set (h3 := <[lr := _]> hs). exists h3. split; [done|].
  assert (Hlen3 : length h < length h3).
  { subst h3. rewrite length_insert, Hlen. destruct nv; cbn; rewrite length_app; cbn; lia. }
  assert (He3 : extends [lr] hs h3) by (apply extends_insert; set_solver).
  destruct rr_props as (js0 & Hjs0 & Hjs & Hnd0 & j & _ & Hg0 & Hg).
  unfold to_json. rewrite (serialize_plain _ _ _ (assoc_del "fqdn" (assoc_set type w ps))).
  2: { apply list_lookup_insert_eq. by eapply lookup_lt_Some. }
  erewrite ser_props_del.
  2: { eapply ser_props_set; [exact Hjs0|done|by rewrite rr_type|by apply Hw|].
       intros k' u ju Hin Hk Hu. eapply serialize_kept; [by eapply rr_apart| |exact Hu|lia|lia].
       intros l o Hl Ho. apply He3; [|apply He, collected_extends; [done|set_solver|done]].
       intros ->%list_elem_of_singleton. apply Hl.
       destruct place_locs as [->|(la & -> & _)]; apply elem_of_cons; by left. }
  cbn [res_map]. rewrite json_props_del, json_props_set by (done || by rewrite <- Hjs).
  by rewrite <- Hjs.
Qed.
End Submit.

(** The record set at [lr] with an entry of [type] that can be written
    without touching anything else it holds. *)
Record stored (h : heap) (lr : loc) (ps : list (string * val)) (js : list (string * json))
    (type : string) (ix : nat) (v : val) (L : list loc) : Prop := Stored {
  stored_obj : h !! lr = Some (OPlain ps);
  stored_keys : NoDup ps.*1;
  stored_type : assoc_get type ps = Some v;
  stored_place : place h lr ix v L;
  stored_apart : forall k w, (k, w) ∈ ps -> k <> type -> apart (length h) h L w = true;
  stored_json : to_json h (VRef lr) = Ok (Some (JObj js));
  stored_written : is_Some (assoc_get type js);
  stored_flat : hasOwn v type h = (Ok false, h)
}.

(** An edit form on it, when Save is pressed in the store [h2]. *)
Record ready (h h2 : heap) (lr : loc) (type : string) (ix : nat) (args : rr_args) (f : form)
    (nv : new_val) : Prop := Ready {
  ready_editing : isEditing args = true;
  ready_rr : a_rr args = VRef lr;
  ready_ix : a_ix args = ix;
  ready_type : rrType f = type;
  ready_later : extends [] h h2;
  ready_longer : length h <= length h2;
  ready_entered : exists lf refs, formRefs f = VRef lf /\ h2 !! lf = Some (OPlain refs) /\
    entered (type_proto type) (length h) h2 refs nv
}.

(** The request of an edit, and what follows its answer. *)
Definition rr_put (app : app_state) (fqdn : string) (js : list (string * json)) : request :=
  Request "put" (getUrl app ("/rr/" +:+ fqdn)) (json_headers app) (Some (print (JObj js))).

Definition saved (fqdn : string) (r : fetch_result unit) : list form_effect :=
  match r with
  | Resp true _ _ => [Close]
  | Resp false msg _ | Rejected _ msg => [Alert (save_failed fqdn msg)]
  end.

Lemma submit_run app args f o h2 lr h3 js :
  build_rr args f h2 = (Ok (VRef lr), h3) -> to_json h3 (VRef lr) = Ok (Some (JObj js)) ->
  run o (submit app args f h2)
  = Trace [rr_put app (a_fqdn args) js]
      (saved (a_fqdn args) (answer o (rr_put app (a_fqdn args) js))) (Ok tt) (meanwhile o h3).
Proof.
  intros Hb Hj. unfold submit, sync, stringify. rewrite Hb, Hj. cbn [run].
  fold (rr_put app (a_fqdn args) js).
  by destruct (answer o (rr_put app (a_fqdn args) js)) as [|[] ? ?].
Qed.

(** Record sets read from the server are stored that way. *)
Lemma read_lookup h (vs : list val) (js : list (string * json)) type j :
  Forall2 (read h) vs js.*2 -> assoc_get type js = Some j ->
  exists i v, assoc_get type (zip js.*1 vs) = Some v /\ vs !! i = Some v /\
    js.*1 !! i = Some type /\ read h v j.
Proof.
  remember js.*2 as l eqn:El. intros H. revert js El.
  induction H as [|v j' vs l Hv _ IH]; intros [|[k jk] js] El Hg; try done.
  cbn in *. simplify_eq. destruct (String.eqb_spec type k) as [->|Hne].
  - simplify_eq. exists 0, v. split_and!; done.
  - destruct (IH js eq_refl Hg) as (i & w & ? & ? & ? & ?). exists (S i), w. split_and!; done.
Qed.

Lemma zip_lookup (js : list (string * json)) (vs : list val) k w :
  (k, w) ∈ zip js.*1 vs -> exists i, js.*1 !! i = Some k /\ vs !! i = Some w.
Proof.
  intros (i & Hi)%list_elem_of_lookup. rewrite lookup_zip_with in Hi.
  destruct (js.*1 !! i) as [k'|] eqn:E1; [|done]. cbn in Hi.
  destruct (vs !! i) as [w'|] eqn:E2; [|done]. cbn in Hi. simplify_eq. eauto.
Qed.

Lemma read_keys h (vs : list val) (js : list (string * json)) :
  Forall2 (read h) vs js.*2 -> (zip js.*1 vs).*1 = js.*1.
Proof. intros H%Forall2_length. apply fst_zip. by rewrite H, !length_fmap. Qed.

(** The entry a dialog edits: the property itself or an element of its array. *)
Definition json_entry (j : json) (ix : nat) : option json :=
  match j with JArr l => l !! ix | _ => Some j end.

Lemma read_isArray h v j : read h v j -> isArray v h = (Ok (is_jarr j), h).
Proof.
  intros Hr. destruct j as [| | | |l|fs].
  1-4: by destruct Hr as (h0 & ext & [= <-] & _).
  - apply read_arr in Hr as (la & es & -> & Ha & _). by eapply isArray_array.
  - apply read_obj in Hr as (lo & vs & -> & Ho & _). by eapply isArray_plain.
Qed.

Lemma read_hasOwn h v j k : read h v j -> j <> JNull -> hasOwn v k h = (Ok (json_hasOwn j k), h).
Proof.
  intros Hr Hn. destruct j as [| | | |l|fs]; [done|..].
  1-3: by destruct Hr as (h0 & ext & [= <-] & _).
  - apply read_arr in Hr as (la & es & -> & Ha & Hall & _). unfold hasOwn.
    erewrite bind_ok; [|apply load_ref]. rewrite Ha. apply Forall2_length in Hall.
    cbn [json_hasOwn]. by rewrite Hall.
  - apply read_obj in Hr as (lo & vs & -> & Ho & Hall & _).
    erewrite hasOwn_plain by done. cbn [json_hasOwn]. do 3 f_equal.
    apply bool_decide_ext. rewrite <- !not_eq_None_Some, !assoc_get_None. by rewrite (read_keys h).
Qed.

Lemma read_stored h lr js type ix j u :
  read h (VRef lr) (JObj js) -> finite (JObj js) = true -> NoDup js.*1 ->
  assoc_get type js = Some j -> json_entry j ix = Some u -> json_hasOwn j type = false ->
  j <> JNull ->
  exists ps v L, stored h lr ps js type ix v L /\ read h v j.
Proof.
  intros Hrd Hfin Hnd Hg Hent Hown Hnull.
  destruct (read_obj _ _ _ Hrd) as (lo & vs & [= <-] & Ho & Hall & Hlt & Hsep).
  destruct (read_lookup _ _ _ _ _ Hall Hg) as (i & v & Hv & Hi & Hk & Hr).
  assert (Hother : forall n L k w, (k, w) ∈ zip js.*1 vs -> k <> type ->
    (forall l, l ∈ L -> lr <= l \/ VRef l = v) -> apart n h L w = true).
  { intros n L k w (i' & Hk' & Hi')%zip_lookup Hne HL.
    apply (Hsep n L i' w Hi'). intros l Hl. destruct (HL l Hl) as [|<-]; [by left|].
    right. exists i. split; [|done]. intros ->. congruence. }
  exists (zip js.*1 vs), v.
  assert (Hown' := read_hasOwn _ _ _ type Hr Hnull). rewrite Hown in Hown'.
  assert (Harr := read_isArray _ _ _ Hr).
  assert (Hput : forall L, place h lr ix v L -> (forall l, l ∈ L -> lr <= l \/ VRef l = v) ->
    stored h lr (zip js.*1 vs) js type ix v L).
  { intros L Hp HL. split; [done|by rewrite (read_keys h)|done|done| | |by rewrite Hg|done].
    - intros k w Hin Hne. by apply (Hother _ _ k).
    - by apply read_json. }
  destruct (is_jarr j) eqn:Ej.
  - destruct j as [| | | |l|]; try discriminate Ej.
    apply read_arr in Hr as Hr'. destruct Hr' as (la & es & -> & Ha & Hes & Hap).
    exists [lr; la]. split; [|done]. apply Hput.
    + apply place_elem with es; [done| |].
      * rewrite (Forall2_length _ _ _ Hes). by eapply lookup_lt_Some.
      * intros i' w Hw _. apply Hap; [|by eapply list_elem_of_lookup_2].
        intros l'. rewrite !elem_of_cons, elem_of_nil. intros [->|[->|[]]]; [|done].
        apply Nat.lt_le_incl. by apply (Hlt i).
    + intros l'. rewrite !elem_of_cons, elem_of_nil. intros [->|[->|[]]]; auto.
  - exists [lr]. split; [|done]. apply Hput; [by constructor|].
    intros l' ->%list_elem_of_singleton. by left.
Qed.

Lemma submit_stored_run app args f o h h2 lr ps js type ix v L nv :
  stored h lr ps js type ix v L -> ready h h2 lr type ix args f nv ->
  exists h3, run o (submit app args f h2)
  = let req := rr_put app (a_fqdn args)
                 (assoc_del "fqdn" (put_json js type ix (new_json nv))) in
    Trace [req] (saved (a_fqdn args) (answer o req)) (Ok tt) h3.
Proof.
  intros [] [? ? ? ? ? ? (lf & refs & ? & ? & ?)].
  edestruct (build_rr_json h lr ps js type ix v L) as (h3 & Hb & Hj); [eassumption..|].
  exists (meanwhile o h3). by apply submit_run with lr.
Qed.

Lemma submit_edit_run app args f o h h2 lr js type ix j u nv :
  read h (VRef lr) (JObj js) -> finite (JObj js) = true -> NoDup js.*1 ->
  assoc_get type js = Some j -> json_entry j ix = Some u -> json_hasOwn j type = false ->
  j <> JNull -> ready h h2 lr type ix args f nv ->
  exists h3, run o (submit app args f h2)
  = let req := rr_put app (a_fqdn args)
                 (assoc_del "fqdn" (put_json js type ix (new_json nv))) in
    Trace [req] (saved (a_fqdn args) (answer o req)) (Ok tt) h3.
Proof.
  intros Hrd Hfin Hnd Hg Hent Hown Hnull Hr.
  destruct (read_stored _ _ _ _ _ _ _ Hrd Hfin Hnd Hg Hent Hown Hnull) as (ps & v & L & Hst & _).
  by eapply submit_stored_run.
Qed.

(** Saving an edit sends one PUT whose body is the record set as loaded,
    with exactly the edited entry replaced by what the inputs hold and
    [fqdn] left out; the dialog closes when the server accepts it and stays
    open with an alert otherwise. *)
Theorem submit_edit_put app args f o h h2 lr js type ix j u nv :
  read h (VRef lr) (JObj js) -> finite (JObj js) = true -> NoDup js.*1 ->
  assoc_get type js = Some j -> json_entry j ix = Some u -> json_hasOwn j type = false ->
  j <> JNull -> ready h h2 lr type ix args f nv ->
  exists h3, run o (submit app args f h2)
  = let req := rr_put app (a_fqdn args)
                 (assoc_del "fqdn" (put_json js type ix (new_json nv))) in
    Trace [req] (saved (a_fqdn args) (answer o req)) (Ok tt) h3.
Proof. apply submit_edit_run. Qed.

(** ** Saving an unchanged edit *)

(** What is shown for editing: a one-line string, in a single input, or an
    object of editable fields, one input each. *)
Inductive cell (p : json) (h : heap) : val -> list (string * val) -> new_val -> Prop :=
| cell_text s :
    strip_newlines s = s -> cell p h (VStr s) [("value"%string, VStr s)] (NText s)
| cell_obj lo fs :
    h !! lo = Some (OPlain fs) -> NoDup fs.*1 -> Forall (editable p) fs -> p <> JArr [] ->
    cell p h (VRef lo) fs (NObj fs).

(** The value of an entry: the property itself or an element of its array. *)
Inductive shown (h : heap) (ix : nat) : val -> val -> Prop :=
| shown_single u : isArray u h = (Ok false, h) -> shown h ix u u
| shown_elem la es u : h !! la = Some (OArray es) -> es !! ix = Some u -> shown h ix (VRef la) u.

Section Unchanged.
Context (p : json) (h : heap) (u : val) (ins : list (string * val)) (nv : new_val).
Hypothesis is_cell : cell p h u ins nv.

Lemma cell_prims : Forall (fun kv => is_prim kv.2 = true) ins.
Proof.
  destruct is_cell as [s Hs|lo fs _ _ Hed _]; [by repeat constructor|].
  eapply Forall_impl; [exact Hed|]. intros kv. apply editable_prim.
Qed.

Lemma cell_nodup : NoDup ins.*1.
Proof. destruct is_cell as [s Hs|lo fs _ Hnd _ _]; [apply NoDup_singleton|done]. Qed.

Lemma cell_inputs (args : rr_args) (h' : heap) :
  extends [] h h' -> type_name args <> "soa"%string -> inputs_of_val args u h' = (Ok ins, h').
Proof.
  intros He Ht. destruct is_cell as [s Hs|lo fs Hlo _ _ _]; [done|]. unfold inputs_of_val.
  cbn [is_object]. apply String.eqb_neq in Ht. rewrite Ht.
  erewrite bind_ok; [|reflexivity]. apply entries_plain. apply He; [set_solver|done].
Qed.

Lemma cell_not_array : isArray u h = (Ok false, h).
Proof. destruct is_cell as [s Hs|lo fs Hlo _ _ _]; [done|]. by eapply isArray_plain. Qed.

(** Inputs that still hold the text they were mounted with hold the value. *)
Lemma cell_entered (n : nat) (h2 : heap) refs :
  Forall2 (fun nv nr => nv.1 = nr.1 /\ attached n h2 nr.2 (prim_text nv.2)) ins refs ->
  entered p n h2 refs nv.
Proof.
  intros Hall. destruct is_cell as [s Hs|lo fs Hlo Hnd Hed Hp].
  - inversion Hall as [|? [k r] ? ? [Hk Ha] Hnil]; subst. inversion Hnil; subst.
    cbn [fst snd] in *. subst k. change (prim_text (VStr s)) with (strip_newlines s) in Ha.
    rewrite Hs in Ha. by constructor.
  - constructor; [done|done|]. clear -Hall Hed.
    induction Hall as [|[k v] [k' r] fs refs [Hk Ha] _ IH]; [constructor|].
    inversion Hed as [|? ? Hkv Hed']; subst. cbn [fst snd] in *. subst k'. constructor; [|by apply IH].
    split; [done|]. exists (prim_text v). split; [done|]. split_and!; [by apply Hkv| |].
    + by eapply (editable_prim _ (k, v)).
    + intros h'. by apply cast_editable.
Qed.

Lemma cell_json (n : nat) j : serialize n h u = Ok (Some j) -> j = new_json nv.
Proof.
  assert (Hp := cell_prims). destruct is_cell as [s Hs|lo fs Hlo _ Hed _].
  - destruct n; cbn; by intros [= <-].
  - destruct n as [|n]; [done|]. cbn [serialize]. rewrite Hlo, serialize_prims by done.
    cbn [res_map]. rewrite omap_fmap_pair. by intros [= <-].
Qed.

Lemma put_entry_same (ix n : nat) (v : val) (j : json) :
  shown h ix v u -> serialize n h v = Ok (Some j) -> put_entry (Some j) ix (new_json nv) = j.
Proof.
  intros Hsh Hj. inversion Hsh as [w Hw Ew Ev|la es w Ha Hix Ev Ew].
  - assert (E : v = u) by congruence. rewrite E in Hj. rewrite (serialize_not_array _ _ _ _ _ _ cell_not_array Hj).
    symmetry. by eapply cell_json.
  - rewrite <- Ev in Hj. destruct n as [|n]; [done|]. cbn [serialize] in Hj. rewrite Ha in Hj.
    destruct (res_mapM _ es) as [l0|] eqn:El; [|done]. injection Hj as <-. cbn [put_entry].
    apply res_mapM_Ok in El. destruct (Forall2_lookup_l _ _ _ _ _ El Hix) as (o & Ho & Hs).
    f_equal. apply list_insert_id. rewrite list_lookup_fmap, Ho. cbn. f_equal.
    destruct o as [o|]; [by eapply cell_json|].
    exfalso. clear -Hs is_cell. destruct is_cell as [s _|lo fs Hlo _ Hed _]; destruct n; try done.
    cbn in Hs. rewrite Hlo in Hs. by destruct (res_mapM _ _).
Qed.
End Unchanged.

(** Opening the dialog mounts an input for each field of the entry. *)
Lemma open_edit_inputs h lr ps js type ix v L u ins nv args :
  stored h lr ps js type ix v L -> shown h ix v u -> cell (type_proto type) h u ins nv ->
  isEditing args = true -> a_rr args = VRef lr -> a_type args = Some type -> a_ix args = ix ->
  type <> "soa"%string ->
  exists used, let f := Form (VRef (length h)) (JObj []) true type used in
    open_edit args h = (mount_inputs f ins ;; mret f) (h ++ [OPlain []]).
Proof.
  intros [Hlr _ Hty _ _ _ _ _] Hsh Hc Hed Hrr Hat Hix Hsoa.
  assert (Hname : type_name args = type) by (unfold type_name; by rewrite Hat).
  set (h1 := h ++ [OPlain []]).
  assert (He1 : extends [] h h1) by apply extends_app.
  assert (Hlr1 : h1 !! lr = Some (OPlain ps)) by (apply He1; [set_solver|done]).
  destruct (non_arrays_run ps h1) as (used & Hused & _).
  exists used. intros f. unfold open_edit, open_form. rewrite Hed, Hname, Hrr.
  erewrite bind_ok.
  2: { erewrite bind_ok by apply alloc_eq. erewrite bind_ok; [reflexivity|].
       unfold filterUsedRrTypes. erewrite bind_ok by by apply entries_plain. exact Hused. }
  fold f. fold h1. erewrite bind_ok; [reflexivity|].
  unfold RrInputs, inputs_of_rr. rewrite Hrr, Hname.
  erewrite bind_ok by by apply get_prop_plain. rewrite Hty. cbn [from_option id].
  destruct Hsh as [w Hw|la es w Ha Hu].
  - erewrite bind_ok.
    2: { instantiate (1 := h1). instantiate (1 := false).
         destruct Hc as [|lo fs Hlo]; [done|]. eapply isArray_plain.
         apply He1; [set_solver|exact Hlo]. }
    cbn beta iota. erewrite bind_ok; [|reflexivity].
    eapply cell_inputs; [exact Hc|exact He1|by rewrite Hname].
  - assert (Ha1 : h1 !! la = Some (OArray es)) by (apply He1; [set_solver|done]).
    erewrite bind_ok by by eapply isArray_array. cbn beta iota.
    erewrite bind_ok by (eapply get_index_array; [exact Ha1|by rewrite Hix]).
    eapply cell_inputs; [exact Hc|exact He1|by rewrite Hname].
Qed.

(** The form is then ready to be saved. *)
Lemma open_edit_ready h lr ps js type ix v L u ins nv args :
  stored h lr ps js type ix v L -> shown h ix v u -> cell (type_proto type) h u ins nv ->
  isEditing args = true -> a_rr args = VRef lr -> a_type args = Some type -> a_ix args = ix ->
  type <> "soa"%string ->
  exists f h2 refs, open_edit args h = (Ok f, h2) /\ ready h h2 lr type ix args f nv /\
    edit_inputs f h2 = (Ok refs, h2) /\ inputIsValid f = true /\
    forallb (input_filled h2) refs = forallb (fun nv => negb (String.eqb (prim_text nv.2) "")) ins.
Proof.
  intros Hst Hsh Hc Hed Hrr Hat Hix Hsoa.
  destruct (open_edit_inputs _ _ _ _ _ _ _ _ _ _ _ args Hst Hsh Hc Hed Hrr Hat Hix Hsoa)
    as (used & Hopen). cbn zeta in Hopen. set (f := Form _ _ _ _ _) in Hopen.
  set (h1 := h ++ [OPlain []]) in Hopen.
  destruct (mount_inputs_run f (length h) ins h1 []) as (h2 & refs & Hrun & Hlf & He2 & Hle & Hall);
    [done|apply lookup_last|by eapply cell_prims|by eapply cell_nodup|].
  rewrite (bind_ok _ _ _ _ _ Hrun) in Hopen. exists f, h2, refs.*2. split; [done|].
  assert (Hlen : length h1 = S (length h)) by (subst h1; rewrite length_app; cbn; lia).
  split; [|split_and!; [unfold edit_inputs; by erewrite bind_ok by by apply entries_plain|done|by eapply filled_inputs]].
  split; try done; [|lia|].
  - intros l o _ Ho. apply He2; [|by apply lookup_app_l_Some].
    apply lookup_lt_Some in Ho. rewrite list_elem_of_singleton. lia.
  - exists (length h), refs. split_and!; [done|done|]. eapply cell_entered; [exact Hc|].
    eapply Forall2_impl; [exact Hall|]. intros kv nr [? Ha]. split; [done|].
    eapply attached_extends; [exact Ha|apply (extends_refl [])|by intros l ?%elem_of_nil|lia].
Qed.

(** An entry the form can edit without loss: a one-line string, or an object
    whose fields are. *)
Definition json_editable (p : json) (u : json) : Prop :=
  match u with
  | JStr s => strip_newlines s = s
  | JObj fs => NoDup fs.*1 /\ Forall (fun kj => editable p (kj.1, prim_val kj.2)) fs
  | _ => False
  end.

Lemma type_proto_elem type : type_proto type <> JArr [].
Proof.
  assert (H : forallb (fun nt => match proto nt.2 with JArr [] => false | _ => true end) rrProto = true)
    by (vm_compute; reflexivity).
  unfold type_proto. destruct (assoc_get type rrProto) as [t|] eqn:E; [|done].
  rewrite forallb_forall in H. apply assoc_get_elem, list_elem_of_In, H in E. cbn in E.
  by destruct (proto t) as [| | | |[]|].
Qed.

(** The names of the inputs for an entry. *)
Definition entry_names (u : json) : list string :=
  match u with JObj fs => fs.*1 | _ => ["value"%string] end.

(** An entry none of whose inputs is empty. *)
Definition json_filled (u : json) : bool :=
  let text j := match j with JStr s => filled s | _ => true end in
  match u with JObj fs => forallb (fun kj => text kj.2) fs | _ => text u end.

Lemma prim_filled (p : json) (k : string) (j : json) :
  editable p (k, prim_val j) ->
  negb (String.eqb (prim_text (prim_val j)) "") = match j with JStr s => filled s | _ => true end.
Proof.
  intros [_ H]. destruct j as [| |n|s| |]; cbn in H; try done.
  destruct H as [_ (z & -> & Hz)]. cbn [prim_val]. unfold prim_text, input_text. cbn [to_text].
  assert (Hd := num_to_string_digits z Hz). rewrite (strip_digits _ Hd).
  apply negb_true_iff, String.eqb_neq. intros E. assert (Hn := Number_to_string_int z Hz).
  rewrite E in Hn. rewrite <- Hn in E. vm_compute in E. discriminate E.
Qed.

Lemma read_cell h v u type :
  read h v u -> json_editable (type_proto type) u ->
  exists ins nv, cell (type_proto type) h v ins nv /\ ins.*1 = entry_names u /\
    forallb (fun nv => negb (String.eqb (prim_text nv.2) "")) ins = json_filled u.
Proof.
  intros Hr He. destruct u as [| | |s| |fs]; try done.
  - destruct Hr as (h0 & ext & [= <-] & _). eexists _, _. split_and!; [by constructor|done|].
    cbn. by rewrite andb_true_r.
  - apply read_obj in Hr as (lo & vs & -> & Ho & Hall & _). destruct He as [Hnd Hed].
    exists (zip fs.*1 vs), (NObj (zip fs.*1 vs)). split_and!; [|by apply (read_keys h)|].
    2: { clear -Hall Hed. cbn [json_filled]. remember fs.*2 as l eqn:El. revert fs El Hed.
      induction Hall as [|v j vs l Hv _ IH]; intros [|[k jk] fs] El Hed; try done.
      cbn in *. simplify_eq. inversion Hed as [|? ? Hk Hed']; subst. f_equal; [|by apply IH].
      etrans; [|exact (prim_filled _ _ _ Hk)]. destruct Hk as [Hne Hk]. destruct jk; cbn in Hk; try done;
        destruct Hv as (h0 & ext & [= <-] & _); done. }
    constructor; [done|by rewrite (read_keys h)| |apply type_proto_elem].
    clear -Hall Hed. remember fs.*2 as l eqn:El. revert fs El Hed.
    induction Hall as [|v j vs l Hv _ IH]; intros [|[k jk] fs] El Hed; try done.
    cbn in *. simplify_eq. inversion Hed as [|? ? Hk Hed']; subst. constructor; [|by apply IH].
    destruct Hk as [Hne Hk]. destruct jk; cbn in Hk; try done;
      destruct Hv as (h0 & ext & [= <-] & _); by split.
Qed.

Lemma read_shown h v j ix u :
  read h v j -> json_entry j ix = Some u -> exists w, shown h ix v w /\ read h w u.
Proof.
  intros Hr He. assert (Ha := read_isArray _ _ _ Hr). destruct j as [| | | |l|fs]; cbn in He.
  5: { apply read_arr in Hr as (la & es & -> & Hes & Hall & _).
       destruct (Forall2_lookup_r _ _ _ _ _ Hall He) as (w & Hw & Hrw). exists w.
       split; [|done]. by apply shown_elem with es. }
  all: injection He as <-; exists v; split; [by constructor|done].
Qed.

Lemma edit_roundtrip_run app o h lr fqdn js type ix j u :
  read h (VRef lr) (JObj js) -> finite (JObj js) = true -> NoDup js.*1 ->
  assoc_get type js = Some j -> json_entry j ix = Some u -> json_hasOwn j type = false ->
  json_editable (type_proto type) u -> type <> "soa"%string ->
  exists h3, save_unchanged app (RrArgs true fqdn (Some type) ix (VRef lr)) o h
  = let req := rr_put app fqdn (assoc_del "fqdn" js) in
    if json_filled u then Trace [req] (saved fqdn (answer o req)) (Ok tt) h3 else Trace [] [] (Ok tt) h3.
Proof.
  intros Hrd Hfin Hnd Hg Hent Hown Hed Hsoa.
  assert (Hnull : j <> JNull) by (intros ->; cbn in Hent; by simplify_eq).
  destruct (read_stored _ _ _ _ _ _ _ Hrd Hfin Hnd Hg Hent Hown Hnull) as (ps & v & L & Hst & Hv).
  destruct (read_shown _ _ _ _ _ Hv Hent) as (w & Hsh & Hw).
  destruct (read_cell _ _ _ _ Hw Hed) as (ins & nv & Hc & _ & Hfill).
  set (args := RrArgs _ _ _ _ _).
  destruct (open_edit_ready _ _ _ _ _ _ _ _ _ _ _ args Hst Hsh Hc) as
    (f & h2 & ons & Hopen & [? ? ? ? ? ? (lf & refs & ? & ? & ?)] & Hin & Hval & Hons); try done.
  unfold save_unchanged. erewrite bind_ok by exact Hopen. erewrite bind_ok by exact Hin.
  cbn [mret js_ret]. unfold press_save. rewrite Hval, Hons, Hfill. cbn [andb].
  destruct (json_filled u); [|by exists h2]. destruct Hst.
  edestruct (build_rr_json h lr ps js type ix v L) as (h3 & Hb & Hj); [eassumption..|].
  exists (meanwhile o h3). erewrite submit_run by eassumption.
  destruct (rr_props h lr ps js type v) as (js0 & _ & _ & _ & j' & Hv' & _ & Hg'); try eassumption.
  unfold put_json. rewrite Hg', (put_entry_same _ _ _ _ _ Hc _ _ _ _ Hsh Hv').
  by rewrite assoc_set_id.
Qed.

(** Opening the edit dialog on an entry of a record set read from the
    server and pressing Save sends the record set back as it was read, without
    [fqdn]: every number and string survives the way through the inputs.  An
    entry with an empty text cannot be saved: its inputs are required. *)
Theorem edit_roundtrip app o h lr fqdn js type ix j u :
  read h (VRef lr) (JObj js) -> finite (JObj js) = true -> NoDup js.*1 ->
  assoc_get type js = Some j -> json_entry j ix = Some u -> json_hasOwn j type = false ->
  json_editable (type_proto type) u -> type <> "soa"%string ->
  exists h3, save_unchanged app (RrArgs true fqdn (Some type) ix (VRef lr)) o h
  = let req := rr_put app fqdn (assoc_del "fqdn" js) in
    if json_filled u then Trace [req] (saved fqdn (answer o req)) (Ok tt) h3 else Trace [] [] (Ok tt) h3.
Proof. apply edit_roundtrip_run. Qed.

(** ** The hypotheses hold for a record set read from the server *)

Module RrDemo.
Definition rr_props_json : list (string * json) := [
  ("fqdn", JStr "all.example.com"); ("ttl", JNum (num_of_Z 2592000));
  ("a", JArr [JStr "127.0.0.1"; JStr "127.0.0.2"]);
  ("mx", JArr [JObj [("host", JStr "mail.nsblast.com"); ("priority", JNum (num_of_Z 10))]]);
  ("hinfo", JObj [("cpu", JStr "Asome"); ("os", JStr "Linux")])]%string.

Definition rr_heap : heap := (load_json (JObj rr_props_json) []).2.
Definition rr_loc : loc := 4.
Definition rr_own : list (string * val) := [
  ("fqdn", VStr "all.example.com"); ("ttl", VNum (num_of_Z 2592000));
  ("a", VRef 0); ("mx", VRef 2); ("hinfo", VRef 3)]%string.

Definition app : app_state := setToken "YWRtaW46" initialState.
Definition env : oracle := quiet true (Resp true "OK" None).

Definition edit_args (type : string) (ix : nat) : rr_args :=
  RrArgs true "all.example.com" (Some type) ix (VRef rr_loc).

Lemma rr_read : read rr_heap (VRef rr_loc) (JObj rr_props_json).
Proof. exact (load_json_read (JObj rr_props_json) []). Qed.

Lemma rr_keys_nodup : NoDup rr_props_json.*1.
Proof. apply (bool_decide_unpack _). vm_compute. exact I. Qed.

Definition edit_form (args : rr_args) : form * heap :=
  match open_edit args rr_heap with
  | (Ok f, h) => (f, h)
  | (Throw _, h) => (Form VNull JNull false "" [], h)
  end.

(** The second address edited to 10.0.0.1. *)
Definition typed_a : heap :=
  let '(f, h) := edit_form (edit_args "a" 1) in (type_text f "value" "10.0.0.1" h).2.

Lemma ready_a :
  ready rr_heap typed_a rr_loc "a" 1 (edit_args "a" 1) (edit_form (edit_args "a" 1)).1
    (NText "10.0.0.1").
Proof.
  split; try reflexivity; [|vm_compute; lia|].
  - intros l o _ Hl. do 5 (destruct l as [|l]; [rewrite <- Hl; vm_compute; reflexivity|]). by destruct l.
  - exists 5, [("value"%string, VRef 7)]. split_and!; [vm_compute; reflexivity..|].
    constructor. exists 7, 6. split_and!; try (vm_compute; (reflexivity || lia)).
Qed.

Lemma submit_edit_put_witness :
  exists h3,
    run env (submit app (edit_args "a" 1) (edit_form (edit_args "a" 1)).1 typed_a)
    = let req := rr_put app "all.example.com"
                   (assoc_del "fqdn" (put_json rr_props_json "a" 1 (new_json (NText "10.0.0.1")))) in
      Trace [req] (saved "all.example.com" (answer env req)) (Ok tt) h3.
Proof.
  refine (submit_edit_put app (edit_args "a" 1) _ env _ _ _ _ "a" 1
            (JArr [JStr "127.0.0.1"; JStr "127.0.0.2"]) (JStr "127.0.0.2") _
            rr_read _ rr_keys_nodup _ _ _ _ ready_a); try (vm_compute; reflexivity).
  discriminate.
Defined.

Lemma edit_roundtrip_witness :
  exists h3, save_unchanged app (edit_args "mx" 0) env rr_heap
  = let req := rr_put app "all.example.com" (assoc_del "fqdn" rr_props_json) in
    Trace [req] (saved "all.example.com" (answer env req)) (Ok tt) h3.
Proof.
  refine (edit_roundtrip app env rr_heap rr_loc "all.example.com" _ "mx" 0
            (JArr [JObj [("host"%string, JStr "mail.nsblast.com"); ("priority"%string, JNum (num_of_Z 10))]])
            (JObj [("host"%string, JStr "mail.nsblast.com"); ("priority"%string, JNum (num_of_Z 10))])
            rr_read eq_refl rr_keys_nodup eq_refl eq_refl eq_refl _ _).
  - split; [apply (bool_decide_unpack _); vm_compute; exact I|]. repeat constructor; try done.
    by exists 10%Z.
  - discriminate.
Defined.

Lemma setValueInRr_spec_witness :
  setValueInRr (VRef rr_loc) "a" 1 (VStr "10.0.0.1") rr_heap
  = set_value_result rr_heap rr_loc rr_own "a" (Some 1) (VStr "10.0.0.1").
Proof. exact (setValueInRr_spec rr_heap rr_loc rr_own "a" (Some 1) (VStr "10.0.0.1") eq_refl). Defined.

Lemma cast_number_roundtrip_witness :
  castStringToType "number" (VStr (input_text [] (VNum (num_of_Z 65535)))) []
  = (Ok (VNum (num_of_Z 65535)), []).
Proof. apply (cast_number_roundtrip 65535 []). split; [lia|reflexivity]. Defined.
End RrDemo.
