(* ===== verification/RrAdd.v ===== *)
(** * Adding records: correctness

    What a submission of the add form sends, and what happens when the
    selected type is changed before it. *)

From S2P Require Import Prelude JsNumber JsValue JsonStore Http AppState RrTypes RrForm RrEdit.

(** ** Adding a record *)

(** The record set with a record of [type] added, on JSON. *)
Definition add_json (js : list (string * json)) (type : string) (new : json)
    : list (string * json) :=
  match assoc_get type js with
  | Some (JArr l) => assoc_set type (JArr (l ++ [new])) js
  | _ => js ++ [(type, if is_jarr (type_proto type) then JArr [new] else new)]
  end.

(** What the record set has of the type: nothing, or an array whose elements
    share nothing with the objects written to. *)
Inductive room (h : heap) (lr : loc) (ps : list (string * val)) (type : string)
    : list loc -> Prop :=
| room_new : assoc_get type ps = None -> room h lr ps type [lr]
| room_array la es :
    assoc_get type ps = Some (VRef la) -> h !! la = Some (OArray es) ->
    (forall w, w ∈ es -> apart (length h) h [lr; la] w = true) ->
    room h lr ps type [lr; la].

Lemma ser_props_app f ps js k x j :
  ser_props f ps = Ok js -> f x = Ok j -> ser_props f (ps ++ [(k, x)]) = Ok (js ++ [(k, j)]).
Proof.
  revert js. induction ps as [|[k' v] ps IH]; intros js H Hx.
  - injection H as <-. unfold ser_props. cbn. by rewrite Hx.
  - apply ser_props_cons in H as (j' & js' & Hj & Hp & ->). specialize (IH _ Hp Hx).
    unfold ser_props in *. cbn [app res_mapM fst snd]. rewrite Hj. cbn [res_map]. by rewrite IH.
Qed.

Lemma json_props_app js k j : json_props (js ++ [(k, Some j)]) = json_props js ++ [(k, j)].
Proof. unfold json_props. by rewrite omap_app. Qed.

Section Add.
Context (h : heap) (lr : loc) (ps : list (string * val)) (js : list (string * json)).
Context (type : string) (t : rr_type) (L : list loc).
Hypothesis rr_obj : h !! lr = Some (OPlain ps).
Hypothesis rr_keys : NoDup ps.*1.
Hypothesis rr_room : room h lr ps type L.
Hypothesis rr_apart : forall k w, (k, w) ∈ ps -> k <> type -> apart (length h) h L w = true.
Hypothesis rr_json : to_json h (VRef lr) = Ok (Some (JObj js)).
Hypothesis has_proto : assoc_get type rrProto = Some t.

(** The store after the value [x], collected in [hc], is added. *)
Definition added (hc : heap) (new : json) (hs : heap) (ps' : list (string * val))
    : Prop :=
  hs !! lr = Some (OPlain ps') /\ extends L h hs /\ length hc <= length hs /\
  forall h' n, extends [lr] hs h' -> length hs <= S n -> exists js0,
    ser_props (serialize (S n) h') ps' = Ok js0 /\ json_props js0 = add_json js type new.

Lemma rr_json_props : exists js0, ser_props (serialize (length h) h) ps = Ok js0 /\
  js = json_props js0 /\ NoDup js0.*1.
Proof.
  assert (Hj := rr_json). unfold to_json in Hj. rewrite (serialize_plain _ _ _ _ rr_obj) in Hj.
  destruct (ser_props _ ps) as [js0|] eqn:E; [|done]. cbn in Hj. injection Hj as <-.
  exists js0. split_and!; [done|done|]. by rewrite (ser_props_keys _ _ _ E).
Qed.

Lemma add_room_new (hc : heap) (x : val) (new : json) :
  assoc_get type ps = None -> L = [lr] -> extends [] h hc -> length h < length hc ->
  (forall m h', extends [lr] hc h' -> 0 < m -> serialize m h' x = Ok (Some new)) ->
  exists hs ps', setValueInRr (VRef lr) type (-1) x hc = (Ok (VRef lr), hs) /\
    added hc new hs ps'.
Proof.
  intros Hnone HL Hext Hlen Hx.
  assert (Hlr : hc !! lr = Some (OPlain ps)) by (apply Hext; [set_solver|done]).
  assert (Hlt := lookup_lt_Some _ _ _ Hlr).
  rewrite (set_value_new hc lr ps type Hlr t x Hnone has_proto).
  set (hs := if is_jarr (proto t) then _ else _).
  set (w := if is_jarr (proto t) then VRef (length hc) else x).
  exists hs, (ps ++ [(type, w)]). split; [done|].
  assert (Hls : length hc <= length hs).
  { subst hs. destruct (is_jarr (proto t)); rewrite ?length_app, length_insert; lia. }
  assert (Hes : extends [lr] hc hs).
  { subst hs. destruct (is_jarr (proto t)).
    - eapply extends_trans; [|apply extends_app]. apply extends_insert. set_solver.
    - apply extends_insert. set_solver. }
  assert (Hhs : extends L h hs).
  { rewrite HL. intros l o Hl Ho. apply Hes; [done|]. apply Hext; [set_solver|done]. }
  split_and!; [|done|done|].
  { subst hs w. destruct (is_jarr (proto t)).
    - apply lookup_app_l_Some. by apply list_lookup_insert_eq.
    - by apply list_lookup_insert_eq. }
  intros h' n He Hn. destruct rr_json_props as (js0 & Hjs0 & Hjs & Hnd).
  exists (js0 ++ [(type, Some (if is_jarr (proto t) then JArr [new] else new))]). split.
  - apply ser_props_app.
    + eapply ser_props_mono; [exact Hjs0|]. intros k v j Hin Hv.
      apply serialize_kept with (length h) h L; [|intros l o Hl Ho|done|done|lia].
      * apply (rr_apart k); [done|]. intros ->. apply assoc_get_None in Hnone. apply Hnone.
        by apply (list_elem_of_fmap_2 fst) in Hin.
      * apply He; [by rewrite <- HL|]. by apply Hhs.
    + subst w. destruct (is_jarr (proto t)).
      * cbn [serialize]. rewrite (He (length hc) (OArray [x])).
        -- assert (length hs = S (length hc)).
           { subst hs. rewrite length_app, length_insert. cbn. lia. }
           destruct n as [|n]; [lia|]. cbn [res_mapM].
           rewrite (Hx (S n) h'); [done| |lia]. by eapply extends_trans.
        -- rewrite list_elem_of_singleton. lia.
        -- subst hs. rewrite lookup_app_r by by rewrite length_insert.
           by rewrite length_insert, Nat.sub_diag.
      * apply Hx; [|lia]. by eapply extends_trans.
  - rewrite json_props_app, <- Hjs. unfold add_json, type_proto. rewrite has_proto.
    replace (assoc_get type js) with (@None json); [done|].
    rewrite Hjs, json_props_get by done.
    destruct (assoc_get type js0) as [j|] eqn:Eg; [|done]. exfalso.
    apply assoc_get_None in Hnone. apply Hnone. rewrite <- (ser_props_keys _ _ _ Hjs0).
    apply assoc_get_elem in Eg. by apply (list_elem_of_fmap_2 fst) in Eg.
Qed.

Lemma add_room_array (hc : heap) (x : val) (new : json) (la : loc) (es : list val) :
  assoc_get type ps = Some (VRef la) -> L = [lr; la] -> h !! la = Some (OArray es) ->
  (forall w, w ∈ es -> apart (length h) h L w = true) ->
  extends [] h hc -> length h < length hc ->
  (forall m h', extends L hc h' -> 0 < m -> serialize m h' x = Ok (Some new)) ->
  exists hs ps', setValueInRr (VRef lr) type (-1) x hc = (Ok (VRef lr), hs) /\
    added hc new hs ps'.
Proof.
  intros Hg HL Ha Hes Hext Hlen Hx.
  assert (Hlr : hc !! lr = Some (OPlain ps)) by (apply Hext; [set_solver|done]).
  assert (Hla : hc !! la = Some (OArray es)) by (apply Hext; [set_solver|done]).
  assert (Hne : la <> lr) by congruence. assert (Hlt := lookup_lt_Some _ _ _ Hla).
  set (hs := <[la := OArray (es ++ [x])]> hc).
  assert (He1 : extends L hc hs) by (rewrite HL; apply extends_insert; set_solver).
  assert (He2 : extends L h hs).
  { intros l o Hl Ho. apply He1; [done|]. apply Hext; [set_solver|done]. }
  exists hs, ps. split; [by apply (set_value_push _ _ _ _ Hlr la)|].
  split_and!; [|done|by subst hs; rewrite length_insert|].
  { subst hs. by rewrite list_lookup_insert_ne. }
  intros h' n He Hn. destruct rr_json_props as (js0 & Hjs0 & Hjs & Hnd).
  assert (Hlen' : length hs = length hc) by (subst hs; by rewrite length_insert).
  assert (He3 : extends L hs h').
  { eapply extends_weaken; [|exact He]. intros l ->%list_elem_of_singleton. rewrite HL.
    apply elem_of_cons. by left. }
  destruct (ser_props_get _ _ _ _ _ Hjs0 Hg) as (j & Hj & Hgj).
  assert (Hlh := lookup_lt_Some _ _ _ Ha).
  replace (length h) with (S (pred (length h))) in Hj by lia. cbn [serialize] in Hj.
  rewrite Ha in Hj. destruct (res_mapM _ es) as [l0|] eqn:El; [|done]. injection Hj as <-.
  assert (Hgs : assoc_get type js = Some (JArr (default JNull <$> l0)))
    by by rewrite Hjs, json_props_get, Hgj.
  exists (assoc_set type (Some (JArr ((default JNull <$> l0) ++ [new]))) js0). split.
  - rewrite <- (assoc_set_id type (VRef la) ps Hg).
    eapply ser_props_set; [exact Hjs0|done|by rewrite Hg| |].
    + cbn [serialize]. rewrite (He la (OArray (es ++ [x]))).
      2: by rewrite list_elem_of_singleton.
      2: by apply list_lookup_insert_eq.
      assert (res_mapM (serialize n h') (es ++ [x]) = Ok (l0 ++ [Some new])) as ->.
      { apply res_mapM_Ok, Forall2_app.
        - apply res_mapM_Ok in El. rewrite Forall2_lookup in El |- *. intros i. specialize (El i).
          destruct (es !! i) as [w|] eqn:Ew, (l0 !! i) as [j|]; inversion El; subst; constructor.
          eapply serialize_kept; [eapply Hes, list_elem_of_lookup_2; exact Ew| |eassumption|lia|lia].
          intros l o Hl Ho. apply He3; [done|]. by apply He2.
        - repeat constructor. apply Hx; [by eapply extends_trans|lia]. }
      cbn. by rewrite fmap_app.
    + intros k v j Hin Hk Hv. apply serialize_kept with (length h) h L; [by apply (rr_apart k)| |done|done|lia].
      intros l o Hl Ho. apply He3; [done|]. by apply He2.
  - rewrite json_props_set; [|done|by rewrite <- Hjs, Hgs]. unfold add_json. by rewrite <- Hjs, Hgs.
Qed.

Lemma add_room (hc : heap) (x : val) (new : json) :
  extends [] h hc -> length h < length hc ->
  (forall m h', extends L hc h' -> 0 < m -> serialize m h' x = Ok (Some new)) ->
  exists hs ps', setValueInRr (VRef lr) type (-1) x hc = (Ok (VRef lr), hs) /\
    added hc new hs ps'.
Proof.
  intros Hext Hlen Hx. inversion rr_room as [Hnone HL|la es Hg Ha Hes HL].
  - apply (add_room_new hc x); auto. by rewrite HL.
  - apply (add_room_array hc x new la es); auto. by rewrite <- HL.
Qed.
End Add.

(** An add form on the record set at [lr], with a type of the drop-down
    selected, when Save is pressed in the store [h2]. *)
Record ready_add (h h2 : heap) (lr : loc) (type : string) (args : rr_args) (f : form)
    (nv : new_val) : Prop := ReadyAdd {
  radd_adding : isEditing args = false;
  radd_rr : a_rr args = VRef lr;
  radd_type : rrType f = type;
  radd_proto : select_change type = Some (type, f_proto f);
  radd_later : extends [] h h2;
  radd_longer : length h <= length h2;
  radd_entered : exists lf refs, formRefs f = VRef lf /\ h2 !! lf = Some (OPlain refs) /\
    entered (type_proto type) (length h) h2 refs nv
}.

(** No prototype has its own type as a field. *)
Lemma proto_flat type t : assoc_get type rrProto = Some t -> json_hasOwn (proto t) type = false.
Proof.
  assert (H : forallb (fun nt => negb (json_hasOwn (proto nt.2) nt.1)) rrProto = true)
    by (vm_compute; reflexivity).
  rewrite forallb_forall in H. intros Hin%assoc_get_elem. apply list_elem_of_In, H in Hin.
  by apply negb_true_iff in Hin.
Qed.

Lemma select_change_proto type t p :
  assoc_get type rrProto = Some t -> select_change type = Some (type, p) -> p = proto t.
Proof.
  unfold select_change. destruct (String.eqb_spec type "select") as [->|]; [done|].
  intros ->. by intros [= <-].
Qed.

(** A record set read from the server has room for a type the drop-down
    offers. *)
Lemma read_room h lr js type used :
  read h (VRef lr) (JObj js) -> NoDup js.*1 ->
  filterUsedRrTypes (VRef lr) h = (Ok used, h) -> type ∈ select_types used ->
  exists ps L, h !! lr = Some (OPlain ps) /\ NoDup ps.*1 /\ room h lr ps type L /\
    (forall l, l ∈ L -> l < length h) /\
    forall k w, (k, w) ∈ ps -> k <> type -> apart (length h) h L w = true.
Proof.
  intros Hrd Hnd Hu [Hnot _]%select_types_elem.
  destruct (read_obj _ _ _ Hrd) as (lo & vs & [= <-] & Ho & Hall & Hlt & Hsep).
  unfold filterUsedRrTypes in Hu. erewrite bind_ok in Hu by by apply entries_plain.
  destruct (non_arrays_run (zip js.*1 vs) h) as (used' & Hn & Hs). rewrite Hn in Hu.
  injection Hu as ->. assert (Hlr := lookup_lt_Some _ _ _ Ho).
  exists (zip js.*1 vs). destruct (assoc_get type js) as [j|] eqn:Hg.
  - destruct (read_lookup _ _ _ _ _ Hall Hg) as (i & v & Hv & Hi & Hk & Hr).
    assert (Ha := read_isArray _ _ _ Hr). destruct (is_jarr j) eqn:Ej.
    2: { destruct Hnot. eapply Hs; [by apply assoc_get_elem|done]. }
    destruct j as [| | | |l|]; try discriminate Ej.
    destruct (read_arr _ _ _ Hr) as (la & es & -> & Hes & _ & Hap). exists [lr; la].
    assert (Hla : la < lr) by by apply (Hlt i).
    split_and!; [done|by rewrite (read_keys h)| | |].
    + apply room_array with es; [done|done|]. intros w Hw. apply Hap; [|done].
      intros l'. rewrite !elem_of_cons, elem_of_nil. intros [->|[->|[]]]; lia.
    + intros l'. rewrite !elem_of_cons, elem_of_nil. intros [->|[->|[]]]; lia.
    + intros k w (i' & Hk' & Hi')%zip_lookup Hne.
      apply (Hsep _ _ i' w Hi'). intros l'. rewrite !elem_of_cons, elem_of_nil.
      intros [->|[->|[]]]; [by left|]. right. exists i. split; [|done]. intros ->. congruence.
  - exists [lr]. split_and!; [done|by rewrite (read_keys h)| | |].
    + apply room_new. apply assoc_get_None. rewrite (read_keys h) by done. by apply assoc_get_None.
    + by intros l' ->%list_elem_of_singleton.
    + intros k w (i' & Hk' & Hi')%zip_lookup Hne.
      apply (Hsep _ _ i' w Hi'). intros l' ->%list_elem_of_singleton. by left.
Qed.

Lemma submit_add_run app args f o h h2 lr js type used nv :
  read h (VRef lr) (JObj js) -> finite (JObj js) = true -> NoDup js.*1 ->
  filterUsedRrTypes (VRef lr) h = (Ok used, h) -> type ∈ select_types used ->
  ready_add h h2 lr type args f nv ->
  exists h3, run o (submit app args f h2)
  = let req := rr_put app (a_fqdn args) (assoc_del "fqdn" (add_json js type (new_json nv))) in
    Trace [req] (saved (a_fqdn args) (answer o req)) (Ok tt) h3.
Proof.
  intros Hrd Hfin Hkeys Hu Hoff [Hadd Hrr Hty Hp Hext Hlen (lf & refs & Hf & Hlf & Hent)].
  destruct (read_room _ _ _ _ _ Hrd Hkeys Hu Hoff) as (ps & L & Hlr & Hnd & Hroom & HL & Hapart).
  assert (Hjson := read_json _ _ _ Hrd Hfin).
  apply select_types_elem in Hoff as [_ (t & Ht & _)].
  assert (Hpt := select_change_proto _ _ _ Ht Hp).
  assert (Hlt := lookup_lt_Some _ _ _ Hlr).
  destruct (add_room h lr ps js type t L Hlr Hnd Hroom Hapart Hjson Ht
              (collected h2 nv).2 (collected h2 nv).1 (new_json nv))
    as (hs & ps' & Hrun & Hlrs & _ & Hls & Hser).
  { eapply extends_trans; [exact Hext|]. destruct nv; apply extends_app. }
  { destruct nv; cbn; rewrite length_app; cbn; lia. }
  { intros m h' He Hm. eapply collected_json; [exact Hent|done|]. intros o' Ho.
    apply He; [|done]. intros Hin%HL. lia. }
  set (h3 := <[lr := OPlain (assoc_del "fqdn" ps')]> hs). exists (meanwhile o h3).
  apply submit_run with lr.
  - unfold build_rr, orig_shape. rewrite Hadd, Hrr, Hty.
    erewrite bind_ok.
    2: { erewrite bind_ok; [|reflexivity]. cbn [shape_hasOwn]. rewrite Hpt, (proto_flat _ _ Ht).
         by erewrite bind_ok by reflexivity. }
    cbn beta iota. fold (type_proto type).
    erewrite bind_ok by apply alloc_eq. rewrite Hf.
    erewrite bind_ok by (apply entries_plain; by apply lookup_app_l_Some).
    erewrite bind_ok by by eapply collect_entered.
    erewrite bind_ok by exact Hrun. unfold prepareRrForUpdate.
    by erewrite bind_ok by by apply delete_prop_plain.
  - assert (Hl3 := lookup_lt_Some _ _ _ Hlrs). unfold to_json.
    assert (length h3 = length hs) as -> by (subst h3; by rewrite length_insert).
    rewrite (serialize_plain _ _ _ (assoc_del "fqdn" ps')) by by apply list_lookup_insert_eq.
    destruct (length hs) as [|n] eqn:En; [lia|].
    destruct (Hser h3 n) as (js0 & Hjs0 & Hadd0); [apply extends_insert; set_solver|done|].
    erewrite ser_props_del by exact Hjs0. cbn [res_map]. by rewrite json_props_del, Hadd0.
Qed.

(** Adding a record of a type the drop-down offers to a record set read
    from the server sends one PUT whose body is the record set as read,
    without [fqdn], with the new record at the end of the array of its type (a
    new array where there was none), or as the only record of a type that is
    not kept in an array. *)
Theorem submit_add_put app args f o h h2 lr js type used nv :
  read h (VRef lr) (JObj js) -> finite (JObj js) = true -> NoDup js.*1 ->
  filterUsedRrTypes (VRef lr) h = (Ok used, h) -> type ∈ select_types used ->
  ready_add h h2 lr type args f nv ->
  exists h3, run o (submit app args f h2)
  = let req := rr_put app (a_fqdn args) (assoc_del "fqdn" (add_json js type (new_json nv))) in
    Trace [req] (saved (a_fqdn args) (answer o req)) (Ok tt) h3.
Proof. apply submit_add_run. Qed.

(** ** The dialog on a record set read from the server *)

Module AddDemo.
Import RrDemo.

Definition add_args : rr_args := RrArgs false "all.example.com" None 0 (VRef rr_loc).

(** The dialog after the selections and the typing. *)
Definition after (sels ts : list string) : add_dialog * heap :=
  match (d ← open_add add_args; d' ← select_all add_args d sels; type_all d' ts ;; mret d') rr_heap with
  | (Ok d, h) => (d, h)
  | (Throw _, h) => (AddDialog (Form VNull JNull false "" []) [], h)
  end.

Definition dlg_mx : add_dialog :=
  Eval vm_compute in (after ["mx"]%string ["mx2.example.com"; "20"]%string).1.
Definition heap_mx : heap :=
  Eval vm_compute in (after ["mx"]%string ["mx2.example.com"; "20"]%string).2.

(** The store after the first Save. *)
Definition heap_mx_saved : heap :=
  Eval vm_compute in (build_rr add_args (dlg_form dlg_mx) heap_mx).2.
Definition mx_json : json :=
  JObj [("host", JStr "mx2.example.com"); ("priority", JNum (num_of_Z 20))]%string.

Lemma ready_add_mx :
  ready_add rr_heap (after ["mx"] ["mx2.example.com"; "20"])%string.2 rr_loc "mx" add_args
    (dlg_form (after ["mx"] ["mx2.example.com"; "20"])%string.1)
    (NObj [("host", VStr "mx2.example.com"); ("priority", VNum (num_of_Z 20))]%string).
Proof.
  split; try (vm_compute; reflexivity).
  - intros l o _ Hl. do 5 (destruct l as [|l]; [rewrite <- Hl; vm_compute; reflexivity|]). by destruct l.
  - vm_compute. lia.
  - exists 5, [("host"%string, VRef 7); ("priority"%string, VRef 9)].
    split_and!; [vm_compute; reflexivity..|]. constructor.
    + vm_compute. discriminate.
    + apply (bool_decide_unpack _). vm_compute. exact I.
    + repeat constructor; cbn [fst snd].
      * exists "mx2.example.com"%string. split.
        -- exists 7, 6. split_and!; try (vm_compute; (reflexivity || lia)).
        -- split_and!; [done|done|]. intros h. reflexivity.
      * exists "20"%string. split.
        -- exists 9, 8. split_and!; try (vm_compute; (reflexivity || lia)).
        -- split_and!; [done|done|]. intros h.
           assert (Number "20" = num_of_Z 20) as E by (vm_compute; reflexivity).
           cbn [castStringToType]. by rewrite E.
Qed.

Lemma submit_add_put_witness :
  exists h3,
    run env (submit app add_args (dlg_form (after ["mx"] ["mx2.example.com"; "20"])%string.1)
               (after ["mx"] ["mx2.example.com"; "20"])%string.2)
    = let req := rr_put app "all.example.com"
                   (assoc_del "fqdn" (add_json rr_props_json "mx"
                      (new_json (NObj [("host", VStr "mx2.example.com");
                                       ("priority", VNum (num_of_Z 20))]%string)))) in
      Trace [req] (saved "all.example.com" (answer env req)) (Ok tt) h3.
Proof.
  refine (submit_add_put app add_args _ env rr_heap _ rr_loc rr_props_json "mx"
            ["fqdn"; "ttl"; "hinfo"]%string _ rr_read eq_refl rr_keys_nodup eq_refl _ ready_add_mx).
  apply (bool_decide_unpack _). vm_compute. exact I.
Defined.

(** Picking another type keeps the registrations of the first one: an add
    dialog in which mx was picked before srv never sends anything, whatever
    is typed, and shows no error; with all inputs filled, Save throws. *)
Theorem add_switch_type_fails (o : oracle) (t1 t2 t3 t4 : string) :
  let t := add_session app add_args ["mx"; "srv"]%string [t1; t2; t3; t4] o rr_heap in
  sent t = [] /\ emitted t = [] /\
  outcome t = if forallb filled [t1; t2; t3; t4]
              then Throw (JsError "castStringToType: Unerxpected type undefined") else Ok tt.
Proof.
  cbv zeta. unfold add_session. fold (after ["mx"; "srv"]%string [t1; t2; t3; t4]).
  assert (E : (d ← open_add add_args; d' ← select_all add_args d ["mx"; "srv"]%string;
               type_all d' [t1; t2; t3; t4] ;; mret d') rr_heap
          = (Ok (after ["mx"; "srv"]%string [t1; t2; t3; t4]).1, (after ["mx"; "srv"]%string [t1; t2; t3; t4]).2))
    by (vm_compute; reflexivity).
  rewrite E. unfold press_save.
  assert (Ef : forallb (input_filled (after ["mx"; "srv"]%string [t1; t2; t3; t4]).2)
                 (mounted (after ["mx"; "srv"]%string [t1; t2; t3; t4]).1) = forallb filled [t1; t2; t3; t4])
    by (vm_compute; reflexivity).
  rewrite Ef. change (inputIsValid _) with true. cbn [andb].
  generalize (forallb filled [t1; t2; t3; t4]). intros [].
  - split_and!; vm_compute; reflexivity.
  - split_and!; reflexivity.
Qed.

(** The add form of an OpenPGP key, whose prototype is the empty string,
    starts with the text "undefined", and Save sends that as the key. *)
Theorem add_openpgpkey_undefined (o : oracle) :
  let t := add_session app add_args ["openpgpkey"]%string [] o rr_heap in
  let req := rr_put app "all.example.com"
               (assoc_del "fqdn" (add_json rr_props_json "openpgpkey" (JStr "undefined"))) in
  sent t = [req] /\ emitted t = saved "all.example.com" (answer o req).
Proof.
  assert (H : forall o', run o' (submit app add_args (dlg_form (after ["openpgpkey"]%string []).1)
             (after ["openpgpkey"]%string []).2)
           = let req := rr_put app "all.example.com"
               (assoc_del "fqdn" (add_json rr_props_json "openpgpkey" (JStr "undefined"))) in
             Trace [req] (saved "all.example.com" (answer o' req)) (Ok tt)
               (meanwhile o' (build_rr add_args (dlg_form (after ["openpgpkey"]%string []).1)
                                (after ["openpgpkey"]%string []).2).2)).
  { intros o'. apply submit_run with rr_loc; vm_compute; reflexivity. }
  unfold add_session. fold (after ["openpgpkey"]%string []).
  assert (E : (d ← open_add add_args; d' ← select_all add_args d ["openpgpkey"]%string;
               type_all d' [] ;; mret d') rr_heap
          = (Ok (after ["openpgpkey"]%string []).1, (after ["openpgpkey"]%string []).2))
    by (vm_compute; reflexivity).
  rewrite E. unfold press_save.
  assert (Ef : inputIsValid (dlg_form (after ["openpgpkey"]%string []).1) &&
                 forallb (input_filled (after ["openpgpkey"]%string []).2)
                   (mounted (after ["openpgpkey"]%string []).1) = true) by (vm_compute; reflexivity).
  rewrite Ef, H. done.
Qed.

(** The new record is in the list's own record set after a Save that the
    server refused, so pressing Save again sends it twice. *)
Theorem add_resubmit_duplicates (o : oracle) (statusText : string) :
  let '(d, h) := after ["mx"]%string ["mx2.example.com"; "20"]%string in
  let t1 := run (quiet true (Resp false statusText None)) (submit app add_args (dlg_form d) h) in
  let t2 := run o (submit app add_args (dlg_form d) (final t1)) in
  emitted t1 = [Alert (save_failed "all.example.com" statusText)] /\
  sent t2 = [rr_put app "all.example.com"
               (assoc_del "fqdn" (add_json (add_json rr_props_json "mx" mx_json) "mx" mx_json))].
Proof.
  assert (E : after ["mx"]%string ["mx2.example.com"; "20"]%string
          = (dlg_mx, heap_mx)) by (vm_compute; reflexivity).
  rewrite E. cbv zeta.
  rewrite (submit_run app add_args (dlg_form dlg_mx) _ heap_mx rr_loc heap_mx_saved
             (assoc_del "fqdn" (add_json rr_props_json "mx" mx_json)));
    [|vm_compute; reflexivity..].
  split; [reflexivity|]. cbn [final meanwhile quiet]. unfold id.
  rewrite (submit_run app add_args (dlg_form dlg_mx) _ heap_mx_saved rr_loc
             (build_rr add_args (dlg_form dlg_mx) heap_mx_saved).2
             (assoc_del "fqdn" (add_json (add_json rr_props_json "mx" mx_json) "mx" mx_json)));
    [|vm_compute; reflexivity..].
  reflexivity.
Qed.
End AddDemo.
