(* ===== verification/RrSession.v ===== *)
(** * The record dialogs from opening to saving

    Whole sessions of the form.  The add dialog opens without inputs, a type
    is picked in the drop-down, its inputs appear, texts are typed and Save is
    pressed; the edit dialog opens with the entry in its inputs.  What is sent
    is the record set the list has with the typed record added, or the edited
    entry replaced. *)

From S2P Require Import Prelude JsNumber JsValue JsonStore Http AppState RrTypes RrForm RrEdit RrAdd.

(** ** Inputs in a row *)

(** The inputs of [refs], one after the other in the store from [n] on, with
    their texts. *)
Inductive inputs_at : nat -> heap -> list val -> list string -> Prop :=
| inputs_nil n h : inputs_at n h [] []
| inputs_cons n h refs t ts :
    h !! n = Some (OPlain [("value"%string, VStr t)]) ->
    h !! S n = Some (OPlain [("current"%string, VRef n)]) ->
    inputs_at (S (S n)) h refs ts ->
    inputs_at n h (VRef (S n) :: refs) (t :: ts).

Lemma inputs_at_later n h h' refs ts :
  inputs_at n h refs ts -> (forall l, n <= l -> l < length h -> h' !! l = h !! l) ->
  inputs_at n h' refs ts.
Proof.
  induction 1 as [|n h refs t ts H1 H2 _ IH]; intros Hl; constructor.
  - rewrite Hl; [done|lia|by eapply lookup_lt_Some].
  - rewrite Hl; [done|lia|by eapply lookup_lt_Some].
  - apply IH. intros l ? ?. apply Hl; lia.
Qed.

Lemma inputs_at_length n h refs ts : inputs_at n h refs ts -> length refs = length ts.
Proof. induction 1; cbn; congruence. Qed.

(** The inputs of a first selection are all mounted, in order. *)
Lemma reconcile_new (lf : loc) (ins : list (string * val)) (h : heap) rs :
  h !! lf = Some (OPlain rs) -> Forall (fun nv => is_prim nv.2 = true) ins ->
  NoDup (rs.*1 ++ ins.*1) ->
  exists h' refs, reconcile (VRef lf) [] ins h = (Ok refs, h') /\
    h' !! lf = Some (OPlain (rs ++ zip ins.*1 refs)) /\
    length h <= length h' /\ extends [lf] h h' /\
    inputs_at (length h) h' refs ((fun nv => prim_text nv.2) <$> ins).
Proof.
  revert h rs. induction ins as [|[name v] ins IH]; intros h rs Hlf Hp Hnd.
  - exists h, []. cbn. rewrite app_nil_r. split_and!; auto using extends_refl, inputs_nil.
  - inversion Hp as [|? ? Hv Hp']; subst. cbn in Hv. assert (Hlt := lookup_lt_Some _ _ _ Hlf).
    cbn [reconcile]. erewrite bind_ok by by apply mount_input_run. set (h1 := _ ++ _).
    assert (Hnew : assoc_get name rs = None).
    { apply assoc_get_None. intros Hin. apply NoDup_app in Hnd as (_ & Hd & _).
      apply (Hd name Hin), elem_of_cons. by left. }
    assert (H1 : h1 !! lf = Some (OPlain (rs ++ [(name, VRef (S (length h)))]))).
    { subst h1. rewrite lookup_app_l by by rewrite length_insert.
      rewrite <- assoc_set_new by done. by apply list_lookup_insert_eq. }
    assert (Hlen : length h1 = S (S (length h))).
    { subst h1. rewrite length_app, length_insert. cbn. lia. }
    destruct (IH h1 _ H1 Hp') as (h' & refs & Hrun & Hl' & Hle & He & Hin).
    { rewrite fmap_app, <- app_assoc. exact Hnd. }
    erewrite bind_ok by exact Hrun. exists h', (VRef (S (length h)) :: refs).
    rewrite Hlen in Hin, Hle. split_and!; [done| |lia| |].
    + rewrite Hl', <- app_assoc. done.
    + eapply extends_trans; [|exact He]. subst h1. eapply extends_trans; [|apply extends_app].
      apply extends_insert. set_solver.
    + assert (Hnlf : forall l, l ∈ [lf] -> l < length h) by by intros l ->%list_elem_of_singleton.
      constructor; [| |exact Hin]; (apply He; [intros ?%Hnlf; lia|]); subst h1;
        (rewrite lookup_app_r; rewrite length_insert; [|lia]).
      * by rewrite Nat.sub_diag.
      * by replace (S (length h) - length h) with 1 by lia.
Qed.

Lemma inputs_at_filled n h refs ts :
  inputs_at n h refs ts -> forallb (input_filled h) refs = forallb (fun t => negb (String.eqb t "")) ts.
Proof.
  induction 1 as [|n h refs t ts H1 H2 _ IH]; [done|]. cbn [forallb]. rewrite IH. f_equal.
  unfold input_filled, heap_prop. rewrite H2. cbn. by rewrite H1.
Qed.

Lemma filled_texts ts : forallb (fun t => negb (String.eqb t "")) (strip_newlines <$> ts) = forallb filled ts.
Proof. induction ts as [|t ts IH]; [done|]. cbn. by rewrite IH. Qed.

(** Typing changes the texts of the inputs and nothing else. *)
Lemma type_inputs n h refs ts0 ts :
  inputs_at n h refs ts0 -> length ts = length refs ->
  exists h', js_iter (fun rt => type_ref rt.1 rt.2) (zip refs ts) h = (Ok tt, h') /\
    inputs_at n h' refs (strip_newlines <$> ts) /\ length h' = length h /\
    forall l, l < n -> h' !! l = h !! l.
Proof.
  revert n h ts0 ts. induction refs as [|r refs IH]; intros n h ts0 ts Hi Hts.
  - exists h. destruct ts; [|done]. split_and!; auto using inputs_nil.
  - destruct ts as [|u ts]; [done|]. injection Hts as Hts.
    inversion Hi as [|? ? ? t ts1 H1 H2 Hi']; subst.
    set (h1 := <[n := OPlain [("value"%string, VStr (strip_newlines u))]]> h).
    assert (Hlen : length h1 = length h) by apply length_insert.
    assert (Hkeep : forall l, l <> n -> h1 !! l = h !! l).
    { intros l Hl. subst h1. by rewrite list_lookup_insert_ne. }
    destruct (IH (S (S n)) h1 ts1 ts) as (h' & Hrun & Hin & Hl' & Hlow); [|done|].
    { eapply inputs_at_later; [exact Hi'|]. intros l ? ?. apply Hkeep. lia. }
    exists h'. split_and!; [| |lia|].
    + cbn [zip zip_with js_iter fst snd]. erewrite bind_ok; [exact Hrun|]. unfold type_ref.
      erewrite bind_ok by by apply get_prop_plain. cbn [assoc_get String.eqb Ascii.eqb Bool.eqb].
      by apply (set_prop_plain h n [("value"%string, VStr t)]).
    + constructor; [| |exact Hin]; rewrite Hlow by lia.
      * apply list_lookup_insert_eq. by eapply lookup_lt_Some.
      * by rewrite Hkeep by lia.
    + intros l Hl. rewrite Hlow by lia. apply Hkeep. lia.
Qed.

(** ** What a type's inputs stand for *)

(** The value of a field with the text [t], by the type of the prototype's. *)
Definition field_value (ft t : string) : val :=
  if String.eqb ft "number" then VNum (Number t) else VStr t.

(** The value entered with the texts [ts] in the inputs of an entry shaped as
    [u]. *)
Definition typed_entry (type : string) (u : json) (ts : list string) : new_val :=
  match u with
  | JObj fs =>
      NObj (zip_with (fun k t =>
              (k, field_value (json_field_type (proto_elem (type_proto type)) k) (strip_newlines t)))
              fs.*1 ts)
  | _ => NText (strip_newlines (default ""%string (head ts)))
  end.

(** A new record has the shape of the prototype. *)
Definition typed_value (type : string) (ts : list string) : new_val :=
  typed_entry type (proto_elem (type_proto type)) ts.

(** Every field of a prototype is a string or a number, and none has a name
    the form gives a meaning of its own. *)
Definition plain_fields (p : json) : bool :=
  match proto_elem p with
  | JObj fs =>
      bool_decide (NoDup fs.*1) &&
      forallb (fun kj => negb (String.eqb kj.1 "value") &&
                 (String.eqb (json_field_type (proto_elem p) kj.1) "number" ||
                  String.eqb (json_field_type (proto_elem p) kj.1) "string")) fs
  | JArr _ => false
  | _ => true
  end.

Lemma protos_plain type : plain_fields (type_proto type) = true.
Proof.
  assert (H : forallb (fun nt => plain_fields (proto nt.2)) rrProto = true) by (vm_compute; reflexivity).
  unfold type_proto. destruct (assoc_get type rrProto) as [t|] eqn:E; [|done].
  rewrite forallb_forall in H. by apply assoc_get_elem, list_elem_of_In, H in E.
Qed.

(** The inputs of a prototype. *)
Definition field_names (type : string) : list string := (inputs_of_proto (type_proto type)).*1.

Lemma inputs_of_proto_elem p :
  p <> JArr [] ->
  inputs_of_proto p =
  match proto_elem p with
  | JObj fs => (fun kv => (kv.1, prim_val kv.2)) <$> fs
  | _ => [("value"%string, prim_val (proto_elem p))]
  end.
Proof. by destruct p as [| | | |[|[]]|]. Qed.

Lemma typed_field p k t :
  k <> "value"%string ->
  (json_field_type (proto_elem p) k = "number" \/ json_field_type (proto_elem p) k = "string")%string ->
  typed p t (k, field_value (json_field_type (proto_elem p) k) t).
Proof. intros Hk [E|E]; unfold typed, field_value; cbn [fst snd]; rewrite E; by split_and!. Qed.

(** A field the conversion of the form knows. *)
Definition known_field (p : json) (k : string) : Prop :=
  k <> "value"%string /\
  (json_field_type (proto_elem p) k = "number" \/ json_field_type (proto_elem p) k = "string")%string.

Lemma fields_typed p n n0 h names refs ts :
  Forall (known_field p) names ->
  inputs_at n0 h refs (strip_newlines <$> ts) -> n <= n0 -> length refs = length names ->
  Forall2 (fun kw nr => kw.1 = nr.1 /\ exists t, attached n h nr.2 t /\ typed p t kw)
    (zip_with (fun k t => (k, field_value (json_field_type (proto_elem p) k) (strip_newlines t))) names ts)
    (zip names refs).
Proof.
  revert n0 refs ts. induction names as [|k names IH]; intros n0 refs ts Hok Hi Hn Hlen.
  - destruct refs; [constructor|done].
  - destruct refs as [|r refs]; [done|]. destruct ts as [|t ts]; [by inversion Hi|].
    inversion Hi; subst. inversion Hok as [|? ? [Hk Hty] Hok']; subst. injection Hlen as Hlen.
    constructor.
    + split; [done|]. exists (strip_newlines t). split; [|by apply typed_field].
      exists (S n0), n0. split_and!; (done || lia).
    + eapply (IH (S (S n0))); [done|done|lia|done].
Qed.

Lemma zip_with_fst {A B C} (f : A -> B -> C) (l : list A) (k : list B) :
  length l = length k -> (zip_with (fun a b => (a, f a b)) l k).*1 = l.
Proof. revert k. induction l as [|a l IH]; intros [|b k]; cbn; [done..|]. intros [= ?]. by rewrite IH. Qed.

(** The inputs of an object, filled with [ts], hold [typed_entry]. *)
Lemma object_entered n n0 h type fs refs ts :
  NoDup fs.*1 -> Forall (known_field (type_proto type)) fs.*1 ->
  inputs_at n0 h refs (strip_newlines <$> ts) -> n <= n0 -> length refs = length fs ->
  entered (type_proto type) n h (zip fs.*1 refs) (typed_entry type (JObj fs) ts).
Proof.
  intros Hnd Hok Hi Hn Hlen. assert (Hts := inputs_at_length _ _ _ _ Hi). rewrite length_fmap in Hts.
  constructor; [apply type_proto_elem| |].
  - rewrite zip_with_fst; [done|]. rewrite length_fmap. lia.
  - eapply fields_typed; [exact Hok|exact Hi|exact Hn|by rewrite length_fmap].
Qed.

Lemma text_entered n n0 h p refs ts :
  inputs_at n0 h refs (strip_newlines <$> ts) -> n <= n0 -> length refs = 1 ->
  entered p n h (zip ["value"%string] refs) (NText (strip_newlines (default ""%string (head ts)))).
Proof.
  intros Hi Hn Hlen. destruct refs as [|r [|]]; try done. destruct ts as [|t [|]]; inversion Hi; subst;
    [|by match goal with H : inputs_at _ _ [] _ |- _ => inversion H end].
  constructor. exists (S n0), n0. split_and!; (done || lia).
Qed.

(** The inputs of a type, filled with [ts], hold [typed_value]. *)
Lemma session_entered n n0 h type refs ts :
  inputs_at n0 h refs (strip_newlines <$> ts) -> n <= n0 -> length refs = length (field_names type) ->
  entered (type_proto type) n h (zip (field_names type) refs) (typed_value type ts).
Proof.
  intros Hi Hn Hlen. assert (Hp := protos_plain type). unfold plain_fields in Hp.
  unfold field_names, typed_value in *. rewrite inputs_of_proto_elem in * by apply type_proto_elem.
  destruct (proto_elem (type_proto type)) as [| | | | |fs] eqn:Ep; try discriminate Hp.
  1-4: by apply (text_entered n n0).
  apply andb_true_iff in Hp as [Hnd Hf]. apply bool_decide_eq_true in Hnd.
  rewrite <- list_fmap_compose, length_fmap in *.
  change (fst ∘ (fun kv => (kv.1, prim_val kv.2))) with (@fst string json) in *.
  apply (object_entered n n0); try done.
  apply Forall_fmap, Forall_forall. intros kj Hin. rewrite forallb_forall in Hf.
  apply list_elem_of_In, Hf, andb_true_iff in Hin as [H1 H2]. unfold compose, known_field.
  rewrite Ep. split.
  - by apply negb_true_iff, String.eqb_neq in H1.
  - apply orb_true_iff in H2 as [H2|H2]; apply String.eqb_eq in H2; auto.
Qed.

(** ** From opening to saving *)

(** Only the prototype of an OpenPGP key is falsy. *)
Lemma proto_truthy type t :
  assoc_get type rrProto = Some t -> type <> "openpgpkey"%string -> json_truthy (proto t) = true.
Proof.
  assert (H : forallb (fun nt => String.eqb nt.1 "openpgpkey" || json_truthy (proto nt.2)) rrProto = true)
    by (vm_compute; reflexivity).
  rewrite forallb_forall in H. intros Hin%assoc_get_elem Hne.
  apply list_elem_of_In, H, orb_true_iff in Hin as [Heq|]; [|done].
  by apply String.eqb_eq in Heq.
Qed.

Lemma proto_inputs type :
  NoDup (field_names type) /\
  Forall (fun nv => is_prim nv.2 = true) (inputs_of_proto (type_proto type)).
Proof.
  assert (Hp := protos_plain type). unfold plain_fields, field_names in *.
  rewrite inputs_of_proto_elem by apply type_proto_elem.
  destruct (proto_elem (type_proto type)) as [| | | | |fs]; try discriminate Hp.
  1-4: split; [apply NoDup_singleton|by repeat constructor].
  apply andb_true_iff in Hp as [Hnd _]. apply bool_decide_eq_true in Hnd. split.
  - by rewrite <- list_fmap_compose.
  - apply Forall_fmap, Forall_forall. by intros [k []] _.
Qed.

(** A new add dialog shows no inputs. *)
Lemma open_add_run args h lr ps :
  isEditing args = false -> a_rr args = VRef lr -> h !! lr = Some (OPlain ps) ->
  exists used, open_add args h
    = (Ok (AddDialog (Form (VRef (length h)) (JObj []) false "" used) []), h ++ [OPlain []]).
Proof.
  intros Hadd Hrr Hlr. destruct (non_arrays_run ps (h ++ [OPlain []])) as (used & Hu & _).
  exists used. unfold open_add, open_form. rewrite Hadd, Hrr.
  erewrite bind_ok.
  2: { erewrite bind_ok by apply alloc_eq. erewrite bind_ok; [reflexivity|].
       unfold filterUsedRrTypes.
       erewrite bind_ok by (apply entries_plain; by apply lookup_app_l_Some). exact Hu. }
  reflexivity.
Qed.

(** Picking a first type mounts its inputs. *)
Lemma select_first args h type t used :
  assoc_get type rrProto = Some t -> type <> "openpgpkey"%string ->
  exists h' refs,
    select_type args (AddDialog (Form (VRef (length h)) (JObj []) false "" used) []) type
      (h ++ [OPlain []])
    = (Ok (AddDialog (Form (VRef (length h)) (proto t) (negb (String.eqb type "")) type used) refs), h') /\
    h' !! length h = Some (OPlain (zip (field_names type) refs)) /\
    S (length h) <= length h' /\ extends [] h h' /\
    inputs_at (S (length h)) h' refs ((fun nv => prim_text nv.2) <$> inputs_of_proto (type_proto type)).
Proof.
  intros Ht Hne. destruct (proto_inputs type) as [Hnd Hprim]. unfold field_names in *.
  assert (Hpt : type_proto type = proto t) by (unfold type_proto; by rewrite Ht).
  rewrite Hpt in *.
  destruct (reconcile_new (length h) (inputs_of_proto (proto t)) (h ++ [OPlain []]) [])
    as (h' & refs & Hrun & Hlf & Hle & He & Hin); [apply lookup_last|done|done|].
  rewrite length_app, Nat.add_1_r in Hin, Hle. exists h', refs. split_and!; [|done|done| |done].
  - unfold select_type, select_change. rewrite Ht.
    destruct (String.eqb_spec type "select") as [->|_]; [done|].
    unfold onSelectinChanged. cbn [dlg_form formRefs mounted].
    erewrite bind_ok; [|erewrite bind_ok by (apply entries_plain, lookup_last); reflexivity].
    unfold render_add. cbn [f_proto formRefs filteredRrs]. unfold RrInputs.
    rewrite (proto_truthy _ _ Ht Hne). erewrite bind_ok; [|reflexivity].
    by erewrite bind_ok by exact Hrun.
  - intros l o _ Ho. apply He; [|by apply lookup_app_l_Some].
    apply lookup_lt_Some in Ho. rewrite list_elem_of_singleton. lia.
Qed.

Lemma add_session_read app o h lr fqdn js type used ts :
  read h (VRef lr) (JObj js) -> finite (JObj js) = true -> NoDup js.*1 ->
  filterUsedRrTypes (VRef lr) h = (Ok used, h) -> type ∈ select_types used ->
  type <> "openpgpkey"%string -> length ts = length (field_names type) ->
  exists h3, add_session app (RrArgs false fqdn None 0 (VRef lr)) [type] ts o h
  = let req := rr_put app fqdn (assoc_del "fqdn" (add_json js type (new_json (typed_value type ts)))) in
    if forallb filled ts then Trace [req] (saved fqdn (answer o req)) (Ok tt) h3 else Trace [] [] (Ok tt) h3.
Proof.
  intros Hrd Hfin Hnd Hu Hoff Hpgp Hts.
  destruct (proj1 (select_types_elem _ _) Hoff) as (_ & t & Ht & _).
  destruct (read_obj _ _ _ Hrd) as (lo & vs & [= <-] & Hlr & _).
  set (args := RrArgs _ _ _ _ _).
  destruct (open_add_run args h lr _ eq_refl eq_refl Hlr) as (used0 & Hopen).
  destruct (select_first args h type t used0 Ht Hpgp) as (h1 & refs & Hsel & Hlf & Hle & He & Hin).
  assert (Hrefs := inputs_at_length _ _ _ _ Hin). rewrite length_fmap in Hrefs.
  unfold field_names in Hts. rewrite length_fmap in Hts.
  destruct (type_inputs _ _ _ _ ts Hin) as (h2 & Htype & Hin2 & Hl2 & Hlow); [lia|].
  unfold add_session. erewrite bind_ok by exact Hopen.
  erewrite bind_ok.
  2: { cbn [select_all]. erewrite bind_ok by exact Hsel. reflexivity. }
  erewrite bind_ok by exact Htype. cbn [dlg_form mounted mret js_ret]. unfold press_save.
  rewrite (inputs_at_filled _ _ _ _ Hin2), filled_texts. cbn [inputIsValid].
  assert (Hval : negb (String.eqb type "") = true).
  { destruct (String.eqb_spec type "") as [->|]; [|done]. discriminate Ht. }
  rewrite Hval. cbn [andb]. destruct (forallb filled ts); [|by exists h2].
  eapply (submit_add_run app args); try done. split; try done.
  - cbn [f_proto]. unfold select_change. rewrite Ht.
    destruct (String.eqb_spec type "select") as [->|_]; done.
  - intros l o' _ Ho. rewrite Hlow; [by apply He; [set_solver|]|]. apply lookup_lt_Some in Ho. lia.
  - lia.
  - exists (length h), (zip (field_names type) refs). split_and!; [done|rewrite Hlow by lia; done|].
    eapply session_entered; [exact Hin2|lia|by unfold field_names; rewrite length_fmap].
Qed.

(** The add dialog from opening to saving.  For every type the drop-down
    offers except the OpenPGP key: the dialog shows one input per field of the
    type's prototype; Save sends nothing while one of them is empty, and
    otherwise the record set the list has, without [fqdn], with a record of exactly the typed texts added, each converted to a
    number where the prototype has one. *)
Theorem add_session_put app o h lr fqdn js type used ts :
  read h (VRef lr) (JObj js) -> finite (JObj js) = true -> NoDup js.*1 ->
  filterUsedRrTypes (VRef lr) h = (Ok used, h) -> type ∈ select_types used ->
  type <> "openpgpkey"%string -> length ts = length (field_names type) ->
  exists h3, add_session app (RrArgs false fqdn None 0 (VRef lr)) [type] ts o h
  = let req := rr_put app fqdn (assoc_del "fqdn" (add_json js type (new_json (typed_value type ts)))) in
    if forallb filled ts then Trace [req] (saved fqdn (answer o req)) (Ok tt) h3 else Trace [] [] (Ok tt) h3.
Proof. apply add_session_read. Qed.

(** ** Editing from opening to saving *)

(** Mounting the inputs of an edit is mounting them in an empty dialog. *)
Lemma mount_inputs_new (f : form) (ins : list (string * val)) (h : heap) refs h' :
  reconcile (formRefs f) [] ins h = (Ok refs, h') -> mount_inputs f ins h = (Ok tt, h').
Proof.
  unfold mount_inputs. revert h refs. induction ins as [|[name v] ins IH]; intros h refs.
  - by intros [= _ <-].
  - cbn [reconcile js_iter fst snd].
    intros (ref & h1 & H1 & H2)%bind_ok_inv.
    apply bind_ok_inv in H2 as (refs' & h2 & H2 & [= _ <-]).
    erewrite bind_ok; [by eapply IH|]. by erewrite bind_ok by exact H1.
Qed.

Lemma editable_known p k v : editable p (k, v) -> known_field p k.
Proof.
  intros [Hk H]. cbn in *. split; [done|].
  destruct v; try done; destruct H as [-> _]; auto.
Qed.

(** The inputs of an entry, filled with [ts], hold [typed_entry]. *)
Lemma entry_entered n n0 h type u refs ts :
  json_editable (type_proto type) u ->
  inputs_at n0 h refs (strip_newlines <$> ts) -> n <= n0 -> length refs = length (entry_names u) ->
  entered (type_proto type) n h (zip (entry_names u) refs) (typed_entry type u ts).
Proof.
  intros He Hi Hn Hlen. destruct u as [| | |s| |fs]; try done; cbn [entry_names typed_entry] in *.
  - by apply (text_entered n n0).
  - destruct He as [Hnd Hed]. rewrite length_fmap in Hlen. apply (object_entered n n0); try done.
    apply Forall_fmap. eapply Forall_impl; [exact Hed|]. intros kj. apply editable_known.
Qed.

(** An edit session once the dialog has opened over the store [h]. *)
Lemma edit_session_run app args o h0 h lr ps js type ix v L u ins used ts :
  stored h lr ps js type ix v L ->
  isEditing args = true -> a_rr args = VRef lr -> a_ix args = ix ->
  let f := Form (VRef (length h)) (JObj []) true type used in
  open_edit args h0 = (mount_inputs f ins ;; mret f) (h ++ [OPlain []]) ->
  Forall (fun kv => is_prim kv.2 = true) ins -> NoDup ins.*1 -> ins.*1 = entry_names u ->
  json_editable (type_proto type) u -> length ts = length (entry_names u) ->
  exists h3, edit_session app args ts o h0
  = let req := rr_put app (a_fqdn args)
                 (assoc_del "fqdn" (put_json js type ix (new_json (typed_entry type u ts)))) in
    if forallb filled ts then Trace [req] (saved (a_fqdn args) (answer o req)) (Ok tt) h3
    else Trace [] [] (Ok tt) h3.
Proof.
  intros Hst Hedit Hrr Hix f Hopen Hprim Hnd Hnames Hed Hts.
  destruct (reconcile_new (length h) ins (h ++ [OPlain []]) []) as (h1 & refs & Hrun & Hlf & Hle & He & Hin);
    [apply lookup_last|done|done|].
  erewrite bind_ok in Hopen by by eapply (mount_inputs_new f).
  rewrite length_app, Nat.add_1_r in Hin, Hle. rewrite Hnames in Hlf. cbn [Datatypes.app] in Hlf.
  assert (Hrefs := inputs_at_length _ _ _ _ Hin). rewrite length_fmap in Hrefs.
  rewrite <- (length_fmap fst), Hnames in Hrefs.
  destruct (type_inputs _ _ _ _ ts Hin) as (h2 & Htype & Hin2 & Hl2 & Hlow); [lia|].
  unfold edit_session. erewrite bind_ok by exact Hopen.
  erewrite bind_ok by (unfold edit_inputs; by erewrite bind_ok by by apply entries_plain).
  rewrite snd_zip by lia. erewrite bind_ok by exact Htype. cbn [mret js_ret]. unfold press_save.
  rewrite (inputs_at_filled _ _ _ _ Hin2), filled_texts. cbn [inputIsValid f andb].
  destruct (forallb filled ts); [|by exists h2].
  eapply submit_stored_run; [exact Hst|]. split; try done.
  - intros l o' _ Ho. assert (Hl := lookup_lt_Some _ _ _ Ho). rewrite Hlow by lia.
    apply He; [rewrite list_elem_of_singleton; lia|by apply lookup_app_l_Some].
  - lia.
  - exists (length h), (zip (entry_names u) refs). split_and!; [done|by rewrite Hlow by lia|].
    eapply entry_entered; [done|exact Hin2|lia|done].
Qed.

Lemma edit_session_read app o h lr fqdn js type ix j u ts :
  read h (VRef lr) (JObj js) -> finite (JObj js) = true -> NoDup js.*1 ->
  assoc_get type js = Some j -> json_entry j ix = Some u -> json_hasOwn j type = false ->
  json_editable (type_proto type) u -> type <> "soa"%string -> length ts = length (entry_names u) ->
  exists h3, edit_session app (RrArgs true fqdn (Some type) ix (VRef lr)) ts o h
  = let req := rr_put app fqdn
                 (assoc_del "fqdn" (put_json js type ix (new_json (typed_entry type u ts)))) in
    if forallb filled ts then Trace [req] (saved fqdn (answer o req)) (Ok tt) h3 else Trace [] [] (Ok tt) h3.
Proof.
  intros Hrd Hfin Hnd Hg Hent Hown Hed Hsoa Hts.
  assert (Hnull : j <> JNull) by (intros ->; cbn in Hent; by simplify_eq).
  destruct (read_stored _ _ _ _ _ _ _ Hrd Hfin Hnd Hg Hent Hown Hnull) as (ps & v & L & Hst & Hv).
  destruct (read_shown _ _ _ _ _ Hv Hent) as (w & Hsh & Hw).
  destruct (read_cell _ _ _ _ Hw Hed) as (ins & nv & Hc & Hnames & _).
  set (args := RrArgs _ _ _ _ _).
  destruct (open_edit_inputs _ _ _ _ _ _ _ _ _ _ _ args Hst Hsh Hc eq_refl eq_refl eq_refl eq_refl Hsoa)
    as (used & Hopen).
  eapply (edit_session_run app args); try done; [by eapply cell_prims|by eapply cell_nodup].
Qed.

(** The edit dialog from opening to saving.  On an entry of a record set
    read from the server the dialog shows one input per field; typing texts in
    them and pressing Save sends nothing if one of them is empty, and otherwise
    the record set the list has, without [fqdn],
    with exactly that entry replaced by the typed texts, each converted to a
    number where the prototype of the type has one. *)
Theorem edit_session_put app o h lr fqdn js type ix j u ts :
  read h (VRef lr) (JObj js) -> finite (JObj js) = true -> NoDup js.*1 ->
  assoc_get type js = Some j -> json_entry j ix = Some u -> json_hasOwn j type = false ->
  json_editable (type_proto type) u -> type <> "soa"%string -> length ts = length (entry_names u) ->
  exists h3, edit_session app (RrArgs true fqdn (Some type) ix (VRef lr)) ts o h
  = let req := rr_put app fqdn
                 (assoc_del "fqdn" (put_json js type ix (new_json (typed_entry type u ts)))) in
    if forallb filled ts then Trace [req] (saved fqdn (answer o req)) (Ok tt) h3 else Trace [] [] (Ok tt) h3.
Proof. apply edit_session_read. Qed.

(** ** On a record set read from the server *)

Module SessionDemo.
Import RrDemo.

Lemma add_session_put_witness :
  exists h3, add_session app (RrArgs false "all.example.com" None 0 (VRef rr_loc)) ["srv"%string]
      ["sip.example.com"; "1"; "2"; "5060"]%string env rr_heap
  = let req := rr_put app "all.example.com"
                 (assoc_del "fqdn" (add_json rr_props_json "srv"
                    (new_json (typed_value "srv" ["sip.example.com"; "1"; "2"; "5060"]%string)))) in
    Trace [req] (saved "all.example.com" (answer env req)) (Ok tt) h3.
Proof.
  refine (add_session_put app env rr_heap rr_loc "all.example.com" rr_props_json "srv"
            ["fqdn"; "ttl"; "hinfo"]%string ["sip.example.com"; "1"; "2"; "5060"]%string
            rr_read eq_refl rr_keys_nodup eq_refl _ _ eq_refl).
  - apply (bool_decide_unpack _). vm_compute. exact I.
  - discriminate.
Defined.

(** What the session of the witness sends for the new record. *)
Example typed_srv :
  new_json (typed_value "srv" ["sip.example.com"; "1"; "2"; "5060"]%string)
  = JObj [("target", JStr "sip.example.com"); ("priority", JNum (Number "1"));
          ("weight", JNum (Number "2")); ("port", JNum (Number "5060"))]%string.
Proof. vm_compute. reflexivity. Qed.

Lemma edit_session_put_witness :
  exists h3, edit_session app (edit_args "mx" 0) ["mx9.example.com"; "30"]%string env rr_heap
  = let req := rr_put app "all.example.com"
                 (assoc_del "fqdn" (put_json rr_props_json "mx" 0
                    (new_json (typed_entry "mx" (JObj [("host", JStr "mail.nsblast.com");
                                                       ("priority", JNum (num_of_Z 10))]%string)
                                 ["mx9.example.com"; "30"]%string)))) in
    Trace [req] (saved "all.example.com" (answer env req)) (Ok tt) h3.
Proof.
  refine (edit_session_put app env rr_heap rr_loc "all.example.com" rr_props_json "mx" 0
            (JArr [JObj [("host"%string, JStr "mail.nsblast.com"); ("priority"%string, JNum (num_of_Z 10))]])
            (JObj [("host"%string, JStr "mail.nsblast.com"); ("priority"%string, JNum (num_of_Z 10))])
            ["mx9.example.com"; "30"]%string
            rr_read eq_refl rr_keys_nodup eq_refl eq_refl eq_refl _ _ eq_refl).
  - split; [apply (bool_decide_unpack _); vm_compute; exact I|]. repeat constructor; try done.
    by exists 10%Z.
  - discriminate.
Defined.

End SessionDemo.
