(* ===== verification/RrCells.v ===== *)
(** * pages/ResourceRecords.jsx: the rows of a record set

    RrObject, EditDeleteBtn, AddRrData and RrCells: what is rendered for a
    record set of the list, and the handlers of its buttons (deleteFqdn,
    editRr, deleteRr, addRr).  The record set of a row is the object of the
    list's state itself. *)

From S2P Require Import Prelude JsNumber JsValue JsonStore Http AppState RrTypes RrForm RrEdit.

(** ** Rendering *)

(** The text React shows for a child: nothing for null, undefined and
    booleans, the elements of an array one after the other; an object is an
    error. *)
Fixpoint child_text (fuel : nat) (h : heap) (v : val) : res string :=
  match v with
  | VUndef | VNull | VBool _ => Ok ""%string
  | VNum n => Ok (num_to_string n)
  | VStr s => Ok s
  | VRef l =>
      match fuel, h !! l with
      | S f, Some (OArray es) => res_map (String.concat "") (res_mapM (child_text f h) es)
      | _, _ => Throw (JsError "Objects are not valid as a React child")
      end
  end.

Definition child (v : val) : js string := fun h => (child_text (S (length h)) h v, h).

(** RrObject: one line [name=value] of an object. *)
Definition RrObject (nv : string * val) : js string :=
  t ← child nv.2; mret (nv.1 +:+ "=" +:+ t).

Fixpoint js_map {A B} (f : A -> js B) (l : list A) : js (list B) :=
  match l with
  | [] => mret []
  | x :: l' => y ← f x; ys ← js_map f l'; mret (y :: ys)
  end.

(** A row: the type, the lines of the value, and what its Edit and Delete
    buttons hand to the handlers. *)
Record rr_row : Type := RrRow {
  row_type : string;
  row_lines : list string;
  row_target : string * nat
}.

Definition soa_fields : list string :=
  ["email"; "mname"; "expire"; "minimum"; "refresh"; "serial"]%string.

(** The row of a value that is not an array. *)
Definition entry_row (type : string) (entry : val) (ix : nat) : js (list rr_row) :=
  if String.eqb type "ttl" || String.eqb type "fqdn" then mret []
  else if String.eqb type "soa" then
    lines ← js_map (fun f => v ← get_prop entry f; RrObject (f, v)) soa_fields;
    mret [RrRow type lines (type, ix)]
  else if is_object entry then
    es ← entries entry;
    lines ← js_map RrObject es;
    mret [RrRow type lines (type, ix)]
  else
    t ← child entry;
    mret [RrRow type [t] (type, ix)].

(** AddRrData: an array renders each of its elements with its index. *)
Fixpoint add_rows (fuel : nat) (type : string) (entry : val) (ix : nat) : js (list rr_row) :=
  arr ← isArray entry;
  if arr : bool then
    match fuel with
    | O => throw (JsError "Maximum call stack size exceeded")
    | S f =>
        es ← entries entry;
        rows ← js_map (fun iv => add_rows f type iv.2 iv.1) (imap (fun i kv => (i, kv.2)) es);
        mret (mjoin rows)
    end
  else entry_row type entry ix.

Definition AddRrData (type : string) (entry : val) : js (list rr_row) :=
  fun h => add_rows (S (length h)) type entry 0 h.

(** What RrCells renders: the fqdn cell with its rowSpan in a row of its own,
    the rows of the records and a row with the buttons; or "Empty". *)
Inductive rr_view : Type :=
| Empty
| Cells (rowSpan : nat) (fqdn : string) (rows : list rr_row).

Definition RrCells (rr : val) : js rr_view :=
  if negb (truthy rr) then mret Empty
  else
    rows ← getRrRows rr;
    fqdn ← get_prop rr "fqdn";
    name ← child fqdn;
    es ← entries rr;
    body ← js_map (fun kv => AddRrData kv.1 kv.2) es;
    mret (Cells rows name (mjoin body)).

(** The table rows RrCells puts on screen: the one of the fqdn, the records,
    the one of the buttons. *)
Definition table_rows (v : rr_view) : nat :=
  match v with Empty => 0 | Cells _ _ rows => 1 + length rows + 1 end.

(** ** Handlers *)

Inductive cell_effect : Type :=
| OnChange
| OnEdit (rrIx : nat) (fqdn : val) (type : string) (ix : nat)
| OnAdd (rrIx : nat) (fqdn : val)
| CellAlert (msg : string).

(** [${rr.fqdn}] *)
Definition fqdn_text (rr : val) : js string := fun h =>
  match get_prop rr "fqdn" h with
  | (Ok v, h') => (Ok (to_text (S (length h')) h' v), h')
  | (Throw e, h') => (Throw e, h')
  end.

Definition crlf : string := String "010" (String "013" "").

Definition delete_failed (fqdn msg : string) : string :=
  "Deletion of fqdn " +:+ fqdn +:+ " failed" +:+ crlf +:+ msg.

(** What follows the answer: [onChange()] or an alert that names the fqdn the
    record set has by then. *)
Definition delete_answer (rr : val) (r : fetch_result unit) (h : heap) : proc cell_effect :=
  let failed msg :=
    sync (fqdn_text rr) h (fun fqdn h' =>
      Emit (CellAlert (delete_failed fqdn msg)) (Done (Ok tt) h')) in
  match r with
  | Resp true _ _ => Emit OnChange (Done (Ok tt) h)
  | Resp false statusText _ => failed statusText
  | Rejected _ msg => failed msg
  end.

Definition deleteFqdn (app : app_state) (rr : val) (h : heap) : proc cell_effect :=
  sync (fqdn_text rr) h (fun fqdn h1 =>
    Confirm ("Do you really want to delete fqdn " +:+ fqdn +:+ " ?") (fun yes =>
      if yes : bool then
        Fetch (Request "delete" (getUrl app ("/rr/" +:+ fqdn)) (getAuthHeader app) None) h1
          (delete_answer rr)
      else Done (Ok tt) h1)).

Definition editRr (rr : val) (rrIx : nat) (type : string) (ix : nat) (h : heap)
    : proc cell_effect :=
  sync (get_prop rr "fqdn") h (fun fqdn h' => Emit (OnEdit rrIx fqdn type ix) (Done (Ok tt) h')).

Definition addRr (rr : val) (rrIx : nat) (h : heap) : proc cell_effect :=
  sync (get_prop rr "fqdn") h (fun fqdn h' => Emit (OnAdd rrIx fqdn) (Done (Ok tt) h')).

(** The copy deleteRr sends: [{...rr}] without ttl and fqdn; the SOA it
    shares with the list loses its rname. *)
Definition copy_rr (rr : val) : js val :=
  rr_obj ← spread rr;
  delete_prop rr_obj "ttl" ;;
  delete_prop rr_obj "fqdn" ;;
  has ← in_op "soa" rr_obj;
  (if has : bool then soa ← get_prop rr_obj "soa"; delete_prop soa "rname"
   else (mret tt : js unit)) ;;
  mret rr_obj.

(** The loop over the entries: the first one of the type loses element [ix],
    or is deleted when it is not an array of several. *)
Fixpoint remove_entry (rr_obj : val) (type : string) (ix : nat) (es : list (string * val))
    : js bool :=
  match es with
  | [] => mret false
  | (key, value) :: es' =>
      if String.eqb key type then
        arr ← isArray value;
        n ← (if arr : bool then array_length value else mret 0);
        (if arr && (1 <? n) then dest ← get_prop rr_obj key; splice1 dest ix
         else delete_prop rr_obj key) ;;
        mret true
      else remove_entry rr_obj type ix es'
  end.

Definition delete_rr (rr : val) (type : string) (ix : nat) : js (val * bool) :=
  rr_obj ← copy_rr rr;
  es ← entries rr_obj;
  found ← remove_entry rr_obj type ix es;
  mret (rr_obj, found).

Definition dq : string := String "034" "".

Definition deleteRr (app : app_state) (rr : val) (type : string) (ix : nat) (h : heap)
    : proc cell_effect :=
  sync (delete_rr rr type ix) h (fun '(rr_obj, found) h1 =>
    if negb found then Done (Ok tt) h1
    else
      Confirm ("Do you really want to delete this " +:+ dq +:+ type +:+ dq +:+ " Resorce Record?")
        (fun yes =>
           if negb yes then Done (Ok tt) h1
           else
             sync (fqdn_text rr) h1 (fun fqdn h2 =>
               match stringify rr_obj h2 with
               | (Throw e, h3) => delete_answer rr (Rejected true (exn_message e)) h3
               | (Ok body, h3) =>
                   Fetch (Request "put" (getUrl app ("/rr/" +:+ fqdn)) (json_headers app) (Some body))
                     h3 (delete_answer rr)
               end))).

(** ** What is rendered, from the JSON of the record set *)

Definition json_text (j : json) : string :=
  match j with
  | JNum n => num_to_string n
  | JStr s => s
  | _ => ""
  end.

Definition json_line (kj : string * json) : string := kj.1 +:+ "=" +:+ json_text kj.2.

Definition is_jprim (j : json) : bool :=
  match j with JArr _ | JObj _ => false | _ => true end.

Definition json_row (type : string) (ix : nat) (j : json) : rr_row :=
  RrRow type
    (if String.eqb type "soa" then
       match j with
       | JObj fs => (fun f => json_line (f, default JNull (assoc_get f fs))) <$> soa_fields
       | _ => (fun f => json_line (f, JNull)) <$> soa_fields
       end
     else match j with
          | JObj fs => json_line <$> fs
          | _ => [json_text j]
          end)
    (type, ix).

Definition json_rows (tj : string * json) : list rr_row :=
  if String.eqb tj.1 "ttl" || String.eqb tj.1 "fqdn" then []
  else match tj.2 with
       | JArr l => imap (json_row tj.1) l
       | j => [json_row tj.1 0 j]
       end.

(** A value that fits in a row: a primitive (not null for an SOA) or an
    object of primitives. *)
Definition row_fits (type : string) (j : json) : bool :=
  match j with
  | JNull => negb (String.eqb type "soa")
  | JArr _ => false
  | JObj fs => forallb (fun kj => is_jprim kj.2) fs
  | JStr _ => negb (String.eqb type "soa")
  | _ => true
  end.

(** A record set as the server sends it: rows that fit, arrays of them, and
    ttl and fqdn that are no arrays. *)
Definition rr_fits (tj : string * json) : bool :=
  match tj.2 with
  | JArr l => negb (String.eqb tj.1 "ttl" || String.eqb tj.1 "fqdn") && forallb (row_fits tj.1) l
  | j => row_fits tj.1 j
  end.

Lemma js_map_run {A B} (f : A -> js B) (g : A -> B) (l : list A) (h : heap) :
  Forall (fun x => f x h = (Ok (g x), h)) l -> js_map f l h = (Ok (g <$> l), h).
Proof.
  induction 1 as [|x l Hx _ IH]; [done|]. cbn [js_map]. erewrite bind_ok by exact Hx.
  by erewrite bind_ok by exact IH.
Qed.

Lemma read_prim h v j : read h v j -> is_jprim j = true -> v = prim_val j.
Proof. intros (h0 & ext & E & _) Hp. destruct j; try done; by injection E as <-. Qed.

Lemma child_prim h j : is_jprim j = true -> child (prim_val j) h = (Ok (json_text j), h).
Proof. by destruct j. Qed.

Lemma RrObject_prim h k j : is_jprim j = true -> RrObject (k, prim_val j) h = (Ok (json_line (k, j)), h).
Proof. intros Hp. unfold RrObject. cbn [fst snd]. by erewrite bind_ok by by apply child_prim. Qed.

(** The properties of a loaded object of primitives. *)
Lemma read_prims h vs (fs : list (string * json)) :
  Forall2 (read h) vs fs.*2 -> forallb (fun kj => is_jprim kj.2) fs = true ->
  zip fs.*1 vs = (fun kj => (kj.1, prim_val kj.2)) <$> fs.
Proof.
  remember fs.*2 as l eqn:El. intros H. revert fs El.
  induction H as [|v j vs l Hv _ IH]; intros [|[k jk] fs] El Hp; try done.
  cbn in *. simplify_eq. reflect_tests. f_equal; [|by apply IH]. f_equal. by eapply read_prim.
Qed.

Lemma RrObject_prims h (fs : list (string * json)) :
  forallb (fun kj => is_jprim kj.2) fs = true ->
  js_map RrObject ((fun kj => (kj.1, prim_val kj.2)) <$> fs) h = (Ok (json_line <$> fs), h).
Proof.
  induction fs as [|[k j] fs IH]; [done|]. cbn [forallb]. intros H. reflect_tests.
  cbn [fmap list_fmap js_map fst snd]. erewrite bind_ok by by apply RrObject_prim.
  by erewrite bind_ok by by apply IH.
Qed.

Lemma soa_lines h l (fs : list (string * json)) :
  h !! l = Some (OPlain ((fun kj => (kj.1, prim_val kj.2)) <$> fs)) ->
  forallb (fun kj => is_jprim kj.2) fs = true ->
  js_map (fun f => v ← get_prop (VRef l) f; RrObject (f, v)) soa_fields h
  = (Ok ((fun f => json_line (f, default JNull (assoc_get f fs))) <$> soa_fields), h).
Proof.
  intros Hl Hp. apply js_map_run. apply Forall_forall. intros f _.
  erewrite bind_ok by by apply get_prop_plain. rewrite assoc_get_fmap.
  destruct (assoc_get f fs) as [j|] eqn:E; cbn [fmap option_fmap option_map from_option id]; [|done].
  apply RrObject_prim. rewrite forallb_forall in Hp.
  by apply assoc_get_elem, list_elem_of_In, Hp in E.
Qed.

Lemma entry_row_run h type v ix j :
  read h v j -> row_fits type j = true ->
  entry_row type v ix h
  = (Ok (if String.eqb type "ttl" || String.eqb type "fqdn" then [] else [json_row type ix j]), h).
Proof.
  intros Hr Hf. unfold entry_row. destruct (String.eqb type "ttl" || String.eqb type "fqdn"); [done|].
  unfold json_row. destruct (is_jprim j) eqn:Ep.
  - assert (Hv := read_prim _ _ _ Hr Ep). subst v. destruct (String.eqb type "soa") eqn:Es.
    + destruct j; cbn in Hf; rewrite ?Es in Hf; try done.
    + destruct j; done.
  - destruct j as [| | | | |fs]; try done. cbn in Hf.
    apply read_obj in Hr as (lo & vs & -> & Ho & Hall & _). rewrite (read_prims h) in Ho by done.
    destruct (String.eqb type "soa").
    + by erewrite bind_ok by by apply soa_lines.
    + cbn [is_object]. erewrite bind_ok by by apply entries_plain.
      by erewrite bind_ok by by apply RrObject_prims.
Qed.

Lemma imap_app_mjoin (type : string) (k : nat) (l : list json) :
  mjoin ((fun ij => [json_row type ij.1 ij.2]) <$> imap (fun i j => (k + i, j)) l)
  = imap (fun i => json_row type (k + i)) l.
Proof.
  revert k. induction l as [|j l IH]; intros k; [done|]. cbn.
  rewrite Nat.add_0_r. f_equal.
  rewrite (imap_ext (_ ∘ S) (fun i j => (S k + i, j))) by (intros; cbn; f_equal; lia).
  change (mjoin ((fun ij => [json_row type ij.1 ij.2]) <$> imap (fun i j => (S k + i, j)) l)
          = imap ((fun i => json_row type (k + i)) ∘ S) l).
  rewrite IH. apply imap_ext. intros; cbn; f_equal; lia.
Qed.

Lemma add_rows_single fuel type v ix h :
  isArray v h = (Ok false, h) -> add_rows fuel type v ix h = entry_row type v ix h.
Proof. intros Ha. destruct fuel; cbn [add_rows]; by erewrite bind_ok by exact Ha. Qed.

(** The rows of the elements of an array, numbered from [k]. *)
Lemma rows_of_elems h type fuel es l k :
  Forall2 (read h) es l -> forallb (row_fits type) l = true ->
  String.eqb type "ttl" || String.eqb type "fqdn" = false ->
  js_map (fun iv => add_rows fuel type iv.2 iv.1) (imap (fun i v => (k + i, v)) es) h
  = (Ok ((fun ij => [json_row type ij.1 ij.2]) <$> imap (fun i j => (k + i, j)) l), h).
Proof.
  intros H. revert k. induction H as [|v j es l Hv _ IH]; intros k Hf Ht; [done|].
  cbn [forallb] in Hf. apply andb_true_iff in Hf as [Hf1 Hf2]. cbn [imap js_map fst snd].
  assert (Ha : isArray v h = (Ok false, h)).
  { rewrite (read_isArray _ _ _ Hv). by destruct j. }
  erewrite bind_ok.
  2: { rewrite add_rows_single by exact Ha. by apply entry_row_run. }
  rewrite Ht.
  assert (E1 : imap ((fun i w => (k + i, w)) ∘ S) es = imap (fun i w => (S k + i, w)) es).
  { apply imap_ext. intros. cbn. f_equal. lia. }
  assert (E2 : imap ((fun i w => (k + i, w)) ∘ S) l = imap (fun i w => (S k + i, w)) l).
  { apply imap_ext. intros. cbn. f_equal. lia. }
  rewrite E1, E2. by erewrite bind_ok by by apply IH.
Qed.

Lemma imap_values {A} (es : list A) (ks : list string) :
  length ks = length es -> imap (fun i kv => (i, kv.2)) (zip ks es) = imap (fun i v => (0 + i, v)) es.
Proof.
  intros Hlen. rewrite <- (snd_zip ks es) at 2 by lia. by rewrite imap_fmap.
Qed.

Lemma AddRrData_run h type v j :
  read h v j -> rr_fits (type, j) = true -> AddRrData type v h = (Ok (json_rows (type, j)), h).
Proof.
  intros Hr Hf. unfold AddRrData. assert (Ha := read_isArray _ _ _ Hr).
  unfold rr_fits, json_rows in *. cbn [fst snd] in *. destruct (is_jarr j) eqn:Ej.
  - destruct j as [| | | |l|]; try done. apply andb_true_iff in Hf as [Ht%negb_true_iff Hf].
    apply read_arr in Hr as (la & es & -> & Hes & Hall & _).
    cbn [add_rows]. erewrite bind_ok by exact Ha. cbn beta iota.
    erewrite bind_ok.
    2: { unfold entries. erewrite bind_ok; [|apply load_ref]. rewrite Hes. reflexivity. }
    rewrite imap_values by by rewrite length_fmap, length_seq.
    erewrite bind_ok by by apply rows_of_elems. rewrite imap_app_mjoin, Ht. done.
  - rewrite add_rows_single by done. destruct j; try done; rewrite (entry_row_run _ _ _ _ _ Hr Hf);
      by destruct (_ || _).
Qed.

Definition not_meta (type : string) : bool := negb (String.eqb type "ttl" || String.eqb type "fqdn").

(** The rows of a property, and the count of getRrRows, agree. *)
Definition row_count (tj : string * json) : nat :=
  if not_meta tj.1 then match tj.2 with JArr l => length l | _ => 1 end else 0.

Lemma json_rows_length tj : length (json_rows tj) = row_count tj.
Proof.
  unfold json_rows, row_count, not_meta. destruct (_ || _); [done|]. cbn [negb].
  destruct tj.2; try done. apply length_imap.
Qed.

Lemma count_rows_run h vs js :
  Forall2 (read h) vs js.*2 ->
  count_rows (zip js.*1 vs) h = (Ok (sum_list (row_count <$> js)), h).
Proof.
  remember js.*2 as l eqn:El. intros H. revert js El.
  induction H as [|v j vs l Hv _ IH]; intros [|[k jk] js] El; try done.
  cbn in El. injection El as -> ->. specialize (IH js eq_refl).
  cbn [fmap list_fmap zip zip_with count_rows sum_list sum_list_with fst snd].
  unfold row_count at 1, not_meta. cbn [fst snd].
  destruct (String.eqb k "ttl" || String.eqb k "fqdn"); cbn [negb]; [exact IH|].
  erewrite bind_ok by by eapply read_isArray.
  assert (Hn : (if is_jarr jk then array_length v else mret 1) h
          = (Ok (match jk with JArr l => length l | _ => 1 end), h)).
  { destruct jk as [| | | |l'|]; try done. apply read_arr in Hv as (la & es & -> & Hes & Hall & _).
    cbn [is_jarr]. erewrite array_length_eq by done. by rewrite (Forall2_length _ _ _ Hall). }
  erewrite bind_ok by exact Hn. by erewrite bind_ok by exact IH.
Qed.

Lemma sum_rows js : sum_list (row_count <$> js) = length (mjoin (json_rows <$> js)).
Proof.
  induction js as [|tj js IH]; [done|].
  change (row_count tj + sum_list (row_count <$> js)
          = length (json_rows tj ++ mjoin (json_rows <$> js))).
  by rewrite length_app, json_rows_length, IH.
Qed.

Lemma body_rows h vs js :
  Forall2 (read h) vs js.*2 -> forallb rr_fits js = true ->
  js_map (fun kv => AddRrData kv.1 kv.2) (zip js.*1 vs) h = (Ok (json_rows <$> js), h).
Proof.
  remember js.*2 as l eqn:El. intros H. revert js El.
  induction H as [|v j vs l Hv _ IH]; intros [|[k jk] js] El Hf; try done.
  cbn in El. injection El as -> ->. cbn [forallb] in Hf. apply andb_true_iff in Hf as [Hf1 Hf2].
  cbn [fmap list_fmap zip zip_with js_map fst snd].
  erewrite bind_ok by by apply AddRrData_run. by erewrite bind_ok by by apply (IH js).
Qed.

Lemma RrCells_run h lr js fqdn :
  read h (VRef lr) (JObj js) -> forallb rr_fits js = true -> assoc_get "fqdn" js = Some (JStr fqdn) ->
  RrCells (VRef lr) h
  = (Ok (Cells (2 + length (mjoin (json_rows <$> js))) fqdn (mjoin (json_rows <$> js))), h).
Proof.
  intros Hr Hf Hq. destruct (read_obj _ _ _ Hr) as (lo & vs & [= <-] & Ho & Hall & _).
  unfold RrCells. cbn [truthy negb]. erewrite bind_ok.
  2: { unfold getRrRows. erewrite bind_ok by by apply entries_plain.
       erewrite bind_ok by by apply count_rows_run. reflexivity. }
  erewrite bind_ok by by apply get_prop_plain.
  destruct (read_lookup _ _ _ _ _ Hall Hq) as (i & v & Hv & _ & _ & Hrv).
  rewrite Hv. cbn [from_option id]. assert (E := read_prim _ _ _ Hrv eq_refl). subst v.
  erewrite bind_ok by by apply child_prim. erewrite bind_ok by by apply entries_plain.
  erewrite bind_ok by by apply body_rows. rewrite sum_rows. unfold mret, js_ret. do 3 f_equal.
  destruct (Nat.eqb_spec (length (mjoin (json_rows <$> js))) 0); lia.
Qed.

Lemma json_rows_target js row :
  row ∈ mjoin (json_rows <$> js) -> NoDup js.*1 ->
  exists j u, assoc_get (row_target row).1 js = Some j /\
    json_entry j (row_target row).2 = Some u /\
    row = json_row (row_target row).1 (row_target row).2 u.
Proof.
  intros (rs & Hrow & ([type j] & -> & Hin)%list_elem_of_fmap)%list_elem_of_join Hnd.
  unfold json_rows in Hrow. cbn [fst snd] in Hrow.
  destruct (_ || _); [by apply elem_of_nil in Hrow|].
  assert (Hg := assoc_get_nodup _ _ _ Hnd Hin).
  destruct (is_jarr j) eqn:Ej.
  - destruct j as [| | | |l|]; try done.
    apply elem_of_lookup_imap in Hrow as (i & u & -> & Hu). exists (JArr l), u. by cbn.
  - assert (row = json_row type 0 j) as -> by (destruct j; try done; by apply list_elem_of_singleton).
    exists j, j. cbn. split_and!; [done| |done]. by destruct j.
Qed.

(** RrCells renders a record set read from the server as one row per
    record, with the record's own type, value and index, and the rowSpan of
    the fqdn cell is the number of table rows the set takes. *)
Theorem RrCells_renders h lr js fqdn :
  read h (VRef lr) (JObj js) -> forallb rr_fits js = true -> assoc_get "fqdn" js = Some (JStr fqdn) ->
  exists n, let view := Cells n fqdn (mjoin (json_rows <$> js)) in
    RrCells (VRef lr) h = (Ok view, h) /\ n = table_rows view.
Proof.
  intros Hr Hf Hq. eexists. split; [by apply RrCells_run|]. cbn [table_rows]. lia.
Qed.

(** The buttons of a rendered row name the record the row shows: its
    target (type, ix) is that entry of the record set. *)
Theorem RrCells_targets h lr js fqdn n name rows row :
  read h (VRef lr) (JObj js) -> forallb rr_fits js = true -> assoc_get "fqdn" js = Some (JStr fqdn) ->
  NoDup js.*1 -> RrCells (VRef lr) h = (Ok (Cells n name rows), h) -> row ∈ rows ->
  exists j u, assoc_get (row_target row).1 js = Some j /\
    json_entry j (row_target row).2 = Some u /\
    row = json_row (row_target row).1 (row_target row).2 u.
Proof.
  intros Hr Hf Hq Hnd Hrun Hrow. rewrite (RrCells_run _ _ _ _ Hr Hf Hq) in Hrun.
  simplify_eq. by apply json_rows_target.
Qed.

(** Delete fqdn asks first; when the user agrees it sends one DELETE for
    the fqdn of the record set, otherwise nothing. *)
Theorem deleteFqdn_sends app h lr ps fqdn confirmed r :
  h !! lr = Some (OPlain ps) -> assoc_get "fqdn" ps = Some (VStr fqdn) ->
  let t := run (quiet confirmed r) (deleteFqdn app (VRef lr) h) in
  final t = h /\ outcome t = Ok tt /\
  sent t = (if confirmed
            then [Request "delete" (getUrl app ("/rr/" +:+ fqdn)) (getAuthHeader app) None] else []) /\
  emitted t = (if confirmed
               then match r with
                    | Resp true _ _ => [OnChange]
                    | Resp false msg _ | Rejected _ msg => [CellAlert (delete_failed fqdn msg)]
                    end
               else []).
Proof.
  intros Ho Hs. assert (Ht : fqdn_text (VRef lr) h = (Ok fqdn, h)).
  { unfold fqdn_text. rewrite (get_prop_plain _ _ _ _ Ho), Hs. done. }
  unfold deleteFqdn, sync. rewrite Ht. cbn [run confirms quiet]. destruct confirmed; [|done].
  cbn [run quiet answer meanwhile id]. unfold delete_answer, sync, id.
  destruct r as [e msg|[] st jo]; rewrite ?Ht; done.
Qed.

(** ** A record set read from the server *)

Module CellsDemo.
Import RrDemo.

Lemma RrCells_renders_witness :
  exists n, let view := Cells n "all.example.com" (mjoin (json_rows <$> rr_props_json)) in
    RrCells (VRef rr_loc) rr_heap = (Ok view, rr_heap) /\ n = table_rows view.
Proof. exact (RrCells_renders rr_heap rr_loc rr_props_json "all.example.com" rr_read eq_refl eq_refl). Defined.

Definition mx_row : rr_row := RrRow "mx" ["host=mail.nsblast.com"; "priority=10"]%string ("mx"%string, 0).

Lemma mx_row_shown : mx_row ∈ mjoin (json_rows <$> rr_props_json).
Proof.
  assert (E : mjoin (json_rows <$> rr_props_json) !! 2 = Some mx_row) by (vm_compute; reflexivity).
  by eapply list_elem_of_lookup_2.
Qed.

Lemma RrCells_targets_witness :
  exists j u, assoc_get "mx" rr_props_json = Some j /\ json_entry j 0 = Some u /\
    mx_row = json_row "mx" 0 u.
Proof.
  refine (RrCells_targets rr_heap rr_loc rr_props_json "all.example.com" _ _ _ mx_row rr_read eq_refl
            eq_refl rr_keys_nodup _ mx_row_shown).
  exact (RrCells_run rr_heap rr_loc rr_props_json "all.example.com" rr_read eq_refl eq_refl).
Defined.

Lemma deleteFqdn_sends_witness :
  let t := run (quiet true (Resp false "Not Found" None)) (deleteFqdn app (VRef rr_loc) rr_heap) in
  final t = rr_heap /\ outcome t = Ok tt /\
  sent t = [Request "delete" (getUrl app ("/rr/" +:+ "all.example.com")) (getAuthHeader app) None] /\
  emitted t = [CellAlert (delete_failed "all.example.com" "Not Found")].
Proof.
  refine (deleteFqdn_sends app rr_heap rr_loc _ "all.example.com" true (Resp false "Not Found" None) _ _);
    reflexivity.
Defined.
End CellsDemo.
