(* ===== verification/RrSoa.v ===== *)
(** * Editing the SOA

    RrInputs deletes [serial] and [rname] from the SOA object it is given
    before it lists the fields, and that object is the one of the record list.
    An edit session of the SOA therefore works on a changed store: what Save
    sends has neither field, and the list itself has lost them. *)

From S2P Require Import Prelude JsNumber JsValue JsonStore Http AppState RrTypes RrForm RrEdit RrAdd RrSession RrCells.

(** The SOA object after the dialog has opened. *)
Definition soa_shown {V} (fs : list (string * V)) : list (string * V) :=
  assoc_del "rname" (assoc_del "serial" fs).

Lemma soa_shown_sublist {V} (fs : list (string * V)) : soa_shown fs `sublist_of` fs.
Proof. etrans; apply assoc_del_sublist. Qed.

Lemma prim_val_prim j : is_prim (prim_val j) = true.
Proof. by destruct j. Qed.

Section Soa.
Context (h : heap) (lr : loc) (js : list (string * json)) (fs : list (string * json)).
Hypothesis rr_read : read h (VRef lr) (JObj js).
Hypothesis rr_finite : finite (JObj js) = true.
Hypothesis rr_nodup : NoDup js.*1.
Hypothesis has_soa : assoc_get "soa" js = Some (JObj fs).
Hypothesis soa_named : assoc_get "soa" fs = None.
Hypothesis soa_prims : forallb (fun kj => is_jprim kj.2) fs = true.

(** The SOA's properties, and the store after the dialog has opened. *)
Definition soa_props : list (string * val) := (fun kj => (kj.1, prim_val kj.2)) <$> fs.

Definition soa_store (l : loc) : heap := <[l := OPlain (soa_shown soa_props)]> h.

Lemma soa_shown_props : soa_shown soa_props = (fun kj => (kj.1, prim_val kj.2)) <$> soa_shown fs.
Proof. unfold soa_shown, soa_props. by rewrite !(assoc_del_fmap (fun _ => prim_val)). Qed.

(** The SOA object in the store it changes. *)
Lemma soa_serialized l n :
  l < length h -> h !! l = Some (OPlain soa_props) -> finite (JObj fs) = true -> 0 < n ->
  serialize n (soa_store l) (VRef l) = Ok (Some (JObj (soa_shown fs))).
Proof.
  intros Hlt Hl Hf Hn. destruct n as [|n]; [lia|].
  rewrite (serialize_plain n _ l (soa_shown soa_props)) by by apply list_lookup_insert_eq.
  assert (Hser : ser_props (serialize n (soa_store l)) soa_props = Ok ((fun kj => (kj.1, Some kj.2)) <$> fs)).
  { cbn [finite] in Hf. unfold soa_props, ser_props. apply res_mapM_Ok. apply Forall2_fmap_l, Forall2_fmap_r.
    apply Forall_Forall2_diag, Forall_forall. intros [k j] Hin. cbn [fst snd].
    rewrite forallb_forall in Hf. assert (Hj := Hf (k, j) (proj1 (list_elem_of_In _ _) Hin)).
    assert (Hp := soa_prims). rewrite forallb_forall in Hp.
    specialize (Hp (k, j) (proj1 (list_elem_of_In _ _) Hin)). cbn [snd] in *.
    destruct j as [| |x| | |]; try done; [by destruct n..| |by destruct n].
    destruct n; cbn; destruct x; done. }
  unfold soa_shown. rewrite (ser_props_del _ _ _ "rname" (ser_props_del _ _ _ "serial" Hser)).
  cbn [res_map]. rewrite !json_props_del. do 3 f_equal. do 2 f_equal.
  unfold json_props. clear. induction fs as [|[k j] l' IH]; [done|]. cbn in *. by rewrite IH.
Qed.

(** The record set with the SOA as it is shown. *)
Lemma soa_stored :
  exists l ps, h !! lr = Some (OPlain ps) /\ assoc_get "soa" ps = Some (VRef l) /\
    h !! l = Some (OPlain soa_props) /\ lr <> l /\
    forall ix, stored (soa_store l) lr ps (assoc_set "soa" (JObj (soa_shown fs)) js) "soa" ix (VRef l) [lr].
Proof.
  destruct (read_obj _ _ _ rr_read) as (lo & vs & [= <-] & Ho & Hall & Hlt & Hsep).
  destruct (read_lookup _ _ _ _ _ Hall has_soa) as (i & v & Hv & Hi & Hk & Hr).
  destruct (read_obj _ _ _ Hr) as (l & ws & -> & Hl & Hws & _).
  rewrite (read_prims h) in Hl by done. fold soa_props in Hl.
  assert (Hll : l < lr) by by apply (Hlt i). assert (Hne : lr <> l) by lia.
  assert (Hlen : l < length h) by by eapply lookup_lt_Some.
  assert (Hkept : forall l' o, l' ∉ [lr; l] -> h !! l' = Some o -> soa_store l !! l' = Some o).
  { intros l' o Hn Hl'. unfold soa_store. rewrite list_lookup_insert_ne; [done|]. intros ->. set_solver. }
  assert (Hother : forall n k w, (k, w) ∈ zip js.*1 vs -> k <> "soa"%string -> apart n h [lr; l] w = true).
  { intros n k w (i' & Hk' & Hi')%zip_lookup Hnk. apply (Hsep n [lr; l] i' w Hi').
    intros l' [->|[->|[]%elem_of_nil]%elem_of_cons]%elem_of_cons; [by left|]. right. exists i. split; [|done].
    intros ->. congruence. }
  assert (Hstore : length (soa_store l) = length h) by apply length_insert.
  assert (Hlr : soa_store l !! lr = Some (OPlain (zip js.*1 vs))).
  { unfold soa_store. by rewrite list_lookup_insert_ne. }
  exists l, (zip js.*1 vs). split_and!; [done|done|done|done|]. intros ix. split; [done|by rewrite (read_keys h)|done| | | | |].
  - constructor. eapply isArray_plain. by apply list_lookup_insert_eq.
  - intros k w Hin Hnk. rewrite Hstore. eapply apart_kept; [by apply (Hother _ k)|done|].
    intros l' ->%list_elem_of_singleton. apply elem_of_cons. by left.
  - unfold to_json. rewrite (serialize_plain _ _ _ _ Hlr).
    assert (Hfin := rr_finite). cbn [finite] in Hfin.
    assert (Hser : ser_props (serialize (length h) h) (zip js.*1 vs) = Ok ((fun kj => (kj.1, Some kj.2)) <$> js))
      by by apply read_ser_props.
    assert (Hfs : finite (JObj fs) = true).
    { rewrite forallb_forall in Hfin. apply (Hfin ("soa"%string, JObj fs)). by apply list_elem_of_In, assoc_get_elem. }
    assert (Hset := ser_props_set (serialize (length h) h) (serialize (length (soa_store l)) (soa_store l))
      (zip js.*1 vs) _ "soa" (VRef l) (Some (JObj (soa_shown fs))) Hser).
    rewrite assoc_set_id in Hset by done. rewrite Hset.
    + cbn [res_map]. rewrite json_props_set.
      * do 4 f_equal. unfold json_props. clear. induction js as [|[k j] js' IH]; [done|]. cbn in *. by rewrite IH.
      * rewrite <- list_fmap_compose. exact rr_nodup.
      * rewrite json_props_get by (rewrite <- list_fmap_compose; exact rr_nodup).
        rewrite (assoc_get_fmap Some), has_soa. by eexists.
    + by rewrite (read_keys h).
    + by rewrite Hv.
    + rewrite Hstore. apply soa_serialized; [done|done|done|lia].
    + intros k' w j Hin Hnk Hj. eapply serialize_kept; [by apply (Hother _ k')|done|exact Hj|lia|lia].
  - rewrite assoc_get_set_eq. eauto.
  - erewrite hasOwn_plain by by apply list_lookup_insert_eq. do 2 f_equal.
    unfold soa_shown, soa_props. rewrite !assoc_get_del_ne by done. rewrite assoc_get_fmap, soa_named.
    apply bool_decide_eq_false_2. by intros [? ?].
Qed.

(** Opening the dialog deletes the two fields and mounts an input for each
    field that is left. *)
Lemma open_soa l ps args :
  h !! lr = Some (OPlain ps) -> assoc_get "soa" ps = Some (VRef l) -> h !! l = Some (OPlain soa_props) ->
  isEditing args = true -> a_rr args = VRef lr -> a_type args = Some "soa"%string ->
  exists used, let f := Form (VRef (length (soa_store l))) (JObj []) true "soa" used in
    open_edit args h = (mount_inputs f (soa_shown soa_props) ;; mret f) (soa_store l ++ [OPlain []]).
Proof.
  intros Hlr Hty Hl Hed Hrr Hat.
  assert (Hname : type_name args = "soa"%string) by (unfold type_name; by rewrite Hat).
  assert (Hlen := lookup_lt_Some _ _ _ Hl).
  set (h1 := h ++ [OPlain []]).
  assert (Hlr1 : h1 !! lr = Some (OPlain ps)) by by apply lookup_app_l_Some.
  assert (Hl1 : h1 !! l = Some (OPlain soa_props)) by by apply lookup_app_l_Some.
  destruct (non_arrays_run ps h1) as (used & Hused & _).
  exists used. cbv zeta. unfold soa_store. rewrite length_insert.
  set (f := Form _ _ _ _ _). unfold open_edit, open_form.
  rewrite Hed, Hname, Hrr.
  erewrite bind_ok.
  2: { erewrite bind_ok by apply alloc_eq. erewrite bind_ok; [reflexivity|].
       unfold filterUsedRrTypes. erewrite bind_ok by by apply entries_plain. exact Hused. }
  fold f. fold h1. erewrite bind_ok; [reflexivity|].
  unfold RrInputs, inputs_of_rr. rewrite Hrr, Hname.
  erewrite bind_ok by by apply get_prop_plain. rewrite Hty. cbn [from_option id].
  erewrite bind_ok by by eapply isArray_plain. erewrite bind_ok; [|reflexivity].
  unfold inputs_of_val. rewrite Hname. cbn [is_object String.eqb Ascii.eqb Bool.eqb].
  erewrite bind_ok.
  2: { erewrite bind_ok by by apply delete_prop_plain.
       apply delete_prop_plain. apply list_lookup_insert_eq. by eapply lookup_lt_Some. }
  rewrite list_insert_insert_eq. unfold h1. rewrite insert_app_l by done.
  apply entries_plain. rewrite lookup_app_l by by rewrite length_insert.
  by apply list_lookup_insert_eq.
Qed.
End Soa.

(** The listed record set keeps the JSON the dialog's opening gave it. *)
Lemma soa_kept h lr js fs l ps h2 :
  forallb (fun kj => is_jprim kj.2) fs = true -> h !! l = Some (OPlain (soa_props fs)) ->
  assoc_get "soa" ps = Some (VRef l) ->
  stored (soa_store h fs l) lr ps js "soa" 0 (VRef l) [lr] -> extends [] (soa_store h fs l) h2 ->
  length (soa_store h fs l) <= length h2 ->
  to_json h2 (VRef lr) = Ok (Some (JObj js)).
Proof.
  intros Hp Hl Hsoa [Hlr Hnd _ _ Hap Hj _ _] He Hle. set (h1 := soa_store h fs l) in *.
  assert (Hl1 : h1 !! l = Some (OPlain (soa_shown (soa_props fs)))).
  { apply list_lookup_insert_eq. by eapply lookup_lt_Some. }
  unfold to_json in *. apply serialize_mono with (S (length h1)); [|lia].
  rewrite (serialize_apart _ h1 h2 []); [done| |exact He].
  cbn [apart]. rewrite Hlr. cbn [bool_decide negb andb]. apply forallb_forall.
  intros [k w] Hin%list_elem_of_In. cbn [snd]. destruct (decide (k = "soa"%string)) as [->|Hk].
  - apply (assoc_get_nodup _ _ _ Hnd) in Hin. rewrite Hsoa in Hin. injection Hin as <-.
    assert (Hpos := lookup_lt_Some _ _ _ Hl1). destruct (length h1) as [|n]; [lia|].
    cbn [apart]. rewrite Hl1. cbn [bool_decide negb andb]. apply forallb_forall.
    intros kv Hin%list_elem_of_In. rewrite soa_shown_props in Hin.
    apply list_elem_of_fmap in Hin as (kj & -> & _). cbn [snd]. by destruct n, (kj.2).
  - eapply apart_kept; [by apply (Hap k)|done|]. intros ? ?%elem_of_nil. done.
Qed.

(** C24: Editing the SOA of a record set read from the server.  The dialog
    shows one input per field of the SOA except [serial] and [rname], which
    opening it deletes from the record set of the list itself.  Save sends
    nothing while one of the inputs is empty, as they are required; otherwise it
    sends the record set the list has, without [fqdn], whose [soa] has exactly
    the typed fields: neither the serial nor [rname] is sent. *)
Theorem soa_session_put app o h lr fqdn js fs ix ts :
  read h (VRef lr) (JObj js) -> finite (JObj js) = true -> NoDup js.*1 ->
  assoc_get "soa" js = Some (JObj fs) -> assoc_get "soa" fs = None ->
  forallb (fun kj => is_jprim kj.2) fs = true ->
  json_editable (type_proto "soa") (JObj (soa_shown fs)) -> length ts = length (soa_shown fs) ->
  (exists f h2, open_edit (RrArgs true fqdn (Some "soa"%string) ix (VRef lr)) h = (Ok f, h2) /\
     to_json h2 (VRef lr) = Ok (Some (JObj (assoc_set "soa" (JObj (soa_shown fs)) js)))) /\
  exists h3, edit_session app (RrArgs true fqdn (Some "soa"%string) ix (VRef lr)) ts o h
  = let req := rr_put app fqdn
                 (assoc_del "fqdn"
                    (assoc_set "soa" (new_json (typed_entry "soa" (JObj (soa_shown fs)) ts)) js)) in
    if forallb filled ts then Trace [req] (saved fqdn (answer o req)) (Ok tt) h3 else Trace [] [] (Ok tt) h3.
Proof.
  intros Hrd Hfin Hnd Hg Hown Hp Hed Hts.
  destruct (soa_stored h lr js fs Hrd Hfin Hnd Hg Hown Hp) as (l & ps & Hlr & Hty & Hl & _ & Hst).
  set (args := RrArgs _ _ _ _ _).
  destruct (open_soa h lr fs l ps args Hlr Hty Hl eq_refl eq_refl eq_refl) as (used & Hopen).
  assert (Hprops : soa_shown (soa_props fs) = (fun kj => (kj.1, prim_val kj.2)) <$> soa_shown fs)
    by apply soa_shown_props.
  assert (Hprims : Forall (fun kv => is_prim kv.2 = true) (soa_shown (soa_props fs))).
  { rewrite Hprops. apply Forall_fmap, Forall_true. intros kj. apply prim_val_prim. }
  assert (Hkeys : (soa_shown (soa_props fs)).*1 = (soa_shown fs).*1).
  { by rewrite Hprops, <- list_fmap_compose. }
  assert (Hnodup : NoDup (soa_shown (soa_props fs)).*1) by (rewrite Hkeys; apply Hed).
  split.
  - cbn zeta in Hopen. set (f := Form _ _ _ _ _) in Hopen. set (h1 := soa_store h fs l) in *.
    destruct (mount_inputs_run f (length h1) (soa_shown (soa_props fs)) (h1 ++ [OPlain []]) [])
      as (h2 & refs & Hrun & _ & He & Hle & _); [done|apply lookup_last|done|done|].
    rewrite (bind_ok _ _ _ _ _ Hrun) in Hopen. exists f, h2. split; [exact Hopen|].
    rewrite length_app in Hle.
    eapply (soa_kept h lr _ fs l ps h2 Hp Hl Hty (Hst 0)); [|unfold h1 in Hle; lia].
    intros l' o' _ Ho. apply He; [|by apply lookup_app_l_Some].
    apply lookup_lt_Some in Ho. rewrite list_elem_of_singleton. fold h1 in Ho. lia.
  - destruct (edit_session_run app args o h _ lr ps _ "soa" ix (VRef l) [lr] (JObj (soa_shown fs))
                (soa_shown (soa_props fs)) used ts (Hst ix)) as (h3 & ->); try done.
    { cbn [entry_names]. by rewrite length_fmap. }
    exists h3. unfold put_json. rewrite assoc_get_set_eq. cbn [put_entry]. by rewrite assoc_set_set.
Qed.

(** ** On a zone read from the server *)

Module SoaDemo.
Definition soa_fields : list (string * json) := [
  ("mname", JStr "ns1.example.com"); ("rname", JStr "hostmaster.example.com");
  ("email", JStr "hostmaster@example.com"); ("serial", JNum (num_of_Z 17));
  ("refresh", JNum (num_of_Z 7200)); ("retry", JNum (num_of_Z 600));
  ("expire", JNum (num_of_Z 1209600)); ("minimum", JNum (num_of_Z 3600))]%string.

Definition zone_json : list (string * json) := [
  ("fqdn", JStr "example.com"); ("ttl", JNum (num_of_Z 3600)); ("soa", JObj soa_fields);
  ("ns", JArr [JStr "ns1.example.com"; JStr "ns2.example.com"])]%string.

Definition zone_heap : heap := (load_json (JObj zone_json) []).2.
Definition zone_loc : loc := 2.
Definition app : app_state := setToken "YWRtaW46" initialState.
Definition env : oracle := quiet true (Resp true "OK" None).
Definition texts : list string :=
  ["ns1.example.com"; "dns@example.com"; "7200"; "300"; "1209600"; "60"]%string.

Example sent_soa :
  new_json (typed_entry "soa" (JObj (soa_shown soa_fields)) texts)
  = JObj [("mname", JStr "ns1.example.com"); ("email", JStr "dns@example.com");
          ("refresh", JNum (Number "7200")); ("retry", JNum (Number "300"));
          ("expire", JNum (Number "1209600")); ("minimum", JNum (Number "60"))]%string.
Proof. vm_compute. reflexivity. Qed.

Lemma soa_session_put_witness :
  (exists f h2, open_edit (RrArgs true "example.com" (Some "soa"%string) 0 (VRef zone_loc)) zone_heap
                = (Ok f, h2) /\
     to_json h2 (VRef zone_loc)
     = Ok (Some (JObj (assoc_set "soa" (JObj (soa_shown soa_fields)) zone_json)))) /\
  exists h3, edit_session app (RrArgs true "example.com" (Some "soa"%string) 0 (VRef zone_loc)) texts env
               zone_heap
  = let req := rr_put app "example.com"
                 (assoc_del "fqdn"
                    (assoc_set "soa" (new_json (typed_entry "soa" (JObj (soa_shown soa_fields)) texts))
                       zone_json)) in
    Trace [req] (saved "example.com" (answer env req)) (Ok tt) h3.
Proof.
  refine (soa_session_put app env zone_heap zone_loc "example.com" zone_json soa_fields 0 texts
            (load_json_read (JObj zone_json) []) eq_refl _ eq_refl eq_refl eq_refl _ eq_refl).
  - apply (bool_decide_unpack _). vm_compute. exact I.
  - split; [apply (bool_decide_unpack _); vm_compute; exact I|].
    repeat constructor; try done; (eexists; split; [reflexivity|lia]).
Defined.
End SoaDemo.
