(* ===== verification/RrDelete.v ===== *)
(** * Deleting a record: what is sent and what happens to the list

    deleteRr of RrCells works on a shallow copy of the record set: the copy's
    properties are the list's own arrays and objects.  For record sets read
    from the server, what it sends when the user agrees, and what it does to
    the list's state even when the user does not. *)

From S2P Require Import Prelude JsNumber JsValue JsonStore Http AppState.
From S2P Require Import RrTypes RrForm RrEdit RrCells.

(** ** The JSON of it *)

Definition remove_at {A} (ix : nat) (l : list A) : list A := take ix l ++ drop (S ix) l.

(** An array of several records: one is cut out of the array itself. *)
Definition several (j : json) : bool :=
  match j with JArr l => 1 <? length l | _ => false end.

Definition drop_rname (j : json) : json :=
  match j with JObj fs => JObj (assoc_del "rname" fs) | _ => j end.

Definition cut (ix : nat) (j : json) : json :=
  match j with
  | JArr l => if 1 <? length l then JArr (remove_at ix l) else j
  | _ => j
  end.

(** What becomes of the property [k] of the list's record set. *)
Definition left_over (type : string) (ix : nat) (k : string) (j : json) : json :=
  if String.eqb k "soa" then drop_rname j else if String.eqb k type then cut ix j else j.

Definition list_after (type : string) (ix : nat) (js : list (string * json))
    : list (string * json) :=
  (fun kj => (kj.1, left_over type ix kj.1 kj.2)) <$> js.

(** What is sent: no ttl, no fqdn, and the whole property gone unless it is
    an array of several. *)
Definition sent_after (type : string) (ix : nat) (j : json) (js : list (string * json))
    : list (string * json) :=
  let js' := list_after type ix (assoc_del "fqdn" (assoc_del "ttl" js)) in
  if several j then js' else assoc_del type js'.

(** The SOA, where there is one, is an object of primitives. *)
Definition soa_fits (js : list (string * json)) : bool :=
  match assoc_get "soa" js with
  | Some (JObj fs) => forallb (fun kj => is_jprim kj.2) fs
  | Some _ => false
  | None => true
  end.

Lemma several_arr j : several j = true -> exists l, j = JArr l /\ 1 < length l.
Proof. destruct j; try done. cbn [several]. intros H%Nat.ltb_lt. eauto. Qed.

(** ** Lemmas on property lists *)

Lemma ser_props_map f g (F : string -> json -> json) ps js :
  ser_props f ps = Ok ((fun kj => (kj.1, Some kj.2)) <$> js) ->
  (forall k v j, (k, v) ∈ ps -> (k, j) ∈ js -> f v = Ok (Some j) -> g v = Ok (Some (F k j))) ->
  ser_props g ps = Ok ((fun kj => (kj.1, Some (F kj.1 kj.2))) <$> js).
Proof.
  revert js. induction ps as [|[k v] ps IH]; intros js H Hfg.
  - injection H as E. by destruct js.
  - apply ser_props_cons in H as (j & js' & Hj & Hp & E). destruct js as [|[k' j'] js]; [done|].
    cbn in E. injection E as <- <- <-.
    assert (IHp : ser_props g ps = Ok ((fun kj => (kj.1, Some (F kj.1 kj.2))) <$> js)).
    { apply IH; [done|]. intros k0 v0 j0 H1 H2. apply Hfg; apply elem_of_cons; by right. }
    unfold ser_props in *. cbn [res_mapM fst snd fmap list_fmap].
    rewrite (Hfg k' v j'); [|apply elem_of_cons; by left..|done]. cbn [res_map]. by rewrite IHp.
Qed.

Lemma apart_app n h L L' v :
  apart n h L v = true -> apart n h L' v = true -> apart n h (L ++ L') v = true.
Proof.
  revert v. induction n as [|n IH]; intros v; destruct v as [| | | | |l]; try done; cbn [apart].
  - rewrite !andb_true_iff, !negb_true_iff, !bool_decide_eq_false. rewrite elem_of_app. naive_solver.
  - rewrite !andb_true_iff, !negb_true_iff, !bool_decide_eq_false. intros [H1 H2] [H3 H4].
    split; [rewrite elem_of_app; naive_solver|]. destruct (h !! l) as [[ps|es]|]; [| |done].
    + rewrite forallb_forall in *. intros kv Hin. apply IH; auto.
    + rewrite forallb_forall in *. intros kv Hin. apply IH; auto.
Qed.

(** The elements of an array apart from [L] are apart from [L]. *)
Lemma apart_elems n h L la es w :
  apart (S n) h L (VRef la) = true -> h !! la = Some (OArray es) -> w ∈ es -> apart n h L w = true.
Proof.
  cbn [apart]. rewrite andb_true_iff. intros [_ H] Ha Hw. rewrite Ha in H.
  rewrite forallb_forall in H. by apply H, list_elem_of_In.
Qed.

Lemma remove_at_fmap {A B} (f : A -> B) ix (l : list A) : f <$> remove_at ix l = remove_at ix (f <$> l).
Proof. unfold remove_at. by rewrite fmap_app, fmap_take, fmap_drop. Qed.

Lemma remove_at_Forall2 {A B} (P : A -> B -> Prop) ix l k :
  Forall2 P l k -> Forall2 P (remove_at ix l) (remove_at ix k).
Proof. intros H. unfold remove_at. apply Forall2_app; [by apply Forall2_take|by apply Forall2_drop]. Qed.

Lemma remove_at_elem {A} ix (l : list A) w : w ∈ remove_at ix l -> w ∈ l.
Proof.
  unfold remove_at. rewrite elem_of_app. intros [H|H].
  - rewrite <- (take_drop ix l). apply elem_of_app. by left.
  - rewrite <- (take_drop (S ix) l). apply elem_of_app. by right.
Qed.

Lemma ser_prims n h (fs : list (string * json)) :
  forallb (fun kj => is_jprim kj.2) fs = true -> forallb (fun kj => finite kj.2) fs = true ->
  ser_props (serialize n h) ((fun kj => (kj.1, prim_val kj.2)) <$> fs)
  = Ok ((fun kj => (kj.1, Some kj.2)) <$> fs).
Proof.
  induction fs as [|[k j] fs IH]; [done|]. cbn [forallb snd]. intros H1 H2.
  apply andb_true_iff in H1 as [H1 H3]. apply andb_true_iff in H2 as [H2 H4].
  specialize (IH H3 H4). unfold ser_props in *. cbn [fmap list_fmap res_mapM fst snd].
  assert (serialize n h (prim_val j) = Ok (Some j)) as ->
    by (destruct j as [| |[]| | |], n; done).
  cbn [res_map]. by rewrite IH.
Qed.

(** ** The record set in the store *)

Definition ref_locs (v : option val) : list loc :=
  match v with Some (VRef l) => [l] | _ => [] end.

Section Delete.
Context (h : heap) (lr : loc) (js : list (string * json)) (vs : list val).
Context (type : string) (ix : nat) (j : json).
Let ps : list (string * val) := zip js.*1 vs.
Hypothesis rr_finite : finite (JObj js) = true.
Hypothesis rr_keys : NoDup js.*1.
Hypothesis rr_soa : soa_fits js = true.
Hypothesis rr_entry : assoc_get type js = Some j.
Hypothesis rr_type : not_meta type = true.
Hypothesis rr_obj : h !! lr = Some (OPlain ps).
Hypothesis rr_vals : Forall2 (read h) vs js.*2.
Hypothesis rr_below : forall i l, vs !! i = Some (VRef l) -> l < lr.
Hypothesis rr_sep : forall n L i w, vs !! i = Some w ->
  (forall l', l' ∈ L -> lr <= l' \/ exists i', i' <> i /\ vs !! i' = Some (VRef l')) ->
  apart n h L w = true.

Lemma prop_get k jk : assoc_get k js = Some jk ->
  exists i v, assoc_get k ps = Some v /\ vs !! i = Some v /\ js.*1 !! i = Some k /\ read h v jk.
Proof. by apply read_lookup. Qed.

Lemma prop_none k : assoc_get k js = None -> assoc_get k ps = None.
Proof. rewrite !assoc_get_None. subst ps. by rewrite (read_keys h). Qed.

(** A property shares nothing with the objects other properties refer to. *)
Lemma prop_apart n k k' v :
  (k, v) ∈ ps -> k' <> k -> apart n h (ref_locs (assoc_get k' ps)) v = true.
Proof.
  intros (i & Hk & Hi)%zip_lookup Hne. apply (rr_sep n _ i v Hi).
  intros l' Hl'. right. destruct (assoc_get k' ps) as [[| | | | |l]|] eqn:E;
    try (by apply elem_of_nil in Hl'). apply list_elem_of_singleton in Hl' as ->.
  apply assoc_get_elem in E. apply zip_lookup in E as (i' & Hk' & Hi'). exists i'.
  split; [|done]. intros ->. congruence.
Qed.

(** The two writes to the shared objects. *)
Definition soa_step (h : heap) : heap :=
  match assoc_get "soa" ps with
  | Some (VRef l) =>
      match h !! l with
      | Some (OPlain fs) => <[l := OPlain (assoc_del "rname" fs)]> h
      | _ => h
      end
  | _ => h
  end.

Definition cut_step (h : heap) : heap :=
  match assoc_get type ps with
  | Some (VRef l) =>
      match h !! l with
      | Some (OArray es) => if 1 <? length es then <[l := OArray (remove_at ix es)]> h else h
      | _ => h
      end
  | _ => h
  end.

Definition soa_locs : list loc := ref_locs (assoc_get "soa" ps).
Definition cut_locs : list loc := if several j then ref_locs (assoc_get type ps) else [].

(** The SOA in the store. *)
Lemma soa_known :
  (assoc_get "soa" js = None /\ assoc_get "soa" ps = None) \/
  exists fs l, assoc_get "soa" js = Some (JObj fs) /\ forallb (fun kj => is_jprim kj.2) fs = true /\
    assoc_get "soa" ps = Some (VRef l) /\
    h !! l = Some (OPlain ((fun kj => (kj.1, prim_val kj.2)) <$> fs)).
Proof.
  assert (Hs := rr_soa). unfold soa_fits in Hs.
  destruct (assoc_get "soa" js) as [sj|] eqn:E; [|left; auto using prop_none].
  right. destruct sj as [| | | | |fs]; try done. exists fs.
  destruct (prop_get _ _ E) as (i & v & Hv & _ & _ & Hr).
  destruct (read_obj _ _ _ Hr) as (l & ws & -> & Ho & Hall & _).
  rewrite (read_prims h) in Ho by done. eauto 10.
Qed.

(** The array of the type in the store, when it is one of several. *)
Lemma cut_known : several j = true ->
  exists l es la, j = JArr l /\ 1 < length l /\ assoc_get type ps = Some (VRef la) /\
    h !! la = Some (OArray es) /\ Forall2 (read h) es l /\ type <> "soa"%string /\
    forall n w, w ∈ es -> apart n h [la] w = true.
Proof.
  intros (l & El & Hs)%several_arr.
  destruct (prop_get _ _ rr_entry) as (i & v & Hv & _ & _ & Hr). rewrite El in Hr.
  destruct (read_arr _ _ _ Hr) as (la & es & -> & Ha & Hall & Hap).
  exists l, es, la. split_and!; try done.
  - intros Et. assert (Hx := rr_soa). assert (He := rr_entry). unfold soa_fits in Hx.
    rewrite Et, El in He. by rewrite He in Hx.
  - intros n w Hw. apply Hap; [|done]. by intros l' ->%list_elem_of_singleton.
Qed.

Lemma cut_unknown : several j = false -> forall h', (forall la es, assoc_get type ps = Some (VRef la) ->
    h' !! la = Some (OArray es) -> h !! la = Some (OArray es)) -> cut_step h' = h'.
Proof.
  intros Hs h' Hh'. unfold cut_step. destruct (prop_get _ _ rr_entry) as (i & v & Hv & _ & _ & Hr).
  rewrite Hv. destruct v as [| | | | |la]; try done.
  destruct (h' !! la) as [[|es]|] eqn:E; try done. specialize (Hh' _ _ Hv E).
  assert (Ha := read_isArray _ _ _ Hr). rewrite isArray_ref, Hh' in Ha.
  destruct (is_jarr j) eqn:Ej; [|done].
  assert (exists l, j = JArr l) as [l El] by (destruct j; eauto; done).
  rewrite El in Hr, Hs. destruct (read_arr _ _ _ Hr) as (la' & es' & [= <-] & Ha' & Hall & _).
  rewrite Hh' in Ha'. injection Ha' as ->. cbn [several] in Hs. by rewrite (Forall2_length _ _ _ Hall), Hs.
Qed.

(** *** The writes and nothing else *)

Lemma soa_step_extends h' : extends soa_locs h' (soa_step h').
Proof.
  unfold soa_step, soa_locs. destruct (assoc_get "soa" ps) as [[| | | | |l]|]; try apply extends_refl.
  destruct (h' !! l) as [[]|]; try apply extends_refl. apply extends_insert. set_solver.
Qed.

Lemma soa_step_length h' : length (soa_step h') = length h'.
Proof.
  unfold soa_step. destruct (assoc_get "soa" ps) as [[| | | | |l]|]; try done.
  destruct (h' !! l) as [[]|]; try done. apply length_insert.
Qed.

(** Arrays are where they were. *)
Lemma soa_step_array la es : soa_step h !! la = Some (OArray es) <-> h !! la = Some (OArray es).
Proof.
  unfold soa_step. destruct (assoc_get "soa" ps) as [[| | | | |l]|]; try done.
  destruct (h !! l) as [[fs|]|] eqn:E; try done. destruct (decide (la = l)) as [->|Hne].
  - rewrite list_lookup_insert_eq by by eapply lookup_lt_Some. split; congruence.
  - by rewrite list_lookup_insert_ne.
Qed.

Lemma final_extends : extends (soa_locs ++ cut_locs) h (cut_step (soa_step h)).
Proof.
  eapply extends_trans.
  { eapply extends_weaken; [|apply soa_step_extends]. intros l Hl. apply elem_of_app. by left. }
  destruct (several j) eqn:Hs.
  - destruct (cut_known Hs) as (l & es & la & _ & _ & Hla & Ha & _).
    unfold cut_step, cut_locs. rewrite Hs, Hla. cbn [ref_locs].
    rewrite (proj2 (soa_step_array la es) Ha). destruct (1 <? length es); [|apply extends_refl].
    apply extends_insert. apply elem_of_app. right. by apply list_elem_of_singleton.
  - rewrite (cut_unknown Hs); [apply extends_refl|]. intros la es _. apply soa_step_array.
Qed.

Lemma final_length : length (cut_step (soa_step h)) = length h.
Proof.
  rewrite <- (soa_step_length h). unfold cut_step.
  destruct (assoc_get type ps) as [[| | | | |l]|]; try done.
  destruct (soa_step h !! l) as [[|es]|]; try done. destruct (1 <? length es); [|done]. apply length_insert.
Qed.

Lemma final_rr : cut_step (soa_step h) !! lr = Some (OPlain ps).
Proof.
  apply final_extends; [|exact rr_obj].
  assert (Hlt : forall k, lr ∉ ref_locs (assoc_get k ps)).
  { intros k. destruct (assoc_get k ps) as [[| | | | |l]|] eqn:E; try apply not_elem_of_nil.
    cbn. rewrite list_elem_of_singleton. intros <-.
    apply assoc_get_elem, zip_lookup in E as (i & _ & Hi). specialize (rr_below i lr Hi). lia. }
  rewrite elem_of_app. intros [H|H]; [by apply Hlt in H|]. unfold cut_locs in H.
  destruct (several j); [by apply Hlt in H|by apply elem_of_nil in H].
Qed.

(** *** The run of delete_rr *)

Definition kept_props : list (string * val) := assoc_del "fqdn" (assoc_del "ttl" ps).

Lemma kept_get k : not_meta k = true -> assoc_get k kept_props = assoc_get k ps.
Proof.
  unfold not_meta. intros H. apply negb_true_iff, orb_false_iff in H as [H1 H2]. reflect_tests.
  unfold kept_props. by rewrite !assoc_get_del_ne by done.
Qed.

Lemma copy_run :
  copy_rr (VRef lr) h = (Ok (VRef (length h)), soa_step h ++ [OPlain kept_props]).
Proof.
  unfold copy_rr, spread. erewrite bind_ok.
  2: { erewrite bind_ok by by apply entries_plain. apply alloc_eq. }
  erewrite bind_ok by (apply delete_prop_plain, lookup_last). rewrite insert_last.
  erewrite bind_ok by (apply delete_prop_plain, lookup_last). rewrite insert_last.
  fold kept_props. unfold in_op. cbn [is_object].
  erewrite bind_ok by (apply hasOwn_plain, lookup_last). rewrite kept_get by done.
  destruct soa_known as [[_ Hn]|(fs & l & _ & _ & Hl & Ho)].
  - unfold soa_step. rewrite Hn. rewrite bool_decide_eq_false_2 by (by intros [? ?]). done.
  - unfold soa_step. rewrite Hl, Ho. rewrite bool_decide_eq_true_2 by eauto. cbn beta iota.
    erewrite bind_ok; [reflexivity|]. erewrite bind_ok by (apply get_prop_plain, lookup_last).
    rewrite kept_get, Hl by done. cbn [from_option id].
    erewrite delete_prop_plain by by apply lookup_app_l_Some.
    by rewrite insert_app_l by by eapply lookup_lt_Some.
Qed.

Definition sent_props : list (string * val) :=
  if several j then kept_props else assoc_del type kept_props.

Lemma remove_entry_run (o : val) (es : list (string * val)) v h' :
  assoc_get type es = Some v ->
  remove_entry o type ix es h' = remove_entry o type ix [(type, v)] h'.
Proof.
  induction es as [|[k w] es IH]; [done|]. cbn [assoc_get remove_entry].
  rewrite String.eqb_refl, (String.eqb_sym k type).
  destruct (String.eqb_spec type k) as [<-|]; intros H; [by injection H as ->|]. rewrite IH by done.
  cbn [remove_entry]. by rewrite String.eqb_refl.
Qed.

Lemma not_several : several j = false -> forall v, assoc_get type ps = Some v -> read h v j ->
  forall o, (forall es, o <> OArray es) ->
  exists b n, isArray v (soa_step h ++ [o]) = (Ok b, soa_step h ++ [o]) /\
    (if b : bool then array_length v else mret 0) (soa_step h ++ [o]) = (Ok n, soa_step h ++ [o]) /\
    b && (1 <? n) = false.
Proof.
  intros Hs v Hv Hr o Ho. destruct (isArray_pure v (soa_step h ++ [o])) as [[] Hb]; [|by exists false, 0].
  destruct v as [| | | | |la]; try done. assert (Hb' := Hb). rewrite isArray_ref in Hb'.
  destruct ((soa_step h ++ [o]) !! la) as [[|es]|] eqn:E; try done.
  exists true, (length es). split_and!; [done|by apply array_length_eq|]. cbn [andb].
  apply lookup_app_Some in E as [E|[_ E]].
  - apply soa_step_array in E. assert (Ha := read_isArray _ _ _ Hr).
    rewrite (isArray_array _ _ _ E) in Ha. injection Ha as Ha.
    assert (exists l, j = JArr l) as [l El] by (destruct j; eauto; done).
    rewrite El in Hr, Hs. destruct (read_arr _ _ _ Hr) as (la' & es' & [= <-] & Ha' & Hall & _).
    rewrite E in Ha'. injection Ha' as ->. cbn [several] in Hs. by rewrite (Forall2_length _ _ _ Hall).
  - apply list_lookup_singleton_Some in E as [_ E]. by destruct (Ho es).
Qed.

Lemma delete_rr_run :
  delete_rr (VRef lr) type ix h
  = (Ok (VRef (length h), true), cut_step (soa_step h) ++ [OPlain sent_props]).
Proof.
  unfold delete_rr. erewrite bind_ok by exact copy_run.
  rewrite <- (soa_step_length h). erewrite bind_ok by (apply entries_plain, lookup_last).
  destruct (prop_get _ _ rr_entry) as (i & v & Hv & _ & _ & Hr).
  erewrite bind_ok; [reflexivity|].
  erewrite remove_entry_run by (rewrite kept_get by done; exact Hv).
  cbn [remove_entry]. rewrite String.eqb_refl. unfold sent_props. destruct (several j) eqn:Hs.
  - destruct (cut_known Hs) as (l & es & la & El & Hlen & Hla & Ha & Hall & _).
    rewrite Hv in Hla. injection Hla as ->. rewrite <- (Forall2_length _ _ _ Hall) in Hlen.
    apply soa_step_array in Ha. apply Nat.ltb_lt in Hlen.
    assert (Ha' : (soa_step h ++ [OPlain kept_props]) !! la = Some (OArray es))
      by by apply lookup_app_l_Some.
    erewrite bind_ok by by eapply isArray_array. cbn beta iota.
    erewrite bind_ok by by apply array_length_eq. rewrite Hlen. cbn beta iota.
    cbn [andb]. erewrite bind_ok; [reflexivity|].
    erewrite bind_ok by (apply get_prop_plain, lookup_last). rewrite kept_get, Hv by done.
    cbn [from_option id]. erewrite splice1_array by exact Ha'. unfold cut_step. rewrite Hv, Ha, Hlen.
    by rewrite insert_app_l by by eapply lookup_lt_Some.
  - rewrite (cut_unknown Hs) by (intros la es _; apply soa_step_array).
    destruct (not_several Hs v Hv Hr (OPlain kept_props)) as (b & n & H1 & H2 & H3); [done|].
    erewrite bind_ok by exact H1. erewrite bind_ok by exact H2. rewrite H3. cbn beta iota.
    erewrite bind_ok; [reflexivity|].
    erewrite delete_prop_plain by apply lookup_last. by rewrite insert_last.
Qed.

(** *** The JSON after it *)

Lemma prop_finite k jk : assoc_get k js = Some jk -> finite jk = true.
Proof.
  intros E. assert (Hf := rr_finite). cbn [finite] in Hf. rewrite forallb_forall in Hf.
  by apply assoc_get_elem, list_elem_of_In, Hf in E.
Qed.

Lemma soa_after m ext fs l : length h < m -> assoc_get "soa" js = Some (JObj fs) ->
  forallb (fun kj => is_jprim kj.2) fs = true -> assoc_get "soa" ps = Some (VRef l) ->
  h !! l = Some (OPlain ((fun kj => (kj.1, prim_val kj.2)) <$> fs)) ->
  serialize m (cut_step (soa_step h) ++ ext) (VRef l) = Ok (Some (JObj (assoc_del "rname" fs))).
Proof.
  intros Hm Hg Hp Hl Ho. assert (Hlt := lookup_lt_Some _ _ _ Ho).
  assert (Hs : soa_step h !! l
          = Some (OPlain (assoc_del "rname" ((fun kj => (kj.1, prim_val kj.2)) <$> fs)))).
  { unfold soa_step. rewrite Hl, Ho. by apply list_lookup_insert_eq. }
  assert (Hf : cut_step (soa_step h) !! l = soa_step h !! l).
  { unfold cut_step. destruct (assoc_get type ps) as [[| | | | |la]|]; try done.
    destruct (soa_step h !! la) as [[|es]|] eqn:Ea; try done. destruct (1 <? length es); [|done].
    apply list_lookup_insert_ne. intros ->. congruence. }
  destruct m as [|m]; [lia|]. rewrite (serialize_plain _ _ _ (assoc_del "rname" ((fun kj => (kj.1, prim_val kj.2)) <$> fs))).
  2: { apply lookup_app_l_Some. by rewrite Hf. }
  erewrite ser_props_del by (apply ser_prims; [done|exact (prop_finite _ _ Hg)]).
  cbn [res_map]. by rewrite json_props_del, json_props_all.
Qed.

Lemma cut_after m ext v : length h < m -> several j = true -> assoc_get type ps = Some v ->
  serialize m (cut_step (soa_step h) ++ ext) v = Ok (Some (cut ix j)).
Proof.
  intros Hm Hs Hv. destruct (cut_known Hs) as (l & es & la & El & Hlen & Hla & Ha & Hall & Hne & Hap).
  rewrite Hv in Hla. injection Hla as ->. assert (Hlt := lookup_lt_Some _ _ _ Ha).
  assert (Hlen' : (1 <? length es) = true) by (rewrite (Forall2_length _ _ _ Hall); by apply Nat.ltb_lt).
  assert (Hf : cut_step (soa_step h) !! la = Some (OArray (remove_at ix es))).
  { unfold cut_step. rewrite Hv, (proj2 (soa_step_array la es) Ha), Hlen'.
    apply list_lookup_insert_eq. by rewrite soa_step_length. }
  assert (Hfin := prop_finite _ _ rr_entry). rewrite El in Hfin. cbn [finite] in Hfin.
  destruct m as [|m]; [lia|]. cbn [serialize].
  rewrite (lookup_app_l_Some _ _ _ _ Hf).
  assert (res_mapM (serialize m (cut_step (soa_step h) ++ ext)) (remove_at ix es)
          = Ok (Some <$> remove_at ix l)) as ->.
  { rewrite remove_at_fmap. apply res_mapM_Ok, remove_at_Forall2. rewrite Forall2_fmap_r.
    rewrite Forall2_lookup in Hall |- *. intros i. specialize (Hall i).
    destruct (es !! i) as [w|] eqn:Ew, (l !! i) as [jw|] eqn:Ej; inversion Hall as [? ? Hrw|]; constructor.
    assert (Hw : w ∈ es) by by eapply list_elem_of_lookup_2.
    assert (Hjw : finite jw = true).
    { rewrite forallb_forall in Hfin. apply Hfin, list_elem_of_In. by eapply list_elem_of_lookup_2. }
    rewrite (serialize_apart m h _ (soa_locs ++ cut_locs)).
    - apply read_serialize; [done|done|lia].
    - apply apart_app; [|unfold cut_locs; rewrite Hs, Hv; by apply Hap].
      eapply apart_elems; [|exact Ha|exact Hw]. apply (prop_apart _ type "soa"); [by apply assoc_get_elem|done].
    - intros l' o Hl' Ho. apply lookup_app_l_Some. by apply final_extends. }
  rewrite El. cbn [res_map cut]. apply Nat.ltb_lt in Hlen. rewrite Hlen.
  by rewrite <- list_fmap_compose, list_fmap_id.
Qed.

(** Every property of the list's record set after the run. *)
Lemma prop_after k v jk m ext : (k, v) ∈ ps -> assoc_get k js = Some jk -> length h < m ->
  serialize m (cut_step (soa_step h) ++ ext) v = Ok (Some (left_over type ix k jk)).
Proof.
  intros Hin Hjk Hm. destruct (prop_get _ _ Hjk) as (i & v' & Hv & _ & _ & Hr).
  assert (Hin' := Hin). apply assoc_get_nodup in Hin'; [|subst ps; by rewrite (read_keys h)].
  rewrite Hin' in Hv. injection Hv as <-. unfold left_over.
  destruct (String.eqb_spec k "soa") as [->|Hne].
  { destruct soa_known as [[Hn _]|(fs & l & Hg & Hp & Hl & Ho)]; [congruence|].
    rewrite Hl in Hin'. injection Hin' as <-. rewrite Hg in Hjk. injection Hjk as <-.
    by apply soa_after. }
  assert (Hsame : apart m h (soa_locs ++ cut_locs) v = true ->
    serialize m (cut_step (soa_step h) ++ ext) v = Ok (Some jk)).
  { intros Ha. rewrite (serialize_apart m h _ _ _ Ha).
    - apply read_serialize; [done|by eapply prop_finite|lia].
    - intros l' o Hl' Ho. apply lookup_app_l_Some. by apply final_extends. }
  assert (Hsoa : apart m h soa_locs v = true) by by apply (prop_apart m k "soa").
  destruct (String.eqb_spec k type) as [->|Hnt].
  - rewrite rr_entry in Hjk. injection Hjk as <-. destruct (several j) eqn:Hs; [by apply cut_after|].
    assert (cut ix j = j) as ->.
    { clear -Hs. destruct j; try done. cbn [several cut] in *. by rewrite Hs. }
    apply Hsame. unfold cut_locs. by rewrite Hs, app_nil_r.
  - apply Hsame, apart_app; [done|]. unfold cut_locs. destruct (several j).
    + by apply (prop_apart m k type).
    + apply zip_lookup in Hin as (i' & _ & Hi'). apply (rr_sep m [] i' v Hi').
      by intros l' ?%elem_of_nil.
Qed.

(** The sub-object with the properties [qs] of the list's, as JSON. *)
Lemma props_after m ext k1 k2 : length h < m ->
  ser_props (serialize m (cut_step (soa_step h) ++ ext)) (assoc_del k1 (assoc_del k2 ps))
  = Ok ((fun kj => (kj.1, Some (left_over type ix kj.1 kj.2))) <$> assoc_del k1 (assoc_del k2 js)) /\
  ser_props (serialize m (cut_step (soa_step h) ++ ext)) ps
  = Ok ((fun kj => (kj.1, Some (left_over type ix kj.1 kj.2))) <$> js).
Proof.
  intros Hm. assert (Hall : ser_props (serialize m (cut_step (soa_step h) ++ ext)) ps
    = Ok ((fun kj => (kj.1, Some (left_over type ix kj.1 kj.2))) <$> js)).
  { eapply (ser_props_map (serialize m h)).
    - apply read_ser_props; [exact rr_vals|exact rr_finite|lia].
    - intros k v jk Hin Hjk _. apply prop_after; [done| |done]. by apply assoc_get_nodup. }
  split; [|done]. erewrite ser_props_del by by apply ser_props_del.
  by rewrite !(assoc_del_fmap (fun k x => Some (left_over type ix k x))).
Qed.

(** The list's record set and the copy that is sent. *)
Lemma list_json_after ext : ext <> [] ->
  to_json (cut_step (soa_step h) ++ ext) (VRef lr) = Ok (Some (JObj (list_after type ix js))).
Proof.
  intros Hext. assert (Hlen : length h < length (cut_step (soa_step h) ++ ext)).
  { rewrite length_app, final_length. destruct ext; [done|cbn; lia]. }
  unfold to_json. rewrite (serialize_plain _ _ _ ps) by (apply lookup_app_l_Some, final_rr).
  rewrite (proj2 (props_after _ _ "" "" Hlen)). cbn [res_map]. do 3 f_equal.
  unfold list_after. rewrite <- (json_props_all (_ <$> js)). by rewrite <- list_fmap_compose.
Qed.

Lemma sent_json_after :
  to_json (cut_step (soa_step h) ++ [OPlain sent_props]) (VRef (length h))
  = Ok (Some (JObj (sent_after type ix j js))).
Proof.
  assert (Hlen : length h < length (cut_step (soa_step h) ++ [OPlain sent_props])).
  { rewrite length_app, final_length. cbn. lia. }
  unfold to_json. rewrite (serialize_plain _ _ _ sent_props).
  2: { rewrite <- final_length. apply lookup_last. }
  assert (Hk := proj1 (props_after _ [OPlain sent_props] "fqdn" "ttl" Hlen)).
  fold kept_props in Hk. unfold sent_after, list_after.
  set (hf := cut_step (soa_step h) ++ [OPlain sent_props]) in *. unfold sent_props.
  set (js' := assoc_del "fqdn" (assoc_del "ttl" js)) in *.
  assert (Hj : json_props ((fun kj => (kj.1, Some (left_over type ix kj.1 kj.2))) <$> js')
          = (fun kj => (kj.1, left_over type ix kj.1 kj.2)) <$> js').
  { rewrite <- (json_props_all ((fun kj => (kj.1, left_over type ix kj.1 kj.2)) <$> js')).
    by rewrite <- list_fmap_compose. }
  destruct (several j).
  - rewrite Hk. cbn [res_map]. by rewrite Hj.
  - erewrite ser_props_del by exact Hk. cbn [res_map]. by rewrite json_props_del, Hj.
Qed.
End Delete.

(** The effects of the answer to a deletion. *)
Definition deleted (fqdn : string) (r : fetch_result unit) : list cell_effect :=
  match r with
  | Resp true _ _ => [OnChange]
  | Resp false msg _ | Rejected _ msg => [CellAlert (delete_failed fqdn msg)]
  end.

Lemma fqdn_text_plain h lr ps s :
  h !! lr = Some (OPlain ps) -> assoc_get "fqdn" ps = Some (VStr s) ->
  fqdn_text (VRef lr) h = (Ok s, h).
Proof. intros Ho Hs. unfold fqdn_text. rewrite (get_prop_plain _ _ _ _ Ho), Hs. done. Qed.

Lemma delete_answer_run o lr ps fqdn r h :
  h !! lr = Some (OPlain ps) -> assoc_get "fqdn" ps = Some (VStr fqdn) ->
  run o (delete_answer (VRef lr) r h) = Trace [] (deleted fqdn r) (Ok tt) h.
Proof.
  intros Ho Hs. unfold delete_answer, sync. rewrite (fqdn_text_plain _ _ _ _ Ho Hs).
  by destruct r as [|[]].
Qed.

Lemma deleteRr_run app h lr js fqdn type ix j r :
  read h (VRef lr) (JObj js) -> finite (JObj js) = true -> NoDup js.*1 -> soa_fits js = true ->
  assoc_get "fqdn" js = Some (JStr fqdn) -> assoc_get type js = Some j -> not_meta type = true ->
  exists h', run (quiet true r) (deleteRr app (VRef lr) type ix h)
  = Trace [rr_put app fqdn (sent_after type ix j js)] (deleted fqdn r) (Ok tt) h'.
Proof.
  intros Hr Hf Hnd Hsoa Hq Hj Ht.
  destruct (read_obj _ _ _ Hr) as (lo & vs & [= <-] & Ho & Hall & Hlt & Hsep).
  set (hf := cut_step js vs type ix (soa_step js vs h) ++ [OPlain (sent_props js vs type j)]).
  exists hf. unfold deleteRr, sync.
  rewrite (delete_rr_run h lr js vs type ix j); try done. cbn [negb run confirms quiet]. fold hf.
  destruct (read_lookup _ _ _ _ _ Hall Hq) as (i & v & Hv & _ & _ & Hrv).
  apply read_prim in Hrv; [|done]. subst v.
  assert (Hlr : hf !! lr = Some (OPlain (zip js.*1 vs))).
  { apply lookup_app_l_Some. by eapply (final_rr h lr js vs type ix j). }
  rewrite (fqdn_text_plain _ _ _ _ Hlr Hv). unfold stringify. unfold hf at 1.
  rewrite (sent_json_after h lr js vs type ix j) by done. fold hf. cbn [run].
  cbn [meanwhile quiet id answer]. rewrite (delete_answer_run _ _ _ _ _ _ Hlr Hv). done.
Qed.

(** C25: Delete on a record of a record set read from the server: when the user
    agrees, one PUT is sent with the record set as read, less that record (the
    whole type when it was its only record), ttl, fqdn and the SOA's rname;
    the list is reloaded when the server accepts it, else an alert names the
    reason. *)
Theorem deleteRr_sends app h lr js fqdn type ix j r :
  read h (VRef lr) (JObj js) -> finite (JObj js) = true -> NoDup js.*1 -> soa_fits js = true ->
  assoc_get "fqdn" js = Some (JStr fqdn) -> assoc_get type js = Some j -> not_meta type = true ->
  exists h', run (quiet true r) (deleteRr app (VRef lr) type ix h)
  = Trace [rr_put app fqdn (sent_after type ix j js)] (deleted fqdn r) (Ok tt) h'.
Proof. apply deleteRr_run. Qed.

(** DeleteRr changes the list's own record set before it asks: when the
    user declines, nothing is sent, but the record is gone from the array the
    list shows and the SOA has lost its rname, so that the next edit or
    deletion on that record set sends it without them. *)
Theorem deleteRr_declined_mutates app h lr js type ix j r :
  read h (VRef lr) (JObj js) -> finite (JObj js) = true -> NoDup js.*1 -> soa_fits js = true ->
  assoc_get type js = Some j -> not_meta type = true ->
  exists h', run (quiet false r) (deleteRr app (VRef lr) type ix h) = Trace [] [] (Ok tt) h' /\
    to_json h' (VRef lr) = Ok (Some (JObj (list_after type ix js))).
Proof.
  intros Hr Hf Hnd Hsoa Hj Ht.
  destruct (read_obj _ _ _ Hr) as (lo & vs & [= <-] & Ho & Hall & Hlt & Hsep).
  eexists. split.
  - unfold deleteRr, sync. by rewrite (delete_rr_run h lr js vs type ix j).
  - by eapply (list_json_after h lr js vs type ix j).
Qed.

(** ** A record set with an SOA, read from the server *)

Module DeleteDemo.
Import RrDemo.

Definition apex_json : list (string * json) := [
  ("fqdn", JStr "example.com"); ("ttl", JNum (num_of_Z 2592000));
  ("soa", JObj [("mname", JStr "ns1.example.com"); ("rname", JStr "hm.example.com");
                ("email", JStr "hm@example.com"); ("serial", JNum (num_of_Z 7))]);
  ("a", JArr [JStr "127.0.0.1"; JStr "127.0.0.2"])]%string.

Definition apex_heap : heap := (load_json (JObj apex_json) []).2.
Definition apex_loc : loc := 2.

Lemma apex_read : read apex_heap (VRef apex_loc) (JObj apex_json).
Proof. exact (load_json_read (JObj apex_json) []). Qed.

Lemma apex_keys : NoDup apex_json.*1.
Proof. apply (bool_decide_unpack _). vm_compute. exact I. Qed.

Definition two_a : json := JArr [JStr "127.0.0.1"; JStr "127.0.0.2"]%string.

Lemma deleteRr_sends_witness :
  exists h', run (quiet true (Resp true "OK" None)) (deleteRr app (VRef apex_loc) "a" 1 apex_heap)
  = Trace [rr_put app "example.com" (sent_after "a" 1 two_a apex_json)]
      (deleted "example.com" (Resp true "OK" None)) (Ok tt) h'.
Proof.
  exact (deleteRr_sends app apex_heap apex_loc apex_json "example.com" "a" 1 two_a (Resp true "OK" None)
           apex_read eq_refl apex_keys eq_refl eq_refl eq_refl eq_refl).
Defined.

Lemma deleteRr_declined_mutates_witness :
  exists h', run (quiet false (Resp true "OK" None)) (deleteRr app (VRef apex_loc) "a" 1 apex_heap)
    = Trace [] [] (Ok tt) h' /\
  to_json h' (VRef apex_loc) = Ok (Some (JObj (list_after "a" 1 apex_json))).
Proof.
  exact (deleteRr_declined_mutates app apex_heap apex_loc apex_json "a" 1 two_a (Resp true "OK" None)
           apex_read eq_refl apex_keys eq_refl eq_refl eq_refl).
Defined.
End DeleteDemo.
