(* ===== verification/RrList.v ===== *)
(** * pages/ResourceRecords.jsx: the list of record sets and its dialogs

    ListResourceRecords: the record sets of one zone, page by page.  As in
    Zones.v a handler reads the state of the render that created it and writes
    the live state through the setters.  The record sets are objects of the
    store, loaded by the answer of the server and shared with the rows and the
    dialogs. *)

From S2P Require Import Prelude JsNumber JsValue JsonStore Http Qargs AppState.
From S2P Require Import Paging RrTypes RrForm RrEdit RrCells.

Module ListRrs.

(** The arguments of the dialog, by mode; [NoMode] is the initial [{}]. *)
Inductive dlg_args : Type :=
| NoMode
| AddFqdnMode (zone caption : string)
| EditRrMode (zone caption : string) (args : rr_args)
| AddRrMode (zone caption : string) (args : rr_args).

Record state : Type := State {
  rrs : option (list val);
  current : option string;
  error : option string;
  isEditOpen : bool;
  dlgArgs : dlg_args;
  currentDirection : string;
  canMoveForward : bool;
  canMoveBackward : bool;
  navKeys : option (string * string)
}.

Definition init : state := State None None None false NoMode "forward" false false None.

(** ** The setters *)

Definition setRrs v s := State v (current s) (error s) (isEditOpen s) (dlgArgs s)
  (currentDirection s) (canMoveForward s) (canMoveBackward s) (navKeys s).
Definition setCurrent v s := State (rrs s) v (error s) (isEditOpen s) (dlgArgs s)
  (currentDirection s) (canMoveForward s) (canMoveBackward s) (navKeys s).
Definition setError v s := State (rrs s) (current s) (Some v) (isEditOpen s) (dlgArgs s)
  (currentDirection s) (canMoveForward s) (canMoveBackward s) (navKeys s).
Definition setEditOpen v s := State (rrs s) (current s) (error s) v (dlgArgs s)
  (currentDirection s) (canMoveForward s) (canMoveBackward s) (navKeys s).
Definition setDlgArgs v s := State (rrs s) (current s) (error s) (isEditOpen s) v
  (currentDirection s) (canMoveForward s) (canMoveBackward s) (navKeys s).
Definition setCurrentDirection v s := State (rrs s) (current s) (error s) (isEditOpen s) (dlgArgs s)
  v (canMoveForward s) (canMoveBackward s) (navKeys s).
Definition setCanMoveForward v s := State (rrs s) (current s) (error s) (isEditOpen s) (dlgArgs s)
  (currentDirection s) v (canMoveBackward s) (navKeys s).
Definition setCanMoveBackward v s := State (rrs s) (current s) (error s) (isEditOpen s) (dlgArgs s)
  (currentDirection s) (canMoveForward s) v (navKeys s).
Definition setNavKeys v s := State (rrs s) (current s) (error s) (isEditOpen s) (dlgArgs s)
  (currentDirection s) (canMoveForward s) (canMoveBackward s) v.

(** A reload that awaits its answer. *)
Record pending : Type := Pending {
  p_from : option string;
  p_direction : string;
  p_request : request
}.

Section Component.
Context (app : app_state) (zone : string) (max : nat).

Definition list_request (from : option string) (direction : string) : request :=
  Request "get"
    (getUrl app (("/zone/" +:+ zone) +:+ qargs from (Z.of_nat max) (Some "verbose"%string) (Some direction)))
    (getAuthHeader app) None.

(** [reload(from, direction)] up to the await. *)
Definition reload (from : option string) (direction : string) (s : state) : state * pending :=
  (setCurrentDirection direction (setRrs None s),
   Pending from direction (list_request from direction)).

(** The rest of [reload]: the answer's JSON is read into the store.  An
    accepted answer whose JSON is read is a listing as the server writes it,
    with [value], [more], [kfirst] and [klast]; other JSON, without [value]
    say, for which the code would keep the loader on the screen, has no
    representation. *)
Definition reload_resume (p : pending) (r : fetch_result (page json)) (s : state) (h : heap)
    : state * heap :=
  match r with
  | Rejected _ msg => (setError msg s, h)
  | Resp false statusText _ => (setError ("Failed to fetch rr's: " +:+ statusText) s, h)
  | Resp true _ None => (setError "Unexpected end of JSON input" s, h)
  | Resp true _ (Some z) =>
      let '(vs, h') := load_list (value z) h in
      let s1 := setNavKeys (Some (kfirst z, klast z)) (setRrs (Some vs) s) in
      (if String.eqb (p_direction p) "forward" then
         setCanMoveForward (more z) (setCanMoveBackward (bool_decide (p_from p <> None)) s1)
       else if negb (more z) then
         setCanMoveForward (Nat.eqb (length vs) max) (setCanMoveBackward false (setCurrent None s1))
       else setCanMoveForward true (setCanMoveBackward true s1), h')
  end.

(** ** The handlers *)

Definition reloadCurrent (c s : state) : state * pending :=
  reload (current c) (currentDirection c) s.

Definition moveFirst (c s : state) : state * pending :=
  reload None "forward" (setCanMoveBackward false (setNavKeys None (setCurrent None s))).

(** [rrs && rrs.length && navKeys]. *)
Definition can_page (c : state) : option (string * string) :=
  match rrs c with
  | Some (_ :: _) => navKeys c
  | _ => None
  end.

Definition moveNext (c s : state) : state * option pending :=
  match can_page c with
  | Some (_, last) =>
      let '(s', p) := reload (Some last) "forward" (setCurrent (Some last) s) in (s', Some p)
  | None => (s, None)
  end.

Definition movePrev (c s : state) : state * option pending :=
  match can_page c with
  | Some (first, _) =>
      let '(s', p) := reload (Some first) "backward" (setCurrent (Some first) s) in (s', Some p)
  | None => (s, None)
  end.

Definition addFqdn (s : state) : state :=
  setEditOpen true (setDlgArgs (AddFqdnMode zone "Add fqdn") s).

(** [rrs[rrIx]] of the closure; undefined out of range. *)
Definition rr_at (c : state) (rrIx : nat) : val := default VUndef (default [] (rrs c) !! rrIx).

Definition editRr (c : state) (rrIx : nat) (fqdn type : string) (ix : nat) (s : state) : state :=
  setEditOpen true
    (setDlgArgs (EditRrMode zone "Edit Resource Record"
                   (RrArgs true fqdn (Some type) ix (rr_at c rrIx))) s).

Definition addRr (c : state) (rrIx : nat) (fqdn : string) (s : state) : state :=
  setEditOpen true
    (setDlgArgs (AddRrMode zone "Add Resource Record"
                   (RrArgs false fqdn None 0 (rr_at c rrIx))) s).

Definition onEditClosed (c s : state) : state * pending := reloadCurrent c (setEditOpen false s).

(** AddPopup: the dialog of a mode; without one it throws. *)
Inductive popup : Type :=
| PopupAddFqdn (zone caption : string)
| PopupRr (args : rr_args).

Definition AddPopup (a : dlg_args) : res popup :=
  match a with
  | AddFqdnMode z c => Ok (PopupAddFqdn z c)
  | EditRrMode _ _ args => Ok (PopupRr args)
  | AddRrMode _ _ args => Ok (PopupRr args)
  | NoMode => Throw (JsError "AddPopup: Unknown mode undefined")
  end.

(** ** The component in its environment *)

Record sys : Type := Sys {
  live : state;
  store : heap;
  pendings : list pending;
  deletes : list state
}.

Definition rendered (s : state) : bool :=
  match error s, rrs s with
  | None, Some _ => true
  | _, _ => false
  end.

(** The effect of the mount: [reload()]. *)
Definition mount (h : heap) : sys :=
  let '(s, p) := reload None "forward" init in Sys s h [p] [].

Inductive event : Type :=
| ClickFirst
| ClickPrev
| ClickNext
| ClickReload
| ClickAddFqdn
| ClickEdit (rrIx : nat) (fqdn type : string) (ix : nat)
| ClickAdd (rrIx : nat) (fqdn : string)
| DialogClosed
| Delete
| Answer (i : nat) (r : fetch_result (page json))
| Deleted (i : nat) (ok : bool)
| OtherHandler (h : heap).

Definition add (ps : list pending) (new : option pending) : list pending :=
  ps ++ from_option (fun p => [p]) [] new.

(** One event, [None] when the user interface does not offer it.  [Delete] is
    a deletion of a row after its confirmation; its [onChange] is the
    [reloadCurrent] of that render.  [OtherHandler] is what the handlers of
    rows and dialogs write to the objects. *)
Definition step (y : sys) (e : event) : option sys :=
  let s := live y in
  let act '(s', p) := Some (Sys s' (store y) (add (pendings y) p) (deletes y)) in
  match e with
  | ClickFirst => if rendered s then act (prod_map id Some (moveFirst s s)) else None
  | ClickPrev => if rendered s && canMoveBackward s then act (movePrev s s) else None
  | ClickNext => if rendered s && canMoveForward s then act (moveNext s s) else None
  | ClickReload => if rendered s then act (prod_map id Some (reloadCurrent s s)) else None
  | ClickAddFqdn => if rendered s then act (addFqdn s, None) else None
  | ClickEdit rrIx fqdn type ix => if rendered s then act (editRr s rrIx fqdn type ix s, None) else None
  | ClickAdd rrIx fqdn => if rendered s then act (addRr s rrIx fqdn s, None) else None
  | DialogClosed =>
      if rendered s && isEditOpen s then act (prod_map id Some (onEditClosed s s)) else None
  | Delete => if rendered s then Some (Sys s (store y) (pendings y) (deletes y ++ [s])) else None
  | Answer i r =>
      match pendings y !! i with
      | Some p =>
          let '(s', h') :=
            match error s with
            | Some _ => (s, store y)
            | None => reload_resume p r s (store y)
            end in
          Some (Sys s' h' (delete i (pendings y)) (deletes y))
      | None => None
      end
  | Deleted i ok =>
      match deletes y !! i with
      | Some c =>
          let '(s', p) :=
            match error s, ok with
            | None, true => prod_map id Some (reloadCurrent c s)
            | _, _ => (s, None)
            end in
          Some (Sys s' (store y) (add (pendings y) p) (delete i (deletes y)))
      | None => None
      end
  | OtherHandler h => Some (Sys s h (pendings y) (deletes y))
  end.

(** ** What is on screen *)

Record control : Type := Control {
  label : string;
  enabled : bool;
  on_click : event
}.

(** The fallback of the ErrorBoundary, the BeatLoader, or the table: the
    cells of every record set, the buttons below it, and the dialog while it
    is open. *)
Inductive screen : Type :=
| WentWrong
| Loading
| Table (rows : list rr_view) (controls : list control) (dialog : option popup).

Definition controls (s : state) : list control :=
  [Control "From Start" true ClickFirst;
   Control "Prev" (canMoveBackward s) ClickPrev;
   Control "Reload" true ClickReload;
   Control "Next" (canMoveForward s) ClickNext;
   Control "Add fqdn" true ClickAddFqdn].

Definition render (s : state) : js screen :=
  match error s, rrs s with
  | Some _, _ => mret WentWrong
  | None, None => mret Loading
  | None, Some vs =>
      rows ← js_map RrCells vs;
      if isEditOpen s then
        match AddPopup (dlgArgs s) with
        | Ok p => mret (Table rows (controls s) (Some p))
        | Throw e => throw e
        end
      else mret (Table rows (controls s) None)
  end.

Fixpoint steps (y : sys) (es : list event) : option sys :=
  match es with
  | [] => Some y
  | e :: es' => match step y e with Some y' => steps y' es' | None => None end
  end.

(** ** Browsing a zone that does not change *)

Section Browse.
Context `{PageServerLaws json} (cfg : rest_config).
Context (serve : string -> fetch_result (page json)).
Hypothesis max_ok : 0 < max <= rest_max_page_size cfg.
Hypothesis max_small : (Z.of_nat max < 2 ^ 31)%Z.
Hypothesis url_plain : has_char "?" (getUrl app ("/zone/" +:+ zone)) = false.

(** The server answers the requests of the list as a paged server does. *)
Hypothesis serve_ok : forall (from : option string) (forward : bool),
  (forall k, from = Some k -> exists i x, items !! i = Some x /\ k = item_key x) ->
  let u := url (list_request from (if forward then "forward" else "backward")) in
  serve u = serve_url (A := json) cfg u.

Inductive nav : Type := First | Prev | Next | Reload.

Definition click (n : nav) : event :=
  match n with
  | First => ClickFirst
  | Prev => ClickPrev
  | Next => ClickNext
  | Reload => ClickReload
  end.

(** The outstanding list request is answered by the server. *)
Definition answered (y : sys) : sys :=
  match pendings y with
  | [p] => default y (step y (Answer 0 (serve (url (p_request p)))))
  | _ => y
  end.

Definition navigate (y : sys) (n : nav) : sys :=
  match step y (click n) with
  | Some y' => answered y'
  | None => y
  end.

Definition key_at (i : nat) : string := default ""%string (item_key <$> items !! i).
Abbreviation total := (length (items : list json)).

(** The list shows the page that starts at record [i], each record set as the
    server has it. *)
Record shows (y : sys) (i : nat) : Prop := {
  sh_error : error (live y) = None;
  sh_pendings : pendings y = [];
  sh_rrs : exists vs js, rrs (live y) = Some vs /\ Forall2 (read (store y)) vs js /\
    js ≡ₚ window i max items;
  sh_keys : navKeys (live y) = Some (default ""%string (item_key <$> head (window i max items)),
                                     default ""%string (item_key <$> last (window i max items)))
}.

Lemma rrs_shows_rendered (y : sys) (i : nat) : shows y i -> rendered (live y) = true.
Proof. intros [He _ (v & j & Hz & _) _]. unfold rendered. by rewrite He, Hz. Qed.

Lemma shows_length (y : sys) (i : nat) vs :
  shows y i -> rrs (live y) = Some vs -> length vs = Nat.min max (total - i).
Proof.
  intros [_ _ (v & j & Hz & Hr & Hp) _] E. rewrite Hz in E. injection E as <-.
  by rewrite (Forall2_length _ _ _ Hr), Hp, window_length.
Qed.

Lemma rrs_shows_can_page (y : sys) (i : nat) :
  shows y i -> i < total ->
  can_page (live y) = Some (key_at i, key_at (Nat.min (i + max) total - 1)).
Proof.
  intros Hs Hi. destruct (Hs) as [_ _ (v & j & Hz & _) Hk]. unfold can_page. rewrite Hz, Hk.
  assert (Hl := shows_length _ _ _ Hs Hz).
  destruct v as [|z v]; [cbn in *; lia|]. rewrite window_head, window_last by lia. done.
Qed.

(** A request for a valid position is answered with its page. *)
Lemma rrs_serve_request (from : option string) (forward : bool) :
  (forall k, from = Some k -> exists i x, items !! i = Some x /\ k = item_key x) ->
  serve (url (list_request from (if forward then "forward" else "backward")))
  = Resp true "OK" (Some (list_page (default "" from)
      (match from with Some _ => forward | None => true end) max)).
Proof.
  intros Hf. rewrite serve_ok by done. cbn [list_request url]. unfold getUrl. rewrite <- string_app_assoc.
  apply serve_url_page; [done|done|exact url_plain|done|].
  intros k Hk. destruct (Hf k Hk) as (i & x & Hx & ->).
  destruct (item_key_valid x) as (? & ? & ?); [by eapply list_elem_of_lookup_2|done].
Qed.

(** The state after the page [z] arrived. *)
Lemma resume_shows (p : pending) (z : page json) (i n : nat) (m : bool) (s : state) (h : heap) st ds :
  page_of z (window i n items) m -> window i n items = window i max items ->
  error s = None ->
  let '(s', h') := reload_resume p (Resp true st (Some z)) s h in
  shows (Sys s' h' [] ds) i /\ currentDirection s' = currentDirection s /\
  canMoveBackward s'
  = (if String.eqb (p_direction p) "forward" then bool_decide (p_from p <> None) else m) /\
  canMoveForward s'
  = (if String.eqb (p_direction p) "forward" then m
     else m || Nat.eqb (Nat.min max (total - i)) max) /\
  current s' = (if String.eqb (p_direction p) "forward" || m then current s else None).
Proof.
  intros (Hv & Hm & Hf & Hl) Hw He. unfold reload_resume.
  destruct (load_list_ranges (value z) h) as (new & _ & _).
  assert (Hr := load_list_read (value z) h).
  destruct (load_list (value z) h) as [vs h'] eqn:El. cbn [fst snd] in Hr. rewrite Hw in *.
  assert (Hlen : length vs = Nat.min max (total - i))
    by by rewrite (Forall2_length _ _ _ Hr), Hv, window_length.
  assert (Hsh : forall s', rrs s' = Some vs -> error s' = None ->
    navKeys s' = Some (kfirst z, klast z) -> shows (Sys s' h' [] ds) i).
  { intros s' E1 E2 E3. split; cbn; [done|done| |by rewrite E3, Hf, Hl].
    exists vs, (value z). auto. }
  rewrite Hm. destruct (String.eqb (p_direction p) "forward") eqn:Ed; [|destruct m];
    cbn -[Nat.eqb]; rewrite ?Hlen; (split_and!; [by apply Hsh|done..]).
Qed.

Lemma answered_page (s : state) (p : pending) (h : heap) ds z i n m st :
  serve (url (p_request p)) = Resp true st (Some z) ->
  page_of z (window i n items) m -> window i n items = window i max items ->
  error s = None ->
  let y' := answered (Sys s h [p] ds) in
  shows y' i /\ currentDirection (live y') = currentDirection s /\
  canMoveBackward (live y')
  = (if String.eqb (p_direction p) "forward" then bool_decide (p_from p <> None) else m) /\
  canMoveForward (live y')
  = (if String.eqb (p_direction p) "forward" then m
     else m || Nat.eqb (Nat.min max (total - i)) max) /\
  current (live y') = (if String.eqb (p_direction p) "forward" || m then current s else None).
Proof.
  intros Hs Hp Hw He. unfold answered. cbn [pendings step live store]. rewrite He, Hs.
  cbn [lookup list_lookup].
  assert (Hx := resume_shows p z i n m s h st ds Hp Hw He).
  destruct (reload_resume p (Resp true st (Some z)) s h) as [s' h']. exact Hx.
Qed.

Lemma item_at (i : nat) : i < total -> exists x, items !! i = Some x /\ key_at i = item_key x.
Proof.
  intros Hi. destruct (lookup_lt_is_Some_2 (items : list json) i Hi) as [x Hx].
  exists x. split; [done|]. unfold key_at. by rewrite Hx.
Qed.

(** What a page on screen says of itself: the start, the flags and the
    position kept for Reload. *)
Definition at_page (y : sys) (i : nat) (back fwd : bool) : Prop :=
  shows y i /\ canMoveBackward (live y) = back /\ canMoveForward (live y) = fwd.

Lemma first_page (s : state) (h : heap) ds :
  error s = None ->
  let '(s', p) := reload None "forward" s in
  let y' := answered (Sys s' h [p] ds) in
  at_page y' 0 false (max <? total) /\ current (live y') = current s.
Proof.
  intros He. unfold reload.
  edestruct (answered_page (setCurrentDirection "forward" (setRrs None s))
               (Pending None "forward" (list_request None "forward")) h ds (list_page "" true max) 0 max)
    as (H1 & _ & H2 & H3 & H4);
    [apply (rrs_serve_request None true); done|apply page_start; lia|done|done|].
  cbn in H2, H3, H4. split; [split_and!; done|done].
Qed.

Lemma rrs_navigate_first (y : sys) (i : nat) :
  shows y i -> at_page (navigate y First) 0 false (max <? total).
Proof.
  intros Hy. unfold navigate. cbn [click step]. rewrite (rrs_shows_rendered y i Hy).
  unfold moveFirst. cbv beta iota delta [prod_map fst snd id]. unfold add.
  rewrite (sh_pendings y i Hy). cbn [Datatypes.app from_option].
  apply (first_page (setCanMoveBackward false (setNavKeys None (setCurrent None (live y)))) (store y) (deletes y)).
  apply Hy.
Qed.

(** Next on a page with a successor shows the following page. *)
Lemma rrs_navigate_next (y : sys) (i : nat) :
  shows y i -> i + max < total -> canMoveForward (live y) = true ->
  at_page (navigate y Next) (i + max) true (i + max + max <? total).
Proof.
  intros Hy Hi Hf. unfold navigate. cbn [click step].
  rewrite (rrs_shows_rendered y i Hy), Hf. cbn [andb].
  unfold moveNext. rewrite (rrs_shows_can_page y i Hy) by lia. unfold reload.
  replace (Nat.min (i + max) total - 1) with (i + max - 1) by lia.
  destruct (item_at (i + max - 1)) as (x & Hx & ->); [lia|].
  unfold add. rewrite (sh_pendings y i Hy). cbn [Datatypes.app from_option].
  assert (Hp := page_forward max (i + max - 1) x ltac:(lia) Hx).
  replace (S (i + max - 1)) with (i + max) in Hp by lia.
  edestruct (answered_page (setCurrentDirection "forward" (setRrs None (setCurrent (Some (item_key x)) (live y))))
               (Pending (Some (item_key x)) "forward" (list_request (Some (item_key x)) "forward"))
               (store y) (deletes y) (list_page (item_key x) true max) (i + max) max) as (H1 & _ & H2 & H3 & _);
    [apply (rrs_serve_request (Some (item_key x)) true); intros k [= <-]; eauto|exact Hp|done|apply Hy|].
  cbn [p_direction p_from] in H2, H3. split_and!; [exact H1|exact H2|]. rewrite H3.
  change (String.eqb "forward" "forward") with true. cbv iota. bool_lia.
Qed.

(** Prev on a later page shows the page before it. *)
Lemma rrs_navigate_prev (y : sys) (i : nat) :
  shows y i -> max <= i < total -> canMoveBackward (live y) = true ->
  at_page (navigate y Prev) (i - max) (max <? i) true /\
  (i = max -> current (live (navigate y Prev)) = None) /\
  currentDirection (live (navigate y Prev)) = "backward"%string.
Proof.
  intros Hy Hi Hb. unfold navigate. cbn [click step].
  rewrite (rrs_shows_rendered y i Hy), Hb. cbn [andb].
  unfold movePrev. rewrite (rrs_shows_can_page y i Hy) by lia. unfold reload.
  destruct (item_at i) as (x & Hx & ->); [lia|].
  unfold add. rewrite (sh_pendings y i Hy). cbn [Datatypes.app from_option].
  assert (Hp := page_backward max i x ltac:(lia) Hx). rewrite Nat.min_l in Hp by lia.
  edestruct (answered_page (setCurrentDirection "backward" (setRrs None (setCurrent (Some (item_key x)) (live y))))
               (Pending (Some (item_key x)) "backward" (list_request (Some (item_key x)) "backward"))
               (store y) (deletes y) (list_page (item_key x) false max) (i - max) max) as (H1 & H5 & H2 & H3 & H4);
    [apply (rrs_serve_request (Some (item_key x)) false); intros k [= <-]; eauto|exact Hp|done|apply Hy|].
  cbn [p_direction p_from] in H2, H3, H4.
  change (String.eqb "backward" "forward") with false in *. cbv iota in H2, H3. cbn [orb] in H4.
  unfold at_page. split_and!; [exact H1|exact H2| | |exact H5].
  - rewrite H3. apply orb_true_iff. right. apply Nat.eqb_eq. lia.
  - intros ->. rewrite H4. by rewrite Nat.ltb_irrefl.
Qed.

(** The list after mounting. *)
Definition opened (h : heap) : sys := answered (mount h).

Lemma opened_page (h : heap) : at_page (opened h) 0 false (max <? total).
Proof. apply (first_page init h []). done. Qed.

Definition browse (h : heap) (ns : list nav) : sys := fold_left navigate ns (opened h).

(** The abstract pager: the number of the page. *)
Definition pager_nav (k : nat) (n : nav) : nat :=
  match n with
  | First => 0
  | Prev => Nat.pred k
  | Next => if k * max + max <? total then S k else k
  | Reload => k
  end.

(** The list is at page [k] of the pager. *)
Definition browsing (y : sys) (k : nat) : Prop :=
  (k = 0 \/ k * max < total) /\ at_page y (k * max) (0 <? k) (k * max + max <? total).

Lemma rrs_navigate_browsing (y : sys) (k : nat) (n : nav) :
  browsing y k -> n <> Reload -> browsing (navigate y n) (pager_nav k n).
Proof.
  intros (Hk & Hs & Hb & Hf) Hn. unfold browsing. destruct n; [| | |done]; cbn [pager_nav].
  - split; [by left|]. cbn [Nat.mul Nat.add]. by eapply rrs_navigate_first.
  - destruct k as [|k]; cbn [Nat.pred].
    + assert (navigate y Prev = y) as ->; [|done].
      unfold navigate. cbn [click step]. by rewrite Hb, andb_false_r.
    + assert (Hkt : k * max + max < total) by lia.
      destruct (rrs_navigate_prev y _ Hs) as [(H1 & H2 & H3) _]; [lia|done|].
      replace (S k * max - max) with (k * max) in H1 by lia.
      split; [right; lia|]. unfold at_page. split_and!; [done|rewrite H2; bool_lia|].
      rewrite H3. symmetry. by apply Nat.ltb_lt.
  - destruct (Nat.ltb_spec (k * max + max) total) as [Hlt|Hge].
    + replace (S k * max) with (k * max + max) by lia. split; [by right|].
      destruct (rrs_navigate_next y _ Hs) as (H1 & H2 & H3); [done|done|].
      unfold at_page. split_and!; [done|by rewrite H2|done].
    + assert (navigate y Next = y) as ->.
      { unfold navigate. cbn [click step]. by rewrite Hf, andb_false_r. }
      split; [done|]. unfold at_page. split_and!; [done|done|].
      rewrite Hf. symmetry. by apply Nat.ltb_ge.
Qed.

Lemma rrs_browse_browsing (h : heap) (ns : list nav) :
  Forall (fun n => n <> Reload) ns -> browsing (browse h ns) (fold_left pager_nav ns 0).
Proof.
  intros Hns. unfold browse.
  assert (Ho : browsing (opened h) 0) by (split; [by left|apply opened_page]).
  revert Ho. generalize (opened h) 0. induction Hns as [|n ns Hn _ IH]; intros y k Hy; [done|].
  cbn [fold_left]. by apply IH, rrs_navigate_browsing.
Qed.

Lemma rrs_browse_run (h : heap) (ns : list nav) :
  Forall (fun n => n <> Reload) ns ->
  let k := fold_left pager_nav ns 0 in
  let y := browse h ns in
  exists vs js, error (live y) = None /\ rrs (live y) = Some vs /\ Forall2 (read (store y)) vs js /\
    js ≡ₚ window (k * max) max items /\ (k = 0 \/ k * max < total) /\
    canMoveBackward (live y) = (0 <? k) /\
    canMoveForward (live y) = (k * max + max <? total).
Proof.
  intros Hns. destruct (rrs_browse_browsing h ns Hns) as (Hk & [He _ (vs & js & Hz & Hr & Hv) _] & Hb & Hf).
  exists vs, js. auto 10.
Qed.

(** The list of record sets refines a pager: after any sequence of First,
    Prev and Next it shows the page the pager is at, every record set of that
    page as the server has it; Prev is enabled exactly when a page precedes it
    and Next exactly when one follows. *)
Theorem rrs_browse_exact (h : heap) (ns : list nav) :
  Forall (fun n => n <> Reload) ns ->
  let k := fold_left pager_nav ns 0 in
  let y := browse h ns in
  exists vs js, error (live y) = None /\ rrs (live y) = Some vs /\ Forall2 (read (store y)) vs js /\
    js ≡ₚ window (k * max) max items /\ (k = 0 \/ k * max < total) /\
    canMoveBackward (live y) = (0 <? k) /\
    canMoveForward (live y) = (k * max + max <? total).
Proof. apply rrs_browse_run. Qed.

(** After returning to the first page with Prev, Reload keeps asking for
    the direction backward and enables Prev on the first page. *)
Theorem rrs_reload_enables_prev (h : heap) :
  max < total ->
  shows (browse h [Next; Prev; Reload]) 0 /\
  canMoveBackward (live (browse h [Next; Prev; Reload])) = true.
Proof.
  intros Ht. unfold browse. cbn [fold_left].
  destruct (opened_page h) as (Hs & Hb & Hf).
  destruct (rrs_navigate_next _ _ Hs) as (Hs1 & Hb1 & _); [lia|rewrite Hf; by apply Nat.ltb_lt|].
  cbn [Nat.add] in Hs1.
  destruct (rrs_navigate_prev _ _ Hs1) as ((Hs2 & _) & Hc & Hd); [lia|done|].
  rewrite Nat.sub_diag in Hs2. specialize (Hc eq_refl). set (y := navigate _ Prev) in *.
  unfold navigate. cbn [click step]. rewrite (rrs_shows_rendered y 0 Hs2).
  unfold reloadCurrent, reload. cbv beta iota delta [prod_map fst snd id]. rewrite Hc, Hd.
  unfold add. rewrite (sh_pendings y 0 Hs2). cbn [Datatypes.app from_option].
  edestruct (answered_page (setCurrentDirection "backward" (setRrs None (live y)))
               (Pending None "backward" (list_request None "backward")) (store y) (deletes y) (list_page "" true max) 0 max)
    as (H1 & _ & H2 & _);
    [apply (rrs_serve_request None false); done|apply page_start; lia|done|apply Hs2|].
  cbn [p_direction p_from] in H2. split; [exact H1|]. rewrite H2. by apply Nat.ltb_lt.
Qed.
End Browse.

(** ** Outstanding requests *)

(** With no deletion under way, one of: an error is shown; one list request
    is outstanding and the list is hidden; the list is shown and nothing is
    outstanding. *)
Definition settled (y : sys) : Prop :=
  deletes y = [] /\
  (is_Some (error (live y)) \/
   (rrs (live y) = None /\ length (pendings y) = 1) \/
   (is_Some (rrs (live y)) /\ pendings y = [])).

Definition is_delete (e : event) : bool := match e with Delete => true | _ => false end.

Lemma rrs_rendered_iff (s : state) : rendered s = true <-> error s = None /\ is_Some (rrs s).
Proof.
  unfold rendered. destruct (error s), (rrs s); split; try done; try (by intros [? ?]);
    try (by intros [? [? ?]]); eauto.
Qed.

Lemma settled_idle (y : sys) : settled y -> rendered (live y) = true -> pendings y = [].
Proof.
  intros [_ Hs] [He [vs Hv]]%rrs_rendered_iff. destruct Hs as [[e Hs]|[[Hs _]|[_ ?]]]; congruence.
Qed.

Lemma settled_loading (y : sys) (s : state) (h : heap) (p : pending) :
  settled y -> rendered (live y) = true -> rrs s = None ->
  settled (Sys s h (add (pendings y) (Some p)) (deletes y)).
Proof.
  intros Hs Hr Hz. rewrite (settled_idle y Hs Hr). split; [apply Hs|]. by right; left.
Qed.

Lemma settled_same (y : sys) (s : state) (h : heap) :
  settled y -> rendered (live y) = true -> rrs s = rrs (live y) ->
  settled (Sys s h (add (pendings y) None) (deletes y)).
Proof.
  intros Hs Hr Hz. rewrite (settled_idle y Hs Hr). split; [apply Hs|]. right; right. cbn.
  rewrite Hz. split; [|done]. by apply rrs_rendered_iff in Hr as [_ ?].
Qed.

Lemma rrs_page_cases (c s : state) :
  (moveNext c s = (s, None) \/ exists s' p, moveNext c s = (s', Some p) /\ rrs s' = None) /\
  (movePrev c s = (s, None) \/ exists s' p, movePrev c s = (s', Some p) /\ rrs s' = None).
Proof. unfold moveNext, movePrev. destruct (can_page c) as [[f l]|]; cbn; eauto 10. Qed.

Lemma rrs_reload_resume_shows (p : pending) (r : fetch_result (page json)) (s : state) (h : heap) :
  is_Some (error (fst (reload_resume p r s h))) \/ is_Some (rrs (fst (reload_resume p r s h))).
Proof.
  unfold reload_resume. destruct r as [|[] ? [z|]]; cbn; eauto.
  destruct (load_list (value z) h). repeat break_match; cbn; eauto.
Qed.

Lemma rrs_step_settled (y y' : sys) (e : event) :
  settled y -> is_delete e = false -> step y e = Some y' -> settled y'.
Proof.
  intros Hs He Hst. pose proof Hs as [Hd Hs']. destruct (rrs_page_cases (live y) (live y)) as [Hn Hp].
  unfold step in Hst. destruct e; try done;
    try (destruct (rendered (live y)) eqn:Hr; [|done]); cbn [andb] in Hst.
  - injection Hst as <-. by apply settled_loading.
  - destruct (canMoveBackward (live y)); [|done].
    destruct Hp as [E|(s' & p & E & Hz)]; rewrite E in Hst; injection Hst as <-;
      [by apply settled_same|by apply settled_loading].
  - destruct (canMoveForward (live y)); [|done].
    destruct Hn as [E|(s' & p & E & Hz)]; rewrite E in Hst; injection Hst as <-;
      [by apply settled_same|by apply settled_loading].
  - injection Hst as <-. by apply settled_loading.
  - injection Hst as <-. by apply settled_same.
  - injection Hst as <-. by apply settled_same.
  - injection Hst as <-. by apply settled_same.
  - destruct (isEditOpen (live y)); [|done]. injection Hst as <-. by apply settled_loading.
  - destruct (pendings y !! i) as [p|] eqn:Ep; [|done]. split.
    { destruct (error (live y)); [|destruct (reload_resume p r (live y) (store y))]; by injection Hst as <-. }
    destruct (error (live y)) as [e|] eqn:Ee.
    { injection Hst as <-. left. cbn. rewrite Ee. eauto. }
    destruct Hs' as [[? ?]|[[Hz Hl]|[_ Hz]]]; [done| |by rewrite Hz in Ep].
    assert (Hx := rrs_reload_resume_shows p r (live y) (store y)).
    destruct (reload_resume p r (live y) (store y)) as [s' h']. injection Hst as <-. cbn in *.
    destruct Hx as [Hx|Hx]; [by left|]. right; right. split; [done|].
    destruct (pendings y) as [|p0 [|]]; [done| |done]. by destruct i.
  - by rewrite Hd in Hst.
  - injection Hst as <-. exact Hs.
Qed.

(** As long as no deletion was confirmed, the component is in one of three
    situations, whatever the user presses and the dialogs write: an error is
    shown; one list request is outstanding and the list is hidden; the list
    is shown and nothing is outstanding. *)
Theorem rrs_settled (h : heap) (es : list event) (y : sys) :
  forallb (fun e => negb (is_delete e)) es = true -> steps (mount h) es = Some y -> settled y.
Proof.
  assert (Hm : settled (mount h)) by (split; [done|]; by right; left).
  revert Hm. generalize (mount h). induction es as [|e es IH]; intros y0 H0 Hes Hst; cbn in *.
  - by injection Hst as <-.
  - apply andb_true_iff in Hes as [He%negb_true_iff Hes].
    destruct (step y0 e) as [y1|] eqn:E; [|done]. eapply IH; [by eapply rrs_step_settled|done|done].
Qed.

(** The loader is only shown while a request is outstanding. *)
Definition progressing (y : sys) : Prop :=
  is_Some (error (live y)) \/ is_Some (rrs (live y)) \/ pendings y <> [].

Lemma add_some (ps : list pending) p : add ps (Some p) <> [].
Proof. unfold add. by destruct ps. Qed.

Lemma progressing_loading s h ps p ds : progressing (Sys s h (add ps (Some p)) ds).
Proof. right; right. apply add_some. Qed.

Lemma progressing_rendered s h ps ds : rendered s = true -> progressing (Sys s h ps ds).
Proof. intros [_ H]%rrs_rendered_iff. by right; left. Qed.

Lemma progressing_answer (y y' : sys) i r : step y (Answer i r) = Some y' -> progressing y'.
Proof.
  cbn [step]. destruct (pendings y !! i) as [p|]; [|done]. destruct (error (live y)) as [e|] eqn:Ee.
  - intros [= <-]. left. cbn. rewrite Ee. eauto.
  - assert (Hx := rrs_reload_resume_shows p r (live y) (store y)).
    destruct (reload_resume p r (live y) (store y)) as [s' h']. intros [= <-].
    destruct Hx as [Hx|Hx]; [by left|by right; left].
Qed.

Lemma progressing_step (y y' : sys) (e : event) : progressing y -> step y e = Some y' -> progressing y'.
Proof.
  intros Hy Hst. destruct (rrs_page_cases (live y) (live y)) as [Hn Hp].
  destruct e as [| | | | | | | | |i r| |]; try (by eapply progressing_answer); unfold step in Hst;
    try (destruct (rendered (live y)) eqn:Hr; [|done]); cbn [andb] in Hst;
    try (injection Hst as <-; by (apply progressing_loading || apply progressing_rendered)).
  - destruct (canMoveBackward (live y)); [|done].
    destruct Hp as [E|(s' & p & E & Hz)]; rewrite E in Hst; injection Hst as <-;
      [by apply progressing_rendered|by apply progressing_loading].
  - destruct (canMoveForward (live y)); [|done].
    destruct Hn as [E|(s' & p & E & Hz)]; rewrite E in Hst; injection Hst as <-;
      [by apply progressing_rendered|by apply progressing_loading].
  - destruct (isEditOpen (live y)); [|done]. injection Hst as <-. by apply progressing_loading.
  - destruct (deletes y !! i) as [c|]; [|done].
    destruct (error (live y)) as [er|] eqn:Ee, ok; injection Hst as <-;
      try (left; cbn; rewrite Ee; eauto; fail); [by apply progressing_loading|].
    destruct Hy as [Hy|[Hy|Hy]]; [by left|by right; left|right; right]. unfold add. cbn. by rewrite app_nil_r.
  - injection Hst as <-. exact Hy.
Qed.

Lemma progressing_steps (y y' : sys) (es : list event) : progressing y -> steps y es = Some y' -> progressing y'.
Proof.
  revert y. induction es as [|e es IH]; intros y Hy Hst; cbn in Hst; [by injection Hst as <-|].
  destruct (step y e) as [y1|] eqn:E; [|done]. eapply IH; [by eapply progressing_step|done].
Qed.

(** C27: Loading always ends: after any events, when the outstanding requests
    are answered, each by a rejection, a refusal, a body that cannot be decoded
    or a listing as the server writes it, the loader gives way to the table or
    to an error. *)
Theorem rrs_loading_ends (h : heap) (es : list event) (y : sys) (rs : list (fetch_result (page json))) :
  steps (mount h) es = Some y -> length rs = length (pendings y) ->
  exists y', steps y (Answer 0 <$> rs) = Some y' /\ pendings y' = [] /\
    (is_Some (error (live y')) \/ is_Some (rrs (live y'))).
Proof.
  intros Hst Hlen. assert (Hy : progressing y).
  { eapply progressing_steps; [|exact Hst]. by right; right. }
  clear Hst. revert y Hy Hlen. induction rs as [|r rs IH]; intros y Hy Hlen.
  - exists y. destruct Hy as [Hy|[Hy|Hy]]; [by destruct (pendings y); auto..|]. by destruct (pendings y).
  - cbn [fmap list_fmap steps]. destruct (pendings y) as [|p ps] eqn:Ep; [done|].
    destruct (step y (Answer 0 r)) as [y1|] eqn:E.
    2: { exfalso. cbn [step] in E. rewrite Ep in E. cbn in E.
         destruct (error (live y)); [done|]. by destruct (reload_resume p r (live y) (store y)). }
    apply IH; [by eapply progressing_step|]. cbn [step] in E. rewrite Ep in E. cbn [lookup list_lookup] in E.
    destruct (match error (live y) with Some _ => _ | None => _ end) as [s' h']. injection E as <-.
    cbn in Hlen |- *. lia.
Qed.

(** The dialog is open only with arguments that AddPopup knows. *)
Definition known_mode (y : sys) : Prop :=
  isEditOpen (live y) = true -> exists p, AddPopup (dlgArgs (live y)) = Ok p.

Lemma step_known_mode (y y' : sys) (e : event) :
  known_mode y -> step y e = Some y' -> known_mode y'.
Proof.
  intros Hk Hst. unfold known_mode in *. destruct (rrs_page_cases (live y) (live y)) as [Hn Hp].
  unfold step in Hst. destruct e; try (destruct (rendered (live y)) eqn:Hr; [|done]); cbn [andb] in Hst.
  - by injection Hst as <-.
  - destruct (canMoveBackward (live y)); [|done]. unfold movePrev in Hst.
    destruct (can_page (live y)) as [[]|]; by injection Hst as <-.
  - destruct (canMoveForward (live y)); [|done]. unfold moveNext in Hst.
    destruct (can_page (live y)) as [[]|]; by injection Hst as <-.
  - by injection Hst as <-.
  - injection Hst as <-. intros _. by eexists.
  - injection Hst as <-. intros _. by eexists.
  - injection Hst as <-. intros _. by eexists.
  - destruct (isEditOpen (live y)); [|done]. by injection Hst as <-.
  - by injection Hst as <-.
  - destruct (pendings y !! i) as [p|]; [|done].
    destruct (error (live y)); [by injection Hst as <-|].
    unfold reload_resume in Hst. destruct r as [|[] ? [z|]]; try by injection Hst as <-.
    destruct (load_list (value z) (store y)). repeat (break_match_in Hst); by injection Hst as <-.
  - destruct (deletes y !! i) as [c|]; [|done].
    destruct (error (live y)), ok; by injection Hst as <-.
  - by injection Hst as <-.
Qed.

(** AddPopup never meets an unknown mode: in every reachable state an open
    dialog has one of the arguments the list's handlers give it. *)
Theorem rrs_dialog_mode (h : heap) (es : list event) (y : sys) :
  steps (mount h) es = Some y -> isEditOpen (live y) = true ->
  exists p, AddPopup (dlgArgs (live y)) = Ok p.
Proof.
  assert (Hm : known_mode (mount h)) by done.
  revert Hm. generalize (mount h). induction es as [|e es IH]; intros y0 H0 Hst; cbn in Hst.
  - injection Hst as <-. exact H0.
  - destruct (step y0 e) as [y1|] eqn:E; [|done]. apply (IH y1); [|done]. by eapply step_known_mode.
Qed.

(** From the list to the server: pressing Edit in a row of a displayed
    record set and then Save, with nothing typed, sends that record set back
    as the server has it, if no input of the row is empty. *)
Theorem rrs_edit_row (y : sys) (vs : list val) rrIx lr js fqdn n rows row o :
  rendered (live y) = true -> rrs (live y) = Some vs -> vs !! rrIx = Some (VRef lr) ->
  read (store y) (VRef lr) (JObj js) -> finite (JObj js) = true -> NoDup js.*1 ->
  forallb rr_fits js = true -> assoc_get "fqdn" js = Some (JStr fqdn) ->
  RrCells (VRef lr) (store y) = (Ok (Cells n fqdn rows), store y) -> row ∈ rows ->
  (forall j u, assoc_get (row_target row).1 js = Some j -> json_entry j (row_target row).2 = Some u ->
     json_hasOwn j (row_target row).1 = false /\ json_editable (type_proto (row_target row).1) u /\
     json_filled u = true) ->
  (row_target row).1 <> "soa"%string ->
  exists y' args h3,
    step y (ClickEdit rrIx fqdn (row_target row).1 (row_target row).2) = Some y' /\
    isEditOpen (live y') = true /\ AddPopup (dlgArgs (live y')) = Ok (PopupRr args) /\
    save_unchanged app args o (store y')
    = let req := rr_put app fqdn (assoc_del "fqdn" js) in
      Trace [req] (saved fqdn (answer o req)) (Ok tt) h3.
Proof.
  intros Hr Hvs Hix Hrd Hfin Hnd Hfit Hq Hrun Hrow Hed Hsoa.
  rewrite (RrCells_run _ _ _ _ Hrd Hfit Hq) in Hrun. injection Hrun as _ <-.
  destruct (json_rows_target _ _ Hrow Hnd) as (j & u & Hj & Hu & _).
  destruct (Hed _ _ Hj Hu) as (Hown & Hedit & Hfill).
  assert (Hat : rr_at (live y) rrIx = VRef lr) by (unfold rr_at; rewrite Hvs; cbn; by rewrite Hix).
  destruct (edit_roundtrip_run app o (store y) lr fqdn js (row_target row).1 (row_target row).2 j u)
    as (h3 & E); [done..|]. rewrite Hfill in E.
  eexists (Sys (editRr (live y) rrIx fqdn _ _ (live y)) (store y) (add (pendings y) None) (deletes y)), _, h3.
  split; [cbn [step]; rewrite Hr; reflexivity|]. split; [reflexivity|].
  split; [reflexivity|]. cbn [live store dlgArgs]. rewrite Hat. exact E.
Qed.
End Component.
End ListRrs.

(** ** Witnesses: a zone of fifteen record sets, pages of ten *)

Module ListDemo.
Import ListRrs RrDemo.

Definition name_of (j : json) : string :=
  match j with
  | JObj ps => match assoc_get "fqdn" ps with Some (JStr s) => s | _ => "" end
  | _ => ""
  end.

Definition zone_rrs : list json :=
  (fun c => JObj [("fqdn", JStr (String c ".example.com"));
                  ("a", JArr [JStr "127.0.0.1"])])%string
    <$> list_ascii_of_string "abcdefghijklmno".

Definition demo_cfg : rest_config := RestConfig 1000 100.

#[export] Instance rr_server : PageServer json := list_server zone_rrs name_of.

#[export] Instance rr_laws : PageServerLaws json.
Proof.
  apply list_server_laws.
  - refine (bool_decide_unpack (NoDup (name_of <$> zone_rrs)) _). vm_compute. exact I.
  - apply Forall_forall. unfold zone_rrs. repeat constructor; done.
Qed.

Lemma rrs_demo_max : 0 < 10 <= rest_max_page_size demo_cfg.
Proof. cbn. lia. Qed.

Lemma rrs_browse_exact_witness :
  let y := browse initialState "example.com" 10 (serve_url demo_cfg) [] [Next; Prev; Next] in
  exists vs js, error (live y) = None /\ rrs (live y) = Some vs /\ Forall2 (read (store y)) vs js /\
    js ≡ₚ window (1 * 10) 10 zone_rrs /\ (1 = 0 \/ 1 * 10 < length zone_rrs) /\
    canMoveBackward (live y) = (0 <? 1) /\
    canMoveForward (live y) = (1 * 10 + 10 <? length zone_rrs).
Proof.
  refine (rrs_browse_exact initialState "example.com" 10 demo_cfg (serve_url demo_cfg) rrs_demo_max eq_refl eq_refl (fun _ _ _ => eq_refl) []
            [Next; Prev; Next] _).
  repeat constructor; discriminate.
Defined.

Lemma rrs_reload_enables_prev_witness :
  shows 10 (browse initialState "example.com" 10 (serve_url demo_cfg) [] [Next; Prev; Reload]) 0 /\
  canMoveBackward (live (browse initialState "example.com" 10 (serve_url demo_cfg) [] [Next; Prev; Reload])) = true.
Proof.
  refine (rrs_reload_enables_prev initialState "example.com" 10 demo_cfg (serve_url demo_cfg) rrs_demo_max eq_refl eq_refl (fun _ _ _ => eq_refl) [] _).
  cbn. lia.
Defined.

Lemma rrs_settled_witness :
  exists y, steps initialState "example.com" 10 (mount initialState "example.com" 10 [])
              [Answer 0 (Rejected true "offline")] = Some y /\ settled y.
Proof.
  eexists. split; [vm_compute; reflexivity|].
  eapply (rrs_settled initialState "example.com" 10 [] [Answer 0 (Rejected true "offline")]);
    vm_compute; reflexivity.
Defined.

Lemma rrs_loading_ends_witness :
  exists y y', steps initialState "example.com" 10 (mount initialState "example.com" 10 []) [] = Some y /\
    steps initialState "example.com" 10 y (Answer 0 <$> [Rejected true "offline"]) = Some y' /\
    pendings y' = [] /\ (is_Some (error (live y')) \/ is_Some (rrs (live y'))).
Proof.
  destruct (rrs_loading_ends initialState "example.com" 10 [] [] _ [Rejected true "offline"] eq_refl eq_refl)
    as (y' & H). by exists (mount initialState "example.com" 10 []), y'.
Defined.

Definition demo_page : fetch_result (page json) :=
  Resp true "OK" (Some (Page [JObj rr_props_json] false "k" "k")).

Lemma rrs_dialog_mode_witness :
  exists y p, steps initialState "example.com" 10 (mount initialState "example.com" 10 [])
      [Answer 0 demo_page; ClickEdit 0 "all.example.com" "a" 1] = Some y /\
    AddPopup (dlgArgs (live y)) = Ok p.
Proof.
  destruct (steps initialState "example.com" 10 (mount initialState "example.com" 10 [])
      [Answer 0 demo_page; ClickEdit 0 "all.example.com" "a" 1]) as [y|] eqn:E;
    [|vm_compute in E; discriminate].
  exists y. destruct (rrs_dialog_mode initialState "example.com" 10 [] _ y E) as [p Hp].
  - vm_compute in E. by injection E as <-.
  - by exists p.
Defined.

(** The list showing the record set of RrDemo. *)
Definition one_rr : sys :=
  Sys (State (Some [VRef rr_loc]) None None false NoMode "forward" false false None) rr_heap [] [].

Lemma rrs_edit_row_witness :
  exists y' args h3,
    step initialState "example.com" 10 one_rr (ClickEdit 0 "all.example.com" "a" 1) = Some y' /\
    isEditOpen (live y') = true /\ AddPopup (dlgArgs (live y')) = Ok (PopupRr args) /\
    save_unchanged initialState args env (store y')
    = let req := rr_put initialState "all.example.com" (assoc_del "fqdn" rr_props_json) in
      Trace [req] (saved "all.example.com" (answer env req)) (Ok tt) h3.
Proof.
  refine (rrs_edit_row initialState "example.com" 10 one_rr [VRef rr_loc] 0 rr_loc rr_props_json
            "all.example.com" _ _ (RrRow "a" ["127.0.0.2"%string] ("a"%string, 1)) env
            eq_refl eq_refl eq_refl rr_read eq_refl rr_keys_nodup eq_refl eq_refl
            (RrCells_run _ _ _ _ rr_read eq_refl eq_refl) _ _ _).
  - assert (E : mjoin (json_rows <$> rr_props_json) !! 1
            = Some (RrRow "a" ["127.0.0.2"%string] ("a"%string, 1))) by (vm_compute; reflexivity).
    by eapply list_elem_of_lookup_2.
  - intros j u [= <-] [= <-]. split_and!; [vm_compute; reflexivity|reflexivity|reflexivity].
  - discriminate.
Defined.
End ListDemo.
