(* ===== verification/EndToEnd.v ===== *)
(** * The lists of the UI over the handlers of the server

    The parts put together: the zone list and the record list of the browser,
    the query string of their requests, the handlers listZones and listZone,
    the walk over the index, the JSON of the record sets and the rows the UI
    makes of it.  The theorems of [Zones] and [RrList] are proved against the
    interface [PageServerLaws]; those of [ListServer] discharge it. *)

From S2P Require Import Prelude JsNumber JsValue JsonStore Http Qargs AppState Paging ServerUtil RealKey KeyBlock RrTypes RrJson ListServer Zones RrForm RrEdit RrCells RrList.

(** ** The zone list over the index *)

Section ZonesOverIndex.
Context {V : Type} {kv : KvStore V} (contents : list (string * V)) (pos : cursor -> option nat).
Context {laws : KvStoreLaws kv contents pos}.
Context (tenant : string) (cfg : rest_config) (fuel : nat).

(** The answer of the server to the request for the URL [u]. *)
Definition rest_zones (u : string) : fetch_result (page string) :=
  default (Rejected true "") (listZones cfg true tenant (query_args (query_part u)) fuel).

(** What the list shows, page by page. *)
Lemma zones_listed (app : app_state) (max : nat) (st : list (string * string)) (k : nat) :
  tenant_index contents tenant -> length contents < fuel ->
  0 < max <= rest_max_page_size cfg -> (Z.of_nat max < 2 ^ 31)%Z -> has_char "?" (api app) = false ->
  truthy_str (assoc_get "zones.current" st) = false ->
  let n := length (tenant_zones contents tenant) in
  0 < k -> n <= k * max -> (k - 1) * max < n \/ k = 1 ->
  ListZones.seen app max rest_zones st k ≡ₚ tenant_zones contents tenant /\
  forall j, j < k ->
    ListZones.canMoveForward (ListZones.live (ListZones.browse app max rest_zones st (replicate j ListZones.Next)))
    = (S j <? k).
Proof.
  intros Hi Hf Hmax Hsmall Hapi Hst n Hk Htot Hlast.
  apply (@ListZones.zones_forward_run app max (zone_server contents tenant)
           (zone_server_laws contents pos tenant Hi) cfg rest_zones); try done.
  intros from forward _. cbv zeta. unfold rest_zones, serve_url.
  by rewrite (listZones_serves contents pos).
Qed.
(** C1: The zone list, from the browser to the index and back: for a tenant
    with [n] zones in the server's index and [k] pages, opening the list and
    pressing Next [k - 1] times shows every zone of the tenant exactly once
    and no zone of another tenant, with Next enabled on all pages but the
    last.  The names of the zones are valid ones (tenant_index), which the
    server does not check when it creates them; a page is within the server's
    maximum, and no position is saved in the browser. *)
Theorem zones_over_index (app : app_state) (max : nat) (st : list (string * string)) (k : nat) :
  tenant_index contents tenant -> length contents < fuel ->
  0 < max <= rest_max_page_size cfg -> (Z.of_nat max < 2 ^ 31)%Z -> has_char "?" (api app) = false ->
  truthy_str (assoc_get "zones.current" st) = false ->
  let n := length (tenant_zones contents tenant) in
  0 < k -> n <= k * max -> (k - 1) * max < n \/ k = 1 ->
  ListZones.seen app max rest_zones st k ≡ₚ tenant_zones contents tenant /\
  forall j, j < k ->
    ListZones.canMoveForward (ListZones.live (ListZones.browse app max rest_zones st (replicate j ListZones.Next)))
    = (S j <? k).
Proof. by apply zones_listed. Qed.
End ZonesOverIndex.

(** ** Record sets of the server in the table *)

Lemma jint_fits k z : row_fits k (jint z) = true.
Proof. reflexivity. Qed.

Lemma slot_fits d k v : rr_slot d = Some (k, v) -> row_fits k v = true /\ is_jarr v = false.
Proof. destruct d; intros [= <- <-]; done. Qed.

Lemma rr_fits_single k v : row_fits k v = true -> is_jarr v = false -> rr_fits (k, v) = true.
Proof. unfold rr_fits. destruct v; done. Qed.

(** The JSON of a record set fits the rows of the table. *)
Lemma entry_fits r e obj : toJson_entry (r :: e) = Some obj -> forallb rr_fits obj = true.
Proof.
  intros He. apply forallb_forall. intros [k j] Hin%list_elem_of_In.
  destruct (toJson_entry_props _ _ _ He) as (Hnd & Hq & Ht & Hg). apply (assoc_get_nodup k j) in Hin; [|done].
  destruct (meta_name k) eqn:Hm.
  - unfold meta_name in Hm. apply orb_true_iff in Hm as [->%String.eqb_eq| ->%String.eqb_eq]; simplify_eq; done.
  - rewrite Hg in Hin by done. apply listed_inv in Hin. destruct (multi_name k) eqn:Em.
    + destruct Hin as (vs & -> & _ & Hf). unfold rr_fits. cbn [fst snd]. apply andb_true_iff. split.
      * unfold meta_name in Hm. rewrite orb_comm. by rewrite Hm.
      * apply forallb_forall. intros v Hv%list_elem_of_In. rewrite Forall_forall in Hf.
        destruct (Hf v Hv) as (x & _ & Hx). by apply slot_fits in Hx as [? _].
    + destruct Hin as (x & _ & Hx). apply slot_fits in Hx as [? ?]. by apply rr_fits_single.
Qed.

(** A row shows the record [x]. *)
Definition row_of (rows : list rr_row) (x : rr) : Prop :=
  exists k v ix, rr_slot (rr_rdata x) = Some (k, v) /\ json_row k ix v ∈ rows.

(** The records of array types, and the last one of each other type. *)
Definition kept (e : entry) (x : rr) : Prop :=
  forall k v, rr_slot (rr_rdata x) = Some (k, v) -> multi_name k = true \/ listed k e = Some v.

Lemma rows_of_slot obj k j v i :
  assoc_get k obj = Some j -> meta_name k = false -> json_entry j i = Some v -> is_jarr v = false ->
  exists ix, json_row k ix v ∈ mjoin (json_rows <$> obj).
Proof.
  intros Hg Hm Hj Hv. assert (Hin : json_rows (k, j) ∈ json_rows <$> obj).
  { apply list_elem_of_fmap_2, assoc_get_elem, Hg. }
  assert (Hr : exists ix, json_row k ix v ∈ json_rows (k, j)).
  { unfold json_rows. unfold meta_name in Hm. rewrite orb_comm in Hm. cbn [fst snd]. rewrite Hm.
    destruct j as [| | | |l|]; cbn in Hj; simplify_eq; try (exists 0; by left).
    exists i. apply elem_of_lookup_imap. by exists i, v. }
  destruct Hr as [ix Hr]. exists ix. apply list_elem_of_join. by eexists.
Qed.

Lemma entry_rows e obj x :
  toJson_entry e = Some obj -> x ∈ e -> kept e x -> listable x = true ->
  row_of (mjoin (json_rows <$> obj)) x.
Proof.
  intros He Hx Hk Hl. destruct (listable_slot x Hl) as (k & v & Hs).
  assert (Hm := rr_slot_name _ _ _ Hs). destruct (slot_fits _ _ _ Hs) as [_ Hv].
  destruct e as [|r e]; [by apply not_elem_of_nil in Hx|].
  destruct (toJson_entry_props _ _ _ He) as (_ & _ & _ & Hg).
  specialize (Hg k Hm).
  destruct (multi_name k) eqn:Em.
  - assert (Hin : v ∈ omap (named k) (r :: e)).
    { apply list_elem_of_omap. exists x. split; [done|]. unfold named. by rewrite Hs, String.eqb_refl. }
    apply list_elem_of_lookup in Hin as [i Hi].
    assert (Hlist : listed k (r :: e) = Some (JArr (omap (named k) (r :: e)))).
    { unfold listed. rewrite Em. by destruct (omap (named k) (r :: e)). }
    rewrite Hlist in Hg. destruct (rows_of_slot obj k _ v i Hg Hm Hi Hv) as [ix Hix]. by exists k, v, ix.
  - destruct (Hk k v Hs) as [Hc|Hc]; [congruence|]. rewrite Hc in Hg.
    destruct (rows_of_slot obj k v v 0 Hg Hm) as [ix Hix]; [by destruct v|done|]. by exists k, v, ix.
Qed.

(** The table of one record set: its name, and a row for each record. *)
Definition set_shown (h : heap) (v : val) (r : string * entry) : Prop :=
  exists n rows, RrCells v h = (Ok (Cells n (dataAsString r.1) rows), h) /\ n = 2 + length rows /\
    forall x, x ∈ r.2 -> kept r.2 x -> row_of rows x.

Lemma read_shown_set h v name e js :
  e <> [] -> toJson_entry e = Some js -> read h v (JObj js) ->
  (forall x, head e = Some x -> labels x = name) ->
  exists n rows, RrCells v h = (Ok (Cells n name rows), h) /\ n = 2 + length rows /\
    forall x, x ∈ e -> kept e x -> row_of rows x.
Proof.
  intros Hne He Hr Hname. destruct (read_obj _ _ _ Hr) as (lo & vs & -> & _).
  destruct e as [|r e]; [done|]. destruct (toJson_entry_props _ _ _ He) as (_ & Hq & _).
  rewrite (Hname r eq_refl) in Hq.
  eexists _, (mjoin (json_rows <$> js)). split; [by eapply RrCells_run, Hq; eauto using entry_fits|].
  split; [done|]. intros x Hx Hk. apply (entry_rows (r :: e)); [done|done|done|].
  assert (Hl := toJson_entry_some _ _ He). rewrite Forall_forall in Hl. auto.
Qed.

(** The arguments of a listing request as the handler reads them. *)
Lemma listing_args (b : bool) (lim d : string) (from : option string) :
  let req := (if b then [("limit"%string, lim)] else []) ++ opt_arg "from" from
    ++ opt_arg "kind" (Some "verbose"%string) ++ opt_arg "direction" (Some d) in
  assoc_get "kind" req = Some "verbose"%string /\ getFrom req = default ""%string from.
Proof.
  unfold getFrom, opt_arg. destruct b, from as [k|]; cbn; try (destruct (String.eqb_spec k "") as [->|]);
    cbn; destruct (String.eqb d ""); done.
Qed.

Section RecordsOverIndex.
Context {kv : KvStore entry} (contents : list (string * entry)) (pos : cursor -> option nat).
Context {laws : KvStoreLaws kv contents pos}.
Context (zone : string) (cfg : rest_config) (fuel : nat).

Definition rest_records (u : string) : fetch_result (page json) :=
  default (Rejected true "") (listZone cfg true zone (query_args (query_part u)) fuel).

Hypothesis index_ok : zone_index contents zone.

Lemma record_shown h v r :
  r ∈ zone_records contents zone -> read h v (record_json r) -> set_shown h v r.
Proof.
  intros Hr Hv. destruct (zone_records_elem _ _ _ Hr) as [Hin HP].
  destruct (record_item _ _ index_ok r Hr) as [Hj _]. unfold record_json, set_shown in *.
  destruct r as [key [|x e]]; cbn [fst snd entry_item] in *.
  - destruct (read_obj _ _ _ Hv) as (lo & vs & -> & _).
    eexists _, _. split; [by apply RrCells_run with (js := [("fqdn", JStr (dataAsString key))]%string)|].
    split; [done|]. intros x Hx. by apply not_elem_of_nil in Hx.
  - destruct (toJson_entry (x :: e)) as [js|] eqn:E; [|done]. apply (read_shown_set h v _ _ js); [done|done|done|].
    intros y Hy. exact (sets_named _ _ index_ok _ _ Hin HP Hy).
Qed.

Lemma records_shown h vs rs :
  Forall (fun r => r ∈ zone_records contents zone) rs ->
  Forall2 (read h) vs (record_json <$> rs) -> Forall2 (set_shown h) vs rs.
Proof.
  revert vs. induction rs as [|r rs IH]; intros vs Hall H; inversion H; subst; [constructor|].
  apply Forall_cons in Hall as [Hr Hall]. constructor; [by apply record_shown|by apply IH].
Qed.

Lemma record_requests (app : app_state) (max : nat) (from : option string) (forward : bool) :
  length contents < fuel -> toLowerStr zone = zone -> (Z.of_nat max < 2 ^ 31)%Z -> 0 < max ->
  has_char "?" (getUrl app ("/zone/" +:+ zone)) = false ->
  (forall k, from = Some k -> exists i x, (record_json <$> zone_records contents zone) !! i = Some x /\ k = json_key x) ->
  let u := url (ListRrs.list_request app zone max from (if forward then "forward" else "backward")) in
  rest_records u = serve_url (H := record_server contents zone) cfg u.
Proof.
  intros Hf Hlow Hmax Hpos Hurl Hfrom. cbv zeta. unfold rest_records, serve_url.
  cbn [ListRrs.list_request url]. unfold getUrl in *. rewrite <- string_app_assoc.
  rewrite query_part_app by (done || apply qargs_shape).
  assert (Hv : forall k, from = Some k -> has_char "&" k = false /\ isSameZone zone k = true /\ k <> ""%string).
  { intros k Hk. destruct (Hfrom k Hk) as (i & x & Hx & ->). rewrite list_lookup_fmap in Hx.
    apply fmap_Some in Hx as (r & Hr & ->). apply list_elem_of_lookup_2 in Hr.
    destruct (record_item _ _ index_ok r Hr) as [_ ->].
    destruct (zone_record_name _ _ index_ok r Hr) as (H1 & _ & H2 & H3). done. }
  rewrite query_args_qargs; [|lia|].
  2: { repeat constructor; [|by destruct forward]. destruct from as [k|]; [by apply Hv|done]. }
  erewrite (listZone_serves contents pos); [done|done|done|done| |].
  - apply listing_args.
  - rewrite (proj2 (listing_args _ _ _ _)). destruct from as [k|]; [|done]. intros _ _. by apply Hv.
Qed.

(** What the list shows at any page. *)
Lemma records_listed (app : app_state) (max : nat) (h : heap) (ns : list ListRrs.nav) :
  length contents < fuel -> toLowerStr zone = zone ->
  0 < max <= rest_max_page_size cfg -> (Z.of_nat max < 2 ^ 31)%Z ->
  has_char "?" (getUrl app ("/zone/" +:+ zone)) = false -> Forall (fun n => n <> ListRrs.Reload) ns ->
  let k := fold_left (ListRrs.pager_nav max (H := record_server contents zone)) ns 0 in
  let y := ListRrs.browse app zone max rest_records h ns in
  exists vs rs, ListRrs.error (ListRrs.live y) = None /\ ListRrs.rrs (ListRrs.live y) = Some vs /\
    rs ≡ₚ window (k * max) max (zone_records contents zone) /\
    Forall2 (set_shown (ListRrs.store y)) vs rs.
Proof.
  intros Hf Hlow Hmax Hsmall Hurl Hns k y.
  edestruct (@ListRrs.rrs_browse_run app zone max (record_server contents zone)
               (record_server_laws contents pos zone index_ok) cfg rest_records Hmax Hsmall Hurl) as (vs & js & He & Hv & Hr & Hp & _);
    [|exact Hns|].
  { intros from forward Hfrom. apply record_requests; try done; lia. }
  fold k in Hp. fold y in He, Hv, Hr. exists vs. cbn [items record_server] in Hp. rewrite window_fmap in Hp.
  apply Permutation_map_inv in Hp as (rs & -> & Hp). exists rs. split_and!; [done|done|by symmetry|].
  assert (Hall : Forall (fun r => r ∈ zone_records contents zone) rs).
  { apply Forall_forall. intros r Hrs. rewrite <- Hp in Hrs. by apply window_subseteq in Hrs. }
  by apply records_shown.
Qed.

(** C2: The record list, from the browser to the index and back.  In the index
    (zone_index) the zone has its apex; the names of its record sets are valid,
    in lower case and those of their records; none of its records is a PTR
    record, which breaks the listing (listZone_ptr); and no name outside of the
    zone has the zone's name at its end after a character that sorts before the
    dot, as x-example.com next to example.com, where the listing would stop
    (C32).  A page is within the server's maximum.  Then after any sequence of First, Prev and Next the list shows the
    page its pager is at of the zone's record sets in the server's index, and
    each of them is displayed under its own name with a row for every record of
    it (of the types that hold one value, for the last record). *)
Theorem records_over_index (app : app_state) (max : nat) (h : heap) (ns : list ListRrs.nav) :
  length contents < fuel -> toLowerStr zone = zone ->
  0 < max <= rest_max_page_size cfg -> (Z.of_nat max < 2 ^ 31)%Z ->
  has_char "?" (getUrl app ("/zone/" +:+ zone)) = false -> Forall (fun n => n <> ListRrs.Reload) ns ->
  let k := fold_left (ListRrs.pager_nav max (H := record_server contents zone)) ns 0 in
  let y := ListRrs.browse app zone max rest_records h ns in
  exists vs rs, ListRrs.error (ListRrs.live y) = None /\ ListRrs.rrs (ListRrs.live y) = Some vs /\
    rs ≡ₚ window (k * max) max (zone_records contents zone) /\
    Forall2 (set_shown (ListRrs.store y)) vs rs.
Proof. by apply records_listed. Qed.
End RecordsOverIndex.

(** ** Witnesses *)

Module EndDemo.
Import ServerDemo.

Example three_zones : tenant_zones accounts tenant = ["a.org"; "b.org"; "c.org"]%string.
Proof. vm_compute. reflexivity. Qed.

Lemma zones_over_index_witness :
  ListZones.seen initialState 2 (rest_zones (kv := accounts_kv) tenant cfg 6) [] 2 ≡ₚ tenant_zones accounts tenant /\
  forall j, j < 2 ->
    ListZones.canMoveForward (ListZones.live
      (ListZones.browse initialState 2 (rest_zones (kv := accounts_kv) tenant cfg 6) [] (replicate j ListZones.Next))) = (S j <? 2).
Proof.
  refine (zones_over_index accounts (list_pos accounts) tenant cfg 6 initialState 2 [] 2 accounts_index
            _ _ _ eq_refl eq_refl _ _ _); [cbn; lia|cbn; lia|lia|lia|vm_compute; lia|left; vm_compute; lia].
Defined.

Lemma records_over_index_witness :
  let y := ListRrs.browse initialState "example.com" 2 (rest_records "example.com" cfg 5) [] [ListRrs.Next] in
  exists vs rs, ListRrs.error (ListRrs.live y) = None /\ ListRrs.rrs (ListRrs.live y) = Some vs /\
    rs ≡ₚ window (1 * 2) 2 (zone_records entries "example.com") /\
    Forall2 (set_shown (ListRrs.store y)) vs rs.
Proof.
  refine (records_over_index entries (list_pos entries) "example.com" cfg 5 entries_index initialState 2 []
            [ListRrs.Next] _ eq_refl _ _ eq_refl _); [cbn; lia|cbn; lia|lia|repeat constructor; discriminate].
Defined.
End EndDemo.
