(* ===== verification/Saving.v ===== *)
(** * Saving from the UI to storage

    A record set that the server lists, in the hands of the UI: what its forms
    send back for it (the JSON of [RrJson], the sessions of [RrSession] and
    [RrDelete]) and what RestApi::build ([RrBuild], [RrStored]) stores of that.
    The parser of the request is boost::json's, a parameter. *)

From S2P Require Import Prelude JsNumber JsValue JsonStore Http AppState RrTypes RrJson ServerUtil Qargs DnsName RrWire RrBuild RrStored RrForm RrEdit RrAdd RrSession RrCells RrDelete.

(** ** Record sets as the UI has them *)

(** Integers below 2^32, single lines of text, bytes, and a key that fits in a
    string. *)
Definition uint32 (z : Z) : Prop := (0 <= z < 2 ^ 32)%Z.
Definition one_line (s : string) : Prop := strip_newlines s = s.

Definition rdata_ok (d : rdata) : Prop :=
  match d with
  | TYPE_A s | TYPE_AAAA s | TYPE_NS s | TYPE_CNAME s | TYPE_PTR s | TYPE_TXT s => one_line s
  | TYPE_SOA mname rname serial refresh retry expire minimum =>
      one_line mname /\ one_line rname /\ uint32 serial /\ uint32 refresh /\ uint32 retry /\
      uint32 expire /\ uint32 minimum
  | TYPE_MX host priority => one_line host /\ uint32 priority
  | TYPE_SRV target priority weight port => one_line target /\ uint32 priority /\ uint32 weight /\ uint32 port
  | TYPE_AFSDB host subtype => one_line host /\ uint32 subtype
  | TYPE_RP mbox txt => one_line (ToEmail mbox) /\ one_line txt
  | TYPE_HINFO cpu os => one_line cpu /\ one_line os
  | TYPE_DHCID bytes | TYPE_OPENPGPKEY bytes | TYPE_OTHER _ bytes =>
      one_line (Base64Encode bytes) /\ (Z.of_nat (String.length (Base64Encode bytes)) < 2 ^ 53)%Z
  end.

Definition rr_ok (x : rr) : Prop := uint32 (rr_ttl x) /\ rdata_ok (rr_rdata x).

Lemma finite_jint z : uint32 z -> finite (jint z) = true.
Proof.
  unfold uint32. intros Hz. destruct (decide (z = 0%Z)) as [->|]; [reflexivity|].
  destruct (num_of_Z_exact z) as (m & e & E & _); [lia|]. cbn [jint finite]. by rewrite E.
Qed.

Lemma slot_finite d k v : rdata_ok d -> rr_slot d = Some (k, v) -> finite v = true.
Proof.
  intros Hd. destruct d; intros [= <- <-]; cbn [rdata_ok] in Hd; destruct_and?; try reflexivity;
    cbn [finite forallb snd]; rewrite ?finite_jint by done; reflexivity.
Qed.

(** The values of the types the forms know can be edited without loss. *)
Lemma slot_editable d k v t :
  rdata_ok d -> rr_slot d = Some (k, v) -> assoc_get k rrProto = Some t -> k <> "soa"%string ->
  json_editable (proto t) v /\ is_jarr v = false /\ v <> JNull.
Proof.
  assert (Hu : forall z, uint32 z -> exists z', num_of_Z z = num_of_Z z' /\ (0 <= z' < 2 ^ 53)%Z).
  { unfold uint32. intros z Hz. exists z. split; [done|lia]. }
  intros Hd. destruct d; intros [= <- <-]; cbn [rdata_ok] in Hd; destruct_and?; intros Ht Hs;
    vm_compute in Ht; simplify_eq; (split; [|by split]); cbn [json_editable]; try done;
    (split; [repeat (apply NoDup_cons; split; [set_solver|]); apply NoDup_nil; done|]);
    repeat (apply Forall_cons; split; [|]); try apply Forall_nil; try done;
    (split; [discriminate|]); cbn; split; auto.
Qed.

(** No type of the forms is the name of an index of an array or a string. *)
Lemma proto_not_index k t n :
  assoc_get k rrProto = Some t -> (Z.of_nat n <= 2 ^ 53)%Z ->
  String.eqb k "length" || existsb (fun i => String.eqb k (index_name i)) (seq 0 n) = false.
Proof.
  intros Ht Hn.
  assert (Hk : (String.eqb k "length" || all_digits k)%bool = false).
  { apply assoc_get_elem in Ht. revert Ht. apply (Forall_forall (fun kt => (String.eqb kt.1 "length" || all_digits kt.1)%bool = false)).
    vm_compute. repeat constructor. }
  apply orb_false_iff in Hk as [-> Hk]. cbn [orb]. apply not_true_iff_false.
  intros (i & Hi%in_seq & ->%String.eqb_eq)%existsb_exists.
  unfold index_name in Hk. rewrite num_to_string_digits in Hk by lia. done.
Qed.

Lemma listed_value e obj k t j :
  Forall rr_ok e -> (Z.of_nat (length e) <= 2 ^ 53)%Z -> toJson_entry e = Some obj ->
  assoc_get k rrProto = Some t -> k <> "soa"%string -> assoc_get k obj = Some j -> meta_name k = false ->
  json_hasOwn j k = false /\ forall ix u, json_entry j ix = Some u -> json_editable (proto t) u.
Proof.
  intros Hok Hlen He Ht Hsoa Hj Hm. apply (toJson_entry_inv _ _ _ _ He Hj) in Hm.
  assert (Hvs := listed_inv _ _ _ Hm). rewrite Forall_forall in Hok.
  assert (Hfrom : forall v, comes_from e k v -> json_editable (proto t) v /\ is_jarr v = false /\ v <> JNull).
  { intros v (x & Hx & Hs). destruct (Hok x Hx) as [_ Hd]. by eapply slot_editable. }
  unfold listed in Hm. cbv zeta in Hm. destruct (multi_name k) eqn:Em.
  - destruct Hvs as (vs & -> & _ & Hall). split.
    + cbn [json_hasOwn]. eapply proto_not_index; [done|].
      assert (length vs <= length e); [|lia].
      replace vs with (omap (named k) e) by (destruct (omap (named k) e); congruence).
      clear. induction e as [|x e IH]; [done|]. cbn. destruct (named k x); cbn; lia.
    + intros ix u Hu. cbn in Hu. rewrite Forall_forall in Hall. by apply Hfrom, Hall, list_elem_of_lookup_2 with ix.
  - destruct (Hfrom j Hvs) as (Hed & Hna & _). split.
    + destruct Hvs as (x & Hx & Hs). destruct (Hok x Hx) as [_ Hd].
      destruct (rr_rdata x); try discriminate Hs; injection Hs as <- <-; try discriminate Em; cbn in Ht; try discriminate Ht; try reflexivity.
      cbn [json_hasOwn]. eapply proto_not_index; [reflexivity|]. destruct Hd as [_ Hd]. lia.
    + intros ix u Hu. destruct j; try done; cbn in Hu; by simplify_eq.
Qed.

Lemma entry_finite e obj : Forall rr_ok e -> toJson_entry e = Some obj -> finite (JObj obj) = true.
Proof.
  intros Hok He. destruct e as [|r e]; [by injection He as <-|].
  destruct (toJson_entry_props _ _ _ He) as (Hnd & Hq & Ht & Hg).
  assert (Hok' := Hok). rewrite Forall_forall in Hok. cbn [finite]. apply forallb_forall.
  intros [k j] Hin%list_elem_of_In. cbn [snd]. apply (assoc_get_nodup k j) in Hin; [|done].
  destruct (meta_name k) eqn:Hm.
  - unfold meta_name in Hm. apply orb_true_iff in Hm as [->%String.eqb_eq| ->%String.eqb_eq].
    + rewrite Hq in Hin. by injection Hin as <-.
    + rewrite Ht in Hin. injection Hin as <-. apply finite_jint. apply (Hok r). by left.
  - rewrite Hg in Hin by done. apply listed_inv in Hin.
    assert (Hfrom : forall v, comes_from (r :: e) k v -> finite v = true).
    { intros v (x & Hx & Hs). destruct (Hok x Hx) as [_ Hd]. by eapply slot_finite. }
    destruct (multi_name k); [|auto]. destruct Hin as (vs & -> & _ & Hall). cbn [finite].
    apply forallb_forall. intros v Hv%list_elem_of_In. rewrite Forall_forall in Hall. auto.
Qed.

(** C23: A record the server lists can be opened in its form and saved again
    unchanged: for a record set without PTR records, with 32-bit integers and
    single lines of text, and any of its records of a type the forms know (the
    SOA apart), pressing Edit and then Save sends back exactly the record set
    the server listed, without its name; except where a text of the record is
    empty (a TXT record with no text, the [os] of an HINFO record): its input is
    required, so that Save sends nothing. *)
Theorem listed_set_roundtrip app o h lr r e js k t ix j u :
  toJson_entry (r :: e) = Some js -> read h (VRef lr) (JObj js) ->
  Forall rr_ok (r :: e) -> (Z.of_nat (length (r :: e)) <= 2 ^ 53)%Z ->
  assoc_get k rrProto = Some t -> k <> "soa"%string ->
  assoc_get k js = Some j -> json_entry j ix = Some u ->
  exists h3, save_unchanged app (RrArgs true (labels r) (Some k) ix (VRef lr)) o h
  = let req := rr_put app (labels r) (assoc_del "fqdn" js) in
    if json_filled u then Trace [req] (saved (labels r) (answer o req)) (Ok tt) h3 else Trace [] [] (Ok tt) h3.
Proof.
  intros He Hr Hok Hlen Ht Hsoa Hj Hu. destruct (toJson_entry_props _ _ _ He) as (Hnd & _).
  assert (Hm : meta_name k = false).
  { unfold meta_name. destruct (String.eqb_spec k "fqdn") as [->|]; [discriminate Ht|].
    destruct (String.eqb_spec k "ttl") as [->|]; [discriminate Ht|done]. }
  destruct (listed_value _ _ _ _ _ Hok Hlen He Ht Hsoa Hj Hm) as [Hown Hed].
  apply (edit_roundtrip_run app o h lr (labels r) js k ix j u); try done.
  - by apply (entry_finite (r :: e)).
  - unfold type_proto. rewrite Ht. eauto.
Qed.

(** ** Replacing, adding and removing a record of a listed record set *)

Definition with_rdata (d : rdata) (x : rr) : rr := Rr (labels x) (rr_ttl x) d.

Lemma named_slot k x n v : rr_slot (rr_rdata x) = Some (n, v) -> named k x = if String.eqb n k then Some v else None.
Proof. unfold named. by intros ->. Qed.

Lemma named_other k x n v : rr_slot (rr_rdata x) = Some (n, v) -> n <> k -> named k x = None.
Proof. intros Hs Hn. rewrite (named_slot _ _ _ _ Hs). by apply String.eqb_neq in Hn as ->. Qed.

Lemma named_own k x v : rr_slot (rr_rdata x) = Some (k, v) -> named k x = Some v.
Proof. intros Hs. by rewrite (named_slot _ _ _ _ Hs), String.eqb_refl. Qed.

Lemma omap_named_mid k e1 x e2 :
  omap (named k) (e1 ++ x :: e2)
  = omap (named k) e1 ++ match named k x with Some v => [v] | None => [] end ++ omap (named k) e2.
Proof. rewrite omap_app. cbn. by destruct (named k x). Qed.

Lemma listed_by_named k e e' : omap (named k) e = omap (named k) e' -> listed k e = listed k e'.
Proof. unfold listed. by intros ->. Qed.

Lemma listed_except k e1 x e2 n v :
  rr_slot (rr_rdata x) = Some (n, v) -> n <> k -> listed k (e1 ++ x :: e2) = listed k (e1 ++ e2).
Proof. intros Hs Hn. apply listed_by_named. by rewrite omap_named_mid, (named_other _ _ _ _ Hs Hn), omap_app. Qed.

(** The one record of a type that is not an array. *)
Lemma single_alone k e1 x e2 v :
  one_each (e1 ++ x :: e2) -> multi_name k = false -> rr_slot (rr_rdata x) = Some (k, v) ->
  omap (named k) e1 = [] /\ omap (named k) e2 = [].
Proof.
  intros H1 Hm Hs. apply (one_each_count k) in H1; [|done]. rewrite omap_named_mid, (named_own _ _ _ Hs), !length_app in H1.
  cbn in H1. split; apply length_zero_iff_nil; lia.
Qed.

Lemma listed_mid k e1 x e2 v :
  one_each (e1 ++ x :: e2) -> rr_slot (rr_rdata x) = Some (k, v) ->
  listed k (e1 ++ x :: e2)
  = Some (if multi_name k then JArr (omap (named k) e1 ++ v :: omap (named k) e2) else v).
Proof.
  intros H1 Hs. unfold listed. rewrite omap_named_mid, (named_own _ _ _ Hs). cbv zeta.
  destruct (multi_name k) eqn:Em.
  - cbn [app]. by destruct (omap (named k) e1).
  - destruct (single_alone _ _ _ _ _ H1 Em Hs) as [-> ->]. done.
Qed.

Lemma one_each_with d e1 x e2 k v v' :
  rr_slot (rr_rdata x) = Some (k, v) -> rr_slot d = Some (k, v') ->
  one_each (e1 ++ with_rdata d x :: e2) -> one_each (e1 ++ x :: e2).
Proof.
  intros Hs Hd H1. unfold one_each in *. rewrite omap_app in *. cbn [omap list_omap] in *.
  unfold single_name at 2. unfold single_name at 2 in H1. rewrite Hs. cbn [with_rdata rr_rdata] in H1. by rewrite Hd in H1.
Qed.

Section OnList.
Context `{Addresses} (parseJson : string -> option json).
Context (app : app_state) (h : heap) (lr : loc) (fqdn : string) (t default_ttl : Z).

(** What the server does with the body of a request for [fqdn]. *)
Definition rest_put (req : request) : verdict wire_set :=
  j ← or_refused (b ← body req; parseJson b); build fqdn default_ttl j.

(** The server stores [e'], in an order of its own, when the request arrives. *)
Definition put_saves (req : request) (e' : entry) : Prop :=
  exists s, rest_put req = Built s /\ (exists s', finished s s') /\
    forall s', finished s s' -> exists e'', read_set s' = Some e'' /\ e'' ≡ₚ e'.

(** The record set [e] is in the list of the UI at [lr]. *)
Record on_list (e : entry) (js : list (string * json)) : Prop := {
  list_json : toJson_entry e = Some js;
  list_read : read h (VRef lr) (JObj js);
  list_ok : Forall rr_ok e;
  list_length : (Z.of_nat (length e) <= 2 ^ 53)%Z;
  list_here : Forall (fun x => labels x = fqdn /\ rr_ttl x = t) e;
  list_ttl : (0 <= t <= TTL_MAX)%Z
}.

Lemma rest_put_json js req :
  body req = Some (print (JObj js)) -> parseJson (print (JObj js)) = Some (JObj js) ->
  rest_put req = build fqdn default_ttl (JObj js).
Proof. intros Hb Hp. unfold rest_put. rewrite Hb. cbn [mbind option_bind]. by rewrite Hp. Qed.

Lemma body_saved js e t' :
  parseJson (print (JObj js)) = Some (JObj js) ->
  body_of js e -> ttl_of default_ttl js t' -> sendable fqdn e ->
  put_saves (rr_put app fqdn js) (owned_by fqdn t' e).
Proof.
  intros Hp Hb Ht Hs. destruct (saves_body fqdn default_ttl js e t' Hb Ht Hs) as (s & Hs1 & Hs2).
  exists s. by rewrite (rest_put_json js) by done.
Qed.

Lemma ttl_given js t' : assoc_get "ttl" js = Some (jint t') -> (0 <= t' <= TTL_MAX)%Z -> ttl_of default_ttl js t'.
Proof. intros Ht Hb. unfold ttl_of. by rewrite Ht. Qed.

Lemma ttl_absent js :
  assoc_get "ttl" js = None -> (0 <= default_ttl <= TTL_MAX)%Z -> ttl_of default_ttl js default_ttl.
Proof. intros Ht Hb. unfold ttl_of. by rewrite Ht. Qed.

(** What the properties of the JSON in the list are. *)
Lemma on_list_props e1 x e2 js :
  on_list (e1 ++ x :: e2) js ->
  NoDup js.*1 /\ finite (JObj js) = true /\ assoc_get "fqdn" js = Some (JStr fqdn) /\
  assoc_get "ttl" js = Some (jint t) /\
  forall k, meta_name k = false -> assoc_get k js = listed k (e1 ++ x :: e2).
Proof.
  intros [Hj _ Hok _ Hh _]. destruct (e1 ++ x :: e2) as [|r e] eqn:E; [by destruct e1|].
  destruct (toJson_entry_props _ _ _ Hj) as (Hnd & Hq & Htt & Hg). apply Forall_cons in Hh as [[Hn Ht] _].
  split_and!; [done| |by rewrite Hq, Hn|by rewrite Htt, Ht|done]. by apply (entry_finite (r :: e)).
Qed.

Lemma del_fqdn_nodup {A} (js : list (string * A)) : NoDup js.*1 -> NoDup (assoc_del "fqdn" js).*1.
Proof. intros Hnd. eapply sublist_NoDup; [exact Hnd|]. apply fmap_sublist, assoc_del_sublist. Qed.

(** The body of an edit is the listing of the edited record set. *)
Lemma put_json_body js e1 x e2 d k v v' :
  on_list (e1 ++ x :: e2) js -> one_each (e1 ++ x :: e2) ->
  rr_slot (rr_rdata x) = Some (k, v) -> rr_slot d = Some (k, v') -> is_jarr v = false ->
  let body := assoc_del "fqdn" (put_json js k (length (omap (named k) e1)) v') in
  body_of body (e1 ++ with_rdata d x :: e2) /\ assoc_get "ttl" body = Some (jint t).
Proof.
  intros Hl H1 Hs Hd Hv body. destruct (on_list_props _ _ _ _ Hl) as (Hnd & _ & _ & Htt & Hg).
  assert (Hm := rr_slot_name _ _ _ Hs).
  assert (Hk : k <> "fqdn"%string /\ k <> "ttl"%string) by (split; by intros ->).
  assert (Hmid := listed_mid _ _ _ _ _ H1 Hs). rewrite <- Hg in Hmid by done.
  subst body. unfold put_json. rewrite assoc_get_del_ne by done. rewrite (assoc_get_set_ne k) by by destruct Hk. split; [|done].
  assert (H1' : one_each (e1 ++ with_rdata d x :: e2)).
  { apply (one_each_with (rr_rdata x) e1 (with_rdata d x) e2 k v' v); [done|done|].
    unfold with_rdata. cbn. by destruct x. }
  split_and!; [by apply del_fqdn_nodup, assoc_set_nodup|apply assoc_get_del_eq|]. intros m Hmm. left.
  rewrite assoc_get_del_ne by by intros <-. destruct (decide (k = m)) as [<-|Hne].
  - rewrite assoc_get_set_eq, (listed_mid k e1 (with_rdata d x) e2 v') by done. rewrite Hmid. f_equal.
    destruct (multi_name k); cbn [put_entry].
    + by rewrite insert_app_r_alt, Nat.sub_diag by done.
    + by destruct v.
  - rewrite assoc_get_set_ne, Hg by done.
    rewrite (listed_except m e1 x e2 k v), (listed_except m e1 (with_rdata d x) e2 k v') by done. done.
Qed.
(** The body of an addition is the listing with the record at the end. *)
Lemma add_json_body js r e d k v tp :
  on_list (r :: e) js -> one_each ((r :: e) ++ [Rr fqdn t d]) ->
  rr_slot d = Some (k, v) -> assoc_get k rrProto = Some tp ->
  let body := assoc_del "fqdn" (add_json js k v) in
  body_of body ((r :: e) ++ [Rr fqdn t d]) /\ assoc_get "ttl" body = Some (jint t).
Proof.
  intros Hl H1 Hd Htp body. destruct (on_list_props [] _ _ _ Hl) as (Hnd & _ & _ & Htt & Hg). cbn [Datatypes.app] in Hg.
  assert (Hm := rr_slot_name _ _ _ Hd).
  assert (Hk : k <> "fqdn"%string /\ k <> "ttl"%string) by (split; by intros ->).
  set (x := Rr fqdn t d). assert (Hown := listed_own k (r :: e) x v Hd).
  assert (E : add_json js k v = assoc_set k (if multi_name k then JArr (omap (named k) (r :: e) ++ [v]) else v) js).
  { assert (Hsingle : multi_name k = false -> listed k (r :: e) = None).
    { intros Em. destruct (single_alone k (r :: e) x [] v H1 Em Hd) as [E _]. unfold listed. by rewrite E, Em. }
    assert (Hp : is_jarr (type_proto k) = multi_name k).
    { destruct d; try discriminate Hd; injection Hd as <- _; try reflexivity; discriminate Htp. }
    unfold add_json. assert (Hj := Hg k Hm).
    destruct (multi_name k) eqn:Em.
    - unfold listed in Hj. rewrite Em in Hj. destruct (omap (named k) (r :: e)); rewrite Hj; [|done].
      by rewrite assoc_set_new, Hp.
    - rewrite Hsingle in Hj by done. by rewrite Hj, assoc_set_new, Hp. }
  subst body. rewrite E, assoc_get_del_ne by done. rewrite (assoc_get_set_ne k) by by destruct Hk.
  split; [|done]. split_and!; [by apply del_fqdn_nodup, assoc_set_nodup|apply assoc_get_del_eq|]. intros m Hmm. left.
  rewrite assoc_get_del_ne by by intros <-. destruct (decide (k = m)) as [<-|Hne].
  - by rewrite assoc_get_set_eq, Hown.
  - rewrite assoc_get_set_ne, Hg by done. by rewrite (listed_other m (r :: e) x k v).
Qed.

(** The properties of a body after a deletion. *)
Lemma assoc_get_list_after k ix m js :
  assoc_get m (list_after k ix js) = left_over k ix m <$> assoc_get m js.
Proof.
  unfold list_after. induction js as [|[n j] js IH]; [done|]. cbn. by destruct (String.eqb_spec m n) as [->|].
Qed.

Lemma listed_short_drop e : drop_rname <$> listed "soa" e = listed_short e.
Proof.
  unfold listed, listed_short. change (multi_name "soa") with false. cbv zeta iota. rewrite <- fmap_last. f_equal.
  induction e as [|x e IH]; [done|]. cbn [omap list_omap]. unfold named at 1.
  destruct (rr_rdata x); try exact IH. exact (f_equal2 cons eq_refl IH).
Qed.

Lemma remove_middle {A} (l1 : list A) v l2 : remove_at (length l1) (l1 ++ v :: l2) = l1 ++ l2.
Proof.
  unfold remove_at. rewrite take_app_length, (cons_middle v), (app_assoc l1).
  by rewrite drop_app_length' by (rewrite length_app; cbn; lia).
Qed.

(** The body of a deletion is the listing of the other records, without TTL
    and without the rname of the SOA. *)
Lemma sent_after_body js e1 x e2 k v j :
  on_list (e1 ++ x :: e2) js -> one_each (e1 ++ x :: e2) -> rr_slot (rr_rdata x) = Some (k, v) ->
  is_jarr v = false -> assoc_get k js = Some j ->
  let body := sent_after k (length (omap (named k) e1)) j js in
  body_of body (e1 ++ e2) /\ assoc_get "ttl" body = None.
Proof.
  intros Hl H1 Hs Hv Hj body. destruct (on_list_props _ _ _ _ Hl) as (Hnd & _ & _ & _ & Hg).
  assert (Hm := rr_slot_name _ _ _ Hs). set (ix := length (omap (named k) e1)) in *.
  set (js' := list_after k ix (assoc_del "fqdn" (assoc_del "ttl" js))).
  assert (Hget : forall m, assoc_get m js' =
            if meta_name m then None else left_over k ix m <$> listed m (e1 ++ x :: e2)).
  { intros m. unfold js'. rewrite assoc_get_list_after. destruct (meta_name m) eqn:Em.
    - unfold meta_name in Em. apply orb_true_iff in Em as [->%String.eqb_eq| ->%String.eqb_eq].
      + by rewrite assoc_get_del_eq.
      + by rewrite assoc_get_del_ne, assoc_get_del_eq by done.
    - rewrite !assoc_get_del_ne, Hg by (done || by intros <-). done. }
  assert (Hnd' : NoDup js'.*1).
  { unfold js', list_after. rewrite <- list_fmap_compose. apply del_fqdn_nodup.
    eapply sublist_NoDup; [exact Hnd|]. apply fmap_sublist, assoc_del_sublist. }
  rewrite Hg, (listed_mid _ _ _ _ _ H1 Hs) in Hj by done.
  assert (Hk : listed k (e1 ++ e2) = if several j then Some (cut ix j) else None).
  { unfold listed. rewrite omap_app. cbv zeta. destruct (multi_name k) eqn:Em.
    - injection Hj as <-. cbn [several cut]. rewrite length_app. cbn [length].
      destruct (Nat.ltb_spec 1 (length (omap (named k) e1) + S (length (omap (named k) e2)))) as [Hlt|Hge].
      + unfold ix. rewrite remove_middle.
        destruct (omap (named k) e1 ++ omap (named k) e2) as [|w ws] eqn:E; [|done].
        apply (f_equal length) in E. rewrite length_app in E. cbn in E. lia.
      + destruct (omap (named k) e1); [|cbn in Hge; lia]. destruct (omap (named k) e2); [done|cbn in Hge; lia].
    - destruct (single_alone _ _ _ _ _ H1 Em Hs) as [-> ->]. injection Hj as <-.
      destruct v; try done. }
  assert (Hbody : forall m, assoc_get m body = if String.eqb m k && negb (several j) then None else assoc_get m js').
  { intros m. subst body. unfold sent_after. fold js'. destruct (several j); [by rewrite andb_false_r|].
    rewrite andb_true_r. destruct (String.eqb_spec m k) as [->|]; [apply assoc_get_del_eq|].
    by rewrite assoc_get_del_ne. }
  assert (Hnone : forall m, meta_name m = true -> assoc_get m body = None).
  { intros m Hmm. rewrite Hbody, Hget, Hmm. by destruct (_ && _)%bool. }
  split; [|by apply Hnone]. split_and!; [|by apply Hnone|].
  { subst body. unfold sent_after. fold js'. destruct (several j); [done|].
    eapply sublist_NoDup; [exact Hnd'|]. apply fmap_sublist, assoc_del_sublist. }
  intros m Hmm. rewrite Hbody, Hget, Hmm.
  destruct (String.eqb_spec m k) as [->|Hne]; cbn [andb].
  - left. rewrite Hk, (listed_mid _ _ _ _ _ H1 Hs), Hj. destruct (several j) eqn:Es; [|done]. cbn [negb fmap option_fmap option_map].
    unfold left_over. rewrite String.eqb_refl.
    destruct (String.eqb_spec k "soa") as [->|]; [|done]. destruct (several_arr _ Es) as (l & -> & _).
    change (multi_name "soa") with false in Hj. cbn iota in Hj. injection Hj as ->. done.
  - rewrite (listed_except m e1 x e2 k v Hs) by done. unfold left_over. apply String.eqb_neq in Hne as ->.
    destruct (String.eqb_spec m "soa") as [->|].
    + right. split; [done|]. apply listed_short_drop.
    + left. by destruct (listed m (e1 ++ e2)).
Qed.
Lemma here_owned e js : on_list e js -> owned_by fqdn t e = e.
Proof.
  intros [_ _ _ _ Hh _]. unfold owned_by. rewrite <- (list_fmap_id e) at 2. apply list_fmap_ext. intros i x Hx.
  apply list_elem_of_lookup_2 in Hx. rewrite Forall_forall in Hh. destruct (Hh x Hx) as [<- <-]. by destruct x.
Qed.

Lemma owned_by_app e1 e2 : owned_by fqdn t (e1 ++ e2) = owned_by fqdn t e1 ++ owned_by fqdn t e2.
Proof. apply fmap_app. Qed.

Lemma owned_by_with e1 x e2 js d :
  on_list (e1 ++ x :: e2) js -> owned_by fqdn t (e1 ++ with_rdata d x :: e2) = e1 ++ with_rdata d x :: e2.
Proof.
  intros Hl. assert (E := here_owned _ _ Hl). destruct Hl as [_ _ _ _ Hh _].
  apply Forall_app in Hh as [_ Hh]. apply Forall_cons in Hh as [[Hn Ht] _].
  rewrite owned_by_app in *. unfold owned_by in *. rewrite !fmap_cons in *.
  apply app_inj_1 in E as [-> E]; [|by rewrite length_fmap]. injection E as _ ->. unfold with_rdata. cbn. congruence.
Qed.

(** The value of a listed record, as the table and the forms find it. *)
Lemma on_list_entry e1 x e2 js k v tp :
  on_list (e1 ++ x :: e2) js -> one_each (e1 ++ x :: e2) -> rr_slot (rr_rdata x) = Some (k, v) ->
  assoc_get k rrProto = Some tp -> k <> "soa"%string ->
  exists j, assoc_get k js = Some j /\ json_entry j (length (omap (named k) e1)) = Some v /\
    json_hasOwn j k = false /\ json_editable (proto tp) v /\ is_jarr v = false.
Proof.
  intros Hl H1 Hs Htp Hsoa. destruct (on_list_props _ _ _ _ Hl) as (_ & _ & _ & _ & Hg).
  assert (Hm := rr_slot_name _ _ _ Hs). eexists. split; [by rewrite Hg, (listed_mid _ _ _ _ _ H1 Hs)|].
  assert (Hx : rdata_ok (rr_rdata x)).
  { destruct Hl as [_ _ Hok _ _ _]. apply Forall_app in Hok as [_ Hok]. by apply Forall_cons in Hok as [[_ ?] _]. }
  destruct (slot_editable _ _ _ _ Hx Hs Htp Hsoa) as (Hed & Hv & _).
  assert (Hent : json_entry (if multi_name k then JArr (omap (named k) e1 ++ v :: omap (named k) e2) else v)
                   (length (omap (named k) e1)) = Some v).
  { destruct (multi_name k); cbn; [by rewrite list_lookup_middle|]. by destruct v. }
  split_and!; [exact Hent| |done|done]. destruct Hl as [Hj _ Hok Hlen _ _].
  eapply (listed_value _ _ _ _ _ Hok Hlen Hj Htp Hsoa); [|done].
  by rewrite Hg, (listed_mid _ _ _ _ _ H1 Hs).
Qed.

Lemma on_list_soa_fits e1 x e2 js : on_list (e1 ++ x :: e2) js -> soa_fits js = true.
Proof.
  intros Hl. destruct (on_list_props _ _ _ _ Hl) as (_ & _ & _ & _ & Hg). unfold soa_fits.
  destruct (assoc_get "soa" js) as [j|] eqn:E; [|done]. rewrite Hg in E by done.
  apply listed_inv in E as (y & _ & Hy). destruct (rr_rdata y); try discriminate Hy. by injection Hy as <-.
Qed.

(** The request of the edited set, at the server. *)
Lemma edit_put_saves e1 x e2 js k u tp d ts :
  on_list (e1 ++ x :: e2) js -> rr_slot (rr_rdata x) = Some (k, u) ->
  assoc_get k rrProto = Some tp -> k <> "soa"%string ->
  rr_slot d = Some (k, new_json (typed_entry k u ts)) -> sendable fqdn (e1 ++ with_rdata d x :: e2) ->
  let ix := length (omap (named k) e1) in
  let body := assoc_del "fqdn" (put_json js k ix (new_json (typed_entry k u ts))) in
  parseJson (print (JObj body)) = Some (JObj body) ->
  put_saves (rr_put app fqdn body) (e1 ++ with_rdata d x :: e2).
Proof.
  intros Hl Hs Htp Hsoa Hd Hsend ix body Hp.
  assert (H1 : one_each (e1 ++ x :: e2)) by (eapply one_each_with; [exact Hs|exact Hd|apply Hsend]).
  destruct (on_list_entry _ _ _ _ _ _ _ Hl H1 Hs Htp Hsoa) as (j & _ & _ & _ & _ & Hv).
  destruct (put_json_body _ _ _ _ d _ _ _ Hl H1 Hs Hd Hv) as [Hb Htt].
  rewrite <- (owned_by_with _ _ _ _ d Hl). apply body_saved; [done|done| |done].
  apply ttl_given; [exact Htt|apply Hl].
Qed.

(** Editing a record, from the form to storage.  For a record set in the
    list, a record of it of a type the forms know (the SOA apart), and texts
    that make up a record [d] of that type, none of them empty: Edit, typing and Save send one
    request, and the server stores the record set with [d] in the place of the
    record, everything else as it was, up to its own order. *)
Theorem edit_saved o e1 x e2 js k u tp d ts :
  on_list (e1 ++ x :: e2) js -> rr_slot (rr_rdata x) = Some (k, u) ->
  assoc_get k rrProto = Some tp -> k <> "soa"%string -> length ts = length (entry_names u) ->
  forallb filled ts = true ->
  rr_slot d = Some (k, new_json (typed_entry k u ts)) -> sendable fqdn (e1 ++ with_rdata d x :: e2) ->
  let ix := length (omap (named k) e1) in
  let body := assoc_del "fqdn" (put_json js k ix (new_json (typed_entry k u ts))) in
  let req := rr_put app fqdn body in
  parseJson (print (JObj body)) = Some (JObj body) ->
  (exists h3, edit_session app (RrArgs true fqdn (Some k) ix (VRef lr)) ts o h
   = Trace [req] (saved fqdn (answer o req)) (Ok tt) h3) /\
  put_saves req (e1 ++ with_rdata d x :: e2).
Proof.
  intros Hl Hs Htp Hsoa Hts Hfill Hd Hsend ix body req Hp.
  assert (H1 : one_each (e1 ++ x :: e2)) by (eapply one_each_with; [exact Hs|exact Hd|apply Hsend]).
  destruct (on_list_entry _ _ _ _ _ _ _ Hl H1 Hs Htp Hsoa) as (j & Hj & Hent & Hown & Hed & Hv).
  destruct (on_list_props _ _ _ _ Hl) as (Hnd & Hfin & _). split.
  - destruct (edit_session_read app o h lr fqdn js k ix j u ts) as (h3 & E); try done; [apply Hl| |].
    { unfold type_proto. by rewrite Htp. }
    exists h3. rewrite E. by rewrite Hfill.
  - by apply (edit_put_saves e1 x e2 js k u tp d ts).
Qed.

(** Adding a record, from the form to storage: for a type the drop-down
    offers and texts, none of them empty, that make up a record [d] of that type, Add, typing and
    Save send one request, and the server stores the record set with [d] in
    it. *)
Theorem add_saved o r e js used k tp d ts :
  on_list (r :: e) js -> filterUsedRrTypes (VRef lr) h = (Ok used, h) -> k ∈ select_types used ->
  k <> "openpgpkey"%string -> length ts = length (field_names k) -> forallb filled ts = true ->
  assoc_get k rrProto = Some tp -> rr_slot d = Some (k, new_json (typed_value k ts)) -> sendable fqdn ((r :: e) ++ [Rr fqdn t d]) ->
  let body := assoc_del "fqdn" (add_json js k (new_json (typed_value k ts))) in
  let req := rr_put app fqdn body in
  parseJson (print (JObj body)) = Some (JObj body) ->
  (exists h3, add_session app (RrArgs false fqdn None 0 (VRef lr)) [k] ts o h
   = Trace [req] (saved fqdn (answer o req)) (Ok tt) h3) /\
  put_saves req ((r :: e) ++ [Rr fqdn t d]).
Proof.
  intros Hl Hu Hk Hpgp Hts Hfill Htp Hd Hsend body req Hp.
  destruct (on_list_props [] _ _ _ Hl) as (Hnd & Hfin & _). split.
  - destruct (add_session_read app o h lr fqdn js k used ts) as (h3 & E); try done; [apply Hl|].
    exists h3. rewrite E. by rewrite Hfill.
  - destruct (add_json_body _ _ _ d _ _ tp Hl (send_single _ _ Hsend) Hd Htp) as [Hb Htt].
    assert (E : owned_by fqdn t ((r :: e) ++ [Rr fqdn t d]) = (r :: e) ++ [Rr fqdn t d]).
    { by rewrite owned_by_app, (here_owned _ _ Hl). }
    rewrite <- E. apply body_saved; [done|done| |done]. apply ttl_given; [exact Htt|apply Hl].
Qed.

(** Deleting a record, from the table to storage: when the user agrees,
    one request is sent, and the server stores the other records of the set,
    all of them now with the default TTL of the server, whatever TTL the set
    had. *)
Theorem delete_saved o_answer e1 x e2 js k u j :
  on_list (e1 ++ x :: e2) js -> one_each (e1 ++ x :: e2) ->
  rr_slot (rr_rdata x) = Some (k, u) -> assoc_get k js = Some j -> sendable fqdn (e1 ++ e2) -> (0 <= default_ttl <= TTL_MAX)%Z ->
  let ix := length (omap (named k) e1) in
  let req := rr_put app fqdn (sent_after k ix j js) in
  parseJson (print (JObj (sent_after k ix j js))) = Some (JObj (sent_after k ix j js)) ->
  (exists h', run (quiet true o_answer) (deleteRr app (VRef lr) k ix h)
   = Trace [req] (deleted fqdn o_answer) (Ok tt) h') /\
  put_saves req (owned_by fqdn default_ttl (e1 ++ e2)).
Proof.
  intros Hl H1 Hs Hj Hsend Hdef ix req Hp. assert (Hfit := on_list_soa_fits _ _ _ _ Hl).
  destruct (on_list_props _ _ _ _ Hl) as (Hnd & Hfin & Hq & _ & Hg).
  assert (Hm := rr_slot_name _ _ _ Hs).
  assert (Hv : is_jarr u = false) by (destruct (rr_rdata x); try discriminate Hs; by injection Hs as _ <-).
  destruct (sent_after_body _ _ _ _ _ _ _ Hl H1 Hs Hv Hj) as [Hb Htt]. split.
  - apply deleteRr_run; try done; [apply Hl|]. unfold not_meta. unfold meta_name in Hm. by rewrite orb_comm, Hm.
  - apply body_saved; [done|done| |done]. by apply ttl_absent.
Qed.

(** C40: A record set with an AAAA record (and no type twice that is kept as one
    value) cannot be changed record by record in the UI: editing any of its records of a type in the table of the forms
    ([rrProto]) other than the SOA sends a request that the server does not
    store, whatever is typed (with an input left empty it sends nothing). *)
Theorem aaaa_set_frozen o e1 x e2 js k u tp ts :
  on_list (e1 ++ x :: e2) js -> one_each (e1 ++ x :: e2) ->
  Exists (fun y => exists s, rr_rdata y = TYPE_AAAA s) (e1 ++ x :: e2) ->
  rr_slot (rr_rdata x) = Some (k, u) ->
  assoc_get k rrProto = Some tp -> k <> "soa"%string -> length ts = length (entry_names u) ->
  let ix := length (omap (named k) e1) in
  let body := assoc_del "fqdn" (put_json js k ix (new_json (typed_entry k u ts))) in
  let req := rr_put app fqdn body in
  parseJson (print (JObj body)) = Some (JObj body) ->
  (exists h3, edit_session app (RrArgs true fqdn (Some k) ix (VRef lr)) ts o h
   = if forallb filled ts then Trace [req] (saved fqdn (answer o req)) (Ok tt) h3 else Trace [] [] (Ok tt) h3) /\
  forall s, rest_put req <> Built s.
Proof.
  intros Hl H1 Hx Hs Htp Hsoa Hts ix body req Hp.
  destruct (on_list_entry _ _ _ _ _ _ _ Hl H1 Hs Htp Hsoa) as (j & Hj & Hent & Hown & Hed & Hv).
  destruct (on_list_props _ _ _ _ Hl) as (Hnd & Hfin & _). split.
  - apply (edit_session_read app o h lr fqdn js k ix j u ts); try done; [apply Hl|].
    unfold type_proto. by rewrite Htp.
  - intros s. rewrite (rest_put_json body req) by done. apply aaaa_body. subst body.
    rewrite assoc_get_del_ne by done. unfold put_json.
    destruct (String.eqb_spec k "aaaa") as [->|Hk]; [by rewrite assoc_get_set_eq|].
    rewrite assoc_get_set_ne by done. apply (aaaa_listed (e1 ++ x :: e2)); [apply Hl|done].
Qed.
End OnList.

Module SavingDemo.
(** A record set as it is listed, and its JSON in the browser. *)
Definition listed_demo : list rr :=
  [Rr "www.example.com" 300 (TYPE_A "127.0.0.1"); Rr "www.example.com" 300 (TYPE_MX "mail.example.com" 10);
   Rr "www.example.com" 300 (TYPE_MX "backup.example.com" 20)].
Definition listed_json : list (string * json) := default [] (toJson_entry listed_demo).
Definition listed_heap : val * heap := load_json (JObj listed_json) [].
Definition listed_loc : loc := match listed_heap.1 with VRef l => l | _ => 0 end.

Lemma listed_set_roundtrip_witness :
  exists h3, save_unchanged initialState (RrArgs true "www.example.com" (Some "mx"%string) 1 (VRef listed_loc)) RrDemo.env listed_heap.2
  = let req := rr_put initialState "www.example.com" (assoc_del "fqdn" listed_json) in
    Trace [req] (saved "www.example.com" (answer RrDemo.env req)) (Ok tt) h3.
Proof.
  refine (listed_set_roundtrip initialState RrDemo.env listed_heap.2 listed_loc
            (Rr "www.example.com" 300 (TYPE_A "127.0.0.1")) (tail listed_demo) listed_json "mx" _ 1 _ _
            eq_refl (load_json_read (JObj listed_json) []) _ _ eq_refl _ eq_refl eq_refl);
    [|cbn; lia|discriminate].
  repeat apply Forall_cons_2; try apply Forall_nil_2; (split; [unfold uint32; cbn; lia|]);
    cbn [rr_rdata rdata_ok]; unfold uint32; repeat split; lia.
Defined.

(** The record set of a zone in the list, and edits of its last record. *)
Import WireDemo.

Definition zone_e1 : list rr :=
  [StoredDemo.zone_soa; Rr "ex.org" 300 (TYPE_MX "mail.ex.org" 10); Rr "ex.org" 300 (TYPE_A "127.0.0.1")].
Definition zone_mx : rr := Rr "ex.org" 300 (TYPE_MX "backup.ex.org" 20).
Definition zone_js : list (string * json) := default [] (toJson_entry (zone_e1 ++ [zone_mx])).
Definition zone_mem : val * heap := load_json (JObj zone_js) [].
Definition zone_at : loc := match zone_mem.1 with VRef l => l | _ => 0 end.
Definition new_mx : rdata := TYPE_MX "mx2.ex.org" 30.
Definition mx_texts : list string := ["mx2.ex.org"; "30"]%string.

(** A parser of the one text it is given. *)
Definition parse_one (j : json) (s : string) : option json := if String.eqb s (print j) then Some j else None.

Lemma parse_one_print j : parse_one j (print j) = Some j.
Proof. unfold parse_one. by rewrite String.eqb_refl. Qed.

Ltac demo_rr_ok :=
  repeat apply Forall_cons_2; try apply Forall_nil_2; (split; [unfold uint32; cbn; lia|]);
  cbn [rr_rdata rdata_ok]; unfold uint32; repeat split; lia.

Lemma zone_on_list : on_list zone_mem.2 zone_at "ex.org" 300 (zone_e1 ++ [zone_mx]) zone_js.
Proof.
  split; [reflexivity|exact (load_json_read (JObj zone_js) [])| |cbn; lia|repeat constructor|unfold TTL_MAX; lia].
  demo_rr_ok.
Qed.

Ltac demo_sendable :=
  split; [|apply (bool_decide_unpack _); vm_compute; exact I|by eapply demo_name|right; repeat constructor|
          intros ws [= <-]; vm_compute; reflexivity];
  repeat apply Forall_cons_2; try apply Forall_nil_2; (split; [|try done]); cbn [storable rr_rdata];
  unfold uint; try (split_and!; try lia); try (by eapply demo_name);
  try (by eapply demo_rdata); try exact demo_mailbox;
  try (by exists loopback4).

Lemma edited_sendable : sendable "ex.org" (zone_e1 ++ [with_rdata new_mx zone_mx]).
Proof. unfold zone_e1, StoredDemo.zone_soa, zone_mx, with_rdata, new_mx. cbn [app]. demo_sendable. Qed.

Lemma added_sendable : sendable "ex.org" ((zone_e1 ++ [zone_mx]) ++ [Rr "ex.org" 300 new_mx]).
Proof. unfold zone_e1, StoredDemo.zone_soa, zone_mx, new_mx. cbn [app]. demo_sendable. Qed.

Lemma deleted_sendable : sendable "ex.org" (zone_e1 ++ []).
Proof. unfold zone_e1, StoredDemo.zone_soa. cbn [app]. demo_sendable. Qed.

Lemma edit_saved_witness :
  let body := assoc_del "fqdn" (put_json zone_js "mx" 1 (new_json (NObj
                [("host", VStr "mx2.ex.org"); ("priority", VNum (num_of_Z 30))]%string))) in
  let req := rr_put initialState "ex.org" body in
  (exists h3, edit_session initialState (RrArgs true "ex.org" (Some "mx"%string) 1 (VRef zone_at)) mx_texts
     RrDemo.env zone_mem.2
   = Trace [req] (saved "ex.org" (answer RrDemo.env req)) (Ok tt) h3) /\
  put_saves (parse_one (JObj body)) "ex.org" 3600 req (zone_e1 ++ [with_rdata new_mx zone_mx]).
Proof.
  intros body req.
  refine (edit_saved (parse_one (JObj body)) initialState zone_mem.2 zone_at "ex.org" 300 3600 RrDemo.env zone_e1
            zone_mx [] zone_js "mx" _ _ new_mx mx_texts zone_on_list eq_refl eq_refl _ eq_refl eq_refl eq_refl
            edited_sendable _); [discriminate|].
  apply parse_one_print.
Defined.

Lemma add_saved_witness :
  let body := assoc_del "fqdn" (add_json zone_js "mx" (new_json (typed_value "mx" mx_texts))) in
  let req := rr_put initialState "ex.org" body in
  (exists h3, add_session initialState (RrArgs false "ex.org" None 0 (VRef zone_at)) ["mx"%string] mx_texts
     RrDemo.env zone_mem.2
   = Trace [req] (saved "ex.org" (answer RrDemo.env req)) (Ok tt) h3) /\
  put_saves (parse_one (JObj body)) "ex.org" 3600 req ((zone_e1 ++ [zone_mx]) ++ [Rr "ex.org" 300 new_mx]).
Proof.
  intros body req.
  refine (add_saved (parse_one (JObj body)) initialState zone_mem.2 zone_at "ex.org" 300 3600 RrDemo.env
            StoredDemo.zone_soa (tail zone_e1 ++ [zone_mx]) zone_js ["fqdn"; "ttl"; "soa"]%string "mx" _ new_mx
            mx_texts zone_on_list eq_refl _ _ eq_refl eq_refl eq_refl eq_refl added_sendable _).
  - apply (bool_decide_unpack _). vm_compute. exact I.
  - discriminate.
  - apply parse_one_print.
Defined.

Lemma delete_saved_witness :
  let j := default JNull (assoc_get "mx" zone_js) in
  let req := rr_put initialState "ex.org" (sent_after "mx" 1 j zone_js) in
  (exists h', run (quiet true (Resp true "OK" None)) (deleteRr initialState (VRef zone_at) "mx" 1 zone_mem.2)
   = Trace [req] (deleted "ex.org" (Resp true "OK" None)) (Ok tt) h') /\
  put_saves (parse_one (JObj (sent_after "mx" 1 j zone_js))) "ex.org" 3600 req (owned_by "ex.org" 3600 (zone_e1 ++ [])).
Proof.
  intros j req.
  refine (delete_saved (parse_one (JObj (sent_after "mx" 1 j zone_js))) initialState zone_mem.2 zone_at "ex.org" 300 3600
            (Resp true "OK" None) zone_e1 zone_mx [] zone_js "mx" _ j zone_on_list _ eq_refl eq_refl
            deleted_sendable _ _).
  - apply (bool_decide_unpack _). vm_compute. exact I.
  - unfold TTL_MAX. lia.
  - apply parse_one_print.
Defined.

(** A record set with both kinds of addresses. *)
Definition dual_e1 : list rr := [Rr "ex.org" 300 (TYPE_A "127.0.0.1"); Rr "ex.org" 300 (TYPE_AAAA "::1")].
Definition dual_js : list (string * json) := default [] (toJson_entry (dual_e1 ++ [zone_mx])).
Definition dual_mem : val * heap := load_json (JObj dual_js) [].
Definition dual_at : loc := match dual_mem.1 with VRef l => l | _ => 0 end.

Lemma dual_on_list : on_list dual_mem.2 dual_at "ex.org" 300 (dual_e1 ++ [zone_mx]) dual_js.
Proof.
  split; [reflexivity|exact (load_json_read (JObj dual_js) [])| |cbn; lia|repeat constructor|unfold TTL_MAX; lia].
  demo_rr_ok.
Qed.

Lemma aaaa_set_frozen_witness :
  let body := assoc_del "fqdn" (put_json dual_js "mx" 0 (new_json (NObj
                [("host", VStr "mx2.ex.org"); ("priority", VNum (num_of_Z 30))]%string))) in
  let req := rr_put initialState "ex.org" body in
  (exists h3, edit_session initialState (RrArgs true "ex.org" (Some "mx"%string) 0 (VRef dual_at)) mx_texts
     RrDemo.env dual_mem.2
   = Trace [req] (saved "ex.org" (answer RrDemo.env req)) (Ok tt) h3) /\
  forall s, rest_put (parse_one (JObj body)) "ex.org" 3600 req <> Built s.
Proof.
  intros body req.
  refine (aaaa_set_frozen (parse_one (JObj body)) initialState dual_mem.2 dual_at "ex.org" 300 3600 RrDemo.env dual_e1
            zone_mx [] dual_js "mx" _ _ mx_texts dual_on_list _ _ eq_refl eq_refl _ eq_refl _).
  - apply (bool_decide_unpack _). vm_compute. exact I.
  - apply Exists_cons_tl, Exists_cons_hd. by eexists.
  - discriminate.
  - apply parse_one_print.
Defined.
End SavingDemo.
