(* ===== verification/RrServed.v ===== *)
(** * A saved record set, in the index of the server

    The request the UI sends for a record set ([Saving]) as it reaches
    RestApi::onResourceRecord ([RrService]): the set is in the index
    afterwards, and the zone's serial has gone up. *)

From stdpp Require Import gmap sorting.
From S2P Require Import Prelude JsNumber JsValue JsonStore Http AppState ServerUtil Qargs Paging RealKey RrTypes RrJson DnsName RrWire RrBuild RrStored Permissions RrRest RrIndex RrNames RrService RrForm RrEdit RrAdd RrSession RrCells RrDelete Saving.

Local Open Scope Z_scope.

(** ** The request on its way *)

(** fetch sends the name of the method in upper case. *)
Definition method_of (m : string) : rest_method :=
  if String.eqb m "put" then PUT
  else if String.eqb m "post" then POST
  else if String.eqb m "delete" then DELETE
  else if String.eqb m "get" then GET
  else OTHER.

(** The request that arrives at [api], the address of the route, for the
    resource [rr]. *)
Definition rr_request (app : app_state) (req : request) : option rest_request :=
  let p := parse (drop_chars (String.length (api app)) (url req)) in
  if String.eqb (p_what p) "rr"
  then Some (RestRequest (method_of (method req)) (p_target p) (p_operation p) [] (default ""%string (body req)))
  else None.

Lemma cut_slash_plain s : has_char "/" s = false -> cut_slash s = None.
Proof.
  induction s as [|c s IH]; [done|]. cbn [has_char cut_slash]. intros [Hc Hs]%orb_false_iff. by rewrite Hc, IH.
Qed.

Lemma parse_rr fqdn : has_char "/" fqdn = false -> parse ("/rr/" +:+ fqdn) = ParsedPath "rr" fqdn "".
Proof.
  intros Hf. unfold parse. change (strip_front _ _) with ("rr/" +:+ fqdn).
  change (cut_slash ("rr/" +:+ fqdn)) with (Some ("rr"%string, fqdn)). cbv zeta iota. by rewrite cut_slash_plain.
Qed.

Lemma rr_put_request app fqdn js :
  has_char "/" fqdn = false ->
  rr_request app (rr_put app fqdn js) = Some (RestRequest PUT fqdn "" [] (print (JObj js))).
Proof. intros Hf. unfold rr_request, rr_put, getUrl. cbn [url method body]. by rewrite drop_chars_app, parse_rr. Qed.

(** ** Entries *)

(** The record with the serial [n], if it is an SOA. *)
Definition with_serial (n : Z) (x : rr) : rr :=
  match rr_rdata x with
  | TYPE_SOA mname rname _ refresh retry expire minimum =>
      Rr (labels x) (rr_ttl x) (TYPE_SOA mname rname n refresh retry expire minimum)
  | _ => x
  end.

Section Entries.
Context `{Addresses}.

Definition read_row (o : string) (r : ttl_rr) : option rr := Rr o r.1 <$> read_rr r.2.

Lemma z_entry_eq s : z_entry s = mapM (read_row (z_owner s)) (z_rrs s).
Proof. done. Qed.

(** Only a record of type 6 is an SOA. *)
Lemma read_soa_type w d : read_rr w = Some d -> (w_type w =? 6) = (match d with TYPE_SOA _ _ _ _ _ _ _ => true | _ => false end).
Proof.
  unfold read_rr. destruct (Z.eqb_spec (w_type w) 6) as [->|Hne].
  - unfold read_soa. intros Hd. unbind Hd. by injection Hd as <-.
  - intros Hd. destruct d; try done. exfalso. destruct (w_type w) as [|p|p]; [done| |done].
    do 6 (try destruct p as [p|p|]); try done; try (by destruct Hne); unbind Hd; try discriminate Hd;
      try (destruct (_ || _)%bool; discriminate Hd).
Qed.

Lemma read_row_soa o r x v :
  read_row o r = Some x -> named "soa" x = Some v -> is_soa r = true.
Proof.
  unfold read_row, named. destruct (read_rr r.2) as [d|] eqn:Ed; [|done]. intros [= <-]. cbn [rr_rdata].
  unfold is_soa. rewrite (read_soa_type _ _ Ed). by destruct d.
Qed.

Lemma read_row_named o r x :
  read_row o r = Some x -> (if is_soa r then exists v, named "soa" x = Some v else named "soa" x = None).
Proof.
  unfold read_row, named, is_soa. destruct (read_rr r.2) as [d|] eqn:Ed; [|done]. intros [= <-]. cbn [rr_rdata].
  rewrite (read_soa_type _ _ Ed). destruct d; try done. by eexists.
Qed.

(** The SOA records of a set are those of its entry. *)
Lemma entry_soas o l e : mapM (read_row o) l = Some e -> length (soas l) = length (omap (named "soa") e).
Proof.
  intros He%mapM_Some. unfold soas. induction He as [|r x l e Hr _ IH]; [done|]. cbn [List.filter omap list_omap].
  apply read_row_named in Hr. destruct (is_soa r); [destruct Hr as [v ->]|rewrite Hr]; cbn; by rewrite IH.
Qed.

(** Replacing the serial. *)
Lemma entry_reserial o l (e : list rr) n :
  mapM (read_row o) l = Some e -> Forall soa_made (soas l) -> (length (soas l) <= 1)%nat -> n mod 2 ^ 32 = n ->
  mapM (read_row o) (update_soa (set_serial n) l) = Some (with_serial n <$> e).
Proof.
  intros He%mapM_Some Hm Hx1 Hn. unfold soas in *. induction He as [|r x l e Hr Hl IH]; [done|].
  cbn [List.filter update_soa] in *. assert (Hs := read_row_named _ _ _ Hr).
  unfold read_row in Hr. destruct (read_rr r.2) as [d|] eqn:Ed; [|done]. injection Hr as <-.
  assert (Hd := read_soa_type _ _ Ed). fold (is_soa r) in Hd. destruct (is_soa r) eqn:Er.
  - apply Forall_cons in Hm as [Hm _]. destruct d; try done. rewrite fmap_cons. apply mapM_cons_Some.
    + unfold read_row. cbn [fst snd]. rewrite (read_reserial _ _ _ _ _ _ _ _ n Hm Ed), Hn. done.
    + apply mapM_Some. assert (Hno : soas l = []) by (unfold soas; destruct (List.filter is_soa l); [done|cbn in Hx1; lia]).
      clear -Hl Hno. unfold soas in Hno. induction Hl as [|r' x' l' e' Hr' _ IH]; [constructor|]. cbn in Hno.
      destruct (is_soa r') eqn:Er'; [done|]. rewrite fmap_cons. constructor; [|by apply IH].
      unfold read_row in *. destruct (read_rr r'.2) as [d'|] eqn:Ed'; [|done]. injection Hr' as <-.
      apply read_soa_type in Ed'. fold (is_soa r') in Ed'. rewrite Er' in Ed'. by destruct d'.
  - rewrite fmap_cons. apply mapM_cons_Some; [|by apply IH]. unfold read_row. rewrite Ed. by destruct d.
Qed.
End Entries.

(** ** From the body to the index *)

Section Served.
Context `{Addresses} `{Finish} `{RestLibs}.
Context (default_ttl : Z) (check_targets ixfr : bool) (parseJson : string -> option json).
Context (tenant : string) (allowed : permission -> string -> bool).

Lemma sorted_snd (l : list ttl_rr) : StronglySorted rr_le l -> StronglySorted class_le l.*2.
Proof.
  induction 1 as [|r l _ IH Hr]; [constructor|]. rewrite fmap_cons. constructor; [done|]. by apply Forall_fmap.
Qed.

Lemma pair_snd (t : Z) (ws : list wire_rr) : ((fun w => (t, w)) <$> ws).*2 = ws.
Proof. induction ws as [|w ws IH]; [done|]. by rewrite !fmap_cons, IH. Qed.

Lemma read_pair (o : string) (t : Z) (ws : list wire_rr) :
  mapM (read_row o) ((fun w => (t, w)) <$> ws) = mapM (fun w => Rr o t <$> read_rr w) ws.
Proof. induction ws as [|w ws IH]; [done|]. rewrite fmap_cons. cbn [mapM]. by rewrite IH. Qed.

Lemma same_ttl (t : Z) (ws : list wire_rr) (l : list ttl_rr) :
  l ≡ₚ (fun w => (t, w)) <$> ws -> l = (fun w => (t, w)) <$> l.*2.
Proof.
  intros Hp. assert (Hall : Forall (fun r => r.1 = t) l).
  { rewrite Hp. apply Forall_fmap, Forall_forall. done. }
  clear Hp. induction Hall as [|[t' w] l <- _ IH]; [done|]. by rewrite !fmap_cons, <- IH.
Qed.

(** The index that finish writes for a body is one of those of [finished]. *)
Lemma finished_finish s :
  let l := finish ((fun w => (s_ttl s, w)) <$> s_rrs s) in
  finished s (WireSet (s_owner s) (s_ttl s) l.*2) /\
  mapM (read_row (s_owner s)) l = read_set (WireSet (s_owner s) (s_ttl s) l.*2).
Proof.
  intros l. assert (Hp := finish_perm ((fun w => (s_ttl s, w)) <$> s_rrs s)). fold l in Hp. split.
  - unfold finished. cbn. split_and!; [done|done| |apply sorted_snd, finish_sorted].
    by rewrite Hp, pair_snd.
  - unfold read_set. cbn [s_owner s_ttl s_rrs]. rewrite (same_ttl _ _ _ Hp) at 1. apply read_pair.
Qed.

(** What a body that can be saved is stored as, under a name without a dot at
    its end. *)
Lemma put_saves_set fqdn req e' k z tn :
  put_saves parseJson fqdn default_ttl req e' -> one_each e' -> key_ok (toLowerStr fqdn) ->
  exists sb e'', z_entry sb = Some e'' /\ e'' ≡ₚ e' /\
    request_set default_ttl parseJson (RestRequest PUT fqdn "" [] (default ""%string (body req))) tn
      (if String.eqb z k then O else String.length z) = Built sb.
Proof.
  intros (s & Hs & _ & Hread) Hx1 (_ & _ & Hd). rewrite dot_end_lower in Hd.
  unfold rest_put in Hs. destruct (body req) as [b|]; [|done]. cbn [mbind option_bind default] in *.
  destruct (parseJson b) as [j|] eqn:Ej; [|done]. cbn [or_refused mbind verdict_bind] in Hs.
  destruct (finished_finish s) as [Hf He]. set (l := finish ((fun w => (s_ttl s, w)) <$> s_rrs s)) in *.
  destruct (Hread _ Hf) as (e'' & Hr & Hp). rewrite <- He in Hr.
  set (zl := if String.eqb z k then O else String.length z).
  exists (ZSet tn zl (s_owner s) l), e''. split_and!; [exact Hr|done|].
  unfold request_set. cbn [q_body q_target]. change (id b) with b. rewrite Ej. cbn [or_refused mbind verdict_bind]. rewrite Hs.
  cbn [mbind verdict_bind]. assert (Hlp := finish_perm ((fun w => (s_ttl s, w)) <$> s_rrs s)). fold l in Hlp.
  destruct (build_finishable _ _ _ _ Hs Hd) as [Ha Hsort]. unfold l. apply finish_set_total; [|by rewrite pair_snd..].
  rewrite <- (Permutation_length (soas_perm _ _ Hlp)), (entry_soas _ _ _ Hr). rewrite Hp. by apply one_each_count.
Qed.

(** The targets of SRV records have addresses on this server. *)
Definition targets_ok (m : index) (e : entry) : Prop :=
  Forall (fun x => match rr_rdata x with TYPE_SRV target _ _ _ => has_address m (toLowerStr target) = true | _ => True end) e.

Lemma targets_found m o l (e : list rr) :
  mapM (read_row o) l = Some e -> targets_ok m e ->
  exists ts, mapM srv_target l = Some ts /\ forallb (has_address m) (mjoin ts) = true.
Proof.
  intros He%mapM_Some. unfold targets_ok. induction He as [|r x l e Hr _ IH]; intros Ht; [by exists []|].
  apply Forall_cons in Ht as [Hx Ht]. destruct (IH Ht) as (ts & Hts & Hf). unfold read_row in Hr.
  destruct (read_rr r.2) as [d|] eqn:Ed; [|done]. injection Hr as <-. cbn [rr_rdata] in Hx.
  assert (Hs : exists t, srv_target r = Some t /\ forallb (has_address m) t = true).
  { unfold srv_target. destruct (Z.eqb_spec (w_type r.2) 33) as [E|]; [|by exists []]. rewrite Ed.
    unfold read_rr in Ed. rewrite E in Ed. unbind Ed. injection Ed as <-. exists [toLowerStr (p.1)].
    split; [done|]. cbn. by rewrite Hx. }
  destruct Hs as (t & Ht1 & Ht2). exists (t :: ts). split; [by apply mapM_cons_Some|]. change (mjoin (t :: ts)) with (t ++ mjoin ts).
  by rewrite forallb_app, Ht2, Hf.
Qed.

Lemma targets_perm m e e' : e ≡ₚ e' -> targets_ok m e' -> targets_ok m e.
Proof. unfold targets_ok. by intros ->. Qed.

Lemma check_served m sb e e' :
  z_entry sb = Some e -> e ≡ₚ e' -> (check_targets = true -> targets_ok m e') ->
  checkSrv check_targets m (z_rrs sb) = Built tt.
Proof.
  intros He Hp Ht. unfold checkSrv. destruct check_targets; [|done]. cbn [negb].
  destruct (targets_found m _ _ _ He) as (ts & -> & ->); [|done]. by apply (targets_perm _ _ _ Hp), Ht.
Qed.

Abbreviation served := (onResourceRecord default_ttl check_targets ixfr parseJson tenant allowed).

(** What the index holds after the request for [e']. *)
Definition entry_after (z k : string) (n : Z) (e' : entry) : entry :=
  if String.eqb z k then with_serial (next_serial n) <$> e' else e'.

(** The request the UI sends for a record set it can save, at the server. *)
Lemma rr_put_served m app fqdn js e' a e z soa :
  store_ok m -> put_saves parseJson fqdn default_ttl (rr_put app fqdn js) e' -> one_each e' ->
  has_char "/" fqdn = false -> authority m (toLowerStr fqdn) a e z soa -> z_tenant soa = Some tenant ->
  allowed (match m !! toLowerStr fqdn with Some _ => UPDATE_RR | None => CREATE_RR end) (toLowerStr fqdn) = true ->
  (check_targets = true -> targets_ok m e') ->
  (z = toLowerStr fqdn -> exists x v, x ∈ e' /\ named "soa" x = Some v) ->
  exists q m' s e'' n, rr_request app (rr_put app fqdn js) = Some q /\
    served m q = Some (done_code m (toLowerStr fqdn), None, m') /\
    m' !! toLowerStr fqdn = Some s /\ z_entry s = Some e'' /\
    zset_serial soa = Some n /\ e'' ≡ₚ entry_after z (toLowerStr fqdn) n e' /\
    (exists soa', m' !! z = Some soa' /\ zset_serial soa' = Some (next_serial n)) /\
    forall k', k' <> toLowerStr fqdn -> k' <> z -> m' !! k' = m !! k'.
Proof.
  set (k := toLowerStr fqdn). intros Hm Hp Hx1 Hsl Ha Ht Hal Htg Hsoa.
  set (q := RestRequest PUT fqdn "" [] (print (JObj js))).
  assert (Hk : key_ok k) by by eapply authority_key.
  destruct (put_saves_set _ _ _ k z (old_tenant (found m k z soa)) Hp Hx1 Hk) as (sb & e'' & He & Hpe & Hr).
  assert (Hb : body_set default_ttl check_targets parseJson m q k z (old_tenant (found m k z soa)) sb).
  { split; [exact Hr|by eapply check_served]. }
  assert (Hser : forall m', served m q = Some (done_code m k, None, m') -> exists n, zset_serial soa = Some n /\
            exists soa', m' !! z = Some soa' /\ zset_serial soa' = Some (next_serial n)).
  { intros m' Hs. destruct (change_serial _ _ _ _ _ _ m Hm q _ _ m' a e z soa Hs) as (soa' & n & ? & ? & ?); [|done|exact Ha|by eauto].
    unfold done_code. destruct (m !! k); lia. }
  assert (Hwb : set_wf k sb) by by apply (request_set_wf _ _ q _ _ _ Hr).
  destruct (String.eqb_spec z k) as [->|Hzk].
  - destruct (authority_soa m Hm _ _ _ _ _ Ha) as (_ & Hz & _).
    rewrite (found_tenant m Hm _ _ _ _ _ Ha), Ht in Hb by done. rewrite Hz in Hal.
    assert (Hf : flag_soa sb = true).
    { apply flag_soas. intros E. destruct (Hsoa eq_refl) as (x & v & Hx & Hv). assert (Hl := entry_soas _ _ _ He).
      rewrite E, Hpe in Hl. assert (Hin : v ∈ omap (named "soa") e') by (apply list_elem_of_omap; by exists x).
      destruct (omap _ e'); [by apply not_elem_of_nil in Hin|done]. }
    destruct (put_apex default_ttl check_targets ixfr parseJson tenant allowed m Hm q a e soa sb Ha Ht eq_refl Hal Hb Hf)
      as (n & Hn & Hreq).
    assert (Hcode : done_code m k = 200) by (unfold done_code; by rewrite Hz).
    destruct (Hser _ ltac:(rewrite Hcode; exact Hreq)) as (n' & Hn' & Hs'). assert (n' = n) as -> by congruence.
    eexists q, _, _, _, n. split_and!; [by apply rr_put_request|rewrite Hcode; exact Hreq|apply lookup_insert_eq| |done| |done|].
    + apply entry_reserial; [exact He|apply Hwb|apply Hwb|apply next_serial_mod].
    + unfold entry_after. rewrite String.eqb_refl. by rewrite Hpe.
    + intros k' Hk' _. by rewrite lookup_insert_ne.
  - destruct (put_below default_ttl check_targets ixfr parseJson tenant allowed m Hm q a e z soa sb Ha Ht Hzk eq_refl Hal Hb)
      as (soa' & n & Hn & _ & Hreq).
    destruct (Hser _ Hreq) as (n' & Hn' & Hs'). assert (n' = n) as -> by congruence.
    exists q. eexists _, sb, e'', n. split_and!; [by apply rr_put_request|exact Hreq| |done|done| |done|].
    + rewrite lookup_insert_ne by done. apply lookup_insert_eq.
    + unfold entry_after. by destruct (String.eqb_spec z k).
    + intros k' Hx2 H3. by rewrite !lookup_insert_ne.
Qed.

(** The server answers the request with 200; the name then has the records
    [e'], at the apex of the zone [z] with the next serial; the zone has the
    next serial; everything else is as it was. *)
Definition accepted (m : index) (app : app_state) (req : request) (k z : string) (soa : zset) (e' : entry) : Prop :=
  exists q m' s e'' n soa', rr_request app req = Some q /\ served m q = Some (200, None, m') /\
    m' !! k = Some s /\ z_entry s = Some e'' /\ e'' ≡ₚ entry_after z k n e' /\
    zset_serial soa = Some n /\ m' !! z = Some soa' /\ zset_serial soa' = Some (next_serial n) /\
    forall k', k' <> k -> k' <> z -> m' !! k' = m !! k'.

Lemma omap_owned fqdn t (e : list rr) : omap single_name ((fun x => Rr fqdn t (rr_rdata x)) <$> e) = omap single_name e.
Proof. induction e as [|x e IH]; [done|]. rewrite fmap_cons. cbn [omap list_omap]. by rewrite IH. Qed.

(** A name the server can write has only the characters of labels. *)
Lemma segment_no_char c0 first l :
  c0 <> "."%char -> (forall first, char_ok first c0 = false) -> segment_len first l = Some (String.length l) -> has_char c0 l = false.
Proof.
  intros Hdot Hok. revert first. induction l as [|c l IH]; intros first Hl; [done|]. cbn [segment_len String.length has_char] in *.
  destruct (Ascii.eqb c "."); [done|]. destruct (char_ok first c) eqn:Ec; [|done].
  apply fmap_Some in Hl as (n & Hn & [= <-]). rewrite (IH _ Hn), orb_false_r.
  destruct (Ascii.eqb_spec c c0) as [->|]; [|done]. by rewrite Hok in Ec.
Qed.

Lemma dns_name_no_char c0 s :
  c0 <> "."%char -> (forall first, char_ok first c0 = false) -> dns_name s -> has_char c0 s = false.
Proof.
  intros Hdot Hok [Ht [b Hb]]. rewrite <- Ht. destruct (writeName_labels _ _ Hb) as (_ & Hall & _). unfold name_text.
  assert (Hd : Ascii.eqb "." c0 = false) by (by apply Ascii.eqb_neq).
  induction Hall as [|l ls [_ Hl] _ IH]; [done|]. rewrite join_cons, has_char_app, (segment_no_char _ _ _ Hdot Hok Hl).
  case_bool_decide; [done|]. cbn [orb has_char]. by rewrite Hd.
Qed.

Lemma dns_name_no_slash s : dns_name s -> has_char "/" s = false.
Proof. apply dns_name_no_char; [done|by intros []]. Qed.

(** *** From the forms *)

Section Sessions.
Context (m : index) (app : app_state) (h : heap) (lr : loc) (fqdn : string) (t : Z).
Context (a : string) (e0 : zset) (z : string) (soa s0 : zset).

(** The list shows the set [s0] of the index; its zone is the tenant's. *)
Record at_server (e : entry) : Prop := {
  srv_store : store_ok m;
  srv_zone : authority m (toLowerStr fqdn) a e0 z soa;
  srv_tenant : z_tenant soa = Some tenant;
  srv_set : m !! toLowerStr fqdn = Some s0;
  srv_entry : z_entry s0 = Some e;
  srv_allowed : allowed UPDATE_RR (toLowerStr fqdn) = true
}.

Lemma at_server_accepted e js e' :
  at_server e -> put_saves parseJson fqdn default_ttl (rr_put app fqdn js) e' -> one_each e' -> dns_name fqdn ->
  (check_targets = true -> targets_ok m e') ->
  (forall x v, x ∈ e -> named "soa" x = Some v -> exists y w, y ∈ e' /\ named "soa" y = Some w) ->
  accepted m app (rr_put app fqdn js) (toLowerStr fqdn) z soa e'.
Proof.
  intros [Hm Ha Ht Hs He Hal] Hp Hx1 Hd Htg Hsoa.
  destruct (rr_put_served m app fqdn js e' a e0 z soa) as (q & m' & s & e'' & n & Hq & Hr & Hx2 & H3 & H4 & H5 & (soa' & H6 & H7) & H8);
    try done; [by apply dns_name_no_slash|by rewrite Hs| |].
  - intros Hz. destruct (authority_soa m Hm _ _ _ _ _ Ha) as (_ & Hzm & Hf & _). rewrite Hz, Hs in Hzm. injection Hzm as Hzm.
    rewrite <- Hzm in Hf. apply flag_soas in Hf. assert (Hl := entry_soas _ _ _ He).
    destruct (omap (named "soa") e) as [|v vs] eqn:Eo; [by destruct (soas (z_rrs s0))|].
    assert (Hin : v ∈ omap (named "soa") e) by (rewrite Eo; by left).
    apply list_elem_of_omap in Hin as (x & Hx & Hv). by eapply Hsoa.
  - exists q, m', s, e'', n, soa'. split_and!; try done. unfold done_code in Hr. by rewrite Hs in Hr.
Qed.

(** The request of an edited set is accepted. *)
Lemma edit_accepted e1 x e2 js k u tp d ts :
  on_list h lr fqdn t (e1 ++ x :: e2) js -> at_server (e1 ++ x :: e2) ->
  rr_slot (rr_rdata x) = Some (k, u) -> assoc_get k rrProto = Some tp -> k <> "soa"%string ->
  rr_slot d = Some (k, new_json (typed_entry k u ts)) ->
  sendable fqdn (e1 ++ with_rdata d x :: e2) ->
  (check_targets = true -> targets_ok m (e1 ++ with_rdata d x :: e2)) ->
  let ix := length (omap (named k) e1) in
  let body := assoc_del "fqdn" (put_json js k ix (new_json (typed_entry k u ts))) in
  parseJson (print (JObj body)) = Some (JObj body) ->
  accepted m app (rr_put app fqdn body) (toLowerStr fqdn) z soa (e1 ++ with_rdata d x :: e2).
Proof.
  intros Hl Hsv Hs Htp Hsoa Hd Hsend Htg ix body Hp.
  eapply at_server_accepted; [exact Hsv| |apply Hsend|apply Hsend|exact Htg|].
  - by apply (edit_put_saves parseJson app h lr fqdn t default_ttl e1 x e2 js k u tp d ts).
  - intros y v Hy Hv. exists y, v. split; [|done]. assert (y <> x).
    { intros ->. unfold named in Hv. rewrite Hs in Hv. by destruct (String.eqb_spec k "soa"). }
    rewrite elem_of_app, elem_of_cons in *. naive_solver.
Qed.

(** C5: Editing a record, from the form to the index of the server.  The list
    shows the record set as the index has it (on_list, at_server); the index is
    well formed, the set's zone is the session's tenant's, and the session may
    update the set; the record is of a type
    in the table of the forms other than the SOA; every input has a text, and
    the texts make up a record.  The set with that record can be sent
    (sendable): it has no AAAA or PTR record, no type twice that is kept as one
    value, values that can be stored (C29), and it fits in an entry; where the
    server checks targets, those of its SRV records have an address (targets_ok).
    Then Edit, typing and Save send one request; the server answers it with 200,
    and the index then has the set with the edited record in the place of the
    old one, the zone with the next serial, and every other name as it was. *)
Theorem edit_served o e1 x e2 js k u tp d ts :
  on_list h lr fqdn t (e1 ++ x :: e2) js -> at_server (e1 ++ x :: e2) ->
  rr_slot (rr_rdata x) = Some (k, u) -> assoc_get k rrProto = Some tp -> k <> "soa"%string ->
  length ts = length (entry_names u) -> forallb filled ts = true ->
  rr_slot d = Some (k, new_json (typed_entry k u ts)) ->
  sendable fqdn (e1 ++ with_rdata d x :: e2) ->
  (check_targets = true -> targets_ok m (e1 ++ with_rdata d x :: e2)) ->
  let ix := length (omap (named k) e1) in
  let body := assoc_del "fqdn" (put_json js k ix (new_json (typed_entry k u ts))) in
  let req := rr_put app fqdn body in
  parseJson (print (JObj body)) = Some (JObj body) ->
  (exists h3, edit_session app (RrArgs true fqdn (Some k) ix (VRef lr)) ts o h
   = Trace [req] (saved fqdn (answer o req)) (Ok tt) h3) /\
  accepted m app req (toLowerStr fqdn) z soa (e1 ++ with_rdata d x :: e2).
Proof.
  intros Hl Hsv Hs Htp Hsoa Hts Hfill Hd Hsend Htg ix body req Hp.
  split; [|by apply (edit_accepted e1 x e2 js k u tp d ts)].
  by apply (edit_saved parseJson app h lr fqdn t default_ttl o e1 x e2 js k u tp d ts).
Qed.

(** C6: Adding a record, from the form to the index.  The record set is one as in
    C5; the type is one that the drop-down offers other than openpgpkey (whose
    form is broken, add_openpgpkey_undefined); every input has a text, and the
    texts make up a record; the set with that record can be sent (sendable: no
    AAAA or PTR record in it, no type twice that is kept as one value, values
    that can be stored, and of a size that fits), and the targets of its SRV
    records have an address where the server checks that (targets_ok).  Then
    Add, typing and Save send one request; the server answers it with 200, and
    the index has the set with the new record, the zone with the next serial,
    and every other name as it was. *)
Theorem add_served o r e js used k tp d ts :
  on_list h lr fqdn t (r :: e) js -> at_server (r :: e) ->
  filterUsedRrTypes (VRef lr) h = (Ok used, h) -> k ∈ select_types used -> k <> "openpgpkey"%string ->
  length ts = length (field_names k) -> forallb filled ts = true -> assoc_get k rrProto = Some tp ->
  rr_slot d = Some (k, new_json (typed_value k ts)) -> sendable fqdn ((r :: e) ++ [Rr fqdn t d]) ->
  (check_targets = true -> targets_ok m ((r :: e) ++ [Rr fqdn t d])) ->
  let body := assoc_del "fqdn" (add_json js k (new_json (typed_value k ts))) in
  let req := rr_put app fqdn body in
  parseJson (print (JObj body)) = Some (JObj body) ->
  (exists h3, add_session app (RrArgs false fqdn None 0 (VRef lr)) [k] ts o h
   = Trace [req] (saved fqdn (answer o req)) (Ok tt) h3) /\
  accepted m app req (toLowerStr fqdn) z soa ((r :: e) ++ [Rr fqdn t d]).
Proof.
  intros Hl Hsv Hu Hk Hpgp Hts Hfill Htp Hd Hsend Htg body req Hp.
  destruct (add_saved parseJson app h lr fqdn t default_ttl o r e js used k tp d ts Hl Hu Hk Hpgp Hts Hfill Htp Hd Hsend Hp)
    as [Hrun Hput]. split; [exact Hrun|].
  eapply at_server_accepted; [exact Hsv|exact Hput|apply Hsend|apply Hsend|exact Htg|].
  intros y v Hy Hv. exists y, v. split; [|done]. apply elem_of_app. by left.
Qed.

(** C7: Deleting a record, from the table to the index.  The record set is one as
    in C5, with no type twice that is kept as one value; the record is not the
    SOA; the remaining records can be sent (sendable: no AAAA or PTR record
    among them, and values that can be stored), their SRV targets have an
    address where the server checks that (targets_ok), and the server's default
    TTL is one that can be stored.  Then deleting the record, once the user has
    agreed, sends one request; the server answers it with 200, and the index has
    the other records of the set, now with the server's default TTL, the zone
    with the next serial, and every other name as it was. *)
Theorem delete_served o_answer e1 x e2 js k u j :
  on_list h lr fqdn t (e1 ++ x :: e2) js -> at_server (e1 ++ x :: e2) -> one_each (e1 ++ x :: e2) ->
  rr_slot (rr_rdata x) = Some (k, u) -> k <> "soa"%string -> assoc_get k js = Some j ->
  sendable fqdn (e1 ++ e2) -> 0 <= default_ttl <= TTL_MAX ->
  (check_targets = true -> targets_ok m (e1 ++ e2)) ->
  let ix := length (omap (named k) e1) in
  let req := rr_put app fqdn (sent_after k ix j js) in
  parseJson (print (JObj (sent_after k ix j js))) = Some (JObj (sent_after k ix j js)) ->
  (exists h', run (quiet true o_answer) (deleteRr app (VRef lr) k ix h)
   = Trace [req] (deleted fqdn o_answer) (Ok tt) h') /\
  accepted m app req (toLowerStr fqdn) z soa (owned_by fqdn default_ttl (e1 ++ e2)).
Proof.
  intros Hl Hsv Hx1 Hs Hsoa Hj Hsend Hdef Htg ix req Hp.
  destruct (delete_saved parseJson app h lr fqdn t default_ttl o_answer e1 x e2 js k u j Hl Hx1 Hs Hj Hsend Hdef Hp)
    as [Hrun Hput]. split; [exact Hrun|].
  eapply at_server_accepted; [exact Hsv|exact Hput| |apply Hsend| |].
  - assert (Hx2 := send_single _ _ Hsend). unfold one_each, owned_by in *. by rewrite omap_owned.
  - intros Hc. specialize (Htg Hc). unfold targets_ok, owned_by in *. by apply Forall_fmap.
  - intros y v Hy Hv. assert (y <> x).
    { intros ->. unfold named in Hv. rewrite Hs in Hv. by destruct (String.eqb_spec k "soa"). }
    exists (Rr fqdn default_ttl (rr_rdata y)), v. split; [|done]. unfold owned_by. apply list_elem_of_fmap. exists y.
    split; [done|]. rewrite elem_of_app, elem_of_cons in *. naive_solver.
Qed.
End Sessions.
End Served.

Module ServedDemo.
Import WireDemo RestDemo ServiceDemo SavingDemo.

Lemma zone_at_server : at_server "t1" any demo_index "ex.org" "ex.org" apex_org "ex.org" apex_org apex_org (zone_e1 ++ [zone_mx]).
Proof. split; [exact demo_ok|exact apex_authority|done|done|vm_compute; reflexivity|done]. Qed.

Ltac demo_targets := intros _; repeat constructor.

Lemma edit_served_witness :
  let body := assoc_del "fqdn" (put_json zone_js "mx" 1 (new_json (NObj
                [("host", VStr "mx2.ex.org"); ("priority", VNum (num_of_Z 30))]%string))) in
  let req := rr_put initialState "ex.org" body in
  (exists h3, edit_session initialState (RrArgs true "ex.org" (Some "mx"%string) 1 (VRef zone_at)) mx_texts
     RrDemo.env zone_mem.2
   = Trace [req] (saved "ex.org" (answer RrDemo.env req)) (Ok tt) h3) /\
  accepted 3600 true true (parse_one (JObj body)) "t1" any demo_index initialState req "ex.org" "ex.org" apex_org
    (zone_e1 ++ [with_rdata new_mx zone_mx]).
Proof.
  intros body req.
  refine (edit_served 3600 true true (parse_one (JObj body)) "t1" any demo_index initialState zone_mem.2 zone_at "ex.org" 300
            "ex.org" apex_org "ex.org" apex_org apex_org RrDemo.env zone_e1 zone_mx [] zone_js "mx" _ _ new_mx mx_texts
            zone_on_list zone_at_server eq_refl eq_refl _ eq_refl eq_refl eq_refl edited_sendable _ _).
  - discriminate.
  - demo_targets.
  - apply parse_one_print.
Defined.

Lemma add_served_witness :
  let body := assoc_del "fqdn" (add_json zone_js "mx" (new_json (typed_value "mx" mx_texts))) in
  let req := rr_put initialState "ex.org" body in
  (exists h3, add_session initialState (RrArgs false "ex.org" None 0 (VRef zone_at)) ["mx"%string] mx_texts
     RrDemo.env zone_mem.2
   = Trace [req] (saved "ex.org" (answer RrDemo.env req)) (Ok tt) h3) /\
  accepted 3600 true true (parse_one (JObj body)) "t1" any demo_index initialState req "ex.org" "ex.org" apex_org
    ((zone_e1 ++ [zone_mx]) ++ [Rr "ex.org" 300 new_mx]).
Proof.
  intros body req.
  refine (add_served 3600 true true (parse_one (JObj body)) "t1" any demo_index initialState zone_mem.2 zone_at "ex.org" 300
            "ex.org" apex_org "ex.org" apex_org apex_org RrDemo.env
            StoredDemo.zone_soa (tail zone_e1 ++ [zone_mx]) zone_js ["fqdn"; "ttl"; "soa"]%string "mx" _ new_mx
            mx_texts zone_on_list zone_at_server eq_refl _ _ eq_refl eq_refl eq_refl eq_refl added_sendable _ _).
  - apply (bool_decide_unpack _). vm_compute. exact I.
  - discriminate.
  - demo_targets.
  - apply parse_one_print.
Defined.

Lemma delete_served_witness :
  let j := default JNull (assoc_get "mx" zone_js) in
  let req := rr_put initialState "ex.org" (sent_after "mx" 1 j zone_js) in
  (exists h', run (quiet true (Resp true "OK" None)) (deleteRr initialState (VRef zone_at) "mx" 1 zone_mem.2)
   = Trace [req] (deleted "ex.org" (Resp true "OK" None)) (Ok tt) h') /\
  accepted 3600 true true (parse_one (JObj (sent_after "mx" 1 j zone_js))) "t1" any demo_index initialState req
    "ex.org" "ex.org" apex_org (owned_by "ex.org" 3600 (zone_e1 ++ [])).
Proof.
  intros j req.
  refine (delete_served 3600 true true (parse_one (JObj (sent_after "mx" 1 j zone_js))) "t1" any demo_index initialState
            zone_mem.2 zone_at "ex.org" 300 "ex.org" apex_org "ex.org" apex_org apex_org
            (Resp true "OK" None) zone_e1 zone_mx [] zone_js "mx" _ j zone_on_list zone_at_server _ eq_refl _ eq_refl
            deleted_sendable _ _ _).
  - apply (bool_decide_unpack _). vm_compute. exact I.
  - discriminate.
  - unfold TTL_MAX. lia.
  - demo_targets.
  - apply parse_one_print.
Defined.
End ServedDemo.
