(* ===== verification/Shown.v ===== *)
(** * A saved record set, on the list again

    The way there and the way back: once the server has accepted the request
    of a form ([RrServed]), the list of the zone, loaded from the index as it is
    then ([EndToEnd]), shows the saved set. *)

From stdpp Require Import gmap sorting.
From S2P Require Import Prelude JsNumber JsValue JsonStore Http Qargs AppState Paging ServerUtil RealKey KeyBlock RrTypes RrJson DnsName RrWire RrBuild RrStored Permissions RrRest RrIndex RrNames RrService ListServer RrForm RrEdit RrCells RrList EndToEnd Saving RrServed.

Local Open Scope Z_scope.

(** ** The index as a map and as a list of keys *)

(** The records of the index, in the order of their keys, are the sets of the
    map, which can all be read. *)
Record holds `{Addresses} (contents : list (string * entry)) (m : index) : Prop := {
  holds_set key e : (key, e) ∈ contents <-> exists k s, key = entry_key k /\ m !! k = Some s /\ z_entry s = Some e;
  holds_read k s : m !! k = Some s -> is_Some (z_entry s)
}.

(** The list of a map. *)
Definition key_le {A} (a b : string * A) : Prop := String.leb a.1 b.1 = true.
#[export] Instance key_le_dec {A} : RelDecision (key_le (A := A)) := fun a b => decide (_ = true).

Definition contents_of `{Addresses} (m : index) : list (string * entry) :=
  merge_sort key_le ((fun ks => (entry_key ks.1, default [] (z_entry ks.2))) <$> map_to_list m).

Lemma holds_contents_of `{Addresses} (m : index) :
  map_Forall (fun _ s => is_Some (z_entry s)) m -> holds (contents_of m) m.
Proof.
  intros Hm. split; [|by intros k s Hk; apply (Hm k s)]. intros key e. unfold contents_of.
  rewrite merge_sort_Permutation, list_elem_of_fmap. split.
  - intros ([k s] & [= -> ->] & Hk). apply elem_of_map_to_list in Hk. exists k, s. split_and!; [done..|].
    by destruct (Hm _ _ Hk) as [e' ->].
  - intros (k & s & -> & Hk & He). exists (k, s). cbn. rewrite He. by rewrite elem_of_map_to_list.
Qed.

Lemma entry_key_below p z : entry_key (p +:+ String "." z) = entry_key z +:+ String "." (reverse p).
Proof.
  unfold entry_key, init_key. cbn [isReversed]. rewrite reverse_app. change (String "." z) with ("." +:+ z).
  rewrite reverse_app, !string_app_cons, string_app_assoc. reflexivity.
Qed.

Lemma zone_record_suffix z k : suffix_of z k -> zone_record z (entry_key k) = true.
Proof. intros [->|[p ->]]; [apply zone_record_apex|]. rewrite entry_key_below. apply zone_record_below. Qed.

Lemma entry_key_inj_name a b : entry_key a = entry_key b -> a = b.
Proof.
  unfold entry_key, init_key. cbn [isReversed]. intros [= E]. by rewrite <- (reverse_involutive a), E, reverse_involutive.
Qed.

Lemma data_of_entry_key k : dataAsString (entry_key k) = k.
Proof. unfold entry_key, init_key. cbn [isReversed]. change (dataAsString _) with (reverse (reverse k)). apply reverse_involutive. Qed.

Lemma mapM_cons_inv {A B} (f : A -> option B) x l ys :
  mapM f (x :: l) = Some ys -> exists y ys', f x = Some y /\ mapM f l = Some ys' /\ ys = y :: ys'.
Proof.
  cbn [mapM]. destruct (f x) as [y|]; [|done]. cbn [mbind option_bind]. destruct (mapM f l) as [ys'|]; [|done].
  intros [= <-]. by exists y, ys'.
Qed.

(** A set the list can show under the name [k]. *)
Definition fit_for_list (k : string) (e : entry) : Prop :=
  Forall (fun x => listable x = true) e /\ forall x, head e = Some x -> labels x = k.

Lemma with_serial_listable n x : listable (with_serial n x) = listable x.
Proof. unfold listable, with_serial. destruct x as [l t d]. by destruct d. Qed.

Lemma with_serial_labels n x : labels (with_serial n x) = labels x.
Proof. unfold with_serial. destruct x as [l t d]. by destruct d. Qed.

Section Reindexed.
Context `{Addresses}.
Context (m m' : index) (k z : string) (soa : zset).
Context (contents contents' : list (string * entry)).
Hypothesis Hm : store_ok m.
Hypothesis Hp : path m k z soa.
Hypothesis Happ : applied m k z soa m'.
Hypothesis Hc : holds contents m.
Hypothesis Hc' : holds contents' m'.
Hypothesis Hk : is_Some (m !! k).

(** The set the zone has after a change below it. *)
Lemma apex_entry soa' n e :
  m !! z = Some soa -> set_wf z soa -> z_owner soa = z -> z_entry soa = Some e ->
  z_rrs soa' ≡ₚ update_soa (set_serial (next_serial n)) (z_rrs soa) -> z_owner soa' = z ->
  exists e', z_entry soa' = Some e' /\ e' ≡ₚ with_serial (next_serial n) <$> e.
Proof.
  intros _ Hw Ho He Hper Ho'. rewrite z_entry_eq, Ho in He. rewrite z_entry_eq, Ho'.
  assert (Hr := entry_reserial _ _ _ (next_serial n) He (wf_soa _ _ Hw) (wf_one _ _ Hw) (next_serial_mod n)).
  destruct (mapM_Permutation _ _ _ _ (symmetry Hper) Hr) as (e' & He' & Hpe). by exists e'.
Qed.

Lemma key_there k1 : is_Some (m' !! k1) -> is_Some (m !! k1).
Proof.
  intros H1. destruct (decide (k1 = k)) as [->|Hne]; [done|].
  destruct (decide (k1 = z)) as [->|Hnz]; [apply path_soa in Hp as [-> _]; by eexists|].
  by rewrite <- (applied_other _ _ _ _ _ _ Happ Hne Hnz).
Qed.

(** The listing's conditions are kept when the new set meets them. *)
Lemma zone_index_kept s' e' :
  zone_index contents z -> m' !! k = Some s' -> z_entry s' = Some e' -> fit_for_list k e' ->
  zone_index contents' z.
Proof.
  intros Hi Hs' He' [Hfit Hhead]. assert (Hn := store_names _ Hm). destruct (path_soa _ _ _ _ Hp) as [Hz Hf].
  assert (Hw := path_wf m Hn _ _ _ Hp). destruct (holds_read _ _ Hc z soa Hz) as [ez Hez].
  assert (Hzin : (entry_key z, ez) ∈ contents) by (apply (holds_set _ _ Hc); by exists z, soa).
  assert (Hown : z_owner soa = z).
  { rewrite z_entry_eq in Hez. destruct (z_rrs soa) as [|r rrs] eqn:Er; [by unfold flag_soa in Hf; rewrite Er in Hf|].
    apply mapM_cons_inv in Hez as (x & l & Hx & _ & ->).
    assert (Hl := sets_named _ _ Hi _ x Hzin (zone_record_apex z) eq_refl). cbn [fst] in Hl. rewrite data_of_entry_key in Hl.
    unfold read_row in Hx. destruct (read_rr r.2); [|done]. by injection Hx as <-. }
  assert (Hz' : exists soa', m' !! z = Some soa').
  { destruct (applied_serial _ _ _ _ _ Happ) as (soa' & _ & ? & _). by exists soa'. }
  assert (Hold : forall r, r ∈ contents' -> zone_record z r.1 = true ->
            (exists r0, r0 ∈ contents /\ r0.1 = r.1) /\
            (Forall (fun x => listable x = true) r.2 /\ forall x, head r.2 = Some x -> labels x = dataAsString r.1)).
  { intros [key e1] Hr HP. apply (holds_set _ _ Hc') in Hr as (k1 & s1 & -> & Hk1 & He1). cbn [fst snd].
    destruct (key_there k1) as [s0 Hs0]; [by eexists|]. destruct (holds_read _ _ Hc _ _ Hs0) as [e0 He0].
    assert (Hin0 : (entry_key k1, e0) ∈ contents) by (apply (holds_set _ _ Hc); by exists k1, s0).
    split; [by exists (entry_key k1, e0)|]. rewrite data_of_entry_key.
    destruct (decide (k1 = k)) as [->|Hne].
    { rewrite Hk1 in Hs'. injection Hs' as ->. rewrite He1 in He'. injection He' as ->. done. }
    destruct (decide (k1 = z)) as [->|Hnz].
    - destruct Happ as [s n -> _ _ _ _|s soa' n Hzk _ _ _ _ _ Hper Ho']; [done|].
      rewrite lookup_insert_eq in Hk1. injection Hk1 as <-.
      destruct (apex_entry soa' n ez Hz Hw Hown Hez Hper Ho') as (e2 & He2 & Hp2). rewrite He1 in He2. injection He2 as <-.
      assert (Hl := sets_listable _ _ Hi _ Hzin (zone_record_apex z)). cbn [snd] in Hl. split.
      + rewrite Hp2. apply Forall_fmap. eapply Forall_impl; [exact Hl|]. intros x Hx. cbn. by rewrite with_serial_listable.
      + intros x Hx. rewrite z_entry_eq, Ho' in He1. destruct (z_rrs soa') as [|r rrs]; [by injection He1 as <-|].
        apply mapM_cons_inv in He1 as (y & l & Hy & _ & ->). injection Hx as ->.
        unfold read_row in Hy. destruct (read_rr r.2); [|done]. by injection Hy as <-.
    - rewrite (applied_other _ _ _ _ _ _ Happ Hne Hnz) in Hk1. rewrite Hk1 in Hs0. injection Hs0 as ->.
      rewrite He1 in He0. injection He0 as <-. split.
      + by apply (sets_listable _ _ Hi (entry_key k1, e1)).
      + intros x Hx. assert (Hl := sets_named _ _ Hi (entry_key k1, e1) x Hin0 HP Hx). cbn [fst] in Hl. by rewrite data_of_entry_key in Hl. }
  split.
  - destruct Hz' as [soa' Hz']. destruct (holds_read _ _ Hc' _ _ Hz') as [e2 He2]. exists e2. apply (holds_set _ _ Hc'). by exists z, soa'.
  - intros r Hr HP. destruct (Hold r Hr HP) as [(r0 & Hr0 & E) _]. rewrite <- E in *. by apply (names_valid _ _ Hi).
  - intros r Hr HP. by destruct (Hold r Hr HP) as [_ [? _]].
  - intros r x Hr HP Hx. destruct (Hold r Hr HP) as [_ [_ ?]]. auto.
  - intros r c s Hr E. destruct r as [key e1]. apply (holds_set _ _ Hc') in Hr as (k1 & s1 & -> & Hk1 & He1). cbn [fst] in E.
    destruct (key_there k1) as [s0 Hs0]; [by eexists|]. destruct (holds_read _ _ Hc _ _ Hs0) as [e0 He0].
    apply (no_gap _ _ Hi (entry_key k1, e0) c s); [|done]. apply (holds_set _ _ Hc). by exists k1, s0.
Qed.
End Reindexed.

(** ** The page of a record *)

Lemma nexts_reach `{PageServer json} (max j : nat) :
  (j * max < length items)%nat -> (0 < max)%nat -> fold_left (ListRrs.pager_nav max) (replicate j ListRrs.Next) O = j.
Proof.
  intros Hj Hmax. induction j as [|j IH]; [done|]. rewrite replicate_S_end, fold_left_app, IH by lia. cbn [fold_left ListRrs.pager_nav].
  by rewrite (proj2 (Nat.ltb_lt _ _)) by lia.
Qed.

Lemma window_at {A} (l : list A) (i max : nat) x : (0 < max)%nat -> l !! i = Some x -> x ∈ window (i / max * max) max l.
Proof.
  intros Hmax Hi. apply list_elem_of_lookup. exists (i mod max)%nat. rewrite window_lookup.
  assert (Hm := Nat.mod_upper_bound i max ltac:(lia)). rewrite decide_True by done.
  assert (E := Nat.div_mod_eq i max). rewrite <- Hi. f_equal. lia.
Qed.

Section Loaded.
Context `{Addresses} `{Finish} `{RestLibs}.
Context (default_ttl : Z) (check_targets ixfr : bool) (parseJson : string -> option json).
Context (tenant : string) (allowed : permission -> string -> bool).

(** C8: What is saved is shown: for a record set of a zone whose list shows its
    index, once the server has accepted the request with the records [e'], as it
    does for the three forms, the list loaded from the index of then shows,
    after pressing Next often enough, a table under the set's name with a row
    for each of those records (of the types that hold one value, for the last),
    the SOA with its new serial. *)
Theorem saved_shown (m m' : index) app fqdn js q code v a e0 z soa e' contents contents'
    {kv : KvStore entry} (pos : cursor -> option nat) {laws : KvStoreLaws kv contents' pos} cfg fuel max h :
  store_ok m -> authority m fqdn a e0 z soa -> is_Some (m !! fqdn) -> toLowerStr fqdn = fqdn -> has_char "/" fqdn = false ->
  holds contents m -> zone_index contents z ->
  accepted default_ttl check_targets ixfr parseJson tenant allowed m app (rr_put app fqdn js) fqdn z soa e' ->
  Forall (fun x => listable x = true /\ labels x = fqdn) e' ->
  rr_request app (rr_put app fqdn js) = Some q ->
  onResourceRecord default_ttl check_targets ixfr parseJson tenant allowed m q = Some (code, v, m') ->
  holds contents' m' ->
  (length contents' < fuel)%nat -> toLowerStr z = z -> (0 < max <= rest_max_page_size cfg)%nat -> Z.of_nat max < 2 ^ 31 ->
  has_char "?" (getUrl app ("/zone/" +:+ z)) = false ->
  exists n e'' j vs w, zset_serial soa = Some n /\ e'' ≡ₚ entry_after z fqdn n e' /\
    let y := ListRrs.browse app z max (rest_records z cfg fuel) h (replicate j ListRrs.Next) in
    ListRrs.error (ListRrs.live y) = None /\ ListRrs.rrs (ListRrs.live y) = Some vs /\ w ∈ vs /\
    set_shown (ListRrs.store y) w (entry_key fqdn, e'').
Proof.
  intros Hm Ha Hk Hlow Hsl Hc Hi (q' & m2 & s & e'' & n & soa' & Hq' & Hr' & Hs & He & Hpe & Hn & Hz' & Hn' & _) Hfit Hq Hr Hc' Hf Hzl Hmax Hsm Hurl.
  rewrite Hq' in Hq. injection Hq as ->. rewrite Hr' in Hr. injection Hr as <- <- <-.
  rewrite rr_put_request in Hq' by done. injection Hq' as <-.
  assert (Hp := authority_path _ _ _ _ _ _ Ha).
  assert (Happ : applied m fqdn z soa m2).
  { apply (request_path _ _ _ _ _ _ m (store_names _ Hm)) in Hr' as [[-> _]|(z1 & soa1 & Hp1 & _ & Happ)]; cbn [q_target] in *.
    - exfalso. destruct (path_soa _ _ _ _ Hp) as [Hz _]. rewrite Hz in Hz'. injection Hz' as <-. rewrite Hn in Hn'.
      injection Hn' as E. unfold next_serial in E. assert (Hb := Z.mod_pos_bound (n + 1) (2 ^ 32) ltac:(lia)).
      destruct (decide (n + 1 = 2 ^ 32)) as [E1|]; [rewrite E1, Z.mod_same in E by lia; lia|].
      rewrite Z.mod_small in E by lia. lia.
    - rewrite Hlow in *. by destruct (path_unique _ _ _ _ _ _ Hp Hp1) as [<- <-]. }
  assert (Hfl : fit_for_list fqdn e'').
  { assert (Hall : Forall (fun x => listable x = true /\ labels x = fqdn) e'').
    { rewrite Hpe. unfold entry_after. destruct (String.eqb z fqdn); [|done]. apply Forall_fmap.
      eapply Forall_impl; [exact Hfit|]. intros x. cbn. by rewrite with_serial_listable, with_serial_labels. }
    split; [eapply Forall_impl; [exact Hall|]; by intros x []|]. intros x Hx. destruct e'' as [|y l]; [done|].
    injection Hx as ->. by apply Forall_cons in Hall as [[_ ?] _]. }
  assert (Hi' : zone_index contents' z) by by eapply zone_index_kept.
  assert (Hin : (entry_key fqdn, e'') ∈ zone_records contents' z).
  { unfold zone_records. rewrite list_elem_of_In, filter_In, <- list_elem_of_In. split.
    - apply (holds_set _ _ Hc'). by exists fqdn, s.
    - apply zone_record_suffix. by apply (path_suffix m (store_names _ Hm) _ _ soa). }
  apply list_elem_of_lookup in Hin as [i Hrec].
  destruct (records_listed contents' pos z cfg fuel Hi' app max h (replicate (i / max) ListRrs.Next)) as (vs & rs & Herr & Hvs & Hw & Hshown);
    try done; [by apply Forall_replicate|].
  rewrite nexts_reach in Hw; [|cbn [items record_server]; rewrite length_fmap; apply lookup_lt_Some in Hrec; assert (Hd := Nat.Div0.mul_div_le i max); lia|lia].
  assert (Hr : (entry_key fqdn, e'') ∈ rs) by (rewrite Hw; apply window_at; [lia|done]).
  apply list_elem_of_lookup in Hr as [i2 Hi2]. destruct (Forall2_lookup_r _ _ _ _ _ Hshown Hi2) as (w & Hw2 & Hset).
  exists n, e'', (i / max)%nat, vs, w. split; [done|]. split; [done|]. cbv zeta. split_and!; try done. by eapply list_elem_of_lookup_2.
Qed.
End Loaded.

Module ShownDemo.
Import WireDemo RestDemo ServiceDemo SavingDemo ServedDemo.

(** The edit of [ServedDemo]. *)
Definition edit_body : list (string * json) :=
  assoc_del "fqdn" (put_json zone_js "mx" 1 (new_json (NObj [("host", VStr "mx2.ex.org"); ("priority", VNum (num_of_Z 30))])))%string.
Definition edit_request : rest_request := RestRequest PUT "ex.org" "" [] (print (JObj edit_body)).
Abbreviation serve_demo := (onResourceRecord 3600 true true (parse_one (JObj edit_body)) "t1" any).
Definition edited : index := match serve_demo demo_index edit_request with Some (_, _, m) => m | None => demo_index end.

Lemma edited_answer : serve_demo demo_index edit_request = Some (200, None, edited).
Proof. vm_compute. reflexivity. Qed.

Lemma readable (m : index) : forallb (fun ks => bool_decide (is_Some (z_entry ks.2))) (map_to_list m) = true ->
  map_Forall (fun _ s => is_Some (z_entry s)) m.
Proof.
  intros Hf k s Hk. rewrite forallb_forall in Hf. apply elem_of_map_to_list, list_elem_of_In in Hk.
  apply Hf in Hk. by apply bool_decide_eq_true in Hk.
Qed.

#[export] Instance edited_kv : KvStore entry := list_store (contents_of edited) [].
#[export] Instance edited_laws : KvStoreLaws edited_kv (contents_of edited) (list_pos (contents_of edited)).
Proof. apply list_store_laws. vm_compute. repeat constructor. Qed.

Lemma edit_demo_accepted :
  accepted 3600 true true (parse_one (JObj edit_body)) "t1" any demo_index initialState
    (rr_put initialState "ex.org" edit_body) "ex.org" "ex.org" apex_org (zone_e1 ++ [with_rdata new_mx zone_mx]).
Proof.
  refine (edit_accepted 3600 true true (parse_one (JObj edit_body)) "t1" any demo_index initialState zone_mem.2 zone_at
            "ex.org" 300 "ex.org" apex_org "ex.org" apex_org apex_org zone_e1 zone_mx [] zone_js "mx" _ _ new_mx mx_texts
            zone_on_list zone_at_server eq_refl eq_refl _ eq_refl edited_sendable _ _).
  - discriminate.
  - intros _. repeat constructor.
  - apply parse_one_print.
Qed.

Lemma demo_holds : holds (contents_of demo_index) demo_index.
Proof. apply holds_contents_of, readable. vm_compute. reflexivity. Qed.

Lemma edited_holds : holds (contents_of edited) edited.
Proof. apply holds_contents_of, readable. vm_compute. reflexivity. Qed.

Definition demo_contents : list (string * entry) := Eval vm_compute in contents_of demo_index.

Lemma demo_zone_index : zone_index (contents_of demo_index) "ex.org".
Proof.
  replace (contents_of demo_index) with demo_contents by (vm_compute; reflexivity). unfold demo_contents.
  eapply zone_index_each with (v := _).
  - vm_compute. repeat constructor.
  - repeat constructor; vm_compute; done.
  - repeat constructor; intros _; repeat constructor.
  - repeat constructor; intros x H Hx; vm_compute in H; try discriminate H; cbn in Hx; simplify_eq; reflexivity.
  - repeat constructor; cbn [fst]; intros c s H; vm_compute in H; simplify_eq; discriminate.
Qed.

Lemma saved_shown_witness :
  exists n e'' j vs w, zset_serial apex_org = Some n /\
    e'' ≡ₚ entry_after "ex.org" "ex.org" n (zone_e1 ++ [with_rdata new_mx zone_mx]) /\
    let y := ListRrs.browse initialState "ex.org" 2 (rest_records "ex.org" ServerDemo.cfg 6) [] (replicate j ListRrs.Next) in
    ListRrs.error (ListRrs.live y) = None /\ ListRrs.rrs (ListRrs.live y) = Some vs /\ w ∈ vs /\
    set_shown (ListRrs.store y) w (entry_key "ex.org", e'').
Proof.
  refine (saved_shown 3600 true true (parse_one (JObj edit_body)) "t1" any demo_index edited initialState "ex.org" edit_body
            edit_request 200 None "ex.org" apex_org "ex.org" apex_org (zone_e1 ++ [with_rdata new_mx zone_mx])
            (contents_of demo_index) (contents_of edited) (list_pos (contents_of edited)) ServerDemo.cfg 6 2 []
            demo_ok apex_authority _ eq_refl eq_refl demo_holds demo_zone_index edit_demo_accepted _ eq_refl edited_answer
            edited_holds _ eq_refl _ _ eq_refl).
  - by eexists.
  - repeat apply Forall_cons_2; try apply Forall_nil_2; done.
  - vm_compute. lia.
  - cbn. lia.
  - lia.
Defined.
End ShownDemo.
