(* ===== verification/Dialogs.v ===== *)
(** * The dialogs: EditZone, AddFqdn and PopupDialog

    EditZone (modules/Zones.jsx) and AddFqdn (pages/ResourceRecords.jsx) are
    forms of one shape: they read their inputs through refs, send a POST, and
    react to its answer.  An error message replaces the inputs on screen, and
    React then clears their refs.  PopupDialog (modules/PopupDialog.jsx) is the
    modal they are shown in. *)

From S2P Require Import Prelude JsNumber JsValue Http AppState.

(** ** The shared part of the forms *)

Inductive post_effect : Type :=
| ClosePost
| SetError (msg : string)
| SetZone (fqdn email : string).

(** The catch block and the test of [res.ok]; a response that is not ok does
    nothing. *)
Definition post_answer (r : fetch_result unit) (h : heap) : proc post_effect :=
  match r with
  | Resp true _ _ => Emit ClosePost (Done (Ok tt) h)
  | Resp false _ _ => Done (Ok tt) h
  | Rejected is_error msg =>
      Emit (SetError "Request failed")
        (if is_error then Emit (SetError msg) (Done (Ok tt) h) else Done (Ok tt) h)
  end.

Definition close_on_ok (r : fetch_result unit) : list post_effect :=
  match r with
  | Resp true _ _ => [ClosePost]
  | Resp false _ _ => []
  | Rejected true msg => [SetError "Request failed"; SetError msg]
  | Rejected false _ => [SetError "Request failed"]
  end.

Lemma post_answer_run o r h :
  run o (post_answer r h) = Trace [] (close_on_ok r) (Ok tt) h.
Proof. by destruct r as [[]|[]]. Qed.

(** ** EditZone *)

(** [defaultZone], which all dialogs share, as far as it is assigned to. *)
Record zone_data : Type := ZoneData { z_fqdn : string; z_email : string }.

(** The component: its error message and, while they are on screen, the texts
    of the inputs. *)
Record edit_zone : Type := EditZone {
  ez_z : zone_data;
  ez_error : string;
  ez_inputs : option (string * string)
}.

(** A new dialog: the inputs start empty. *)
Definition open_zone (z : zone_data) : edit_zone := EditZone z "" (Some (""%string, ""%string)).

Definition type_zone (fqdn email : string) (d : edit_zone) : edit_zone :=
  match ez_inputs d with
  | Some _ => EditZone (ez_z d) (ez_error d) (Some (fqdn, email))
  | None => d
  end.

Definition zone_body (email : string) : string := print (JObj [("soa", JObj [("email", JStr email)])])%string.

(** [submit]: reading a cleared ref is a TypeError. *)
Definition submit_zone (app : app_state) (d : edit_zone) (h : heap) : proc post_effect :=
  match ez_inputs d with
  | None => Done (Throw JsTypeError) h
  | Some (fqdn, email) =>
      Emit (SetZone fqdn email)
        (if String.eqb fqdn "" then Done (Throw (JsError "Missing fqdn!")) h
         else Fetch (Request "post" (getUrl app ("/zone/" +:+ fqdn)) (json_headers app)
                       (Some (zone_body email))) h post_answer)
  end.

(** The effects on the component; a message unmounts the inputs, and
    [close] the dialog. *)
Definition zone_effect (d : edit_zone) (e : post_effect) : option edit_zone :=
  match e with
  | ClosePost => None
  | SetError m =>
      Some (EditZone (ez_z d) m (if 0 <? String.length m then None else ez_inputs d))
  | SetZone fqdn email => Some (EditZone (ZoneData fqdn email) (ez_error d) (ez_inputs d))
  end.

Definition zone_after (d : edit_zone) (es : list post_effect) : option edit_zone :=
  foldl (fun d e => d ≫= fun d => zone_effect d e) (Some d) es.

(** ** AddFqdn *)

Record add_fqdn : Type := AddFqdn {
  af_zone : string;
  af_error : string;
  af_input : option string
}.

Definition open_fqdn (zone : string) : add_fqdn := AddFqdn zone "" (Some ""%string).

Definition submit_fqdn (app : app_state) (d : add_fqdn) (h : heap) : proc post_effect :=
  match af_input d with
  | None => Done (Throw JsTypeError) h
  | Some name =>
      Fetch (Request "post" (getUrl app ("/rr/" +:+ (name +:+ "." +:+ af_zone d))) (json_headers app)
               (Some "{}"%string)) h post_answer
  end.

Definition fqdn_effect (d : add_fqdn) (e : post_effect) : option add_fqdn :=
  match e with
  | ClosePost => None
  | SetError m => Some (AddFqdn (af_zone d) m (if 0 <? String.length m then None else af_input d))
  | SetZone _ _ => Some d
  end.

Definition fqdn_after (d : add_fqdn) (es : list post_effect) : option add_fqdn :=
  foldl (fun d e => d ≫= fun d => fqdn_effect d e) (Some d) es.

(** ** PopupDialog *)

(** The parent's [isOpen], the component's [isModalOpen], and the dialog
    element while it is mounted: whether it shows as a modal. *)
Record popup : Type := Popup {
  p_isOpen : bool;
  p_modal : bool;
  p_element : option bool
}.

(** A commit with new values, its effects, and the commit the first effect
    asks for: [useEffect(.., [isOpen])] sets [isModalOpen], [useEffect(..,
    [isModalOpen])] shows or closes the element when there is one. *)
Definition mount_element (isOpen : bool) (el : option bool) : option bool :=
  if isOpen then Some (default false el) else None.

Definition modal_effect (modal : bool) (el : option bool) : option bool :=
  (fun _ => modal) <$> el.

Definition commit_popup (p : popup) (isOpen modal : bool) : popup :=
  let el := mount_element isOpen (p_element p) in
  let el1 := if Bool.eqb modal (p_modal p) then el else modal_effect modal el in
  if Bool.eqb isOpen (p_isOpen p) then Popup isOpen modal el1
  else if Bool.eqb isOpen modal then Popup isOpen modal el1
  else Popup isOpen isOpen (modal_effect isOpen el1).

(** The mount: both effects run. *)
Definition mount_popup (isOpen : bool) : popup :=
  Popup isOpen isOpen (modal_effect isOpen (mount_element isOpen None)).

(** [handleClosed]: [onClosed()], by which the parent sets [isOpen] to
    [isOpen'], then [setModalOpen(false)], in one commit. *)
Definition handleClosed (p : popup) (isOpen' : bool) : popup := commit_popup p isOpen' false.

Inductive popup_event : Type :=
| ParentOpens
| CloseCalled
| EscapePressed.

(** The parents of this program open the dialog by [setEditOpen(true)] and
    their [onClosed] does [setEditOpen(false)]; the second component counts
    the calls of [onClosed].  The context's [close] and the keyboard exist
    while the dialog is shown. *)
Definition popup_step (p : popup) (e : popup_event) : popup * nat :=
  match e with
  | ParentOpens => (commit_popup p true (p_modal p), 0)
  | CloseCalled | EscapePressed =>
      if p_isOpen p then (handleClosed p false, 1) else (p, 0)
  end.

Definition popup_steps (p : popup) (es : list popup_event) : popup :=
  foldl (fun p e => fst (popup_step p e)) p es.

(** ** Properties *)

Lemma EditZone_run app d h r fqdn email :
  ez_inputs d = Some (fqdn, email) ->
  run (quiet true r) (submit_zone app d h)
  = if String.eqb fqdn "" then
      Trace [] [SetZone fqdn email] (Throw (JsError "Missing fqdn!")) h
    else
      Trace [Request "post" (getUrl app ("/zone/" +:+ fqdn)) (json_headers app) (Some (zone_body email))]
        (SetZone fqdn email :: close_on_ok r) (Ok tt) h.
Proof.
  intros E. unfold submit_zone. rewrite E. cbn [run]. destruct (String.eqb fqdn ""); [done|].
  cbn [run quiet answer meanwhile id]. by rewrite post_answer_run.
Qed.

(** Submitting the add-zone form, on every branch: an empty name throws
    before anything is sent; otherwise one POST creates the zone with the
    entered name and email, the dialog closes exactly on an ok answer, a
    rejected request shows a message, and an answer that is not ok does
    nothing at all: the refusal is not shown. *)
Theorem EditZone_submit app d h r fqdn email :
  ez_inputs d = Some (fqdn, email) ->
  run (quiet true r) (submit_zone app d h)
  = if String.eqb fqdn "" then
      Trace [] [SetZone fqdn email] (Throw (JsError "Missing fqdn!")) h
    else
      Trace [Request "post" (getUrl app ("/zone/" +:+ fqdn)) (json_headers app) (Some (zone_body email))]
        (SetZone fqdn email :: close_on_ok r) (Ok tt) h.
Proof. apply EditZone_run. Qed.

Lemma message_unmounts (m : string) : m <> ""%string -> (0 <? String.length m) = true.
Proof. by destruct m. Qed.

(** After a request failed, the message takes the place of the inputs and
    every further Save of that dialog throws without sending anything. *)
Theorem EditZone_dead_after_error app d h fqdn email msg d' r :
  ez_inputs d = Some (fqdn, email) -> fqdn <> ""%string -> msg <> ""%string ->
  zone_after d (emitted (run (quiet true (Rejected true msg)) (submit_zone app d h))) = Some d' ->
  ez_error d' = msg /\ run (quiet true r) (submit_zone app d' h) = Trace [] [] (Throw JsTypeError) h.
Proof.
  intros E Hne Hm Ha. apply String.eqb_neq in Hne. unfold submit_zone in Ha. rewrite E in Ha.
  cbn [run] in Ha. rewrite Hne in Ha. cbn -[Nat.ltb] in Ha.
  rewrite (message_unmounts msg Hm) in Ha. by injection Ha as <-.
Qed.

(** Adding a name sends one POST for the name under the zone with an empty
    record set; after a failed request the dialog can send nothing more. *)
Theorem AddFqdn_submit app d h r name :
  af_input d = Some name ->
  run (quiet true r) (submit_fqdn app d h)
  = Trace [Request "post" (getUrl app ("/rr/" +:+ (name +:+ "." +:+ af_zone d))) (json_headers app)
             (Some "{}"%string)] (close_on_ok r) (Ok tt) h /\
  (forall msg d', r = Rejected true msg -> msg <> ""%string ->
     fqdn_after d (close_on_ok r) = Some d' ->
     forall o, sent (run o (submit_fqdn app d' h)) = [] /\
               outcome (run o (submit_fqdn app d' h)) = Throw JsTypeError).
Proof.
  intros E. split.
  - unfold submit_fqdn. rewrite E. cbn [run quiet answer meanwhile id]. by rewrite post_answer_run.
  - intros msg d' -> Hm Ha o. cbn -[Nat.ltb] in Ha. rewrite (message_unmounts msg Hm) in Ha.
    by injection Ha as <-.
Qed.

(** The dialog is shown as a modal exactly while its parent has it open. *)
Definition popup_ok (p : popup) : Prop :=
  p_modal p = p_isOpen p /\ p_element p = (if p_isOpen p then Some true else None).

Lemma popup_step_ok p e : popup_ok p -> popup_ok (fst (popup_step p e)).
Proof. destruct p as [[] m el]; intros [Hm He]; cbn in Hm, He; subst; by destruct e. Qed.

(** Whatever the parent and the user do, the modal is on screen exactly
    while the parent has the dialog open, and closing it (by a button or with
    Escape) calls [onClosed] exactly once. *)
Theorem PopupDialog_shown (b : bool) (es : list popup_event) (e : popup_event) :
  let p := popup_steps (mount_popup b) es in
  p_element p = (if p_isOpen p then Some true else None) /\
  (p_isOpen p = true -> e <> ParentOpens ->
     snd (popup_step p e) = 1 /\ p_isOpen (fst (popup_step p e)) = false /\
     forall e', e' <> ParentOpens -> snd (popup_step (fst (popup_step p e)) e') = 0).
Proof.
  assert (Hok : popup_ok (popup_steps (mount_popup b) es)).
  { unfold popup_steps. assert (Hm : popup_ok (mount_popup b)) by by destruct b.
    revert Hm. generalize (mount_popup b). induction es as [|e0 es IH]; intros p Hp; [done|].
    apply IH. by apply popup_step_ok. }
  cbv zeta. destruct (popup_steps (mount_popup b) es) as [op m el]. destruct Hok as [Hm He].
  cbn in *. subst. split; [done|]. intros -> Hne. destruct e; [done|..];
    (split_and!; [done|done|]); intros []; done.
Qed.

Module DialogsDemo.
Definition typed : edit_zone := type_zone "example.com" "hm@example.com" (open_zone (ZoneData "" "")).
Definition named : add_fqdn := AddFqdn "example.com" "" (Some "www"%string).

Lemma EditZone_submit_witness :
  run (quiet true (Resp true "OK" None)) (submit_zone initialState typed [])
  = Trace [Request "post" (getUrl initialState ("/zone/" +:+ "example.com")) (json_headers initialState)
             (Some (zone_body "hm@example.com"))]
      (SetZone "example.com" "hm@example.com" :: close_on_ok (Resp true "OK" None)) (Ok tt) [].
Proof. exact (EditZone_submit initialState typed [] (Resp true "OK" None) "example.com" "hm@example.com" eq_refl). Defined.

Lemma EditZone_dead_after_error_witness :
  let d' := EditZone (ZoneData "example.com" "hm@example.com") "offline" None in
  ez_error d' = "offline"%string /\
  run (quiet true (Resp true "OK" None)) (submit_zone initialState d' []) = Trace [] [] (Throw JsTypeError) [].
Proof.
  refine (EditZone_dead_after_error initialState typed [] "example.com" "hm@example.com" "offline" _
            (Resp true "OK" None) eq_refl _ _ eq_refl); discriminate.
Defined.

Lemma AddFqdn_submit_witness :
  run (quiet true (Rejected true "offline")) (submit_fqdn initialState named [])
  = Trace [Request "post" (getUrl initialState ("/rr/" +:+ ("www" +:+ "." +:+ "example.com")))
             (json_headers initialState) (Some "{}"%string)]
      (close_on_ok (Rejected true "offline")) (Ok tt) [].
Proof. exact (proj1 (AddFqdn_submit initialState named [] (Rejected true "offline") "www" eq_refl)). Defined.
End DialogsDemo.
