(* ===== verification/RestZone.v ===== *)
(** * The handler of /zone: RestApi::onZone

    Creating and deleting a zone (lib/RestApi.cpp) over the index of [RrRest],
    with the recursive remove of RocksDbResource::Transaction.  What the UI's
    EditZone form sends creates a zone when the server has name servers
    configured; deleting a zone removes its apex and leaves the records below
    it.  AuthMgr's own records of a zone (addZone, deleteZone) are in another
    part of the storage. *)

From stdpp Require Import gmap sorting.
From S2P Require Import Prelude JsNumber JsValue JsonStore Http AppState ServerUtil Qargs Paging RealKey KeyBlock RrTypes RrJson ListServer DnsName RrWire RrBuild RrStored Permissions RrRest RrIndex RrNames RrService RrForm RrEdit RrServed Dialogs.

Local Open Scope Z_scope.

(** ** Creating a zone *)

Section Create.
Context (default_name_servers : list string).

(** refactorZone: the mail address becomes rname, and the configured name
    servers are filled in. *)
Definition refactorZone (zone : list (string * json)) : verdict (list (string * json)) :=
  match assoc_get "soa" zone with
  | Some (JObj soa) =>
      soa ← match assoc_get "email" soa with
            | Some (JStr email) =>
                rname ← or_failed (fromEmail email);
                Built (assoc_del "email" (assoc_set "rname" (JStr rname) soa))
            | _ => Built soa
            end;
      match default_name_servers with
      | [] => Built (assoc_set "soa" (JObj soa) zone)
      | front :: _ =>
          let soa := match assoc_get "mname" soa with
                     | Some _ => soa
                     | None => assoc_set "mname" (JStr front) soa
                     end in
          let zone := assoc_set "soa" (JObj soa) zone in
          Built match assoc_get "ns" zone with
                | Some _ => zone
                | None => assoc_set "ns" (JArr (JStr <$> default_name_servers)) zone
                end
      end
  | _ => Built zone
  end.

(** An optional property has the right type. *)
Definition optional {A} (f : json -> option A) (o : list (string * json)) (k : string) : bool :=
  match assoc_get k o with Some v => bool_decide (is_Some (f v)) | None => true end.

(** validateSoa; [at] throws for a body without [soa]. *)
Definition validateSoa (zone : list (string * json)) : verdict (list (string * json)) :=
  v ← or_failed (assoc_get "soa" zone);
  o ← or_refused (as_object v);
  if forallb (optional as_string o) ["mname"; "rname"]
     && forallb (optional as_int64 o) ["refresh"; "retry"; "version"; "expire"; "minimum"]
  then Built o else Refused.

Definition validateZone (zone : list (string * json)) : verdict unit :=
  soa ← validateSoa zone;
  mname ← or_refused (v ← assoc_get "mname" soa; as_string v);
  if String.eqb mname "" then Refused
  else
    ns ← or_refused (v ← assoc_get "ns" zone; as_array v);
    if (length ns <? 2)%nat then Refused
    else
      names ← or_refused (mapM as_string ns);
      if existsb (String.eqb mname) names then Built tt else Refused.
End Create.

(** ** Removing a zone *)

(** The recursive remove: the keys it deletes of those from Seek on.  [key] and
    [ck] are the bytes of the keys, with names reversed. *)
Fixpoint remove_loop (key : string) (cks : list string) : list string :=
  match cks with
  | [] => []
  | ck :: cks' =>
      let extra_len := (String.length ck - String.length key)%nat in
      if (String.length ck <? String.length key)%nat then []
      else if (0 <? extra_len)%nat
              && (negb (bool_decide (String.get (extra_len - 1) ck = Some "."%char))
                  || (1 <? extra_len)%nat && bool_decide (String.get (extra_len - 2) ck = Some "\"%char))
      then []
      else if String.eqb (drop_chars extra_len ck) key then ck :: remove_loop key cks' else []
  end.

(** The keys of the index in their order, from [key] on. *)
Definition entry_keys (m : index) : list string := merge_sort String.le (entry_key <$> (map_to_list m).*1).
Definition seek (key : string) (m : index) : list string := List.filter (String.leb key) (entry_keys m).

Definition remove_recursive (fqdn : string) (m : index) : index :=
  let gone := remove_loop (entry_key fqdn) (seek (entry_key fqdn) m) in
  base.filter (fun ks => entry_key ks.1 ∉ gone) m.

(** ** The handler *)

Section Handler.
Context `{Addresses} `{Finish}.
Context (default_ttl : Z) (default_name_servers : list string) (parseJson : string -> option json).
Context (tenant : string) (allowed : permission -> string -> bool).

Definition zoneExists (m : index) (key : string) : bool :=
  match m !! key with Some s => flag_soa s | None => false end.

Definition post_zone (m : index) (q : rest_request) (key : string) : verdict (Z * index) :=
  if negb (allowed CREATE_ZONE key) then Built (403, m)
  else if zoneExists m key then Built (409, m)
  else
    j ← or_refused (parseJson (q_body q));
    o ← or_failed (as_object j);
    zone ← refactorZone default_name_servers o;
    _ ← validateZone zone;
    s ← build (q_target q) default_ttl (JObj zone);
    sb ← finish_set (Some tenant) O (s_owner s) ((fun w => (s_ttl s, w)) <$> s_rrs s);
    match m !! key with
    | Some _ => Built (409, m)
    | None => Built (201, <[key := sb]> m)
    end.

Definition delete_zone (m : index) (key : string) : verdict (Z * index) :=
  if negb (allowed DELETE_ZONE key) then Built (403, m)
  else if negb (zoneExists m key) then Built (404, m)
  else Built (200, remove_recursive key m).

Definition zone_handler (m : index) (q : rest_request) : verdict (Z * index) :=
  let key := toLowerStr (q_target q) in
  match q_method q with
  | POST => post_zone m q key
  | DELETE => delete_zone m key
  | _ => Built (405, m)
  end.

(** The code of the response and the index afterwards. *)
Definition onZone (m : index) (q : rest_request) : option (Z * index) :=
  match zone_handler m q with
  | Built r => Some r
  | Refused => Some (400, m)
  | Failed => Some (500, m)
  | Undefined => None
  end.
End Handler.

(** ** What is left of a deleted zone *)

(** Names without the byte that begins the keys of record sets. *)
Definition plain_names (m : index) : Prop := map_Forall (fun k _ => has_char "000" k = false) m.

Lemma entry_key_app k : entry_key k = String "000" (reverse k).
Proof. done. Qed.

Lemma entry_key_inj a b : entry_key a = entry_key b -> a = b.
Proof. rewrite !entry_key_app. intros [= E]. by rewrite <- (reverse_involutive a), E, reverse_involutive. Qed.

Lemma has_char_drop c n s : has_char c s = false -> has_char c (drop_chars n s) = false.
Proof.
  revert s. induction n as [|n IH]; intros [|d s] Hs; try done. cbn [drop_chars has_char] in *.
  apply orb_false_iff in Hs as [_ Hs]. by apply IH.
Qed.

Lemma has_char_rev c s : has_char c s = false -> has_char c (reverse s) = false.
Proof.
  induction s as [|d s IH]; [done|]. cbn [has_char]. intros [Hd Hs]%orb_false_iff.
  change (String d s) with (String d "" +:+ s). rewrite reverse_app, has_char_app, IH by done. cbn.
  by rewrite Hd.
Qed.

(** Another key never has the bytes of [key] at its end. *)
Lemma remove_loop_other z k cks :
  has_char "000" k = false -> k <> z -> remove_loop (entry_key z) (entry_key k :: cks) = [].
Proof.
  intros Hk Hne. cbn [remove_loop]. destruct (_ <? _)%nat; [done|]. destruct (_ && _); [done|].
  destruct (String.eqb_spec (drop_chars (String.length (entry_key k) - String.length (entry_key z)) (entry_key k)) (entry_key z))
    as [E|]; [exfalso|done].
  destruct (String.length (entry_key k) - String.length (entry_key z))%nat as [|n]; [by apply entry_key_inj in E|].
  rewrite !entry_key_app in E. cbn [drop_chars] in E.
  assert (Hd := has_char_drop "000" n _ (has_char_rev _ _ Hk)). by rewrite E in Hd.
Qed.

Lemma remove_loop_self z cks : remove_loop (entry_key z) (entry_key z :: cks) = entry_key z :: remove_loop (entry_key z) cks.
Proof.
  cbn [remove_loop]. rewrite Nat.sub_diag, (proj2 (Nat.ltb_ge _ _)) by done. cbn [drop_chars].
  by rewrite String.eqb_refl.
Qed.

Lemma entry_keys_elem m ck : ck ∈ entry_keys m <-> exists k s, ck = entry_key k /\ m !! k = Some s.
Proof.
  unfold entry_keys. rewrite (merge_sort_Permutation String.le), list_elem_of_fmap. split.
  - intros (k & -> & Hk). apply list_elem_of_fmap in Hk as ([k' s] & -> & Hk). apply elem_of_map_to_list in Hk. by exists k', s.
  - intros (k & s & -> & Hk). exists k. split; [done|]. apply list_elem_of_fmap. exists (k, s). by rewrite elem_of_map_to_list.
Qed.

Lemma entry_keys_nodup m : NoDup (entry_keys m).
Proof.
  unfold entry_keys. rewrite (merge_sort_Permutation String.le). apply NoDup_fmap_2_strong; [|apply NoDup_fst_map_to_list].
  intros a b _ _. apply entry_key_inj.
Qed.

Lemma sorted_filter {A} (R : A -> A -> Prop) (f : A -> bool) l : StronglySorted R l -> StronglySorted R (List.filter f l).
Proof.
  induction 1 as [|x l _ IH Hx]; [constructor|]. cbn. destruct (f x); [|done]. constructor; [done|].
  by apply filter_all.
Qed.

Lemma nodup_filter {A} (f : A -> bool) (l : list A) : NoDup l -> NoDup (List.filter f l).
Proof. rewrite !NoDup_ListNoDup. apply List.NoDup_filter. Qed.

(** The keys from one on, in order: it comes first, if it is there. *)
Lemma sorted_first key l :
  StronglySorted String.le l -> NoDup l -> key ∈ l ->
  exists rest, List.filter (String.leb key) l = key :: rest /\ forall ck, ck ∈ rest -> ck ∈ l /\ ck <> key.
Proof.
  intros Hs Hn Hin. set (l' := List.filter (String.leb key) l).
  assert (Hel : forall ck, ck ∈ l' <-> ck ∈ l /\ String.leb key ck = true).
  { intros ck. unfold l'. by rewrite list_elem_of_In, filter_In, <- list_elem_of_In. }
  assert (Hin' : key ∈ l') by (apply Hel; split; [done|apply key_le_refl]).
  apply (sorted_filter _ (String.leb key)) in Hs. apply (nodup_filter (String.leb key)) in Hn. fold l' in Hs, Hn.
  destruct l' as [|h rest]; [by apply not_elem_of_nil in Hin'|].
  assert (h = key) as ->.
  { apply elem_of_cons in Hin' as [->|Hin']; [done|]. apply StronglySorted_inv in Hs as [_ Hs].
    rewrite Forall_forall in Hs. apply String.leb_antisym; [by apply Is_true_true, Hs|]. apply Hel. by left. }
  exists rest. split; [done|]. apply NoDup_cons in Hn as [Hn _]. intros ck Hck. split; [|by intros ->].
  apply Hel. by right.
Qed.

(** The key itself comes first, if it is there. *)
Lemma seek_first z m s : m !! z = Some s -> exists rest, seek (entry_key z) m = entry_key z :: rest /\
  Forall (fun ck => exists k, ck = entry_key k /\ k <> z /\ is_Some (m !! k)) rest.
Proof.
  intros Hz. destruct (sorted_first (entry_key z) (entry_keys m)) as (rest & E & Hr).
  - apply (StronglySorted_merge_sort _).
  - apply entry_keys_nodup.
  - apply entry_keys_elem. by exists z, s.
  - exists rest. split; [exact E|]. apply Forall_forall. intros ck [Hck Hne]%Hr.
    apply entry_keys_elem in Hck as (k & s' & -> & Hk). exists k. split_and!; [done| |by eexists]. by intros ->.
Qed.

(** Removing a zone removes its apex alone. *)
Lemma remove_apex z m s : plain_names m -> m !! z = Some s -> remove_recursive z m = delete z m.
Proof.
  intros Hp Hz. destruct (seek_first z m s Hz) as (rest & Es & Hrest). unfold remove_recursive. rewrite Es.
  rewrite remove_loop_self. assert (E : remove_loop (entry_key z) rest = []).
  { destruct Hrest as [|ck rest (k & -> & Hne & [s' Hk]) _]; [done|]. apply remove_loop_other; [|done]. by apply (Hp k s'). }
  rewrite E. apply map_eq. intros k. apply option_eq. intros v. rewrite map_lookup_filter_Some, lookup_delete_Some. cbn [fst].
  rewrite not_elem_of_cons. split.
  - intros (Hk & Hne & _). split; [|done]. by intros ->.
  - intros [Hne Hk]. split_and!; [done| |apply not_elem_of_nil]. by intros ?%entry_key_inj.
Qed.

(** ** The SOA of a body *)

Section SoaStored.
Context `{Addresses}.

Lemma add_all_grows err fqdn ws b b' : add_all err fqdn ws b = Built b' -> b_rrs b' = b_rrs b ++ ws.
Proof.
  unfold add_all. destruct ws as [|w ws]; [intros [= <-]; by rewrite app_nil_r|].
  destruct (b_owner b) as [n|]; [by intros [= <-]|]. destruct err as [a| | |]; destruct (owner_name _ fqdn); try done; by intros [= <-].
Qed.

Lemma add_each_grows f err fqdn l b b' : add_each f err fqdn l b = Built b' -> exists ws, b_rrs b' = b_rrs b ++ ws.
Proof.
  revert b. induction l as [|x l IH]; intros b; cbn [add_each]; [intros [= <-]; exists []; by rewrite app_nil_r|].
  destruct (f x) as [ws| | |]; try done. cbn [mbind verdict_bind].
  destruct (add_all err fqdn ws b) as [b1| | |] eqn:Ea; try done. cbn [mbind verdict_bind].
  intros (ws' & ->)%IH. apply add_all_grows in Ea as ->. exists (ws ++ ws'). by rewrite app_assoc.
Qed.

Lemma build_field_grows fqdn k v b b' :
  build_field fqdn k v b = Built b' ->
  exists ws, b_rrs b' = b_rrs b ++ ws /\ (k = "soa"%string -> exists w, w_type w = 6 /\ w ∈ ws).
Proof.
  unfold build_field. destruct (String.eqb_spec k "rr") as [->|_].
  { destruct (as_array v); [|done]. cbn [or_refused mbind verdict_bind]. intros (ws & Hw)%add_each_grows. by exists ws. }
  destruct (handler k v) as [r|] eqn:Eh.
  - destruct r as [ws| | |] eqn:Er; try done. cbn [mbind verdict_bind]. intros Ha%add_all_grows. exists ws. split; [done|].
    intros ->. change (handler "soa" v) with (Some (or_refused ((fun w => [w]) <$> build_soa v))) in Eh.
    destruct (build_soa v) as [w|] eqn:Ew; [|done]. injection Eh as <-. exists w. split; [|by left].
    unfold build_soa in Ew. unbind Ew. by apply createSoa_split in Ew as (? & ? & -> & _).
  - destruct k as [|c n]; [done|]. destruct c as [[] [] [] [] [] [] [] []]; try done.
    destruct (stoi n) as [id|]; [|done]. cbn [or_failed mbind verdict_bind]. destruct (id =? 0); [done|].
    destruct (as_array v); [|done]. cbn [or_refused mbind verdict_bind]. intros (ws & Hw)%add_each_grows. by exists ws.
Qed.

Lemma build_fields_soa fqdn o b b' :
  build_fields fqdn o b = Built b' ->
  (exists ws, b_rrs b' = b_rrs b ++ ws) /\
  (is_Some (assoc_get "soa" o) -> exists w, w_type w = 6 /\ w ∈ b_rrs b').
Proof.
  revert b. induction o as [|[k v] o IH]; intros b; cbn [build_fields assoc_get].
  { intros [= <-]. split; [exists []; by rewrite app_nil_r|by intros []]. }
  destruct (build_field fqdn k v b) as [b1| | |] eqn:E; try done. cbn [mbind verdict_bind].
  intros [(ws' & Hw') Hs]%IH. destruct (build_field_grows _ _ _ _ _ E) as (ws & Hw & Hsoa). split.
  - exists (ws ++ ws'). by rewrite Hw', Hw, app_assoc.
  - destruct (String.eqb_spec "soa" k) as [<-|]; [|exact Hs]. intros _. destruct (Hsoa eq_refl) as (w & Ht & Hin).
    exists w. split; [done|]. rewrite Hw', Hw, !elem_of_app. auto.
Qed.

Lemma build_soa_stored fqdn default_ttl o s :
  build fqdn default_ttl (JObj o) = Built s -> is_Some (assoc_get "soa" o) -> exists w, w_type w = 6 /\ w ∈ s_rrs s.
Proof.
  unfold build. cbn [as_object or_failed mbind verdict_bind]. destruct (getTtl default_ttl o); try done. cbn [mbind verdict_bind].
  destruct (build_fields fqdn o (Builder None [])) as [b| | |] eqn:E; try done. cbn [mbind verdict_bind].
  destruct (addressable _ _); [|done]. destruct (sortable _); [|done]. intros [= <-]. by apply build_fields_soa in E as [_ ?].
Qed.
End SoaStored.

Lemma validateZone_soa o u : validateZone o = Built u -> is_Some (assoc_get "soa" o).
Proof. unfold validateZone, validateSoa. destruct (assoc_get "soa" o); [by eexists|done]. Qed.

Lemma finish_soa `{Finish} tn zl o (t : Z) ws s w :
  finish_set tn zl o ((fun w => (t, w)) <$> ws) = Built s -> w ∈ ws -> w_type w = 6 -> flag_soa s = true.
Proof.
  intros (-> & _)%finish_set_built Hin Hw. unfold flag_soa. cbn [z_rrs]. apply existsb_exists. exists (t, w).
  split; [|by apply Z.eqb_eq]. apply list_elem_of_In. rewrite finish_perm. by apply list_elem_of_fmap_2.
Qed.

Section Deleted.
Context `{Addresses} `{Finish}.
Context (default_ttl : Z) (default_name_servers : list string) (parseJson : string -> option json).
Context (tenant : string) (allowed : permission -> string -> bool).

Abbreviation onZone' := (onZone default_ttl default_name_servers parseJson tenant allowed).

Lemma delete_zone_run m q s :
  let z := toLowerStr (q_target q) in
  plain_names m -> m !! z = Some s -> flag_soa s = true -> allowed DELETE_ZONE z = true -> q_method q = DELETE ->
  onZone' m q = Some (200, delete z m).
Proof.
  intros z Hp Hz Hf Hal Hq. unfold onZone, zone_handler. rewrite Hq. unfold delete_zone, zoneExists. fold z.
  by rewrite Hz, Hf, Hal, (remove_apex z m s).
Qed.

(** Deleting a zone deletes its apex only: the answer is 200, and every
    other record set of the zone is still in the index. *)
Theorem zone_delete_leaves_records m q s :
  let z := toLowerStr (q_target q) in
  plain_names m -> m !! z = Some s -> flag_soa s = true -> allowed DELETE_ZONE z = true -> q_method q = DELETE ->
  exists m', onZone' m q = Some (200, m') /\ m' !! z = None /\ forall k, k <> z -> m' !! k = m !! k.
Proof.
  intros z Hp Hz Hf Hal Hq. exists (delete z m). split; [by eapply delete_zone_run|].
  split; [apply lookup_delete_eq|]. intros k Hk. by apply lookup_delete_ne.
Qed.

(** What a request changes: it creates one zone, or removes one. *)
Lemma onZone_cases m q code m' :
  let k := toLowerStr (q_target q) in
  onZone' m q = Some (code, m') ->
  (m' = m /\ 400 <= code) \/
  (code = 201 /\ q_method q = POST /\ allowed CREATE_ZONE k = true /\ m !! k = None /\
   exists sb, m' = <[k := sb]> m /\ flag_soa sb = true /\ z_tenant sb = Some tenant /\
     let z := toLowerStr (undotted (q_target q)) in key_ok z -> set_wf z sb) \/
  (code = 200 /\ q_method q = DELETE /\ allowed DELETE_ZONE k = true /\ zoneExists m k = true /\ m' = remove_recursive k m).
Proof.
  intros k Hr. unfold onZone, zone_handler in Hr. fold k in Hr.
  destruct (q_method q) eqn:Eq; cbn iota in Hr; try by (injection Hr as <- <-; left; split; [done|lia]).
  - unfold post_zone in Hr. destruct (allowed CREATE_ZONE k); [|by injection Hr as <- <-; left; split; [done|lia]].
    destruct (zoneExists m k); [by injection Hr as <- <-; left; split; [done|lia]|]. cbn [negb] in Hr.
    repeat match type of Hr with context [mbind _ ?c] => destruct c eqn:?; cbn [mbind verdict_bind] in Hr;
             [|by first [discriminate Hr|injection Hr as <- <-; left; split; [done|lia]]..] end.
    destruct (m !! k) eqn:Ez; [injection Hr as <- <-; left; split; [done|lia]|]. injection Hr as <- <-. right. left. split_and!; try done.
    match goal with Hf : finish_set _ _ _ _ = Built ?sb |- _ => rename Hf into Ef; rename sb into set end.
    exists set. split_and!; [done| |by apply finish_set_built in Ef as [-> _]|].
    + match goal with Hb : build _ _ (JObj ?o) = Built ?s, Hv : validateZone ?o = Built _ |- _ =>
        destruct (build_soa_stored _ _ _ _ Hb (validateZone_soa _ _ Hv)) as (w & Hw & Hin); by apply (finish_soa _ _ _ _ _ _ _ Ef Hin) end.
    + intros z Hk. by eapply built_undotted_wf.
  - unfold delete_zone in Hr. destruct (allowed DELETE_ZONE k); [|by injection Hr as <- <-; left; split; [done|lia]].
    destruct (zoneExists m k) eqn:Ee; [|by injection Hr as <- <-; left; split; [done|lia]]. injection Hr as <- <-. by right; right.
Qed.

(** A zone that is accepted. *)
Lemma post_zone_cases m q m' :
  onZone' m q = Some (201, m') -> q_method q = POST /\
  exists sb, m' = <[toLowerStr (q_target q) := sb]> m /\ m !! toLowerStr (q_target q) = None /\ z_tenant sb = Some tenant /\
    flag_soa sb = true.
Proof.
  intros [[_ ?]|[(_ & ? & _ & ? & sb & ? & ? & ? & _)|(? & _)]]%onZone_cases; [lia| |done]. split; [done|]. by exists sb.
Qed.
End Deleted.

(** C38: What is left of a deleted zone belongs to whoever creates the zone again:
    after the DELETE of a zone by its owner and the POST of the same zone by a
    session of another tenant, the old owner's record sets are those of the
    new owner's zone. *)
Theorem deleted_records_return `{Addresses} `{Finish} default_ttl servers parseJson t1 t2 allowed1 allowed2 m q1 q2 m1 m2 k e z soa :
  store_ok m -> plain_names m -> authority m k k e z soa -> z <> k ->
  toLowerStr (q_target q1) = z -> q_method q1 = DELETE ->
  onZone default_ttl servers parseJson t1 allowed1 m q1 = Some (200, m1) ->
  toLowerStr (q_target q2) = z ->
  onZone default_ttl servers parseJson t2 allowed2 m1 q2 = Some (201, m2) ->
  m2 !! k = Some e /\ exists soa2, authority m2 k k e z soa2 /\ z_tenant soa2 = Some t2.
Proof.
  intros Hm Hp Ha Hzk Hq1 Hd H1 Hq2 H2. destruct (authority_soa m Hm _ _ _ _ _ Ha) as (Hs & Hz & Hf & _).
  assert (Hal : allowed1 DELETE_ZONE z = true).
  { unfold onZone, zone_handler in H1. rewrite Hd, Hq1 in H1. unfold delete_zone in H1.
    by destruct (allowed1 DELETE_ZONE z). }
  assert (H1' := delete_zone_run default_ttl servers parseJson t1 allowed1 m q1 soa). cbv zeta in H1'. rewrite Hq1 in H1'.
  rewrite H1' in H1 by done. injection H1 as <-.
  apply post_zone_cases in H2 as (_ & sb & -> & _ & Ht & Hfs). rewrite Hq2.
  destruct Ha as [_ He _ Hze].
  assert (Hek : <[z := sb]> (delete z m) !! k = Some e) by by rewrite lookup_insert_ne, lookup_delete_ne.
  split; [done|]. exists sb. split; [|done]. split; [apply suffix_refl|done|by auto|].
  destruct (flag_soa e); [by destruct Hze|]. destruct Hze as (? & ? & _). by rewrite lookup_insert_eq.
Qed.

(** ** From the form to the index *)

(** The request that arrives for the resource [zone]. *)
Definition zone_request (app : app_state) (req : request) : option rest_request :=
  let p := parse (drop_chars (String.length (api app)) (url req)) in
  if String.eqb (p_what p) "zone"
  then Some (RestRequest (method_of (method req)) (p_target p) (p_operation p) [] (default ""%string (body req)))
  else None.

Lemma parse_zone fqdn : has_char "/" fqdn = false -> parse ("/zone/" +:+ fqdn) = ParsedPath "zone" fqdn "".
Proof.
  intros Hf. unfold parse. change (strip_front _ _) with ("zone/" +:+ fqdn).
  change (cut_slash ("zone/" +:+ fqdn)) with (Some ("zone"%string, fqdn)). cbv zeta iota. by rewrite cut_slash_plain.
Qed.

(** The records of a new zone. *)
Definition new_zone (ns1 : string) (ns : list string) (rname : string) : list rdata :=
  TYPE_SOA ns1 rname 1 1000 1000 1000 1000 :: (TYPE_NS <$> ns1 :: ns).

Section Created.
Context `{Addresses} `{Finish}.
Context (default_ttl : Z) (parseJson : string -> option json).
Context (tenant : string) (allowed : permission -> string -> bool).

(** A mail address and name servers that can be stored. *)
Record zone_input (fqdn email rname ns1 : string) (ns : list string) : Prop := {
  zi_name : dns_name fqdn;
  zi_email : fromEmail email = Some rname;
  zi_mail : mail_name rname;
  zi_ns : Forall rdata_name (ns1 :: ns);
  zi_more : ns <> [];
  zi_size ws : mapM create (new_zone ns1 ns rname) = Some ws -> addressable fqdn ws = true
}.

Definition filled_zone (rname ns1 : string) (ns : list string) : list (string * json) :=
  [("soa", JObj [("rname", JStr rname); ("mname", JStr ns1)]); ("ns", JArr (JStr <$> ns1 :: ns))]%string.

Lemma strings_mapM (l : list string) : mapM as_string (JStr <$> l) = Some l.
Proof. induction l as [|s l IH]; [done|]. rewrite fmap_cons. by apply mapM_cons_Some. Qed.

Lemma filled_valid rname ns1 ns : ns1 <> ""%string -> ns <> [] -> validateZone (filled_zone rname ns1 ns) = Built tt.
Proof.
  intros Hn%String.eqb_neq Hns. unfold validateZone. change (validateSoa _) with (Built [("rname", JStr rname); ("mname", JStr ns1)]%string).
  change (assoc_get "ns" (filled_zone rname ns1 ns)) with (Some (JArr (JStr <$> ns1 :: ns))).
  cbn [assoc_get String.eqb Ascii.eqb Bool.eqb mbind option_bind as_string or_refused verdict_bind as_array].
  rewrite Hn, length_fmap. destruct ns as [|n2 ns]; [done|]. cbn [length Nat.ltb Nat.leb].
  rewrite strings_mapM. cbn [or_refused mbind verdict_bind existsb]. by rewrite String.eqb_refl.
Qed.

Lemma filled_built fqdn email rname ns1 ns :
  zone_input fqdn email rname ns1 ns -> 0 <= default_ttl <= TTL_MAX ->
  exists ws, mapM create (new_zone ns1 ns rname) = Some ws /\
    build fqdn default_ttl (JObj (filled_zone rname ns1 ns)) = Built (WireSet fqdn default_ttl ws).
Proof.
  intros [Hd He Hm Hns _ Hsize] Ht. assert (Hns1 := Hns). apply Forall_cons in Hns1 as [Hn1 _].
  set (soa := TYPE_SOA ns1 rname 1 1000 1000 1000 1000).
  assert (Hsoa : storable soa) by (refine (conj (rdata_name_dns _ Hn1) (conj Hm _)); unfold uint; lia).
  destruct (create_stored _ Hsoa) as (w & Hw & Hwt & _).
  assert (Hsav : Forall savable (TYPE_NS <$> ns1 :: ns)).
  { apply Forall_fmap. eapply Forall_impl; [exact Hns|]. intros n Hn. by split. }
  destruct (build_field_records fqdn "ns" (JArr (JStr <$> ns1 :: ns)) (TYPE_NS <$> ns1 :: ns) (Builder (Some fqdn) [w]))
    as (ws & Hws & Hb); [|done|done|by right|].
  { unfold field_of. change (multi_name "ns") with true. cbv iota. exists (JStr <$> ns1 :: ns). split_and!; [done|done|].
    clear. induction (ns1 :: ns) as [|n l IH]; [constructor|]. rewrite !fmap_cons. by constructor. }
  assert (Hall : mapM create (new_zone ns1 ns rname) = Some (w :: ws)) by by apply mapM_cons_Some.
  exists (w :: ws). split; [done|]. unfold build. cbn [as_object or_failed mbind verdict_bind].
  change (getTtl default_ttl (filled_zone rname ns1 ns)) with (Built default_ttl). cbn [mbind verdict_bind].
  assert (Hf : build_fields fqdn (filled_zone rname ns1 ns) (Builder None []) = Built (Builder (Some fqdn) (w :: ws))).
  { set (v := JObj [("rname", JStr rname); ("mname", JStr ns1)]%string).
    assert (Hbs : build_soa v = Some w) by exact Hw.
    assert (Hb1 : build_field fqdn "soa" v (Builder None []) = Built (Builder (Some fqdn) [w])).
    { change (build_field fqdn "soa" v (Builder None []))
        with (ws ← or_refused ((fun w => [w]) <$> build_soa v); add_all Refused fqdn ws (Builder None [])).
      rewrite Hbs. cbn [fmap option_fmap option_map or_refused mbind verdict_bind].
      by rewrite add_all_records by (done || by left). }
    unfold filled_zone. fold v. cbn [build_fields]. rewrite Hb1. cbn [mbind verdict_bind]. rewrite Hb. cbn [mbind verdict_bind].
    rewrite fmap_cons in Hws. apply length_mapM in Hws. by destruct ws. }
  rewrite Hf. cbn [mbind verdict_bind b_rrs b_owner default]. rewrite (Hsize _ Hall). cbn [negb].
  assert (Hsort : sortable (w :: ws) = true).
  { unfold sortable. apply orb_true_iff. right. cbn [forallb]. rewrite Hwt. cbn [Z.ltb andb]. apply forallb_forall.
    intros v Hv%list_elem_of_In. apply Z.ltb_lt. apply (list_elem_of_fmap_2 w_type) in Hv.
    rewrite (create_types _ _ Hsav Hws), <- list_fmap_compose in Hv. by apply list_elem_of_fmap in Hv as (n & -> & _). }
  rewrite Hsort. unfold sanitizeTtl. by rewrite Z.min_l by lia.
Qed.

Lemma new_zone_soas fqdn ns1 ns rname :
  length (omap (named "soa") (Rr fqdn default_ttl <$> new_zone ns1 ns rname)) = 1%nat.
Proof.
  unfold new_zone. rewrite fmap_cons. cbn [omap list_omap]. unfold named at 1. cbn [rr_rdata rr_slot String.eqb].
  cbn [length]. f_equal. induction (ns1 :: ns) as [|n l IH]; [done|]. rewrite !fmap_cons. cbn [omap list_omap]. exact IH.
Qed.

Lemma new_zone_storable fqdn email rname ns1 ns :
  zone_input fqdn email rname ns1 ns -> Forall storable (new_zone ns1 ns rname).
Proof.
  intros [_ _ Hm Hns _ _]. constructor; [|by apply Forall_fmap].
  apply Forall_cons in Hns as [Hn _]. refine (conj (rdata_name_dns _ Hn) (conj Hm _)). unfold uint. lia.
Qed.

Lemma dns_name_dot_end s : dns_name s -> dot_end s = false.
Proof.
  intros Hd. assert (Ho := dns_name_owner Failed s Hd). apply owner_name_some in Ho as (Hu & _); [|done].
  unfold undotted in Hu. destruct (dot_end s) eqn:Ed; [|done]. exfalso. destruct s as [|c s]; [done|].
  apply (f_equal String.length) in Hu. rewrite length_take_chars in Hu. cbn [String.length] in Hu. lia.
Qed.

(** The form's request and its answer. *)
Lemma zone_form_created app d h r m fqdn email rname ns1 ns :
  ez_inputs d = Some (fqdn, email) -> fqdn <> ""%string -> zone_input fqdn email rname ns1 ns ->
  0 <= default_ttl <= TTL_MAX -> allowed CREATE_ZONE (toLowerStr fqdn) = true -> m !! toLowerStr fqdn = None ->
  parseJson (zone_body email) = Some (JObj [("soa", JObj [("email", JStr email)])]%string) ->
  let req := Request "post" (getUrl app ("/zone/" +:+ fqdn)) (json_headers app) (Some (zone_body email)) in
  run (quiet true r) (submit_zone app d h) = Trace [req] (SetZone fqdn email :: close_on_ok r) (Ok tt) h /\
  exists q s e, zone_request app req = Some q /\
    onZone default_ttl (ns1 :: ns) parseJson tenant allowed m q = Some (201, <[toLowerStr fqdn := s]> m) /\
    z_tenant s = Some tenant /\ z_entry s = Some e /\ e ≡ₚ Rr fqdn default_ttl <$> new_zone ns1 ns rname /\
    (store_ok m -> store_ok (<[toLowerStr fqdn := s]> m)).
Proof.
  intros Hez Hne Hin Ht Hal Hnew Hparse req. set (k := toLowerStr fqdn) in *. split.
  { rewrite (EditZone_run _ _ _ _ _ _ Hez). by apply String.eqb_neq in Hne as ->. }
  destruct (filled_built _ _ _ _ _ Hin Ht) as (ws & Hws & Hb). assert (Hst := new_zone_storable _ _ _ _ _ Hin). destruct Hin as [Hd He Hm Hns Hn Hsize].
  assert (Hn1 : ns1 <> ""%string) by (apply Forall_cons in Hns as [[Hn1 _] _]; exact Hn1).
  assert (Hde := dns_name_dot_end _ Hd). destruct (build_finishable _ _ _ _ Hb Hde) as [Ha Hs]. cbn [s_owner s_rrs] in Ha, Hs.
  destruct (build_spec _ _ _ _ Hb) as (Ho & Hmade & Httl). cbn [s_owner s_rrs s_ttl] in Ho, Hmade, Httl.
  set (l := (fun w => (default_ttl, w)) <$> ws). assert (Hl2 : l.*2 = ws) by apply pair_snd.
  assert (Hread : mapM (read_row fqdn) l = Some (Rr fqdn default_ttl <$> new_zone ns1 ns rname)).
  { unfold l. rewrite read_pair. by apply read_storable. }
  assert (Hone : (length (soas l) <= 1)%nat).
  { rewrite (entry_soas _ _ _ Hread). by rewrite new_zone_soas. }
  assert (Hfin : finish_set (Some tenant) 0 fqdn l = Built (ZSet (Some tenant) 0 fqdn (finish l))).
  { apply finish_set_total; [done|by rewrite Hl2..]. }
  destruct (mapM_Permutation _ _ _ _ (symmetry (finish_perm l)) Hread) as (e & Hfe & Hpe).
  exists (RestRequest POST fqdn "" [] (zone_body email)), (ZSet (Some tenant) 0 fqdn (finish l)), e. split_and!.
  - unfold zone_request, req, getUrl. cbn [url method body]. by rewrite drop_chars_app, parse_zone by by apply dns_name_no_slash.
  - unfold onZone, zone_handler, post_zone, zoneExists. cbn [q_method q_target q_body]. fold k. rewrite Hal, Hnew. cbn [negb].
    rewrite Hparse. cbn [or_refused or_failed mbind verdict_bind as_object].
    assert (Hrf : refactorZone (ns1 :: ns) [("soa", JObj [("email", JStr email)])]%string = Built (filled_zone rname ns1 ns)).
    { unfold refactorZone. cbn [assoc_get String.eqb Ascii.eqb Bool.eqb]. rewrite He. reflexivity. }
    rewrite Hrf. cbn [mbind verdict_bind]. rewrite filled_valid by done. cbn [mbind verdict_bind]. rewrite Hb.
    cbn [mbind verdict_bind s_owner s_ttl s_rrs]. fold l. by rewrite Hfin.
  - done.
  - exact Hfe.
  - exact Hpe.
  - intros Hok. assert (Hlne : ws <> []) by (intros ->; by apply length_mapM in Hws).
    destruct (owner_name_key Failed fqdn fqdn) as [_ Hok2]; [done|by apply Ho|done|].
    assert (Hw : set_wf k (ZSet (Some tenant) 0 fqdn (finish l))).
    { eapply finish_set_wf; [exact Hfin| |done|apply soas_good; by apply made_soas|].
      - unfold k. split_and!; [apply lower_idem|by destruct fqdn|by rewrite dot_end_lower].
      - apply Forall_fmap, Forall_forall. done. }
    intros k' s' [[<- <-]|[Hkk Hk']]%lookup_insert_Some.
    + split; [done|]. intros Hf. exfalso. apply not_true_iff_false in Hf. apply Hf, flag_soas. cbn [z_rrs].
      assert (Hp := soas_perm _ _ (finish_perm l)). intros E. rewrite E in Hp. apply Permutation_nil_l in Hp.
      assert (Hc := entry_soas _ _ _ Hread). rewrite new_zone_soas, <- Hp in Hc. done.
    + destruct (Hok _ _ Hk') as [? Hz]. split; [done|]. intros Hf. destruct (Hz Hf) as (z & o & ? & ? & Hzo & ?).
      exists z, o. split_and!; [done..| |done]. rewrite lookup_insert_ne; [done|]. intros <-. congruence.
Qed.

(** C9: Creating a zone, from the form to the index: when the server has two name
    servers or more in its configuration, submitting the add-zone form with a
    name and a mail address that can be stored sends one request, which the
    server answers with 201; the index then has the zone, owned by the
    session's tenant, with an SOA of serial 1 for the mail address and an NS
    record for each of the name servers. *)
Theorem zone_created app d h r m fqdn email rname ns1 ns :
  ez_inputs d = Some (fqdn, email) -> fqdn <> ""%string -> zone_input fqdn email rname ns1 ns ->
  0 <= default_ttl <= TTL_MAX -> allowed CREATE_ZONE (toLowerStr fqdn) = true -> m !! toLowerStr fqdn = None ->
  parseJson (zone_body email) = Some (JObj [("soa", JObj [("email", JStr email)])]%string) ->
  let req := Request "post" (getUrl app ("/zone/" +:+ fqdn)) (json_headers app) (Some (zone_body email)) in
  run (quiet true r) (submit_zone app d h) = Trace [req] (SetZone fqdn email :: close_on_ok r) (Ok tt) h /\
  exists q s e, zone_request app req = Some q /\
    onZone default_ttl (ns1 :: ns) parseJson tenant allowed m q = Some (201, <[toLowerStr fqdn := s]> m) /\
    z_tenant s = Some tenant /\ z_entry s = Some e /\ e ≡ₚ Rr fqdn default_ttl <$> new_zone ns1 ns rname /\
    (store_ok m -> store_ok (<[toLowerStr fqdn := s]> m)).
Proof. apply zone_form_created. Qed.
End Created.

(** Without name servers in the server's configuration the form cannot create
    any zone: its request has no [mname], and nothing is stored. *)
Theorem zone_needs_servers `{Addresses} `{Finish} default_ttl parseJson tenant allowed m fqdn email operation args c m' :
  parseJson (zone_body email) = Some (JObj [("soa", JObj [("email", JStr email)])]%string) ->
  onZone default_ttl [] parseJson tenant allowed m (RestRequest POST fqdn operation args (zone_body email)) = Some (c, m') ->
  400 <= c /\ m' = m.
Proof.
  intros Hp. unfold onZone, zone_handler, post_zone. cbn [q_method q_target q_body]. rewrite Hp.
  destruct (negb _); [intros [= <- <-]; split; [lia|done]|]. destruct (zoneExists _ _); [intros [= <- <-]; split; [lia|done]|].
  cbn [or_refused or_failed mbind verdict_bind as_object].
  unfold refactorZone. cbn [assoc_get String.eqb Ascii.eqb Bool.eqb].
  destruct (fromEmail email) as [r|]; [|intros [= <- <-]; split; [lia|done]].
  intros [= <- <-]. split; [lia|done].
Qed.

Module ZoneDemo.
Import WireDemo RestDemo ServiceDemo.

Definition any_zone (p : permission) (k : string) : bool := true.

Lemma demo_plain : plain_names demo_index.
Proof. intros k s Hk. by apply demo_lookup in Hk as [[-> _]|[[-> _]|[[-> _]|[-> _]]]]. Qed.

Definition zone_json : json :=
  JObj [("soa", JObj [("mname", JStr "ns1.ex.org"); ("email", JStr "other@ex.org")]);
        ("ns", JArr [JStr "ns1.ex.org"; JStr "ns2.ex.org"])]%string.
Definition zone_parser (s : string) : option json := if String.eqb s "zone" then Some zone_json else None.

Definition drop_org : rest_request := RestRequest DELETE "ex.org" "" [] "".
Definition make_org : rest_request := RestRequest POST "Ex.Org" "" [] "zone".
Definition dropped : index := match onZone 3600 [] zone_parser "t1" any_zone demo_index drop_org with Some (_, m) => m | None => demo_index end.
Definition remade : index := match onZone 3600 [] zone_parser "t2" any_zone dropped make_org with Some (_, m) => m | None => dropped end.

Lemma zone_delete_leaves_records_witness :
  exists m', onZone 3600 [] zone_parser "t1" any_zone demo_index drop_org = Some (200, m') /\ m' !! "ex.org"%string = None /\
    forall k, k <> "ex.org"%string -> m' !! k = demo_index !! k.
Proof.
  exact (zone_delete_leaves_records 3600 [] zone_parser "t1" any_zone demo_index drop_org apex_org demo_plain
           eq_refl eq_refl eq_refl eq_refl).
Defined.

Lemma dropped_answer : onZone 3600 [] zone_parser "t1" any_zone demo_index drop_org = Some (200, dropped).
Proof. vm_compute. reflexivity. Qed.

Lemma remade_answer : onZone 3600 [] zone_parser "t2" any_zone dropped make_org = Some (201, remade).
Proof. vm_compute. reflexivity. Qed.

Lemma deleted_records_return_witness :
  remade !! "www.ex.org"%string = Some www_org /\
  exists soa2, authority remade "www.ex.org" "www.ex.org" www_org "ex.org" soa2 /\ z_tenant soa2 = Some "t2"%string.
Proof.
  refine (deleted_records_return 3600 [] zone_parser "t1" "t2" any_zone any_zone demo_index drop_org make_org dropped remade
            "www.ex.org" www_org "ex.org" apex_org demo_ok demo_plain www_authority _ eq_refl eq_refl dropped_answer
            eq_refl remade_answer).
  discriminate.
Defined.

(** The form's request for a new zone. *)
Definition typed_zone : edit_zone := type_zone "New.org" "host@new.org" (open_zone (ZoneData "" "")).
Definition form_parser (s : string) : option json :=
  if String.eqb s (zone_body "host@new.org") then Some (JObj [("soa", JObj [("email", JStr "host@new.org")])]%string) else None.

Lemma new_input : zone_input "New.org" "host@new.org" "host.new.org" "ns1.ex.org" ["ns2.ex.org"%string].
Proof.
  split; [by eapply demo_name|reflexivity| |repeat apply Forall_cons_2; try apply Forall_nil_2; by eapply demo_rdata|done|].
  - exists "host"%string. split; [split; [unfold label_size; cbn; lia|by left]|]. right. exists "new.org"%string.
    split_and!; [done|by eapply demo_rdata|cbn; lia].
  - intros ws [= <-]. vm_compute. reflexivity.
Qed.

Lemma zone_created_witness :
  let req := Request "post" (getUrl initialState ("/zone/" +:+ "New.org")) (json_headers initialState)
               (Some (zone_body "host@new.org")) in
  run (quiet true (Resp true "OK" None)) (submit_zone initialState typed_zone [])
  = Trace [req] (SetZone "New.org" "host@new.org" :: close_on_ok (Resp true "OK" None)) (Ok tt) [] /\
  exists q s e, zone_request initialState req = Some q /\
    onZone 3600 ["ns1.ex.org"; "ns2.ex.org"]%string form_parser "t1" any_zone demo_index q
    = Some (201, <["new.org"%string := s]> demo_index) /\
    z_tenant s = Some "t1"%string /\ z_entry s = Some e /\
    e ≡ₚ Rr "New.org" 3600 <$> new_zone "ns1.ex.org" ["ns2.ex.org"%string] "host.new.org" /\
    (store_ok demo_index -> store_ok (<["new.org"%string := s]> demo_index)).
Proof.
  refine (zone_created 3600 form_parser "t1" any_zone initialState typed_zone [] (Resp true "OK" None) demo_index
            "New.org" "host@new.org" "host.new.org" "ns1.ex.org" ["ns2.ex.org"%string] eq_refl _ new_input _ eq_refl _ _).
  - discriminate.
  - unfold TTL_MAX. lia.
  - vm_compute. reflexivity.
  - vm_compute. reflexivity.
Defined.
End ZoneDemo.
