(* ===== verification/Tenants.v ===== *)
(** * Tenants that share a server

    The requests of sessions to /rr and /zone ([RrRest], [RestZone]) with the
    server's own check of permissions ([Access]).  Whatever other tenants send,
    a tenant's zones and their record sets stay as they are; what a session
    changes, one of its user's roles permits.  Both rest on names without a dot
    at their end: a zone created with one takes over the zone without. *)

From stdpp Require Import gmap sorting.
From S2P Require Import Prelude JsNumber JsValue ServerUtil Qargs Paging RealKey KeyBlock RrTypes RrJson ListServer DnsName RrWire RrBuild RrStored Permissions RrRest RrIndex RrNames RrService Access RestZone.

Local Open Scope Z_scope.

Definition granted_to (v : verdict bool) : bool := match v with Built b => b | _ => false end.

(** A name in a request: not empty, without a dot at its end and without the
    byte that begins the keys of record sets. *)
Definition plain_target (q : rest_request) : Prop :=
  q_target q <> ""%string /\ dot_end (q_target q) = false /\ has_char "000" (toLowerStr (q_target q)) = false.

Definition open_ok (m : index) : Prop := names_ok m /\ plain_names m.

Section Tenants.
Context `{Addresses} `{Finish} `{RestLibs} `{AuthLibs}.
Context (default_ttl : Z) (check_targets ixfr : bool) (default_name_servers : list string).
Context (parseJson : string -> option json).

(** The handlers with a session.  An exception of the check is one of the
    lookup, which [open_ok] excludes. *)
Definition rr_allowed (s : Session) (m : index) (p : permission) (k : string) : bool :=
  granted_to (isAllowed_name true m s p k).

Definition zone_allowed (s : Session) (m : index) (p : permission) (k : string) : bool :=
  granted_to (isAllowed_opts true (match p with DELETE_ZONE => true | _ => negb (String.eqb k "") end) m s p k).

Definition serve_rr (s : Session) (m : index) (q : rest_request) : option (Z * option json * index) :=
  onResourceRecord default_ttl check_targets ixfr parseJson (tenant_id_ s) (rr_allowed s m) m q.

Definition serve_zone (s : Session) (m : index) (q : rest_request) : option (Z * index) :=
  onZone default_ttl default_name_servers parseJson (tenant_id_ s) (zone_allowed s m) m q.

(** A request of one of the sessions. *)
Inductive served (who : Session -> Prop) (m m' : index) : Prop :=
| served_rr s q code v :
    who s -> plain_target q -> serve_rr s m q = Some (code, v, m') -> served who m m'
| served_zone s q code :
    who s -> plain_target q -> serve_zone s m q = Some (code, m') -> served who m m'.

(** ** The check of the owner *)

Lemma check_total validate m s p k : names_ok m -> exists b, isAllowed_opts true validate m s p k = Built b.
Proof.
  intros Hm. unfold isAllowed_opts, validateOwner. cbn [negb]. destruct validate; [|by eexists].
  destruct (lookup_path m Hm k) as [(z & soa & _ & ->)|[_ ->]]; by eexists.
Qed.

(** A name in another tenant's zone is refused. *)
Lemma refused_elsewhere validate m s p k z soa t :
  names_ok m -> path m k z soa -> z_tenant soa = Some t -> tenant_id_ s <> t -> validate = true ->
  isAllowed_opts true validate m s p k = Built false.
Proof.
  intros Hm Hp Ht Hs ->. unfold isAllowed_opts, validateOwner. cbn [negb]. rewrite (path_lookup m Hm _ _ _ Hp).
  cbn [mbind verdict_bind]. rewrite (found_soa m _ _ _ Hp), Ht. destruct (String.eqb_spec t (tenant_id_ s)); [congruence|done].
Qed.

Lemma plain_key q : plain_target q -> key_ok (toLowerStr (q_target q)) /\ has_char "000" (toLowerStr (q_target q)) = false.
Proof.
  intros (Hne & Hd & Hc). split; [|done]. split_and!; [apply lower_idem| |by rewrite dot_end_lower].
  intros E. apply String.eqb_eq in E. rewrite lower_empty in E. by apply String.eqb_eq in E.
Qed.

(** ** One request *)

(** What a request changes. *)
Inductive effect (s : Session) (m : index) (k : string) : index -> Prop :=
| no_effect : effect s m k m
| rr_effect z soa m' : path m k z soa -> z_tenant soa = Some (tenant_id_ s) -> applied m k z soa m' -> effect s m k m'
| create_effect sb :
    m !! k = None -> zone_allowed s m CREATE_ZONE k = true -> set_wf k sb -> flag_soa sb = true ->
    z_tenant sb = Some (tenant_id_ s) -> effect s m k (<[k := sb]> m)
| delete_effect soa :
    m !! k = Some soa -> flag_soa soa = true -> zone_allowed s m DELETE_ZONE k = true -> effect s m k (delete k m).

Lemma rr_served_effect s m q code v m' :
  open_ok m -> serve_rr s m q = Some (code, v, m') -> effect s m (toLowerStr (q_target q)) m'.
Proof.
  intros [Hm _] Hr. apply (request_path _ _ _ _ _ _ _ Hm) in Hr as [[-> _]|(z & soa & Hp & Ht & Ha)]; [constructor|].
  by eapply rr_effect.
Qed.

Lemma zone_served_effect s m q code m' :
  open_ok m -> plain_target q -> serve_zone s m q = Some (code, m') -> effect s m (toLowerStr (q_target q)) m'.
Proof.
  intros [Hm Hp] Hq Hr. apply onZone_cases in Hr as [[-> _]|[(_ & _ & Hal & Hn & sb & -> & Hf & Ht & Hw)|(_ & _ & Hal & He & ->)]].
  - constructor.
  - apply create_effect; [done..| |done|done]. destruct Hq as (? & Hd & ?). cbv zeta in Hw.
    assert (Eu : undotted (q_target q) = q_target q) by (unfold undotted; by rewrite Hd). rewrite Eu in Hw. by apply Hw, plain_key.
  - unfold zoneExists in He. destruct (m !! toLowerStr (q_target q)) as [soa|] eqn:E; [|done].
    rewrite (remove_apex _ _ _ Hp E). by eapply delete_effect.
Qed.

Lemma served_effect who m m' : open_ok m -> served who m m' -> exists s q, who s /\ plain_target q /\ effect s m (toLowerStr (q_target q)) m'.
Proof.
  intros Hm [s q code v Hw Hq Hr|s q code Hw Hq Hr]; exists s, q; split_and!; try done.
  - by eapply rr_served_effect.
  - by eapply zone_served_effect.
Qed.

Lemma applied_plain m k z soa m' :
  names_ok m -> path m k z soa -> applied m k z soa m' -> has_char "000" k = false -> plain_names m -> plain_names m'.
Proof.
  intros Hm Hp Happ Hk Hpl k' s' Hk'. destruct (decide (k' = k)) as [->|Hne]; [done|].
  destruct (decide (k' = z)) as [->|Hnz].
  - apply path_soa in Hp as [Hz _]. by apply (Hpl z soa).
  - rewrite (applied_other _ _ _ _ _ _ Happ Hne Hnz) in Hk'. by apply (Hpl k' s').
Qed.

Lemma effect_ok s m q m' : open_ok m -> plain_target q -> effect s m (toLowerStr (q_target q)) m' -> open_ok m'.
Proof.
  intros [Hm Hp] Hq He. destruct (plain_key q Hq) as [Hk Hc]. destruct He as [|z soa m' Hpa _ Ha|sb Hn _ Hw Hf _|soa Hz _ _].
  - done.
  - split; [by eapply applied_names|by eapply applied_plain].
  - split; apply map_Forall_insert_2; try done. split; [done|]. intros Hx. congruence.
  - split; by apply map_Forall_delete.
Qed.

(** A request of another tenant changes no name on the way to the zone. *)
Lemma effect_elsewhere s m b m' k z soa t :
  open_ok m -> effect s m k m' -> path m b z soa -> z_tenant soa = Some t -> tenant_id_ s <> t -> k <> ""%string ->
  m' !! b = m !! b.
Proof.
  intros [Hm _] He Hp Ht Hs Hk. destruct He as [|z2 soa2 m' Hp2 Ht2 Ha|sb Hn Hal Hw Hf _|soa2 Hz Hf Hal].
  - done.
  - apply (applied_other _ _ _ _ _ _ Ha).
    + intros ->. destruct (path_unique _ _ _ _ _ _ Hp Hp2) as [_ <-]. congruence.
    + intros ->. apply path_self in Hp2. destruct (path_unique _ _ _ _ _ _ Hp Hp2) as [_ <-]. congruence.
  - rewrite lookup_insert_ne; [done|]. intros ->. unfold zone_allowed in Hal.
    rewrite (refused_elsewhere _ m s CREATE_ZONE b z soa t Hm Hp Ht Hs) in Hal; [done|]. by apply negb_true_iff, String.eqb_neq.
  - rewrite lookup_delete_ne; [done|]. intros ->. unfold zone_allowed in Hal.
    by rewrite (refused_elsewhere _ m s DELETE_ZONE b z soa t Hm Hp Ht Hs) in Hal.
Qed.

Lemma served_path who m m' k z soa t :
  open_ok m -> served who m m' -> (forall s, who s -> tenant_id_ s <> t) -> path m k z soa -> z_tenant soa = Some t ->
  open_ok m' /\ path m' k z soa /\ m' !! k = m !! k.
Proof.
  intros Hm Hst Hw Hp Ht. destruct (served_effect _ _ _ Hm Hst) as (s & q & Hs & Hq & He).
  assert (Hne : toLowerStr (q_target q) <> ""%string) by by apply plain_key.
  assert (Hkeep : forall b, visits m k b -> m' !! b = m !! b).
  { intros b Hb. eapply effect_elsewhere; try done; [by eapply visits_path|by apply Hw]. }
  split_and!; [by eapply effect_ok|by eapply path_agree|]. apply Hkeep. constructor.
Qed.

(** ** What a session may change *)

Lemma effect_others s m k m' b :
  effect s m k m' -> b <> k ->
  m' !! b = m !! b \/
  exists soa soa' n, path m k b soa /\ m !! b = Some soa /\ m' !! b = Some soa' /\ zset_serial soa = Some n /\
    z_rrs soa' ≡ₚ update_soa (set_serial (next_serial n)) (z_rrs soa) /\ z_tenant soa' = z_tenant soa.
Proof.
  intros He Hb. destruct He as [|z soa m' Hp Ht Ha|sb Hn _ _ _ _|soa _ _ _].
  - by left.
  - destruct (decide (b = z)) as [->|Hz]; [|left; by apply (applied_other _ _ _ _ _ _ Ha)]. right.
    destruct Ha as [s0 n -> _ _ _ _|s0 soa' n Hzk _ _ Ht' Hn _ Hper]; [done|].
    exists soa, soa', n. split_and!; try done; [by apply path_soa in Hp as [? _]|apply lookup_insert_eq].
  - left. by rewrite lookup_insert_ne.
  - left. by rewrite lookup_delete_ne.
Qed.

Lemma allowed_granted tenant who roles s m p k :
  new_session tenant who roles = Some s -> toLowerStr k = k -> k <> ""%string ->
  zone_allowed s m p k = true \/ rr_allowed s m p k = true -> granted tenant roles p k.
Proof.
  intros Hs Hk Hne Hal. apply (name_perms_granted tenant who roles s p k Hs Hk).
  assert (Hv : forall validate, granted_to (isAllowed_opts true validate m s p k) = true -> has_perm (name_perms s k) p = true).
  { intros validate. unfold isAllowed_opts. cbn [negb].
    match goal with |- context [mbind _ ?c] => destruct c as [b| | |] end; cbn [mbind verdict_bind granted_to]; [|done..].
    by intros [_ ?]%andb_true_iff. }
  unfold zone_allowed, rr_allowed, isAllowed_name in Hal. by destruct Hal as [?%Hv|?%Hv].
Qed.

(** C11: What a session changes is permitted: when a request for a name without a
    dot at its end (plain_target; with one, C33) changes a record set of a
    well-formed index, a role of the user has a permission to create, update or
    delete and no filter, or one without limits or that covers the name of the
    request (by its fqdn, matching its regular expression or not, unlike the
    comment in nsblast.proto says, or by its pattern); every other name is as it
    was, but for the apex of that name's zone, where nothing but the serial is
    new. *)
Theorem changes_permitted tenant who roles s m q m' b :
  new_session tenant who roles = Some s -> open_ok m -> plain_target q ->
  (exists code v, serve_rr s m q = Some (code, v, m')) \/ (exists code, serve_zone s m q = Some (code, m')) ->
  m' !! b <> m !! b ->
  let k := toLowerStr (q_target q) in
  (exists p, p ∈ [CREATE_RR; UPDATE_RR; DELETE_RR; CREATE_ZONE; DELETE_ZONE] /\ granted tenant roles p k) /\
  (b = k \/
   exists soa soa' n, path m k b soa /\ m' !! b = Some soa' /\ zset_serial soa = Some n /\
     z_rrs soa' ≡ₚ update_soa (set_serial (next_serial n)) (z_rrs soa) /\ z_tenant soa' = z_tenant soa).
Proof.
  intros Hs Hm Hq Hr Hb k. destruct (plain_key q Hq) as [(Hlow & Hne & _) _]. fold k in Hlow, Hne.
  assert (Hmm : m' <> m) by congruence.
  assert (He : effect s m k m') by (destruct Hr as [(code & v & Hr)|(code & Hr)]; [by eapply rr_served_effect|by eapply zone_served_effect]).
  split.
  - destruct Hr as [(code & v & Hr)|(code & Hr)].
    + destruct (request_permitted _ _ _ _ _ _ _ (proj1 Hm) _ _ _ _ Hr Hmm) as (p & Hp & Hal). exists p. split; [set_solver|].
      eapply allowed_granted; eauto.
    + apply onZone_cases in Hr as [[-> _]|[(_ & _ & Hal & _)|(_ & _ & Hal & _)]]; [done|..]; eexists;
        (split; [|eapply allowed_granted; eauto]); set_solver.
  - destruct (decide (b = k)) as [?|Hbk]; [by left|right].
    destruct (effect_others _ _ _ _ _ He Hbk) as [?|(soa & soa' & n & ? & _ & ? & ? & ? & ?)]; [done|]. by exists soa, soa', n.
Qed.
(** ** A dot at the end *)

Lemma undotted_dot z : undotted (z +:+ ".") = z.
Proof.
  unfold undotted, dot_end. rewrite length_string_app. cbn [String.length].
  replace (String.length z + 1 - 1)%nat with (String.length z) by lia.
  rewrite get_app. cbn [Ascii.eqb Bool.eqb]. apply take_chars_app.
Qed.

(** C33: A zone created with a dot at the end of its name takes over the zone
    without: after a session has created the zone [z.], which the server takes
    for another name, any PUT of a record set below it makes the session's
    tenant the owner of [z], whoever had that zone before. *)
Theorem trailing_dot_takes_zone s m m1 m2 z q1 q2 x code v :
  key_ok z -> toLowerStr (q_target q1) = z +:+ "." ->
  serve_zone s m q1 = Some (201, m1) ->
  lookupEntryAndSoa m1 (toLowerStr (q_target q2)) = Built x -> x_soa x = m1 !! (z +:+ ".") -> isSame x = false ->
  q_method q2 = PUT -> serve_rr s m1 q2 = Some (code, v, m2) -> code < 400 ->
  exists soa, m2 !! z = Some soa /\ flag_soa soa = true /\ z_tenant soa = Some (tenant_id_ s).
Proof.
  intros Hz Hq1 Hr1 Hl Hx Hsame Hq2 Hr2 Hc.
  apply onZone_cases in Hr1 as [[_ ?]|[(_ & _ & _ & _ & sb & -> & Hf & Ht & Hw)|(? & _)]]; [lia| |done].
  rewrite Hq1, lookup_insert_eq in Hx. cbv zeta in Hw.
  assert (Eu : toLowerStr (undotted (q_target q1)) = z) by by rewrite <- undotted_lower, Hq1, undotted_dot.
  rewrite Eu in Hw. specialize (Hw Hz). destruct (wf_owner _ _ Hw) as [Ho _]; [intros E; apply flag_soas in Hf; by rewrite E in Hf|].
  destruct (next_soa_spec _ _ Hw Hf) as (soa' & n & Hns & _ & Hf' & Ht' & _).
  rewrite Hq1 in Hl, Hr2. unfold serve_rr, onResourceRecord in Hr2.
  destruct (rr_handler _ _ _ _ _ _ _ _) as [[[c w] m3]| | |] eqn:Eh; [|injection Hr2 as <- _ _; lia..|done].
  injection Hr2 as -> -> ->. unfold rr_handler in Eh. rewrite Hl in Eh. cbn [mbind verdict_bind] in Eh.
  rewrite Hx, Ht, String.eqb_refl, Hsame in Eh. cbn [negb andb] in Eh.
  unfold decide_rr in Eh. destruct (zone_length x) as [zl| | |]; try done. cbn [mbind verdict_bind] in Eh.
  rewrite expects_body, Hq2 in Eh.
  match type of Eh with context [mbind (fun s => mbind _ (checkSrv _ _ _)) ?c] => destruct c as [sb2| | |]; try done end. cbn [mbind verdict_bind] in Eh.
  match type of Eh with context [checkSrv ?a ?b ?c] => destruct (checkSrv a b c) as [[]| | |]; try done end. cbn [mbind verdict_bind] in Eh.
  unfold put_rr in Eh. rewrite Hsame in Eh. destruct (negb _); cbn [mbind verdict_bind] in Eh; [injection Eh as <- _ _; lia|].
  unfold commit_rr in Eh. rewrite Hns, Ho in Eh. cbn [mbind verdict_bind orb negb] in Eh. rewrite andb_false_r in Eh.
  injection Eh as _ _ <-. exists soa'. split_and!; [apply lookup_insert_eq|done|by rewrite Ht'].
Qed.
End Tenants.

Module TenantsDemo.
Import WireDemo RestDemo ServiceDemo AccessDemo ZoneDemo.

Lemma demo_open : open_ok demo_index.
Proof. split; [exact (store_names _ demo_ok)|exact demo_plain]. Qed.

Definition body_parser (s : string) : option json :=
  if String.eqb s "zone" then Some zone_json else if String.eqb s "body" then Some a_record else None.

Abbreviation rr_of u := (serve_rr 3600 true true body_parser (session_of u)).
Abbreviation zone_of u := (serve_zone 3600 [] body_parser (session_of u)).

(** Alice's role lets her delete a name of her tenant's zone. *)
Definition alice_deleted : index := match rr_of alice demo_index delete_net with Some (_, _, m) => m | None => demo_index end.

Lemma alice_answer : rr_of alice demo_index delete_net = Some (200, None, alice_deleted).
Proof. vm_compute. reflexivity. Qed.

(** Not so one of another tenant's. *)
Example alice_refused :
  (fun r => r.1.1) <$> rr_of alice demo_index (RestRequest DELETE "www.ex.org" "" [] "") = Some 403.
Proof. vm_compute. reflexivity. Qed.

(** Nor can Bob create a zone below it, though his role is for all names. *)
Example bob_refused : fst <$> zone_of bob demo_index (RestRequest POST "sub.ex.org" "" [] "zone") = Some 403.
Proof. vm_compute. reflexivity. Qed.

Lemma isAllowed_policy_witness :
  isAllowed_name true demo_index (session_of alice) DELETE_RR "www.ex.net" = Built true <->
  zone_open demo_index "t2" DELETE_RR "www.ex.net" /\ granted t2 ["net"%string] DELETE_RR "www.ex.net".
Proof.
  refine (isAllowed_policy t2 "alice" ["net"%string] (session_of alice) demo_index DELETE_RR "www.ex.net" alice_session eq_refl _).
  discriminate.
Defined.


Lemma changes_permitted_witness :
  (exists p, p ∈ [CREATE_RR; UPDATE_RR; DELETE_RR; CREATE_ZONE; DELETE_ZONE] /\ granted t2 ["net"%string] p "www.ex.net") /\
  ("www.ex.net"%string = "www.ex.net"%string \/
   exists soa soa' n, path demo_index "www.ex.net" "www.ex.net" soa /\ alice_deleted !! "www.ex.net"%string = Some soa' /\
     zset_serial soa = Some n /\ z_rrs soa' ≡ₚ update_soa (set_serial (next_serial n)) (z_rrs soa) /\ z_tenant soa' = z_tenant soa).
Proof.
  refine (changes_permitted 3600 true true [] body_parser t2 "alice" ["net"%string] (session_of alice) demo_index delete_net
            alice_deleted "www.ex.net" alice_session demo_open _ (or_introl _) _).
  - by repeat split.
  - exists 200, None. exact alice_answer.
  - vm_compute. discriminate.
Defined.

(** Bob takes the other tenant's zone. *)
Definition dotted_zone : rest_request := RestRequest POST "ex.org." "" [] "zone".
Definition dotted_name : rest_request := RestRequest PUT "any.ex.org." "" [] "body".
Definition dotted1 : index := match zone_of bob demo_index dotted_zone with Some (_, m) => m | None => demo_index end.
Definition dotted2 : index := match rr_of bob dotted1 dotted_name with Some (_, _, m) => m | None => dotted1 end.

Lemma dotted_created : zone_of bob demo_index dotted_zone = Some (201, dotted1).
Proof. vm_compute. reflexivity. Qed.

Lemma dotted_put : rr_of bob dotted1 dotted_name = Some (201, None, dotted2).
Proof. vm_compute. reflexivity. Qed.

Lemma trailing_dot_takes_zone_witness :
  z_tenant <$> demo_index !! "ex.org"%string = Some (Some "t1"%string) /\
  exists soa, dotted2 !! "ex.org"%string = Some soa /\ flag_soa soa = true /\ z_tenant soa = Some "t2"%string.
Proof.
  split; [vm_compute; reflexivity|].
  refine (trailing_dot_takes_zone 3600 true true [] body_parser (session_of bob) demo_index dotted1 dotted2 "ex.org" dotted_zone
            dotted_name (Existing None (dotted1 !! "ex.org."%string)) 201 None _ eq_refl dotted_created _ _ eq_refl eq_refl dotted_put _).
  - split_and!; [reflexivity|discriminate|reflexivity].
  - vm_compute. reflexivity.
  - vm_compute. reflexivity.
  - lia.
Defined.
End TenantsDemo.
