(* ===== verification/Accounts.v ===== *)
(** * The accounts of the server: AuthMgr's index of zones

    Beside the record sets, the server keeps a category of accounts: the
    tenants, and for every zone created through /zone its entry and its place
    in the list of the tenant's zones (AuthMgr::addZone, deleteZone,
    updateZoneRrIx).  The handlers of /zone and /rr write both in one
    transaction.  Here is the whole of it: whatever requests are served, a
    tenant's list in the accounts has the zones the tenant owns in the index,
    and so has the page of zones in the browser.  The one exception is a zone
    created for another tenant (the argument tenant of a request). *)

From stdpp Require Import gmap sorting.
From S2P Require Import Prelude JsNumber JsValue JsonStore Http AppState ServerUtil Qargs Paging RealKey KeyBlock RrTypes RrJson ListServer DnsName RrWire RrBuild RrStored Permissions RrRest RrIndex RrNames RrService Access AccountDb Zones RrForm RrEdit EndToEnd RrServed Shown Dialogs RestZone Tenants.

Local Open Scope Z_scope.

(** ** The zones in the accounts *)

(** The recursive remove of Transaction, in this category. *)
Definition remove_accounts (key : string) (a : accounts) : accounts :=
  let gone := remove_loop key (List.filter (String.leb key) (merge_sort String.le (map_to_list a).*1)) in
  base.filter (fun ka => ka.1 ∉ gone) a.

Definition updateZoneRrIx (a : accounts) (fqdn : string) (zoneLen : nat) (update : bool) : accounts :=
  let zone := if Nat.eqb zoneLen 0 then fqdn else take_chars zoneLen fqdn in
  let key := zrr_key zone fqdn in
  if update then <[key := AText ""]> a
  else if Nat.eqb zoneLen 0 then remove_accounts (init_key zone ZRR) a
  else delete key a.

(** [id] is the new UUID. *)
Definition addZone (m : index) (a : accounts) (fqdn tenant id : string) : option accounts :=
  a ← write_account m a (zone_key fqdn) (AZone (Pb.MkZone (Some id) (Some tenant) (Some Pb.ACTIVE))) true;
  a ← write_account m a (tzone_key tenant fqdn) (AText fqdn) true;
  Some (updateZoneRrIx a fqdn 0 true).

Definition deleteZone (a : accounts) (fqdn tenant : string) : verdict accounts :=
  zone ← get_zone a (zone_key fqdn);
  match zone with
  | None => Built a
  | Some _ => Built (updateZoneRrIx (delete (tzone_key tenant fqdn) (delete (zone_key fqdn) a)) fqdn 0 true)
  end.

(** ** The session of a request *)

(** What getSessionAndTenant returns: a response, or the session, the tenant
    and whether all tenants are meant. *)
Inductive caller : Type :=
| Answered (code : Z)
| Calling (s : Session) (tenant : Pb.Tenant) (all : bool).

Definition setTenantId (s : Session) (id : string) : Session :=
  MkSession (tenant_ s) (who_ s) id (non_zone_perms_ s) (roles_ s).

Section Caller.
Context `{AuthLibs} (has_auth : bool).

Definition calling (a : accounts) (s : Session) (tenant_id : string) (all : bool) : verdict caller :=
  t ← getTenant a tenant_id;
  Built match t with Some t => Calling s t all | None => Answered 404 end.

Definition getSessionAndTenant (a : accounts) (s : Session) (args : list (string * string)) (allowAll : bool)
    : verdict caller :=
  match assoc_get "tenant" args with
  | Some impersonate =>
      if isAllowed has_auth s IMPERSONATE_TENANT then
        if allowAll && String.eqb impersonate "*" then calling a s (tenant_ s) true
        else
          let tenant_id := toLowerStr impersonate in
          id ← or_failed (parse_uuid tenant_id);
          calling a (setTenantId s id) tenant_id false
      else Built (Answered 403)
  | None => calling a s (tenant_ s) false
  end.
End Caller.

(** ** The handlers *)

Record db : Type := Db { entries : index; accts : accounts }.

Section Handlers.
Context `{Addresses} `{Finish} `{RestLibs} `{AuthLibs}.
Context (default_ttl : Z) (check_targets ixfr : bool) (default_name_servers : list string).
Context (parseJson : string -> option json).

(** What onZone writes to the accounts before it commits, or the response that
    becomes of an exception (include/nsblast/errors.h). *)
Definition zone_accounts (m' : index) (a : accounts) (s : Session) (q : rest_request) (code : Z) (id : string)
    : accounts + Z :=
  let key := toLowerStr (q_target q) in
  match q_method q with
  | POST =>
      if code =? 201 then match addZone m' a key (tenant_ s) id with Some a => inl a | None => inr 409 end
      else inl a
  | DELETE =>
      if code =? 200 then match deleteZone a key (tenant_ s) with Built a => inl a | _ => inr 500 end
      else inl a
  | _ => inl a
  end.

Definition on_zone (d : db) (s : Session) (q : rest_request) (id : string) : option (Z * db) :=
  match getSessionAndTenant true (accts d) s (q_args q) false with
  | Built (Answered code) => Some (code, d)
  | Built (Calling s _ _) =>
      match serve_zone default_ttl default_name_servers parseJson s (entries d) q with
      | Some (code, m') =>
          match zone_accounts m' (accts d) s q code id with
          | inl a => Some (code, Db m' a)
          | inr error => Some (error, d)
          end
      | None => None
      end
  | Refused => Some (400, d)
  | Failed => Some (500, d)
  | Undefined => None
  end.

(** soa_zone_len of onResourceRecord. *)
Definition soa_zone_len (m : index) (key : string) : nat :=
  match (x ← lookupEntryAndSoa m key; zone_length x) with Built n => n | _ => O end.

(** The accounts after onResourceRecord: need_to_update_zrr is true for a set
    that was written, false for one that was removed, and unset for one that
    DELETE of a type has left. *)
Definition rr_accounts (m m' : index) (a : accounts) (q : rest_request) (code : Z) : accounts :=
  let key := toLowerStr (q_target q) in
  if code <? 400 then
    match q_method q with
    | GET => a
    | DELETE => match m' !! key with Some _ => a | None => updateZoneRrIx a key (soa_zone_len m key) false end
    | _ => updateZoneRrIx a key (soa_zone_len m key) true
    end
  else a.

Definition on_rr (d : db) (s : Session) (q : rest_request) : option (Z * option json * db) :=
  match getSessionAndTenant true (accts d) s (q_args q) false with
  | Built (Answered code) => Some (code, None, d)
  | Built (Calling s _ _) =>
      match serve_rr default_ttl check_targets ixfr parseJson s (entries d) q with
      | Some (code, v, m') => Some (code, v, Db m' (rr_accounts (entries d) m' (accts d) q code))
      | None => None
      end
  | Refused => Some (400, None, d)
  | Failed => Some (500, None, d)
  | Undefined => None
  end.
End Handlers.

Lemma addZone_some m a k t id :
  addZone m a k t id = Some (<[zrr_key k k := AText ""]> (<[tzone_key t k := AText k]>
    (<[zone_key k := AZone (Pb.MkZone (Some id) (Some t) (Some Pb.ACTIVE))]> a))).
Proof.
  unfold addZone. rewrite (write_account_new _ _ _ _ _ ZONE) by (done || apply init_class). cbn [mbind option_bind].
  by rewrite (write_account_new _ _ _ _ _ TZONE) by (done || apply init_class).
Qed.

(** An update of the entries of a zone's names, but for the removal of all of them. *)
Lemma updateZoneRrIx_frame a k n update key :
  update = true \/ n <> O -> ~ of_class ZRR key -> updateZoneRrIx a k n update !! key = a !! key.
Proof.
  intros Hn Hc. assert (Hk : forall z, zrr_key z k <> key) by (intros z <-; apply Hc; by eexists).
  unfold updateZoneRrIx. destruct update; [by apply lookup_insert_ne|]. destruct Hn as [?|Hn]; [done|].
  apply Nat.eqb_neq in Hn. rewrite Hn. by apply lookup_delete_ne.
Qed.

(** ** The lists of zones *)

(** The owner of a zone in the index. *)
Definition owned (m : index) (z u : string) : Prop := exists s, m !! z = Some s /\ z_tenant s = Some u.

Section Lists.
Context `{AuthLibs}.

(** The ids of the server's tenants: in lower case and without a slash, as
    createTenant makes them of UUIDs, and not two of the same UUID. *)
Class TenantIds (known : string -> Prop) : Prop := {
  ids_plain t : known t -> has_char "/" t = false /\ toLowerStr t = t;
  ids_uuid t : known t -> is_Some (parse_uuid t);
  ids_differ t t' u : known t -> known t' -> parse_uuid t = Some u -> parse_uuid t' = Some u -> t = t'
}.

Context (known : string -> Prop) `{TenantIds known}.

(** The accounts list the zones of the owners [own]. *)
Record lists_zones (own : string -> string -> Prop) (a : accounts) : Prop := {
  lz_owned z u : own z u -> exists t id, known t /\ parse_uuid t = Some u /\ a !! tzone_key t z = Some (AText z) /\
    a !! zone_key z = Some (AZone (Pb.MkZone (Some id) (Some t) (Some Pb.ACTIVE)));
  lz_tzone r v : a !! String (class_byte TZONE) r = Some v ->
    exists t z u, r = concat_key t z /\ known t /\ parse_uuid t = Some u /\ own z u;
  lz_zone z v : a !! zone_key z = Some v -> exists u, own z u
}.

Lemma lists_frame own own' a a' :
  lists_zones own a -> (forall z u, own z u <-> own' z u) ->
  (forall key, ~ of_class ZRR key -> a' !! key = a !! key) -> lists_zones own' a'.
Proof.
  intros [Ho Ht Hz] Hown Ha.
  assert (Hk : forall c r, c = ZONE \/ c = TZONE -> a' !! String (class_byte c) r = a !! String (class_byte c) r).
  { intros c r Hc. apply Ha. intros [r' E]. by destruct Hc as [-> | ->]. }
  assert (Hkt : forall t z, a' !! tzone_key t z = a !! tzone_key t z) by (intros; apply (Hk TZONE); auto).
  assert (Hkz : forall z, a' !! zone_key z = a !! zone_key z) by (intros; apply (Hk ZONE); auto).
  split.
  - intros z u Hu%Hown%Ho. by setoid_rewrite Hkt; setoid_rewrite Hkz.
  - intros r v Hv. rewrite Hk in Hv by auto. apply Ht in Hv as (t & z & u & ? & ? & ? & ?). exists t, z, u. by rewrite <- Hown.
  - intros z v Hv. rewrite Hkz in Hv. apply Hz in Hv as [u ?]. exists u. by rewrite <- Hown.
Qed.

(** Names of a zone in keys of different kinds. *)
Lemma tzone_not_zone t z z' : tzone_key t z <> zone_key z'.
Proof. done. Qed.

Lemma lists_add own own' m a a' k t u id :
  lists_zones own a -> (forall v, ~ own k v) -> known t -> parse_uuid t = Some u ->
  (forall z v, own' z v <-> own z v \/ z = k /\ v = u) -> addZone m a k t id = Some a' -> lists_zones own' a'.
Proof.
  intros [Ho Ht Hz] Hk Ht1 Hu Hown. rewrite addZone_some. intros [= <-]. destruct (ids_plain t Ht1) as [Hp _].
  apply (lists_frame own' own' (<[tzone_key t k := AText k]>
    (<[zone_key k := AZone (Pb.MkZone (Some id) (Some t) (Some Pb.ACTIVE))]> a)));
    [|done|intros key Hc; apply lookup_insert_ne; intros <-; apply Hc; by eexists].
  split.
  - intros z v [Hv|[-> ->]]%Hown.
    + destruct (Ho _ _ Hv) as (t1 & id1 & Hk1 & Hu1 & Ha1 & Ha2). exists t1, id1.
      assert (Hzk : z <> k) by (intros ->; by apply Hk in Hv). split_and!; [done|done|..].
      * rewrite lookup_insert_ne; [by rewrite lookup_insert_ne|]. intros [_ ?]%tzone_key_inj; [done|done|by apply ids_plain].
      * rewrite lookup_insert_ne, lookup_insert_ne; [done| |done]. by intros ?%init_key_inj.
    + exists t, id. split_and!; [done|done|apply lookup_insert_eq|]. rewrite lookup_insert_ne by done. apply lookup_insert_eq.
  - intros r v [[E _]|[_ Hv]]%lookup_insert_Some.
    + exists t, k, u. split_and!; [|done|done|apply Hown; by right]. unfold tzone_key, init_key in E. cbn [isReversed] in E. congruence.
    + rewrite lookup_insert_ne in Hv by done. apply Ht in Hv as (t1 & z1 & u1 & ? & ? & ? & ?). exists t1, z1, u1.
      split_and!; [done..|]. apply Hown. by left.
  - intros z v. rewrite lookup_insert_ne by done. intros [[E _]|[_ Hv]]%lookup_insert_Some.
    + apply init_key_inj in E as <-. exists u. apply Hown. by right.
    + apply Hz in Hv as [u1 ?]. exists u1. apply Hown. by left.
Qed.

Lemma lists_del own own' a a' k t u :
  lists_zones own a -> known t -> parse_uuid t = Some u -> (forall v, own k v -> v = u) ->
  (forall z v, own' z v <-> own z v /\ z <> k) -> deleteZone a k t = Built a' -> lists_zones own' a'.
Proof.
  intros Hl Ht1 Hu Hk Hown Hd. assert (Hl' := Hl). destruct Hl' as [Ho Ht Hz].
  destruct (ids_plain t Ht1) as [Hp _]. unfold deleteZone, get_zone in Hd.
  destruct (a !! zone_key k) as [v|] eqn:Ek.
  - destruct v as [zn| |]; try done. injection Hd as <-.
    assert (Hku : own k u) by (apply Hz in Ek as [v ?]; by rewrite <- (Hk v)).
    destruct (Ho _ _ Hku) as (t0 & _ & Hk0 & Hu0 & _). assert (t0 = t) as -> by by eapply ids_differ.
    apply (lists_frame own' own' (delete (tzone_key t k) (delete (zone_key k) a)));
      [|done|intros key Hc; apply lookup_insert_ne; intros <-; apply Hc; by eexists].
    split.
    + intros z v [Hv Hzk]%Hown. destruct (Ho _ _ Hv) as (t1 & id1 & Hk1 & Hu1 & Ha1 & Ha2). exists t1, id1.
      split_and!; [done|done|..].
      * rewrite lookup_delete_ne; [by rewrite lookup_delete_ne|]. intros [_ ?]%tzone_key_inj; [done|done|by apply ids_plain].
      * rewrite lookup_delete_ne, lookup_delete_ne; [done| |done]. by intros ?%init_key_inj.
    + intros r v [Hr Hv]%lookup_delete_Some. rewrite lookup_delete_ne in Hv by done.
      apply Ht in Hv as (t1 & z1 & u1 & -> & Hk1 & Hu1 & Hown1). exists t1, z1, u1. split_and!; [done..|]. apply Hown.
      split; [done|]. intros ->. apply Hr. rewrite (Hk _ Hown1) in Hu1. by rewrite (ids_differ t1 t u).
    + intros z v. rewrite lookup_delete_ne by done. intros [Hr Hv]%lookup_delete_Some.
      apply Hz in Hv as [u1 Hown1]. exists u1. apply Hown. split; [done|]. by intros ->.
  - injection Hd as <-. apply (lists_frame own own' a a); [done| |done]. intros z v. rewrite Hown.
    split; [|by intros []]. intros Hv. split; [done|]. intros ->.
    destruct (Ho _ _ Hv) as (? & ? & _ & _ & _ & E). congruence.
Qed.
End Lists.

(** ** Histories of requests *)

(** Sets with an owner are zones. *)
Definition owners_zones (m : index) : Prop := forall k s u, m !! k = Some s -> z_tenant s = Some u -> flag_soa s = true.

Lemma applied_owned m k z soa m' :
  names_ok m -> owners_zones m -> path m k z soa -> applied m k z soa m' ->
  owners_zones m' /\ forall b u, owned m b u <-> owned m' b u.
Proof.
  intros Hm Ho Hp Ha. destruct (applied_serial _ _ _ _ _ Ha) as (soa' & n & Hz' & _ & Hn & _). apply serial_flag in Hn.
  assert (Hown : forall b u, owned m b u <-> owned m' b u).
  { intros b u. split.
    - intros (s & Hs & Hu). assert (Hf := Ho _ _ _ Hs Hu).
      assert (is_Some (m' !! b)) as [s' Hs'].
      { destruct (decide (b = z)) as [->|Hbz]; [by eexists|].
        destruct (decide (b = k)) as [->|Hbk]; [|rewrite (applied_other _ _ _ _ _ _ Ha Hbk Hbz); by eexists].
        rewrite (path_below _ _ _ _ _ Hp (fun E => Hbz (eq_sym E)) Hs) in Hf. done. }
      exists s'. split; [done|]. rewrite (applied_tenant _ _ _ _ _ _ _ Hp Ha Hs'), Hs. done.
    - intros (s' & Hs' & Hu). rewrite (applied_tenant _ _ _ _ _ _ _ Hp Ha Hs') in Hu.
      destruct (m !! b) as [s|] eqn:Hs; [|done]. by exists s. }
  split; [|done]. intros b s' u Hs' Hu. destruct (proj2 (Hown b u)) as (s & Hs & Hu0); [by exists s'|].
  assert (Hf := Ho _ _ _ Hs Hu0). destruct (decide (b = z)) as [->|Hbz]; [congruence|].
  destruct (decide (b = k)) as [->|Hbk]; [|rewrite (applied_other _ _ _ _ _ _ Ha Hbk Hbz) in Hs'; congruence].
  rewrite (path_below _ _ _ _ _ Hp (fun E => Hbz (eq_sym E)) Hs) in Hf. done.
Qed.

Section History.
Context `{Addresses} `{Finish} `{RestLibs} `{AuthLibs}.
Context (default_ttl : Z) (check_targets ixfr : bool) (default_name_servers : list string).
Context (parseJson : string -> option json).
Context (known : string -> Prop) {ids : TenantIds known}.

Abbreviation zone_served := (serve_zone default_ttl default_name_servers parseJson).
Abbreviation rr_served := (serve_rr default_ttl check_targets ixfr parseJson).
Abbreviation on_zone' := (on_zone default_ttl default_name_servers parseJson).
Abbreviation on_rr' := (on_rr default_ttl check_targets ixfr parseJson).

(** What AuthMgr keeps of the zones is what the index has. *)
Record db_ok (d : db) : Prop := {
  db_open : open_ok (entries d);
  db_owners : owners_zones (entries d);
  db_lists : lists_zones known (owned (entries d)) (accts d)
}.

(** A session of one of the tenants. *)
Definition session_for (s : Session) : Prop := known (tenant_ s) /\ parse_uuid (tenant_ s) = Some (tenant_id_ s).

Lemma new_session_for tenant who roles s :
  new_session tenant who roles = Some s -> known (Pb.tenant_id tenant) -> session_for s.
Proof. unfold new_session. destruct (parse_uuid _) as [id|] eqn:E; [|done]. by intros [= <-]. Qed.

(** A request for the session's own tenant. *)
Definition own_request (q : rest_request) : Prop := assoc_get "tenant" (q_args q) = None.

Inductive db_step (d d' : db) : Prop :=
| step_rr s q code v :
    session_for s -> plain_target q -> own_request q -> on_rr' d s q = Some (code, v, d') -> db_step d d'
| step_zone s q id code :
    session_for s -> plain_target q -> own_request q -> on_zone' d s q id = Some (code, d') -> db_step d d'.

Lemma own_caller a s q allowAll :
  own_request q ->
  (exists t, getSessionAndTenant true a s (q_args q) allowAll = Built (Calling s t false)) \/
  getSessionAndTenant true a s (q_args q) allowAll = Built (Answered 404) \/
  getSessionAndTenant true a s (q_args q) allowAll = Failed.
Proof.
  unfold own_request, getSessionAndTenant, calling, getTenant, get_tenant. intros ->.
  destruct (a !! _) as [[|t|]|]; cbn [mbind verdict_bind]; eauto.
Qed.

(** A request of /rr that is served for its session. *)
Lemma on_rr_own d s q r :
  own_request q -> on_rr' d s q = Some r -> r.2 = d \/
  exists code v m', r = (code, v, Db m' (rr_accounts (entries d) m' (accts d) q code)) /\
    rr_served s (entries d) q = Some (code, v, m').
Proof.
  intros Hq. unfold on_rr. destruct (own_caller (accts d) s q false Hq) as [[t ->]|[-> | ->]]; [|by intros [= <-]; left..].
  destruct (rr_served s (entries d) q) as [[[code v] m']|]; [|done]. intros [= <-]. right. by exists code, v, m'.
Qed.

Lemma on_zone_own d s q id code d' :
  own_request q -> on_zone' d s q id = Some (code, d') -> d' = d \/
  exists m' a, d' = Db m' a /\ zone_served s (entries d) q = Some (code, m') /\
    zone_accounts m' (accts d) s q code id = inl a.
Proof.
  intros Hq. unfold on_zone. destruct (own_caller (accts d) s q false Hq) as [[t ->]|[-> | ->]]; [|by intros [= _ <-]; left..].
  destruct (zone_served s (entries d) q) as [[c m']|]; [|done].
  destruct (zone_accounts m' (accts d) s q c id) as [a|e] eqn:E; intros [= <- <-]; [right|by left].
  by exists m', a.
Qed.

Lemma db_eta d : Db (entries d) (accts d) = d.
Proof. by destruct d. Qed.

Lemma rr_db_ok d s q code v d' :
  db_ok d -> plain_target q -> own_request q -> on_rr' d s q = Some (code, v, d') -> db_ok d'.
Proof.
  intros [Hm Hown Hl] Hq Ho Hr. destruct (on_rr_own d s q _ Ho Hr) as [E|(c & w & m' & [= -> -> ->] & Hs)]; [by cbn in E; subst d'|].
  clear Hr. set (k := toLowerStr (q_target q)).
  assert (Heff := rr_served_effect _ _ _ _ s _ _ _ _ _ Hm Hs).
  assert (Hm' : open_ok m') by (by eapply effect_ok in Heff).
  apply (request_path _ _ _ _ _ _ _ (proj1 Hm)) in Hs as [[-> Hc]|(z & soa & Hp & _ & Ha)].
  { assert (E : rr_accounts (entries d) (entries d) (accts d) q c = accts d).
    { unfold rr_accounts. destruct (Z.ltb_spec c 400); [|done]. destruct Hc as [[_ ->]|?]; [done|lia]. }
    rewrite E, db_eta. by split. }
  fold k in Hp, Ha. destruct (applied_owned _ _ _ _ _ (proj1 Hm) Hown Hp Ha) as [Hown' Hiff]. split; [done|done|].
  eapply lists_frame; [exact Hl|exact Hiff|]. intros key Hkey. cbn [accts]. unfold rr_accounts. fold k.
  destruct (c <? 400); [|done]. destruct (q_method q); try done; try (apply updateZoneRrIx_frame; by auto).
  destruct (m' !! k) as [s'|] eqn:Ek; [done|]. apply updateZoneRrIx_frame; [|done]. right.
  unfold soa_zone_len. rewrite (path_lookup _ (proj1 Hm) _ _ _ Hp). cbn [mbind verdict_bind].
  rewrite (found_zone_length _ _ _ _ (proj1 Hm) Hp). destruct (String.eqb_spec z k) as [->|_].
  - destruct (applied_serial _ _ _ _ _ Ha) as (? & _ & ? & _). congruence.
  - assert (Hw := path_wf _ (proj1 Hm) _ _ _ Hp). destruct (wf_key _ _ Hw) as (_ & Hne & _). by destruct z.
Qed.

(** Who deletes a zone has it, if it has an owner. *)
Lemma deleted_owned s m k soa u :
  open_ok m -> m !! k = Some soa -> flag_soa soa = true -> zone_allowed s m DELETE_ZONE k = true ->
  owned m k u -> u = tenant_id_ s.
Proof.
  intros Hm Hk Hf Hal (soa' & Hk' & Hu). rewrite Hk in Hk'. injection Hk' as <-.
  destruct (decide (u = tenant_id_ s)) as [|Hne]; [done|exfalso]. unfold zone_allowed in Hal.
  rewrite (refused_elsewhere _ m s DELETE_ZONE k k soa u) in Hal; [done|apply Hm|by constructor|done|by intros ?|done].
Qed.

Lemma owned_insert m k sb z v :
  m !! k = None -> owned (<[k := sb]> m) z v <-> owned m z v \/ z = k /\ z_tenant sb = Some v.
Proof.
  intros Hk. unfold owned. split.
  - intros (s & [[<- <-]|[Hne Hs]]%lookup_insert_Some & Hv); [by right|left; by exists s].
  - intros [(s & Hs & Hv)|[-> Hv]].
    + exists s. split; [|done]. apply lookup_insert_Some. right. split; [|done]. intros ->. congruence.
    + exists sb. split; [apply lookup_insert_eq|done].
Qed.

Lemma owned_delete m k z v : owned (delete k m) z v <-> owned m z v /\ z <> k.
Proof.
  unfold owned. split.
  - intros (s & [Hne Hs]%lookup_delete_Some & Hv). split; [by exists s|by intros ->].
  - intros [(s & Hs & Hv) Hne]. exists s. split; [|done]. by apply lookup_delete_Some.
Qed.

Lemma zone_db_ok d s q id code d' :
  db_ok d -> session_for s -> plain_target q -> own_request q -> on_zone' d s q id = Some (code, d') -> db_ok d'.
Proof.
  intros [Hm Hown Hl] [Hk Hu] Hq Ho Hr.
  destruct (on_zone_own d s q id _ _ Ho Hr) as [->|(m' & a & -> & Hs & Hacc)]; [by split|]. clear Hr.
  assert (Heff := zone_served_effect _ _ _ s _ _ _ _ Hm Hq Hs).
  assert (Hm' : open_ok m') by (by eapply effect_ok in Heff).
  apply onZone_cases in Hs as [[-> Hc]|[(-> & Hpost & _ & Hn & sb & -> & Hf & Ht & _)|(-> & Hdel & Hal & He & ->)]].
  - assert (E : zone_accounts (entries d) (accts d) s q code id = inl (accts d)).
    { unfold zone_accounts. rewrite !(proj2 (Z.eqb_neq _ _)) by lia. by destruct (q_method q). }
    rewrite E in Hacc. injection Hacc as <-. by split.
  - unfold zone_accounts in Hacc. rewrite Hpost in Hacc. cbn [Z.eqb Pos.eqb] in Hacc.
    destruct (addZone _ _ _ _ _) as [a1|] eqn:Ea; [|done]. injection Hacc as ->. split; [done| |].
    + intros b s' u. cbn [entries]. intros [[<- <-]|[_ Hb]]%lookup_insert_Some; [done|by apply (Hown b)].
    + eapply (lists_add known); [exact Hl| |exact Hk|exact Hu| |exact Ea].
      * intros v (s' & Hs' & _). congruence.
      * intros z v. cbn [entries]. rewrite owned_insert, Ht by done. split; (intros [?|[-> ?]]; [by left|right; split; congruence]).
  - set (k := toLowerStr (q_target q)) in *. unfold zoneExists in He. destruct (entries d !! k) as [soa|] eqn:Ek; [|done].
    assert (Er : remove_recursive k (entries d) = delete k (entries d)) by (by eapply remove_apex; [apply Hm|]).
    rewrite Er in *. unfold zone_accounts in Hacc. rewrite Hdel in Hacc. cbn [Z.eqb Pos.eqb] in Hacc. fold k in Hacc.
    destruct (deleteZone _ _ _) as [a1| | |] eqn:Ea; try done. injection Hacc as ->. split; [done| |].
    + intros b s' u. cbn [entries]. intros [_ Hb]%lookup_delete_Some. by apply (Hown b).
    + eapply (lists_del known); [exact Hl|exact Hk|exact Hu| |apply owned_delete|exact Ea].
      intros v Hv. by apply (deleted_owned s (entries d) k soa v).
Qed.

Lemma history_ok d d' : db_ok d -> rtc db_step d d' -> db_ok d'.
Proof.
  intros Hd Hs. induction Hs as [|d1 d2 d3 [s q code v ? ? ? Hr|s q id code ? ? ? Hr] _ IH]; [done|..]; apply IH.
  - by eapply rr_db_ok.
  - by eapply zone_db_ok.
Qed.
End History.

(** ** The list of zones in the browser *)

(** The records of the accounts, in the order of their keys. *)
Definition account_records (a : accounts) : list (string * account) :=
  merge_sort key_le (map_to_list a).

Definition of_accounts (contents : list (string * account)) (a : accounts) : Prop :=
  forall key v, (key, v) ∈ contents <-> a !! key = Some v.

Lemma account_records_of a : of_accounts (account_records a) a.
Proof. intros key v. unfold account_records. by rewrite merge_sort_Permutation, elem_of_map_to_list. Qed.

(** The zones an owner has in the index. *)
Definition owned_zones (m : index) (u : string) : list string :=
  (base.filter (fun ks => z_tenant ks.2 = Some u) (map_to_list m)).*1.

Lemma owned_zones_elem m u z : z ∈ owned_zones m u <-> owned m z u.
Proof.
  unfold owned_zones, owned. rewrite list_elem_of_fmap. split.
  - intros ([k s] & -> & [Hu Hk]%list_elem_of_filter). exists s. by apply elem_of_map_to_list in Hk.
  - intros (s & Hs & Hu). exists (z, s). split; [done|]. apply list_elem_of_filter. split; [done|]. by apply elem_of_map_to_list.
Qed.

Lemma owned_zones_nodup m u : NoDup (owned_zones m u).
Proof.
  assert (Hn := NoDup_fst_map_to_list m). unfold owned_zones. revert Hn.
  generalize (map_to_list m). intros l. induction l as [|x l IH]; [done|]. rewrite fmap_cons, filter_cons.
  intros [Hx Hl]%NoDup_cons. destruct (decide _); [|by apply IH]. rewrite fmap_cons. apply NoDup_cons. split; [|by apply IH].
  intros Hin. apply Hx. apply list_elem_of_fmap in Hin as (y & -> & [_ Hy]%list_elem_of_filter). apply list_elem_of_fmap. by exists y.
Qed.

Section Listed.
Context `{AuthLibs} (known : string -> Prop) {ids : TenantIds known}.
Context (d : db) (contents : list (string * account)).
Hypothesis Hd : db_ok known d.
Hypothesis Hc : of_accounts contents (accts d).

Lemma owned_valid z u : owned (entries d) z u -> validateFqdn z = true.
Proof.
  intros (s & Hs & Hu). destruct (db_open _ _ Hd) as [Hm _]. destruct (Hm _ _ Hs) as [Hw _].
  destruct (zone_dns _ _ Hw (db_owners _ _ Hd _ _ _ Hs Hu)) as [Ht Hw'].
  destruct (wf_key _ _ Hw) as (_ & Hne & _). by apply (written_valid z).
Qed.

(** A key of the class of the tenants' zones. *)
Lemma tzone_record key v : (key, v) ∈ contents -> isSameKeyClass (tzone_key "" "") key = true ->
  exists t z u, key = tzone_key t z /\ known t /\ parse_uuid t = Some u /\ owned (entries d) z u.
Proof.
  intros Hin Hk. destruct key as [|c r]; [done|]. cbn in Hk. apply Ascii.eqb_eq in Hk as <-.
  apply Hc in Hin. apply (lz_tzone _ _ _ (db_lists _ _ Hd)) in Hin as (t & z & u & -> & ? & ? & ?). by exists t, z, u.
Qed.

Lemma accounts_tenant_index t : known t -> tenant_index contents t.
Proof.
  intros Ht. destruct (ids_plain t Ht) as [Hp Hl]. split; [done|done|]. intros [key v] Hr Hk.
  apply tzone_record in Hr as (t1 & z & u & E & Ht1 & Hu & Hz); [|exact Hk]. exists t1, z. cbn [fst].
  destruct (ids_plain t1 Ht1). split_and!; [done..|]. by eapply owned_valid.
Qed.

Lemma tenant_zones_elem t u z : known t -> parse_uuid t = Some u -> z ∈ tenant_zones contents t <-> owned (entries d) z u.
Proof.
  intros Ht Hu. unfold tenant_zones. rewrite list_elem_of_fmap. split.
  - intros (r & -> & Hr). destruct (tenant_record contents t (accounts_tenant_index t Ht) r Hr) as [Ek _].
    unfold tenant_records in Hr. apply list_elem_of_In, filter_In in Hr as [Hr _]. apply list_elem_of_In in Hr.
    destruct r as [key v]. cbn [fst] in *. destruct (tzone_record key v Hr) as (t1 & z1 & u1 & E & Ht1 & Hu1 & Hz); [by rewrite Ek|].
    rewrite E in Ek |- *. apply tzone_key_inj in Ek as [<- E2]; [|by apply ids_plain..].
    rewrite tzone_key_parts in E2 |- * by by apply ids_plain. congruence.
  - intros Hz. destruct (lz_owned _ _ _ (db_lists _ _ Hd) _ _ Hz) as (t1 & id & Ht1 & Hu1 & Ha & _).
    assert (t1 = t) as -> by by eapply ids_differ. apply Hc in Ha. exists (tzone_key t z, AText z). cbn [fst].
    rewrite tzone_key_parts by by apply ids_plain. split; [done|]. unfold tenant_records.
    apply list_elem_of_In, filter_In. split; [by apply list_elem_of_In|]. cbn [fst]. unfold tenant_zone.
    rewrite tzone_key_app. apply prefix_spec. by eexists.
Qed.

Lemma tenant_zones_owned `{kv : KvStore account} (pos : cursor -> option nat) {laws : KvStoreLaws kv contents pos} t u :
  known t -> parse_uuid t = Some u -> tenant_zones contents t ≡ₚ owned_zones (entries d) u.
Proof.
  intros Ht Hu. apply NoDup_Permutation; [|apply owned_zones_nodup|].
  - assert (Hn := @item_key_nodup _ _ (zone_server_laws contents pos t (accounts_tenant_index t Ht))).
    cbn [items item_key zone_server] in Hn. by rewrite list_fmap_id in Hn.
  - intros z. by rewrite owned_zones_elem, tenant_zones_elem.
Qed.
End Listed.

Section Shown.
Context `{Addresses} `{Finish} `{RestLibs} `{AuthLibs}.
Context (default_ttl : Z) (check_targets ixfr : bool) (default_name_servers : list string).
Context (parseJson : string -> option json).
Context (known : string -> Prop) {ids : TenantIds known}.

Lemma zones_of_db d t u (contents : list (string * account)) {kv : KvStore account} (pos : cursor -> option nat)
    {laws : KvStoreLaws kv contents pos} cfg fuel app (max : nat) st (k : nat) :
  db_ok known d -> known t -> parse_uuid t = Some u -> of_accounts contents (accts d) ->
  (length contents < fuel)%nat -> (0 < max <= rest_max_page_size cfg)%nat -> Z.of_nat max < 2 ^ 31 ->
  has_char "?" (api app) = false -> truthy_str (assoc_get "zones.current" st) = false ->
  let n := length (owned_zones (entries d) u) in
  (0 < k)%nat -> (n <= k * max)%nat -> ((k - 1) * max < n)%nat \/ k = 1%nat ->
  ListZones.seen app max (rest_zones t cfg fuel) st k ≡ₚ owned_zones (entries d) u.
Proof.
  intros Hd Ht Hu Hc Hf Hmax Hsm Hapi Hst n Hk Hn Hlast.
  assert (Hp := tenant_zones_owned known d contents Hd Hc pos t u Ht Hu).
  rewrite <- Hp. assert (En : length (tenant_zones contents t) = n) by by rewrite Hp.
  apply (zones_listed contents pos t cfg fuel app max st k); try done; try (by rewrite En).
  by eapply accounts_tenant_index.
Qed.

(** C3: The list of zones is the tenant's zones: from a database where AuthMgr's
    list is the zones of the index (db_ok), and whatever requests to /zone and
    /rr sessions of the tenants make for their own tenant (without the argument
    tenant, C34) and for names without a dot at their end (C33), paging from
    the start, with pages within the server's maximum, through the zone list in
    the browser shows exactly the zones that the tenant owns in the index, each
    once. *)
Theorem zones_shown d d' t u (contents : list (string * account)) {kv : KvStore account} (pos : cursor -> option nat)
    {laws : KvStoreLaws kv contents pos} cfg fuel app (max : nat) st (k : nat) :
  db_ok known d -> rtc (db_step default_ttl check_targets ixfr default_name_servers parseJson known) d d' ->
  known t -> parse_uuid t = Some u -> of_accounts contents (accts d') ->
  (length contents < fuel)%nat -> (0 < max <= rest_max_page_size cfg)%nat -> Z.of_nat max < 2 ^ 31 ->
  has_char "?" (api app) = false -> truthy_str (assoc_get "zones.current" st) = false ->
  let n := length (owned_zones (entries d') u) in
  (0 < k)%nat -> (n <= k * max)%nat -> ((k - 1) * max < n)%nat \/ k = 1%nat ->
  ListZones.seen app max (rest_zones t cfg fuel) st k ≡ₚ owned_zones (entries d') u.
Proof.
  intros Hd Hs Ht Hu Hc Hf Hmax Hsm Hapi Hst n Hk Hn Hlast. apply (zones_of_db d' t u contents pos); try done.
  by eapply (history_ok _ _ _ _ _ known).
Qed.

(** A new server: tenants, but no zones. *)
Lemma fresh_ok d :
  entries d = ∅ -> (forall key v, accts d !! key = Some v -> ~ of_class ZONE key /\ ~ of_class TZONE key) -> db_ok known d.
Proof.
  intros He Ha. split; rewrite ?He; [split; apply map_Forall_empty|by intros k s u ?|]. split.
  - by intros z u (s & ? & _).
  - intros r v Hv. destruct (Ha _ _ Hv) as [_ Hn]. destruct Hn. by eexists.
  - intros z v Hv. destruct (Ha _ _ Hv) as [Hn _]. destruct Hn. by eexists.
Qed.

Lemma dns_target fqdn operation args body meth :
  dns_name fqdn -> fqdn <> ""%string -> plain_target (RestRequest meth fqdn operation args body).
Proof.
  intros Hd Hne. split_and!; cbn [q_target]; [done|by apply dns_name_dot_end|].
  apply dns_name_no_char; [done|by intros []|]. destruct Hd as [Ht Hw]. split.
  - by rewrite name_text_lower, Ht.
  - by apply writeName_lower.
Qed.

(** C4: A new zone comes up in the list: on a server with at least two default
    name servers (without them it refuses every form, zone_needs_servers),
    submitting the add-zone form with a valid name that is free and allowed and
    a mail address that can be stored as a mailbox (zone_input) ends with the
    zone in the database (a consistent one, db_ok), and the zone list, loaded
    after it and paged through from the start, with pages within the server's
    maximum, shows it under its name in lower case. *)
Theorem new_zone_shown d s tenant app form h r fqdn email rname ns1 ns id :
  db_ok known d -> session_for known s -> getTenant (accts d) (tenant_ s) = Built (Some tenant) ->
  ez_inputs form = Some (fqdn, email) -> fqdn <> ""%string -> zone_input fqdn email rname ns1 ns ->
  0 <= default_ttl <= TTL_MAX -> zone_allowed s (entries d) CREATE_ZONE (toLowerStr fqdn) = true ->
  entries d !! toLowerStr fqdn = None ->
  parseJson (zone_body email) = Some (JObj [("soa", JObj [("email", JStr email)])]%string) ->
  let req := Request "post" (getUrl app ("/zone/" +:+ fqdn)) (json_headers app) (Some (zone_body email)) in
  run (quiet true r) (submit_zone app form h) = Trace [req] (SetZone fqdn email :: close_on_ok r) (Ok tt) h /\
  exists q d', zone_request app req = Some q /\
    on_zone default_ttl (ns1 :: ns) parseJson d s q id = Some (201, d') /\
    forall (contents : list (string * account)) (kv : KvStore account) (pos : cursor -> option nat)
        (laws : KvStoreLaws kv contents pos) cfg fuel (max : nat) st (k : nat),
      of_accounts contents (accts d') -> (length contents < fuel)%nat -> (0 < max <= rest_max_page_size cfg)%nat ->
      Z.of_nat max < 2 ^ 31 -> has_char "?" (api app) = false -> truthy_str (assoc_get "zones.current" st) = false ->
      let n := length (owned_zones (entries d') (tenant_id_ s)) in
      (0 < k)%nat -> (n <= k * max)%nat -> ((k - 1) * max < n)%nat \/ k = 1%nat ->
      toLowerStr fqdn ∈ ListZones.seen app max (rest_zones (tenant_ s) cfg fuel) st k.
Proof.
  intros Hd Hs Htn Hi Hne Hz Httl Hal Hfree Hp req.
  destruct (zone_form_created default_ttl parseJson (tenant_id_ s) (zone_allowed s (entries d)) app form h r (entries d)
              fqdn email rname ns1 ns) as [Hrun (q & sb & e & Hq & Hon & Ht & _)]; try done. split; [exact Hrun|].
  assert (Eq : q = RestRequest POST fqdn "" [] (zone_body email)).
  { unfold zone_request, req, getUrl in Hq. cbn [url method body] in Hq.
    rewrite drop_chars_app, parse_zone in Hq by (by apply dns_name_no_slash, Hz). by injection Hq as <-. }
  subst q. set (q := RestRequest POST fqdn "" [] (zone_body email)) in *.
  eexists q, (Db (<[toLowerStr fqdn := sb]> (entries d)) _). split; [done|].
  assert (Hon' : on_zone default_ttl (ns1 :: ns) parseJson d s q id
    = Some (201, Db (<[toLowerStr fqdn := sb]> (entries d)) (<[zrr_key (toLowerStr fqdn) (toLowerStr fqdn) := AText ""]>
        (<[tzone_key (tenant_ s) (toLowerStr fqdn) := AText (toLowerStr fqdn)]>
        (<[zone_key (toLowerStr fqdn) := AZone (Pb.MkZone (Some id) (Some (tenant_ s)) (Some Pb.ACTIVE))]> (accts d)))))).
  { unfold on_zone, getSessionAndTenant. cbn [q_args q assoc_get]. unfold calling. rewrite Htn. cbn [mbind verdict_bind].
    unfold serve_zone. rewrite Hon. unfold zone_accounts. cbn [q_method q q_target Z.eqb Pos.eqb]. by rewrite addZone_some. }
  split; [exact Hon'|]. intros contents kv pos laws cfg fuel max st k Hc Hf Hmax Hsm Hapi Hst n Hk Hn Hlast.
  assert (Hd' := zone_db_ok default_ttl (ns1 :: ns) parseJson known d s q id 201 _ Hd Hs (dns_target _ _ _ _ _ (zi_name _ _ _ _ _ Hz) Hne) eq_refl Hon').
  rewrite (zones_of_db _ (tenant_ s) (tenant_id_ s) contents pos) by (done || apply Hs).
  apply owned_zones_elem. exists sb. split; [apply lookup_insert_eq|done].
Qed.

(** C34: A zone created for another tenant is in the wrong list: when a session
    that may impersonate tenants creates a zone for the tenant [t], the zone is
    that tenant's, but it is listed under the tenant of the session, and not
    under [t]. *)
Theorem impersonated_zone_misplaced d s q id d' imp u :
  db_ok known d -> session_for known s -> plain_target q -> q_method q = POST ->
  assoc_get "tenant" (q_args q) = Some imp -> known (toLowerStr imp) -> parse_uuid (toLowerStr imp) = Some u ->
  toLowerStr imp <> tenant_ s ->
  on_zone default_ttl default_name_servers parseJson d s q id = Some (201, d') ->
  let k := toLowerStr (q_target q) in
  owned (entries d') k u /\ accts d' !! tzone_key (tenant_ s) k = Some (AText k) /\
  accts d' !! tzone_key (toLowerStr imp) k = None.
Proof.
  intros Hd [Hks Hus] Hq Hpost Harg Hkt Hut Hne Hr k. set (t := toLowerStr imp) in *.
  unfold on_zone, getSessionAndTenant in Hr. rewrite Harg in Hr.
  destruct (isAllowed _ _ _); [|done]. cbn [andb] in Hr. fold t in Hr. rewrite Hut in Hr.
  cbn [or_failed mbind verdict_bind] in Hr. unfold calling in Hr.
  destruct (getTenant _ _) as [[tn|]| | |]; cbn [mbind verdict_bind] in Hr; try done.
  set (s' := setTenantId s u) in *.
  destruct (serve_zone _ _ _ s' _ q) as [[code m']|] eqn:Es; [|done].
  unfold zone_accounts in Hr. rewrite Hpost, addZone_some in Hr. fold k in Hr.
  apply onZone_cases in Es as [[_ Hc]|[(-> & _ & _ & Hn & sb & -> & _ & Htn & _)|(_ & Hdel & _)]]; [..|congruence].
  { rewrite (proj2 (Z.eqb_neq _ _)) in Hr by lia. injection Hr as -> _. lia. }
  cbn [Z.eqb Pos.eqb] in Hr. injection Hr as <-. cbn [entries accts]. split_and!.
  - exists sb. split; [apply lookup_insert_eq|exact Htn].
  - rewrite lookup_insert_ne by done. apply lookup_insert_eq.
  - rewrite !lookup_insert_ne; try done.
    + destruct (accts d !! tzone_key t k) as [v|] eqn:Ev; [exfalso|done].
      apply (lz_tzone _ _ _ (db_lists _ _ Hd)) in Ev as (t1 & z1 & u1 & E & Hk1 & _ & (s1 & Hs1 & _)).
      assert (E2 : tzone_key t k = tzone_key t1 z1) by (cbn [isReversed] in E; unfold tzone_key, init_key; cbn [isReversed]; by rewrite E).
      apply tzone_key_inj in E2 as [_ <-]; [|by apply ids_plain..]. fold k in Hn. congruence.
    + intros [? _]%tzone_key_inj; [congruence|by apply ids_plain..].
Qed.
End Shown.

Module AccountsDemo.
Import WireDemo RestDemo ServiceDemo AccessDemo ZoneDemo TenantsDemo.

(** A new server with two tenants, the first with a role to act for others. *)
Definition admin_role : Pb.Role := Pb.MkRole (Some "Admin"%string) [USE_API; IMPERSONATE_TENANT; CREATE_ZONE; DELETE_ZONE] None.
Definition carol : Pb.User := (Pb.MkUser (Some "id-carol") (Some "Carol") (Some true) ["admin"] (Some (Pb.MkAuth (Some "pepperword") (Some "pepper") None)))%string.
Definition t1 : Pb.Tenant := Pb.MkTenant (Some "t1"%string) None (Some true) None [] [admin_role] [carol].
Definition carol_session : Session := default (session_of bob) (new_session t1 "carol" (Pb.user_roles carol)).

Definition demo_tenant (t : string) : Prop := t = "t1"%string \/ t = "t2"%string.

#[export] Instance demo_ids : TenantIds demo_tenant.
Proof.
  split.
  - by intros t [-> | ->].
  - intros t _. by eexists.
  - intros t t' u _ _ [= ->] [= ->]. done.
Qed.

Definition fresh : db := Db ∅ {[ tenant_key "t1" := ATenant t1; tenant_key "t2" := ATenant t2 ]}.

Lemma fresh_db : db_ok demo_tenant fresh.
Proof.
  apply fresh_ok; [done|]. intros key v. unfold fresh. cbn [accts].
  rewrite lookup_insert_Some, lookup_singleton_Some. intros [[<- _]|[_ [<- _]]]; split; by intros [r [=]].
Qed.

Lemma bob_known : session_for demo_tenant (session_of bob).
Proof. eapply new_session_for; [exact bob_session|by right]. Qed.

Lemma carol_known : session_for demo_tenant carol_session.
Proof. apply (new_session_for _ t1 "carol" (Pb.user_roles carol)); [reflexivity|by left]. Qed.

(** Bob creates a zone. *)
Definition make_net : rest_request := RestRequest POST "Net.org" "" [] "zone".
Definition made : db := match on_zone 3600 [] body_parser fresh (session_of bob) make_net "id-1" with Some (_, d) => d | None => fresh end.

Lemma made_answer : on_zone 3600 [] body_parser fresh (session_of bob) make_net "id-1" = Some (201, made).
Proof. vm_compute. reflexivity. Qed.

#[export] Instance made_kv : KvStore account := list_store (account_records (accts made)) (AText "").
#[export] Instance made_laws : KvStoreLaws made_kv (account_records (accts made)) (list_pos (account_records (accts made))).
Proof. apply list_store_laws. vm_compute. repeat constructor. Qed.

Example made_zones : owned_zones (entries made) "t2" = ["net.org"%string].
Proof. vm_compute. reflexivity. Qed.

Lemma zones_shown_witness :
  ListZones.seen initialState 2 (rest_zones "t2" ServerDemo.cfg 6) [] 1 ≡ₚ owned_zones (entries made) "t2".
Proof.
  refine (zones_shown 3600 true true [] body_parser demo_tenant fresh made "t2" "t2" (account_records (accts made))
            (list_pos (account_records (accts made))) ServerDemo.cfg 6 initialState 2 [] 1 fresh_db
            (rtc_once _ _ (step_zone _ _ _ _ _ _ _ _ (session_of bob) make_net "id-1" 201 bob_known _ eq_refl made_answer))
            (or_intror eq_refl) eq_refl (account_records_of _) _ _ _ eq_refl eq_refl _ _ (or_intror eq_refl)).
  - by repeat split.
  - vm_compute. lia.
  - cbn. lia.
  - lia.
  - lia.
  - rewrite made_zones. cbn. lia.
Defined.

Lemma new_zone_shown_witness :
  let req := Request "post" (getUrl initialState ("/zone/" +:+ "New.org")) (json_headers initialState)
               (Some (zone_body "host@new.org")) in
  run (quiet true (Resp true "OK" None)) (submit_zone initialState typed_zone [])
  = Trace [req] (SetZone "New.org" "host@new.org" :: close_on_ok (Resp true "OK" None)) (Ok tt) [] /\
  exists q d', zone_request initialState req = Some q /\
    on_zone 3600 ["ns1.ex.org"; "ns2.ex.org"]%string form_parser fresh (session_of bob) q "id-2" = Some (201, d') /\
    forall (contents : list (string * account)) (kv : KvStore account) (pos : cursor -> option nat)
        (laws : KvStoreLaws kv contents pos) cfg fuel (max : nat) st (k : nat),
      of_accounts contents (accts d') -> (length contents < fuel)%nat -> (0 < max <= rest_max_page_size cfg)%nat ->
      Z.of_nat max < 2 ^ 31 -> has_char "?" (api initialState) = false -> truthy_str (assoc_get "zones.current" st) = false ->
      let n := length (owned_zones (entries d') "t2") in
      (0 < k)%nat -> (n <= k * max)%nat -> ((k - 1) * max < n)%nat \/ k = 1%nat ->
      "new.org"%string ∈ ListZones.seen initialState max (rest_zones "t2" cfg fuel) st k.
Proof.
  refine (new_zone_shown 3600 form_parser demo_tenant fresh (session_of bob) t2 initialState typed_zone [] (Resp true "OK" None)
            "New.org" "host@new.org" "host.new.org" "ns1.ex.org" ["ns2.ex.org"%string] "id-2" fresh_db bob_known _
            eq_refl _ new_input _ _ eq_refl _).
  - vm_compute. reflexivity.
  - discriminate.
  - unfold TTL_MAX. lia.
  - vm_compute. reflexivity.
  - vm_compute. reflexivity.
Defined.

(** Carol creates a zone for Bob's tenant. *)
Definition make_for : rest_request := RestRequest POST "for.org" "" [("tenant", "T2")]%string "zone".
Definition made_for : db := match on_zone 3600 [] body_parser fresh carol_session make_for "id-3" with Some (_, d) => d | None => fresh end.

Lemma made_for_answer : on_zone 3600 [] body_parser fresh carol_session make_for "id-3" = Some (201, made_for).
Proof. vm_compute. reflexivity. Qed.

Lemma impersonated_zone_misplaced_witness :
  owned (entries made_for) "for.org" "t2" /\ accts made_for !! tzone_key "t1" "for.org" = Some (AText "for.org") /\
  accts made_for !! tzone_key "t2" "for.org" = None.
Proof.
  refine (impersonated_zone_misplaced 3600 [] body_parser demo_tenant fresh carol_session make_for "id-3" made_for "T2" "t2"
            fresh_db carol_known _ eq_refl eq_refl (or_intror eq_refl) eq_refl _ made_for_answer).
  - by repeat split.
  - discriminate.
Defined.
End AccountsDemo.
