(* ===== verification/Login.v ===== *)
(** * modules/Login.tsx, and the server's side of HTTP Basic authentication

    The login form sends the base64 of "name:password" and, when the server
    accepts it, keeps it as the token of AppState.  The server takes the header
    apart in AuthMgr::authorize and AuthMgr::basicAuth with base64Decode
    (src/lib/AuthMgr.cpp, src/lib/util.cpp).

    Texts are lists of UTF-16 code units (the browser) and of bytes (the
    server), as integers. *)

From S2P Require Import Prelude JsValue Http AppState ServerUtil Markup.

Local Open Scope Z_scope.

(** ** btoa *)

(** [window.btoa]: an InvalidCharacterError ([None]) beyond Latin-1. *)
Definition btoa (us : list Z) : option string :=
  if forallb (fun u => u <? 256) us then Some (b64_encode us) else None.

(** ** Login.submit *)

Inductive login_effect : Type :=
| SetToken (token : string)
| SetItem (key value : string)
| SetHasError
| SetErrorMsg (msg : string).

Definition colon : Z := 58.

Definition version_request (app : app_state) (token : string) : request :=
  Request "get" (getUrl app "/version") [("Authorization", "basic " +:+ token)]%string None.

Definition login_answer (token : string) (r : fetch_result unit) (h : heap) : proc login_effect :=
  match r with
  | Resp true _ _ => Emit (SetToken token) (Emit (SetItem "zones.current" "") (Done (Ok tt) h))
  | Resp false _ _ => Done (Ok tt) h
  | Rejected is_error msg =>
      Emit SetHasError (if is_error then Emit (SetErrorMsg msg) (Done (Ok tt) h) else Done (Ok tt) h)
  end.

(** [btoa] is called before the try block. *)
Definition login_submit (app : app_state) (name pass : list Z) (h : heap) : proc login_effect :=
  match btoa (name ++ [colon] ++ pass) with
  | None => Done (Throw (JsError "InvalidCharacterError")) h
  | Some token => Fetch (version_request app token) h (login_answer token)
  end.

(** The effects on the application's state. *)
Definition login_state (app : app_state) (es : list login_effect) : app_state :=
  foldl (fun a e => match e with SetToken t => setToken t a | _ => a end) app es.

(** ** What the form shows *)

Record login_ui : Type := LoginUi {
  hasError : bool;
  errorMsg : string
}.

Definition login_init : login_ui := LoginUi false "".

(** The effects on the component's own state. *)
Definition login_ui_after (ui : login_ui) (es : list login_effect) : login_ui :=
  foldl (fun u e => match e with
                    | SetHasError => LoginUi true (errorMsg u)
                    | SetErrorMsg msg => LoginUi (hasError u) msg
                    | _ => u
                    end) ui es.

Definition Login (ui : login_ui) : markup :=
  if hasError ui then
    Fragment [Element "div" [
      Element "div" [Element "h3" [Text "Failed to validate authentication with server"];
                     Element "p" [Text (errorMsg ui)]];
      Element "p" [Text "Refresh to try again!"]]]
  else
    Element "div" [Element "div" [
      Element "header" [Element "h1" [Text "Login"]];
      Element "form" [Element "div" [
        Element "label" [Element "b" [Text "Username"]];
        Input "text" "Enter Username" true;
        Element "label" [Element "b" [Text "Password"]];
        Input "password" "Enter Password" true;
        Element "button" [Text "Login"]]]]].

(** ** The way of a header *)

(** The Fetch standard strips HTTP white space around a header's value. *)
Definition is_http_space (c : ascii) : bool :=
  existsb (Ascii.eqb c) [" "; "009"; "010"; "013"]%char.

Definition normalize_header (s : string) : string := strip is_http_space s.

(** ** The server: AuthMgr.cpp *)

(** user_pass.find(':') and the two substrings. *)
Fixpoint split_colon (bs : list Z) : option (list Z * list Z) :=
  match bs with
  | [] => None
  | b :: bs' =>
      if b =? colon then Some ([], bs')
      else match split_colon bs' with
           | Some (u, p) => Some (b :: u, p)
           | None => None
           end
  end.

(** The credentials basicAuth looks up. *)
Definition basicAuth (authString : string) : option (list Z * list Z) :=
  let authString := trim authString in
  if String.eqb authString "" then None
  else match base64Decode authString with
       | Some user_pass =>
           match split_colon user_pass with
           | Some (user, pass) => Some (toLower user, pass)
           | None => None
           end
       | None => None
       end.

(** [ar.auth_header.substr(basic.size())]. *)
Definition drop_str (n : nat) (s : string) : string :=
  Nat.iter n (fun s => match s with String _ s' => s' | EmptyString => s end) s.

(** authorize, for a header without a session. *)
Definition authorize (auth_header : string) : option (list Z * list Z) :=
  if String.eqb auth_header "" then None
  else if compareCaseInsensitive "basic " auth_header false then basicAuth (drop_str 6 auth_header)
  else None.

Lemma b64_char_plain (i : Z) :
  is_http_space (b64_char i) = false /\ c_isspace (b64_char i) = false.
Proof.
  unfold b64_char. destruct (String.get (Z.to_nat i) b64_chars) as [c|] eqn:E; [|done].
  assert (H : forall s, none_of is_http_space s = true -> none_of c_isspace s = true ->
    forall n c, String.get n s = Some c -> is_http_space c = false /\ c_isspace c = false).
  { induction s as [|x s IH]; [done|]. cbn. intros [H1 H2]%andb_true_iff [H3 H4]%andb_true_iff [|n] d Hd.
    - injection Hd as <-. by rewrite <- negb_true_iff, <- (negb_true_iff (c_isspace x)).
    - by apply (IH H2 H4 n). }
  by apply (H b64_chars) with (Z.to_nat i).
Qed.

Lemma encode_plain (bs : list Z) :
  none_of is_http_space (b64_encode bs) = true /\ none_of c_isspace (b64_encode bs) = true.
Proof.
  induction bs as [|a|a b|a b c bs IH] using three_ind; [done|..]; cbn [b64_encode none_of];
    rewrite !(proj1 (b64_char_plain _)), !(proj2 (b64_char_plain _)); [done|done|exact IH].
Qed.

Lemma encode_nonempty (bs : list Z) : bs <> [] -> b64_encode bs <> ""%string.
Proof. by destruct bs as [|a [|b [|c bs]]]. Qed.

(** ** What the server makes of the header *)

Lemma authorize_token (prefix : string) (bs : list Z) :
  prefix = "basic "%string \/ prefix = " Basic "%string -> bs <> [] -> Forall is_byte bs ->
  authorize (normalize_header (prefix +:+ b64_encode bs))
  = match split_colon bs with
    | Some (user, pass) => Some (toLower user, pass)
    | None => None
    end.
Proof.
  intros Hp Hne Hb. destruct (encode_plain bs) as [H1 H2]. assert (Hn := encode_nonempty bs Hne).
  assert (Hnorm : exists b, normalize_header (prefix +:+ b64_encode bs)
            = (String b "asic ")%string +:+ b64_encode bs /\ c_tolower b = "b"%char).
  { unfold normalize_header, strip. destruct Hp as [->| ->].
    - exists "b"%char. split; [|done].
      change (strip_front is_http_space ("basic " +:+ b64_encode bs)%string) with ("basic " +:+ b64_encode bs)%string.
      by apply strip_back_app.
    - exists "B"%char. split; [|done].
      change (strip_front is_http_space (" Basic " +:+ b64_encode bs)%string) with ("Basic " +:+ b64_encode bs)%string.
      by apply strip_back_app. }
  destruct Hnorm as (b & -> & Hlow). unfold authorize.
  assert (Hcmp : compareCaseInsensitive "basic " (String b "asic " +:+ b64_encode bs) false = true).
  { rewrite !string_app_cons. cbn [compareCaseInsensitive]. rewrite Hlow; by destruct (b64_encode bs). }
  rewrite Hcmp. rewrite string_app_cons. cbn [String.eqb].
  change (drop_str 6 (String b ("asic " +:+ b64_encode bs))) with (b64_encode bs).
  unfold basicAuth. unfold trim. rewrite strip_none by done. apply String.eqb_neq in Hn. rewrite Hn.
  rewrite base64_decode_encode by done. by destruct (split_colon bs) as [[]|].
Qed.

Lemma split_colon_name (name pass : list Z) :
  colon ∉ name -> split_colon (name ++ [colon] ++ pass) = Some (name, pass).
Proof.
  induction name as [|b name IH]; intros Hn; [done|]. rewrite <- app_comm_cons. cbn [split_colon].
  destruct (Z.eqb_spec b colon) as [->|Hne]; [destruct Hn; apply elem_of_cons; by left|].
  rewrite IH; [done|]. intros Hin. apply Hn, elem_of_cons. by right.
Qed.

Lemma btoa_bytes (us : list Z) : Forall is_byte us -> btoa us = Some (b64_encode us).
Proof.
  intros H. unfold btoa. replace (forallb _ us) with true; [done|]. symmetry.
  apply forallb_forall. intros u Hu%list_elem_of_In. rewrite Forall_forall in H.
  apply H in Hu. unfold is_byte in Hu. apply Z.ltb_lt. lia.
Qed.

(** The headers of the login request and of the requests after it. *)
Lemma login_headers app name pass h st :
  Forall is_byte name -> Forall is_byte pass -> colon ∉ name ->
  let t := run (quiet true (Resp true st None)) (login_submit app name pass h) in
  (exists req hdr, sent t = [req] /\ headers req = [("Authorization"%string, hdr)] /\
     authorize (normalize_header hdr) = Some (toLower name, pass)) /\
  exists hdr, getAuthHeader (login_state app (emitted t)) = [("Authorization"%string, hdr)] /\
    authorize (normalize_header hdr) = Some (toLower name, pass).
Proof.
  intros Hn Hp Hc. assert (Hb : Forall is_byte (name ++ [colon] ++ pass)).
  { apply Forall_app. split; [done|]. constructor; [|done]. unfold is_byte, colon. lia. }
  assert (Hsplit := split_colon_name name pass Hc).
  assert (Hne : name ++ [colon] ++ pass <> []) by by destruct name.
  unfold login_submit. set (us := name ++ [colon] ++ pass) in *. rewrite (btoa_bytes us Hb).
  assert (Hauth : forall p, p = "basic "%string \/ p = " Basic "%string ->
    authorize (normalize_header (p +:+ b64_encode us)) = Some (toLower name, pass)).
  { intros p Hp'. rewrite (authorize_token p us) by done. by rewrite Hsplit. }
  split.
  - exists (version_request app (b64_encode us)), ("basic " +:+ b64_encode us)%string.
    split; [done|]. split; [done|]. apply Hauth. by left.
  - exists (" Basic " +:+ b64_encode us)%string. split; [done|]. apply Hauth. by right.
Qed.

(** Logging in and every request after it: for a name without colon and
    Latin-1 texts, the server finds exactly the entered password and the
    entered name in lower case, both in the header of the login request and in
    the Authorization header the application sends once the token is kept. *)
Theorem login_credentials app name pass h st :
  Forall is_byte name -> Forall is_byte pass -> colon ∉ name ->
  let t := run (quiet true (Resp true st None)) (login_submit app name pass h) in
  (exists req hdr, sent t = [req] /\ headers req = [("Authorization"%string, hdr)] /\
     authorize (normalize_header hdr) = Some (toLower name, pass)) /\
  exists hdr, getAuthHeader (login_state app (emitted t)) = [("Authorization"%string, hdr)] /\
    authorize (normalize_header hdr) = Some (toLower name, pass).
Proof. apply login_headers. Qed.

Lemma login_submit_run app name pass h r :
  let us := name ++ [colon] ++ pass in
  run (quiet true r) (login_submit app name pass h)
  = match btoa us with
    | None => Trace [] [] (Throw (JsError "InvalidCharacterError")) h
    | Some token =>
        Trace [version_request app token]
          (match r with
           | Resp true _ _ => [SetToken token; SetItem "zones.current" ""]
           | Resp false _ _ => []
           | Rejected true msg => [SetHasError; SetErrorMsg msg]
           | Rejected false _ => [SetHasError]
           end) (Ok tt) h
    end.
Proof.
  cbv zeta. unfold login_submit. destruct (btoa (name ++ [colon] ++ pass)); [|done].
  by destruct r as [[]|[]].
Qed.

(** What the user sees of a login, on every branch: a name or password
    beyond Latin-1 throws before anything is sent; an ok answer keeps the
    token, so that the form gives way to the application; an answer that is
    not ok, which is what wrong credentials get, leaves the form exactly as it
    was, without a word; a failed request replaces the form, for good, by the
    error and its message. *)
Theorem login_submit_spec app name pass h r ui :
  hasError ui = false ->
  let t := run (quiet true r) (login_submit app name pass h) in
  let ui' := login_ui_after ui (emitted t) in
  match btoa (name ++ [colon] ++ pass), r with
  | None, _ => t = Trace [] [] (Throw (JsError "InvalidCharacterError")) h
  | Some token, Resp true _ _ =>
      sent t = [version_request app token] /\
      loginToken (login_state app (emitted t)) = token /\ Login ui' = Login ui
  | Some token, Resp false _ _ =>
      sent t = [version_request app token] /\
      login_state app (emitted t) = app /\ Login ui' = Login ui
  | Some token, Rejected is_error msg =>
      sent t = [version_request app token] /\ login_state app (emitted t) = app /\
      inputs (Login ui') = [] /\ elements "form" (Login ui') = 0%nat /\
      textContent (Login ui')
        = ("Failed to validate authentication with server"
           +:+ (if is_error then msg else errorMsg ui) +:+ "Refresh to try again!")%string
  end.
Proof.
  intros Hui. cbv zeta. rewrite login_submit_run. destruct (btoa (name ++ [colon] ++ pass)); [|by destruct r].
  destruct ui as [he em]. cbn in Hui. subst he. destruct r as [[] msg|[] st o]; try done;
    cbn; rewrite ?string_app_nil_r, ?string_app_assoc; done.
Qed.

(** Base64Decode undoes the encoding of any bytes. *)
Theorem base64_roundtrip (bs : list Z) :
  Forall is_byte bs -> base64Decode (default ""%string (btoa bs)) = Some bs.
Proof. intros H. rewrite btoa_bytes by done. by apply base64_decode_encode. Qed.

(** ** Witnesses *)

Module LoginDemo.
(** "Alice" and "p:w" *)
Definition name : list Z := [65; 108; 105; 99; 101].
Definition pass : list Z := [112; 58; 119].

Lemma name_bytes : Forall is_byte name.
Proof. repeat constructor; done. Qed.

Lemma pass_bytes : Forall is_byte pass.
Proof. repeat constructor; done. Qed.

Lemma login_credentials_witness :
  let t := run (quiet true (Resp true "OK" None)) (login_submit initialState name pass []) in
  (exists req hdr, sent t = [req] /\ headers req = [("Authorization"%string, hdr)] /\
     authorize (normalize_header hdr) = Some (toLower name, pass)) /\
  exists hdr, getAuthHeader (login_state initialState (emitted t)) = [("Authorization"%string, hdr)] /\
    authorize (normalize_header hdr) = Some (toLower name, pass).
Proof.
  refine (login_credentials initialState name pass [] "OK" name_bytes pass_bytes _).
  apply (bool_decide_unpack _). vm_compute. exact I.
Defined.

Lemma base64_roundtrip_witness : base64Decode (default ""%string (btoa pass)) = Some pass.
Proof. exact (base64_roundtrip pass pass_bytes). Defined.

Lemma login_submit_spec_witness :
  textContent (Login (login_ui_after login_init
    (emitted (run (quiet true (Rejected true "offline")) (login_submit initialState name pass [])))))
  = "Failed to validate authentication with serverofflineRefresh to try again!"%string.
Proof.
  exact (proj2 (proj2 (proj2 (proj2 (login_submit_spec initialState name pass [] (Rejected true "offline") login_init eq_refl))))).
Defined.
End LoginDemo.
