(* ===== verification/Sessions.v ===== *)
(** * Logging in: AuthMgr::authorize whole

    The cache of sessions (detail::Lru of lib/AuthMgr.h), the user's lookup and
    the check of the password (AuthMgr::basicAuth), and authorize, with the
    login form of the interface in front of it.  Reading the header is
    [Login]'s; a session is [Access]'s.  The accounts are
    those of [AccountDb]. *)

From stdpp Require Import gmap list strings.
From S2P Require Import Prelude JsValue Http AppState ServerUtil Qargs RrWire RrBuild RealKey Permissions RrRest RrIndex ListServer Access AccountDb Login.

Local Open Scope Z_scope.

(** ** The cache *)

Section Lru.
Context {A : Type}.

(** The items, the most recent first. *)
Record Lru : Type := MkLru {
  capacity_ : nat;
  lru_ : list (string * A)
}.

Definition lru_remove (key : string) (l : list (string * A)) : list (string * A) :=
  List.filter (fun kd => negb (String.eqb key kd.1)) l.

Definition lru_find (key : string) (l : list (string * A)) : option A :=
  snd <$> List.find (fun kd => String.eqb key kd.1) l.

(** get moves the item to the front. *)
Definition lru_get (key : string) (c : Lru) : option (A * Lru) :=
  d ← lru_find key (lru_ c);
  Some (d, MkLru (capacity_ c) ((key, d) :: lru_remove key (lru_ c))).

(** makeSpace removes one item. *)
Definition makeSpace (c : Lru) : Lru :=
  if (capacity_ c <? length (lru_ c))%nat then MkLru (capacity_ c) (removelast (lru_ c)) else c.

(** For a key that is there the map's key would be a view of the item it
    frees. *)
Definition lru_emplace (key : string) (data : A) (c : Lru) : verdict Lru :=
  match lru_find key (lru_ c) with
  | Some _ => Undefined
  | None => Built (makeSpace (MkLru (capacity_ c) ((key, data) :: lru_ c)))
  end.

Definition lru_erase (key : string) (c : Lru) : bool * Lru :=
  (match lru_find key (lru_ c) with Some _ => true | None => false end, MkLru (capacity_ c) (lru_remove key (lru_ c))).

Definition lru_clear (c : Lru) : Lru := MkLru (capacity_ c) [].

(** The items have different keys and there is room for them. *)
Definition lru_ok (c : Lru) : Prop := NoDup (lru_ c).*1 /\ (length (lru_ c) <= capacity_ c)%nat.

Lemma lru_find_spec key l d : NoDup l.*1 -> lru_find key l = Some d <-> (key, d) ∈ l.
Proof.
  unfold lru_find. induction l as [|[k e] l IH]; intros Hn; [split; [done|by intros ?%not_elem_of_nil]|].
  rewrite fmap_cons in Hn. apply NoDup_cons in Hn as [Hk Hn]. cbn [List.find fst]. rewrite elem_of_cons.
  destruct (String.eqb_spec key k) as [->|Hne].
  - cbn. split; [intros [= ->]; by left|]. intros [[= ->]|Hin]; [done|]. exfalso. apply Hk, list_elem_of_fmap. by exists (k, d).
  - rewrite IH by done. split; [by right|]. intros [[=]|?]; [congruence|done].
Qed.

Lemma lru_find_none key l : lru_find key l = None <-> key ∉ l.*1.
Proof.
  unfold lru_find. induction l as [|[k e] l IH]; [split; [intros _; apply not_elem_of_nil|done]|].
  cbn [List.find fst]. rewrite fmap_cons, not_elem_of_cons. cbn [fst].
  destruct (String.eqb_spec key k) as [->|Hne]; [split; [done|by intros []]|]. rewrite IH. tauto.
Qed.

Lemma lru_remove_elem key l kd : kd ∈ lru_remove key l <-> kd ∈ l /\ kd.1 <> key.
Proof.
  unfold lru_remove. rewrite list_elem_of_In, filter_In, <- list_elem_of_In, negb_true_iff, String.eqb_neq. naive_solver.
Qed.

Lemma lru_remove_keys key l : NoDup l.*1 -> key ∉ (lru_remove key l).*1 /\ NoDup (lru_remove key l).*1.
Proof.
  intros Hn. split.
  - intros ([k d] & -> & Hin)%list_elem_of_fmap. by apply lru_remove_elem in Hin as [_ ?].
  - induction l as [|[k d] l IH]; [constructor|]. rewrite fmap_cons in Hn. apply NoDup_cons in Hn as [Hk Hn].
    cbn [lru_remove List.filter fst]. destruct (String.eqb key k); cbn [negb]; [by apply IH|].
    rewrite fmap_cons. apply NoDup_cons. split; [|by apply IH].
    intros ([k' d'] & Ek & Hin)%list_elem_of_fmap. cbn in Ek. subst k'. apply Hk, list_elem_of_fmap.
    exists (k, d'). split; [done|]. change (List.filter _ l) with (lru_remove key l) in Hin. by apply lru_remove_elem in Hin as [? _].
Qed.

Lemma lru_remove_length key l : key ∈ l.*1 -> (S (length (lru_remove key l)) <= length l)%nat.
Proof.
  intros Hin. induction l as [|[k d] l IH]; [by apply not_elem_of_nil in Hin|]. rewrite fmap_cons in Hin.
  cbn [lru_remove List.filter fst length]. destruct (String.eqb_spec key k) as [->|Hne]; cbn [negb length].
  - assert (Hle := List.filter_length_le (fun kd : string * A => negb (String.eqb k kd.1)) l). lia.
  - apply elem_of_cons in Hin as [?|Hin]; [done|]. specialize (IH Hin). unfold lru_remove in IH. lia.
Qed.

Lemma lru_get_ok key c d c' :
  lru_ok c -> lru_get key c = Some (d, c') ->
  lru_ok c' /\ (key, d) ∈ lru_ c /\ forall kd, kd ∈ lru_ c' <-> kd ∈ lru_ c.
Proof.
  intros [Hn Hl] Hg. unfold lru_get in Hg. destruct (lru_find key (lru_ c)) as [d'|] eqn:Ef; [|done]. injection Hg as -> <-.
  apply lru_find_spec in Ef as Hin; [|done]. assert (Hk : key ∈ (lru_ c).*1) by (apply list_elem_of_fmap; by exists (key, d)).
  destruct (lru_remove_keys key _ Hn) as [Hr1 Hr2]. split_and!; [split|done|]; cbn [lru_ capacity_].
  - rewrite fmap_cons. by apply NoDup_cons.
  - assert (Hle := lru_remove_length _ _ Hk). cbn [length]. lia.
  - intros [k e]. rewrite elem_of_cons, lru_remove_elem. cbn [fst]. split.
    + intros [[= -> ->]|[? _]]; done.
    + intros Hin2. destruct (decide (k = key)) as [->|]; [left|by right].
      apply (lru_find_spec key) in Hin, Hin2; [|done..]. congruence.
Qed.

Lemma removelast_elem {B} (x : B) l : x ∈ removelast l -> x ∈ l.
Proof.
  induction l as [|y l IH]; [done|]. destruct l as [|z l]; [by intros ?%not_elem_of_nil|].
  change (removelast (y :: z :: l)) with (y :: removelast (z :: l)). rewrite !elem_of_cons. intros [->|Hx]; [by left|right].
  rewrite <- elem_of_cons. by apply IH.
Qed.

Lemma lru_emplace_ok key d c c' :
  lru_ok c -> lru_emplace key d c = Built c' ->
  lru_ok c' /\ (forall kd, kd ∈ lru_ c' -> kd = (key, d) \/ kd ∈ lru_ c) /\
  ((0 < capacity_ c)%nat -> lru_find key (lru_ c') = Some d).
Proof.
  intros [Hn Hl] He. unfold lru_emplace in He. destruct (lru_find key (lru_ c)) eqn:Ef; [done|]. injection He as <-.
  apply lru_find_none in Ef. assert (Hn' : NoDup ((key, d) :: lru_ c).*1) by (rewrite fmap_cons; by apply NoDup_cons).
  unfold makeSpace. cbn [lru_ capacity_]. destruct (Nat.ltb_spec (capacity_ c) (length ((key, d) :: lru_ c))) as [Hlt|Hge].
  - assert (Hsub : forall kd, kd ∈ removelast ((key, d) :: lru_ c) -> kd = (key, d) \/ kd ∈ lru_ c).
    { intros kd Hin. apply removelast_elem in Hin. by apply elem_of_cons in Hin. }
    assert (Hnd : NoDup (removelast ((key, d) :: lru_ c)).*1).
    { destruct (exists_last (l := (key, d) :: lru_ c)) as (l' & x & E); [done|]. rewrite E, removelast_last.
      rewrite E, fmap_app in Hn'. by apply NoDup_app in Hn' as (? & _ & _). }
    split_and!; [split; [done|]|done|]; cbn [lru_ capacity_].
    + destruct (exists_last (l := (key, d) :: lru_ c)) as (l' & x & E); [done|]. rewrite E, removelast_last.
      apply (f_equal length) in E. rewrite length_app in E. cbn in E. lia.
    + intros Hc. apply lru_find_spec; [done|]. destruct (lru_ c) as [|y l]; [cbn in Hlt; lia|].
      change (removelast _) with ((key, d) :: removelast (y :: l)). by left.
  - split_and!; [by split|by intros kd ?%elem_of_cons|]. intros _. apply lru_find_spec; [done|]. by left.
Qed.
End Lru.
Arguments Lru : clear implicits.

(** ** Access *)

(** yahat::Auth *)
Record Auth : Type := MkAuth {
  account : string;
  access : bool;
  extra : option Session
}.

Definition no_auth : Auth := MkAuth "" false None.

Section Authorize.
Context `{AuthLibs}.
Context (has_auth disable_metrics no_metrics_auth : bool).

Definition createHash (seed passwd : string) : string := Base64Encode (bytes_of_string (digest (seed +:+ passwd))).

Definition getAuth (s : Session) (perm : permission) : Auth :=
  MkAuth (tenant_ s +:+ "/" +:+ who_ s) (isAllowed has_auth s perm) (Some s).

Definition find_user (userName : string) (tenant : Pb.Tenant) : option Pb.User :=
  List.find (fun u => String.eqb (toLowerStr (Pb.user_name u)) userName) (Pb.tenant_users tenant).

(** basicAuth from the user's lookup to the session; the exceptions are those
    for accounts that do not parse and for a tenant without a UUID. *)
Definition check_user (db : accounts) (userName pass : string) : verdict (option Session) :=
  match read_text db (init_key userName USER) with
  | None => Built None
  | Some tenantId =>
      tenant ← getTenant db tenantId;
      match tenant with
      | None => Built None
      | Some tenant =>
          match find_user userName tenant with
          | None => Built None
          | Some user =>
              match Pb.user_auth user with
              | None => Built None
              | Some auth =>
                  if String.eqb (createHash (Pb.auth_seed auth) pass) (Pb.auth_hash auth)
                  then s ← or_failed (new_session tenant userName (Pb.user_roles user)); Built (Some s)
                  else Built None
              end
          end
      end
  end.

Definition basicAuth_session (db : accounts) (keys : Lru Session) (hash auth_header : string) (required_perm : permission)
    : verdict (Auth * Lru Session) :=
  match Login.authorize auth_header with
  | None => Built (no_auth, keys)
  | Some (user, pass) =>
      session ← check_user db (string_of_bytes user) (string_of_bytes pass);
      match session with
      | None => Built (no_auth, keys)
      | Some s => keys ← lru_emplace hash s keys; Built (getAuth s required_perm, keys)
      end
  end.

Definition required (target : string) : permission := if String.eqb target "/metrics" then METRICS else USE_API.

Definition authorize (db : accounts) (keys : Lru Session) (target auth_header : string) : verdict (Auth * Lru Session) :=
  if String.eqb target "/metrics" && disable_metrics then Built (no_auth, keys)
  else if String.eqb target "/metrics" && no_metrics_auth then Built (MkAuth "anonymous-metrics" true None, keys)
  else if String.eqb auth_header "" then Built (no_auth, keys)
  else
    let hash := digest auth_header in
    match lru_get hash keys with
    | Some (existing, keys) => Built (getAuth existing (required target), keys)
    | None => basicAuth_session db keys hash auth_header (required target)
    end.

(** A change of the accounts that AuthMgr makes, which forgets the sessions
    (resetTokensForTenant), or a request. *)
Inductive auth_step : accounts * Lru Session -> accounts * Lru Session -> Prop :=
| auth_request db keys target hdr a keys' :
    authorize db keys target hdr = Built (a, keys') -> auth_step (db, keys) (db, keys')
| auth_change db keys db' : auth_step (db, keys) (db', lru_clear keys).

(** The header has the name and the password of a user. *)
Definition valid_header (db : accounts) (hdr : string) (s : Session) : Prop :=
  exists user pass, Login.authorize hdr = Some (user, pass) /\
    check_user db (string_of_bytes user) (string_of_bytes pass) = Built (Some s).

(** Every session in the cache is one of a valid header with its digest. *)
Definition keys_valid (db : accounts) (keys : Lru Session) : Prop :=
  lru_ok keys /\ Forall (fun ks => exists hdr, digest hdr = ks.1 /\ valid_header db hdr ks.2) (lru_ keys).

Lemma authorize_cases db keys target hdr a keys' :
  keys_valid db keys -> authorize db keys target hdr = Built (a, keys') ->
  keys_valid db keys' /\
  (access a = false \/ extra a = None /\ target = "/metrics"%string /\ no_metrics_auth = true \/
   exists s hdr', a = getAuth s (required target) /\ digest hdr' = digest hdr /\ valid_header db hdr' s).
Proof.
  intros [Hok Hall] Ha. unfold authorize in Ha.
  destruct (String.eqb target "/metrics" && disable_metrics); [injection Ha as <- <-; split; [done|by left]|].
  destruct (String.eqb target "/metrics" && no_metrics_auth) eqn:Em.
  { injection Ha as <- <-. apply andb_true_iff in Em as [->%String.eqb_eq ->]. split; [done|]. right. by left. }
  destruct (String.eqb hdr ""); [injection Ha as <- <-; split; [done|by left]|].
  destruct (lru_get (digest hdr) keys) as [[s keys1]|] eqn:Eg.
  - injection Ha as <- <-. destruct (lru_get_ok _ _ _ _ Hok Eg) as (Hok' & Hin & Heq). split.
    + split; [done|]. rewrite Forall_forall in Hall. apply Forall_forall. intros kd Hkd. by apply Hall, Heq.
    + rewrite Forall_forall in Hall. destruct (Hall _ Hin) as (hdr' & Hd & Hv). right. right. by exists s, hdr'.
  - unfold basicAuth_session in Ha. destruct (Login.authorize hdr) as [[user pass]|] eqn:El; [|injection Ha as <- <-; split; [done|by left]].
    destruct (check_user db _ _) as [[s|]| | |] eqn:Ec; try done; cbn [mbind verdict_bind] in Ha;
      [|injection Ha as <- <-; split; [done|by left]].
    destruct (lru_emplace _ _ _) as [keys1| | |] eqn:Ee; try done. cbn [mbind verdict_bind] in Ha. injection Ha as <- <-.
    destruct (lru_emplace_ok _ _ _ _ Hok Ee) as (Hok' & Hin & _).
    assert (Hv : valid_header db hdr s) by by exists user, pass. split.
    + split; [done|]. apply Forall_forall. intros kd [->|Hkd]%Hin; [by exists hdr|]. rewrite Forall_forall in Hall. by apply Hall.
    + right. right. by exists s, hdr.
Qed.

Lemma auth_steps_valid db0 n db keys :
  rtc auth_step (db0, MkLru n []) (db, keys) -> keys_valid db keys.
Proof.
  intros Hs. assert (Hv : keys_valid (db0, @MkLru Session n []).1 (db0, MkLru n []).2).
  { split; [split; [constructor|cbn; lia]|constructor]. }
  remember (db0, MkLru n []) as c eqn:Ec. clear Ec db0. remember (db, keys) as c' eqn:Ec'.
  enough (keys_valid c'.1 c'.2) as Hk by by rewrite Ec' in Hk.
  clear Ec' db keys. induction Hs as [c|c1 c2 c3 Hst _ IH]; [done|]. apply IH.
  destruct Hst as [db keys target hdr a keys' Ha|db keys db']; cbn in *; [by eapply authorize_cases|].
  split; [split; [constructor|cbn; lia]|constructor].
Qed.

(** A session is that of a user of a tenant, with the password. *)
Lemma check_user_some db user pass s :
  check_user db user pass = Built (Some s) ->
  exists tid tenant u auth, read_text db (init_key user USER) = Some tid /\ getTenant db tid = Built (Some tenant) /\
    u ∈ Pb.tenant_users tenant /\ toLowerStr (Pb.user_name u) = user /\ Pb.user_auth u = Some auth /\
    createHash (Pb.auth_seed auth) pass = Pb.auth_hash auth /\ new_session tenant user (Pb.user_roles u) = Some s.
Proof.
  unfold check_user. destruct (read_text db _) as [tid|] eqn:Eu; [|done].
  destruct (getTenant db tid) as [[tenant|]| | |] eqn:Et; cbn [mbind verdict_bind]; try done.
  destruct (find_user user tenant) as [u|] eqn:Ef; [|done].
  destruct (Pb.user_auth u) as [auth|] eqn:Ea; [|done].
  destruct (String.eqb_spec (createHash (Pb.auth_seed auth) pass) (Pb.auth_hash auth)) as [Eh|]; [|done].
  destruct (new_session tenant user (Pb.user_roles u)) as [s'|] eqn:En; [|done]. intros [= ->].
  apply find_some in Ef as [Hin%list_elem_of_In Hn%String.eqb_eq]. by exists tid, tenant, u, auth.
Qed.

(** Access is authentic: whatever requests and changes of accounts came
    before, a request that is given access to the API carries a header with
    the digest of one whose user exists now with that password, and it acts in
    that user's session: the tenant's, with the user's roles. *)
Theorem access_authentic db0 n db keys target hdr a keys' :
  rtc auth_step (db0, MkLru n []) (db, keys) -> target <> "/metrics"%string ->
  authorize db keys target hdr = Built (a, keys') -> access a = true ->
  exists hdr' user pass tid tenant u auth s,
    digest hdr' = digest hdr /\ Login.authorize hdr' = Some (user, pass) /\
    read_text db (init_key (string_of_bytes user) USER) = Some tid /\ getTenant db tid = Built (Some tenant) /\
    u ∈ Pb.tenant_users tenant /\ toLowerStr (Pb.user_name u) = string_of_bytes user /\ Pb.user_auth u = Some auth /\
    createHash (Pb.auth_seed auth) (string_of_bytes pass) = Pb.auth_hash auth /\
    new_session tenant (string_of_bytes user) (Pb.user_roles u) = Some s /\ extra a = Some s.
Proof.
  intros Hs%auth_steps_valid Ht Ha Hacc. destruct (authorize_cases _ _ _ _ _ _ Hs Ha) as (_ & [Hf|[(_ & ? & _)|(s & hdr' & -> & Hd & Hv)]]);
    [congruence|done|]. destruct Hv as (user & pass & Hl & Hc). apply check_user_some in Hc as (tid & tenant & u & auth & Hc).
  exists hdr', user, pass, tid, tenant, u, auth, s. tauto.
Qed.

(** What a header that is not in the cache gets. *)
Lemma authorize_fresh db keys target hdr user pass :
  lru_find (digest hdr) (lru_ keys) = None -> hdr <> ""%string -> target <> "/metrics"%string ->
  Login.authorize hdr = Some (user, pass) ->
  authorize db keys target hdr
  = session ← check_user db (string_of_bytes user) (string_of_bytes pass);
    match session with
    | None => Built (no_auth, keys)
    | Some s => keys ← lru_emplace (digest hdr) s keys; Built (getAuth s USE_API, keys)
    end.
Proof.
  intros Hf Hne%String.eqb_neq Ht%String.eqb_neq Hl. unfold authorize, basicAuth_session, lru_get, required.
  rewrite Ht, Hne, Hf. cbn [andb mbind option_bind]. by rewrite Hl.
Qed.

(** Requests one after the other: their targets and headers. *)
Fixpoint authorize_all (db : accounts) (keys : Lru Session) (reqs : list (string * string))
    : verdict (list Auth * Lru Session) :=
  match reqs with
  | [] => Built ([], keys)
  | (target, hdr) :: reqs' =>
      r ← authorize db keys target hdr;
      rs ← authorize_all db r.2 reqs';
      Built (r.1 :: rs.1, rs.2)
  end.

(** The cache has nothing for the headers of [mine] but the session [s], and
    this only if the password is right. *)
Definition only_cached (mine : string -> Prop) (s : Session) (right : bool) (keys : Lru Session) : Prop :=
  lru_ok keys /\ forall h v, mine h -> lru_find (digest h) (lru_ keys) = Some v -> v = s /\ right = true.

Lemma lru_later (mine : string -> Prop) s right keys keys' :
  only_cached mine s right keys -> lru_ok keys' ->
  (forall kd, kd ∈ lru_ keys' -> kd ∈ lru_ keys \/ kd.2 = s /\ right = true) ->
  only_cached mine s right keys'.
Proof.
  intros [Hok Hc] Hok' Hk. split; [done|]. intros h v Hh Hf. apply lru_find_spec in Hf; [|apply Hok'].
  apply Hk in Hf as [Hin|[? ?]]; [|done]. apply (Hc h v Hh). by apply lru_find_spec; [apply Hok|].
Qed.

(** A request with a header of the user. *)
Lemma authorize_user db mine s right keys target hdr user pass :
  only_cached mine s right keys -> mine hdr -> target <> "/metrics"%string -> hdr <> ""%string ->
  Login.authorize hdr = Some (user, pass) ->
  check_user db (string_of_bytes user) (string_of_bytes pass) = Built (if right then Some s else None) ->
  exists keys', authorize db keys target hdr = Built (if right then getAuth s USE_API else no_auth, keys') /\
    only_cached mine s right keys'.
Proof.
  intros Hc Hm Ht Hne Hl Hu. destruct (lru_get (digest hdr) keys) as [[v keys1]|] eqn:Eg.
  - destruct (lru_get_ok _ _ _ _ (proj1 Hc) Eg) as (Hok1 & Hin & Heq).
    destruct (proj2 Hc hdr v Hm) as [-> ->]; [by apply lru_find_spec; [apply Hc|]|]. exists keys1. split.
    + unfold authorize, required. apply String.eqb_neq in Ht as ->, Hne as ->. cbn [andb]. by rewrite Eg.
    + eapply lru_later; [exact Hc|done|]. intros kd Hkd. left. by apply Heq.
  - assert (Hf : lru_find (digest hdr) (lru_ keys) = None) by (unfold lru_get in Eg; by destruct (lru_find _ _)).
    rewrite (authorize_fresh _ _ _ _ _ _ Hf Hne Ht Hl), Hu. destruct right; cbn [mbind verdict_bind]; [|by exists keys].
    destruct (lru_emplace (digest hdr) s keys) as [keys1| | |] eqn:Ee;
      try (unfold lru_emplace in Ee; by rewrite Hf in Ee). cbn [mbind verdict_bind].
    exists keys1. split; [done|]. destruct (lru_emplace_ok _ _ _ _ (proj1 Hc) Ee) as (Hok1 & Hin & _).
    eapply lru_later; [exact Hc|done|]. intros kd [->|Hkd]%Hin; auto.
Qed.

(** C17: Logging in, from the form to the session.  The form's request and the
    requests of the application after it carry the name and password that were
    entered (characters of a byte, without a colon in the name).  On a server
    that has a user of the name, with a hash, and no session in its cache for
    these headers yet, any sequence of such requests, for other paths than
    /metrics, the first checked against the accounts
    and the later ones against the cache, is answered in the same way: in the
    user's own session if the password is the user's, which gives access to the
    API exactly if the session has the permission USE_API, and without a
    session and access otherwise. *)
Theorem login_session app name pass h st db keys tid tenant u auth s :
  Forall is_byte name -> Forall is_byte pass -> colon ∉ name ->
  let lname := string_of_bytes (toLower name) in
  read_text db (init_key lname USER) = Some tid -> getTenant db tid = Built (Some tenant) -> find_user lname tenant = Some u ->
  Pb.user_auth u = Some auth -> new_session tenant lname (Pb.user_roles u) = Some s -> lru_ok keys ->
  let right := String.eqb (createHash (Pb.auth_seed auth) (string_of_bytes pass)) (Pb.auth_hash auth) in
  let t := run (quiet true (Resp true st None)) (login_submit app name pass h) in
  exists req hdr hdr', sent t = [req] /\ headers req = [("Authorization"%string, hdr)] /\
    getAuthHeader (login_state app (emitted t)) = [("Authorization"%string, hdr')] /\
    let mine := [normalize_header hdr; normalize_header hdr'] in
    Forall (fun sent_hdr => lru_find (digest sent_hdr) (lru_ keys) = None) mine ->
    forall reqs, Forall (fun th => th.1 <> "/metrics"%string /\ th.2 ∈ mine) reqs ->
      exists answers keys', authorize_all db keys reqs = Built (answers, keys') /\ length answers = length reqs /\
        Forall (fun a => extra a = (if right then Some s else None) /\
                         access a = right && isAllowed has_auth s USE_API) answers.
Proof.
  intros Hn Hp Hc lname Hu Ht Hf Ha Hs Hok right. set (t := run _ _).
  destruct (login_headers app name pass h st Hn Hp Hc) as [(req & hdr & Hsent & Hh & Hl) (hdr' & Hh' & Hl')].
  exists req, hdr, hdr'. split_and!; [done..|]. intros mine Hfresh reqs Hreqs.
  assert (Hlog : forall sh, sh ∈ mine -> Login.authorize sh = Some (toLower name, pass)).
  { intros sh [->|[->|[]%elem_of_nil]%elem_of_cons]%elem_of_cons; done. }
  assert (Hck : check_user db (string_of_bytes (toLower name)) (string_of_bytes pass) = Built (if right then Some s else None)).
  { unfold check_user. fold lname. rewrite Hu, Ht. cbn [mbind verdict_bind]. rewrite Hf, Ha. fold right.
    destruct right; [|done]. by rewrite Hs. }
  assert (Hcache : only_cached (fun h => h ∈ mine) s right keys).
  { split; [done|]. intros sh v Hsh Hv. rewrite Forall_forall in Hfresh. by rewrite (Hfresh sh Hsh) in Hv. }
  clear Hok Hfresh. revert keys Hcache. induction Hreqs as [|[target sh] reqs [Htg Hsh] _ IH]; intros keys Hcache.
  - by exists [], keys.
  - cbn [fst snd] in *. assert (Hne : sh <> ""%string) by (intros ->; by apply Hlog in Hsh).
    destruct (authorize_user db _ s right keys target sh _ _ Hcache Hsh Htg Hne (Hlog _ Hsh) Hck) as (keys1 & E1 & Hc1).
    destruct (IH keys1 Hc1) as (answers & keys' & E & Hlen & Hall). cbn [authorize_all]. rewrite E1.
    cbn [mbind verdict_bind snd]. rewrite E. cbn [mbind verdict_bind fst snd]. eexists _, _. split_and!; [done|by cbn; rewrite Hlen|].
    constructor; [by destruct right|done].
Qed.
End Authorize.

(** Whether a user or a tenant is active makes no difference. *)
Definition set_active (active : option bool) (t : Pb.Tenant) : Pb.Tenant :=
  Pb.MkTenant (Pb.opt_tenant_id t) (Pb.opt_tenant_name t) active (Pb.tenant_root t) (Pb.tenant_allowed t) (Pb.tenant_roles t)
    ((fun u => Pb.MkUser (Pb.opt_user_id u) (Pb.opt_user_name u) active (Pb.user_roles u) (Pb.user_auth u)) <$> Pb.tenant_users t).

Theorem inactive_user_logs_in `{AuthLibs} db active user pass :
  check_user ((fun v => match v with ATenant t => ATenant (set_active active t) | _ => v end) <$> db) user pass
  = check_user db user pass.
Proof.
  unfold check_user, read_text, getTenant, get_tenant. rewrite lookup_fmap.
  destruct (db !! init_key user USER) as [[|t|tid]|]; cbn [fmap option_fmap option_map]; try done.
  rewrite lookup_fmap. destruct (db !! tenant_key tid) as [[|t|]|]; cbn [fmap option_fmap option_map mbind verdict_bind]; try done.
  unfold find_user. cbn [Pb.tenant_users set_active].
  assert (E : forall f : Pb.User -> Pb.User, (forall u, Pb.user_name (f u) = Pb.user_name u) ->
    List.find (fun u => String.eqb (toLowerStr (Pb.user_name u)) user) (f <$> Pb.tenant_users t)
    = f <$> List.find (fun u => String.eqb (toLowerStr (Pb.user_name u)) user) (Pb.tenant_users t)).
  { intros f Hf. induction (Pb.tenant_users t) as [|u l IH]; [done|]. rewrite fmap_cons. cbn [List.find]. rewrite Hf.
    by destruct (String.eqb (toLowerStr (Pb.user_name u)) user). }
  rewrite E by done. by destruct (List.find _ _) as [u|].
Qed.

Module SessionsDemo.
Import AccessDemo.

(** Alice of [AccessDemo] with the password "p:w". *)
Definition alice2 : Pb.User :=
  Pb.MkUser None (Some "Alice"%string) (Some false) ["net"%string] (Some (Pb.MkAuth (Some (createHash "salt" "p:w")) (Some "salt"%string) None)).
Definition demo_tenant : Pb.Tenant := Pb.MkTenant (Some "t2"%string) None (Some true) None [] [net_role; zone_role] [bob; alice2].
Definition demo_db : accounts := 
  {[ user_key "Alice" := AText "t2"; user_key "bob" := AText "t2"; tenant_key "t2" := ATenant demo_tenant ]}.
Definition alice_s : Session := default (MkSession "" "" "" 0 []) (new_session demo_tenant "alice" ["net"%string]).
Definition hdr_alice : string := "Basic QWxpY2U6cDp3".
Definition first_keys : Lru Session :=
  match authorize true false false demo_db (MkLru 10 []) "/api/v1/version" hdr_alice with Built (_, k) => k | _ => MkLru 10 [] end.

Lemma first_request :
  authorize true false false demo_db (MkLru 10 []) "/api/v1/version" hdr_alice = Built (MkAuth "t2/alice" true (Some alice_s), first_keys).
Proof. vm_compute. reflexivity. Qed.

(** The second request is answered from the cache. *)
Lemma second_request :
  authorize true false false demo_db first_keys "/api/v1/zone" hdr_alice = Built (MkAuth "t2/alice" true (Some alice_s), first_keys).
Proof. vm_compute. reflexivity. Qed.

Example wrong_password :
  authorize true false false demo_db (MkLru 10 []) "/api/v1/version" "Basic QWxpY2U6cDp4" = Built (no_auth, MkLru 10 []).
Proof. vm_compute. reflexivity. Qed.

Lemma access_authentic_witness :
  exists hdr' user pass tid tenant u auth s,
    digest hdr' = digest hdr_alice /\ Login.authorize hdr' = Some (user, pass) /\
    read_text demo_db (init_key (string_of_bytes user) USER) = Some tid /\ getTenant demo_db tid = Built (Some tenant) /\
    u ∈ Pb.tenant_users tenant /\ toLowerStr (Pb.user_name u) = string_of_bytes user /\ Pb.user_auth u = Some auth /\
    createHash (Pb.auth_seed auth) (string_of_bytes pass) = Pb.auth_hash auth /\
    new_session tenant (string_of_bytes user) (Pb.user_roles u) = Some s /\ Some alice_s = Some s.
Proof.
  refine (access_authentic true false false demo_db 10 demo_db first_keys "/api/v1/zone" hdr_alice
            (MkAuth "t2/alice" true (Some alice_s)) first_keys
            (rtc_once _ _ (auth_request _ _ _ _ _ _ _ _ _ first_request)) _ second_request eq_refl).
  discriminate.
Defined.

(** The form's request and two of the application. *)
Definition first_requests (hdr hdr' : string) : list (string * string) :=
  [("/api/v1/version", normalize_header hdr); ("/api/v1/zone", normalize_header hdr');
   ("/api/v1/zone/ex.net", normalize_header hdr')]%string.

Lemma login_session_witness :
  let t := run (quiet true (Resp true "OK" None)) (login_submit initialState LoginDemo.name LoginDemo.pass []) in
  exists req hdr hdr', sent t = [req] /\ headers req = [("Authorization"%string, hdr)] /\
    getAuthHeader (login_state initialState (emitted t)) = [("Authorization"%string, hdr')] /\
    exists answers keys', authorize_all true false false demo_db (MkLru 10 []) (first_requests hdr hdr') = Built (answers, keys') /\
      length answers = 3%nat /\ Forall (fun a => extra a = Some alice_s /\ access a = true) answers.
Proof.
  destruct (login_session true false false initialState LoginDemo.name LoginDemo.pass [] "OK" demo_db (MkLru 10 [])
            "t2" demo_tenant alice2 (Pb.MkAuth (Some (createHash "salt" "p:w")) (Some "salt"%string) None) alice_s
            LoginDemo.name_bytes LoginDemo.pass_bytes) as (req & hdr & hdr' & H1 & H2 & H3 & H4).
  - apply (bool_decide_unpack _). vm_compute. exact I.
  - vm_compute. reflexivity.
  - vm_compute. reflexivity.
  - vm_compute. reflexivity.
  - reflexivity.
  - vm_compute. reflexivity.
  - split; [constructor|cbn; lia].
  - exists req, hdr, hdr'. split; [exact H1|]. split; [exact H2|]. split; [exact H3|].
    destruct (H4 (Forall_true _ _ (fun _ => eq_refl)) (first_requests hdr hdr')) as (answers & keys' & E & Hlen & Hall).
    + unfold first_requests. repeat apply Forall_cons_2; try apply Forall_nil_2; (split; [discriminate|]);
        (by left) || (right; by left).
    + exists answers, keys'. split; [exact E|]. split; [exact Hlen|]. eapply Forall_impl; [exact Hall|].
      intros a [Hx Ha]. split; [rewrite Hx|rewrite Ha]; vm_compute; reflexivity.
Defined.
End SessionsDemo.
