(* ===== verification/Admin.v ===== *)
(** * The administration of tenants, users and roles

    AuthMgr::createTenant, upsertTenant and deleteTenant with processUsers and
    the indexes of users and names (lib/AuthMgr.cpp), and the handlers /tenant,
    /role, /user and /permissions over them (lib/RestApi.cpp).  A user created
    through the interface can log in with the password it was given, and one
    that is deleted cannot; the index of users is exact.  PATCH of a tenant is
    the exception, and nothing bounds the permissions of a role. *)

From stdpp Require Import gmap sorting.
From S2P Require Import Prelude JsNumber JsValue ServerUtil Qargs Paging RealKey KeyBlock ListServer RrBuild Permissions RrRest Access AccountDb RestZone Accounts Login Sessions.

Local Open Scope Z_scope.

(** ** Exceptions *)

(** A result, or the exception with the status its class stands for
    (include/nsblast/errors.h). *)
Inductive outcome (A : Type) : Type := Done (a : A) | Thrown (status : Z).
Arguments Done {A} a.
Arguments Thrown {A} status.

#[export] Instance outcome_bind : MBind outcome :=
  fun A B f o => match o with Done a => f a | Thrown s => Thrown s end.

#[export] Instance outcome_fmap : FMap outcome := fun A B f o => match o with Done a => Done (f a) | Thrown s => Thrown s end.

(** AlreadyExistException, and an entry that does not parse. *)
Definition or_exists {A} (o : option A) : outcome A := match o with Some a => Done a | None => Thrown 409 end.
Definition or_internal {A} (v : verdict A) : outcome A := match v with Built a => Done a | _ => Thrown 500 end.

(** ** Lists of messages: lib/proto_util.h *)

Section Lists.
Context {A : Type} (name_of : A -> option string).

Definition named_as (name : string) (x : A) : bool :=
  match name_of x with Some n => compareCaseInsensitive n name true | None => false end.

Definition getFromList (l : list A) (name : string) : option A := List.find (named_as name) l.

Fixpoint removeFromList (l : list A) (name : string) : list A :=
  match l with
  | [] => []
  | x :: l => if named_as name x then l else x :: removeFromList l name
  end.
End Lists.

Fixpoint removeValueFromListOfValues (l : list string) (key : string) : list string :=
  match l with
  | [] => []
  | x :: l => if String.eqb x key then l else x :: removeValueFromListOfValues l key
  end.

Abbreviation find_role_named := (getFromList Pb.opt_role_name).
Abbreviation find_user_named := (getFromList Pb.opt_user_name).

(** The ids of the system's tenant and of its administrator. *)
Definition nsblastTenantUuid : string := "85b185fc-6767-11ee-aad2-1bf9c8825814".
Definition admin_id : string := "d98e539e-fc78-11ed-9f34-bbfe306147e3".

(** ** Setters of protobuf *)

Definition with_id (id : string) (t : Pb.Tenant) : Pb.Tenant :=
  Pb.MkTenant (Some id) (Pb.opt_tenant_name t) (Pb.tenant_active t) (Pb.tenant_root t) (Pb.tenant_allowed t) (Pb.tenant_roles t) (Pb.tenant_users t).

Definition with_users (us : list Pb.User) (t : Pb.Tenant) : Pb.Tenant :=
  Pb.MkTenant (Pb.opt_tenant_id t) (Pb.opt_tenant_name t) (Pb.tenant_active t) (Pb.tenant_root t) (Pb.tenant_allowed t) (Pb.tenant_roles t) us.

Definition with_roles (rs : list Pb.Role) (t : Pb.Tenant) : Pb.Tenant :=
  Pb.MkTenant (Pb.opt_tenant_id t) (Pb.opt_tenant_name t) (Pb.tenant_active t) (Pb.tenant_root t) (Pb.tenant_allowed t) rs (Pb.tenant_users t).

Definition default_active (t : Pb.Tenant) : Pb.Tenant :=
  Pb.MkTenant (Pb.opt_tenant_id t) (Pb.opt_tenant_name t) (Some (default true (Pb.tenant_active t))) (Pb.tenant_root t)
    (Pb.tenant_allowed t) (Pb.tenant_roles t) (Pb.tenant_users t).

Definition user_with (id : option string) (auth : option Pb.UserAuth) (u : Pb.User) : Pb.User :=
  Pb.MkUser id (Pb.opt_user_name u) (Pb.user_active u) (Pb.user_roles u) auth.

Definition user_named (name : string) (u : Pb.User) : Pb.User :=
  Pb.MkUser (Pb.opt_user_id u) (Some name) (Pb.user_active u) (Pb.user_roles u) (Pb.user_auth u).

Definition user_with_roles (rs : list string) (u : Pb.User) : Pb.User :=
  Pb.MkUser (Pb.opt_user_id u) (Pb.opt_user_name u) (Pb.user_active u) rs (Pb.user_auth u).

(** Message::MergeFrom: what is present replaces, lists are appended. *)
Definition or_old {A} (new old : option A) : option A := match new with Some _ => new | None => old end.

Definition MergeFrom (old new : Pb.Tenant) : Pb.Tenant :=
  Pb.MkTenant (or_old (Pb.opt_tenant_id new) (Pb.opt_tenant_id old)) (or_old (Pb.opt_tenant_name new) (Pb.opt_tenant_name old))
    (or_old (Pb.tenant_active new) (Pb.tenant_active old)) (or_old (Pb.tenant_root new) (Pb.tenant_root old))
    (Pb.tenant_allowed old ++ Pb.tenant_allowed new) (Pb.tenant_roles old ++ Pb.tenant_roles new)
    (Pb.tenant_users old ++ Pb.tenant_users new).

(** ** AuthMgr *)

Section AuthMgr.
Context `{AuthLibs}.
(** The random values: newUuidStr for the tenant, and newUuidStr and getSeed
    for each user of the list. *)
Context (new_tenant : string) (new_id new_seed : nat -> string).
(** The record sets, where isNew looks. *)
Context (m : index).

(** The id a user gets, and its authentication with the hash in the place of
    the password. *)
Definition user_id_for (existing : option Pb.Tenant) (n : nat) (u : Pb.User) : string :=
  match Pb.opt_user_id u with
  | Some id => id
  | None =>
      match (t ← existing; find_user_named (Pb.tenant_users t) (Pb.user_name u)) with
      | Some e => Pb.user_id e
      | None => new_id n
      end
  end.

Definition process_auth (n : nat) (auth : Pb.UserAuth) : outcome Pb.UserAuth :=
  let seed := default (new_seed n) (Pb.opt_seed auth) in
  match Pb.opt_password auth with
  | Some password => Done (Pb.MkAuth (Some (createHash seed password)) (Some seed) None)
  | None =>
      match Pb.opt_hash auth with
      | Some _ => Done (Pb.MkAuth (Pb.opt_hash auth) (Some seed) None)
      | None => Thrown 400
      end
  end.

(** The loop of processUsers; [used] are the ids of the users before. *)
Fixpoint process_users (roles : list Pb.Role) (existing : option Pb.Tenant) (n : nat) (used : list string) (us : list Pb.User)
    : outcome (list Pb.User) :=
  match us with
  | [] => Done []
  | u :: us =>
      if (64 <? String.length (Pb.user_name u))%nat || (64 <? String.length (Pb.user_id u))%nat then Thrown 400
      else
        let id := user_id_for existing n u in
        if existsb (String.eqb id) used then Thrown 400
        else
          match Pb.user_auth u with
          | None => Thrown 400
          | Some auth =>
              if (128 <? String.length (Pb.auth_hash auth))%nat || (128 <? String.length (Pb.auth_seed auth))%nat
                 || (512 <? String.length (Pb.auth_password auth))%nat then Thrown 400
              else if negb (forallb (fun r => bool_decide (is_Some (find_role_named roles r))) (Pb.user_roles u)) then Thrown 400
              else
                auth ← process_auth n auth;
                us ← process_users roles existing (S n) (id :: used) us;
                Done (user_with (Some id) (Some auth) u :: us)
          end
  end.

Definition processUsers (tenant : Pb.Tenant) (existing : option Pb.Tenant) : outcome Pb.Tenant :=
  us ← process_users (Pb.tenant_roles tenant) existing 0 [] (Pb.tenant_users tenant);
  Done (with_users us tenant).

(** upsertUserIndexes: the old names of the tenant go, and its users' names are
    entered, unless one is another tenant's. *)
Definition unindex_user (tid : string) (a : accounts) (u : Pb.User) : accounts :=
  match read_text a (user_key (Pb.user_name u)) with
  | Some tenant_id => if compareCaseInsensitive tenant_id tid true then delete (user_key (Pb.user_name u)) a else a
  | None => a
  end.

Fixpoint index_users (a : accounts) (tid : string) (us : list Pb.User) : outcome accounts :=
  match us with
  | [] => Done a
  | u :: us =>
      let key := user_key (Pb.user_name u) in
      if match read_text a key with Some tenant_id => negb (compareCaseInsensitive tenant_id tid true) | None => false end
      then Thrown 409
      else a ← or_exists (write_account m a key (AText (toLowerStr tid)) false); index_users a tid us
  end.

Definition upsertUserIndexes (a : accounts) (tenant : Pb.Tenant) (existing : option Pb.Tenant) : outcome accounts :=
  let a := match existing with
           | Some t => fold_left (unindex_user (Pb.tenant_id tenant)) (Pb.tenant_users t) a
           | None => a
           end in
  index_users a (Pb.tenant_id tenant) (Pb.tenant_users tenant).

Definition upsertTenantIndexes (a : accounts) (tenant : Pb.Tenant) (existing : option Pb.Tenant) : outcome accounts :=
  let enter a := or_exists (write_account m a (name_key (Pb.tenant_name tenant)) (AText (Pb.tenant_id tenant)) true) in
  match existing with
  | Some t =>
      if String.eqb (Pb.tenant_name t) (Pb.tenant_name tenant) then Done a
      else enter (delete (name_key (Pb.tenant_name t)) a)
  | None => enter a
  end.

(** deleteUserIndexes, deleteTenantIndexes *)
Definition deleteUserIndexes (a : accounts) (tenant : Pb.Tenant) : accounts :=
  fold_left (fun a u =>
      match read_text a (user_key (Pb.user_name u)) with
      | Some existing =>
          if String.eqb (toLowerStr existing) (toLowerStr (Pb.tenant_id tenant)) then delete (user_key (Pb.user_name u)) a else a
      | None => delete (user_key (Pb.user_name u)) a
      end) (Pb.tenant_users tenant) a.

Definition deleteTenantIndexes (a : accounts) (tenant : Pb.Tenant) : accounts := delete (name_key (Pb.tenant_name tenant)) a.

Definition account_exists (a : accounts) (key : string) : bool := bool_decide (is_Some (a !! key)).

(** The id, and the accounts.  The key of the name is made of the id. *)
Definition createTenant (a : accounts) (tenant : Pb.Tenant) : outcome (string * accounts) :=
  let id := match Pb.opt_tenant_id tenant with Some id => toLowerStr id | None => new_tenant end in
  let tenant := default_active (with_id id tenant) in
  if account_exists a (tenant_key id) then Thrown 409
  else if account_exists a (name_key id) then Thrown 409
  else
    tenant ← processUsers tenant None;
    a ← or_exists (write_account m a (tenant_key id) (ATenant tenant) true);
    a ← upsertUserIndexes a tenant None;
    a ← upsertTenantIndexes a tenant None;
    Done (id, a).

(** Whether the tenant is new, and the accounts and sessions. *)
Definition upsertTenant (a : accounts) (keys : Lru Session) (tenantId : string) (tenant : Pb.Tenant) (merge : bool)
    : outcome (bool * accounts * Lru Session) :=
  if match Pb.opt_tenant_id tenant with Some id => negb (String.eqb id tenantId) | None => false end then Thrown 400
  else
    let id := toLowerStr (Pb.tenant_id tenant) in
    let key := tenant_key id in
    existing ← or_internal (getTenant a id);
    match merge, existing with
    | true, Some old =>
        let old := MergeFrom old tenant in
        a ← or_exists (write_account m a key (ATenant old) false);
        a ← upsertTenantIndexes a tenant (Some old);
        Done (false, a, lru_clear keys)
    | _, _ =>
        tenant ← processUsers tenant existing;
        a ← or_exists (write_account m a key (ATenant tenant) false);
        a ← upsertUserIndexes a tenant existing;
        a ← upsertTenantIndexes a tenant existing;
        Done (match existing with
              | Some _ => (false, a, lru_clear keys)
              | None => (true, a, keys)
              end)
    end.

Definition deleteTenant (a : accounts) (keys : Lru Session) (tenantId : string) : outcome (accounts * Lru Session) :=
  let key := tenant_key (toLowerStr tenantId) in
  if negb (account_exists a key) then Thrown 404
  else
    tenant ← or_internal (getTenant a tenantId);
    let a := match tenant with
             | Some t => deleteTenantIndexes (deleteUserIndexes a t) t
             | None => a
             end in
    Done (remove_accounts key a, lru_clear keys).

(** bootstrap: the tenant of the system with its administrator. *)
Definition admin_role : Pb.Role :=
  Pb.MkRole (Some "Administrator"%string) all_permissions (Some (Pb.MkFilter (Some ""%string) (Some true) None)).

Definition bootstrap_tenant (seed passwd : string) : Pb.Tenant :=
  Pb.MkTenant (Some nsblastTenantUuid) (Some "nsblast") (Some true) (Some "") all_permissions [admin_role]
    [Pb.MkUser (Some admin_id) (Some "admin") (Some true) [Pb.role_name admin_role]
       (Some (Pb.MkAuth (Some (createHash seed passwd)) (Some seed) None))]%string.

(** The password, and what is written to password.txt: [env] is the variable
    NSBLAST_ADMIN_PASSWORD and [random] the string of getRandomStr. *)
Definition admin_password (env : option string) (random : string) : string * option string :=
  match env with
  | Some p => (if String.eqb p "" then random else p, None)
  | None => (random, Some random)
  end.

Definition bootstrap (a : accounts) (env : option string) (seed random : string) : outcome accounts :=
  snd <$> createTenant a (bootstrap_tenant seed (admin_password env random).1).

(** Server::resetAuth, from startAuth on: a new database is bootstrapped
    before. *)
Definition resetAuth (was_bootstrapped : bool) (a : accounts) (keys : Lru Session) (env : option string)
    (seed random : nat -> string) : outcome accounts :=
  a ← (if was_bootstrapped then bootstrap a env (seed 0%nat) (random 0%nat) else Done a);
  a ← match deleteTenant a keys "nsblast" with
      | Done (a, _) => Done a
      | Thrown status => if status =? 404 then Done a else Thrown status
      end;
  bootstrap a env (seed 1%nat) (random 1%nat).
End AuthMgr.

(** ** The handlers *)

(** What a response carries. *)
Inductive reply : Type :=
| NoValue
| OneTenant (t : Pb.Tenant)
| OneRole (r : Pb.Role)
| OneUser (u : Pb.User)
| SomeRoles (rs : list Pb.Role)
| SomeUsers (us : list Pb.User)
| SomeTenants (kind : KindOfListing) (ts : list Pb.Tenant)
| SomePermissions (ps : list permission).

(** The accounts and the cache of sessions. *)
Record admin : Type := Admin { accs : accounts; sessions : Lru Session }.

Definition response : Type := Z * reply * admin.

Section Handlers.
Context `{RestLibs} `{AuthLibs} (has_auth : bool).
(** JsonStringToMessage of protobuf, and the status of an empty response. *)
Context (tenantFromJson : string -> option Pb.Tenant) (roleFromJson : string -> option Pb.Role).
Context (userFromJson : string -> option Pb.User) (no_status : Z).
Context (new_tenant new_user : string) (new_id new_seed : nat -> string) (m : index) (cfg : rest_config).

Abbreviation allowed := (isAllowed has_auth).
Abbreviation upsert' := (upsertTenant new_id new_seed m).

(** An exception becomes the response; the transaction is dropped. *)
Definition respond {A} (st : admin) (o : outcome A) (k : A -> response) : response :=
  match o with Done x => k x | Thrown status => (status, NoValue, st) end.

Definition isValidUuid (id : string) : bool :=
  match parse_uuid id with Some u => known_version u | None => false end.

(** The checks of the body and the target before onTenant acts. *)
Definition tenant_body (q : rest_request) (lowercaseKey : string) : Pb.Tenant + Z :=
  if negb (expectBody (q_method q)) then inl (Pb.MkTenant None None None None [] [] [])
  else
    match tenantFromJson (q_body q) with
    | None => inr 400
    | Some tenant =>
        let checked := match q_method q with
          | POST => if negb (String.eqb (q_target q) "") then inr 400 else inl tenant
          | PUT | PATCH =>
              if String.eqb (q_target q) "" then inr 400
              else match Pb.opt_tenant_id tenant with
                   | Some id => if negb (String.eqb (toLowerStr id) lowercaseKey) then inr 400 else inl tenant
                   | None => inl (with_id lowercaseKey tenant)
                   end
          | _ => inl tenant
          end in
        checked
    end.

(** return_tenant *)
Definition return_tenant (st : admin) (key : string) (rcode : Z) : response :=
  respond st (or_internal (getTenant (accs st) key)) (fun t =>
    match t with Some t => (rcode, OneTenant t, st) | None => (404, NoValue, st) end).

(** The walk of listTenants: the callback goes on while the count, with this
    tenant, is at most the size of the page. *)
Fixpoint walk_tenants (page_size count : nat) (l : list (string * AccountDb.account)) : outcome (list Pb.Tenant) :=
  match l with
  | [] => Done []
  | (key, v) :: l =>
      if negb (isSameKeyClass (tenant_key "") key) then Done []
      else match v with
           | ATenant t =>
               if (S count <=? page_size)%nat then ts ← walk_tenants page_size (S count) l; Done (t :: ts) else Done [t]
           | _ => Thrown 500
           end
  end.

(** listTenants: iterateFromPrevT skips the last record that is not after the
    key, or begins with the first of the database; iterateT begins at the first
    that is not before it. *)
Definition listTenants (st : admin) (q : rest_request) : response :=
  let records := account_records (accs st) in
  match getPageSize cfg (q_args q) with
  | None => (500, NoValue, st)
  | Some page_size =>
      match getKindOfListing [DEFAULT; BRIEF; ID] (q_args q) with
      | None => (400, NoValue, st)
      | Some kind =>
          let from := getFrom (q_args q) in
          let l := if String.eqb from "" then List.filter (fun r => String.leb (tenant_key "") r.1) records
                   else drop (count_le (tenant_key from) records) records in
          respond st (walk_tenants page_size 0 l) (fun ts => (200, SomeTenants kind ts, st))
      end
  end.

Definition onTenant (st : admin) (s : Session) (q : rest_request) : response :=
  let lowercaseKey := toLowerStr (q_target q) in
  let self := String.eqb lowercaseKey (tenant_ s) in
  let upsert tenant merge :=
    if negb (allowed s UPDATE_TENANT) then (403, NoValue, st)
    else respond st (upsert' (accs st) (sessions st) lowercaseKey tenant merge) (fun '(was_new, a, keys) =>
           return_tenant (Admin a keys) lowercaseKey (if was_new : bool then 201 else 200)) in
  match tenant_body q lowercaseKey with
  | inr status => (status, NoValue, st)
  | inl tenant =>
      if match Pb.opt_tenant_id tenant with Some id => negb (isValidUuid id) | None => false end then (400, NoValue, st)
      else
        match q_method q with
        | GET =>
            if String.eqb (q_target q) "" then
              if allowed s LIST_TENANTS then listTenants st q else (403, NoValue, st)
            else if allowed s GET_TENANT || self && allowed s GET_SELF_TENANT then return_tenant st lowercaseKey 200
            else (403, NoValue, st)
        | POST =>
            if negb (String.eqb (q_target q) "") then (400, NoValue, st)
            else if negb (allowed s CREATE_TENANT) then (403, NoValue, st)
            else respond st (createTenant new_tenant new_id new_seed m (accs st) tenant) (fun '(id, a) =>
                   let st := Admin a (sessions st) in
                   respond st (or_internal (getTenant a id)) (fun t =>
                     match t with Some t => (201, OneTenant t, st) | None => (500, NoValue, st) end))
        | PUT => upsert tenant false
        | PATCH => upsert tenant true
        | DELETE =>
            if allowed s DELETE_TENANT || self && allowed s DELETE_SELF_TENANT then
              respond st (deleteTenant (accs st) (sessions st) lowercaseKey) (fun '(a, keys) => (200, NoValue, Admin a keys))
            else (403, NoValue, st)
        | OTHER => (400, NoValue, st)
        end
  end.

(** The session and the tenant of a request, or the response of
    getSessionAndTenant. *)
Definition with_tenant (st : admin) (s : Session) (q : rest_request) (k : Session -> Pb.Tenant -> response) : response :=
  match getSessionAndTenant has_auth (accs st) s (q_args q) false with
  | Built (Calling s tenant _) => k s tenant
  | Built (Answered status) => (status, NoValue, st)
  | _ => (500, NoValue, st)
  end.

(** upsertTenant of the changed tenant, as onRole and onUser call it. *)
Definition store_tenant (st : admin) (tenant : Pb.Tenant) (k : bool -> admin -> response) : response :=
  respond st (upsert' (accs st) (sessions st) (toLowerStr (Pb.tenant_id tenant)) tenant false)
    (fun '(was_new, a, keys) => k was_new (Admin a keys)).

Definition onRole (st : admin) (s : Session) (q : rest_request) : response :=
  with_tenant st s q (fun s tenant =>
  let body := if negb (expectBody (q_method q)) then inl (Pb.MkRole None [] None)
              else match roleFromJson (q_body q) with
                   | None => inr 400
                   | Some role =>
                       match q_method q with
                       | POST => if Pb.opt_role_name role then inl role else inr 400
                       | _ => if String.eqb (q_target q) "" then inr 400 else inl role
                       end
                   end in
  match body with
  | inr status => (status, NoValue, st)
  | inl role =>
      let existing := find_role_named (Pb.tenant_roles tenant) in
      match q_method q with
      | GET =>
          if String.eqb (q_target q) "" then
            if allowed s LIST_ROLES then (200, SomeRoles (Pb.tenant_roles tenant), st) else (403, NoValue, st)
          else if negb (allowed s GET_ROLE) then (403, NoValue, st)
          else match existing (q_target q) with Some r => (200, OneRole r, st) | None => (404, NoValue, st) end
      | POST =>
          if negb (allowed s CREATE_ROLE) then (403, NoValue, st)
          else if existing (Pb.role_name role) then (409, NoValue, st)
          else store_tenant st (with_roles (Pb.tenant_roles tenant ++ [role]) tenant) (fun _ st => (201, OneRole role, st))
      | PUT =>
          let found := existing (q_target q) in
          if negb (allowed s (if found then UPDATE_ROLE else CREATE_ROLE)) then (403, NoValue, st)
          else if negb (compareCaseInsensitive (Pb.role_name role) (q_target q) true) then (400, NoValue, st)
          else
            let roles := removeFromList Pb.opt_role_name (Pb.tenant_roles tenant) (q_target q) in
            store_tenant st (with_roles (roles ++ [role]) tenant) (fun _ st => (if found then 200 else 201, OneRole role, st))
      | DELETE =>
          if negb (allowed s DELETE_ROLE) then (403, NoValue, st)
          else
            let name := toLowerStr (q_target q) in
            if existing name then
              let users := (fun u => user_with_roles (removeValueFromListOfValues (Pb.user_roles u) name) u) <$> Pb.tenant_users tenant in
              store_tenant st (with_roles (removeFromList Pb.opt_role_name (Pb.tenant_roles tenant) name) (with_users users tenant))
                (fun _ st => (no_status, NoValue, st))
            else (404, NoValue, st)
      | _ => (400, NoValue, st)
      end
  end).

Definition onPermissions (st : admin) (s : Session) (q : rest_request) : response :=
  with_tenant st s q (fun s tenant =>
  match q_method q with
  | GET =>
      if String.eqb (q_target q) "" then
        if existsb (allowed s) [LIST_ROLES; GET_ROLE; CREATE_ROLE; UPDATE_ROLE]
        then (200, SomePermissions (Pb.tenant_allowed tenant), st) else (403, NoValue, st)
      else (400, NoValue, st)
  | _ => (400, NoValue, st)
  end).

(** The user of the body, with a name in lower case and an id. *)
Definition user_body (q : rest_request) : Pb.User + Z :=
  if negb (expectBody (q_method q)) then inl (Pb.MkUser None None None [] None)
  else
    match userFromJson (q_body q) with
    | None => inr 400
    | Some user =>
        let user := match Pb.opt_user_name user with Some n => user_named (toLowerStr n) user | None => user end in
        if match q_method q with
           | POST => match Pb.opt_user_name user with Some _ => false | None => true end
           | _ => String.eqb (q_target q) ""
           end then inr 400
        else inl (user_with (Some (default new_user (Pb.opt_user_id user))) (Pb.user_auth user) user)
    end.

(** get_user *)
Definition get_user (st : admin) (tenant : Pb.Tenant) (name : string) (rcode : Z) : response :=
  match find_user_named (Pb.tenant_users tenant) name with
  | Some u => (rcode, OneUser u, st)
  | None => (404, NoValue, st)
  end.

(** The end of POST and PUT: the user as it is stored. *)
Definition stored_user (st : admin) (tenant : Pb.Tenant) (name : string) (rcode : Z) : response :=
  respond st (or_internal (getTenant (accs st) (Pb.tenant_id tenant))) (fun t =>
    match t with Some t => get_user st t name rcode | None => (500, NoValue, st) end).

Definition onUser (st : admin) (s : Session) (q : rest_request) : response :=
  with_tenant st s q (fun s tenant =>
  match user_body q with
  | inr status => (status, NoValue, st)
  | inl user =>
      let lcTarget := toLowerStr (q_target q) in
      let existing := find_user_named (Pb.tenant_users tenant) in
      match q_method q with
      | GET =>
          if String.eqb (q_target q) "" then
            if allowed s LIST_USERS then (200, SomeUsers (Pb.tenant_users tenant), st) else (403, NoValue, st)
          else if allowed s GET_USER then get_user st tenant lcTarget 200 else (403, NoValue, st)
      | POST =>
          if negb (allowed s CREATE_USER) then (403, NoValue, st)
          else if existing (Pb.user_name user) then (409, NoValue, st)
          else store_tenant st (with_users (Pb.tenant_users tenant ++ [user]) tenant) (fun _ st =>
                 stored_user st tenant (Pb.user_name user) 201)
      | PUT =>
          let found := existing lcTarget in
          if negb (allowed s (if found then UPDATE_USER else CREATE_USER)) then (403, NoValue, st)
          else if negb (bool_decide (is_Some found))
                  && match Pb.opt_user_name user with Some n => negb (String.eqb n lcTarget) | None => false end
          then (400, NoValue, st)
          else
            let user := match found, Pb.opt_user_name user with None, None => user_named lcTarget user | _, _ => user end in
            let users := if found then removeFromList Pb.opt_user_name (Pb.tenant_users tenant) lcTarget else Pb.tenant_users tenant in
            store_tenant st (with_users (users ++ [user]) tenant) (fun was_new st =>
              stored_user st tenant (Pb.user_name user) (if found then if was_new then 201 else 200 else 201))
      | DELETE =>
          if negb (allowed s DELETE_USER) then (403, NoValue, st)
          else if existing lcTarget then
            store_tenant st (with_users (removeFromList Pb.opt_user_name (Pb.tenant_users tenant) lcTarget) tenant)
              (fun _ st => (no_status, NoValue, st))
          else (404, NoValue, st)
      | _ => (400, NoValue, st)
      end
  end).
End Handlers.
