(* ===== verification/Users.v ===== *)
(** * What the administration keeps

    The theorems about [Admin]: the index of users is exact and no password is
    kept, whatever is administered but for PATCH of a tenant; a user that was
    created can log in with its password, and one that was removed cannot; a
    role gives what it says, whatever the tenant is allowed; and the pages of
    tenants. *)

From stdpp Require Import gmap sorting.
From S2P Require Import Prelude JsNumber JsValue Http ServerUtil Qargs Paging RealKey KeyBlock ListServer RrWire RrBuild Permissions RrRest RrIndex Access AccountDb Shown RestZone Accounts Login Sessions Admin.

Local Open Scope Z_scope.

Definition user_keys (us : list Pb.User) : list string := (fun u => user_key (Pb.user_name u)) <$> us.

(** The key is in the index of users for the tenant. *)
Definition owned_by (a : accounts) (key tid : string) : Prop :=
  exists o, read_text a key = Some o /\ toLowerStr o = toLowerStr tid.

(** Stored users have the hash of a password, and no password. *)
Definition user_stored (u : Pb.User) : Prop :=
  is_Some (Pb.opt_user_id u) /\ exists hash seed, Pb.user_auth u = Some (Pb.MkAuth (Some hash) (Some seed) None).

(** The accounts the administration keeps: the tenants under their ids, and
    the index of users, with the names of exactly the tenants' users. *)
Record admin_ok (a : accounts) : Prop := {
  ao_tenant id v : a !! tenant_key id = Some v -> exists t, v = ATenant t /\ Pb.opt_tenant_id t = Some id /\
    toLowerStr id = id /\ Forall user_stored (Pb.tenant_users t);
  ao_index name tid : read_text a (user_key name) = Some tid <->
    exists t, a !! tenant_key tid = Some (ATenant t) /\ user_key name ∈ user_keys (Pb.tenant_users t)
}.

(** What processUsers makes of a user. *)
Definition processed `{AuthLibs} (u u' : Pb.User) : Prop :=
  exists auth hash seed id, Pb.user_auth u = Some auth /\ u' = user_with (Some id) (Some (Pb.MkAuth (Some hash) (Some seed) None)) u /\
    match Pb.opt_password auth with Some p => hash = createHash seed p | None => Pb.opt_hash auth = Some hash end.

(** The change of the accounts when a tenant is stored, which had the users
    [old]. *)
Record stores (a a' : accounts) (tid : string) (t : Pb.Tenant) (old : list Pb.User) : Prop := {
  st_tenant : a' !! tenant_key tid = Some (ATenant t);
  st_others id : id <> tid -> a' !! tenant_key id = a !! tenant_key id;
  st_index key : key ∈ user_keys (Pb.tenant_users t) ->
    a' !! key = Some (AText (toLowerStr tid)) /\ forall o, read_text a key = Some o -> toLowerStr o = toLowerStr tid;
  st_left key : of_class USER key -> key ∉ user_keys (Pb.tenant_users t) ->
    a' !! key = a !! key \/ a' !! key = None /\ owned_by a key tid;
  st_gone key : key ∉ user_keys (Pb.tenant_users t) -> key ∈ user_keys old -> ~ owned_by a' key tid
}.

(** ** Lemmas *)

Lemma no_accounts_ok : admin_ok ∅.
Proof.
  split; [by intros id v ?%lookup_empty_Some|]. intros name tid. unfold read_text. rewrite !lookup_empty.
  split; [done|]. by intros (t & ? & _).
Qed.

Lemma user_keys_class us key : key ∈ user_keys us -> of_class USER key.
Proof. intros (u & -> & _)%list_elem_of_fmap. apply init_class. Qed.

(** The two loops of upsertUserIndexes. *)
Lemma unindex_loop tid us a key :
  let a' := fold_left (unindex_user tid) us a in
  (a' !! key = a !! key \/ a' !! key = None /\ key ∈ user_keys us /\ owned_by a key tid) /\
  (key ∈ user_keys us -> ~ owned_by a' key tid).
Proof.
  cbv zeta. revert a. induction us as [|u us IH]; intros a.
  { split; [by left|]. by intros ?%not_elem_of_nil. }
  cbn [fold_left]. specialize (IH (unindex_user tid a u)) as [IH1 IH2]. unfold user_keys. rewrite fmap_cons, elem_of_cons.
  fold (user_keys us). set (k := user_key (Pb.user_name u)) in *.
  assert (Hs : unindex_user tid a u = a \/ unindex_user tid a u = delete k a /\ owned_by a k tid).
  { unfold unindex_user. fold k. destruct (read_text a k) as [o|] eqn:Er; [|by left].
    rewrite compareCaseInsensitive_full. destruct (String.eqb_spec (toLowerStr o) (toLowerStr tid)); [right|by left].
    split; [done|]. by exists o. }
  assert (Hk : ~ owned_by (unindex_user tid a u) k tid).
  { intros (o & Ho & Hl). destruct Hs as [E|[E _]]; rewrite E in Ho.
    - unfold unindex_user in E. fold k in E. rewrite Ho, compareCaseInsensitive_full, Hl, String.eqb_refl in E.
      rewrite <- E in Ho. unfold read_text in Ho. by rewrite lookup_delete_eq in Ho.
    - unfold read_text in Ho. by rewrite lookup_delete_eq in Ho. }
  split.
  - destruct (decide (key = k)) as [->|Hne].
    + destruct IH1 as [->|(-> & _ & Hf)]; [|done].
      destruct Hs as [->|[-> Ho]]; [by left|]. right. rewrite lookup_delete_eq. tauto.
    + assert (E : unindex_user tid a u !! key = a !! key) by (destruct Hs as [->|[-> _]]; [done|by rewrite lookup_delete_ne]).
      unfold owned_by, read_text in *. rewrite E in IH1. destruct IH1 as [->|(-> & ? & ?)]; [by left|]. right. tauto.
  - intros [->|Hin]; [|by apply IH2]. intros (o & Ho & Hl). destruct IH1 as [E|(E & _)]; unfold read_text in Ho; rewrite E in Ho; [|done].
    apply Hk. by exists o.
Qed.

Section Admin.
Context `{RestLibs} `{AuthLibs}.
Context (new_tenant : string) (new_id new_seed : nat -> string) (m : index).

Lemma index_loop a tid us a' :
  index_users m a tid us = Done a' ->
  (forall key, key ∈ user_keys us ->
     a' !! key = Some (AText (toLowerStr tid)) /\ forall o, read_text a key = Some o -> toLowerStr o = toLowerStr tid) /\
  (forall key, key ∉ user_keys us -> a' !! key = a !! key).
Proof.
  revert a. induction us as [|u us IH]; intros a.
  { intros [= ->]. split; [by intros ? ?%not_elem_of_nil|done]. }
  cbn [index_users]. unfold user_keys. rewrite fmap_cons. fold (user_keys us). set (k := user_key (Pb.user_name u)).
  destruct (match read_text a k with Some _ => _ | None => false end) eqn:Eo; [done|].
  rewrite (write_account_new _ _ _ _ _ USER) by (done || apply init_class). cbn [or_exists mbind outcome_bind].
  intros [Hin Hout]%IH. 
  assert (Hk : forall o, read_text a k = Some o -> toLowerStr o = toLowerStr tid).
  { intros o Ho. rewrite Ho, compareCaseInsensitive_full in Eo. by apply negb_false_iff, String.eqb_eq in Eo. }
  assert (Hne : forall key, key <> k -> read_text (<[k := AText (toLowerStr tid)]> a) key = read_text a key).
  { intros key ?. unfold read_text. by rewrite lookup_insert_ne. }
  split; intros key.
  - rewrite elem_of_cons. destruct (decide (key ∈ user_keys us)) as [Hi|Hi].
    + intros _. split; [by apply Hin|]. intros o Ho. destruct (decide (key = k)) as [->|]; [by apply Hk|].
      eapply Hin; [done|]. by rewrite Hne.
    + intros [->|?]; [|done]. rewrite Hout by done. split; [apply lookup_insert_eq|done].
  - rewrite not_elem_of_cons. intros [Hne' Hi]. rewrite Hout by done. by apply lookup_insert_ne.
Qed.

(** A key that is not of the index of users. *)
Lemma upsertUserIndexes_frame a t ex a' key c :
  upsertUserIndexes m a t ex = Done a' -> of_class c key -> c <> USER -> a' !! key = a !! key.
Proof.
  intros [_ Hout]%index_loop Hc Hne. assert (Hn : forall us, key ∉ user_keys us).
  { intros us Hin%user_keys_class. apply Hne. by eapply of_class_unique. }
  rewrite Hout by done. destruct ex as [t'|]; [|done].
  destruct (unindex_loop (Pb.tenant_id t) (Pb.tenant_users t') a key) as [[?|(_ & Hin & _)] _]; [done|]. by apply Hn in Hin.
Qed.

Lemma upsertUserIndexes_stores a t ex a' tid :
  upsertUserIndexes m a t ex = Done a' -> Pb.tenant_id t = tid -> a !! tenant_key tid = Some (ATenant t) ->
  stores a a' tid t (match ex with Some e => Pb.tenant_users e | None => [] end).
Proof.
  intros Hu Ht Ha. assert (Hf := upsertUserIndexes_frame _ _ _ _ (tenant_key tid) TENANT Hu (init_class _ _)).
  assert (Hu' := Hu). apply index_loop in Hu' as [Hin Hout]. rewrite Ht in Hin, Hout.
  set (old := match ex with Some e => _ | None => _ end).
  set (b := match ex with Some e => _ | None => _ end) in *.
  assert (Hb : forall key, (b !! key = a !! key \/ b !! key = None /\ key ∈ user_keys old /\ owned_by a key tid) /\
    (key ∈ user_keys old -> ~ owned_by b key tid)).
  { intros key. destruct ex as [e|]; [by apply unindex_loop|]. split; [by left|by intros ?%not_elem_of_nil]. }
  split.
  - by rewrite Hf.
  - intros id _. by apply (upsertUserIndexes_frame _ _ _ _ _ TENANT Hu (init_class _ _)).
  - intros key Hk. destruct (Hin key Hk) as [-> Ho]. split; [done|]. intros o Hr.
    destruct (Hb key) as [[E|(_ & _ & o' & Ho' & Hl)] _]; [apply Ho; unfold read_text in *; by rewrite E|congruence].
  - intros key _ Hk. rewrite Hout by done. destruct (Hb key) as [[?|(? & ? & ?)] _]; [by left|by right].
  - intros key Hk Hold (o & Ho & Hl). destruct (Hb key) as [_ Hn]. apply Hn; [done|]. exists o. split; [|done].
    unfold read_text in *. by rewrite Hout in Ho.
Qed.

Lemma upsertTenantIndexes_frame a t ex a' key c :
  upsertTenantIndexes m a t ex = Done a' -> of_class c key -> c <> TENANT_NAME -> a' !! key = a !! key.
Proof.
  intros Hu Hc Hne. assert (Hk : forall n, name_key n <> key).
  { intros n <-. apply Hne. eapply of_class_unique; [done|apply init_class]. }
  unfold upsertTenantIndexes in Hu.
  assert (He : forall a1 a2, or_exists (write_account m a1 (name_key (Pb.tenant_name t)) (AText (Pb.tenant_id t)) true) = Done a2 ->
    a2 !! key = a1 !! key).
  { intros a1 a2. rewrite (write_account_new _ _ _ _ _ TENANT_NAME) by (done || apply init_class). intros [= <-].
    by apply lookup_insert_ne. }
  destruct ex as [e|]; [|by apply He]. destruct (String.eqb _ _); [by injection Hu as ->|].
  apply He in Hu as ->. by apply lookup_delete_ne.
Qed.

Lemma process_users_spec roles ex n used us us' :
  process_users new_id new_seed roles ex n used us = Done us' -> Forall2 processed us us'.
Proof.
  revert n used us'. induction us as [|u us IH]; intros n used us'; cbn [process_users]; [by intros [= <-]|].
  destruct (_ || _); [done|]. destruct (existsb _ used); [done|].
  destruct (Pb.user_auth u) as [auth|] eqn:Ea; [|done]. destruct (_ || _); [done|]. destruct (negb _); [done|].
  destruct (process_auth new_seed n auth) as [auth'|] eqn:Ep; cbn [mbind outcome_bind]; [|done].
  destruct (process_users _ _ _ _ _ _ us) as [us1|] eqn:Eu; cbn [mbind outcome_bind]; [|done]. intros [= <-].
  constructor; [|by eapply IH]. unfold process_auth in Ep.
  destruct (Pb.opt_password auth) as [p|] eqn:Epw; [|destruct (Pb.opt_hash auth) as [h|] eqn:Eh; [|done]]; injection Ep as <-.
  - exists auth, (createHash (default (new_seed n) (Pb.opt_seed auth)) p), (default (new_seed n) (Pb.opt_seed auth)),
      (user_id_for new_id ex n u). by rewrite Epw.
  - exists auth, h, (default (new_seed n) (Pb.opt_seed auth)), (user_id_for new_id ex n u). by rewrite Epw.
Qed.

Lemma processed_stored us us' : Forall2 processed us us' -> Forall user_stored us'.
Proof.
  induction 1 as [|u u' us us' (auth & hash & seed & id & _ & -> & _) _ IH]; constructor; [|done].
  split; [by eexists|]. by exists hash, seed.
Qed.

Lemma processUsers_spec t ex t' :
  processUsers new_id new_seed t ex = Done t' ->
  exists us, t' = with_users us t /\ Forall2 processed (Pb.tenant_users t) us.
Proof.
  unfold processUsers. destruct (process_users _ _ _ _ _ _ _) as [us|] eqn:Eu; cbn [mbind outcome_bind]; [|done].
  intros [= <-]. exists us. split; [done|]. by eapply process_users_spec.
Qed.

Lemma stores_frame a b b' tid t old :
  stores a b tid t old -> (forall key c, of_class c key -> c <> TENANT_NAME -> b' !! key = b !! key) ->
  stores a b' tid t old.
Proof.
  intros [Ht Ho Hi Hl Hg] Hb. assert (Hu : forall key, of_class USER key -> b' !! key = b !! key) by (intros key Hk; by eapply Hb).
  assert (Hn : forall id, b' !! tenant_key id = b !! tenant_key id) by (intros id; by eapply Hb; [apply init_class|]).
  split.
  - by rewrite Hn.
  - intros id ?. rewrite Hn. by apply Ho.
  - intros key Hk. rewrite Hu by by eapply user_keys_class. by apply Hi.
  - intros key Hc Hk. rewrite Hu by done. by apply Hl.
  - intros key Hk Hold. unfold owned_by, read_text. rewrite Hu by by eapply user_keys_class. by apply Hg.
Qed.

Lemma stores_insert a b tid t old :
  stores (<[tenant_key tid := ATenant t]> a) b tid t old -> stores a b tid t old.
Proof.
  intros [Ht Ho Hi Hl Hg]. assert (Hu : forall key, of_class USER key -> (<[tenant_key tid := ATenant t]> a) !! key = a !! key).
  { intros key [r ->]. by apply lookup_insert_ne. }
  split; [done|..|done].
  - intros id Hne. rewrite Ho by done. apply lookup_insert_ne. by intros ?%init_key_inj.
  - intros key Hk. destruct (Hi key Hk) as [-> Hr]. split; [done|]. unfold read_text in *. by rewrite Hu in Hr by by eapply user_keys_class.
  - intros key Hc Hk. destruct (Hl key Hc Hk) as [->|[-> Ho']]; [left; by apply Hu|right]. split; [done|].
    unfold owned_by, read_text in *. by rewrite Hu in Ho'.
Qed.

(** What createTenant and upsertTenant do after processUsers. *)
Lemma write_tenant_stores a tid t ex is_new a' :
  Pb.tenant_id t = tid ->
  (a ← or_exists (write_account m a (tenant_key tid) (ATenant t) is_new);
   a ← upsertUserIndexes m a t ex; upsertTenantIndexes m a t ex) = Done a' ->
  stores a a' tid t (match ex with Some e => Pb.tenant_users e | None => [] end).
Proof.
  intros Ht. rewrite (write_account_new _ _ _ _ _ TENANT) by (done || apply init_class). cbn [or_exists mbind outcome_bind].
  destruct (upsertUserIndexes _ _ _ _) as [b|] eqn:Eu; cbn [mbind outcome_bind]; [|done]. intros Hn.
  apply stores_insert. eapply stores_frame; [eapply upsertUserIndexes_stores; [done|done|apply lookup_insert_eq]|].
  intros key c Hc Hne. by eapply upsertTenantIndexes_frame.
Qed.

(** Storing a tenant keeps the accounts. *)
Lemma stores_ok a a' tid t :
  admin_ok a -> toLowerStr tid = tid -> Pb.opt_tenant_id t = Some tid -> Forall user_stored (Pb.tenant_users t) ->
  stores a a' tid t (match a !! tenant_key tid with Some (ATenant e) => Pb.tenant_users e | _ => [] end) -> admin_ok a'.
Proof.
  intros [Hat Hai] Hlow Hid Hus [Ht Ho Hi Hl Hg]. split.
  - intros id v. destruct (decide (id = tid)) as [->|Hne].
    + rewrite Ht. intros [= <-]. by exists t.
    + rewrite Ho by done. apply Hat.
  - intros name id. set (key := user_key name). assert (Hc : of_class USER key) by apply init_class.
    assert (Hot : forall o, read_text a key = Some o -> toLowerStr o = o).
    { intros o (e & He & _)%Hai. by destruct (Hat _ _ He) as (? & _ & _ & ? & _). }
    destruct (decide (key ∈ user_keys (Pb.tenant_users t))) as [Hk|Hk].
    + destruct (Hi key Hk) as [E Hr]. rewrite Hlow in E, Hr. unfold read_text at 1. rewrite E. split.
      * intros [= <-]. by exists t.
      * intros (e & He & Hke). f_equal. destruct (decide (id = tid)) as [->|Hne]; [done|].
        rewrite Ho in He by done. assert (Hr' : read_text a key = Some id) by (apply Hai; by exists e).
        rewrite <- (Hot _ Hr'). symmetry. by apply Hr.
    + split.
      * intros Hr. assert (Ea : a' !! key = a !! key).
        { destruct (Hl key Hc Hk) as [?|[E _]]; [done|]. unfold read_text in Hr. by rewrite E in Hr. }
        assert (Hr' : read_text a key = Some id) by (unfold read_text in *; by rewrite <- Ea).
        assert (Hr2 := Hr'). apply Hai in Hr2 as (e & He & Hke). destruct (decide (id = tid)) as [->|Hne].
        -- rewrite He in Hg. exfalso. apply (Hg key Hk Hke). by exists tid.
        -- exists e. by rewrite Ho.
      * intros (e & He & Hke). destruct (decide (id = tid)) as [->|Hne]; [rewrite Ht in He; by injection He as <-|].
        rewrite Ho in He by done. assert (Hr : read_text a key = Some id) by (apply Hai; by exists e).
        destruct (Hl key Hc Hk) as [E|[_ (o & Ho' & Hlo)]]; [unfold read_text in *; by rewrite E|].
        exfalso. apply Hne. rewrite Hr in Ho'. injection Ho' as <-. by rewrite (Hot _ Hr), Hlow in Hlo.
Qed.

(** Every exception is an error of the request or the server. *)
Definition bad_status {A} (o : outcome A) : Prop := match o with Done _ => True | Thrown status => 400 <= status end.

Lemma bad_bind {A B} (o : outcome A) (f : A -> outcome B) : bad_status o -> (forall x, bad_status (f x)) -> bad_status (o ≫= f).
Proof. destruct o; intros Ho Hf; [apply Hf|exact Ho]. Qed.

Lemma bad_process_users roles ex n used us : bad_status (process_users new_id new_seed roles ex n used us).
Proof.
  revert n used. induction us as [|u us IH]; intros n used; [done|]. cbn [process_users].
  destruct (_ || _); [done|]. destruct (existsb _ used); [done|]. destruct (Pb.user_auth u) as [auth|]; [|done].
  destruct (_ || _); [done|]. destruct (negb _); [done|].
  apply bad_bind; [unfold process_auth; by repeat case_match|]. intros auth'. by apply bad_bind.
Qed.

Lemma bad_upsertUserIndexes a t ex : bad_status (upsertUserIndexes m a t ex).
Proof.
  unfold upsertUserIndexes. generalize (match ex with Some e => fold_left (unindex_user (Pb.tenant_id t)) (Pb.tenant_users e) a | None => a end).
  induction (Pb.tenant_users t) as [|u us IH]; intros b; [done|]. cbn [index_users]. repeat case_match; try done;
    (apply bad_bind; [unfold or_exists; by case_match|done]).
Qed.

Lemma bad_upsertTenantIndexes a t ex : bad_status (upsertTenantIndexes m a t ex).
Proof. unfold upsertTenantIndexes, or_exists. by repeat case_match. Qed.

Lemma bad_processUsers t ex : bad_status (processUsers new_id new_seed t ex).
Proof. unfold processUsers. by apply bad_bind; [apply bad_process_users|]. Qed.

Lemma bad_write a key v is_new : bad_status (or_exists (write_account m a key v is_new)).
Proof. unfold or_exists. by case_match. Qed.

Lemma bad_upsertTenant a keys tid t merge : bad_status (upsertTenant new_id new_seed m a keys tid t merge).
Proof.
  unfold upsertTenant. case_match; [done|]. apply bad_bind; [by destruct (getTenant _ _)|]. intros ex.
  destruct merge, ex as [e|];
    repeat first [done | apply bad_bind; [first [apply bad_write|apply bad_upsertUserIndexes|apply bad_upsertTenantIndexes
                                                 |apply bad_processUsers]|intros ?]].
Qed.

(** The logins of the accounts are logins of those that come after. *)
Definition grows (a a' : accounts) : Prop :=
  forall user pass s, check_user a user pass = Built (Some s) -> check_user a' user pass = Built (Some s).

(** Storing a new tenant leaves the logins of the others. *)
Lemma stores_grows a a' tid t old :
  admin_ok a -> toLowerStr tid = tid -> a !! tenant_key tid = None -> stores a a' tid t old -> grows a a'.
Proof.
  intros [Hat Hai] Hlow Hnew [_ Ho Hi Hl _] user pass s Hc. assert (Hc' := Hc).
  apply check_user_some in Hc' as (tid1 & t1 & u & _ & Hr & _ & _ & Hu & _).
  assert (Ek : init_key user USER = user_key user) by (unfold user_key; by rewrite <- Hu, lower_idem).
  assert (Hx := Hr). rewrite Ek in Hx. apply Hai in Hx as (t2 & Ht2 & _).
  assert (Hne : tid1 <> tid) by congruence.
  assert (Hnot : forall o, read_text a (init_key user USER) = Some o -> toLowerStr o = toLowerStr tid -> False).
  { intros o Hro Hlo. rewrite Hr in Hro. injection Hro as <-. apply Hne. destruct (Hat _ _ Ht2) as (_ & _ & _ & E & _). congruence. }
  assert (E : a' !! init_key user USER = a !! init_key user USER).
  { destruct (decide (init_key user USER ∈ user_keys (Pb.tenant_users t))) as [Hin|Hin].
    - destruct (Hi _ Hin) as [_ Hro]. exfalso. eapply Hnot; [done|by apply Hro].
    - destruct (Hl _ (init_class _ _) Hin) as [?|[_ (o & Hro & Hlo)]]; [done|]. exfalso. by eapply Hnot. }
  rewrite <- Hc. unfold check_user, read_text in *. rewrite E. destruct (a !! init_key user USER) as [[| |o]|]; try done.
  injection Hr as ->. unfold getTenant, get_tenant. by rewrite Ho.
Qed.

(** A tenant as it is read. *)
Lemma ok_getTenant a tid : admin_ok a ->
  getTenant a tid = Built None /\ a !! tenant_key tid = None \/
  exists e, getTenant a tid = Built (Some e) /\ a !! tenant_key tid = Some (ATenant e) /\ Pb.opt_tenant_id e = Some tid /\
    toLowerStr tid = tid /\ Forall user_stored (Pb.tenant_users e).
Proof.
  intros [Hat _]. unfold getTenant, get_tenant. destruct (a !! tenant_key tid) as [v|] eqn:E; [right|by left].
  destruct (Hat _ _ E) as (e & -> & ? & ? & ?). by exists e.
Qed.

Lemma upsertTenant_stores a keys tid t was_new a' keys' :
  admin_ok a -> toLowerStr tid = tid -> Pb.opt_tenant_id t = Some tid ->
  upsertTenant new_id new_seed m a keys tid t false = Done (was_new, a', keys') ->
  exists us, Forall2 processed (Pb.tenant_users t) us /\ a' !! tenant_key tid = Some (ATenant (with_users us t)) /\
    was_new = negb (account_exists a (tenant_key tid)) /\ keys' = (if was_new then keys else lru_clear keys) /\ admin_ok a' /\
    (was_new = true -> grows a a') /\ forall id, id <> tid -> a' !! tenant_key id = a !! tenant_key id.
Proof.
  intros Hok Hlow Hid. unfold upsertTenant, Pb.tenant_id. rewrite Hid, String.eqb_refl. cbn [negb default from_option id].
  rewrite Hlow. assert (Hs : exists e, getTenant a tid = Built e /\
    a !! tenant_key tid = ATenant <$> e /\ account_exists a (tenant_key tid) = match e with Some _ => true | None => false end).
  { destruct (ok_getTenant a tid Hok) as [[-> E]|(e & -> & E & _)]; [exists None|exists (Some e)]; unfold account_exists; rewrite E;
      by split_and!. }
  destruct Hs as (e & -> & Ea & ->). cbn [or_internal mbind outcome_bind].
  destruct (processUsers _ _ _ _) as [t'|] eqn:Ep; cbn [mbind outcome_bind]; [|by destruct e].
  apply processUsers_spec in Ep as (us & -> & Hus). set (t' := with_users us t).
  destruct (or_exists _) as [b|] eqn:Ew; cbn [mbind outcome_bind]; [|by destruct e].
  destruct (upsertUserIndexes _ _ _ _) as [b'|] eqn:Eu; cbn [mbind outcome_bind]; [|by destruct e].
  destruct (upsertTenantIndexes _ _ _ _) as [b''|] eqn:En; cbn [mbind outcome_bind]; [|by destruct e].
  intros Hr. assert (Ht : Pb.tenant_id t' = tid) by (unfold Pb.tenant_id; cbn [t' with_users Pb.opt_tenant_id]; by rewrite Hid).
  assert (Hst : stores a b'' tid t' (match e with Some e => Pb.tenant_users e | None => [] end)).
  { apply (write_tenant_stores a tid t' e false b'' Ht). rewrite Ew. cbn [mbind outcome_bind]. by rewrite Eu. }
  assert (Hok' : admin_ok b'').
  { apply (stores_ok a b'' tid t'); [done|done|done|by eapply processed_stored|]. rewrite Ea. by destruct e. }
  exists us. destruct e as [e|]; injection Hr as <- <- <-; (split_and!; [done|apply Hst|done|done|done| |apply Hst]); [done|].
  intros _. by eapply stores_grows.
Qed.

Lemma createTenant_stores a t id a' :
  createTenant new_tenant new_id new_seed m a t = Done (id, a') ->
  id = match Pb.opt_tenant_id t with Some i => toLowerStr i | None => new_tenant end /\ a !! tenant_key id = None /\
  exists us, Forall2 processed (Pb.tenant_users t) us /\ stores a a' id (with_users us (default_active (with_id id t))) [].
Proof.
  unfold createTenant. set (tid := match Pb.opt_tenant_id t with Some i => _ | None => _ end).
  destruct (account_exists a (tenant_key tid)) eqn:Ex; [done|]. destruct (account_exists a (name_key tid)); [done|].
  destruct (processUsers _ _ _ _) as [t'|] eqn:Ep; cbn [mbind outcome_bind]; [|done].
  apply processUsers_spec in Ep as (us & -> & Hus). set (t' := with_users _ _).
  destruct (or_exists _) as [b|] eqn:Ew; cbn [mbind outcome_bind]; [|done].
  destruct (upsertUserIndexes _ _ _ _) as [b'|] eqn:Eu; cbn [mbind outcome_bind]; [|done].
  destruct (upsertTenantIndexes _ _ _ _) as [b''|] eqn:En; cbn [mbind outcome_bind]; [|done]. intros [= <- <-].
  apply bool_decide_eq_false, eq_None_not_Some in Ex. split_and!; [done|done|]. exists us. split; [done|].
  apply (write_tenant_stores a tid t' None true b'' eq_refl). rewrite Ew. cbn [mbind outcome_bind]. by rewrite Eu.
Qed.

Lemma createTenant_ok a t id a' :
  admin_ok a -> toLowerStr id = id ->
  createTenant new_tenant new_id new_seed m a t = Done (id, a') -> admin_ok a' /\ grows a a'.
Proof.
  intros Hok Hlow (_ & Hnew & us & Hus & Hst)%createTenant_stores. split; [|by eapply stores_grows].
  eapply (stores_ok a a' id); [done|done| | |by rewrite Hnew]; [done|by eapply processed_stored].
Qed.

Lemma created_id a t id a' :
  createTenant new_tenant new_id new_seed m a t = Done (id, a') -> toLowerStr new_tenant = new_tenant -> toLowerStr id = id.
Proof. intros (-> & _)%createTenant_stores Hnew. destruct (Pb.opt_tenant_id t); [apply lower_idem|done]. Qed.

(** No key but a tenant's has the byte of its class. *)
Definition keys_plain (a : accounts) : Prop :=
  forall key v, a !! key = Some v -> has_char (class_byte TENANT) (drop_chars 1 key) = false.

(** The recursive remove of a tenant removes its key alone. *)
Lemma remove_tenant a tid :
  keys_plain a -> is_Some (a !! tenant_key tid) -> remove_accounts (tenant_key tid) a = delete (tenant_key tid) a.
Proof.
  intros Hp [v0 Hv0]. set (key := tenant_key tid) in *.
  assert (Hel : forall ck, ck ∈ merge_sort String.le (map_to_list a).*1 <-> exists v, a !! ck = Some v).
  { intros ck. rewrite (merge_sort_Permutation String.le), list_elem_of_fmap. split.
    - intros ([k v] & -> & Hk%elem_of_map_to_list). by exists v.
    - intros [v Hv%elem_of_map_to_list]. by exists (ck, v). }
  destruct (sorted_first key (merge_sort String.le (map_to_list a).*1)) as (rest & E & Hr).
  { apply (StronglySorted_merge_sort _). }
  { rewrite (merge_sort_Permutation String.le). apply NoDup_fst_map_to_list. }
  { apply Hel. by exists v0. }
  assert (Hloop : remove_loop key (key :: rest) = [key]).
  { cbn [remove_loop]. rewrite Nat.sub_diag, (proj2 (Nat.ltb_ge _ _)), String.eqb_refl by done. cbn [Nat.ltb Nat.leb andb drop_chars].
    f_equal. destruct rest as [|ck rest]; [done|]. destruct (Hr ck) as [[v Hv]%Hel Hne]; [by left|]. cbn [remove_loop].
    destruct (_ <? _)%nat; [done|]. destruct (_ && _); [done|].
    destruct (String.eqb_spec (drop_chars (String.length ck - String.length key) ck) key) as [Ed|]; [exfalso|done].
    destruct (String.length ck - String.length key)%nat as [|n]; [done|]. specialize (Hp _ _ Hv).
    destruct ck as [|c ck]; [done|]. cbn [drop_chars] in Hp, Ed. assert (Hd := has_char_drop _ n _ Hp). rewrite Ed in Hd. done. }
  unfold remove_accounts. rewrite E, Hloop. apply map_eq. intros k. apply option_eq. intros v.
  rewrite map_lookup_filter_Some, lookup_delete_Some. cbn [fst]. rewrite list_elem_of_singleton. 
  split; intros [? ?]; split; congruence.
Qed.

(** The loop of deleteUserIndexes. *)
Lemma deleteUserIndexes_spec a t key :
  let a' := deleteUserIndexes a t in
  (key ∉ user_keys (Pb.tenant_users t) -> a' !! key = a !! key) /\
  (key ∈ user_keys (Pb.tenant_users t) -> (forall o, read_text a key = Some o -> toLowerStr o = toLowerStr (Pb.tenant_id t)) ->
     a' !! key = None).
Proof.
  cbv zeta. unfold deleteUserIndexes. set (f := fun a0 u => _). revert a.
  induction (Pb.tenant_users t) as [|u us IH]; intros a; [split; [done|by intros ?%not_elem_of_nil]|].
  cbn [fold_left]. unfold user_keys. rewrite fmap_cons. fold (user_keys us). set (k := user_key (Pb.user_name u)).
  destruct (IH (f a u)) as [IH1 IH2].
  assert (Hf : f a u = a \/ f a u = delete k a).
  { unfold f. fold k. destruct (read_text a k); [destruct (String.eqb _ _)|]; auto. }
  assert (Hfk : (forall o, read_text a k = Some o -> toLowerStr o = toLowerStr (Pb.tenant_id t)) -> f a u = delete k a).
  { intros Ho. unfold f. fold k. destruct (read_text a k) as [o|]; [|done]. by rewrite (Ho o eq_refl), String.eqb_refl. }
  split.
  - intros [Hne Hn]%not_elem_of_cons. rewrite IH1 by done. destruct Hf as [->| ->]; [done|]. by apply lookup_delete_ne.
  - intros Hk Ho. destruct (decide (key ∈ user_keys us)) as [Hi|Hi].
    + apply IH2; [done|]. intros o Hr. apply Ho. unfold read_text in *. destruct Hf as [E|E]; rewrite E in Hr; [done|].
      destruct (decide (key = k)) as [->|]; [by rewrite lookup_delete_eq in Hr|by rewrite lookup_delete_ne in Hr].
    + apply elem_of_cons in Hk as [->|?]; [|done]. rewrite IH1, Hfk by done. apply lookup_delete_eq.
Qed.

Lemma deleteTenant_spec a keys tid a' keys' :
  admin_ok a -> keys_plain a -> toLowerStr tid = tid -> deleteTenant a keys tid = Done (a', keys') ->
  admin_ok a' /\ a' !! tenant_key tid = None /\ keys' = lru_clear keys.
Proof.
  intros Hok Hp Hlow. unfold deleteTenant. rewrite Hlow. unfold account_exists.
  destruct (ok_getTenant a tid Hok) as [[_ E]|(e & -> & E & Hid & _ & _)]; rewrite E; [done|]. cbn [or_internal mbind outcome_bind].
  assert (Hid' : Pb.tenant_id e = tid) by (unfold Pb.tenant_id; by rewrite Hid).
  set (b := deleteTenantIndexes _ _). destruct Hok as [Hat Hai].
  assert (Hf : forall key c, of_class c key -> c <> USER -> c <> TENANT_NAME -> b !! key = a !! key).
  { intros key c Hc Hu Hn. unfold b, deleteTenantIndexes. rewrite lookup_delete_ne.
    - apply deleteUserIndexes_spec. intros Hk%user_keys_class. apply Hu. by eapply of_class_unique.
    - intros <-. apply Hn. eapply of_class_unique; [done|apply init_class]. }
  assert (Hk : forall key, of_class USER key -> b !! key = deleteUserIndexes a e !! key).
  { intros key [r ->]. unfold b, deleteTenantIndexes. by rewrite lookup_delete_ne. }
  assert (Hpb : keys_plain b).
  { intros key v Hv. unfold b, deleteTenantIndexes in Hv. apply lookup_delete_Some in Hv as [_ Hv].
    apply (Hp key (default v (a !! key))).
    destruct (a !! key) as [w|] eqn:Ew; [done|]. exfalso. destruct (deleteUserIndexes_spec a e key) as [H1 H2].
    destruct (decide (key ∈ user_keys (Pb.tenant_users e))) as [Hin|Hin]; [|rewrite H1 in Hv by done; congruence].
    rewrite H2 in Hv; [done|done|]. intros o Ho. unfold read_text in Ho. by rewrite Ew in Ho. }
  assert (Hbt : b !! tenant_key tid = Some (ATenant e)) by (rewrite (Hf _ TENANT) by (done || apply init_class); done).
  rewrite (remove_tenant b tid Hpb) by (by eexists). intros [= <- <-].
  split_and!; [|apply lookup_delete_eq|done].
  assert (Htn : forall id, id <> tid -> delete (tenant_key tid) b !! tenant_key id = a !! tenant_key id).
  { intros id Hne. rewrite lookup_delete_ne by by intros ?%init_key_inj. by apply (Hf _ TENANT); [apply init_class|..]. }
  split.
  - intros id v Hv. destruct (decide (id = tid)) as [->|Hne]; [by rewrite lookup_delete_eq in Hv|].
    rewrite Htn in Hv by done. by apply Hat.
  - intros name id. set (key := user_key name). assert (Hc : of_class USER key) by apply init_class.
    assert (Er : read_text (delete (tenant_key tid) b) key = read_text (deleteUserIndexes a e) key).
    { unfold read_text. rewrite lookup_delete_ne by done. by rewrite Hk. }
    rewrite Er. clear Er. destruct (deleteUserIndexes_spec a e key) as [H1 H2].
    destruct (decide (key ∈ user_keys (Pb.tenant_users e))) as [Hin|Hin].
    + assert (Hr : read_text a key = Some tid) by (apply Hai; by exists e).
      unfold read_text at 1. rewrite H2; [|done|intros o; rewrite Hr; intros [= <-]; by rewrite Hid'].
      split; [done|]. intros (e' & He' & Hke'). destruct (decide (id = tid)) as [->|Hne]; [by rewrite lookup_delete_eq in He'|].
      rewrite Htn in He' by done. assert (Hr' : read_text a key = Some id) by (apply Hai; by exists e'). congruence.
    + unfold read_text at 1. rewrite H1 by done. fold (read_text a key). etrans; [apply Hai|].
      split; intros (e' & He' & Hke'); exists e'; (split; [|done]);
        (destruct (decide (id = tid)) as [->|Hne]; [exfalso|by rewrite Htn in *]).
      * rewrite E in He'. by injection He' as <-.
      * by rewrite lookup_delete_eq in He'.
Qed.
End Admin.

(** ** The handlers *)

(** The response was an error. *)
Ltac answered H := injection H as <- _ _; lia.

Section Handlers.
Context `{RestLibs} `{AuthLibs} (has_auth : bool).
Context (tenantFromJson : string -> option Pb.Tenant) (roleFromJson : string -> option Pb.Role).
Context (userFromJson : string -> option Pb.User) (no_status : Z) (cfg : rest_config).

(** The tenant a request is served for. *)
Definition serves (st : admin) (s : Session) (q : rest_request) (s' : Session) (t : Pb.Tenant) : Prop :=
  getSessionAndTenant has_auth (accs st) s (q_args q) false = Built (Calling s' t false).

Lemma calling_some a s tid all s' t all' :
  calling a s tid all = Built (Calling s' t all') -> s' = s /\ all' = all /\ getTenant a tid = Built (Some t).
Proof.
  unfold calling. destruct (getTenant a tid) as [[e|]| | |]; cbn [mbind verdict_bind]; try done. by intros [= <- <- <-].
Qed.

Lemma with_tenant_cases st s q k :
  (exists status, with_tenant has_auth st s q k = (status, NoValue, st)) \/
  exists s' t, serves st s q s' t /\ with_tenant has_auth st s q k = k s' t.
Proof.
  unfold with_tenant, serves.
  destruct (getSessionAndTenant has_auth (accs st) s (q_args q) false) as [[status|s' t all]| | |] eqn:E; try (left; by eexists).
  right. exists s', t. split; [|done]. enough (all = false) as -> by done. unfold getSessionAndTenant in E.
  destruct (assoc_get "tenant" (q_args q)) as [imp|]; [|by apply calling_some in E as (_ & ? & _)].
  destruct (isAllowed _ _ _); [|done]. cbn [andb] in E. destruct (parse_uuid _); [|done]. cbn [or_failed mbind verdict_bind] in E.
  by apply calling_some in E as (_ & ? & _).
Qed.

Lemma serves_tenant st s q s' t :
  admin_ok (accs st) -> serves st s q s' t ->
  exists tid, accs st !! tenant_key tid = Some (ATenant t) /\ Pb.opt_tenant_id t = Some tid /\ toLowerStr tid = tid /\
    Forall user_stored (Pb.tenant_users t).
Proof.
  intros Hok Hs. unfold serves, getSessionAndTenant in Hs.
  assert (Hg : exists tid, getTenant (accs st) tid = Built (Some t)).
  { destruct (assoc_get "tenant" (q_args q)) as [imp|]; [|apply calling_some in Hs as (_ & _ & ?); by eexists].
    destruct (isAllowed _ _ _); [|done]. cbn [andb] in Hs. destruct (parse_uuid _); [|done]. cbn [or_failed mbind verdict_bind] in Hs.
    apply calling_some in Hs as (_ & _ & ?). by eexists. }
  destruct Hg as [tid Hg]. destruct (ok_getTenant _ tid Hok) as [[E _]|(e & E & Ha & Hid & Hl & Hu)]; rewrite Hg in E; [done|].
  injection E as <-. by exists tid.
Qed.

Lemma store_tenant_cases new_id new_seed m st t tid k :
  admin_ok (accs st) -> Pb.opt_tenant_id t = Some tid -> toLowerStr tid = tid -> is_Some (accs st !! tenant_key tid) ->
  (exists status, store_tenant new_id new_seed m st t k = (status, NoValue, st) /\ 400 <= status) \/
  exists a us, store_tenant new_id new_seed m st t k = k false (Admin a (lru_clear (sessions st))) /\
    Forall2 processed (Pb.tenant_users t) us /\ a !! tenant_key tid = Some (ATenant (with_users us t)) /\ admin_ok a /\
    forall id, id <> tid -> a !! tenant_key id = accs st !! tenant_key id.
Proof.
  intros Hok Hid Hlow He. unfold store_tenant, Pb.tenant_id. rewrite Hid. cbn [default from_option id]. rewrite Hlow.
  assert (Hb := bad_upsertTenant new_id new_seed m (accs st) (sessions st) tid t false).
  destruct (upsertTenant _ _ _ _ _ _ _ _) as [[[was_new a] keys]|status] eqn:Eu; [right|left; by exists status].
  apply upsertTenant_stores in Eu as (us & Hus & Ht & Hw & Hk & Hok' & _ & Ho); [|done..]. exists a, us.
  assert (was_new = false) as -> by by rewrite Hw; unfold account_exists; rewrite bool_decide_true. by rewrite Hk.
Qed.

(** What an administrated state keeps of the one before. *)
Definition kept (st st' : admin) : Prop :=
  admin_ok (accs st') /\
  (sessions st' = lru_clear (sessions st) \/ sessions st' = sessions st /\ grows (accs st) (accs st')).

Lemma kept_same st : admin_ok (accs st) -> kept st st.
Proof. intros Hok. split; [done|]. right. by split; [|intros user pass s]. Qed.

Lemma kept_cleared st a : admin_ok a -> kept st (Admin a (lru_clear (sessions st))).
Proof. intros Hok. split; [done|by left]. Qed.

(** A request of the administration, with the random values of its service. *)
Inductive admin_step (st st' : admin) : Prop :=
| step_tenant m new_tenant new_id new_seed s q code v :
    onTenant has_auth tenantFromJson new_tenant new_id new_seed m cfg st s q = (code, v, st') ->
    toLowerStr new_tenant = new_tenant -> q_method q <> PATCH -> (q_method q = DELETE -> keys_plain (accs st)) ->
    admin_step st st'
| step_role m new_id new_seed s q code v :
    onRole has_auth roleFromJson no_status new_id new_seed m st s q = (code, v, st') -> admin_step st st'
| step_user m new_user new_id new_seed s q code v :
    onUser has_auth userFromJson no_status new_user new_id new_seed m st s q = (code, v, st') -> admin_step st st'.

Lemma return_tenant_state st key code : (return_tenant st key code).2 = st.
Proof. unfold return_tenant. by destruct (getTenant _ _) as [[t|]| | |]. Qed.

Lemma listTenants_state st q : (listTenants cfg st q).2 = st.
Proof.
  unfold listTenants. destruct (getPageSize _ _); [|done]. destruct (getKindOfListing _ _); [|done]. by destruct (walk_tenants _ _ _).
Qed.

Lemma tenant_body_id q key t :
  q_method q = PUT \/ q_method q = PATCH -> tenant_body tenantFromJson q key = inl t -> is_Some (Pb.opt_tenant_id t).
Proof.
  intros Hm. unfold tenant_body. destruct (tenantFromJson (q_body q)) as [b|]; destruct Hm as [->| ->]; rewrite expects_body; cbn [negb];
    try done; repeat case_match; intros E; simplify_eq; by eexists.
Qed.

Lemma upsertTenant_id new_id new_seed m a keys tid t merge id r :
  upsertTenant new_id new_seed m a keys tid t merge = Done r -> Pb.opt_tenant_id t = Some id -> id = tid.
Proof. unfold upsertTenant. intros Hu Hid. rewrite Hid in Hu. by destruct (String.eqb_spec id tid). Qed.

Lemma onTenant_ok m new_tenant new_id new_seed st s q :
  admin_ok (accs st) -> toLowerStr new_tenant = new_tenant -> q_method q <> PATCH ->
  (q_method q = DELETE -> keys_plain (accs st)) ->
  kept st (onTenant has_auth tenantFromJson new_tenant new_id new_seed m cfg st s q).2.
Proof.
  intros Hok Hnew Hm Hd. assert (Hsame := kept_same st Hok). unfold onTenant. destruct (tenant_body _ _ _) as [t|] eqn:Eb; [|done].
  destruct (match Pb.opt_tenant_id t with Some id => _ | None => _ end); [done|].
  destruct (q_method q) eqn:Em; try done.
  - destruct (String.eqb _ _); [destruct (isAllowed _ _ _); [by rewrite listTenants_state|done]|].
    destruct (_ || _); [by rewrite return_tenant_state|done].
  - destruct (negb _); [done|]. destruct (negb _); [done|].
    destruct (createTenant _ _ _ _ _ _) as [[id a]|] eqn:Ec; [|done].
    assert (Hid := created_id _ _ _ _ _ _ _ _ Ec Hnew). apply createTenant_ok in Ec as [Ha Hg]; [|done..].
    assert (kept st (Admin a (sessions st))) by (split; [done|by right]).
    cbn [respond]. by destruct (getTenant a id) as [[e|]| | |].
  - destruct (negb _); [done|]. destruct (upsertTenant _ _ _ _ _ _ _ _) as [[[was_new a] keys]|] eqn:Eu; [|done].
    cbn [respond]. rewrite return_tenant_state. cbn [accs].
    destruct (tenant_body_id q _ t (or_introl Em) Eb) as [tid Hid]. assert (Ht := upsertTenant_id _ _ _ _ _ _ _ _ _ _ Eu Hid). subst tid.
    apply upsertTenant_stores in Eu as (us & _ & _ & _ & Hk & Ha & Hg & _); [|done|apply lower_idem|done].
    split; [done|]. cbn [accs sessions]. destruct was_new; [right|by left]. split; [done|by apply Hg].
  - destruct (_ || _); [|done]. destruct (deleteTenant _ _ _) as [[a keys]|] eqn:Ed; [|done]. cbn.
    apply deleteTenant_spec in Ed as (? & _ & ->); [by apply kept_cleared|done|by apply Hd|apply lower_idem].
Qed.

Lemma stored_state st t name code : (stored_user st t name code).2 = st.
Proof.
  unfold stored_user. destruct (getTenant _ _) as [[e|]| | |]; cbn; try done. unfold get_user. by destruct (find_user_named _ _).
Qed.

(** Storing a changed tenant, whatever the response. *)
Lemma store_tenant_ok new_id new_seed m st t k tid :
  admin_ok (accs st) -> Pb.opt_tenant_id t = Some tid -> toLowerStr tid = tid -> is_Some (accs st !! tenant_key tid) ->
  (forall was_new st, (k was_new st).2 = st) -> kept st (store_tenant new_id new_seed m st t k).2.
Proof.
  intros Hok Hid Hlow He Hk. destruct (store_tenant_cases new_id new_seed m st t tid k Hok Hid Hlow He) as [(c & -> & _)|(a & us & -> & _ & _ & Ha & _)];
    [by apply kept_same|]. rewrite Hk. by apply kept_cleared.
Qed.

Lemma onRole_ok m new_id new_seed st s q :
  admin_ok (accs st) -> kept st (onRole has_auth roleFromJson no_status new_id new_seed m st s q).2.
Proof.
  intros Hok. assert (Hsame := kept_same st Hok). unfold onRole. edestruct (with_tenant_cases st s q) as [[c ->]|(s' & t & Hs & ->)]; [done|].
  destruct (serves_tenant _ _ _ _ _ Hok Hs) as (tid & Ht & Hid & Hlow & _). assert (He : is_Some (accs st !! tenant_key tid)) by by eexists.
  destruct (if negb _ then _ else _) as [role|]; [|done].
  destruct (q_method q); try done; repeat case_match; try done; by apply (store_tenant_ok _ _ _ _ _ _ tid).
Qed.

Lemma onUser_ok m new_user new_id new_seed st s q :
  admin_ok (accs st) -> kept st (onUser has_auth userFromJson no_status new_user new_id new_seed m st s q).2.
Proof.
  intros Hok. assert (Hsame := kept_same st Hok). unfold onUser. edestruct (with_tenant_cases st s q) as [[c ->]|(s' & t & Hs & ->)]; [done|].
  destruct (serves_tenant _ _ _ _ _ Hok Hs) as (tid & Ht & Hid & Hlow & _). assert (He : is_Some (accs st !! tenant_key tid)) by by eexists.
  assert (Hg : forall name code, (get_user st t name code).2 = st) by (intros; unfold get_user; by destruct (find_user_named _ _)).
  assert (Hsu : forall t name code st, (stored_user st t name code).2 = st) by (intros; apply stored_state).
  destruct (user_body _ _ _) as [u|]; [|done].
  destruct (q_method q); try done; repeat case_match; try done; rewrite ?Hg; try done; by apply (store_tenant_ok _ _ _ _ _ _ tid).
Qed.

Lemma admin_step_kept st st' : admin_step st st' -> admin_ok (accs st) -> kept st st'.
Proof.
  intros [m nt ni ns s q code v E Hn Hm Hd|m ni ns s q code v E|m nu ni ns s q code v E] Hok;
    change st' with (code, v, st').2; rewrite <- E; [by apply onTenant_ok|by apply onRole_ok|by apply onUser_ok].
Qed.

Lemma admin_steps_ok st st' : rtc admin_step st st' -> admin_ok (accs st) -> admin_ok (accs st').
Proof. induction 1 as [|st1 st2 st3 Hs _ IH]; [done|]. intros Hok. by apply IH, (admin_step_kept st1). Qed.

(** ** Users *)

Lemma processed_name u u' : processed u u' -> Pb.opt_user_name u' = Pb.opt_user_name u /\ Pb.user_roles u' = Pb.user_roles u.
Proof. by intros (? & ? & ? & ? & _ & -> & _). Qed.

(** The users that are stored have their names. *)
Lemma processed_keys us us' : Forall2 processed us us' -> user_keys us' = user_keys us.
Proof.
  unfold user_keys. induction 1 as [|u u' us us' Hu _ IH]; [done|]. rewrite !fmap_cons, IH.
  unfold Pb.user_name. by destruct (processed_name _ _ Hu) as [-> _].
Qed.

Lemma find_processed us us' (f : Pb.User -> bool) u :
  (forall x y, processed x y -> f y = f x) -> Forall2 processed us us' -> List.find f us = Some u ->
  exists u', List.find f us' = Some u' /\ processed u u'.
Proof.
  intros Hf. induction 1 as [|x y us us' Hx _ IH]; [done|]. cbn [List.find]. rewrite (Hf _ _ Hx).
  destruct (f x); [|done]. intros [= ->]. by exists y.
Qed.

Lemma find_last {A} (f : A -> bool) l x : List.find f l = None -> f x = true -> List.find f (l ++ [x]) = Some x.
Proof. intros Hl Hx. induction l as [|y l IH]; cbn [app List.find] in *; [by rewrite Hx|]. destruct (f y); [done|]. by apply IH. Qed.

Lemma find_processed_none us us' (f : Pb.User -> bool) :
  (forall x y, processed x y -> f y = f x) -> Forall2 processed us us' -> List.find f us = None -> List.find f us' = None.
Proof.
  intros Hf. induction 1 as [|x y us us' Hx _ IH]; [done|]. cbn [List.find]. rewrite (Hf _ _ Hx). by destruct (f x).
Qed.

Definition login_name (name : string) (u : Pb.User) : bool := String.eqb (toLowerStr (Pb.user_name u)) name.

Lemma login_name_processed name x y : processed x y -> login_name name y = login_name name x.
Proof. intros [E _]%processed_name. unfold login_name, Pb.user_name. by rewrite E. Qed.

Lemma named_login name u : name <> ""%string -> named_as Pb.opt_user_name name u = login_name (toLowerStr name) u.
Proof.
  intros Hne. unfold named_as, login_name, Pb.user_name. destruct (Pb.opt_user_name u) as [n|].
  - by rewrite compareCaseInsensitive_full.
  - cbn. destruct name; [done|]. done.
Qed.

Lemma find_named_login us name : name <> ""%string -> find_user_named us name = List.find (login_name (toLowerStr name)) us.
Proof.
  intros Hne. unfold getFromList. induction us as [|u us IH]; [done|]. cbn [List.find]. by rewrite named_login, IH.
Qed.

Lemma lower_nonempty s : s <> ""%string -> toLowerStr s <> ""%string.
Proof. by destruct s. Qed.

Lemma user_key_elem us name : user_key name ∈ user_keys us <-> exists u, u ∈ us /\ login_name (toLowerStr name) u = true.
Proof.
  unfold user_keys. rewrite list_elem_of_fmap. unfold login_name. split.
  - intros (u & E%init_key_inj & Hu). exists u. split; [done|]. by rewrite E, String.eqb_refl.
  - intros (u & Hu & E%String.eqb_eq). exists u. split; [|done]. unfold user_key. by rewrite E.
Qed.

Lemma lower_key name : user_key (toLowerStr name) = user_key name.
Proof. unfold user_key. by rewrite lower_idem. Qed.

(** The lookup of basicAuth in accounts in order. *)
Lemma check_user_found a tid t name u auth pass :
  admin_ok a -> a !! tenant_key tid = Some (ATenant t) -> List.find (login_name (toLowerStr name)) (Pb.tenant_users t) = Some u ->
  Pb.user_auth u = Some auth ->
  check_user a (toLowerStr name) pass
  = if String.eqb (createHash (Pb.auth_seed auth) pass) (Pb.auth_hash auth)
    then s ← or_failed (new_session t (toLowerStr name) (Pb.user_roles u)); Built (Some s) else Built None.
Proof.
  intros [_ Hai] Ht Hf Ha. unfold check_user. change (init_key (toLowerStr name) USER) with (user_key name).
  assert (Hr : read_text a (user_key name) = Some tid).
  { apply Hai. exists t. split; [done|]. apply user_key_elem. exists u. apply find_some in Hf as [Hin Hn].
    split; [by apply list_elem_of_In|done]. }
  rewrite Hr. unfold getTenant, get_tenant. rewrite Ht. cbn [mbind verdict_bind]. unfold find_user.
  change (List.find _ (Pb.tenant_users t)) with (List.find (login_name (toLowerStr name)) (Pb.tenant_users t)).
  rewrite Hf, Ha. done.
Qed.

Lemma check_user_missing a name pass :
  admin_ok a -> (forall tid t, a !! tenant_key tid = Some (ATenant t) -> user_key name ∉ user_keys (Pb.tenant_users t)) ->
  check_user a (toLowerStr name) pass = Built None.
Proof.
  intros [_ Hai] Hn. unfold check_user. change (init_key (toLowerStr name) USER) with (user_key name).
  destruct (read_text a (user_key name)) as [tid|] eqn:Er; [|done]. apply Hai in Er as (t & Ht & Hk). by eapply Hn in Hk.
Qed.

Lemma created_user m new_user new_id new_seed st s q s' t u name auth p v st' :
  admin_ok (accs st) -> serves st s q s' t -> q_method q = POST -> userFromJson (q_body q) = Some u ->
  Pb.opt_user_name u = Some name -> name <> ""%string -> Pb.user_auth u = Some auth -> Pb.opt_password auth = Some p ->
  onUser has_auth userFromJson no_status new_user new_id new_seed m st s q = (201, v, st') ->
  exists id seed, let u' := Pb.MkUser (Some id) (Some (toLowerStr name)) (Pb.user_active u) (Pb.user_roles u)
                              (Some (Pb.MkAuth (Some (createHash seed p)) (Some seed) None)) in
    v = OneUser u' /\ lru_ (sessions st') = [] /\ admin_ok (accs st') /\
    exists tid us, accs st' !! tenant_key tid = Some (ATenant (with_users us t)) /\
      List.find (login_name (toLowerStr name)) us = Some u'.
Proof.
  intros Hok Hs Hm Hu Hn Hne Ha Hp Hr.
  destruct (serves_tenant _ _ _ _ _ Hok Hs) as (tid & Ht & Hid & Hlow & _). assert (He : is_Some (accs st !! tenant_key tid)) by by eexists.
  unfold onUser, with_tenant in Hr. rewrite Hs in Hr. unfold user_body in Hr.
  rewrite Hm, expects_body, Hu, Hn in Hr. cbn [negb Pb.opt_user_name user_named] in Hr.
  destruct (negb _); [done|]. set (lname := toLowerStr name) in *.
  set (nu := user_with _ _ _) in Hr. change (Pb.user_name nu) with lname in Hr.
  assert (Hln : lname <> ""%string) by by apply lower_nonempty.
  assert (Hll : toLowerStr lname = lname) by apply lower_idem.
  rewrite (find_named_login _ lname Hln), Hll in Hr.
  destruct (List.find (login_name lname) (Pb.tenant_users t)) as [?|] eqn:Ef; [done|].
  destruct (store_tenant_cases new_id new_seed m st (with_users (Pb.tenant_users t ++ [nu]) t) tid
    (fun _ st => stored_user st t lname 201) Hok Hid Hlow He) as [(c & E & Hc)|(a & us & E & Hus & Hta & Hok' & _)]; rewrite E in Hr.
  { injection Hr as -> _ <-. lia. }
  cbn [Pb.tenant_users with_users] in Hus. apply Forall2_app_inv_l in Hus as (us0 & us1 & Hus0 & Hus1 & ->).
  apply Forall2_cons_inv_l in Hus1 as (u' & us2 & Hu' & Hus2 & ->). apply Forall2_nil_inv_l in Hus2 as ->.
  assert (Hfind : List.find (login_name lname) (us0 ++ [u']) = Some u').
  { apply find_last; [by apply (find_processed_none _ _ _ (login_name_processed lname) Hus0)|].
    rewrite (login_name_processed _ _ _ Hu'). unfold login_name. change (Pb.user_name nu) with lname. by rewrite Hll, String.eqb_refl. }
  destruct Hu' as (auth' & hash & seed & id & Ha' & Eu' & Hpw). cbn [nu user_with user_named Pb.user_auth] in Ha'.
  rewrite Ha in Ha'. injection Ha' as <-. rewrite Hp in Hpw. subst hash.
  unfold stored_user in Hr. unfold Pb.tenant_id in Hr. rewrite Hid in Hr. cbn [default from_option Datatypes.id accs] in Hr.
  unfold getTenant, get_tenant in Hr. rewrite Hta in Hr. cbn [or_internal respond] in Hr. unfold get_user in Hr.
  cbn [Pb.tenant_users with_users] in Hr. rewrite (find_named_login _ lname Hln), Hll, Hfind in Hr. injection Hr as <- <-.
  exists id, seed. cbv zeta. split_and!; [by rewrite Eu'|done|done|]. exists tid, (us0 ++ [u']). split; [done|]. by rewrite Hfind, Eu'.
Qed.

(** Removing the first of a name leaves none, when names differ. *)
Lemma removed_name us name :
  name <> ""%string -> NoDup ((fun u => toLowerStr (Pb.user_name u)) <$> us) -> find_user_named us name <> None ->
  user_key name ∉ user_keys (removeFromList Pb.opt_user_name us name).
Proof.
  intros Hne. unfold getFromList. induction us as [|u us IH]; [done|]. rewrite fmap_cons. intros [Hu Hnd]%NoDup_cons.
  cbn [List.find removeFromList]. destruct (named_as Pb.opt_user_name name u) eqn:En.
  - intros _ (x & Hx & Ex)%user_key_elem. apply Hu. rewrite named_login in En by done.
    apply String.eqb_eq in En, Ex. rewrite En, <- Ex. by apply (list_elem_of_fmap_2 (fun u => toLowerStr (Pb.user_name u))).
  - intros Hf. unfold user_keys. rewrite fmap_cons. apply not_elem_of_cons. split; [|by apply IH].
    rewrite named_login in En by done. intros E%init_key_inj. unfold login_name in En. by rewrite E, String.eqb_refl in En.
Qed.

Lemma removed_user m new_user new_id new_seed st s q s' t v st' :
  admin_ok (accs st) -> serves st s q s' t -> q_method q = DELETE -> q_target q <> ""%string -> no_status < 400 ->
  NoDup ((fun u => toLowerStr (Pb.user_name u)) <$> Pb.tenant_users t) ->
  onUser has_auth userFromJson no_status new_user new_id new_seed m st s q = (no_status, v, st') ->
  lru_ (sessions st') = [] /\ forall pass, check_user (accs st') (toLowerStr (q_target q)) pass = Built None.
Proof.
  intros Hok Hs Hm Hne Hst Hnd Hr.
  destruct (serves_tenant _ _ _ _ _ Hok Hs) as (tid & Ht & Hid & Hlow & _). assert (He : is_Some (accs st !! tenant_key tid)) by by eexists.
  unfold onUser, with_tenant in Hr. rewrite Hs in Hr. unfold user_body in Hr. rewrite Hm, expects_body in Hr. cbn [negb] in Hr.
  destruct (negb _); [answered Hr|]. set (lname := toLowerStr (q_target q)) in *.
  destruct (find_user_named (Pb.tenant_users t) lname) as [u|] eqn:Ef; [|injection Hr as <- _ _; lia].
  destruct (store_tenant_cases new_id new_seed m st (with_users (removeFromList Pb.opt_user_name (Pb.tenant_users t) lname) t) tid
    (fun _ st => (no_status, NoValue, st)) Hok Hid Hlow He) as [(c & E & Hc)|(a & us & E & Hus & Hta & Hok' & Hot)]; rewrite E in Hr.
  { injection Hr as -> _ _. lia. }
  injection Hr as _ <-. split; [done|]. intros pass. cbn [accs]. apply check_user_missing; [done|]. intros tid' t' Ht'.
  assert (Hln : lname <> ""%string) by by apply lower_nonempty.
  assert (Hk : user_key lname = user_key (q_target q)) by apply lower_key.
  destruct (decide (tid' = tid)) as [->|Hd].
  - rewrite Hta in Ht'. injection Ht' as <-. cbn [Pb.tenant_users with_users] in *. rewrite (processed_keys _ _ Hus), <- Hk.
    apply removed_name; [done|done|congruence].
  - rewrite Hot in Ht' by done. intros Hin. apply Hd. destruct Hok as [_ Hai].
    assert (H1 : read_text (accs st) (user_key (q_target q)) = Some tid') by (apply Hai; by exists t').
    assert (H2 : read_text (accs st) (user_key (q_target q)) = Some tid); [|congruence].
    apply Hai. exists t. split; [done|]. apply user_key_elem. rewrite find_named_login in Ef by done. fold lname.
    assert (Hll : toLowerStr lname = lname) by apply lower_idem. rewrite Hll in Ef.
    apply find_some in Ef as [Hu%list_elem_of_In Hn]. by exists u.
Qed.

(** What a role without a filter gives. *)
Lemma role_given t who roles sess r p :
  new_session t who roles = Some sess -> r ∈ Pb.tenant_roles t -> exists_in roles (Pb.role_name r) = true ->
  appliesToAll (new_role r) = true -> p ∈ Pb.role_permissions r -> isAllowed has_auth sess p = true.
Proof.
  unfold new_session. destruct (parse_uuid _) as [id|]; [|done]. cbn [mbind option_bind]. intros [= <-] Hr Hn Hf Hp.
  unfold isAllowed. destruct (negb has_auth); [done|]. cbn [non_zone_perms_]. rewrite fold_all_perms. apply existsb_exists.
  exists (new_role r). split.
  - apply list_elem_of_In. unfold populate. apply list_elem_of_fmap_2, list_elem_of_In, filter_In. by rewrite <- list_elem_of_In.
  - rewrite session_perms_has, Hf. cbn [new_role permissions_ orb].
    rewrite andb_true_r, getPerms_has. by apply bool_decide_eq_true_2.
Qed.

Lemma role_stored m new_id new_seed st s q s' t r code v st' :
  admin_ok (accs st) -> serves st s q s' t -> q_method q = POST \/ q_method q = PUT -> roleFromJson (q_body q) = Some r ->
  onRole has_auth roleFromJson no_status new_id new_seed m st s q = (code, v, st') -> code < 400 ->
  admin_ok (accs st') /\ exists tid rs us, Pb.opt_tenant_id t = Some tid /\
    accs st' !! tenant_key tid = Some (ATenant (with_users us (with_roles (rs ++ [r]) t))) /\ Forall2 processed (Pb.tenant_users t) us.
Proof.
  intros Hok Hs Hm Hro Hr Hc.
  destruct (serves_tenant _ _ _ _ _ Hok Hs) as (tid & Ht & Hid & Hlow & _). assert (He : is_Some (accs st !! tenant_key tid)) by by eexists.
  unfold onRole, with_tenant in Hr. rewrite Hs, expects_body, Hro in Hr.
  assert (Hst : forall rs k, store_tenant new_id new_seed m st (with_roles (rs ++ [r]) t) k = (code, v, st') -> 
    (forall was_new st, (k was_new st).2 = st) -> admin_ok (accs st') /\ exists tid rs us, Pb.opt_tenant_id t = Some tid /\
    accs st' !! tenant_key tid = Some (ATenant (with_users us (with_roles (rs ++ [r]) t))) /\ Forall2 processed (Pb.tenant_users t) us).
  { intros rs k E Hk. destruct (store_tenant_cases new_id new_seed m st (with_roles (rs ++ [r]) t) tid k Hok Hid Hlow He)
      as [(c & E' & Hc')|(a & us & E' & Hus & Hta & Hok' & _)]; rewrite E' in E; [injection E as -> _ _; lia|].
    assert (Est : (k false (Admin a (lru_clear (sessions st)))).2 = st') by by rewrite E. rewrite Hk in Est. subst st'.
    split; [done|]. by exists tid, rs, us. }
  destruct Hm as [Hm|Hm]; rewrite Hm in Hr; cbn [negb] in Hr.
  - destruct (Pb.opt_role_name r); [|injection Hr as <- _ _; lia].
    destruct (negb _); [answered Hr|].
    destruct (find_role_named _ _); [answered Hr|]. by eapply Hst.
  - destruct (String.eqb _ _); [answered Hr|].
    destruct (negb _); [answered Hr|]. destruct (negb _); [answered Hr|]. by eapply Hst.
Qed.

(** ** PATCH of a tenant *)

Lemma patched_tenant m new_tenant new_id new_seed st s q t v st' :
  q_method q = PATCH -> tenantFromJson (q_body q) = Some t ->
  onTenant has_auth tenantFromJson new_tenant new_id new_seed m cfg st s q = (200, v, st') ->
  (exists t', v = OneTenant t' /\ accs st' !! tenant_key (toLowerStr (q_target q)) = Some (ATenant t') /\
     forall u, u ∈ Pb.tenant_users t -> u ∈ Pb.tenant_users t') /\
  forall name, read_text (accs st') (user_key name) = read_text (accs st) (user_key name).
Proof.
  intros Hm Ht Hr. unfold onTenant in Hr.
  destruct (tenant_body _ _ _) as [b|] eqn:Eb; [|injection Hr as ? _ _; subst; unfold tenant_body in Eb; by repeat case_match; simplify_eq].
  assert (Hb : is_Some (Pb.opt_tenant_id b)) by (eapply tenant_body_id; [by right|done]).
  assert (Hus : Pb.tenant_users b = Pb.tenant_users t).
  { unfold tenant_body in Eb. rewrite Hm, expects_body, Ht in Eb. cbn [negb] in Eb. by repeat case_match; simplify_eq. }
  destruct (match Pb.opt_tenant_id b with Some id => _ | None => _ end); [done|]. rewrite Hm in Hr.
  destruct (negb _); [done|]. set (key := toLowerStr (q_target q)) in *.
  destruct (upsertTenant _ _ _ _ _ _ _ _) as [[[was_new a] keys]|c] eqn:Eu;
    [|assert (H9 := bad_upsertTenant new_id new_seed m (accs st) (sessions st) key b true); rewrite Eu in H9; cbn in H9, Hr; injection Hr as -> _ _; lia].
  cbn [respond] in Hr. destruct Hb as [bid Hid]. assert (E := upsertTenant_id _ _ _ _ _ _ _ _ _ _ Eu Hid). subst bid.
  unfold upsertTenant, Pb.tenant_id in Eu. rewrite Hid, String.eqb_refl in Eu. cbn [negb default from_option Datatypes.id] in Eu.
  assert (Hk : toLowerStr key = key) by apply lower_idem. rewrite Hk in Eu.
  destruct (or_internal (getTenant (accs st) key)) as [[e|]|] eqn:Eg; cbn [mbind outcome_bind] in Eu; [| |done].
  - rewrite (write_account_new _ _ _ _ _ TENANT) in Eu by (done || apply init_class). cbn [or_exists mbind outcome_bind] in Eu.
    destruct (upsertTenantIndexes _ _ _ _) as [a1|] eqn:En; cbn [mbind outcome_bind] in Eu; [|done]. injection Eu as <- <- <-.
    assert (Hfr : forall k c, of_class c k -> c <> TENANT_NAME -> a1 !! k = <[tenant_key key := ATenant (MergeFrom e b)]> (accs st) !! k).
    { intros k c Hc Hne. by eapply upsertTenantIndexes_frame. }
    unfold return_tenant, getTenant, get_tenant in Hr. cbn [accs] in Hr.
    rewrite (Hfr _ TENANT), lookup_insert_eq in Hr by (done || apply init_class). cbn [or_internal respond] in Hr. injection Hr as <- <-.
    split.
    + eexists. split_and!; [done|cbn [accs]; rewrite (Hfr _ TENANT) by (done || apply init_class); apply lookup_insert_eq|]. intros u Hu. cbn [MergeFrom Pb.tenant_users]. rewrite Hus. apply elem_of_app. by right.
    + intros name. unfold read_text. cbn [accs]. rewrite (Hfr _ USER) by (done || apply init_class). by rewrite lookup_insert_ne.
  - exfalso. assert (was_new = true) as ->.
    { repeat (match type of Eu with (?o ≫= _) = _ => destruct o as [?|?]; cbn [mbind outcome_bind] in Eu; [|done] end).
      by injection Eu as <- _ _. }
    revert Hr. unfold return_tenant. by destruct (getTenant (accs (Admin a keys)) key) as [[x|]| | |].
Qed.
End Handlers.

(** ** The list of tenants *)

(** The tenants after a key, in the order of the database. *)
Definition tenants_from (later : string -> bool) (a : accounts) : list Pb.Tenant :=
  omap (fun r : string * AccountDb.account => match r.2 with ATenant t => Some t | _ => None end)
    (List.filter (fun r => later r.1 && isSameKeyClass (tenant_key "") r.1) (account_records a)).

Lemma walk_page n l :
  (forall k v, (k, v) ∈ l -> isSameKeyClass (tenant_key "") k = true -> exists t, v = ATenant t) ->
  forall c, (c <= n)%nat ->
  walk_tenants n c l
  = Done (take (S n - c) (omap (fun r : string * AccountDb.account => match r.2 with ATenant t => Some t | _ => None end)
                             (take_while (fun r => isSameKeyClass (tenant_key "") r.1) l))).
Proof.
  induction l as [|[k v] l IH]; intros Hl c Hc; [by destruct (S n - c)%nat|]. cbn [walk_tenants take_while fst].
  destruct (isSameKeyClass (tenant_key "") k) eqn:Ek; cbn [negb]; [|by destruct (S n - c)%nat].
  destruct (Hl k v) as [t ->]; [by left|done|]. cbn [omap list_omap snd].
  destruct (S c <=? n)%nat eqn:En.
  - apply Nat.leb_le in En. rewrite IH; [|intros; eapply Hl; [by right|done]|done]. cbn [mbind outcome_bind].
    replace (S n - c)%nat with (S (S n - S c)) by lia. done.
  - apply Nat.leb_gt in En. replace (S n - c)%nat with 1%nat by lia. by destruct (omap _ _).
Qed.

(** The records after a key of an ordered database. *)
Lemma drop_after {V} (k : string) (l : list (string * V)) :
  StronglySorted String.le l.*1 -> drop (count_le k l) l = List.filter (fun r => negb (String.leb r.1 k)) l.
Proof.
  unfold count_le. induction l as [|[k0 v] l IH]; [done|]. rewrite fmap_cons. intros [Hs Hall]%StronglySorted_inv.
  cbn [List.filter fst]. destruct (String.leb k0 k) eqn:E; cbn [negb length drop]; [by apply IH|].
  assert (Hno : forall r, r ∈ l -> String.leb r.1 k = false).
  { intros r Hr. apply not_true_iff_false. intros Hle. rewrite Forall_forall in Hall.
    assert (H1 : String.leb k0 r.1 = true) by (apply Is_true_true, Hall; by apply list_elem_of_fmap_2).
    assert (H2 : String.leb k0 k = true) by by eapply key_le_trans. congruence. }
  assert (E0 : List.filter (fun kv : string * V => String.leb kv.1 k) l = []).
  { clear -Hno. induction l as [|r l IH]; [done|]. cbn [List.filter]. rewrite Hno by by left. apply IH. intros; apply Hno. by right. }
  rewrite E0. cbn [length drop]. f_equal. clear -Hno. induction l as [|r l IH]; [done|]. cbn [List.filter]. rewrite Hno by by left.
  cbn [negb]. f_equal. apply IH. intros; apply Hno. by right.
Qed.

Lemma key_le_first a b x y : String.leb (String a x) (String b y) = true -> (N_of_ascii a <= N_of_ascii b)%N.
Proof.
  unfold String.leb. cbn [String.compare]. unfold Ascii.compare. destruct (N.compare_spec (N_of_ascii a) (N_of_ascii b)); [|lia|done].
  intros _. lia.
Qed.

(** Tenants in an ordered list, from one on, come first. *)
Lemma tenants_first {V} (l : list (string * V)) :
  StronglySorted String.le l.*1 -> Forall (fun r => String.leb (tenant_key "") r.1 = true) l ->
  take_while (fun r => isSameKeyClass (tenant_key "") r.1) l = List.filter (fun r => isSameKeyClass (tenant_key "") r.1) l.
Proof.
  induction l as [|[k v] l IH]; [done|]. rewrite fmap_cons. intros [Hs Hall]%StronglySorted_inv [Hk Hl]%Forall_cons.
  cbn [take_while List.filter fst]. destruct (isSameKeyClass (tenant_key "") k) eqn:E; [by rewrite IH|].
  assert (Hno : forall r, r ∈ l -> isSameKeyClass (tenant_key "") r.1 = false).
  { intros r Hr. rewrite Forall_forall in Hall. assert (H1 : String.leb k r.1 = true) by (apply Is_true_true, Hall; by apply list_elem_of_fmap_2).
    cbn [fst] in Hk. destruct k as [|c k]; [done|]. destruct (r.1) as [|d r1]; [done|]. apply key_le_first in Hk, H1.
    cbn [isSameKeyClass tenant_key init_key] in *. apply Ascii.eqb_neq in E. apply Ascii.eqb_neq. intros <-. apply E.
    rewrite <- (ascii_N_embedding (class_byte TENANT)), <- (ascii_N_embedding c). f_equal. lia. }
  clear -Hno. induction l as [|r l IH]; [done|]. cbn [List.filter]. rewrite Hno by by left. apply IH. intros; apply Hno. by right.
Qed.

Lemma filter_both {A} (f g : A -> bool) l : List.filter f (List.filter g l) = List.filter (fun x => g x && f x) l.
Proof. induction l as [|x l IH]; [done|]. cbn [List.filter]. destruct (g x); cbn [andb List.filter]; by rewrite IH. Qed.

#[export] Instance key_le_transitive {A} : Transitive (key_le (A := A)).
Proof. intros a b c. apply key_le_trans. Qed.

#[export] Instance key_le_total {A} : Total (key_le (A := A)).
Proof.
  intros a b. unfold key_le. destruct (String.leb a.1 b.1) eqn:E; [by left|right]. by apply key_lt_le, key_le_gt.
Qed.

Lemma records_sorted a : StronglySorted String.le (account_records a).*1.
Proof.
  unfold account_records. assert (Hs : StronglySorted key_le (merge_sort key_le (map_to_list a))) by apply (StronglySorted_merge_sort _).
  induction Hs as [|r l _ IH Hr]; [constructor|]. rewrite fmap_cons. constructor; [done|].
  apply Forall_fmap. eapply Forall_impl; [exact Hr|]. intros x Hx. by apply Is_true_true.
Qed.

Lemma tenant_page cfg st q n kind :
  admin_ok (accs st) -> getPageSize cfg (q_args q) = Some n -> getKindOfListing [DEFAULT; BRIEF; ID] (q_args q) = Some kind ->
  let from := getFrom (q_args q) in
  let later key := if String.eqb from "" then true else negb (String.leb key (tenant_key from)) in
  listTenants cfg st q = (200, SomeTenants kind (take (S n) (tenants_from later (accs st))), st).
Proof.
  intros [Hat _] Hn Hk from later. unfold listTenants. rewrite Hn, Hk. fold from. cbv zeta.
  set (records := account_records (accs st)).
  assert (Hs : StronglySorted String.le records.*1) by apply records_sorted.
  assert (Ht : forall k v, (k, v) ∈ records -> isSameKeyClass (tenant_key "") k = true -> exists t, v = ATenant t).
  { intros k v Hin Hc. apply account_records_of in Hin. destruct k as [|c k]; [done|]. apply Ascii.eqb_eq in Hc as <-.
    change (String (class_byte TENANT) k) with (tenant_key k) in Hin. destruct (Hat _ _ Hin) as (t & -> & _). by exists t. }
  set (l := if String.eqb from "" then _ else _).
  assert (Hl : exists g, l = List.filter g records /\ (forall r, isSameKeyClass (tenant_key "") r.1 = true -> g r = later r.1) /\
    Forall (fun r => String.leb (tenant_key "") r.1 = true) l).
  { unfold l, later. destruct (String.eqb from "").
    - eexists. split_and!; [done|..].
      + intros [k v] Hc. destruct k as [|c k]; [done|]. apply Ascii.eqb_eq in Hc as <-. by destruct k.
      + apply Forall_forall. intros r Hr. by apply list_elem_of_In, filter_In in Hr as [_ ?].
    - eexists. split_and!; [by apply drop_after|done|]. rewrite drop_after by done. apply Forall_forall. intros r Hr.
      apply list_elem_of_In, filter_In in Hr as [_ Hr]. apply negb_true_iff, key_le_gt, key_lt_le in Hr.
      eapply key_le_trans; [|exact Hr]. by destruct from. }
  destruct Hl as (g & El & Hg & Hle).
  assert (Hsl : StronglySorted String.le l.*1).
  { rewrite El. clear -Hs. induction records as [|r rs IH]; [constructor|]. rewrite fmap_cons in Hs. apply StronglySorted_inv in Hs as [Hs Hr].
    cbn [List.filter]. destruct (g r); [|by apply IH]. rewrite fmap_cons. constructor; [by apply IH|].
    rewrite Forall_fmap in Hr |- *. rewrite !Forall_forall in *. intros x Hx. apply Hr. apply list_elem_of_In, filter_In in Hx as [? _].
    by apply list_elem_of_In. }
  rewrite (walk_page n l); [|intros k v Hin; apply Ht; rewrite El in Hin; apply list_elem_of_In, filter_In in Hin as [? _]; by apply list_elem_of_In|lia].
  cbn [respond]. rewrite tenants_first, Nat.sub_0_r, El, filter_both by done. unfold tenants_from. fold records. do 5 f_equal.
  apply filter_ext. intros r. rewrite (andb_comm (later _)). destruct (isSameKeyClass (tenant_key "") r.1) eqn:Ec; [by rewrite Hg, andb_true_r|].
  by rewrite andb_false_r.
Qed.

(** ** The system's tenant *)

Section Bootstrap.
Context `{RestLibs} `{AuthLibs} (has_auth : bool).
Context (new_tenant : string) (new_id new_seed : nat -> string) (m : index).

Abbreviation bootstrap' := (bootstrap new_tenant new_id new_seed m).

Lemma process_admin seed p :
  (String.length (createHash seed p) <= 128)%nat -> (String.length seed <= 128)%nat ->
  processUsers new_id new_seed (default_active (with_id (toLowerStr nsblastTenantUuid) (bootstrap_tenant seed p))) None
  = Done (bootstrap_tenant seed p).
Proof.
  intros Hh Hs. unfold processUsers. cbn [default_active with_id bootstrap_tenant Pb.tenant_users Pb.tenant_roles process_users].
  cbn [Pb.user_auth]. change (Pb.auth_hash _) with (createHash seed p). change (Pb.auth_seed _) with seed.
  rewrite (proj2 (Nat.ltb_ge 128 (String.length (createHash seed p))) Hh), (proj2 (Nat.ltb_ge 128 (String.length seed)) Hs). done.
Qed.

Lemma bootstrap_result a env seed random :
  let p := (admin_password env random).1 in
  a !! tenant_key nsblastTenantUuid = None -> a !! name_key nsblastTenantUuid = None -> a !! user_key "admin" = None ->
  (String.length (createHash seed p) <= 128)%nat -> (String.length seed <= 128)%nat ->
  exists a', bootstrap' a env seed random = Done a' /\ a' !! tenant_key nsblastTenantUuid = Some (ATenant (bootstrap_tenant seed p)).
Proof.
  intros p Ht Hn Hu Hh Hs. unfold bootstrap, createTenant. fold p. cbn [bootstrap_tenant Pb.opt_tenant_id].
  change (toLowerStr nsblastTenantUuid) with nsblastTenantUuid. unfold account_exists. rewrite Ht, Hn. 
  rewrite !bool_decide_false by by apply is_Some_None.
  assert (E := process_admin seed p Hh Hs). change (toLowerStr nsblastTenantUuid) with nsblastTenantUuid in E. rewrite E.
  cbn [mbind outcome_bind]. rewrite (write_account_new _ _ _ _ _ TENANT) by (done || apply init_class). cbn [or_exists mbind outcome_bind].
  unfold upsertUserIndexes. cbn [bootstrap_tenant Pb.tenant_users index_users]. change (Pb.user_name _) with "admin"%string.
  unfold read_text. rewrite lookup_insert_ne by done. rewrite Hu.
  rewrite (write_account_new _ _ _ _ _ USER) by (done || apply init_class). cbn [or_exists mbind outcome_bind].
  unfold upsertTenantIndexes. rewrite (write_account_new _ _ _ _ _ TENANT_NAME) by (done || apply init_class).
  cbn [or_exists mbind outcome_bind]. eexists. split; [done|].
  cbn [snd]. rewrite !lookup_insert_ne by done. apply lookup_insert_eq.
Qed.

(** The first request of the administrator needs no other step. *)
Lemma bootstrap_login a env seed random id :
  let p := (admin_password env random).1 in
  admin_ok a -> a !! tenant_key nsblastTenantUuid = None -> a !! name_key nsblastTenantUuid = None -> a !! user_key "admin" = None ->
  (String.length (createHash seed p) <= 128)%nat -> (String.length seed <= 128)%nat ->
  parse_uuid nsblastTenantUuid = Some id ->
  exists a' sess, bootstrap' a env seed random = Done a' /\ admin_ok a' /\ (forall perm, isAllowed has_auth sess perm = true) /\
    forall pass, check_user a' "admin" pass
      = Built (if String.eqb (createHash seed pass) (createHash seed p) then Some sess else None).
Proof.
  intros p Hok Ht Hn Hu Hh Hs Hid. destruct (bootstrap_result a env seed random Ht Hn Hu Hh Hs) as (a' & Hb & Ht').
  assert (Hok' : admin_ok a').
  { unfold bootstrap in Hb. destruct (createTenant _ _ _ _ _ _) as [[i a1]|] eqn:Ec; [|done]. injection Hb as <-.
    assert (Hi : toLowerStr i = i) by by destruct (createTenant_stores _ _ _ _ _ _ _ _ Ec) as (-> & _).
    by apply createTenant_ok in Ec as [? _]. }
  destruct (new_session (bootstrap_tenant seed p) "admin" ["Administrator"%string]) as [sess|] eqn:Es;
    [|unfold new_session in Es; change (Pb.tenant_id _) with nsblastTenantUuid in Es; by rewrite Hid in Es].
  exists a', sess. split_and!; [done|done|..].
  - intros perm. apply (role_given has_auth _ _ _ _ admin_role perm Es); [by left|done|done|].
    apply list_elem_of_In, (nth_error_In _ (Z.to_nat (pb_number perm))), pb_number_nth.
  - intros pass. assert (E := check_user_found a' _ _ "admin" _ _ pass Hok' Ht' eq_refl eq_refl).
    change (toLowerStr "admin") with "admin"%string in E. rewrite E. cbn [Pb.user_roles]. change (Pb.role_name admin_role) with "Administrator"%string.
    change (Pb.auth_seed _) with seed. change (Pb.auth_hash _) with (createHash seed p). fold p.
    rewrite Es. by destruct (String.eqb _ _).
Qed.

Lemma bootstrap_again a env seed random : is_Some (a !! tenant_key nsblastTenantUuid) -> bootstrap' a env seed random = Thrown 409.
Proof.
  intros Ht. unfold bootstrap, createTenant. cbn [bootstrap_tenant Pb.opt_tenant_id].
  change (toLowerStr nsblastTenantUuid) with nsblastTenantUuid. unfold account_exists. by rewrite bool_decide_true.
Qed.

Lemma resetAuth_throws was_new a keys env seed random :
  was_new = true \/ is_Some (a !! tenant_key nsblastTenantUuid) -> a !! tenant_key "nsblast" = None ->
  exists status, resetAuth new_tenant new_id new_seed m was_new a keys env seed random = Thrown status.
Proof.
  assert (Hd : forall b, is_Some (b !! tenant_key nsblastTenantUuid) -> b !! tenant_key "nsblast" = None ->
    exists status, resetAuth new_tenant new_id new_seed m false b keys env seed random = Thrown status).
  { intros b Ht Hn. exists 409. unfold resetAuth, deleteTenant. cbn [mbind outcome_bind].
    change (toLowerStr "nsblast") with "nsblast"%string. unfold account_exists. rewrite Hn. rewrite bool_decide_false by by apply is_Some_None.
    cbn [negb]. by apply bootstrap_again. }
  destruct was_new; intros Ht Hn; [|destruct Ht as [?|Ht]; [done|by apply Hd]].
  destruct (bootstrap' a env (seed 0%nat) (random 0%nat)) as [b|c] eqn:Eb; [|exists c; unfold resetAuth; by rewrite Eb].
  destruct (Hd b) as [c Hc].
  - unfold bootstrap in Eb. destruct (createTenant _ _ _ _ _ _) as [[i a1]|] eqn:Ec; [|done]. injection Eb as <-.
    destruct (createTenant_stores _ _ _ _ _ _ _ _ Ec) as (-> & _ & us & _ & [Hst _ _ _ _]). by eexists.
  - unfold bootstrap in Eb. destruct (createTenant _ _ _ _ _ _) as [[i a1]|] eqn:Ec; [|done]. injection Eb as <-.
    destruct (createTenant_stores _ _ _ _ _ _ _ _ Ec) as (-> & _ & us & _ & [_ Hso _ _ _]). by rewrite Hso.
  - exists c. unfold resetAuth in Hc |- *. by rewrite Eb.
Qed.
End Bootstrap.

(** ** What the administration promises *)

Section Claims.
Context `{RestLibs} `{AuthLibs} (has_auth disable_metrics no_metrics_auth : bool).
Context (tenantFromJson : string -> option Pb.Tenant) (roleFromJson : string -> option Pb.Role).
Context (userFromJson : string -> option Pb.User) (no_status : Z) (cfg : rest_config).

Abbreviation serves' := (serves has_auth).
Abbreviation onTenant' := (onTenant has_auth tenantFromJson).
Abbreviation onRole' := (onRole has_auth roleFromJson no_status).
Abbreviation onUser' := (onUser has_auth userFromJson no_status).
Abbreviation authorize' := (authorize has_auth disable_metrics no_metrics_auth).

(** A header for a user, when no session is cached. *)
Lemma authorize_cleared a keys target hdr user pass name r :
  lru_ keys = [] -> target <> "/metrics"%string -> Login.authorize hdr = Some (user, pass) -> string_of_bytes user = name ->
  check_user a name (string_of_bytes pass) = Built r ->
  exists keys', authorize' a keys target hdr = Built (match r with Some s => getAuth has_auth s USE_API | None => no_auth end, keys').
Proof.
  intros Hk Ht Hl <- Hc. rewrite (authorize_fresh _ _ _ a keys target hdr user pass); [|by rewrite Hk|by intros ->|done|done].
  rewrite Hc. cbn [mbind verdict_bind]. destruct r as [s|]; [|by exists keys].
  unfold lru_emplace. rewrite Hk. cbn [lru_find List.find fmap option_fmap option_map mbind verdict_bind]. by eexists.
Qed.

(** The server: requests that are authorised, and those of the administration. *)
Inductive server_step (st st' : admin) : Prop :=
| step_authorize target hdr a keys :
    authorize' (accs st) (sessions st) target hdr = Built (a, keys) -> st' = Admin (accs st) keys -> server_step st st'
| step_admin :
    admin_step has_auth tenantFromJson roleFromJson userFromJson no_status cfg st st' -> server_step st st'.

(** The accounts are consistent, and the sessions those of their users. *)
Definition server_ok (st : admin) : Prop := admin_ok (accs st) /\ keys_valid (accs st) (sessions st).

Lemma keys_cleared a keys : keys_valid a (lru_clear keys).
Proof. split; [split; [constructor|cbn; lia]|constructor]. Qed.

Lemma keys_grow a a' keys : grows a a' -> keys_valid a keys -> keys_valid a' keys.
Proof.
  intros Hg [Hok Hall]. split; [done|]. eapply Forall_impl; [exact Hall|].
  intros ks (hdr & Hd & user & pass & Hl & Hc). exists hdr. split; [done|]. exists user, pass. split; [done|]. by apply Hg.
Qed.

Lemma server_step_ok st st' : server_step st st' -> server_ok st -> server_ok st'.
Proof.
  intros [target hdr a keys Ha ->|Hs] [Hok Hk].
  - split; [done|]. by eapply authorize_cases in Ha as [? _].
  - destruct (admin_step_kept _ _ _ _ _ _ _ _ Hs Hok) as [Hok' Hk']. split; [done|]. destruct Hk' as [->|[-> Hg]];
      [apply keys_cleared|by eapply keys_grow].
Qed.

Lemma server_steps_ok st st' : rtc server_step st st' -> server_ok st -> server_ok st'.
Proof. induction 1 as [|st1 st2 st3 Hs _ IH]; [done|]. intros Hok. by apply IH, (server_step_ok st1). Qed.

(** C12: Access is authentic while tenants, roles and users come and go: whatever
    requests and administration came before (with the two exceptions of the
    consistency of the accounts), a request that is given access to the API
    carries a header with the digest of one whose user exists now with that
    password, and it acts in that user's session: the tenant's, with the roles
    the user has now. *)
Theorem administered_access_authentic a0 n st target hdr a keys' :
  admin_ok a0 -> rtc server_step (Admin a0 (MkLru n [])) st -> target <> "/metrics"%string ->
  authorize' (accs st) (sessions st) target hdr = Built (a, keys') -> access a = true ->
  exists hdr' user pass tid tenant u auth s,
    digest hdr' = digest hdr /\ Login.authorize hdr' = Some (user, pass) /\
    accs st !! tenant_key tid = Some (ATenant tenant) /\ u ∈ Pb.tenant_users tenant /\
    toLowerStr (Pb.user_name u) = string_of_bytes user /\ Pb.user_auth u = Some auth /\
    createHash (Pb.auth_seed auth) (string_of_bytes pass) = Pb.auth_hash auth /\
    new_session tenant (string_of_bytes user) (Pb.user_roles u) = Some s /\ extra a = Some s.
Proof.
  intros Ha0 Hst Htg Ha Hacc. assert (Hk : server_ok st).
  { apply (server_steps_ok _ _ Hst). split; [done|apply (keys_cleared a0 (MkLru n []))]. }
  destruct Hk as [Hok Hk]. destruct (authorize_cases _ _ _ _ _ _ _ _ _ Hk Ha) as (_ & [Hf|[(_ & ? & _)|(s & hdr' & -> & Hd & Hv)]]);
    [congruence|done|]. destruct Hv as (user & pass & Hl & Hc).
  apply check_user_some in Hc as (tid & tenant & u & auth & _ & Ht & Hu & Hn & Hau & Hh & Hs).
  destruct (ok_getTenant _ tid Hok) as [[E _]|(e & E & He & _)]; rewrite Ht in E; [done|]. injection E as <-.
  by exists hdr', user, pass, tid, tenant, u, auth, s.
Qed.

(** C13: The accounts stay consistent, whatever requests to /tenant, /role and
    /user are served, but for PATCH of a tenant, and DELETE of one while a key
    of another class holds the byte of the class of tenants: the index of users
    has the name of every user of every tenant, for that tenant, and no other; a
    tenant is stored under its id; and a stored user has the hash of a password,
    never the password. *)
Theorem administration_ok st st' :
  rtc (admin_step has_auth tenantFromJson roleFromJson userFromJson no_status cfg) st st' -> admin_ok (accs st) ->
  admin_ok (accs st').
Proof. apply admin_steps_ok. Qed.

(** C14: A user that was created can log in: after POST /user was answered 201, over
    consistent accounts (admin_ok, C13), a request (for another path than
    /metrics, which has rules of its own) with the user's name and the password of the body (or one of its
    hash) is answered in the session of the tenant that has the roles of the
    user, where there is one (the id of the tenant is a UUID); it has access to
    the API exactly if this session has the permission USE_API.  With another
    password it has no session and no access.  The response of POST has the hash
    and not the password. *)
Theorem created_user_logs_in m new_user new_id new_seed st s q s' t u name auth p v st' sess :
  admin_ok (accs st) -> serves' st s q s' t -> q_method q = POST -> userFromJson (q_body q) = Some u ->
  Pb.opt_user_name u = Some name -> name <> ""%string -> Pb.user_auth u = Some auth -> Pb.opt_password auth = Some p ->
  new_session t (toLowerStr name) (Pb.user_roles u) = Some sess ->
  onUser' new_user new_id new_seed m st s q = (201, v, st') ->
  exists id seed,
    v = OneUser (Pb.MkUser (Some id) (Some (toLowerStr name)) (Pb.user_active u) (Pb.user_roles u)
                   (Some (Pb.MkAuth (Some (createHash seed p)) (Some seed) None))) /\
    forall target hdr user pass, target <> "/metrics"%string -> Login.authorize hdr = Some (user, pass) ->
      string_of_bytes user = toLowerStr name ->
      let right := String.eqb (createHash seed (string_of_bytes pass)) (createHash seed p) in
      exists a keys', authorize' (accs st') (sessions st') target hdr = Built (a, keys') /\
        extra a = (if right then Some sess else None) /\
        access a = right && isAllowed has_auth sess USE_API.
Proof.
  intros Hok Hs Hm Hu Hn Hne Ha Hp Hsess Hr.
  destruct (created_user has_auth userFromJson no_status m new_user new_id new_seed st s q s' t u name auth p v st' Hok Hs Hm Hu Hn Hne Ha Hp Hr)
    as (id & seed & -> & Hk & Hok' & tid & us & Ht & Hf).
  exists id, seed. split; [done|]. intros target hdr user pass Htg Hl Hname.
  assert (Hc := check_user_found _ tid _ name _ _ (string_of_bytes pass) Hok' Ht Hf eq_refl).
  change (new_session (with_users us t)) with (new_session t) in Hc. cbn [Pb.user_roles Pb.auth_seed Pb.auth_hash] in Hc.
  rewrite Hsess in Hc. cbn [or_failed mbind verdict_bind default from_option Datatypes.id Pb.opt_seed Pb.opt_hash] in Hc.
  change (Pb.auth_seed _) with seed in Hc. change (Pb.auth_hash _) with (createHash seed p) in Hc.
  cbv zeta. destruct (String.eqb _ _); eapply authorize_cleared in Hc as [keys' ->]; try done; by eexists _, keys'.
Qed.

(** C15: A user that was removed is refused: when a tenant's users have names of
    their own, after DELETE /user was answered a request with the name has no
    access, with any password and with the sessions the server had. *)
Theorem removed_user_refused m new_user new_id new_seed st s q s' t v st' target hdr user pass :
  admin_ok (accs st) -> serves' st s q s' t -> q_method q = DELETE -> q_target q <> ""%string -> no_status < 400 ->
  NoDup ((fun u => toLowerStr (Pb.user_name u)) <$> Pb.tenant_users t) ->
  onUser' new_user new_id new_seed m st s q = (no_status, v, st') ->
  target <> "/metrics"%string -> Login.authorize hdr = Some (user, pass) -> string_of_bytes user = toLowerStr (q_target q) ->
  exists keys', authorize' (accs st') (sessions st') target hdr = Built (no_auth, keys').
Proof.
  intros Hok Hs Hm Hne Hst Hnd Hr Ht Hl Hu.
  destruct (removed_user has_auth userFromJson no_status m new_user new_id new_seed st s q s' t v st' Hok Hs Hm Hne Hst Hnd Hr) as [Hk Hc].
  specialize (Hc (string_of_bytes pass)). by eapply authorize_cleared in Hc.
Qed.

(** C37: Nothing bounds a role: a role for all names that POST or PUT /role
    stored gives each of its permissions to every user of the tenant that has
    the role, at the next login, whatever permissions the tenant is allowed.
    (The proto file has allowedPermissions as those that can be assigned to
    the tenant's roles.) *)
Theorem role_unbounded m new_id new_seed st s q s' t r code v st' who pass sess u p :
  admin_ok (accs st) -> serves' st s q s' t -> q_method q = POST \/ q_method q = PUT -> roleFromJson (q_body q) = Some r ->
  onRole' new_id new_seed m st s q = (code, v, st') -> code < 400 ->
  find_user (toLowerStr who) t = Some u -> exists_in (Pb.user_roles u) (Pb.role_name r) = true ->
  appliesToAll (new_role r) = true -> p ∈ Pb.role_permissions r ->
  check_user (accs st') (toLowerStr who) pass = Built (Some sess) -> isAllowed has_auth sess p = true.
Proof.
  intros Hok Hs Hm Hro Hr Hc Hu Hx Hf Hp Hck.
  destruct (role_stored has_auth roleFromJson no_status m new_id new_seed st s q s' t r code v st' Hok Hs Hm Hro Hr Hc)
    as (Hok' & tid & rs & us & _ & Ht & Hus).
  change (find_user (toLowerStr who) t) with (List.find (login_name (toLowerStr who)) (Pb.tenant_users t)) in Hu.
  destruct (find_processed _ _ _ _ (login_name_processed _) Hus Hu) as (u' & Hu' & Hpr).
  assert (Ha : exists auth, Pb.user_auth u' = Some auth) by (destruct Hpr as (? & ? & ? & ? & _ & -> & _); by eexists).
  destruct Ha as [auth Ha]. destruct (processed_name _ _ Hpr) as [_ Er].
  assert (E := check_user_found _ tid (with_users us (with_roles (rs ++ [r]) t)) who u' auth pass Hok' Ht Hu' Ha). rewrite Hck, Er in E.
  destruct (String.eqb _ _); [|done]. destruct (new_session _ _ _) as [sess'|] eqn:En; [|done]. injection E as <-.
  apply (role_given has_auth _ _ _ _ r p En); [|done..]. apply elem_of_app. right. by left.
Qed.

(** C16: A new server has its administrator: bootstrap of an empty database
    makes accounts that are consistent, where the user admin logs in with the
    password of the environment, or with the random one, into a session with
    every permission, and with no password of another hash. *)
Theorem bootstrap_admin new_tenant new_id new_seed m env seed random id :
  let p := (admin_password env random).1 in
  (String.length (createHash seed p) <= 128)%nat -> (String.length seed <= 128)%nat ->
  parse_uuid nsblastTenantUuid = Some id ->
  exists a' sess, bootstrap new_tenant new_id new_seed m ∅ env seed random = Done a' /\ admin_ok a' /\
    (forall perm, isAllowed has_auth sess perm = true) /\
    forall pass, check_user a' "admin" pass
      = Built (if String.eqb (createHash seed pass) (createHash seed p) then Some sess else None).
Proof. intros p. by apply bootstrap_login; [apply no_accounts_ok|..]. Qed.

(** C35: The administrator cannot be reset: nsblastd --reset-auth ends in an
    exception whenever the system's tenant is there, or was made as the server
    started, since it deletes a tenant with the id nsblast, which is the name
    of the system's tenant and not its id, and then makes the tenant again.
    (The reference says that the tenant is deleted and made again.) *)
Theorem resetAuth_fails new_tenant new_id new_seed m was_bootstrapped a keys env seed random :
  was_bootstrapped = true \/ is_Some (a !! tenant_key nsblastTenantUuid) -> a !! tenant_key "nsblast" = None ->
  exists status, resetAuth new_tenant new_id new_seed m was_bootstrapped a keys env seed random = Thrown status.
Proof. apply resetAuth_throws. Qed.

(** C36: PATCH of a tenant stores the users of its body as they are and does not
    enter their names: the tenant has the users, as the body has them and so with
    the passwords in plain text; the index of users has the same entries as
    before, and a user with a name that it did not have cannot log in. *)
Theorem patched_user_locked_out m new_tenant new_id new_seed st s q t v st' :
  q_method q = PATCH -> tenantFromJson (q_body q) = Some t ->
  onTenant' new_tenant new_id new_seed m cfg st s q = (200, v, st') ->
  exists t', v = OneTenant t' /\ accs st' !! tenant_key (toLowerStr (q_target q)) = Some (ATenant t') /\
    (forall name, read_text (accs st') (user_key name) = read_text (accs st) (user_key name)) /\
    forall u, u ∈ Pb.tenant_users t -> u ∈ Pb.tenant_users t' /\
    (read_text (accs st) (user_key (Pb.user_name u)) = None ->
     forall pass, check_user (accs st') (toLowerStr (Pb.user_name u)) pass = Built None).
Proof.
  intros Hm Ht Hr. destruct (patched_tenant has_auth tenantFromJson cfg m new_tenant new_id new_seed st s q t v st' Hm Ht Hr)
    as [(t' & -> & Hst & Hin) Hx]. exists t'. split_and!; [done|done|done|]. intros u Hu. split; [by apply Hin|]. intros Hn pass.
  unfold check_user. change (init_key (toLowerStr (Pb.user_name u)) USER) with (user_key (Pb.user_name u)). by rewrite Hx, Hn.
Qed.

(** A page of tenants has the first of those after the tenant of the
    argument from, in the order of their ids, one more than the size asked
    for. *)
Theorem listTenants_page st q n kind :
  admin_ok (accs st) -> getPageSize cfg (q_args q) = Some n -> getKindOfListing [DEFAULT; BRIEF; ID] (q_args q) = Some kind ->
  let from := getFrom (q_args q) in
  let later key := if String.eqb from "" then true else negb (String.leb key (tenant_key from)) in
  listTenants cfg st q = (200, SomeTenants kind (take (S n) (tenants_from later (accs st))), st).
Proof. apply tenant_page. Qed.
End Claims.

Module UsersDemo.
Import RestDemo AccessDemo SessionsDemo.

(** A session of the administrator, and a tenant with a user. *)
Definition root_session : Session :=
  MkSession "t0" "root" "t0" (getPerms [CREATE_TENANT; UPDATE_TENANT; DELETE_TENANT; IMPERSONATE_TENANT; LIST_TENANTS; CREATE_USER;
                                        DELETE_USER; UPDATE_USER; CREATE_ROLE; UPDATE_ROLE]) [].
Definition password (p : string) : option Pb.UserAuth := Some (Pb.MkAuth None None (Some p)).
Definition user_of (name p : string) : Pb.User := Pb.MkUser None (Some name) None ["net"%string] (password p).
Definition new_t3 : Pb.Tenant :=
  Pb.MkTenant (Some "T3"%string) (Some "Third"%string) None None [USE_API] [net_role] [user_of "Dave" "secret"].

Definition tenant_json (s : string) : option Pb.Tenant :=
  if String.eqb s "t3" then Some new_t3
  else Some (Pb.MkTenant None (Some "Third"%string) None None [] [] [user_of "Eve" "plain"]).
Definition user_json (s : string) : option Pb.User := Some (user_of "Alice" "p:w").
Definition wide_role : Pb.Role := Pb.MkRole (Some "net"%string) [USE_API; IMPERSONATE_TENANT; DELETE_TENANT] None.
Definition role_json (s : string) : option Pb.Role := Some wide_role.

Definition id_of (n : nat) : string := String (ascii_of_nat (65 + n)) "".
Definition request (meth : rest_method) (target : string) (args : list (string * string)) (body : string) : rest_request :=
  RestRequest meth target "" args body.
Definition state_of (r : response) : admin := r.2.

Abbreviation tenant_served := (onTenant true tenant_json "uuid" id_of id_of ∅ ServerDemo.cfg).
Abbreviation user_served := (onUser true user_json 200 "uuid" id_of id_of ∅).
Abbreviation role_served := (onRole true role_json 200 id_of id_of ∅).

Definition st0 : admin := Admin ∅ (MkLru 10 []).
Definition post_t3 : rest_request := request POST "" [] "t3".
Definition st1 : admin := state_of (tenant_served st0 root_session post_t3).
Definition for_t3 (meth : rest_method) (target : string) : rest_request := request meth target [("tenant", "t3")]%string "".
Definition st2 : admin := state_of (user_served st1 root_session (for_t3 POST "")).

Definition hdr_dave : string := "Basic RGF2ZTpzZWNyZXQ=".

Lemma t3_answer : exists v, tenant_served st0 root_session post_t3 = (201, v, st1).
Proof. eexists. vm_compute. reflexivity. Qed.

Lemma st1_ok : admin_ok (accs st1).
Proof. unfold st1, state_of. by apply onTenant_ok; [apply no_accounts_ok|..]. Qed.

Lemma administration_ok_witness : admin_ok (accs st1).
Proof.
  refine (administration_ok true tenant_json role_json user_json 200 ServerDemo.cfg st0 st1 (rtc_once _ _ _) no_accounts_ok).
  apply (step_tenant _ _ _ _ _ _ _ _ ∅ "uuid" id_of id_of root_session post_t3 201
           (let '(_, v, _) := tenant_served st0 root_session post_t3 in v)); [vm_compute; reflexivity|done..].
Defined.

(** The tenant as it is stored, and the session of its new user. *)
Definition t3 : Pb.Tenant := match accs st1 !! tenant_key "t3" with Some (ATenant t) => t | _ => new_t3 end.
Definition alice_session : Session := default root_session (new_session t3 "alice" ["net"%string]).
Definition alice_answer : reply := let '(_, v, _) := user_served st1 root_session (for_t3 POST "") in v.

Lemma created_user_logs_in_witness :
  exists id seed,
    alice_answer = OneUser (Pb.MkUser (Some id) (Some "alice"%string) None ["net"%string]
                              (Some (Pb.MkAuth (Some (createHash seed "p:w")) (Some seed) None))) /\
    forall target hdr user pass, target <> "/metrics"%string -> Login.authorize hdr = Some (user, pass) ->
      string_of_bytes user = "alice"%string ->
      let right := String.eqb (createHash seed (string_of_bytes pass)) (createHash seed "p:w") in
      exists a keys', authorize true false false (accs st2) (sessions st2) target hdr = Built (a, keys') /\
        extra a = (if right then Some alice_session else None) /\
        access a = right && isAllowed true alice_session USE_API.
Proof.
  refine (created_user_logs_in true false false user_json 200 ∅ "uuid" id_of id_of st1 root_session (for_t3 POST "")
            (setTenantId root_session "t3") t3 (user_of "Alice" "p:w") "Alice" (Pb.MkAuth None None (Some "p:w"%string)) "p:w"
            alice_answer st2 alice_session st1_ok _ eq_refl eq_refl eq_refl _ eq_refl eq_refl _ _);
    [vm_compute; reflexivity|discriminate|vm_compute; reflexivity|vm_compute; reflexivity].
Defined.

Example alice_logs_in :
  exists keys, authorize true false false (accs st2) (sessions st2) "/api/v1/version" hdr_alice
               = Built (MkAuth "t3/alice" true (Some alice_session), keys).
Proof. eexists. vm_compute. reflexivity. Qed.

(** Dave logs in, and stays after Alice was created in another session. *)
Definition dave_answer : Auth * Lru Session :=
  match authorize true false false (accs st1) (sessions st1) "/api/v1/version" hdr_dave with Built r => r | _ => (no_auth, sessions st1) end.

Lemma administered_access_authentic_witness :
  exists hdr' user pass tid tenant u auth s,
    digest hdr' = digest hdr_alice /\ Login.authorize hdr' = Some (user, pass) /\
    accs st2 !! tenant_key tid = Some (ATenant tenant) /\ u ∈ Pb.tenant_users tenant /\
    toLowerStr (Pb.user_name u) = string_of_bytes user /\ Pb.user_auth u = Some auth /\
    createHash (Pb.auth_seed auth) (string_of_bytes pass) = Pb.auth_hash auth /\
    new_session tenant (string_of_bytes user) (Pb.user_roles u) = Some s /\ Some alice_session = Some s.
Proof.
  refine (administered_access_authentic true false false tenant_json role_json user_json 200 ServerDemo.cfg (accs st1) 10 st2
            "/api/v1/version" hdr_alice (MkAuth "t3/alice" true (Some alice_session))
            (match authorize true false false (accs st2) (sessions st2) "/api/v1/version" hdr_alice with Built (_, k) => k | _ => MkLru 0 [] end)
            st1_ok _ _ _ eq_refl).
  - apply (rtc_l _ _ (Admin (accs st1) dave_answer.2)).
    + by apply (step_authorize _ _ _ _ _ _ _ _ _ _ "/api/v1/version" hdr_dave dave_answer.1 dave_answer.2); [vm_compute; reflexivity|].
    + apply rtc_once, step_admin, (step_user _ _ _ _ _ _ _ _ ∅ "uuid" id_of id_of root_session (for_t3 POST "") 201 alice_answer).
      vm_compute. reflexivity.
  - discriminate.
  - vm_compute. reflexivity.
Defined.

(** The tenant's first user is removed. *)
Definition st3 : admin := state_of (user_served st2 root_session (for_t3 DELETE "dave")).
Definition t3' : Pb.Tenant := match accs st2 !! tenant_key "t3" with Some (ATenant t) => t | _ => new_t3 end.

Lemma st2_ok : admin_ok (accs st2).
Proof. unfold st2, state_of. apply onUser_ok, st1_ok. Qed.

Example dave_before :
  exists keys, authorize true false false (accs st2) (sessions st2) "/api/v1/version" hdr_dave
               = Built (MkAuth "t3/dave" true (new_session t3 "dave" ["net"%string]), keys).
Proof. eexists. vm_compute. reflexivity. Qed.

Lemma removed_user_refused_witness :
  exists keys', authorize true false false (accs st3) (sessions st3) "/api/v1/version" hdr_dave = Built (no_auth, keys').
Proof.
  refine (removed_user_refused true false false user_json 200 ∅ "uuid" id_of id_of st2 root_session (for_t3 DELETE "dave")
            (setTenantId root_session "t3") t3' NoValue st3 "/api/v1/version" hdr_dave
            (bytes_of_string "dave") (bytes_of_string "secret") st2_ok _ eq_refl _ eq_refl _ _ _ _ _);
    [vm_compute; reflexivity|discriminate| |vm_compute; reflexivity|discriminate|vm_compute; reflexivity|vm_compute; reflexivity].
  apply (bool_decide_unpack _). vm_compute. exact I.
Defined.

(** A tenant that is allowed USE_API gets a role that acts for others. *)
Definition st4 : admin := state_of (role_served st2 root_session (for_t3 PUT "net")).
Definition wide_session : Session :=
  match check_user (accs st4) "alice" "p:w" with Built (Some s) => s | _ => root_session end.

Lemma role_unbounded_witness : Pb.tenant_allowed t3' = [USE_API] /\ isAllowed true wide_session IMPERSONATE_TENANT = true.
Proof.
  split; [vm_compute; reflexivity|].
  refine (role_unbounded true role_json 200 ∅ id_of id_of st2 root_session (for_t3 PUT "net") (setTenantId root_session "t3") t3'
            wide_role 200 (OneRole wide_role) st4 "alice" "p:w" wide_session
            (default (user_of "" "") (find_user "alice" t3')) IMPERSONATE_TENANT st2_ok _ (or_intror eq_refl) eq_refl _ _ _ _ eq_refl _ _).
  - vm_compute. reflexivity.
  - vm_compute. reflexivity.
  - vm_compute. reflexivity.
  - vm_compute. reflexivity.
  - vm_compute. reflexivity.
  - right. left.
  - vm_compute. reflexivity.
Defined.

(** The administrator of a new server with the password "pw". *)
Lemma bootstrap_admin_witness :
  exists a' sess, bootstrap "uuid" id_of id_of ∅ ∅ (Some "pw"%string) "seed" "random" = Done a' /\ admin_ok a' /\
    (forall perm, isAllowed true sess perm = true) /\
    forall pass, check_user a' "admin" pass
      = Built (if String.eqb (createHash "seed" pass) (createHash "seed" "pw") then Some sess else None).
Proof.
  refine (bootstrap_admin true "uuid" id_of id_of ∅ (Some "pw"%string) "seed" "random" nsblastTenantUuid _ _ _);
    [apply Nat.leb_le; vm_compute; reflexivity|apply Nat.leb_le; vm_compute; reflexivity|reflexivity].
Defined.

Lemma resetAuth_fails_witness :
  exists status, resetAuth "uuid" id_of id_of ∅ true ∅ (MkLru 10 []) None (fun _ => "seed"%string) (fun _ => "random"%string) = Thrown status.
Proof.
  refine (resetAuth_fails "uuid" id_of id_of ∅ true ∅ (MkLru 10 []) None (fun _ => "seed"%string) (fun _ => "random"%string)
            (or_introl eq_refl) _).
  vm_compute. reflexivity.
Defined.

(** With an empty variable the password is written nowhere. *)
Example password_lost : admin_password (Some ""%string) "random" = ("random"%string, None).
Proof. reflexivity. Qed.

(** A user that PATCH adds. *)
Definition patch_t3 : rest_request := request PATCH "t3" [] "eve".
Definition st5 : admin := state_of (tenant_served st2 root_session patch_t3).
Definition patched : reply := let '(_, v, _) := tenant_served st2 root_session patch_t3 in v.

Lemma patched_user_locked_out_witness :
  exists t', patched = OneTenant t' /\ accs st5 !! tenant_key "t3" = Some (ATenant t') /\
    (forall name, read_text (accs st5) (user_key name) = read_text (accs st2) (user_key name)) /\
    user_of "Eve" "plain" ∈ Pb.tenant_users t' /\ check_user (accs st5) "eve" "plain" = Built None.
Proof.
  destruct (patched_user_locked_out true tenant_json ServerDemo.cfg ∅ "uuid" id_of id_of st2 root_session patch_t3
              (Pb.MkTenant None (Some "Third"%string) None None [] [] [user_of "Eve" "plain"]) patched st5 eq_refl eq_refl)
    as (t' & Hv & Ht & Hix & Hu); [vm_compute; reflexivity|].
  destruct (Hu (user_of "Eve" "plain")) as [Hin Hc]; [left|].
  exists t'. split; [exact Hv|]. split; [exact Ht|]. split; [exact Hix|]. split; [exact Hin|]. apply Hc. vm_compute. reflexivity.
Defined.

(** Pages of one tenant have two. *)
Definition st6 : admin := state_of (onTenant true (fun _ => Some (Pb.MkTenant (Some "T4"%string) None None None [] [] []))
                                      "uuid" id_of id_of ∅ ServerDemo.cfg st2 root_session post_t3).
Definition list_one : rest_request := request GET "" [("limit", "1"); ("kind", "id")]%string "".
Definition t4 : Pb.Tenant := Pb.MkTenant (Some "t4"%string) None (Some true) None [] [] [].

Lemma listTenants_page_witness : listTenants ServerDemo.cfg st6 list_one = (200, SomeTenants ID [t3'; t4], st6).
Proof.
  refine (eq_trans (listTenants_page ServerDemo.cfg st6 list_one 1 ID _ _ _) _).
  - unfold st6, state_of. by apply onTenant_ok; [apply st2_ok|..].
  - vm_compute. reflexivity.
  - reflexivity.
  - vm_compute. reflexivity.
Defined.

(** Names are not checked: a second tenant takes the name of the first, since
    createTenant looks up the id among the names. *)
Example tenant_name_taken :
  let st := state_of (onTenant true (fun _ => Some (Pb.MkTenant (Some "T5") (Some "Third") None None [] [] []))%string
                        "uuid" id_of id_of ∅ ServerDemo.cfg st1 root_session post_t3) in
  read_text (accs st1) (name_key "Third") = Some "t3"%string /\ read_text (accs st) (name_key "Third") = Some "t5"%string.
Proof. vm_compute. done. Qed.

(** Renaming a user to the name of another leaves two users of the name, and
    the one renamed cannot log in. *)
Example renamed_over :
  let st := state_of (onUser true user_json 200 "uuid2" id_of id_of ∅ st2 root_session (for_t3 PUT "dave")) in
  (Pb.user_name <$> match accs st !! tenant_key "t3" with Some (ATenant t) => Pb.tenant_users t | _ => [] end)
  = ["alice"; "alice"]%string.
Proof. vm_compute. done. Qed.

(** A role that a user names in another case cannot be deleted. *)
Example role_delete_refused :
  let st := state_of (onUser true (fun _ => Some (Pb.MkUser None (Some "Fred") None ["Net"] (password "f")))%string
                        200 "uuid" id_of id_of ∅ st1 root_session (for_t3 POST "")) in
  onRole true role_json 200 id_of id_of ∅ st
    (MkSession "t3" "root" "t3" (getPerms [DELETE_ROLE]) []) (request DELETE "Net" [] "") = (400, NoValue, st).
Proof. vm_compute. done. Qed.

(** PATCH without a name takes the tenant's name out of the index, and enters
    an empty one. *)
Example patched_name :
  let st := state_of (onTenant true (fun _ => Some (Pb.MkTenant None None (Some false) None [] [] []))%string
                        "uuid" id_of id_of ∅ ServerDemo.cfg st1 root_session patch_t3) in
  read_text (accs st) (name_key "Third") = None /\ read_text (accs st) (name_key "") = Some "t3"%string.
Proof. vm_compute. done. Qed.
End UsersDemo.
