(* ===== verification/Screens.v ===== *)
(** * The frame of the application: login guard, routes, links, boundaries

    App.tsx, modules/RightPane.jsx, pages/Navigation.tsx, pages/Dashboard.tsx,
    modules/ErrorBoundary.jsx, modules/ErrorScreen.jsx and the page component
    of pages/ResourceRecords.jsx with its useQuery, and the markup of its form.
    The matching of paths by react-router is by equality of the path, which is
    what it does for the literal routes of this program. *)

From S2P Require Import Prelude JsNumber JsValue Markup Http Qargs AppState Paging Zones RrTypes RrList.

(** ** RightPane and Navigation *)

Inductive element : Type :=
| Navigate (to : string)
| Heading (text : string)
| Dashboard
| ResourceRecords
| Roles.

Definition routes : list (string * element) := [
  ("/", Navigate "dashboard");
  ("/admin", Heading "admin");
  ("/dashboard", Dashboard);
  ("/dashboard/rr", ResourceRecords);
  ("/tenants", Heading "tenants");
  ("/roles", Roles);
  ("/users", Heading "users");
  ("/apikeys", Heading "apikeys");
  ("/events", Heading "events");
  ("/log", Heading "log");
  ("/about", Heading "about")
]%string.

(** The right pane: the login form, the element of the route, or nothing. *)
Inductive pane : Type :=
| LoginForm
| LoggedIn (e : option element).

Definition RightPane (app : app_state) (path : string) : pane :=
  if isLoggedIn app then LoggedIn (assoc_get path routes) else LoginForm.

(** The links of the side bar: target and text. *)
Definition Navigation (app : app_state) : list (string * string) :=
  if isLoggedIn app then
    [("dashboard", "Dashboard"); ("admin", "Admin Console"); ("tenants", "Tenants");
     ("roles", "Roles"); ("users", "Users"); ("apikeys", "API Keys"); ("events", "Events");
     ("log", "Log"); ("about", "About")]%string
  else [].

(** App: the side bar and the right pane under one AppState. *)
Definition App (app : app_state) (path : string) : list (string * string) * pane :=
  (Navigation app, RightPane app path).

(** ** ErrorBoundary *)

Record boundary : Type := Boundary { hasError : bool }.

Definition getDerivedStateFromError (b : boundary) : boundary := Boundary true.

(** What a boundary shows: the children of a render ([None] when they threw)
    or the fallback. *)
Definition boundary_render {A} (b : boundary) (children : option A) (fallback : A) : boundary * A :=
  if hasError b then (b, fallback)
  else match children with
       | Some c => (b, c)
       | None => (getDerivedStateFromError b, fallback)
       end.

(** ** The dashboard and the page of a zone *)

Definition TenantStats : markup :=
  Element "div" [
    Element "header" [Element "h4" [Text "Stats"]];
    Element "table" [Element "tbody" [
      Element "tr" [Element "td" [Text "Domains"]; Element "td" [Text "10"];
                    Element "td" [Text "Resource Records"]; Element "td" [Text "42"]];
      Element "tr" [Element "td" [Text "Users"]; Element "td" [Text "3"];
                    Element "td" [Text "Lookups 24h"]; Element "td" [Text "88654"]]]]].

Definition LatestEvents : markup :=
  Element "div" [
    Element "header" [Element "h4" [Text "Latest Events"]];
    Element "ul" [
      Element "li" [Text "Added zone example.com with many resource records"];
      Element "li" [Text "Added user John Conner"];
      Element "li" [Text "Deleted API key 'tmp'"]]].

Definition ErrorScreen : markup :=
  Element "div" [
    Element "h3" [Text "We are sorry... something went wrong"];
    Element "p" [Text "We cannot process your request at this moment."];
    Element "p" [Text "ERROR: "]].

Definition went_wrong : markup := Element "p" [Text "Something went wrong"].

(** Zones: the zone list in its boundary. *)
Definition Zones_render (b : boundary) (list_zones : option markup) : boundary * markup :=
  boundary_render b list_zones went_wrong.

Definition Dashboard_render (b : boundary) (list_zones : option markup) : boundary * markup :=
  let '(b', zones) := Zones_render b list_zones in
  (b', Fragment [Element "h1" [Text "Dashboard"]; Element "div" [TenantStats; LatestEvents]; zones]).

(** The page of a zone: its heading outside of the boundary. *)
Definition ResourceRecords_render (zone : option string) (b : boundary) (list_rrs : option markup)
    : boundary * markup :=
  let '(b', rrs) := boundary_render b list_rrs went_wrong in
  (b', Fragment [Element "h2" [Text "Managing zone "; Element "span" [Text (default "" zone)]]; rrs])%string.

(** ** The form of a record *)

(** A row of InputTable, with the input of RrInputText in it. *)
Definition RrInputText_row (name : string) (input : markup) : markup :=
  Element "tr" [Element "td" [Element "label" [Text name]]; Element "td" [input]].

Definition InputTable (rows : list markup) : markup := Element "table" [Element "tbody" rows].

(** The options of SelectRr: the value of each and its text. *)
Definition SelectRr_options (filter : list string) : list (string * string) :=
  ("select", " -- Select a Resource type -- ")%string
  :: ((fun name => (name, name +:+ " " +:+ from_option brief "" (assoc_get name rrProto)))%string <$> select_types filter).

(** ** ResourceRecords: useQuery and the zone of the page *)

Definition hex_val (c : ascii) : option N :=
  let n := N_of_ascii c in
  (if (48 <=? n) && (n <=? 57) then Some (n - 48)
   else if (65 <=? n) && (n <=? 70) then Some (n - 55)
   else if (97 <=? n) && (n <=? 102) then Some (n - 87) else None)%N.

(** Percent decoding, which leaves a malformed escape as it is. *)
Fixpoint percent_decode (s : string) : string :=
  match s with
  | String "%" (String a (String b s')) =>
      match hex_val a, hex_val b with
      | Some x, Some y => String (ascii_of_N (16 * x + y)) (percent_decode s')
      | _, _ => String "%" (String a (String b (percent_decode s')))
      end
  | String c s' => String c (percent_decode s')
  | EmptyString => EmptyString
  end.

Fixpoint plus_to_space (s : string) : string :=
  match s with
  | String c s' => String (if Ascii.eqb c "+" then " "%char else c) (plus_to_space s')
  | EmptyString => EmptyString
  end.

Definition url_decode (s : string) : string := percent_decode (plus_to_space s).

(** [location.search] of a link: from its [?] to a [#]. *)
Fixpoint before_hash (s : string) : string :=
  match s with
  | EmptyString => EmptyString
  | String c s' => if Ascii.eqb c "#" then EmptyString else String c (before_hash s')
  end.

Definition search_of (link : string) : string := query_part (before_hash link).

(** [new URLSearchParams(search)]. *)
Definition search_params (search : string) : list (string * string) :=
  let r := match search with String "?" r => r | _ => search end in
  (fun kv => (url_decode kv.1, url_decode kv.2)) <$>
    (cut_at "=" <$> List.filter (fun p => negb (String.eqb p "")) (split_on "&" r)).

(** [query.get("z")] of the page the link leads to. *)
Definition zone_of_link (link : string) : option string :=
  assoc_get "z" (search_params (search_of link)).

(** ** Properties *)

(** Without a token every path shows the login form and the side bar has
    no links; with one, no path shows the login form, and every link of the
    side bar leads to a declared page that is not a redirection. *)
Theorem App_guarded (app : app_state) (path : string) :
  let '(links, shown) := App app path in
  (shown = LoginForm <-> loginToken app = ""%string) /\
  (loginToken app = ""%string -> links = []) /\
  (loginToken app <> ""%string ->
   Forall (fun l => exists e, RightPane app ("/" +:+ l.1) = LoggedIn (Some e) /\
                              forall to, e <> Navigate to) links).
Proof.
  unfold App, RightPane, Navigation, isLoggedIn. destruct (loginToken app) as [|c t] eqn:E; cbn.
  - done.
  - split_and!; [split; done|done|]. intros _. repeat constructor; eexists; split; done.
Qed.

(** Whatever the user selects, onChange finds the type. *)
Lemma SelectRr_onChange filter o : o ∈ SelectRr_options filter -> is_Some (select_change o.1).
Proof.
  unfold SelectRr_options. rewrite elem_of_cons, list_elem_of_fmap. intros [->|(name & -> & Hn)]; [by eexists|].
  apply select_types_elem in Hn as (_ & t & Ht & _). unfold select_change. cbn [fst]. destruct (String.eqb name "select"); [by eexists|].
  rewrite Ht. by eexists.
Qed.

Lemma url_decode_plain (s : string) :
  has_char "+" s = false -> has_char "%" s = false -> url_decode s = s.
Proof.
  unfold url_decode. intros Hp. assert (plus_to_space s = s) as ->.
  { revert Hp. induction s as [|c s IH]; [done|]. cbn. intros [H1 H2]%orb_false_iff.
    rewrite H1. by rewrite IH. }
  induction s as [|c s IH]; [done|]. cbn [has_char]. intros [H1 H2]%orb_false_iff.
  cbn [has_char] in Hp. apply orb_false_iff in Hp as [_ Hp].
  assert (percent_decode (String c s) = String c (percent_decode s)) as ->; [|by rewrite IH].
  apply Ascii.eqb_neq in H1. destruct c as [[] [] [] [] [] [] [] []]; done.
Qed.

Lemma before_hash_plain (s : string) : has_char "#" s = false -> before_hash s = s.
Proof.
  induction s as [|c s IH]; [done|]. cbn. intros [H1 H2]%orb_false_iff. rewrite H1. by rewrite IH.
Qed.

(** The Manage link of every row of the zone list leads to the page of
    that row's zone: the query argument z read from the link is the name,
    for names without characters that mean something in a query. *)
Theorem manage_link_zone (y : ListZones.sys) rows controls dialog (row : ListZones.zone_row) :
  ListZones.render y = ListZones.Table rows controls dialog -> row ∈ rows ->
  Forall (fun c => has_char c (ListZones.zr_name row) = false) ["&"; "+"; "%"; "#"]%char ->
  zone_of_link (ListZones.zr_link row) = Some (ListZones.zr_name row).
Proof.
  intros Hr Hrow Hc. unfold ListZones.render in Hr.
  destruct (error_set _); [done|]. destruct (ListZones.zones _) as [zs|]; [|done].
  injection Hr as <- _ _. apply elem_of_lookup_imap in Hrow as (i & name & -> & _).
  cbn [ListZones.zr_name ListZones.zr_link] in *.
  inversion Hc as [|? ? H1 Hc1]; subst. inversion Hc1 as [|? ? H2 Hc2]; subst.
  inversion Hc2 as [|? ? H3 Hc3]; subst. inversion Hc3 as [|? ? H4 _]; subst.
  unfold zone_of_link, search_of. rewrite before_hash_plain by by rewrite has_char_app, H4.
  change ("rr?z=" +:+ name)%string with ("rr" +:+ String "?" ("z=" +:+ name))%string.
  rewrite query_part_app; [|done|by right; eexists].
  unfold search_params. rewrite split_on_plain by by rewrite has_char_app, H1.
  change ("z=" +:+ name)%string with ("z" +:+ String "=" name)%string.
  cbn [List.filter]. rewrite string_app_cons. cbn [String.eqb negb].
  rewrite <- string_app_cons. cbn [fmap list_fmap].
  rewrite cut_at_app by done. cbn [fst snd]. by rewrite (url_decode_plain name).
Qed.

(** The state of a boundary after a series of renders of its children. *)
Definition boundary_after {A} (b : boundary) (fallback : A) (renders : list (option A)) : boundary :=
  foldl (fun s c => fst (boundary_render s c fallback)) b renders.

Lemma boundary_after_error {A} (b : boundary) (fallback : A) renders :
  hasError (boundary_after b fallback renders)
  = hasError b || existsb (fun c => match c with None => true | _ => false end) renders.
Proof.
  unfold boundary_after. revert b. induction renders as [|c renders IH]; intros b; [by rewrite orb_false_r|].
  cbn [foldl existsb]. rewrite IH. unfold boundary_render. destruct b as [[]]; [done|]. by destruct c.
Qed.

(** An exception of the zone list stays inside its boundary and stays
    there for good: from the render that threw on, whatever the list renders
    later, the dashboard shows "Something went wrong" in the place of the list,
    and the rest of the dashboard is as without the exception; likewise for
    the page of a zone, whose heading keeps the zone's name. *)
Theorem ErrorBoundary_final (renders : list (option markup)) (zone : option string) (list : option markup) :
  existsb (fun c => match c with None => true | _ => false end) renders = true ->
  let b := boundary_after (Boundary false) went_wrong renders in
  Dashboard_render b list
  = (b, Fragment [Element "h1" [Text "Dashboard"]; Element "div" [TenantStats; LatestEvents]; went_wrong]) /\
  snd (ResourceRecords_render zone b list)
  = Fragment [Element "h2" [Text "Managing zone "; Element "span" [Text (default "" zone)]]; went_wrong]%string.
Proof.
  intros H. cbv zeta. assert (Hb := boundary_after_error (Boundary false) went_wrong renders).
  rewrite H in Hb. unfold Dashboard_render, ResourceRecords_render, Zones_render, boundary_render. by rewrite Hb.
Qed.

Module ScreensDemo.
Definition demo_sys : ListZones.sys :=
  ListZones.Sys (ListZones.setZones (Some ["example.com"; "a-example.com"]%string) ListZones.init)
    [] [] ["example.com"; "a-example.com"]%string [].

Lemma manage_link_zone_witness : zone_of_link "rr?z=a-example.com" = Some "a-example.com"%string.
Proof.
  refine (manage_link_zone demo_sys _ _ _
            (ListZones.ZoneRow "a-example.com" "rr?z=a-example.com" (Some "a-example.com"%string)) eq_refl _ _).
  - apply elem_of_cons. right. apply elem_of_cons. by left.
  - repeat constructor.
Defined.

Lemma ErrorBoundary_final_witness :
  snd (ResourceRecords_render (Some "example.com"%string)
         (boundary_after (Boundary false) went_wrong [Some (Text "table"); None]) (Some (Text "table")))
  = Fragment [Element "h2" [Text "Managing zone "; Element "span" [Text "example.com"]]; went_wrong]%string.
Proof.
  exact (proj2 (ErrorBoundary_final [Some (Text "table"); None] (Some "example.com"%string) (Some (Text "table")) eq_refl)).
Defined.
End ScreensDemo.
